(* ===== verification/_CoqProject ===== *)
-Q . S2P
Prelude.v
PyText.v
Authz.v
Policy.v
Store.v
AuditLog.v
Trail.v
AcademicRepo.v
AcademicDelete.v
EventRepo.v
Demo.v
AcademicSvc.v
Structure.v
School.v
World.v
UserRepo.v
Provision.v
ControlPlane.v
Membership.v
Session.v
Login.v
Refresh.v
Interleaving.v
Identify.v
Caller.v
Registration.v
Onboarding.v
UserAdmin.v
Operators.v
Health.v
ImportFile.v
Reports.v
Import.v
Rollover.v
Placement.v
EventRules.v
EventLifecycle.v
Resources.v
EventSvc.v
Enrollment.v
Listings.v
Family.v
EventsApi.v
StudentsApi.v
Account.v
Keycloak.v
InviteAccount.v
