(* ===== verification/Prelude.v ===== *)
(** * SAMS backend: a verification development (root file)

    SAMS is a multi-tenant school administration backend (FastAPI, asyncpg,
    PostgreSQL). A tenant is a school with its own database
    (src/app/core/database.py); a control plane holds identities, memberships,
    invitations and tokens. A request is identified by [get_current_user]
    (src/app/core/dependencies.py) and reaches a router
    (src/app/domains/*/router.py), which checks roles and turns exceptions
    into HTTP statuses; the router calls a service
    (src/app/domains/*/service.py), which decides; the service calls a
    repository (src/app/domains/tenant/*_repository.py), which runs SQL.

    ** How the program is modelled

    A coroutine is a function of the monad [M] below: from a state to a
    result, or an exception, and the state it leaves. On one school the state
    is [Store.TenantDB]: one finite map from primary keys to rows per table, a
    list for the append-only logs. On the platform it is [World.World]: the
    tables of the control plane, one [TenantDB] per school, the pools this
    process has opened and its membership cache; [in_school] runs a
    computation on one school, [with_school] opens the school first. The
    writes made before an exception stay, unless [transaction] (an asyncpg
    transaction) rolls them back. Foreign keys, CHECK and UNIQUE constraints,
    column widths and ON DELETE rules that the statements can run into are
    tests that raise [DatabaseError]. Timestamps come from a clock, serial
    keys from a counter that a rollback does not reset, uuids from a counter
    too. Money is an integer in units of 10^-4, the scale of the NUMERIC(14,4)
    columns: the code computes with floats, which agree with it on amounts of
    at most four decimals and fewer than fifteen digits. Path and payload ids
    that FastAPI parses as [int] are integers, assumed to fit BIGINT; the id
    of the caller is a [pyid] and goes through [parse_id], or through the
    [parse_id] of user_repository.py, which strips its text
    ([UserRepo.user_parse_id]), as in the code. Ids that the database draws as
    UUIDs are numbers of the same counter.

    Requests run one after the other, except in Interleaving, where the
    statements of requests that exchange tokens interleave.

    Code that is not in the repository is a parameter: password hashing and
    its verification, SHA-256 and HMAC, the random tokens, the text of a
    uuid, the order in which Python iterates a set of strings, the row a
    LIMIT 1 without ORDER BY picks, the verification of bearer tokens, Fernet
    (with its round trip as a hypothesis), the workbook reader openpyxl, the
    time zone database, the configured invitation codes, and the answers of
    Keycloak and OPA. Dependencies of an endpoint that ask OPA
    ([require_permission], modelled in Policy) have run when the endpoint
    starts.

    ** The files, bottom up

    - Prelude (this file): exceptions, the monad, its weakest-precondition
      logic ([wp]), invariants ([preserves]), read-only computations
      ([readonly]), the tactics [wp_simpl], [wp_steps], [preserve], record
      update.
    - PyText: the Python string and integer functions the code uses
      ([str.strip], [isdigit], [int], [uuid.UUID]), [parse_id] and
      [_derive_section_label] (tenant_repository.py).
    - Authz: [authz.require] (src/app/core/authz.py), [CurrentUser.has_role],
      [has_any_role], [require_selected_tenant], [VALID_ROLES], the
      permission catalog, [SchoolService._require_admin].
    - Policy: the Rego policy (src/policies/school_policy.rego) in its action
      mode, the client that asks OPA (src/app/core/opa.py),
      [CurrentUser.can] and [require_permission].
    - Store: rows, tables, constraints, the SQL primitives of a school.
    - AuditLog, Trail: [AuditService] and [AuditRepository]; the endpoint
      that reads the log page by page (src/app/domains/audit/).
    - AcademicRepo, AcademicDelete, AcademicSvc, Placement: levels, classes,
      years and placements, the deletions with their cascades, the role gates
      of [TenantService], sequences of placements.
    - Structure, School: the whole academic structure, read and saved; the
      school profile, campuses, contacts, activation, the gate
      [require_tenant_live] (src/app/domains/school/).
    - World, Provision, UserRepo, ControlPlane, Membership: the platform; the
      opening of a school; [UserRepository]; [ControlPlaneRepository] with
      its invariants and the life cycle of a membership; the data steps of a
      process that starts.
    - Session, Login, Refresh, Interleaving: login, school selection, refresh
      rotation and password change of [AuthService], and what they guarantee
      in sequence and interleaved.
    - Identify, Caller: [get_current_user] with the accounts it provisions,
      and what a request can make it answer.
    - Registration, Onboarding, UserAdmin, Operators: invitations,
      registration, the administration of users, and where administrators
      and operators come from.
    - Health: health records, their masks and endpoints.
    - ImportFile, Import: the CSV parser and the numeric conversions of the
      import of grades and classes; preview and commit.
    - Reports: the analytics domain and its CSV export.
    - Rollover: the year rollover, from the plan to the commit.
    - EventRepo, EventRules, EventLifecycle, Resources, EventSvc, EventsApi:
      trips. The rows and queries; who may read, edit, decide and publish;
      the state machine [transition_event]; the resource lines and their
      costs; the services and every endpoint of the events and notifications
      routers.
    - Enrollment, Listings, Family: enrollments, approvals, cancellations,
      payments; the lists of people and enrollments and who sees what; the
      overview of a family over all its schools (src/app/domains/family/).
    - StudentsApi, Account: the endpoints of the students router and of the
      account part of the auth router.
    - Keycloak: the administration client of the identity server
      (src/app/core/keycloak_admin.py), as conversations with any server.
    - InviteAccount: the client inside the invitation service, composed with
      the invitation itself; the organization of a new school.
    - Demo: one small concrete school, on which the witnesses evaluate.

    ** What the theorems show

    - Roles (Authz, Policy): no permission string makes its holder an
      administrator; the two in-process gates answer alike; an outage of OPA
      changes no decision on the roles both sides know.
    - Sessions (Login, Refresh, Interleaving): a session names a school whose
      own store accepted the password; a refresh token works once and its
      reuse closes its family; a selection token is spent once even when
      requests interleave.
    - Identification (Caller): the school is never guessed, a switch replaces
      the roles, a suspended member is refused (platform operators aside).
    - People (Membership, Registration, Onboarding, Operators, UserAdmin,
      Account): memberships follow their life cycle; invitations are used at
      most as often as they allow; administrators come from invitations,
      operators from designated emails; a deletion removes exactly what it
      names; requests on the own account touch nobody else's.
    - Schools (Provision, School, Structure, Import): opening a school only
      adds what is missing; activation is permanent, and with it the school
      code and, once money is on record, the currency; saving the structure
      is all or nothing, but a blank system lifts the curriculum lock; an
      applied row of an import writes exactly its cells, and an import only
      grows the structure.
    - Placement and Rollover: the newest history row of a student is the
      class the student is in; a class or level with enrollments is never
      deleted; the plan of a rollover has one correct line per student, and a
      commit does what the lines say or nothing.
    - Trips: [transition_event] refines a three-state life cycle; a trip is
      published only after an approval, and to exactly its audience; drafts
      are private; the cost of a
      line is its unit price times its quantity.
    - Enrollments (Enrollment, Listings, Family): what each request does on
      every branch, the order of approvals, one enrollment per student and
      event; everybody lists exactly what they may see; the overview shows
      every school of a family and only its own children.
    - Households (EventsApi, StudentsApi): parents, students and pending
      accounts change no trip and no part of the school's structure, whatever
      they send; through the whole students router they change enrollments
      and their payments only.
    - Identity server (Keycloak, InviteAccount): whatever it answers, passwords, roles,
      memberships and deletions stay with the accounts its own answers showed
      for the address asked for, a reconciliation of organizations that ends
      normally reports what it saw, an
      invited account joins the organization of exactly its school.
    - Records and reports (Health, Reports, AuditLog, Trail): health records
      read back, endpoints show masks; the CSV export of a school report is
      its classes with their head counts; the audit
      log is append-only and paging through it ends with every entry read.
    - Some theorems state what the code does against its own comments:
      [submit_publishes_silently], [event_teacher_decision_always_fails],
      [priced_enrollment_loses_its_payment], [selection_refuses_a_new_school].

    ** Bounds and fuel

    Every function is structurally recursive on its input list; the parser of
    the import reads its characters one by one, and has no fuel. The pages of
    the audit log are read with a number of pages, which [Trail] shows to be
    enough. [INTEGER] columns are checked against 32 bits, query parameters
    for user ids against 64 bits, VARCHAR columns against their length in
    code points; an import has at most 2000 rows and 5 MB. Letters and digits
    are those of ASCII, names are ordered as in the C collation, and a SELECT
    without ORDER BY answers in the order of the keys; no theorem depends on
    that order.

    ** Not modelled

    What Keycloak answers to the rest of the program, where it matters, is a
    parameter there (whether the provisioning of a user or a school fails),
    which InviteAccount instantiates; the mail client
    (src/app/utils/email.py); the policy's HTTP mode, which no code asks for;
    lost connections and time limits; the DDL
    and the migration scripts themselves (their constraints are in Store and
    World); the CSV export of the audit log; logging, configuration, the
    application shell, the request and response schemas but for the
    validators the models name; the seed and one-off scripts. *)
From stdpp Require Export base gmap strings list sorting fin_maps pretty.
From Stdlib Require Export ZArith Lia.

#[export] Set Default Proof Using "Type".
#[global] Open Scope string_scope.
#[global] Open Scope list_scope.
#[global] Open Scope Z_scope.

(** ** Exceptions of the Python code

    [PermissionError] and [ValueError] are raised by the services,
    [DatabaseError] stands for every [asyncpg.PostgresError] (a violated
    constraint, a value that does not fit its column), [TypeError] for the
    run-time errors of the interpreter (a subscript on [None], ...), and
    [HTTPException] for the status codes the routers answer with. *)
Inductive exn :=
  | PermissionError (msg : string)
  | ValueError (msg : string)
  | DatabaseError (msg : string)
  | TypeError (msg : string)
  | HTTPException (status : Z) (detail : string).

#[global] Instance exn_eq_dec : EqDecision exn.
Proof. solve_decision. Defined.

(** [str(exc)] *)
Definition exn_text (e : exn) : string :=
  match e with
  | PermissionError m | ValueError m | DatabaseError m | TypeError m => m
  | HTTPException status d => pretty status +:+ ": " +:+ d
  end.

(** [x["key"]] where [x] is [None]. *)
Definition none_error : exn := TypeError "'NoneType' object is not subscriptable".

Inductive result (A : Type) :=
  | Ok (a : A)
  | Raise (e : exn).
Arguments Ok {A} a.
Arguments Raise {A} e.

#[global] Instance result_eq_dec {A} `{EqDecision A} : EqDecision (result A).
Proof. solve_decision. Defined.

(** ** The state and exception monad

    A Python coroutine that reads and writes the tenant database is a
    function from the database to a result and the database it leaves: an
    exception keeps the writes made before it, unless a transaction rolls
    them back. *)
Definition M (S A : Type) : Type := S → result A * S.

Section monad.
Context {S : Type}.

#[global] Instance M_ret : MRet (M S) := λ A a s, (Ok a, s).
#[global] Instance M_bind : MBind (M S) := λ A B k m s,
  match m s with
  | (Ok a, s') => k a s'
  | (Raise e, s') => (Raise e, s')
  end.

Definition raise {A} (e : exn) : M S A := λ s, (Raise e, s).
Definition gets {A} (f : S → A) : M S A := λ s, (Ok (f s), s).
Definition modify (f : S → S) : M S unit := λ s, (Ok tt, f s).
Definition guard_or (b : bool) (e : exn) : M S unit :=
  if b then mret tt else raise e.
Definition from_option_or {A} (o : option A) (e : exn) : M S A :=
  match o with Some a => mret a | None => raise e end.

(** [for x in l: body] *)
Fixpoint for_each {A} (l : list A) (body : A → M S unit) : M S unit :=
  match l with
  | [] => mret tt
  | x :: l' => body x ;; for_each l' body
  end.

(** [[body(x) for x in l]] *)
Fixpoint map_each {A B} (l : list A) (body : A → M S B) : M S (list B) :=
  match l with
  | [] => mret []
  | x :: l' => y ← body x; ys ← map_each l' body; mret (y :: ys)
  end.

(** [try: m except ...: handler]; the writes of [m] stay. *)
Definition try_except {A} (m : M S A) (handler : exn → M S A) : M S A := λ s,
  match m s with
  | (Ok a, s') => (Ok a, s')
  | (Raise e, s') => handler e s'
  end.
End monad.

(** ** Transactions

    [rollback before after] is the state after an aborted transaction that
    started in [before] and had reached [after]. *)
Class Rollback (S : Type) := rollback : S → S → S.

Definition transaction {S} `{Rollback S} {A} (m : M S A) : M S A := λ s,
  match m s with
  | (Ok a, s') => (Ok a, s')
  | (Raise e, s') => (Raise e, rollback s s')
  end.

(** ** Program logic: weakest preconditions over both outcomes *)
Definition wp {S A} (m : M S A) (Q : A → S → Prop) (E : exn → S → Prop)
    (s : S) : Prop :=
  match m s with
  | (Ok a, s') => Q a s'
  | (Raise e, s') => E e s'
  end.

Section wp.
Context {S : Type}.
Implicit Types s : S.

Lemma wp_intro {A} (m : M S A) Q E s :
  (∀ a s', m s = (Ok a, s') → Q a s') →
  (∀ e s', m s = (Raise e, s') → E e s') → wp m Q E s.
Proof. unfold wp. destruct (m s) as [[a|e] s']; eauto. Qed.

Lemma wp_Ok {A} (m : M S A) Q E s a s' :
  wp m Q E s → m s = (Ok a, s') → Q a s'.
Proof. unfold wp. intros H Hm. by rewrite Hm in H. Qed.

Lemma wp_Raise {A} (m : M S A) Q E s e s' :
  wp m Q E s → m s = (Raise e, s') → E e s'.
Proof. unfold wp. intros H Hm. by rewrite Hm in H. Qed.

Lemma wp_mono {A} (m : M S A) (Q Q' : A → S → Prop) (E E' : exn → S → Prop) s :
  wp m Q E s → (∀ a s', Q a s' → Q' a s') → (∀ e s', E e s' → E' e s') →
  wp m Q' E' s.
Proof. unfold wp. destruct (m s) as [[a|e] s']; eauto. Qed.

Lemma wp_bind {A B} (m : M S A) (k : A → M S B) Q E s :
  wp (m ≫= k) Q E s ↔ wp m (λ a s', wp (k a) Q E s') E s.
Proof. unfold wp, mbind, M_bind. by destruct (m s) as [[a|e] s']. Qed.

Lemma wp_ret {A} (a : A) (Q : A → S → Prop) E s :
  wp (mret a) Q E s ↔ Q a s.
Proof. done. Qed.

Lemma wp_raise {A} e (Q : A → S → Prop) (E : exn → S → Prop) s :
  wp (raise e) Q E s ↔ E e s.
Proof. done. Qed.

Lemma wp_gets {A} (f : S → A) (Q : A → S → Prop) E s :
  wp (gets f) Q E s ↔ Q (f s) s.
Proof. done. Qed.

Lemma wp_modify f (Q : unit → S → Prop) E s :
  wp (modify f) Q E s ↔ Q tt (f s).
Proof. done. Qed.

Lemma wp_guard_or b e (Q : unit → S → Prop) (E : exn → S → Prop) s :
  wp (guard_or b e) Q E s ↔ (if b then Q tt s else E e s).
Proof. by destruct b. Qed.

Lemma wp_from_option_or {A} (o : option A) e (Q : A → S → Prop)
    (E : exn → S → Prop) s :
  wp (from_option_or o e) Q E s ↔
  match o with Some a => Q a s | None => E e s end.
Proof. by destruct o. Qed.

Lemma wp_try_except {A} (m : M S A) h Q E s :
  wp (try_except m h) Q E s ↔ wp m Q (λ e s', wp (h e) Q E s') s.
Proof. unfold wp, try_except. by destruct (m s) as [[a|e] s']. Qed.

Lemma wp_transaction `{Rollback S} {A} (m : M S A) Q E s :
  wp (transaction m) Q E s ↔ wp m Q (λ e s', E e (rollback s s')) s.
Proof. unfold wp, transaction. by destruct (m s) as [[a|e] s']. Qed.

(** Loops: [I] is indexed by the elements already processed. *)
Lemma wp_for_each_prefix {A} (l : list A) (f : A → M S unit)
    (I : list A → S → Prop) (E : exn → S → Prop) s :
  I [] s →
  (∀ seen x todo s, l = seen ++ x :: todo → I seen s →
     wp (f x) (λ _, I (seen ++ [x])) E s) →
  wp (for_each l f) (λ _, I l) E s.
Proof.
  intros HI Hstep.
  assert (∀ todo seen s, l = seen ++ todo → I seen s →
    wp (for_each todo f) (λ _, I l) E s) as Hgen.
  { induction todo as [|x todo IH]; intros seen s0 -> HI0; simpl.
    - by rewrite wp_ret, app_nil_r in *.
    - rewrite wp_bind. eapply wp_mono; [by eapply Hstep| |done].
      intros [] s1 HI1. apply (IH (seen ++ [x])); [|done].
      by rewrite <-app_assoc. }
  by apply (Hgen l []).
Qed.

Lemma wp_for_each {A} (l : list A) (f : A → M S unit)
    (I : S → Prop) (E : exn → S → Prop) s :
  I s → (∀ x s, x ∈ l → I s → wp (f x) (λ _, I) E s) →
  wp (for_each l f) (λ _, I) E s.
Proof.
  intros HI Hstep. apply (wp_for_each_prefix l f (λ _, I) E); [done|].
  intros seen x todo s0 -> HI0. apply Hstep; [|done]. set_solver.
Qed.
End wp.

(** ** Invariants: a property kept on both outcomes *)
Definition preserves {S A} (I : S → Prop) (m : M S A) : Prop :=
  ∀ s, I s → wp m (λ _, I) (λ _, I) s.

Create HintDb pres discriminated.

Section preserves.
Context {S : Type} (I : S → Prop).

Lemma preserves_ret {A} (a : A) : preserves I (mret a : M S A).
Proof. by intros s. Qed.
Lemma preserves_raise {A} e : preserves I (raise e : M S A).
Proof. by intros s. Qed.
Lemma preserves_gets {A} (f : S → A) : preserves I (gets f).
Proof. by intros s. Qed.
Lemma preserves_modify f : (∀ s, I s → I (f s)) → preserves I (modify f).
Proof. intros H s Hs. by apply H. Qed.
Lemma preserves_guard_or b e : preserves I (guard_or b e : M S unit).
Proof. by destruct b; intros s. Qed.
Lemma preserves_from_option_or {A} (o : option A) e :
  preserves I (from_option_or o e : M S A).
Proof. by destruct o; intros s. Qed.

Lemma preserves_bind {A B} (m : M S A) (k : A → M S B) :
  preserves I m → (∀ a, preserves I (k a)) → preserves I (m ≫= k).
Proof.
  intros Hm Hk s Hs. rewrite wp_bind.
  eapply wp_mono; [by apply Hm| |done]. intros a s' Hs'. by apply Hk.
Qed.

Lemma preserves_for_each {A} (l : list A) (f : A → M S unit) :
  (∀ x, x ∈ l → preserves I (f x)) → preserves I (for_each l f).
Proof. intros Hf s Hs. apply wp_for_each; [done|]. intros x s' Hx. by apply Hf. Qed.

Lemma preserves_map_each {A B} (l : list A) (f : A → M S B) :
  (∀ x, x ∈ l → preserves I (f x)) → preserves I (map_each l f).
Proof.
  induction l as [|x l IH]; intros Hf; simpl; [apply preserves_ret|].
  apply preserves_bind; [apply Hf; set_solver|]. intros y.
  apply preserves_bind; [apply IH; set_solver|]. intros ys. apply preserves_ret.
Qed.

Lemma preserves_try_except {A} (m : M S A) h :
  preserves I m → (∀ e, preserves I (h e)) → preserves I (try_except m h).
Proof.
  intros Hm Hh s Hs. rewrite wp_try_except.
  eapply wp_mono; [by apply Hm|done|]. intros e s' Hs'. by apply Hh.
Qed.

Lemma preserves_transaction `{Rollback S} {A} (m : M S A) :
  (∀ s s', I s → I s' → I (rollback s s')) →
  preserves I m → preserves I (transaction m).
Proof.
  intros Hr Hm s Hs. rewrite wp_transaction.
  eapply wp_mono; [by apply Hm|done|]. intros e s' Hs'. by apply Hr.
Qed.

Lemma preserves_if {A} (b : bool) (m1 m2 : M S A) :
  preserves I m1 → preserves I m2 → preserves I (if b then m1 else m2).
Proof. by destruct b. Qed.

Lemma preserves_option {A B} (o : option A) (m1 : A → M S B) m2 :
  (∀ a, preserves I (m1 a)) → preserves I m2 →
  preserves I (match o with Some a => m1 a | None => m2 end).
Proof. destruct o; auto. Qed.
End preserves.

#[export] Hint Resolve preserves_ret preserves_raise preserves_gets
  preserves_guard_or preserves_from_option_or preserves_bind
  preserves_for_each preserves_map_each preserves_if preserves_option : pres.

(** A computation that never changes the state (a SELECT, a check). *)
Definition readonly {S A} (m : M S A) : Prop := ∀ s, preserves (λ s', s' = s) m.

Lemma readonly_run {S A} (m : M S A) s : readonly m → (m s).2 = s.
Proof.
  intros H. specialize (H s s eq_refl). unfold wp in H.
  by destruct (m s) as [[a|e] s'].
Qed.

Lemma wp_readonly {S A} (m : M S A) (Q : A → S → Prop) (E : exn → S → Prop) s :
  readonly m → (∀ a, Q a s) → (∀ e, E e s) → wp m Q E s.
Proof.
  intros Hm HQ HE. eapply wp_mono; [by apply (Hm s s)| |].
  - by intros a s' ->.
  - by intros e s' ->.
Qed.

Lemma wp_conj {S A} (m : M S A) (Q1 Q2 : A → S → Prop) (E1 E2 : exn → S → Prop) s :
  wp m Q1 E1 s → wp m Q2 E2 s →
  wp m (λ a s', Q1 a s' ∧ Q2 a s') (λ e s', E1 e s' ∧ E2 e s') s.
Proof. unfold wp. by destruct (m s) as [[a|e] s']. Qed.

Lemma preserves_run {S A} (I : S → Prop) (m : M S A) s : preserves I m → I s → I (m s).2.
Proof. intros Hm Hs. specialize (Hm s Hs). unfold wp in Hm. by destruct (m s) as [[a|e] s']. Qed.

Lemma head_elem {A} (l : list A) x : head l = Some x → x ∈ l.
Proof. destruct l; [done|]. intros [= ->]. left. Qed.

(** A run that answers, from its computed verdict. *)
Lemma run_ok {S A} (m : M S A) s :
  match (m s).1 with Ok _ => true | Raise _ => false end = true → ∃ a s', m s = (Ok a, s').
Proof. destruct (m s) as [[a|e] s']; [eauto|done]. Defined.

Lemma wp_ok {S A} (m : M S A) Q E s a : wp m Q E s → (m s).1 = Ok a → Q a (m s).2.
Proof. unfold wp. destruct (m s) as [[b|e] s']; [|done]. by intros H [= ->]. Qed.

(** ** Tactics *)

(** Unfolds the program logic over the monad's operations. *)
Ltac wp_simpl :=
  repeat first
    [ rewrite wp_bind | rewrite wp_ret | rewrite wp_raise | rewrite wp_gets
    | rewrite wp_modify | rewrite wp_guard_or | rewrite wp_from_option_or
    | rewrite wp_transaction | rewrite wp_try_except ].

(** Steps through a computation: unfold the logic, split on the next test. *)
Ltac wp_steps :=
  repeat (wp_simpl; simpl;
    match goal with
    | |- _ => progress wp_simpl
    | |- wp (if ?b then _ else _) _ _ _ => destruct b eqn:?
    | |- wp (match ?o with Some _ => _ | None => _ end) _ _ _ => destruct o eqn:?
    | |- context [match ?o with Some _ => _ | None => _ end] =>
        lazymatch o with context [match _ with _ => _ end] => fail | _ => destruct o eqn:? end
    | |- if ?b then _ else _ => destruct b eqn:?
    end).

(** Proves [preserves I m] from the hints of the components. *)
Ltac preserve := repeat first
  [ solve [auto with pres]
  | apply preserves_bind; [|intros ?]
  | apply preserves_for_each; intros ? _
  | apply preserves_map_each; intros ? _
  | apply preserves_try_except; [|intros ?]
  | apply preserves_if
  | apply preserves_option; [intros ?|]
  | case_match ].

(** ** Record update

    [r <| f := v |>] and [r <| f ::= g |>] on any record with a [Settable]
    instance (the eta-expanded constructor). *)
Class Settable (R : Type) := settable_eta : R → R.
Class Setter {R T} (proj : R → T) := set_field : (T → T) → R → R.
Arguments set_field {R T} proj {_} _ _.

Ltac solve_setter :=
  match goal with
  | |- @Setter ?R ?T ?proj =>
      let e := eval cbv delta [settable_eta] in (_ : Settable R) in
      let e := eval hnf in e in
      lazymatch (eval pattern proj in e) with
      | ?ctx _ => let r := eval cbv beta in (λ (g : T → T) (x : R), ctx (λ y, g (proj y)) x) in exact r
      end
  end.
#[global] Hint Extern 0 (Setter _) => solve_setter : typeclass_instances.

Declare Scope record_scope.
Notation "r <| f := v |>" := (set_field f (λ _, v) r)
  (at level 1, f at next level, left associativity) : record_scope.
Notation "r <| f ::= g |>" := (set_field f g r)
  (at level 1, f at next level, left associativity) : record_scope.
#[global] Open Scope record_scope.
