(* ===== verification/PyText.v ===== *)
(** * Python text and identifiers

    The string operations the source uses ([str.strip], [str.lower],
    [str.isdigit], [int(...)], [uuid.UUID(...)]), [parse_id] and
    [_derive_section_label] of src/app/domains/tenant/tenant_repository.py.
    Strings are lists of 8-bit characters; whitespace, digits and case are
    those of ASCII, on which [str] and PostgreSQL agree. *)
From Stdlib Require Import Ascii String.
From S2P Require Import Prelude.
#[local] Open Scope list_scope.
#[local] Open Scope Z_scope.

Definition chars : string → list ascii := list_ascii_of_string.
Definition text : list ascii → string := string_of_list_ascii.

Definition code (c : ascii) : Z := Z.of_N (N_of_ascii c).
Definition of_code (z : Z) : ascii := ascii_of_N (Z.to_N z).

(** [str.isspace] on one ASCII character; the [\s] of [re]. *)
Definition is_space (c : ascii) : bool :=
  ((9 <=? code c) && (code c <=? 13)) || ((28 <=? code c) && (code c <=? 32)).
Definition is_digit (c : ascii) : bool := (48 <=? code c) && (code c <=? 57).
Definition is_upper (c : ascii) : bool := (65 <=? code c) && (code c <=? 90).
Definition is_lower (c : ascii) : bool := (97 <=? code c) && (code c <=? 122).
(** The [\w] of [re]. *)
Definition is_word (c : ascii) : bool :=
  is_digit c || is_upper c || is_lower c || (code c =? 95).
Definition lower_char (c : ascii) : ascii :=
  if is_upper c then of_code (code c + 32) else c.
Definition upper_char (c : ascii) : ascii :=
  if is_lower c then of_code (code c - 32) else c.

Fixpoint drop_while (p : ascii → bool) (l : list ascii) : list ascii :=
  match l with
  | [] => []
  | c :: l' => if p c then drop_while p l' else l
  end.
Definition strip_by (p : ascii → bool) (l : list ascii) : list ascii :=
  rev (drop_while p (rev (drop_while p l))).

Definition str_strip (s : string) : string := text (strip_by is_space (chars s)).
Definition str_lower (s : string) : string := text (map lower_char (chars s)).
Definition str_upper (s : string) : string := text (map upper_char (chars s)).
Definition str_isdigit (s : string) : bool :=
  match chars s with [] => false | l => forallb is_digit l end.
Definition str_len (s : string) : Z := Z.of_nat (List.length (chars s)).

(** ** [int(text, base)] *)
Definition digit_value (c : ascii) : option Z :=
  if is_digit c then Some (code c - 48)
  else if is_upper c then Some (code c - 55)
  else if is_lower c then Some (code c - 87)
  else None.

(** Digits with single underscores between them; [prev] says that a digit
    was just read, so that an underscore may follow. *)
Fixpoint int_digits (base : Z) (prev : bool) (acc : Z) (l : list ascii) : option Z :=
  match l with
  | [] => if prev then Some acc else None
  | c :: l' =>
      if code c =? 95 then (if prev then int_digits base false acc l' else None)
      else match digit_value c with
           | Some d => if d <? base then int_digits base true (acc * base + d) l' else None
           | None => None
           end
  end.

Definition int_unsigned (base : Z) (l : list ascii) : option Z :=
  match l with
  | z :: x :: rest =>
      if (base =? 16) && (code z =? 48) && ((code x =? 120) || (code x =? 88))
      then match rest with
           | u :: rest' =>
               if code u =? 95 then int_digits base false 0 rest'
               else int_digits base false 0 rest
           | [] => None
           end
      else int_digits base false 0 l
  | _ => int_digits base false 0 l
  end.

Definition py_int (base : Z) (s : string) : option Z :=
  match strip_by is_space (chars s) with
  | [] => None
  | c :: l =>
      if code c =? 43 then int_unsigned base l
      else if code c =? 45 then Z.opp <$> int_unsigned base l
      else int_unsigned base (c :: l)
  end.

(** ** Dictionaries *)
(** A [dict] in insertion order: an assignment keeps the key's place. *)
Fixpoint dict_set {A} (k : string) (v : A) (d : list (string * A)) : list (string * A) :=
  match d with
  | [] => [(k, v)]
  | (k', v') :: d' => if bool_decide (k = k') then (k, v) :: d' else (k', v') :: dict_set k v d'
  end.
Definition dict_of {A} (l : list (string * A)) : list (string * A) :=
  fold_left (λ d kv, dict_set kv.1 kv.2 d) l [].
Definition dict_get {A} (k : string) (d : list (string * A)) : option A :=
  snd <$> List.find (λ kv, bool_decide (kv.1 = k)) d.

(** ** [uuid.UUID(text)], as its 128-bit integer *)
Fixpoint is_prefix (p l : list ascii) : bool :=
  match p, l with
  | [], _ => true
  | a :: p', b :: l' => bool_decide (a = b) && is_prefix p' l'
  | _ :: _, [] => false
  end.

(** [p in s] *)
Fixpoint contains (p l : list ascii) : bool :=
  is_prefix p l || match l with [] => false | _ :: l' => contains p l' end.

(** [str.replace(p, "")]: scans left to right, skipping each occurrence. *)
Fixpoint remove_sub (p : list ascii) (skip : nat) (l : list ascii) : list ascii :=
  match l with
  | [] => []
  | c :: l' =>
      match skip with
      | S n => remove_sub p n l'
      | O => if is_prefix p l then remove_sub p (Nat.pred (List.length p)) l'
             else c :: remove_sub p O l'
      end
  end.

Definition py_uuid (s : string) : option Z :=
  let hex := remove_sub (chars "uuid:") O (remove_sub (chars "urn:") O (chars s)) in
  let hex := strip_by (λ c, (code c =? 123) || (code c =? 125)) hex in
  let hex := remove_sub (chars "-") O hex in
  if Nat.eqb (List.length hex) 32
  then match py_int 16 (text hex) with
       | Some n => if (0 <=? n) && (n <? 2 ^ 128) then Some n else None
       | None => None
       end
  else None.

(** ** Identifiers

    An id reaches the code as an [int], a [UUID], a [str] or [None]: the
    request path gives ints, [CurrentUser.id] is a string. *)
Inductive pyid :=
  | PInt (n : Z)
  | PUuid (n : Z)
  | PStr (s : string)
  | PNone.

#[global] Instance pyid_eq_dec : EqDecision pyid.
Proof. solve_decision. Defined.

Definition parse_id (v : pyid) : pyid :=
  match v with
  | PStr s =>
      if bool_decide (s = "") then v
      else if str_isdigit s
      then match py_int 10 s with Some n => PInt n | None => v end
      else match py_uuid s with Some u => PUuid u | None => v end
  | _ => v
  end.

(** [bool(v)] and [int(v)]; [None] where [int] raises. *)
Definition pyid_truthy (v : pyid) : bool :=
  match v with
  | PInt n => negb (n =? 0)
  | PUuid _ => true
  | PStr s => negb (bool_decide (s = ""))
  | PNone => false
  end.

Definition int_of_id (v : pyid) : result Z :=
  match v with
  | PInt n | PUuid n => Ok n
  | PStr s => match py_int 10 s with
              | Some n => Ok n
              | None => Raise (ValueError "invalid literal for int() with base 10")
              end
  | PNone => Raise (TypeError "int() argument must be a string or a number")
  end.

Lemma parse_id_int n : parse_id (PInt n) = PInt n.
Proof. done. Qed.

Lemma parse_id_idempotent v : parse_id (parse_id v) = parse_id v.
Proof.
  destruct v as [| |s|]; try done. simpl.
  case_bool_decide as Hs; [by simpl; rewrite bool_decide_true|].
  destruct (str_isdigit s) eqn:Hd.
  - destruct (py_int 10 s) as [n|] eqn:Hi; simpl; [done|].
    rewrite bool_decide_false by done. by rewrite Hd, Hi.
  - destruct (py_uuid s) as [u|] eqn:Hu; simpl; [done|].
    rewrite bool_decide_false by done. by rewrite Hd, Hu.
Qed.

(** ** [_derive_section_label]

    [re.compile(r"(?:-|\bSection)\s*(\S+)\s*$", re.IGNORECASE).search]: the
    leftmost marker after which exactly one blank-free word remains. *)
Definition no_space (l : list ascii) : bool := forallb (λ c, negb (is_space c)) l.

(** [\s*(\S+)\s*$] right after the marker. *)
Definition label_tail (l : list ascii) : option (list ascii) :=
  let w := strip_by is_space l in
  match w with
  | [] => None
  | _ => if no_space w then Some w else None
  end.

Definition SECTION : list ascii := chars "section".

(** What follows a marker starting at [l], [prev] being the character before. *)
Definition marker_at (prev : option ascii) (l : list ascii) : option (list ascii) :=
  match l with
  | [] => None
  | c :: l' =>
      if code c =? 45 then Some l'
      else if is_prefix SECTION (map lower_char l) &&
              match prev with Some p => negb (is_word p) | None => true end
      then Some (drop 7 l)
      else None
  end.

Fixpoint search_label (prev : option ascii) (l : list ascii) : option (list ascii) :=
  match l with
  | [] => None
  | c :: l' =>
      match marker_at prev l ≫= label_tail with
      | Some w => Some w
      | None => search_label (Some c) l'
      end
  end.

Definition _derive_section_label (name : string) : option string :=
  text <$> search_label None (chars name).

(** *** The label of a cloned class

    Year rollover names a cloned class ["<level> - <section>"]; its label is
    the section again, whatever the level is called. *)
Lemma drop_while_app p l c r :
  p c = false → drop_while p (l ++ c :: r) = drop_while p l ++ c :: r.
Proof.
  intros Hc. induction l as [|a l IH]; simpl; [by rewrite Hc|].
  by destruct (p a).
Qed.

Lemma drop_while_id p l :
  match l with [] => True | c :: _ => p c = false end → drop_while p l = l.
Proof. destruct l; simpl; [done|]. by intros ->. Qed.

Lemma no_space_app l r : no_space (l ++ r) = no_space l && no_space r.
Proof. unfold no_space. by rewrite forallb_app. Qed.

Lemma no_space_rev l : no_space (rev l) = no_space l.
Proof.
  induction l as [|c l IH]; [done|]. simpl.
  rewrite no_space_app, IH. simpl. destruct (negb (is_space c)), (no_space l); done.
Qed.

Lemma drop_while_no_space w r :
  no_space w = true → w ≠ [] → drop_while is_space (w ++ r) = w ++ r.
Proof.
  intros Hw Hne. apply drop_while_id. destruct w as [|c w]; [done|]. simpl in *.
  by destruct (is_space c).
Qed.

Lemma strip_word w : no_space w = true → strip_by is_space w = w.
Proof.
  intros Hw. unfold strip_by. destruct w as [|c w]; [done|].
  rewrite <-(app_nil_r (c :: w)) at 1. rewrite drop_while_no_space, app_nil_r by done.
  rewrite <-(app_nil_r (rev (c :: w))). rewrite drop_while_no_space; rewrite ?app_nil_r.
  - by rewrite rev_involutive.
  - by rewrite no_space_rev.
  - simpl. by destruct (rev w).
Qed.

(** The strip of [g ++ " - " ++ w] keeps the separator. *)
Lemma strip_separator g w :
  no_space w = true → w ≠ [] →
  ∃ d, strip_by is_space (g ++ chars " - " ++ w) = d ++ chars "- " ++ w.
Proof.
  intros Hw Hne. exists (drop_while is_space (g ++ chars " ")).
  unfold strip_by.
  replace (g ++ chars " - " ++ w) with ((g ++ chars " ") ++ "-"%char :: " "%char :: w)
    by (rewrite <-app_assoc; done).
  rewrite drop_while_app by done. rewrite rev_app_distr. simpl.
  rewrite <-!app_assoc. rewrite drop_while_no_space.
  - rewrite !rev_app_distr, rev_involutive. simpl. rewrite rev_involutive.
    by rewrite <-!app_assoc.
  - by rewrite no_space_rev.
  - intros Hr. apply (f_equal (@rev ascii)) in Hr. by rewrite rev_involutive in Hr.
Qed.

Lemma label_tail_separator g w :
  no_space w = true → w ≠ [] → label_tail (g ++ chars " - " ++ w) = None.
Proof.
  intros Hw Hne. unfold label_tail.
  destruct (strip_separator g w Hw Hne) as [d ->].
  destruct (d ++ chars "- " ++ w) eqn:E; [by destruct d|]. rewrite <-E.
  rewrite !no_space_app. simpl. by rewrite andb_false_r.
Qed.

(** A word without blanks matched in [g ++ " " ++ r] lies inside [g]. *)
Lemma is_prefix_inside p g r :
  no_space p = true → is_prefix p (map lower_char (g ++ " "%char :: r)) = true →
  ∃ g', drop (List.length p) (g ++ " "%char :: r) = g' ++ " "%char :: r.
Proof.
  revert g. induction p as [|c p IH]; intros g Hp Hpre; simpl in *; [by exists g|].
  apply andb_prop in Hp as [Hc Hp].
  destruct g as [|a g]; simpl in *; apply andb_prop in Hpre as [Ha Hpre];
    apply bool_decide_eq_true in Ha.
  - subst c. done.
  - by apply IH.
Qed.

Lemma marker_inside prev g w l' :
  no_space w = true → w ≠ [] → g ≠ [] →
  marker_at prev (g ++ chars " - " ++ w) = Some l' → label_tail l' = None.
Proof.
  intros Hw Hne Hg. destruct g as [|c g]; [done|]. unfold marker_at.
  change ((c :: g) ++ chars " - " ++ w) with (c :: (g ++ chars " - " ++ w)). cbv beta iota.
  destruct (code c =? 45).
  - intros [= <-]. by apply label_tail_separator.
  - destruct (is_prefix SECTION _ && _) eqn:E; [|done]. intros [= <-].
    apply andb_prop in E as [E _].
    change (c :: (g ++ chars " - " ++ w)) with ((c :: g) ++ " "%char :: ("-"%char :: " "%char :: w)) in *.
    destruct (is_prefix_inside SECTION _ _ eq_refl E) as [g' Hg'].
    change (List.length SECTION) with 7%nat in Hg'. simpl in Hg'.
    rewrite Hg'.
    by apply (label_tail_separator g').
Qed.

Lemma search_label_separator prev g w :
  no_space w = true → w ≠ [] → search_label prev (g ++ chars " - " ++ w) = Some w.
Proof.
  intros Hw Hne. revert prev. induction g as [|c g IH]; intros prev.
  - simpl. assert (label_tail (" "%char :: w) = Some w) as ->; [|done].
    unfold label_tail. change (strip_by is_space (" "%char :: w)) with (strip_by is_space w).
    rewrite strip_word by done. rewrite Hw. by destruct w.
  - change ((c :: g) ++ chars " - " ++ w) with (c :: (g ++ chars " - " ++ w)).
    cbn [search_label].
    destruct (marker_at prev (c :: (g ++ chars " - " ++ w))) as [l'|] eqn:E; simpl.
    + rewrite (marker_inside prev (c :: g) w l' Hw Hne ltac:(done) E). apply IH.
    + apply IH.
Qed.

Lemma chars_app a b : chars (String.append a b) = chars a ++ chars b.
Proof. induction a as [|c a IH]; [done|]. simpl. by rewrite IH. Qed.

Lemma text_chars s : text (chars s) = s.
Proof. apply string_of_list_ascii_of_string. Qed.

Definition is_section_label (s : string) : bool :=
  no_space (chars s) && negb (bool_decide (s = "")).

(** The section survives the rollover's class name. Year rollover
    names a class it clones "<level> - <section>"; parsing that name gives the
    section back, whatever the level is called (dashes and the word "Section"
    included), for every section label the parser itself can produce: one
    non-empty word without blanks. *)
Lemma derive_section_label_clone grade section :
  is_section_label section = true →
  _derive_section_label (grade +:+ " - " +:+ section) = Some section.
Proof.
  unfold is_section_label. intros [Hs Hne]%andb_prop.
  apply negb_true_iff, bool_decide_eq_false in Hne.
  unfold _derive_section_label. rewrite !chars_app.
  rewrite search_label_separator; simpl; [by rewrite text_chars|done|].
  destruct section; [done|]. by simpl.
Qed.

Lemma derive_section_label_clone_witness :
  _derive_section_label ("Pre-K Section 2" +:+ " - " +:+ "B1") = Some "B1".
Proof. apply derive_section_label_clone. reflexivity. Defined.

(** ** Stripping twice is stripping once *)
Lemma drop_while_head p l : match drop_while p l with [] => True | c :: _ => p c = false end.
Proof. induction l as [|c l IH]; simpl; [done|]. by destruct (p c) eqn:E. Qed.

Lemma drop_while_suffix p l : ∃ pre, l = (pre ++ drop_while p l)%list.
Proof.
  induction l as [|c l [pre IH]]; [by exists []|]. simpl. destruct (p c); [|by exists []].
  exists (c :: pre). simpl. by rewrite <-IH.
Qed.

Lemma strip_by_idem p l : strip_by p (strip_by p l) = strip_by p l.
Proof.
  unfold strip_by. pose proof (drop_while_head p l) as Hd. set (d := drop_while p l) in *.
  pose proof (drop_while_head p (rev d)) as He. set (e := drop_while p (rev d)) in *.
  destruct (drop_while_suffix p (rev d)) as [pre Hpre]. fold e in Hpre.
  rewrite (drop_while_id p (rev e)), rev_involutive, (drop_while_id p e); [done|done|].
  assert (d = (rev e ++ rev pre)%list) as Heq by by rewrite <-rev_app_distr, <-Hpre, rev_involutive.
  rewrite Heq in Hd. by destruct (rev e).
Qed.

Lemma str_strip_idem s : str_strip (str_strip s) = str_strip s.
Proof. unfold str_strip, chars, text. by rewrite list_ascii_of_string_of_list_ascii, strip_by_idem. Qed.

Lemma str_lower_empty s : str_lower s = "" → s = "".
Proof. by destruct s. Qed.
