(* ===== verification/Authz.v ===== *)
(** * Role and permission gates

    The permission catalog (src/app/core/permissions_catalog.json),
    [authz.require] (src/app/core/authz.py), [CurrentUser] and [VALID_ROLES]
    (src/app/core/dependencies.py) and [SchoolService._require_admin]
    (src/app/domains/school/service.py). A Python set of roles is a list read
    up to membership: no gate depends on its order. *)
From S2P Require Import Prelude PyText.

(** ** The catalog *)
Definition PERMISSIONS_admin : list string :=
    ["announcement:manage"; "audit:view"; "billing:audit"; "billing:invoice";
      "billing:view_payment"; "class:assign_teacher"; "class:create"; "class:edit";
      "class:read"; "class:update"; "enrollment:cancel"; "enrollment:read";
      "enrollment:teacher_approve"; "enrollment:view_roster"; "event:archive";
      "event:audience_edit"; "event:audience_predict"; "event:clone"; "event:create";
      "event:delete"; "event:edit"; "event:patch"; "event:propose"; "event:publish";
      "event:read"; "event:review"; "event:submit"; "event:view"; "event:view_draft";
      "feedback:view"; "health:manage"; "health:view"; "level:create"; "level:manage";
      "level:read"; "notification:mark_read"; "notification:read"; "notification:send";
      "parent:read"; "report:view"; "resource:create"; "resource:delete";
      "resource:edit"; "resource:price"; "resource:read"; "resource:set_cost";
      "resource:update"; "resource:view"; "resource_type:create"; "resource_type:read";
      "safety:manage"; "school:read"; "school:write"; "student:create"; "student:read";
      "subsidy:manage"; "teacher:create"; "teacher:read"; "teacher:write";
      "user:create"; "user:delete"; "user:invite"; "user:link"; "user:profile_edit";
      "user:profile_read"; "user:read"; "user:view"].

Definition PERMISSIONS_manager : list string :=
    ["announcement:manage"; "billing:audit"; "billing:invoice"; "billing:pay";
      "billing:refund"; "billing:view_payment"; "class:assign_teacher"; "class:create";
      "class:edit"; "class:read"; "class:update"; "enrollment:read";
      "enrollment:view_roster"; "event:audience_predict"; "event:publish";
      "event:read"; "event:review"; "event:view"; "event:view_draft"; "feedback:view";
      "level:create"; "level:manage"; "level:read"; "notification:mark_read";
      "notification:read"; "notification:send"; "parent:read"; "resource:price";
      "resource:read"; "resource:set_cost"; "resource:view"; "resource_type:read";
      "school:read"; "student:read"; "subsidy:manage"; "teacher:read"; "user:create";
      "user:profile_edit"; "user:profile_read"; "user:read"; "user:view"].

Definition PERMISSIONS_parent : list string :=
    ["billing:pay"; "billing:view_payment"; "enrollment:cancel";
      "enrollment:parent_approve"; "enrollment:read"; "event:read"; "event:view";
      "family:overview_read"; "feedback:create"; "health:manage_child";
      "notification:mark_read"; "notification:read"; "school:read";
      "student:view_linked"; "user:profile_edit"; "user:profile_read"].

Definition PERMISSIONS_school_admin : list string :=
    ["announcement:manage"; "audit:view"; "billing:audit"; "billing:invoice";
      "billing:view_payment"; "class:assign_teacher"; "class:create"; "class:edit";
      "class:read"; "class:update"; "enrollment:cancel"; "enrollment:read";
      "enrollment:teacher_approve"; "enrollment:view_roster"; "event:archive";
      "event:audience_edit"; "event:audience_predict"; "event:clone"; "event:create";
      "event:delete"; "event:edit"; "event:patch"; "event:propose"; "event:publish";
      "event:read"; "event:review"; "event:submit"; "event:view"; "event:view_draft";
      "feedback:view"; "health:manage"; "health:view"; "level:create"; "level:manage";
      "level:read"; "notification:mark_read"; "notification:read"; "notification:send";
      "parent:read"; "report:view"; "resource:create"; "resource:delete";
      "resource:edit"; "resource:price"; "resource:read"; "resource:set_cost";
      "resource:update"; "resource:view"; "resource_type:create"; "resource_type:read";
      "safety:manage"; "school:read"; "school:write"; "student:create"; "student:read";
      "subsidy:manage"; "teacher:create"; "teacher:read"; "teacher:write";
      "user:create"; "user:delete"; "user:invite"; "user:link"; "user:profile_edit";
      "user:profile_read"; "user:read"; "user:view"].

Definition PERMISSIONS_student : list string :=
    ["enrollment:read"; "enrollment:request"; "event:read"; "event:view";
      "feedback:create"; "notification:mark_read"; "notification:read"; "school:read";
      "user:profile_edit"; "user:profile_read"].

Definition PERMISSIONS_super_admin : list string :=
    ["*"].

Definition PERMISSIONS_teacher : list string :=
    ["class:read"; "enrollment:read"; "enrollment:teacher_approve";
      "enrollment:view_roster"; "event:audience_edit"; "event:audience_predict";
      "event:clone"; "event:create"; "event:delete"; "event:edit"; "event:patch";
      "event:propose"; "event:read"; "event:submit"; "event:view"; "event:view_draft";
      "feedback:create"; "feedback:view"; "health:manage"; "health:view"; "level:read";
      "notification:mark_read"; "notification:read"; "resource:create";
      "resource:delete"; "resource:edit"; "resource:read"; "resource:update";
      "resource:view"; "resource_type:create"; "resource_type:read"; "school:read";
      "student:read"; "teacher:read"; "user:profile_edit"; "user:profile_read";
      "user:read"; "user:view"].

Definition COMPOSITE_ROLE_PERMISSIONS (role : string) : option (list string) :=
  if bool_decide (role = "admin") then Some PERMISSIONS_admin
  else if bool_decide (role = "manager") then Some PERMISSIONS_manager
  else if bool_decide (role = "parent") then Some PERMISSIONS_parent
  else if bool_decide (role = "school_admin") then Some PERMISSIONS_school_admin
  else if bool_decide (role = "student") then Some PERMISSIONS_student
  else if bool_decide (role = "super_admin") then Some PERMISSIONS_super_admin
  else if bool_decide (role = "teacher") then Some PERMISSIONS_teacher
  else None.

(** ["r in s"] *)
Definition mem (r : string) (s : list string) : bool := bool_decide (r ∈ s).

Definition composite (r : string) : list string :=
  default [] (COMPOSITE_ROLE_PERMISSIONS r).

(** The roles a caller threads through as [user_role]: a string, a list, or
    nothing. *)
Inductive role_arg :=
  | RNone
  | RStr (s : string)
  | RList (l : list string).

(** ** [authz.require] *)
Definition require (user_role : role_arg) (allowed_roles : list string) : bool :=
  let decide_roles (roles : list string) :=
    if mem "super_admin" roles || mem "*" roles then true
    else
      let roles := if mem "admin" roles then roles ++ ["school_admin"] else roles in
      let expanded_roles := roles ++ concat (map composite roles) in
      existsb (λ r, mem r allowed_roles) expanded_roles in
  match user_role with
  | RNone => false
  | RStr s => if bool_decide (s = "") then false else decide_roles [s]
  | RList l => match l with [] => false | _ => decide_roles l end
  end.

(** [{user_role} if isinstance(user_role, str) else set(user_role)] *)
Definition role_set (user_role : role_arg) : list string :=
  match user_role with RNone => [] | RStr s => [s] | RList l => l end.

(** ** [CurrentUser] *)
Record CurrentUser := {
  cu_id : pyid;
  cu_tenant_id : option string;
  cu_role : string;
  cu_email : string;
  cu_roles : list string;
}.

Definition has_role (u : CurrentUser) (role_name : string) : bool :=
  let roles_set :=
    if bool_decide (cu_role u = "") then cu_roles u else cu_roles u ++ [cu_role u] in
  if mem "super_admin" roles_set || mem "*" roles_set then true
  else if mem role_name ["admin"; "school_admin"]
          && (mem "school_admin" roles_set || mem "admin" roles_set) then true
  else if mem role_name roles_set then true
  else existsb (λ r, mem role_name (composite r)) roles_set.

Definition has_any_role (u : CurrentUser) (role_names : list string) : bool :=
  existsb (has_role u) role_names.

(** The dependency [require_selected_tenant]. *)
Definition require_selected_tenant (u : CurrentUser) : result string :=
  match cu_tenant_id u with
  | Some t => if bool_decide (t = "") then Raise (HTTPException 400 "No school selected.")
              else Ok (str_lower (str_strip t))
  | None => Raise (HTTPException 400 "No school selected.")
  end.

(** ** [VALID_ROLES]: the tokens accepted off a JWT *)
Definition _ROLE_NAMES : list string :=
  ["super_admin"; "school_admin"; "admin"; "administrator"; "manager"; "teacher";
   "event_teacher"; "parent"; "student"; "pending"].

Definition _EXTRA_PERMISSIONS : list string :=
  ["system:write"; "system:read"; "tenant:manage"; "tenant:view"; "academic:direct";
   "academic:view"; "content:create"; "content:publish"].

Definition ROLES_IN_CATALOG : list string :=
  ["admin"; "manager"; "parent"; "school_admin"; "student"; "super_admin"; "teacher"].

Definition has_colon (s : string) : bool := existsb (λ c, code c =? 58) (chars s).

Definition VALID_ROLES : list string :=
  _ROLE_NAMES ++ _EXTRA_PERMISSIONS
  ++ List.filter has_colon (concat (map composite ROLES_IN_CATALOG)).

(** ** [SchoolService._require_admin]: strict membership, no expansion *)
Definition _ADMIN_ROLES : list string := ["school_admin"; "super_admin"; "admin"].

Definition _require_admin (user_role : role_arg) : result unit :=
  let roles := match user_role with
               | RStr s => if bool_decide (s = "") then [] else [s]
               | RList l => l
               | RNone => []
               end in
  if existsb (λ r, mem r _ADMIN_ROLES) roles then Ok tt
  else Raise (PermissionError "Only school_admin or super_admin can manage school setup.").

(** ** What a list of roles grants

    [holds l r]: the specification of both gates, without the order of their
    tests. *)
Definition holds (l : list string) (r : string) : Prop :=
  r ∈ l ∨ ("admin" ∈ l ∧ r = "school_admin") ∨ ∃ c, c ∈ l ∧ r ∈ composite c.

Definition is_super (l : list string) : Prop := "super_admin" ∈ l ∨ "*" ∈ l.

Lemma mem_true r s : mem r s = true ↔ r ∈ s.
Proof. apply bool_decide_eq_true. Qed.

Lemma mem_false r s : mem r s = false ↔ r ∉ s.
Proof. apply bool_decide_eq_false. Qed.

Lemma existsb_mem l s : existsb (λ r, mem r s) l = true ↔ ∃ r, r ∈ l ∧ r ∈ s.
Proof.
  rewrite existsb_exists. setoid_rewrite mem_true. setoid_rewrite list_elem_of_In. done.
Qed.

Lemma is_super_mem l : mem "super_admin" l || mem "*" l = true ↔ is_super l.
Proof. by rewrite orb_true_iff, !mem_true. Qed.

#[global] Instance is_super_dec l : Decision (is_super l).
Proof. unfold is_super. apply _. Defined.

(** The catalog gives [admin] and [school_admin] the same permissions. *)
Lemma composite_admin : composite "school_admin" = composite "admin".
Proof. done. Qed.

Lemma elem_of_composites r l :
  r ∈ concat (map composite l) ↔ ∃ c, c ∈ l ∧ r ∈ composite c.
Proof.
  induction l as [|c l IH]; simpl; [set_solver|].
  rewrite elem_of_app, IH. set_solver.
Qed.

Lemma expanded_holds l r :
  let l' := if mem "admin" l then l ++ ["school_admin"] else l in
  r ∈ l' ++ concat (map composite l') ↔ holds l r.
Proof.
  cbv zeta. rewrite elem_of_app, elem_of_composites. unfold holds.
  destruct (mem "admin" l) eqn:Ha; [apply mem_true in Ha|apply mem_false in Ha];
    [|naive_solver].
  setoid_rewrite elem_of_app. setoid_rewrite list_elem_of_singleton. split.
  - intros [[?|?]|(c & [?| ->] & Hr)]; [by left|naive_solver| |];
      right; right; [by exists c|]. rewrite composite_admin in Hr. by exists "admin".
  - naive_solver.
Qed.

Lemma require_list l reqs :
  require (RList l) reqs = true ↔ is_super l ∨ ∃ r, r ∈ reqs ∧ holds l r.
Proof.
  destruct l as [|c l].
  - simpl. unfold is_super, holds. set_solver.
  - unfold require. destruct (mem "super_admin" (c :: l) || mem "*" (c :: l)) eqn:Hs.
    + apply is_super_mem in Hs. naive_solver.
    + rewrite existsb_mem. setoid_rewrite (expanded_holds (c :: l)).
      apply not_true_iff_false in Hs. rewrite is_super_mem in Hs. naive_solver.
Qed.

Lemma require_str s reqs :
  s ≠ "" → require (RStr s) reqs = require (RList [s]) reqs.
Proof. intros Hs. unfold require. by rewrite bool_decide_false. Qed.

Lemma holds_mono l l' r : l ⊆ l' → holds l r → holds l' r.
Proof. unfold holds. set_solver. Qed.

(** [roles_set] of [CurrentUser.has_role]. *)
Definition roles_of (u : CurrentUser) : list string :=
  if bool_decide (cu_role u = "") then cu_roles u else cu_roles u ++ [cu_role u].

Lemma has_role_spec u r :
  has_role u r = true ↔
  is_super (roles_of u) ∨ holds (roles_of u) r ∨
  (r = "admin" ∧ "school_admin" ∈ roles_of u).
Proof.
  unfold has_role. fold (roles_of u). generalize (roles_of u) as l; intros l.
  destruct (mem "super_admin" l || mem "*" l) eqn:Hs.
  { apply is_super_mem in Hs. naive_solver. }
  apply not_true_iff_false in Hs. rewrite is_super_mem in Hs.
  destruct (mem r ["admin"; "school_admin"] && _) eqn:Ha.
  { apply andb_prop in Ha as [Hr Ha]. rewrite orb_true_iff, !mem_true in *.
    unfold holds. set_solver. }
  destruct (mem r l) eqn:Hm.
  { apply mem_true in Hm. unfold holds. naive_solver. }
  assert (existsb (λ c, mem r (composite c)) l = true ↔ ∃ c, c ∈ l ∧ r ∈ composite c) as ->.
  { rewrite existsb_exists. setoid_rewrite mem_true. by setoid_rewrite list_elem_of_In. }
  apply mem_false in Hm. unfold holds.
  rewrite andb_false_iff, orb_false_iff, !mem_false in Ha.
  split; [naive_solver|]. intros [?|[[?|[[? ->]|?]]|[-> ?]]]; try done; set_solver.
Qed.

Lemma has_any_role_spec u rs :
  has_any_role u rs = true ↔ ∃ r, r ∈ rs ∧ has_role u r = true.
Proof.
  unfold has_any_role. rewrite existsb_exists. by setoid_rewrite list_elem_of_In.
Qed.

(** A role outside the catalog carries nothing; the catalog gives no role the
    administrators' names. *)
Lemma composite_in_catalog c r : r ∈ composite c → c ∈ ROLES_IN_CATALOG.
Proof.
  unfold composite, COMPOSITE_ROLE_PERMISSIONS, ROLES_IN_CATALOG.
  repeat (case_bool_decide; [intros _; set_solver|]). simpl. set_solver.
Qed.

Lemma catalog_no_admin_name c r :
  r ∈ _ADMIN_ROLES → r ∉ composite c.
Proof.
  intros Hr Hc. pose proof (composite_in_catalog c r Hc) as Hin.
  assert (forallb (λ c, forallb (λ r, negb (mem r (composite c))) _ADMIN_ROLES)
            ROLES_IN_CATALOG = true) as Hall by reflexivity.
  rewrite forallb_forall in Hall. setoid_rewrite forallb_forall in Hall.
  specialize (Hall c (proj1 (list_elem_of_In _ _) Hin) r (proj1 (list_elem_of_In _ _) Hr)).
  apply negb_true_iff, mem_false in Hall. done.
Qed.

(** *** Properties of the gates *)

(** No privilege escalation through granular permissions. A caller whose
    token list names no administrator role fails every gate that lists only
    administrator roles, whatever permission strings an administrator has
    granted and whatever roles the catalog expands. *)
Theorem require_admin_no_escalation (roles reqs : list string) :
  ¬ is_super roles → "admin" ∉ roles → "school_admin" ∉ roles →
  reqs ⊆ _ADMIN_ROLES → require (RList roles) reqs = false.
Proof.
  intros Hs Ha Hsa Hreqs. apply not_true_iff_false. rewrite require_list.
  intros [?|(r & Hr & Hh)]; [done|]. apply Hreqs in Hr as Hr'.
  destruct Hh as [H|[[H _]|(c & _ & Hc)]]; [|done|by eapply catalog_no_admin_name].
  unfold _ADMIN_ROLES, is_super in *. set_solver.
Qed.

Lemma require_admin_no_escalation_witness :
  require (RList ["teacher"; "manager"; "user:invite"; "level:create"])
    ["school_admin"; "super_admin"] = false.
Proof.
  apply require_admin_no_escalation;
    [unfold is_super; intros [H|H]; revert H| | |intros r]; vm_compute; set_solver.
Defined.

(** The two in-process gates agree. [CurrentUser.has_role(r)] is
    [authz.require(roles, {r})] on the caller's roles, except for the token
    ["admin"], which only [has_role] derives from ["school_admin"]. *)
Theorem has_role_agrees_with_require (u : CurrentUser) (r : string) :
  r ≠ "admin" → has_role u r = require (RList (roles_of u)) [r].
Proof.
  intros Hr. apply eq_bool_prop_intro. rewrite !Is_true_true, has_role_spec, require_list.
  set_solver.
Qed.

Definition example_teacher : CurrentUser :=
  {| cu_id := PStr "7"; cu_tenant_id := Some "tenant_a"; cu_role := "teacher";
     cu_email := "t@school.com"; cu_roles := ["teacher"; "class:update"] |}.

Lemma has_role_agrees_with_require_witness :
  has_role example_teacher "event:create" = true ∧
  has_role example_teacher "event:create" = require (RList ["teacher"; "class:update"; "teacher"]) ["event:create"].
Proof.
  split; [reflexivity|]. apply (has_role_agrees_with_require example_teacher "event:create").
  discriminate.
Defined.
