(* ===== verification/Policy.v ===== *)
(** * The authorization policy and its client

    The Rego policy of src/policies/school_policy.rego in its action mode,
    the client that asks OPA (src/app/core/opa.py), and [CurrentUser.can] and
    [require_permission] (src/app/core/dependencies.py), which fall back to
    the local roles when OPA cannot be reached. *)
From S2P Require Import Prelude PyText Authz.

(** ** The input of the policy

    [resource.tenant_id] may be missing, null or a school. *)
Inductive json_tenant := Absent | Null | Tenant (t : string).
Record opa_input := {
  in_user_id : string; in_tenant : string; in_roles : list string; in_action : string;
  in_resource_tenant : json_tenant; in_status : option string }.

(** ** The policy *)
Definition school_admin_permission : list string :=
  ["school:write"; "school:read"; "level:create"; "level:manage"; "level:read"; "class:create"; "class:edit";
   "class:update"; "class:read"; "class:assign_teacher"; "user:create"; "user:invite"; "user:delete";
   "user:link"; "user:view"; "user:read"; "user:profile_read"; "user:profile_edit"; "teacher:create";
   "teacher:read"; "teacher:write"; "parent:read"; "student:create"; "student:read"; "event:create";
   "event:read"; "event:view"; "event:edit"; "event:patch"; "event:delete"; "event:clone"; "event:propose";
   "event:submit"; "event:review"; "event:publish"; "event:view_draft"; "event:archive"; "event:audience_edit";
   "event:audience_predict"; "resource:create"; "resource:view"; "resource:read"; "resource:edit";
   "resource:update"; "resource:delete"; "resource:price"; "resource:set_cost"; "resource_type:create";
   "resource_type:read"; "enrollment:teacher_approve"; "enrollment:cancel"; "enrollment:view_roster";
   "enrollment:read"; "billing:audit"; "billing:invoice"; "billing:view_payment"; "subsidy:manage";
   "audit:view"; "health:view"; "health:manage"; "safety:manage"; "announcement:manage"; "notification:send";
   "notification:read"; "notification:mark_read"; "feedback:view"; "report:view"].
Definition manager_permission : list string :=
  ["school:read"; "level:read"; "level:create"; "level:manage"; "class:read"; "class:create"; "class:update";
   "class:edit"; "class:assign_teacher"; "user:create"; "teacher:read"; "parent:read"; "student:read";
   "user:view"; "user:read"; "user:profile_read"; "user:profile_edit"; "event:read"; "event:view";
   "event:review"; "event:publish"; "event:view_draft"; "event:audience_predict"; "resource:view";
   "resource:read"; "resource:price"; "resource:set_cost"; "resource_type:read"; "billing:invoice";
   "billing:pay"; "billing:refund"; "billing:audit"; "billing:view_payment"; "subsidy:manage";
   "enrollment:view_roster"; "enrollment:read"; "announcement:manage"; "notification:send"; "notification:read";
   "notification:mark_read"; "feedback:view"].
Definition teacher_permission : list string :=
  ["school:read"; "level:read"; "class:read"; "teacher:read"; "student:read"; "user:view"; "user:read";
   "user:profile_read"; "user:profile_edit"; "event:create"; "event:read"; "event:view"; "event:edit";
   "event:patch"; "event:delete"; "event:clone"; "event:propose"; "event:submit"; "event:view_draft";
   "event:audience_edit"; "event:audience_predict"; "resource:create"; "resource:view"; "resource:read";
   "resource:edit"; "resource:update"; "resource:delete"; "resource_type:create"; "resource_type:read";
   "enrollment:teacher_approve"; "enrollment:view_roster"; "enrollment:read"; "health:view"; "health:manage";
   "notification:read"; "notification:mark_read"; "feedback:view"; "feedback:create"].
Definition parent_permission : list string :=
  ["school:read"; "user:profile_read"; "user:profile_edit"; "student:view_linked"; "event:read"; "event:view";
   "enrollment:parent_approve"; "enrollment:cancel"; "enrollment:read"; "billing:pay"; "billing:view_payment";
   "health:manage_child"; "notification:read"; "notification:mark_read"; "feedback:create"].
Definition student_permission : list string :=
  ["school:read"; "user:profile_read"; "user:profile_edit"; "event:read"; "event:view"; "enrollment:request";
   "enrollment:read"; "notification:read"; "notification:mark_read"; "feedback:create"].
Definition finance_permission : list string :=
  ["resource:price"; "resource:set_cost"; "resource:view"; "resource:read"; "billing:invoice"; "billing:pay";
   "billing:refund"; "billing:audit"; "billing:view_payment"; "subsidy:manage"; "notification:read";
   "notification:mark_read"].

Definition draft_actions : list string :=
  ["event:edit"; "event:patch"; "event:delete"; "event:propose"; "event:submit"; "event:audience_edit";
   "resource:create"; "resource:edit"; "resource:update"; "resource:delete"].
Definition cross_tenant_action : list string := ["family:overview_read"].

Section rules.
Context (i : opa_input).

Definition valid_tenant : bool :=
  match in_resource_tenant i with Tenant t => bool_decide (in_tenant i = t) | _ => false end.
(** [not input.resource.tenant_id] *)
Definition no_resource_tenant : bool := match in_resource_tenant i with Absent => true | _ => false end.
(** [not input.resource.status], or the status satisfies [P]. *)
Definition status_ok (P : string → bool) : bool := from_option P true (in_status i).

Definition valid_manager_resource_status : bool :=
  status_ok (λ st, (bool_decide (in_action i = "event:review") && bool_decide (st = "proposed"))
                   || (bool_decide (in_action i = "event:publish") && bool_decide (st = "proposed"))
                   || (negb (bool_decide (in_action i = "event:review")) && negb (bool_decide (in_action i = "event:publish")))).
Definition valid_teacher_resource_status : bool :=
  status_ok (λ st, (mem (in_action i) draft_actions && bool_decide (st = "draft")) || negb (mem (in_action i) draft_actions)).
Definition valid_household_resource_status : bool := status_ok (λ st, bool_decide (st = "published")).
Definition valid_action_resource_status : bool :=
  status_ok (λ st, (mem (in_action i) draft_actions && bool_decide (st = "draft"))
                   || (mem (in_action i) ["event:review"; "event:publish"] && bool_decide (st = "proposed"))
                   || (mem (in_action i) ["event:read"; "event:view"] && mem st ["draft"; "proposed"; "published"])
                   || negb (mem (in_action i) (draft_actions ++ ["event:review"; "event:publish"]))).
(** The input carries no [user.permissions]. *)
Definition direct_user_has_permission : bool := mem (in_action i) (in_roles i).

Definition action_allow : bool :=
  (valid_tenant && mem "school_admin" (in_roles i) && mem (in_action i) school_admin_permission)
  || (valid_tenant && mem "manager" (in_roles i) && mem (in_action i) manager_permission && valid_manager_resource_status)
  || (valid_tenant && mem "teacher" (in_roles i) && mem (in_action i) teacher_permission && valid_teacher_resource_status)
  || (valid_tenant && mem "parent" (in_roles i) && mem (in_action i) parent_permission && valid_household_resource_status)
  || (mem (in_action i) cross_tenant_action && mem "parent" (in_roles i) && no_resource_tenant)
  || (valid_tenant && mem "student" (in_roles i) && mem (in_action i) student_permission && valid_household_resource_status)
  || (valid_tenant && mem "finance" (in_roles i) && mem (in_action i) finance_permission)
  || (valid_tenant && direct_user_has_permission && valid_action_resource_status).
Definition allow : bool := mem "super_admin" (in_roles i) || action_allow.
End rules.

(** ** The client

    What comes back: nothing, or a status with a body whose [result] may be
    missing; a body that is not JSON raises. *)
Inductive opa_reply := NoReply (error : string) | Reply (status : Z) (body : result (option bool)).

Section client.
Context (opa : opa_input → opa_reply) (uuid_text : Z → string).

(** [None] stands for [OPAUnavailableError]. *)
Definition verify_opa_authorization (payload : opa_input) : result (option bool) :=
  match opa payload with
  | NoReply _ => Ok None
  | Reply status body =>
      if negb (status =? 200) then Ok None
      else match body with Ok b => Ok (Some (default false b)) | Raise e => Raise e end
  end.

(** [str(self.id or "")] *)
Definition id_or_empty (i : pyid) : string :=
  match i with
  | PInt n => if n =? 0 then "" else pretty n
  | PUuid n => uuid_text n
  | PStr s => s
  | PNone => ""
  end.

Definition can (u : CurrentUser) (action : string) (tenant : json_tenant) (status : option string) : result bool :=
  match verify_opa_authorization
          {| in_user_id := id_or_empty (cu_id u); in_tenant := default "" (cu_tenant_id u); in_roles := cu_roles u;
             in_action := action; in_resource_tenant := tenant; in_status := status |} with
  | Ok (Some decision) => Ok decision
  | Ok None => Ok (has_role u action)
  | Raise e => Raise e
  end.

(** [{"tenant_id": current_user.tenant_id, **(resource or {})}]; [resource] is
    the static part, a school and a status. *)
Definition require_permission (action : string) (resource : option string * option string) (u : CurrentUser) : result CurrentUser :=
  let tenant := match resource.1 with
    | Some t => Tenant t
    | None => match cu_tenant_id u with Some t => Tenant t | None => Null end
    end in
  match can u action tenant resource.2 with
  | Ok true => Ok u
  | Ok false => Raise (HTTPException 403 ("Permission denied for action '" +:+ action +:+ "'"))
  | Raise e => Raise e
  end.

(** The check of the family router, which names no resource. *)
Definition may_read_overview (u : CurrentUser) : result bool := can u "family:overview_read" Absent None.
End client.

(** ** The policy and the local roles decide alike *)
(** The deployment's OPA runs the policy above. *)
Definition policy_reply (i : opa_input) : opa_reply := Reply 200 (Ok (Some (allow i))).

(** The primary role is among the roles, and none of the names that only one
    of the two sides knows. *)
Definition one_sided : list string := ["admin"; "*"; "finance"].
Definition known_roles (u : CurrentUser) : Prop :=
  (cu_role u = "" ∨ cu_role u ∈ cu_roles u) ∧ ∀ r, r ∈ cu_roles u → r ∉ one_sided.
Definition one_sided_actions : list string := ["admin"; "school_admin"; "family:overview_read"].

(** The sets of the policy are those of the permission catalog. *)
Definition same_set (l1 l2 : list string) : bool :=
  forallb (λ a, mem a l2) l1 && forallb (λ a, mem a l1 || mem a one_sided_actions) l2.
Lemma same_set_mem l1 l2 a : same_set l1 l2 = true → a ∉ one_sided_actions → a ∈ l1 ↔ a ∈ l2.
Proof.
  intros [H1 H2]%andb_true_iff Ha. rewrite forallb_forall in H1, H2. split; intros Hin%list_elem_of_In.
  - by apply mem_true, H1.
  - specialize (H2 a Hin). apply orb_true_iff in H2 as [H2|H2]; apply mem_true in H2; done.
Qed.

(** What the policy grants to each role it knows. *)
Definition policy_sets : list (string * list string) :=
  [("school_admin", school_admin_permission); ("manager", manager_permission); ("teacher", teacher_permission);
   ("parent", parent_permission); ("student", student_permission)].
Lemma catalog_sets a c : a ∉ one_sided_actions → c ∉ "super_admin" :: one_sided →
  a ∈ composite c ↔ ∃ l, (c, l) ∈ policy_sets ∧ a ∈ l.
Proof.
  intros Ha Hc. assert (forallb (λ p : string * list string, same_set p.2 (composite p.1)) policy_sets = true) as H by (vm_compute; reflexivity).
  rewrite forallb_forall in H. split.
  - intros Hin. pose proof (composite_in_catalog c a Hin) as Hcat.
    assert (∃ l, (c, l) ∈ policy_sets) as [l Hl].
    { assert (forallb (λ c, mem c ("super_admin" :: one_sided) || mem c policy_sets.*1) ROLES_IN_CATALOG = true) as Hall by (vm_compute; reflexivity).
      rewrite forallb_forall in Hall. specialize (Hall c (proj1 (list_elem_of_In _ _) Hcat)).
      apply orb_true_iff in Hall as [Hm|Hm]; apply mem_true in Hm; [done|].
      apply list_elem_of_fmap in Hm as ([c' l] & -> & Hl). by exists l. }
    exists l. split; [done|]. apply (same_set_mem _ _ a (H _ (proj1 (list_elem_of_In _ _) Hl))); done.
  - intros (l & Hl & Hin). by apply (same_set_mem _ _ a (H _ (proj1 (list_elem_of_In _ _) Hl))).
Qed.

Lemma allow_spec i t :
  in_resource_tenant i = Tenant t → in_tenant i = t → in_status i = None → "finance" ∉ in_roles i →
  allow i = true ↔ "super_admin" ∈ in_roles i ∨ in_action i ∈ in_roles i ∨
    ∃ c l, c ∈ in_roles i ∧ (c, l) ∈ policy_sets ∧ in_action i ∈ l.
Proof.
  intros Ht <- Hs Hf. apply mem_false in Hf. unfold allow, action_allow, valid_tenant, no_resource_tenant,
    valid_manager_resource_status, valid_teacher_resource_status, valid_household_resource_status,
    valid_action_resource_status, direct_user_has_permission, status_ok.
  rewrite Ht, Hs, Hf, bool_decide_eq_true_2 by done. cbn [from_option andb]. rewrite ?andb_true_r, ?andb_false_r, ?orb_false_r.
  rewrite !orb_true_iff, !andb_true_iff, !mem_true. unfold policy_sets. split.
  - intros [H|[[[[[H|H]|H]|H]|H]|H]]; [by left| | | | | |by right; left].
    all: destruct H as [H1 H2]; right; right; eexists _, _; split; [exact H1|]; split; [|exact H2]; set_solver.
  - intros [H|[H|(c & l & Hc & Hl & Ha)]]; [tauto|tauto|].
    repeat (apply elem_of_cons in Hl as [[= -> ->]|Hl]; [tauto|]). by apply elem_of_nil in Hl.
Qed.

(** C18: an outage of OPA changes no decision. A caller with a school, whose
    roles are names both sides know, passes the guard of any permission (but
    for the family overview, which is asked for without a resource) when the
    policy answers if and only if it passes while OPA cannot be reached or
    answers with an error. *)
Theorem outage_changes_no_decision uuid_text u action down :
  cu_tenant_id u ≠ None → known_roles u → action ∉ one_sided_actions →
  (∀ i, ∃ e, down i = NoReply e ∨ ∃ status body, down i = Reply status body ∧ status ≠ 200) →
  require_permission policy_reply uuid_text action (None, None) u =
  require_permission down uuid_text action (None, None) u.
Proof.
  intros Ht [Hrole Hknown] Ha Hdown. destruct (cu_tenant_id u) as [t|] eqn:Et; [|done].
  unfold require_permission, can. rewrite Et. cbn [fst snd].
  set (i := {| in_user_id := _; in_tenant := _; in_roles := _; in_action := _; in_resource_tenant := _; in_status := _ |}).
  assert (verify_opa_authorization down i = Ok None) as ->.
  { unfold verify_opa_authorization. destruct (Hdown i) as [e [-> |(st & b & -> & Hst)]]; [done|].
    apply Z.eqb_neq in Hst. by rewrite Hst. }
  change (verify_opa_authorization policy_reply i) with (Ok (Some (allow i))). cbv iota.
  replace (allow i) with (has_role u action); [done|]. apply eq_bool_prop_intro. rewrite !Is_true_true, has_role_spec.
  assert (∀ r, r ∈ roles_of u ↔ r ∈ cu_roles u) as Hroles.
  { intros r. unfold roles_of. case_bool_decide as He; [done|]. destruct Hrole as [?|Hin]; [done|].
    rewrite elem_of_app, list_elem_of_singleton. split; [intros [?| ->]; done|auto]. }
  assert (∀ r, r ∈ one_sided → r ∉ cu_roles u) as Hno by (intros r Hr Hin; by apply (Hknown r)).
  rewrite (allow_spec i t); [|done|done|done|apply Hno; set_solver].
  unfold is_super, holds. rewrite !Hroles. setoid_rewrite Hroles. cbn [in_roles in_action i].
  split.
  - intros [[H|H]|[[H|[[H _]|(c & Hc & Hin)]]|[-> _]]].
    + by left.
    + by apply (Hno "*") in H; [|set_solver].
    + by right; left.
    + by apply (Hno "admin") in H; [|set_solver].
    + destruct (decide (c = "super_admin")) as [-> |Hne]; [by left|]. right. right.
      apply catalog_sets in Hin as (l & Hl & Hin); [by exists c, l|done|].
      intros [->|Hone]%elem_of_cons; [done|]. by apply (Hno c).
    + by destruct Ha; set_solver.
  - intros [H|[H|(c & l & Hc & Hl & Hin)]]; [by left; left|by right; left; left|].
    right. left. right. right. exists c. split; [done|]. apply catalog_sets; [done| |by exists l].
    intros [->|Hone]%elem_of_cons; [|by apply (Hno c)].
    unfold policy_sets in Hl. set_solver.
Qed.

(** ** Concrete callers *)
Definition demo_staff (roles : list string) : CurrentUser :=
  {| cu_id := PStr "7"; cu_tenant_id := Some "tenant_a"; cu_role := default "" (head roles);
     cu_email := "t@school.com"; cu_roles := roles |}.

Lemma outage_changes_no_decision_witness :
  known_roles (demo_staff ["teacher"; "class:update"]) ∧
  require_permission policy_reply pretty "health:view" (None, None) (demo_staff ["teacher"; "class:update"]) =
  require_permission (λ _, NoReply "timeout") pretty "health:view" (None, None) (demo_staff ["teacher"; "class:update"]).
Proof.
  assert (known_roles (demo_staff ["teacher"; "class:update"])) as H.
  { split; [right; left|]. intros r Hr Hone. cbn in Hr. unfold one_sided in Hone. set_solver. }
  split; [exact H|]. apply (outage_changes_no_decision pretty (demo_staff ["teacher"; "class:update"]) "health:view" (λ _, NoReply "timeout")).
  - discriminate.
  - exact H.
  - unfold one_sided_actions. set_solver.
  - intros i. exists "timeout". by left.
Defined.

(** The names only one side knows: the policy has no role admin, the catalog
    no role finance, and a delegated family:overview_read counts only while
    OPA is down. *)
Example one_sided_decisions :
  let asked := λ opa action u, match require_permission opa pretty action (None, None) u with Ok _ => true | Raise _ => false end in
  let down := λ _, NoReply "timeout" in
  (asked policy_reply "audit:view" (demo_staff ["admin"]), asked down "audit:view" (demo_staff ["admin"]),
   asked policy_reply "billing:audit" (demo_staff ["finance"]), asked down "billing:audit" (demo_staff ["finance"]),
   may_read_overview policy_reply pretty (demo_staff ["teacher"; "family:overview_read"]),
   may_read_overview down pretty (demo_staff ["teacher"; "family:overview_read"]))
  = (false, true, true, false, Ok false, Ok true).
Proof. vm_compute. reflexivity. Qed.
