(* ===== verification/Store.v ===== *)
(** * The tenant database

    One school's PostgreSQL schema, as created by [_init_tenant_tables]
    (src/app/core/database.py): a record per table row with the columns the
    code reads, a finite map from primary keys to rows per table (a list, in
    insertion order, for the append-only logs), and the constraints of the
    schema as checks that raise [DatabaseError]. Serial primary keys come
    from one sequence, which, as in PostgreSQL, an aborted transaction does
    not give back. Money is an integer in units of 10^-4, the scale of the
    NUMERIC(14,4) columns; dates and timestamps are integers. *)
From S2P Require Import Prelude PyText.

(** ** Rows *)
Record user_row := {
  us_email : string; us_role : string;
  us_roles : list string; us_permissions : list string; us_hash : string;
  us_phone : option string; us_address : option string;
  us_language : option string; us_timezone : option string }.

Record level_row := {
  lv_name : string; lv_isced : option Z; lv_age_min : option Z;
  lv_age_max : option Z; lv_ordinal : option Z; lv_active : bool }.

Record class_row := {
  cl_name : string; cl_level : Z; cl_head : option Z; cl_capacity : Z;
  cl_active : bool; cl_year : Z; cl_section : option string }.

Record student_row := {
  st_name : string; st_class : option Z; st_gender : option string;
  st_birth : option string; st_status : string; st_exited : option Z }.

Record parent_link := {
  pl_relationship : option string; pl_primary : bool; pl_can_approve : bool }.

Record event_row := {
  ev_title : string; ev_description : string; ev_address : option string;
  ev_subsidy : Z; ev_date : Z; ev_created_by : Z; ev_status : string;
  ev_predicted : option Z; ev_manager_reviewer : option Z;
  ev_finance_reviewer : option Z; ev_total_cost : option Z;
  ev_submitted_at : option Z; ev_manager_approved_at : option Z;
  ev_finance_priced_at : option Z; ev_published_at : option Z;
  ev_rejection_reason : option string }.

Record ecm_row := { ecm_event : Z; ecm_class : Z; ecm_price : Z }.

Record enrollment_row := {
  en_student : Z; en_ecm : Z; en_state : string;
  en_teacher : option Z; en_parent : option Z }.

Record payment_row := {
  pm_enrollment : Z; pm_amount : Z; pm_status : string; pm_currency : string }.

Record notification_row := {
  nt_id : Z; nt_event : Z; nt_recipient : Z; nt_title : option string;
  nt_read_at : option Z }.

Record resource_type_row := {
  rt_name : string; rt_category : string; rt_custom : bool;
  rt_created_by : option Z; rt_active : bool }.

Record resource_row := {
  rs_event : Z; rs_type : Z; rs_description : option string; rs_quantity : Z;
  rs_added_by : Z; rs_updated_by : option Z }.

Record cost_row := {
  co_event : Z; co_resource : Z; co_unit_price : Z; co_total : Z;
  co_currency : string; co_set_by : Z }.

Record history_row := {
  hi_student : Z; hi_old : option Z; hi_new : option Z; hi_by : option Z }.

Record year_row := {
  ye_name : string; ye_status : string; ye_start : option Z; ye_end : option Z;
  ye_rolled_from : option Z }.

Record rollover_summary := {
  sm_promoted : Z; sm_graduated : Z; sm_withdrawn : Z; sm_held : Z }.

Record rollover_row := {
  ro_from : Z; ro_to : Z; ro_state : string; ro_summary : option rollover_summary;
  ro_created_by : option Z }.

Record line_row := {
  li_rollover : Z; li_student : Z; li_from_class : option Z;
  li_to_level : option Z; li_to_section : option string; li_to_class : option Z;
  li_proposed : string; li_override : option string; li_exception : option string;
  li_applied_at : option Z }.

(** Audit metadata: non-PII scalars and lists of field names. *)
Inductive meta_value :=
  | MInt (n : Z)
  | MStr (s : string)
  | MBool (b : bool)
  | MList (l : list string).

Record audit_row := {
  au_id : Z; au_occurred_at : Z; au_actor : option Z; au_email_hmac : option string;
  au_role : string; au_action : string; au_entity_type : string;
  au_entity_id : option string; au_outcome : string;
  au_changed : option (list string); au_metadata : list (string * meta_value);
  au_retention : Z }.

(** The school's calendar and curriculum settings. *)
Record settings_row := {
  se_system : string; se_year : string; se_start_month : Z; se_weekend : list string }.

Record blackout_row := { bo_date : Z; bo_title : string; bo_tags : list string }.

(** A column of the school's profile and campus tables; NULL is an absent
    key of the row's columns. *)
Inductive field_value :=
  | FText (s : string)
  | FTexts (l : list string)
  | FDate (d : Z)
  | FNumber (n : Z)
  | FBool (b : bool).

Record profile_row := {
  sp_fields : gmap string field_value; sp_committed : option Z; sp_structure : option Z;
  sp_locked : option Z; sp_activated : option Z }.

Record campus_row := { ca_fields : gmap string field_value; ca_primary : bool }.

Record contact_row := {
  ct_role_title : string; ct_name : string; ct_phone : option string; ct_email : option string;
  ct_emergency : bool; ct_order : option Z; ct_visible : list string }.

(** The row of the control plane's [tenants] that mirrors the profile. *)
Record mirror_row := {
  mr_display_name : option string; mr_school_code : option string; mr_brand_color : option string }.

Record feedback_row := {
  fb_event : Z; fb_user : Z; fb_rating : Z; fb_comments : option string; fb_created : Z }.
(** [student_health_and_records]: the three values as [Fernet] tokens. *)
Record health_row := {
  he_student : Z; he_national : string; he_medical : string; he_contact : string }.

(** ** The schema *)
Record TenantDB := {
  users : gmap Z user_row;
  teachers : gmap Z string;
  parenets : gmap Z string;
  levels : gmap Z level_row;
  classes : gmap Z class_row;
  students : gmap Z student_row;
  student_parent_map : gmap (Z * Z) parent_link;
  events : gmap Z event_row;
  event_class_map : gmap Z ecm_row;
  enrollments : gmap Z enrollment_row;
  payments : gmap Z payment_row;
  notifications : list notification_row;
  resource_types : gmap Z resource_type_row;
  resources : gmap Z resource_row;
  resource_costs : gmap Z cost_row;
  class_history : list history_row;
  academic_years : gmap Z year_row;
  rollovers : gmap Z rollover_row;
  rollover_lines : gmap Z line_row;
  audit_log : list audit_row;
  academic_settings : gmap Z settings_row;
  blackout_dates : gmap Z blackout_row;
  school_profile : gmap Z profile_row;
  school_campus : gmap Z campus_row;
  school_contact : gmap Z contact_row;
  event_feedback : gmap Z feedback_row;
  student_health : gmap Z health_row;
  (** The control plane's row of this school, and the codes of the others. *)
  tenant_mirror : mirror_row;
  other_school_codes : list string;
  (** The column default of [payments.currency]: the DDL of
      src/app/core/database.py and the Alembic revisions declare none, the
      two schemas of src/init.sql declare 'USD'. *)
  payments_currency_default : option string;
  nextid : Z;
  clock : Z;
}.

#[export] Instance TenantDB_eta : Settable TenantDB := λ r,
  {| users := users r; teachers := teachers r; parenets := parenets r;
     levels := levels r; classes := classes r; students := students r;
     student_parent_map := student_parent_map r; events := events r;
     event_class_map := event_class_map r; enrollments := enrollments r;
     payments := payments r; notifications := notifications r;
     resource_types := resource_types r; resources := resources r;
     resource_costs := resource_costs r; class_history := class_history r;
     academic_years := academic_years r; rollovers := rollovers r;
     rollover_lines := rollover_lines r; audit_log := audit_log r;
     academic_settings := academic_settings r; blackout_dates := blackout_dates r;
     school_profile := school_profile r; school_campus := school_campus r;
     school_contact := school_contact r; event_feedback := event_feedback r;
     student_health := student_health r; tenant_mirror := tenant_mirror r;
     other_school_codes := other_school_codes r;
     payments_currency_default := payments_currency_default r;
     nextid := nextid r; clock := clock r |}.

#[export] Instance user_row_eta : Settable user_row := λ r,
  {| us_email := us_email r; us_role := us_role r; us_roles := us_roles r;
     us_permissions := us_permissions r; us_hash := us_hash r; us_phone := us_phone r;
     us_address := us_address r; us_language := us_language r; us_timezone := us_timezone r |}.

(** [INSERT INTO users (email, role, password_hash)]: the other columns take
    their defaults. *)
Definition new_user (email role password_hash : string) : user_row :=
  {| us_email := email; us_role := role; us_roles := []; us_permissions := [];
     us_hash := password_hash; us_phone := None; us_address := None; us_language := None;
     us_timezone := None |}.

#[export] Instance class_row_eta : Settable class_row := λ r,
  {| cl_name := cl_name r; cl_level := cl_level r; cl_head := cl_head r;
     cl_capacity := cl_capacity r; cl_active := cl_active r; cl_year := cl_year r;
     cl_section := cl_section r |}.

#[export] Instance student_row_eta : Settable student_row := λ r,
  {| st_name := st_name r; st_class := st_class r; st_gender := st_gender r;
     st_birth := st_birth r; st_status := st_status r; st_exited := st_exited r |}.

#[export] Instance event_row_eta : Settable event_row := λ r,
  {| ev_title := ev_title r; ev_description := ev_description r;
     ev_address := ev_address r; ev_subsidy := ev_subsidy r; ev_date := ev_date r;
     ev_created_by := ev_created_by r; ev_status := ev_status r;
     ev_predicted := ev_predicted r; ev_manager_reviewer := ev_manager_reviewer r;
     ev_finance_reviewer := ev_finance_reviewer r; ev_total_cost := ev_total_cost r;
     ev_submitted_at := ev_submitted_at r; ev_manager_approved_at := ev_manager_approved_at r;
     ev_finance_priced_at := ev_finance_priced_at r; ev_published_at := ev_published_at r;
     ev_rejection_reason := ev_rejection_reason r |}.

#[export] Instance ecm_row_eta : Settable ecm_row := λ r,
  {| ecm_event := ecm_event r; ecm_class := ecm_class r; ecm_price := ecm_price r |}.

#[export] Instance enrollment_row_eta : Settable enrollment_row := λ r,
  {| en_student := en_student r; en_ecm := en_ecm r; en_state := en_state r;
     en_teacher := en_teacher r; en_parent := en_parent r |}.

#[export] Instance payment_row_eta : Settable payment_row := λ r,
  {| pm_enrollment := pm_enrollment r; pm_amount := pm_amount r;
     pm_status := pm_status r; pm_currency := pm_currency r |}.

#[export] Instance resource_row_eta : Settable resource_row := λ r,
  {| rs_event := rs_event r; rs_type := rs_type r; rs_description := rs_description r;
     rs_quantity := rs_quantity r; rs_added_by := rs_added_by r;
     rs_updated_by := rs_updated_by r |}.

#[export] Instance history_row_eta : Settable history_row := λ r,
  {| hi_student := hi_student r; hi_old := hi_old r; hi_new := hi_new r; hi_by := hi_by r |}.

#[export] Instance year_row_eta : Settable year_row := λ r,
  {| ye_name := ye_name r; ye_status := ye_status r; ye_start := ye_start r;
     ye_end := ye_end r; ye_rolled_from := ye_rolled_from r |}.

#[export] Instance rollover_row_eta : Settable rollover_row := λ r,
  {| ro_from := ro_from r; ro_to := ro_to r; ro_state := ro_state r;
     ro_summary := ro_summary r; ro_created_by := ro_created_by r |}.

#[export] Instance line_row_eta : Settable line_row := λ r,
  {| li_rollover := li_rollover r; li_student := li_student r;
     li_from_class := li_from_class r; li_to_level := li_to_level r;
     li_to_section := li_to_section r; li_to_class := li_to_class r;
     li_proposed := li_proposed r; li_override := li_override r;
     li_exception := li_exception r; li_applied_at := li_applied_at r |}.

#[export] Instance profile_row_eta : Settable profile_row := λ r,
  {| sp_fields := sp_fields r; sp_committed := sp_committed r; sp_structure := sp_structure r;
     sp_locked := sp_locked r; sp_activated := sp_activated r |}.

#[export] Instance campus_row_eta : Settable campus_row := λ r,
  {| ca_fields := ca_fields r; ca_primary := ca_primary r |}.

(** Operations of the repositories and services. *)
Definition DB (A : Type) : Type := M TenantDB A.

#[export] Instance rollback_tenant : Rollback TenantDB :=
  λ before after, before <| nextid := nextid after |>.

(** ** SQL over one table *)
Section sql.
Context {R : Type}.
Implicit Types (t : gmap Z R) (P : Z → R → bool).

(** [SELECT ... WHERE P]: the rows that satisfy [P]. The order of the list
    is the map's; a statement with ORDER BY sorts it. *)
Definition select P t : list (Z * R) :=
  List.filter (λ kv, P kv.1 kv.2) (map_to_list t).

Definition id_le (a b : Z * R) : Prop := a.1 ≤ b.1.
#[global] Instance id_le_dec a b : Decision (id_le a b).
Proof. unfold id_le. apply _. Defined.
Definition by_id : list (Z * R) → list (Z * R) := merge_sort id_le.

(** [UPDATE ... SET f WHERE P] and [DELETE ... WHERE P]. *)
Definition update_where P (f : R → R) t : gmap Z R :=
  map_imap (λ k r, Some (if P k r then f r else r)) t.
Definition delete_where P t : gmap Z R :=
  filter (λ kv, P kv.1 kv.2 = false) t.

Lemma elem_of_select P t k r : (k, r) ∈ select P t ↔ t !! k = Some r ∧ P k r = true.
Proof.
  unfold select. rewrite list_elem_of_In, filter_In, <-list_elem_of_In.
  by rewrite elem_of_map_to_list.
Qed.

Lemma elem_of_by_id kv l : kv ∈ by_id l ↔ kv ∈ l.
Proof. unfold by_id. by rewrite merge_sort_Permutation. Qed.

Lemma select_NoDup P t : NoDup (select P t).*1.
Proof.
  unfold select. pose proof (NoDup_fst_map_to_list t) as H. revert H.
  generalize (map_to_list t) as l. induction l as [|[k r] l IH]; simpl; [done|].
  rewrite NoDup_cons. intros [Hk Hl]. specialize (IH Hl).
  destruct (P k r); simpl; [|done]. rewrite NoDup_cons. split; [|done].
  intros Hin. apply Hk. apply list_elem_of_fmap in Hin as ([k' r'] & -> & Hin).
  apply list_elem_of_In, filter_In in Hin as [Hin _].
  apply list_elem_of_fmap. exists (k', r'). split; [done|]. by apply list_elem_of_In.
Qed.

Lemma lookup_update_where P f t k :
  update_where P f t !! k = (λ r, if P k r then f r else r) <$> t !! k.
Proof. unfold update_where. rewrite map_lookup_imap. by destruct (t !! k). Qed.

Lemma lookup_delete_where P t k r :
  delete_where P t !! k = Some r ↔ t !! k = Some r ∧ P k r = false.
Proof. unfold delete_where. by rewrite map_lookup_filter_Some. Qed.

Lemma lookup_delete_where_None P t k :
  delete_where P t !! k = None ↔ ∀ r, t !! k = Some r → P k r = true.
Proof.
  unfold delete_where. rewrite map_lookup_filter_None. simpl.
  split.
  - intros [Hn|H] r Hr; [congruence|]. specialize (H r Hr). by destruct (P k r).
  - intros H. right. intros r Hr. by rewrite (H r Hr).
Qed.

Lemma delete_where_id P t :
  (∀ k r, t !! k = Some r → P k r = false) → delete_where P t = t.
Proof.
  intros H. apply map_eq. intros k. destruct (t !! k) as [r|] eqn:E.
  - apply lookup_delete_where. eauto.
  - apply lookup_delete_where_None. by intros r; rewrite E.
Qed.

Lemma update_where_id P f t :
  (∀ k r, t !! k = Some r → P k r = true → f r = r) → update_where P f t = t.
Proof.
  intros H. apply map_eq. intros k. rewrite lookup_update_where.
  destruct (t !! k) as [r|] eqn:E; simpl; [|done]. f_equal.
  destruct (P k r) eqn:HP; [|done]. eauto.
Qed.

(** [SELECT ... WHERE id = k], foreign keys. *)
Definition has_row t (k : Z) : bool := bool_decide (is_Some (t !! k)).

Lemma has_row_true t k : has_row t k = true ↔ is_Some (t !! k).
Proof. apply bool_decide_eq_true. Qed.
End sql.

(** ["x = ANY(ids)"] on a column, NULL matching nothing. *)
Definition any_of (ids : list Z) (x : option Z) : bool :=
  match x with Some n => bool_decide (n ∈ ids) | None => false end.

(** A foreign key of an inserted or updated row. *)
Definition check_fk {R} (tbl : TenantDB → gmap Z R) (id : Z) : DB unit :=
  t ← gets tbl; guard_or (has_row t id) (DatabaseError "violates foreign key constraint").
Definition check_fk_opt {R} (tbl : TenantDB → gmap Z R) (id : option Z) : DB unit :=
  match id with Some n => check_fk tbl n | None => mret tt end.
Definition check (b : bool) (msg : string) : DB unit := guard_or b (DatabaseError msg).

(** A value bound to an INTEGER column: 32 bits, signed. *)
Definition int4 (o : option Z) : bool :=
  match o with Some n => (- 2 ^ 31 <=? n) && (n <? 2 ^ 31) | None => true end.
Definition check_int4 (l : list (option Z)) : DB unit :=
  check (forallb int4 l) "value out of int32 range".

(** A value bound to a BIGINT: 64 bits, signed. *)
Definition in_int8 (n : Z) : bool := (- 2 ^ 63 <=? n) && (n <? 2 ^ 63).

(** [INSERT ... RETURNING id] into a table with a serial key. *)
Definition insert_serial {R} (tbl : TenantDB → gmap Z R) `{!Setter tbl} (r : R) : DB Z :=
  id ← gets nextid;
  modify (λ s, s <| tbl ::= <[id := r]> |> <| nextid := id + 1 |>) ;;
  mret id.

(** A user id as a query parameter: [parse_id] and asyncpg's encoding of a
    BIGINT. *)
Definition bind_bigint (v : pyid) : DB (option Z) :=
  match parse_id v with
  | PInt n => check ((- 2 ^ 63 <=? n) && (n <? 2 ^ 63)) "value out of int64 range" ;;
              mret (Some n)
  | PNone => mret None
  | _ => raise (DatabaseError "invalid input for query argument")
  end.
Definition bind_bigint_not_null (v : pyid) : DB Z :=
  o ← bind_bigint v; from_option_or o (DatabaseError "null value violates not-null constraint").

(** ** Well-formedness: serial keys are below the sequence *)
Definition ids_below {R} (n : Z) (t : gmap Z R) : Prop := ∀ k, is_Some (t !! k) → k < n.

Lemma ids_below_fresh {R} n (t : gmap Z R) : ids_below n t → t !! n = None.
Proof. intros H. apply eq_None_not_Some. intros Hn. specialize (H n Hn). lia. Qed.

Lemma ids_below_insert {R} n (t : gmap Z R) k r :
  ids_below n t → k < n → ids_below n (<[k := r]> t).
Proof. intros H Hk j. rewrite lookup_insert_is_Some. intros [->|[_ ?]]; auto. Qed.

Lemma ids_below_mono {R} n m (t : gmap Z R) : ids_below n t → n ≤ m → ids_below m t.
Proof. intros H Hm k Hk. specialize (H k Hk). lia. Qed.

Lemma ids_below_subset {R R'} n (t : gmap Z R) (t' : gmap Z R') :
  ids_below n t → (∀ k, is_Some (t' !! k) → is_Some (t !! k)) → ids_below n t'.
Proof. intros H Hsub k Hk. by apply H, Hsub. Qed.

Record wf_ids (s : TenantDB) : Prop := {
  wf_users : ids_below (nextid s) (users s);
  wf_levels : ids_below (nextid s) (levels s);
  wf_classes : ids_below (nextid s) (classes s);
  wf_events : ids_below (nextid s) (events s);
  wf_ecm : ids_below (nextid s) (event_class_map s);
  wf_enrollments : ids_below (nextid s) (enrollments s);
  wf_payments : ids_below (nextid s) (payments s);
  wf_resource_types : ids_below (nextid s) (resource_types s);
  wf_resources : ids_below (nextid s) (resources s);
  wf_costs : ids_below (nextid s) (resource_costs s);
  wf_years : ids_below (nextid s) (academic_years s);
  wf_rollovers : ids_below (nextid s) (rollovers s);
  wf_lines : ids_below (nextid s) (rollover_lines s);
}.

(** ** Logic of the primitives *)
Lemma wp_check_fk {R} (tbl : TenantDB → gmap Z R) id Q (E : exn → TenantDB → Prop) s :
  (is_Some (tbl s !! id) → Q tt s) →
  (tbl s !! id = None → E (DatabaseError "violates foreign key constraint") s) →
  wp (check_fk tbl id) Q E s.
Proof.
  intros HQ HE. unfold check_fk. wp_simpl. destruct (has_row (tbl s) id) eqn:Hr.
  - apply HQ. by apply has_row_true.
  - apply HE. apply eq_None_not_Some. by rewrite <-has_row_true, Hr.
Qed.

Lemma readonly_check_fk {R} (tbl : TenantDB → gmap Z R) id : readonly (check_fk tbl id).
Proof. intros s0 s ->. by apply wp_check_fk. Qed.

Lemma preserves_check_fk {R} I (tbl : TenantDB → gmap Z R) id : preserves I (check_fk tbl id).
Proof. unfold check_fk. auto 10 with pres. Qed.
Lemma preserves_check_fk_opt {R} I (tbl : TenantDB → gmap Z R) id :
  preserves I (check_fk_opt tbl id).
Proof. unfold check_fk_opt, check_fk. auto 10 with pres. Qed.
Lemma preserves_check I b msg : preserves I (check b msg).
Proof. unfold check. auto with pres. Qed.
Lemma preserves_bind_bigint I v : preserves I (bind_bigint v).
Proof. unfold bind_bigint, check. destruct (parse_id v); auto 10 with pres. Qed.
Lemma preserves_bind_bigint_not_null I v : preserves I (bind_bigint_not_null v).
Proof. unfold bind_bigint_not_null. auto 10 using preserves_bind_bigint with pres. Qed.

Lemma preserves_check_int4 I l : preserves I (check_int4 l).
Proof. apply preserves_check. Qed.

#[export] Hint Resolve preserves_check_int4 preserves_check_fk preserves_check_fk_opt preserves_check
  preserves_bind_bigint preserves_bind_bigint_not_null : pres.

(** [bind_bigint] on the ids the system itself hands out. *)
Lemma bind_bigint_int n s :
  - 2 ^ 63 ≤ n < 2 ^ 63 → bind_bigint (PInt n) s = (Ok (Some n), s).
Proof.
  intros Hn. unfold bind_bigint, check. simpl.
  replace ((- 2 ^ 63 <=? n) && (n <? 2 ^ 63)) with true by (symmetry; lia). done.
Qed.

(** A transaction that fails changes no table. *)
Lemma transaction_abort {A} (m : DB A) s e s' :
  transaction m s = (Raise e, s') → s' = s <| nextid := nextid s' |>.
Proof.
  unfold transaction. destruct (m s) as [[a|e'] s1]; [done|]. intros [= <- <-]. done.
Qed.

(** The empty schema, from which examples start. *)
Definition empty_db : TenantDB :=
  {| users := ∅; teachers := ∅; parenets := ∅; levels := ∅; classes := ∅;
     students := ∅; student_parent_map := ∅; events := ∅; event_class_map := ∅;
     enrollments := ∅; payments := ∅; notifications := []; resource_types := ∅;
     resources := ∅; resource_costs := ∅; class_history := []; academic_years := ∅;
     rollovers := ∅; rollover_lines := ∅; audit_log := []; academic_settings := ∅;
     blackout_dates := ∅; school_profile := ∅; school_campus := ∅; school_contact := ∅;
     event_feedback := ∅; student_health := ∅;
     tenant_mirror := {| mr_display_name := None; mr_school_code := None; mr_brand_color := None |};
     other_school_codes := []; payments_currency_default := None;
     nextid := 100; clock := 1000 |}.
