(* ===== verification/AuditLog.v ===== *)
(** * The audit log

    src/app/domains/audit/service.py and repository.py: what may be stored
    ([_METADATA_ALLOWLIST], [_sanitize_metadata]), the append
    ([AuditService.record]) and the keyset-paginated read
    ([AuditService.query]). The keyed hash of the actor's address
    ([_actor_email_hmac]) uses a secret key, so it is an argument of the
    operations. *)
From S2P Require Import Prelude PyText Authz Store.

Definition RETENTION_DAYS : Z := 730.
Definition SECONDS_PER_DAY : Z := 86400.

Definition _METADATA_ALLOWLIST (action : string) : list string :=
  if bool_decide (action = "student.health.read") then []
  else if bool_decide (action = "student.health.write") then ["fields_written"]
  else if bool_decide (action = "user.permissions.update")
  then ["new_primary_role"; "role_count"; "permission_count"]
  else if bool_decide (action = "user.delete") then ["deleted_role"; "was_super_admin"]
  else if bool_decide (action = "class.delete") then ["had_enrollment_history"]
  else if bool_decide (action = "level.delete") then ["class_count"]
  else if bool_decide (action = "payment.state_change") then ["from_state"; "to_state"]
  else if bool_decide (action = "resource.cost.update") then []
  else if bool_decide (action = "ticket_price.update") then []
  else if bool_decide (action = "subsidy.update") then []
  else if bool_decide (action = "rollover.commit")
  then ["line_count"; "from_year_id"; "to_year_id"]
  else if bool_decide (action = "tenant_override.cross_tenant_access")
  then ["target_tenant_id"]
  else [].

Definition _sanitize_metadata (action : string) (metadata : list (string * meta_value)) :
    list (string * meta_value) :=
  List.filter (λ kv, bool_decide (kv.1 ∈ _METADATA_ALLOWLIST action)) metadata.

(** An actor as [AuditService.record] reads it: [.id], [.role], [.email]. *)
Record audit_actor := {
  aa_id : pyid; aa_role : string; aa_email : option string }.

(** [_AuditActor(user_id, role)] of src/app/domains/tenant/service.py. *)
Definition _AuditActor (user_id : pyid) (role : role_arg) : audit_actor :=
  {| aa_id := user_id;
     aa_role := match role with
                | RList l => default "unknown" (head l)
                | RStr r => if bool_decide (r = "") then "unknown" else r
                | RNone => "unknown"
                end;
     aa_email := None |}.

(** [raw_id is not None and str(raw_id).isdigit()], then [int(raw_id)]. *)
Definition audit_actor_id (v : pyid) : option Z :=
  match v with
  | PInt n => if 0 <=? n then Some n else None
  | PStr s => if str_isdigit s then py_int 10 s else None
  | PUuid _ | PNone => None
  end.

Section audit.
(** [_actor_email_hmac] on an address that is present. *)
Context (email_hmac : string → string).

Definition _actor_email_hmac (email : option string) : option string :=
  match email with
  | Some e => if bool_decide (e = "") then None else Some (email_hmac (str_lower (str_strip e)))
  | None => None
  end.

Definition record (actor : option audit_actor) (action entity_type : string)
    (entity_id : option string) (outcome : string)
    (changed_fields : option (list string)) (metadata : list (string * meta_value)) :
    DB Z :=
  now ← gets clock;
  let actor_role := match actor with
                    | None => "system"
                    | Some a => if bool_decide (aa_role a = "") then "unknown" else aa_role a
                    end in
  let actor_user_id := actor ≫= λ a, audit_actor_id (aa_id a) in
  check_fk_opt users actor_user_id ;;
  check (bool_decide (outcome ∈ ["allow"; "deny"; "error"])) "audit_log_outcome_check" ;;
  id ← gets nextid;
  modify (λ s, s <| audit_log ::= λ l, l ++ [
    {| au_id := id; au_occurred_at := now; au_actor := actor_user_id;
       au_email_hmac := _actor_email_hmac (actor ≫= aa_email); au_role := actor_role;
       au_action := action; au_entity_type := entity_type; au_entity_id := entity_id;
       au_outcome := outcome; au_changed := changed_fields;
       au_metadata := _sanitize_metadata action metadata;
       au_retention := (now + RETENTION_DAYS * SECONDS_PER_DAY) / SECONDS_PER_DAY |} ] |>
    <| nextid := id + 1 |>) ;;
  mret id.
End audit.

(** ** [AuditRepository.list_entries] *)
Record audit_filter := {
  af_action : option string; af_entity_type : option string;
  af_entity_id : option string; af_actor : option Z;
  af_from : option Z; af_to : option Z; af_before_id : option Z }.

(** One optional condition of the WHERE clause; NULL columns match nothing. *)
Definition cond {A} (f : option A) (holds : A → bool) : bool :=
  match f with Some v => holds v | None => true end.
Definition eq_opt {A} `{EqDecision A} (x : option A) (v : A) : bool := bool_decide (x = Some v).

Definition audit_matches (f : audit_filter) (r : audit_row) : bool :=
  cond (af_action f) (λ v, bool_decide (au_action r = v)) &&
  cond (af_entity_type f) (λ v, bool_decide (au_entity_type r = v)) &&
  cond (af_entity_id f) (eq_opt (au_entity_id r)) &&
  cond (af_actor f) (eq_opt (au_actor r)) &&
  cond (af_from f) (λ v, v <=? au_occurred_at r) &&
  cond (af_to f) (λ v, au_occurred_at r <=? v) &&
  cond (af_before_id f) (λ v, au_id r <? v).

Definition newest_first (a b : audit_row) : Prop := au_id b ≤ au_id a.
#[export] Instance newest_first_dec a b : Decision (newest_first a b).
Proof. unfold newest_first. apply _. Defined.
#[export] Instance newest_first_trans : Transitive newest_first.
Proof. intros a b c. unfold newest_first. lia. Qed.
#[export] Instance newest_first_total : Total newest_first.
Proof. intros a b. unfold newest_first. lia. Qed.

(** The numbers that the driver encodes as BIGINT. *)
Definition filter_fits (f : audit_filter) : bool :=
  cond (af_actor f) in_int8 && cond (af_before_id f) in_int8.

Definition list_entries (f : audit_filter) (limit : Z) : DB (list audit_row) :=
  check (filter_fits f) "value out of int64 range" ;;
  rows ← gets audit_log;
  if limit <? 0 then raise (DatabaseError "LIMIT must not be negative")
  else mret (take (Z.to_nat limit)
               (merge_sort newest_first (List.filter (audit_matches f) rows))).

(** [AuditService.query]: at most 200 rows. *)
Definition query (f : audit_filter) (limit : Z) : DB (list audit_row) :=
  list_entries f (Z.min limit 200).

Definition no_filter : audit_filter :=
  {| af_action := None; af_entity_type := None; af_entity_id := None; af_actor := None;
     af_from := None; af_to := None; af_before_id := None |}.

(** ** Properties *)
Lemma sanitize_metadata_allowed action md k v :
  (k, v) ∈ _sanitize_metadata action md ↔ k ∈ _METADATA_ALLOWLIST action ∧ (k, v) ∈ md.
Proof.
  unfold _sanitize_metadata. rewrite list_elem_of_In, filter_In, <-list_elem_of_In.
  rewrite bool_decide_eq_true. simpl. tauto.
Qed.

Lemma record_run h actor action et eid outcome cf md s :
  match record h actor action et eid outcome cf md s with
  | (Ok id, s') => ∃ row,
      s' = s <| audit_log ::= λ l, l ++ [row] |> <| nextid := nextid s + 1 |> ∧
      au_id row = id ∧ id = nextid s ∧ au_action row = action ∧
      au_metadata row = _sanitize_metadata action md ∧
      au_retention row = (clock s + RETENTION_DAYS * SECONDS_PER_DAY) / SECONDS_PER_DAY
  | (Raise e, s') => s' = s ∧ ∃ msg, e = DatabaseError msg
  end.
Proof.
  change (wp (record h actor action et eid outcome cf md)
    (λ id s', ∃ row,
      s' = s <| audit_log ::= λ l, l ++ [row] |> <| nextid := nextid s + 1 |> ∧
      au_id row = id ∧ id = nextid s ∧ au_action row = action ∧
      au_metadata row = _sanitize_metadata action md ∧
      au_retention row = (clock s + RETENTION_DAYS * SECONDS_PER_DAY) / SECONDS_PER_DAY)
    (λ e s', s' = s ∧ ∃ msg, e = DatabaseError msg) s).
  unfold record. wp_simpl.
  assert (∀ Q : unit → TenantDB → Prop, Q tt s →
    wp (check_fk_opt users (actor ≫= λ a, audit_actor_id (aa_id a))) Q
      (λ e s', s' = s ∧ ∃ msg, e = DatabaseError msg) s) as Hfk.
  { intros Q HQ. destruct (actor ≫= _); simpl; [|by wp_simpl].
    apply wp_check_fk; eauto. }
  apply Hfk. unfold check. wp_simpl. destruct (bool_decide _); [|eauto].
  wp_simpl. eexists. split_and!; try done.
Qed.

Lemma wp_record h actor action et eid outcome cf md s
    (Q : Z → TenantDB → Prop) (E : exn → TenantDB → Prop) :
  (∀ row, au_action row = action → au_metadata row = _sanitize_metadata action md →
     Q (nextid s) (s <| audit_log ::= λ l, l ++ [row] |> <| nextid := nextid s + 1 |>)) →
  (∀ msg, E (DatabaseError msg) s) →
  wp (record h actor action et eid outcome cf md) Q E s.
Proof.
  intros HQ HE. pose proof (record_run h actor action et eid outcome cf md s) as H.
  unfold wp. destruct (record _ _ _ _ _ _ _ _ s) as [[id|e] s'].
  - destruct H as (row & -> & _ & -> & Ha & Hm & _). by apply HQ.
  - destruct H as [-> [msg ->]]. apply HE.
Qed.

Lemma retention_bound c :
  c + 729 * SECONDS_PER_DAY
    < (c + RETENTION_DAYS * SECONDS_PER_DAY) / SECONDS_PER_DAY * SECONDS_PER_DAY
    ≤ c + 730 * SECONDS_PER_DAY.
Proof.
  unfold RETENTION_DAYS, SECONDS_PER_DAY.
  pose proof (Z.div_mod (c + 730 * 86400) 86400 ltac:(lia)).
  pose proof (Z.mod_pos_bound (c + 730 * 86400) 86400 ltac:(lia)). lia.
Qed.

(** The audit log only grows and carries no field that was not allowed.
    A recorded entry is appended after the existing ones, which stay as they
    are; its metadata holds exactly the given keys that are allow-listed for its
    action, with their values; and it is retained until the day that begins
    between 729 and 730 days later. *)
Theorem audit_record_appends_sanitized h actor action et eid outcome cf md s id s' :
  record h actor action et eid outcome cf md s = (Ok id, s') →
  ∃ row, audit_log s' = audit_log s ++ [row] ∧ au_action row = action ∧
    (∀ k v, (k, v) ∈ au_metadata row ↔
       k ∈ _METADATA_ALLOWLIST action ∧ (k, v) ∈ md) ∧
    clock s + 729 * SECONDS_PER_DAY < au_retention row * SECONDS_PER_DAY
      ≤ clock s + 730 * SECONDS_PER_DAY.
Proof.
  intros Hrun. pose proof (record_run h actor action et eid outcome cf md s) as H.
  rewrite Hrun in H. destruct H as (row & -> & _ & _ & Ha & Hm & Hr).
  exists row. split_and!; [done|done| | |].
  - rewrite Hm. intros k v. apply sanitize_metadata_allowed.
  - rewrite Hr. pose proof (retention_bound (clock s)). lia.
  - rewrite Hr. pose proof (retention_bound (clock s)). lia.
Qed.

Lemma audit_record_appends_sanitized_witness :
  let md := [("class_count", MInt 3); ("email", MStr "sam@s.edu")] in
  let s' := (record (λ e, e) None "level.delete" "level" None "allow" None md
               empty_db).2 in
  ∃ row, audit_log s' = audit_log empty_db ++ [row] ∧ au_action row = "level.delete" ∧
    (∀ k v, (k, v) ∈ au_metadata row ↔
       k ∈ _METADATA_ALLOWLIST "level.delete" ∧ (k, v) ∈ md) ∧
    clock empty_db + 729 * SECONDS_PER_DAY < au_retention row * SECONDS_PER_DAY
      ≤ clock empty_db + 730 * SECONDS_PER_DAY.
Proof.
  intros md s'. apply (audit_record_appends_sanitized (λ e, e) None "level.delete"
    "level" None "allow" None md empty_db 100 s').
  reflexivity.
Defined.

(** A page of the audit log. A query with a non-negative limit and numbers
    of 64 bits answers with the newest entries that satisfy the filter: sorted by descending id,
    at most 200 of them, every one of them a stored entry that matches, and a
    matching entry left out is not newer than any entry of the page. *)
Theorem audit_query_page f limit s :
  0 ≤ limit → filter_fits f = true →
  ∃ rows, query f limit s = (Ok rows, s) ∧
    Sorted newest_first rows ∧
    Z.of_nat (List.length rows) ≤ Z.min limit 200 ∧
    (∀ r, r ∈ rows → r ∈ audit_log s ∧ audit_matches f r = true) ∧
    (∀ r r', r ∈ rows → r' ∈ audit_log s → audit_matches f r' = true →
       r' ∈ rows ∨ au_id r' ≤ au_id r).
Proof.
  intros Hl Hf. unfold query, list_entries, check. rewrite Hf.
  set (all := merge_sort newest_first (List.filter (audit_matches f) (audit_log s))).
  set (n := Z.to_nat (Z.min limit 200)).
  exists (take n all).
  assert (Sorted newest_first all) as Hsorted by apply (Sorted_merge_sort _).
  assert (∀ r, r ∈ all ↔ r ∈ audit_log s ∧ audit_matches f r = true) as Hall.
  { intros r. unfold all. rewrite (merge_sort_Permutation _ _).
    by rewrite list_elem_of_In, filter_In, <-list_elem_of_In. }
  rewrite <-(take_drop n all) in Hsorted.
  apply (Sorted_StronglySorted _) in Hsorted.
  split_and!.
  - unfold mbind, M_bind, guard_or, mret, M_ret, gets. replace (Z.min limit 200 <? 0) with false by lia. done.
  - apply StronglySorted_Sorted. by eapply StronglySorted_app_1_l.
  - rewrite length_take. lia.
  - intros r Hr. apply Hall. eapply elem_of_take in Hr as (i & Hi & _).
    by eapply list_elem_of_lookup_2.
  - intros r r' Hr Hin Hm.
    assert (r' ∈ take n all ++ drop n all) as Hr' by (rewrite take_drop; by apply Hall).
    apply elem_of_app in Hr' as [?|Hd]; [by left|right].
    by apply (StronglySorted_app_1_elem_of _ _ _ r r' Hsorted).
Qed.

Lemma audit_query_page_witness :
  ∃ rows, query no_filter 500 empty_db = (Ok rows, empty_db) ∧
    Sorted newest_first rows ∧
    Z.of_nat (List.length rows) ≤ Z.min 500 200 ∧
    (∀ r, r ∈ rows → r ∈ audit_log empty_db ∧ audit_matches no_filter r = true) ∧
    (∀ r r', r ∈ rows → r' ∈ audit_log empty_db → audit_matches no_filter r' = true →
       r' ∈ rows ∨ au_id r' ≤ au_id r).
Proof. apply (audit_query_page no_filter 500 empty_db); [lia|reflexivity]. Defined.
