(* ===== verification/Trail.v ===== *)
(** * Reading the audit trail

    The endpoint GET /audit (src/app/domains/audit/router.py), which answers
    one page and the key of the next, and a client that follows the keys.
    [require_permission] (OPA) has run. *)
From S2P Require Import Prelude PyText Store AuditLog.

Record page := { pg_items : list audit_row; pg_next : option Z }.

(** [limit] is validated against 200 only from above. *)
Definition query_audit_log (f : audit_filter) (limit : Z) : DB page :=
  guard_or (limit <=? 200) (HTTPException 422 "Input should be less than or equal to 200") ;;
  entries ← query f limit;
  next_before_id ← (if Z.of_nat (List.length entries) =? limit
    then last_id ← from_option_or (last entries) (TypeError "list index out of range"); mret (Some (au_id last_id))
    else mret None);
  mret {| pg_items := entries; pg_next := next_before_id |}.

Definition before (b : Z) (f : audit_filter) : audit_filter :=
  {| af_action := af_action f; af_entity_type := af_entity_type f; af_entity_id := af_entity_id f;
     af_actor := af_actor f; af_from := af_from f; af_to := af_to f; af_before_id := Some b |}.

(** A client that asks for page after page, at most [n] of them; [None] when
    more would be needed. *)
Fixpoint read_pages (n : nat) (f : audit_filter) (limit : Z) : DB (option (list audit_row)) :=
  match n with
  | O => mret None
  | S n =>
      p ← query_audit_log f limit;
      match pg_next p with
      | None => mret (Some (pg_items p))
      | Some b => rest ← read_pages n (before b f) limit; mret (app (pg_items p) <$> rest)
      end
  end.

(** The whole answer: the entries that match, newest first. *)
Definition trail (f : audit_filter) (s : TenantDB) : list audit_row :=
  merge_sort newest_first (List.filter (audit_matches f) (audit_log s)).

(** The key is a BIGSERIAL: no two entries share it, and it has 64 bits. *)
Definition ids_unique (s : TenantDB) : Prop := NoDup (au_id <$> audit_log s).
Definition ids_fit (s : TenantDB) : Prop := ∀ r, r ∈ audit_log s → in_int8 (au_id r) = true.

Lemma trail_elem f s r : r ∈ trail f s ↔ r ∈ audit_log s ∧ audit_matches f r = true.
Proof. unfold trail. rewrite merge_sort_Permutation. by rewrite list_elem_of_In, filter_In, <-list_elem_of_In. Qed.

Lemma unique_rows s r r' : ids_unique s → r ∈ audit_log s → r' ∈ audit_log s → au_id r = au_id r' → r = r'.
Proof.
  intros Hu [i Hi]%list_elem_of_lookup [j Hj]%list_elem_of_lookup Heq.
  assert (i = j) as ->.
  { eapply (NoDup_lookup _ _ _ (au_id r)); [exact Hu|..]; rewrite list_lookup_fmap; [by rewrite Hi|by rewrite Hj, Heq]. }
  congruence.
Qed.

Lemma trail_sorted f s : StronglySorted newest_first (trail f s).
Proof. apply (Sorted_StronglySorted _), (Sorted_merge_sort _). Qed.

Lemma trail_nodup f s : ids_unique s → NoDup (trail f s).
Proof.
  intros Hu. unfold trail. rewrite merge_sort_Permutation. apply NoDup_ListNoDup, List.NoDup_filter, NoDup_ListNoDup.
  by eapply NoDup_fmap_1.
Qed.

Lemma matches_before b f r :
  (match af_before_id f with Some b0 => b ≤ b0 | None => True end) →
  audit_matches (before b f) r = audit_matches f r && (au_id r <? b).
Proof.
  intros Hb. unfold audit_matches. cbn [before af_action af_entity_type af_entity_id af_actor af_from af_to af_before_id].
  rewrite <-(andb_assoc _ (cond (af_before_id f) _)). f_equal. unfold cond. destruct (af_before_id f) as [b0|]; [|done].
  destruct (Z.ltb_spec (au_id r) b), (Z.ltb_spec (au_id r) b0); done || lia.
Qed.

Lemma fits_before b f : filter_fits f = true → in_int8 b = true → filter_fits (before b f) = true.
Proof. unfold filter_fits. cbn. intros [-> _]%andb_true_iff ->. done. Qed.

(** Once past a row of the trail, what is left is the trail before it. *)
Lemma trail_before f s pre x post :
  ids_unique s → trail f s = pre ++ x :: post → trail (before (au_id x) f) s = post.
Proof.
  intros Hu Heq. pose proof (trail_sorted f s) as Hs. pose proof (trail_nodup f s Hu) as Hn. rewrite Heq in Hs, Hn.
  assert (∀ r, r ∈ pre ++ x :: post ↔ r ∈ audit_log s ∧ audit_matches f r = true) as Hin by (intros r; by rewrite <-Heq, trail_elem).
  assert (∀ r, r ∈ pre → au_id x ≤ au_id r) as Hpre.
  { intros r Hr. eapply (StronglySorted_app_1_elem_of _ _ _ r x Hs); [exact Hr|left]. }
  assert (x ∈ audit_log s ∧ audit_matches f x = true) as [Hxl Hxm] by (apply Hin, elem_of_app; right; left).
  apply StronglySorted_app_1_r in Hs. apply StronglySorted_inv in Hs as [Hpost Hx]. rewrite Forall_forall in Hx.
  apply NoDup_app in Hn as (_ & Hdis & [Hnx Hnp]%NoDup_cons).
  assert (∀ r, r ∈ post → au_id r < au_id x) as Hlt.
  { intros r Hr. specialize (Hx r Hr). unfold newest_first in Hx.
    assert (au_id r ≠ au_id x); [|lia]. intros He. apply Hnx. replace x with r; [done|].
    apply (unique_rows s); [done| |done|done]. apply Hin, elem_of_app. right. by right. }
  assert (match af_before_id f with Some b0 => au_id x ≤ b0 | None => True end) as Hb.
  { unfold audit_matches in Hxm. destruct (af_before_id f); [|done]. cbn in Hxm. apply andb_true_iff in Hxm as [_ ?%Z.ltb_lt]. lia. }
  apply (StronglySorted_unique_strong newest_first); [|apply trail_sorted|exact Hpost|].
  - intros r r' Hr Hr' H1 H2. unfold newest_first in *. apply (unique_rows s); [done| | |lia].
    + by apply trail_elem in Hr as [? _].
    + apply Hin, elem_of_app. right. by right.
  - apply NoDup_Permutation; [by apply trail_nodup|done|]. intros r.
    rewrite trail_elem, matches_before, andb_true_iff, Z.ltb_lt by done. split.
    + intros (Hl & Hm & Hr). assert (r ∈ pre ++ x :: post) as [H|[-> |H]%elem_of_cons]%elem_of_app by (by apply Hin); [|lia|done].
      specialize (Hpre r H). lia.
    + intros Hr. assert (r ∈ audit_log s ∧ audit_matches f r = true) as [? ?] by (apply Hin, elem_of_app; right; by right).
      split_and!; [done|done|by apply Hlt].
Qed.

(** A page is a prefix of the trail, and names its last row when it is full. *)
Lemma query_page f limit s :
  0 < limit ≤ 200 → filter_fits f = true →
  wp (query_audit_log f limit) (λ p s', s' = s ∧
    p = {| pg_items := take (Z.to_nat limit) (trail f s);
           pg_next := if Z.of_nat (List.length (trail f s)) <? limit then None
                      else au_id <$> last (take (Z.to_nat limit) (trail f s)) |}) (λ _ _, False) s.
Proof.
  intros Hl Hf. unfold query_audit_log, query, list_entries, check. rewrite Hf, wp_bind, wp_guard_or.
  replace (limit <=? 200) with true by lia. rewrite Z.min_l by lia. replace (limit <? 0) with false by lia. wp_simpl.
  fold (trail f s). rewrite length_take.
  destruct (Z.ltb_spec (Z.of_nat (List.length (trail f s))) limit) as [Hlt|Hge].
  - assert (Z.of_nat (Z.to_nat limit `min` List.length (trail f s)) ≠ limit) as ->%Z.eqb_neq by lia. by wp_simpl.
  - assert (Z.of_nat (Z.to_nat limit `min` List.length (trail f s)) = limit) as ->%Z.eqb_eq by lia. wp_simpl.
    destruct (last (take (Z.to_nat limit) (trail f s))) as [x|] eqn:Hlast; [done|].
    apply last_None in Hlast. apply (f_equal List.length) in Hlast. rewrite length_take in Hlast. cbn in Hlast. lia.
Qed.

Lemma query_refused f limit s :
  limit ≤ 200 → filter_fits f = false →
  query_audit_log f limit s = (Raise (DatabaseError "value out of int64 range"), s).
Proof.
  intros Hl Hf. unfold query_audit_log, query, list_entries, check, guard_or, mbind, M_bind, mret, M_ret.
  rewrite Hf. by replace (limit <=? 200) with true by lia.
Qed.

Lemma wp_run {S A} (m : M S A) a s : wp m (λ b s', s' = s ∧ b = a) (λ _ _, False) s → m s = (Ok a, s).
Proof. unfold wp. destruct (m s) as [[b|e] s']; [|done]. by intros [-> ->]. Qed.

(** C25: paging through the audit trail ends and loses nothing. With a page
    size from 1 to 200, following the keys of the next pages stops after at
    most one page more than the matching entries fill, and the pages put
    together are all the entries that match, newest first, each once. A filter
    on a number that no BIGINT column holds fails in the database, on the
    first page. *)
Theorem paging_ends f limit s n :
  ids_unique s → ids_fit s → 0 < limit ≤ 200 → Z.of_nat (List.length (trail f s)) < Z.of_nat n * limit →
  read_pages n f limit s =
    (if filter_fits f then Ok (Some (trail f s)) else Raise (DatabaseError "value out of int64 range"), s) ∧
  NoDup (trail f s).
Proof.
  intros Hu Hi Hl Hn. split; [|by apply trail_nodup]. destruct (filter_fits f) eqn:Hf.
  2: { destruct n as [|n]; [lia|]. cbn [read_pages]. unfold mbind, M_bind. by rewrite query_refused by (lia || done). }
  revert f Hf Hn. induction n as [|n IH]; intros f Hf Hn; [lia|].
  cbn [read_pages]. unfold mbind, M_bind. rewrite (wp_run _ _ _ (query_page f limit s Hl Hf)). cbn [pg_next pg_items].
  destruct (Z.ltb_spec (Z.of_nat (List.length (trail f s))) limit) as [Hlt|Hge].
  - unfold mret, M_ret. rewrite take_ge by lia. done.
  - destruct (last (take (Z.to_nat limit) (trail f s))) as [x|] eqn:Hlast.
    + cbn [fmap option_fmap option_map]. apply last_Some in Hlast as [pre Hpre].
      assert (trail f s = pre ++ x :: drop (Z.to_nat limit) (trail f s)) as Heq.
      { rewrite <-(take_drop (Z.to_nat limit) (trail f s)) at 1. rewrite Hpre, <-app_assoc. done. }
      assert (trail (before (au_id x) f) s = drop (Z.to_nat limit) (trail f s)) as Hrest by by eapply trail_before.
      assert (x ∈ audit_log s) as Hx.
      { apply (trail_elem f). rewrite Heq. apply elem_of_app. right. left. }
      rewrite IH; [|by apply fits_before, Hi|rewrite Hrest, length_drop; lia]. unfold mret, M_ret. cbn. by rewrite Hrest, take_drop.
    + apply last_None in Hlast. apply (f_equal List.length) in Hlast. rewrite length_take in Hlast. cbn in Hlast. lia.
Qed.

(** ** A concrete trail *)
Definition demo_entry (id : Z) (action : string) : audit_row :=
  {| au_id := id; au_occurred_at := 10 * id; au_actor := Some 5; au_email_hmac := None; au_role := "school_admin";
     au_action := action; au_entity_type := "level"; au_entity_id := Some "11"; au_outcome := "allow";
     au_changed := None; au_metadata := []; au_retention := 730 |}.
Definition demo_trail : TenantDB := empty_db
  <| audit_log := [demo_entry 1 "level.create"; demo_entry 2 "level.update"; demo_entry 3 "level.create";
                   demo_entry 4 "level.create"] |>.
Definition creations : audit_filter :=
  {| af_action := Some "level.create"; af_entity_type := None; af_entity_id := None; af_actor := None;
     af_from := None; af_to := None; af_before_id := None |}.

Lemma paging_ends_witness :
  au_id <$> trail creations demo_trail = [4; 3; 1] ∧
  read_pages 2 creations 2 demo_trail = (Ok (Some (trail creations demo_trail)), demo_trail).
Proof.
  assert (au_id <$> trail creations demo_trail = [4; 3; 1]) as H by (vm_compute; reflexivity).
  split; [exact H|]. apply (paging_ends creations 2 demo_trail 2).
  - apply (bool_decide_eq_true_1 _). vm_compute. reflexivity.
  - intros r Hr. repeat (apply elem_of_cons in Hr as [-> |Hr]; [reflexivity|]). by apply not_elem_of_nil in Hr.
  - lia.
  - apply (f_equal List.length) in H. rewrite length_fmap in H. rewrite H. reflexivity.
Defined.

(** A page size of zero is accepted, and then [entries[-1]] of an empty page
    raises; so does a negative LIMIT, in the database. *)
Example unbounded_below :
  ((query_audit_log no_filter 0 demo_trail).1, (query_audit_log no_filter (-1) demo_trail).1)
  = (Raise (TypeError "list index out of range"), Raise (DatabaseError "LIMIT must not be negative")).
Proof. vm_compute. reflexivity. Qed.
