(* ===== verification/AcademicRepo.v ===== *)
(** * Levels, classes, placements: the repository

    The academic part of [TenantRepository]
    (src/app/domains/tenant/tenant_repository.py): grade levels, class
    sections, academic years, the placement of students in classes and its
    history log, and the deletions with the cascades the schema declares. *)
From S2P Require Import Prelude PyText Store.

(** [UNSET]: "not mentioned", as opposed to an explicit [None]. *)
Inductive update (A : Type) := UNSET | Set_to (v : A).
Arguments UNSET {A}.
Arguments Set_to {A} v.

(** [int(capacity or 25)], [parse_id(x) if x else None] on integers. *)
Definition or_default (o : option Z) (d : Z) : Z :=
  match o with Some n => if n =? 0 then d else n | None => d end.
Definition truthy_int (o : option Z) : option Z :=
  match o with Some n => if n =? 0 then None else Some n | None => None end.
Definition opt_or {A} (o : option A) (d : A) : A := match o with Some v => v | None => d end.
Definition opt_or_opt {A} (o d : option A) : option A :=
  match o with Some v => Some v | None => d end.

(** ** Levels *)
Definition create_level (name : string) (isced age_min age_max ordinal : option Z)
    (active : bool) : DB Z :=
  check_int4 [isced; age_min; age_max; ordinal] ;;
  insert_serial levels
    {| lv_name := name; lv_isced := isced; lv_age_min := age_min; lv_age_max := age_max;
       lv_ordinal := ordinal; lv_active := active |}.

Definition get_level_by_name (name : string) : DB (option (Z * level_row)) :=
  t ← gets levels;
  mret (head (select (λ _ r, bool_decide (str_lower (lv_name r) = str_lower (str_strip name))) t)).

Definition get_level_by_id (id : Z) : DB (option level_row) :=
  t ← gets levels; mret (t !! id).

(** ORDER BY COALESCE(ordinal, 999), level_id *)
Definition level_le (a b : Z * level_row) : Prop :=
  opt_or (lv_ordinal a.2) 999 < opt_or (lv_ordinal b.2) 999 ∨
  opt_or (lv_ordinal a.2) 999 = opt_or (lv_ordinal b.2) 999 ∧ a.1 ≤ b.1.
#[export] Instance level_le_dec a b : Decision (level_le a b).
Proof. unfold level_le. apply _. Defined.

Definition get_all_levels : DB (list (Z * level_row)) :=
  t ← gets levels; mret (merge_sort level_le (map_to_list t)).

Definition update_level (level_id : Z) (name : option string)
    (isced age_min age_max ordinal : option Z) (is_active : option bool) :
    DB (option level_row) :=
  current ← get_level_by_id level_id;
  cur ← from_option_or current (ValueError ("Level " +:+ pretty level_id +:+ " not found"));
  let row := {| lv_name := match name with Some n => str_strip n | None => lv_name cur end;
                lv_isced := opt_or_opt isced (lv_isced cur);
                lv_age_min := opt_or_opt age_min (lv_age_min cur);
                lv_age_max := opt_or_opt age_max (lv_age_max cur);
                lv_ordinal := opt_or_opt ordinal (lv_ordinal cur);
                lv_active := opt_or is_active (lv_active cur) |} in
  check_int4 [lv_isced row; lv_age_min row; lv_age_max row; lv_ordinal row] ;;
  modify (λ s, s <| levels ::= <[level_id := row]> |>) ;;
  get_level_by_id level_id.

Inductive upsert_action := created | updated.

Definition upsert_level_by_name (name : string) (isced age_min age_max ordinal : option Z)
    (is_active : bool) : DB (Z * upsert_action) :=
  existing ← get_level_by_name name;
  match existing with
  | Some (id, _) =>
      update_level id (Some name) isced age_min age_max ordinal (Some is_active) ;;
      mret (id, updated)
  | None =>
      id ← create_level name (Some (opt_or isced 1)) (Some (opt_or age_min 6))
             (Some (opt_or age_max 7)) (Some (opt_or ordinal 1)) is_active;
      mret (id, created)
  end.

(** ** Academic years *)
Definition get_active_academic_year_id : DB (option Z) :=
  t ← gets academic_years;
  mret (fst <$> head (select (λ _ r, bool_decide (ye_status r = "active")) t)).

Definition get_academic_year_by_id (id : Z) : DB (option year_row) :=
  t ← gets academic_years; mret (t !! id).

Definition create_academic_year (name : string) (start_date end_date : option Z) : DB Z :=
  insert_serial academic_years
    {| ye_name := str_strip name; ye_status := "planned"; ye_start := start_date;
       ye_end := end_date; ye_rolled_from := None |}.

(** ** Classes

    The constraints of a row about to be stored as class [id] (a fresh id for
    an insertion): foreign keys, [capacity > 0], UNIQUE (name, year). *)
Definition check_class (id : Z) (r : class_row) : DB unit :=
  check_int4 [Some (cl_capacity r)] ;;
  check_fk levels (cl_level r) ;;
  check_fk_opt teachers (cl_head r) ;;
  check_fk academic_years (cl_year r) ;;
  check (0 <? cl_capacity r) "class_capacity_positive" ;;
  t ← gets classes;
  check (forallb (λ kv : Z * class_row, (kv.1 =? id) || negb (bool_decide (cl_name kv.2 = cl_name r))
                          || negb (cl_year kv.2 =? cl_year r)) (map_to_list t))
    "class_name_academic_year_unique".

Definition resolve_year (academic_year_id : option Z) : DB (option Z) :=
  match truthy_int academic_year_id with
  | Some y => mret (Some y)
  | None => get_active_academic_year_id
  end.

Definition no_active_year : exn := ValueError "No active academic year is set for this tenant".

Definition create_class (name : string) (level_id : Z) (head_teacher_id : option Z)
    (capacity : option Z) (is_active : bool) (academic_year_id : option Z) : DB Z :=
  ay ← resolve_year academic_year_id;
  ay_id ← from_option_or ay no_active_year;
  let clean_name := str_strip name in
  let row := {| cl_name := clean_name; cl_level := level_id;
                cl_head := truthy_int head_teacher_id;
                cl_capacity := or_default capacity 25; cl_active := is_active;
                cl_year := ay_id; cl_section := _derive_section_label clean_name |} in
  id ← gets nextid;
  check_class id row ;;
  insert_serial classes row.

Definition get_class_by_id (id : Z) : DB (option class_row) :=
  t ← gets classes; mret (t !! id).

Definition get_class_by_name_and_level (name : string) (level_id : Z)
    (academic_year_id : option Z) : DB (option (Z * class_row)) :=
  ay_id ← resolve_year academic_year_id;
  t ← gets classes;
  mret (head (select (λ _ r,
    bool_decide (str_lower (cl_name r) = str_lower (str_strip name)) &&
    (cl_level r =? level_id) && bool_decide (Some (cl_year r) = ay_id)) t)).

Definition update_class (class_id : Z) (name : option string) (level_id : option Z)
    (head_teacher_id : update (option Z)) (capacity : option Z) (is_active : option bool) :
    DB (option class_row) :=
  current ← get_class_by_id class_id;
  cur ← from_option_or current (ValueError ("Class " +:+ pretty class_id +:+ " not found"));
  let new_name := match name with Some n => str_strip n | None => cl_name cur end in
  let row := {| cl_name := new_name; cl_level := opt_or level_id (cl_level cur);
                cl_head := match head_teacher_id with UNSET => cl_head cur | Set_to h => h end;
                cl_capacity := opt_or capacity (cl_capacity cur);
                cl_active := opt_or is_active (cl_active cur); cl_year := cl_year cur;
                cl_section := _derive_section_label new_name |} in
  check_class class_id row ;;
  modify (λ s, s <| classes ::= <[class_id := row]> |>) ;;
  get_class_by_id class_id.

Definition upsert_class_by_name_and_level (name : string) (level_id : Z)
    (head_teacher_id : update (option Z)) (capacity : option Z) (is_active : bool)
    (academic_year_id : option Z) : DB (Z * upsert_action) :=
  ay ← resolve_year academic_year_id;
  ay_id ← from_option_or ay no_active_year;
  existing ← get_class_by_name_and_level name level_id (Some ay_id);
  match existing with
  | Some (id, _) =>
      update_class id (Some name) (Some level_id) head_teacher_id capacity (Some is_active) ;;
      mret (id, updated)
  | None =>
      id ← create_class name level_id
             (match head_teacher_id with UNSET => None | Set_to h => h end)
             (Some (opt_or capacity 25)) is_active (Some ay_id);
      mret (id, created)
  end.

Definition get_classes_by_head_teacher (teacher_id : pyid) : DB (list (Z * class_row)) :=
  tid ← bind_bigint teacher_id;
  t ← gets classes;
  mret (match tid with
        | Some n => by_id (select (λ _ r, bool_decide (cl_head r = Some n)) t)
        | None => []
        end).

(** ** Placement and its history *)
Definition truthy_id (changed_by : pyid) : pyid :=
  if pyid_truthy changed_by then changed_by else PNone.

Definition _record_class_change (student_id : Z) (old_class_id new_class_id : option Z)
    (changed_by : pyid) : DB unit :=
  by_id ← bind_bigint (truthy_id changed_by);
  check_fk students student_id ;;
  check_fk_opt classes old_class_id ;;
  check_fk_opt classes new_class_id ;;
  check_fk_opt users by_id ;;
  modify (λ s, s <| class_history ::= λ l, l ++
    [{| hi_student := student_id; hi_old := old_class_id; hi_new := new_class_id;
        hi_by := by_id |}] |>).

Definition set_student_class (cid : option Z) (sid : Z) : DB unit :=
  check_fk_opt classes cid ;;
  modify (λ s, s <| students ::= alter (λ r, r <| st_class := cid |>) sid |>).

Definition create_student (user_id : pyid) (name : string) (class_id : option Z)
    (gender birth_data : option string) (changed_by : pyid) : DB pyid :=
  u_id ← bind_bigint_not_null user_id;
  let new_cid := truthy_int class_id in
  transaction (
    t ← gets students;
    let existing := t !! u_id in
    let existing_cid := existing ≫= st_class in
    check_fk users u_id ;;
    check_fk_opt classes new_cid ;;
    let row := {| st_name := name; st_class := new_cid; st_gender := gender;
                  st_birth := birth_data;
                  st_status := match existing with Some r => st_status r | None => "enrolled" end;
                  st_exited := existing ≫= st_exited |} in
    modify (λ s, s <| students ::= <[u_id := row]> |>) ;;
    if bool_decide (new_cid = existing_cid) then mret tt
    else _record_class_change u_id existing_cid new_cid changed_by) ;;
  mret (parse_id user_id).

Definition reassign_student_class (student_id : Z) (new_class_id : option Z)
    (changed_by : pyid) : DB bool :=
  let cid := truthy_int new_class_id in
  transaction (
    t ← gets students;
    row ← from_option_or (t !! student_id)
            (ValueError ("Student " +:+ pretty student_id +:+ " not found"));
    if bool_decide (cid = st_class row) then mret tt
    else set_student_class cid student_id ;;
         _record_class_change student_id (st_class row) cid changed_by) ;;
  mret true.

Record bulk_result := { updated_count : Z; missing_student_ids : list Z }.

Definition bulk_reassign_students (student_ids : list Z) (new_class_id : option Z)
    (changed_by : pyid) : DB bulk_result :=
  match student_ids with
  | [] => mret {| updated_count := 0; missing_student_ids := [] |}
  | _ =>
      let cid := truthy_int new_class_id in
      transaction (
        t ← gets students;
        let found := by_id (select (λ k _, bool_decide (k ∈ student_ids)) t) in
        let missing := merge_sort Z.le
          (remove_dups (List.filter (λ k, negb (has_row t k)) student_ids)) in
        (if negb (bool_decide (found = []))
         then check_fk_opt classes cid ;;
              modify (λ s, s <| students ::= update_where
                (λ k _, bool_decide (k ∈ found.*1)) (λ r, r <| st_class := cid |>) |>) ;;
              for_each found (λ kv,
                if bool_decide (st_class kv.2 = cid) then mret tt
                else _record_class_change kv.1 (st_class kv.2) cid changed_by)
         else mret tt) ;;
        mret {| updated_count := Z.of_nat (List.length found); missing_student_ids := missing |})
  end.
