(* ===== verification/AcademicDelete.v ===== *)
(** * Deleting classes and levels; the placement log

    [delete_class], [delete_level] and
    [_block_if_classes_have_enrollment_history] of
    src/app/domains/tenant/tenant_repository.py with the ON DELETE actions of
    the schema, the invariant of [student_class_history] and what the
    deletions keep. *)
From S2P Require Import Prelude PyText Store AcademicRepo.

(** ** ON DELETE actions *)
Definition keys_where {R} (P : Z → R → bool) (t : gmap Z R) : list Z := (select P t).*1.

(** DELETE FROM event_class_map: CASCADE to enrollment, then to payments. *)
Definition delete_ecm_where (P : Z → ecm_row → bool) (s : TenantDB) : TenantDB :=
  let maps := keys_where P (event_class_map s) in
  let gone (_ : Z) (e : enrollment_row) := bool_decide (en_ecm e ∈ maps) in
  let enrolls := keys_where gone (enrollments s) in
  s <| event_class_map ::= delete_where P |>
    <| enrollments ::= delete_where gone |>
    <| payments ::= delete_where (λ _ p, bool_decide (pm_enrollment p ∈ enrolls)) |>.

Definition set_null (ids : list Z) (x : option Z) : option Z :=
  if any_of ids x then None else x.

(** DELETE FROM class: RESTRICT by students, CASCADE to event_class_map, SET
    NULL in the history and in the rollover lines. *)
Definition sql_delete_classes (ids : list Z) : DB unit :=
  t ← gets students;
  check (forallb (λ kv : Z * student_row, negb (any_of ids (st_class kv.2))) (map_to_list t))
    "students_class_id_fkey" ;;
  modify (λ s, delete_ecm_where (λ _ r, any_of ids (Some (ecm_class r))) s
    <| classes ::= delete_where (λ k _, any_of ids (Some k)) |>
    <| class_history ::= map (λ h, h <| hi_old := set_null ids (hi_old h) |>
                                     <| hi_new := set_null ids (hi_new h) |>) |>
    <| rollover_lines ::= fmap (λ l, l <| li_from_class := set_null ids (li_from_class l) |>
                                       <| li_to_class := set_null ids (li_to_class l) |>) |>).

(** DELETE FROM levels: RESTRICT by class, SET NULL in the rollover lines. *)
Definition sql_delete_level (lid : Z) : DB unit :=
  t ← gets classes;
  check (forallb (λ kv : Z * class_row, negb (cl_level kv.2 =? lid)) (map_to_list t))
    "class_level_id_fkey" ;;
  modify (λ s, s <| levels ::= delete lid |>
    <| rollover_lines ::= fmap (λ l, l <| li_to_level := set_null [lid] (li_to_level l) |>) |>).

(** ** The repository's operations *)
Definition class_enrollments (ids : list Z) (s : TenantDB) : list (Z * enrollment_row) :=
  select (λ _ e, match event_class_map s !! en_ecm e with
                 | Some m => any_of ids (Some (ecm_class m))
                 | None => false
                 end) (enrollments s).

Definition history_error (n : nat) : exn :=
  ValueError ("Cannot delete: " +:+ pretty n +:+ " enrollment(s), and any payments tied to "
    +:+ "them, exist for trips involving this class. Enrollment and payment history "
    +:+ "cannot be deleted.").

Definition _block_if_classes_have_enrollment_history (class_ids : list Z) : DB unit :=
  match class_ids with
  | [] => mret tt
  | _ =>
      found ← gets (class_enrollments class_ids);
      match found with
      | [] => mret tt
      | _ => raise (history_error (List.length found))
      end
  end.

(** The statements the three deletions share: unlink the students, log each
    placement change, drop the event mappings and the classes. *)
Definition remove_classes (class_ids : list Z) (changed_by : pyid) : DB unit :=
  t ← gets students;
  let affected := by_id (select (λ _ r, any_of class_ids (st_class r)) t) in
  modify (λ s, s <| students ::= update_where (λ _ r, any_of class_ids (st_class r))
                                   (λ r, r <| st_class := None |>) |>) ;;
  for_each affected (λ kv, _record_class_change kv.1 (st_class kv.2) None changed_by) ;;
  modify (delete_ecm_where (λ _ r, any_of class_ids (Some (ecm_class r)))) ;;
  sql_delete_classes class_ids.

Definition delete_class (class_id : Z) (changed_by : pyid) (audit_hook : DB unit) : DB bool :=
  transaction (
    t ← gets classes;
    guard_or (has_row t class_id) (ValueError ("Class " +:+ pretty class_id +:+ " not found")) ;;
    _block_if_classes_have_enrollment_history [class_id] ;;
    remove_classes [class_id] changed_by ;;
    audit_hook) ;;
  mret true.

Definition delete_level (level_id : Z) (changed_by : pyid) (audit_hook : DB unit) : DB bool :=
  transaction (
    t ← gets levels;
    guard_or (has_row t level_id) (ValueError ("Level " +:+ pretty level_id +:+ " not found")) ;;
    c ← gets classes;
    let class_ids := keys_where (λ _ r, cl_level r =? level_id) c in
    _block_if_classes_have_enrollment_history class_ids ;;
    match class_ids with [] => mret tt | _ => remove_classes class_ids changed_by end ;;
    sql_delete_level level_id ;;
    audit_hook) ;;
  mret true.

(** ** Logging placement changes *)
Lemma wp_record_class_change sid o n cb s :
  wp (_record_class_change sid o n cb)
    (λ _ s', ∃ b, s' = s <| class_history ::= λ l, l ++
       [{| hi_student := sid; hi_old := o; hi_new := n; hi_by := b |}] |>)
    (λ _ s', s' = s) s.
Proof.
  unfold _record_class_change.
  assert (∀ A (m : DB A) Q, readonly m → (∀ a, Q a s) →
    wp m Q (λ _ s', s' = s) s) as Hro.
  { intros A m Q Hm HQ. eapply wp_mono; [by apply (Hm s s)| |done]. intros a s' ->. done. }
  wp_simpl. apply Hro; [intros ?; auto with pres|]. intros b.
  wp_simpl. apply Hro; [intros ?; auto with pres|]. intros _.
  wp_simpl. apply Hro; [intros ?; auto with pres|]. intros _.
  wp_simpl. apply Hro; [intros ?; auto with pres|]. intros _.
  wp_simpl. apply Hro; [intros ?; auto with pres|]. intros _.
  wp_simpl. by exists b.
Qed.

(** A row of the log written for placement [(sid, old)] moving to [new]. *)
Definition logs (new : option Z) (p : Z * option Z) (h : history_row) : Prop :=
  hi_student h = p.1 ∧ hi_old h = p.2 ∧ hi_new h = new.

Lemma wp_record_all {A} (l : list A) (f : A → Z * option Z) new cb s :
  wp (for_each l (λ x, _record_class_change (f x).1 (f x).2 new cb))
    (λ _ s', ∃ hs, s' = s <| class_history ::= λ h, h ++ hs |> ∧
       Forall2 (λ x h, logs new (f x) h) l hs)
    (λ _ _, True) s.
Proof.
  apply (wp_for_each_prefix l _ (λ seen s', ∃ hs,
    s' = s <| class_history ::= λ h, h ++ hs |> ∧ Forall2 (λ x h, logs new (f x) h) seen hs)).
  - exists []. split; [|constructor]. destruct s. unfold set_field; simpl. by rewrite app_nil_r.
  - intros seen x todo s1 _ (hs & -> & Hhs).
    eapply wp_mono; [apply wp_record_class_change| |done]. intros _ s' [b ->].
    eexists (hs ++ [_]). split.
    + unfold set_field; simpl. by rewrite <-app_assoc.
    + apply Forall2_app; [done|]. constructor; [|constructor]. done.
Qed.

(** ** The invariant of the log

    [latest_placement sid]: the class the newest row of the log puts the
    student in. *)
Definition latest_placement (sid : Z) (h : list history_row) : option Z :=
  fold_left (λ acc r, if hi_student r =? sid then hi_new r else acc) h None.

Definition placement_logged (s : TenantDB) : Prop :=
  ∀ sid, latest_placement sid (class_history s) = students s !! sid ≫= st_class.

Lemma latest_placement_app sid h h' :
  latest_placement sid (h ++ h') =
  fold_left (λ acc r, if hi_student r =? sid then hi_new r else acc) h' (latest_placement sid h).
Proof. apply fold_left_app. Qed.

Lemma latest_placement_snoc sid h r :
  latest_placement sid (h ++ [r]) =
  if hi_student r =? sid then hi_new r else latest_placement sid h.
Proof. by rewrite latest_placement_app. Qed.

(** Rows that all log a move to [new]. *)
Lemma latest_placement_logged {A} sid (l : list A) (f : A → Z * option Z) new h hs :
  Forall2 (λ x r, logs new (f x) r) l hs →
  latest_placement sid (h ++ hs) =
  if bool_decide (sid ∈ (fst ∘ f) <$> l) then new else latest_placement sid h.
Proof.
  rewrite latest_placement_app. generalize (latest_placement sid h) as acc. intros acc Hl.
  assert (∀ acc, fold_left (λ acc r, if hi_student r =? sid then hi_new r else acc) hs acc =
    if bool_decide (sid ∈ (fst ∘ f) <$> l) then new else acc) as Hgen; [|apply Hgen].
  clear acc h. induction Hl as [|x r l hs (Hs & _ & Hn) Hl IH]; intros acc; [done|].
  cbn [fold_left]. rewrite IH, Hs, Hn, fmap_cons. clear IH. case_bool_decide as Hin.
  - by rewrite bool_decide_true by set_solver.
  - destruct (Z.eqb_spec (f x).1 sid) as [<-|Hne].
    + by rewrite bool_decide_true by set_solver.
    + rewrite bool_decide_false; [done|]. set_solver.
Qed.

Lemma latest_placement_set_null ids sid h :
  latest_placement sid (map (λ r, r <| hi_old := set_null ids (hi_old r) |>
                                    <| hi_new := set_null ids (hi_new r) |>) h) =
  set_null ids (latest_placement sid h).
Proof.
  unfold latest_placement.
  assert (∀ acc, fold_left (λ acc r, if hi_student r =? sid then hi_new r else acc)
    (map (λ r, r <| hi_old := set_null ids (hi_old r) |>
                 <| hi_new := set_null ids (hi_new r) |>) h) (set_null ids acc) =
    set_null ids (fold_left (λ acc r, if hi_student r =? sid then hi_new r else acc) h acc))
    as Hgen; [|by apply (Hgen None)].
  induction h as [|r h IH]; intros acc; simpl; [done|]. rewrite <-IH.
  f_equal. unfold set_field; simpl. by destruct (hi_student r =? sid).
Qed.

(** ** What a removal of classes does *)
Definition placed_in (ids : list Z) (s : TenantDB) : list (Z * student_row) :=
  by_id (select (λ _ r, any_of ids (st_class r)) (students s)).

Record removed (ids : list Z) (s s' : TenantDB) : Prop := {
  rm_enrollments : enrollments s' = enrollments s;
  rm_payments : payments s' = payments s;
  rm_classes : classes s' = delete_where (λ k _, any_of ids (Some k)) (classes s);
  rm_mappings : event_class_map s' =
    delete_where (λ _ r, any_of ids (Some (ecm_class r))) (event_class_map s);
  rm_students : students s' = update_where (λ _ r, any_of ids (st_class r))
                                (λ r, r <| st_class := None |>) (students s);
  rm_history : ∃ hs,
    Forall2 (λ kv h, logs None (kv.1, st_class kv.2) h) (placed_in ids s) hs ∧
    class_history s' = map (λ h, h <| hi_old := set_null ids (hi_old h) |>
                                   <| hi_new := set_null ids (hi_new h) |>)
                         (class_history s ++ hs);
}.

(** Without enrollment history, the cascade of the event mappings is empty. *)
Lemma delete_ecm_no_enrollment ids s :
  class_enrollments ids s = [] →
  enrollments (delete_ecm_where (λ _ r, any_of ids (Some (ecm_class r))) s) = enrollments s ∧
  payments (delete_ecm_where (λ _ r, any_of ids (Some (ecm_class r))) s) = payments s.
Proof.
  intros Hnone. unfold delete_ecm_where. set (P := λ _ r, any_of ids (Some (ecm_class r))).
  set (gone := λ (_ : Z) e, bool_decide (en_ecm e ∈ keys_where P (event_class_map s))).
  assert (∀ k e, enrollments s !! k = Some e → gone k e = false) as Hgone.
  { intros k e He. apply bool_decide_eq_false. intros Hin.
    apply list_elem_of_fmap in Hin as ([m r] & Hm & Hin%elem_of_select).
    destruct Hin as [Hr HP]. simpl in *.
    assert ((k, e) ∈ class_enrollments ids s) as Hmem.
    { apply elem_of_select. split; [done|]. by rewrite Hm, Hr. }
    rewrite Hnone in Hmem. set_solver. }
  simpl. split; apply delete_where_id; [done|].
  intros k p Hp. apply bool_decide_eq_false. intros Hin.
  apply list_elem_of_fmap in Hin as ([m e] & _ & Hin%elem_of_select).
  destruct Hin as [He Hg]. simpl in *. by rewrite (Hgone m e He) in Hg.
Qed.

Lemma class_enrollments_ext ids s s' :
  enrollments s' = enrollments s → event_class_map s' = event_class_map s →
  class_enrollments ids s' = class_enrollments ids s.
Proof. intros He Hm. unfold class_enrollments. by rewrite He, Hm. Qed.

(** The mapping rows of the classes are gone, so a second cascade is empty. *)
Lemma delete_ecm_twice ids s :
  class_enrollments ids s = [] →
  class_enrollments ids (delete_ecm_where (λ _ r, any_of ids (Some (ecm_class r))) s) = [].
Proof.
  intros Hnone. destruct (class_enrollments ids (delete_ecm_where _ s)) as [|[k e] l] eqn:E; [done|].
  assert ((k, e) ∈ class_enrollments ids
    (delete_ecm_where (λ _ r, any_of ids (Some (ecm_class r))) s)) as Hin by (rewrite E; left).
  apply elem_of_select in Hin as [_ Hin]. simpl in Hin.
  destruct (delete_where _ _ !! en_ecm e) eqn:Em; [|done].
  apply lookup_delete_where in Em as [_ Em]. by rewrite Em in Hin.
Qed.

Lemma wp_sql_delete_classes ids s :
  class_enrollments ids s = [] →
  wp (sql_delete_classes ids)
    (λ _ s', enrollments s' = enrollments s ∧ payments s' = payments s ∧
       students s' = students s ∧
       classes s' = delete_where (λ k _, any_of ids (Some k)) (classes s) ∧
       event_class_map s' =
         delete_where (λ _ r, any_of ids (Some (ecm_class r))) (event_class_map s) ∧
       class_history s' = map (λ h, h <| hi_old := set_null ids (hi_old h) |>
                                      <| hi_new := set_null ids (hi_new h) |>) (class_history s))
    (λ _ _, True) s.
Proof.
  intros Hnone. unfold sql_delete_classes, check. wp_simpl.
  destruct (forallb _ _); [|done]. wp_simpl.
  destruct (delete_ecm_no_enrollment ids s Hnone) as [He Hp]. done.
Qed.

Lemma wp_remove_classes ids cb s :
  class_enrollments ids s = [] →
  wp (remove_classes ids cb) (λ _ s', removed ids s s') (λ _ _, True) s.
Proof.
  intros Hnone. unfold remove_classes. wp_simpl.
  eapply wp_mono; [apply (wp_record_all (placed_in ids s) (λ kv, (kv.1, st_class kv.2)))| |done].
  intros _ s1 (hs & -> & Hhs). wp_simpl.
  set (s1 := set_field class_history _ _).
  assert (class_enrollments ids s1 = []) as H1
    by (rewrite (class_enrollments_ext ids s); done).
  destruct (delete_ecm_no_enrollment ids s1 H1) as [He Hp].
  eapply wp_mono; [apply wp_sql_delete_classes; by apply delete_ecm_twice| |done].
  intros _ s2 (He2 & Hp2 & Hs2 & Hc2 & Hm2 & Hh2). split.
  - by rewrite He2, He.
  - by rewrite Hp2, Hp.
  - by rewrite Hc2.
  - rewrite Hm2. apply delete_where_id. by intros k r [_ Hk]%lookup_delete_where.
  - by rewrite Hs2.
  - exists hs. by rewrite Hh2.
Qed.

(** [placement_logged] is kept, with the log of the removal. *)
Lemma removed_placement_logged ids s s' :
  removed ids s s' → placement_logged s → placement_logged s'.
Proof.
  intros Hr Hlog sid. destruct (rm_history _ _ _ Hr) as (hs & Hhs & ->).
  rewrite (rm_students _ _ _ Hr), lookup_update_where, latest_placement_set_null.
  rewrite (latest_placement_logged sid (placed_in ids s) (λ kv, (kv.1, st_class kv.2))
             None _ hs Hhs).
  assert (sid ∈ (fst ∘ (λ kv : Z * student_row, (kv.1, st_class kv.2))) <$> placed_in ids s ↔
    ∃ r, students s !! sid = Some r ∧ any_of ids (st_class r) = true) as Hin.
  { rewrite list_elem_of_fmap. unfold placed_in. setoid_rewrite elem_of_by_id. split.
    - intros ([k x] & -> & Hk%elem_of_select). by exists x.
    - intros (r & Hs & Ha). exists (sid, r). split; [done|]. by apply elem_of_select. }
  rewrite (Hlog sid). case_bool_decide as Hc.
  - apply Hin in Hc as (r & -> & Ha). simpl. by rewrite Ha.
  - destruct (students s !! sid) as [r|] eqn:Hs; simpl; [|done].
    destruct (any_of ids (st_class r)) eqn:Ha; [naive_solver|].
    unfold set_null. by rewrite Ha.
Qed.

Lemma class_enrollments_nil s : class_enrollments [] s = [].
Proof.
  unfold class_enrollments, select.
  induction (map_to_list (enrollments s)) as [|[k e] l IH]; simpl; [done|].
  by destruct (event_class_map s !! en_ecm e).
Qed.

Lemma wp_block ids s (Q : unit → TenantDB → Prop) (E : exn → TenantDB → Prop) :
  (class_enrollments ids s = [] → Q tt s) →
  (ids ≠ [] → class_enrollments ids s ≠ [] →
     E (history_error (List.length (class_enrollments ids s))) s) →
  wp (_block_if_classes_have_enrollment_history ids) Q E s.
Proof.
  intros HQ HE. unfold _block_if_classes_have_enrollment_history.
  destruct ids as [|i ids].
  - wp_simpl. apply HQ, class_enrollments_nil.
  - wp_simpl. destruct (class_enrollments (i :: ids) s) eqn:Hc.
    + wp_simpl. auto.
    + wp_simpl. by apply HE.
Qed.
