(* ===== verification/EventRepo.v ===== *)
(** * Events and notifications: the repository

    The event part of [TenantRepository]
    (src/app/domains/tenant/tenant_repository.py) and [EventRepository]
    (src/app/domains/events/repository.py): events with their class mappings,
    notifications, managers, head counts. An event "dict" is an [event_view]:
    the row with the mappings [get_event_by_id] joins to it. *)
From S2P Require Import Prelude PyText Authz Store AcademicRepo AcademicDelete.

Record mapping := {
  mp_id : Z; mp_class : Z; mp_price : Z; mp_count : Z;
  (** [m.get("head_teacher_id")]: no query selects that column *)
  mp_head : option Z }.

Record event_view := { vw_id : Z; vw_row : event_row; vw_mappings : list mapping }.

Definition class_students (ids : list Z) (s : TenantDB) : list (Z * student_row) :=
  select (λ _ r, any_of ids (st_class r)) (students s).

Definition mapping_of (s : TenantDB) (kv : Z * ecm_row) : mapping :=
  {| mp_id := kv.1; mp_class := ecm_class kv.2; mp_price := ecm_price kv.2;
     mp_count := Z.of_nat (List.length (class_students [ecm_class kv.2] s));
     mp_head := None |}.

Definition event_mappings (event_id : Z) (s : TenantDB) : list mapping :=
  mapping_of s <$> by_id (select (λ _ r, ecm_event r =? event_id) (event_class_map s)).

Definition event_view_of (event_id : Z) (s : TenantDB) : option event_view :=
  (λ r, {| vw_id := event_id; vw_row := r; vw_mappings := event_mappings event_id s |})
    <$> events s !! event_id.

Definition get_event_by_id (event_id : Z) : DB (option event_view) := gets (event_view_of event_id).

(** ORDER BY date ASC *)
Definition date_le (a b : event_view) : Prop := ev_date (vw_row a) ≤ ev_date (vw_row b).
#[export] Instance date_le_dec a b : Decision (date_le a b).
Proof. unfold date_le. apply _. Defined.

Definition views_of (ids : list Z) (s : TenantDB) : list event_view :=
  omap (λ i, event_view_of i s) ids.

Definition get_all_events (statuses : list string) : DB (list event_view) :=
  gets (λ s, merge_sort date_le (views_of
    (fst <$> by_id (select (λ _ r, bool_decide (statuses = []) || mem (ev_status r) statuses)
                     (events s))) s)).

Definition get_events_for_student (student_id : Z) : DB (list event_view) :=
  gets (λ s,
    match students s !! student_id ≫= st_class with
    | None => []
    | Some class_id =>
        merge_sort date_le (views_of
          (fst <$> by_id (select (λ k r, bool_decide (ev_status r = "published") &&
             existsb (λ m, mp_class m =? class_id) (event_mappings k s)) (events s))) s)
    end).

(** A NUMERIC(14,4) column, in units of 10^-4. *)
Definition check_money (n : Z) : DB unit :=
  check (Z.abs n <? 10 ^ 14) "numeric field overflow".

(** ["{"class_id": int, "ticket_price": float}"] *)
Record mapping_in := { mi_class : Z; mi_price : Z }.

Definition insert_mapping (event_id : Z) (m : mapping_in) : DB unit :=
  check_money (mi_price m) ;;
  check_fk events event_id ;;
  check_fk classes (mi_class m) ;;
  insert_serial event_class_map
    {| ecm_event := event_id; ecm_class := mi_class m; ecm_price := mi_price m |} ;;
  mret tt.

Definition create_event (title description : string) (address : option string)
    (school_subsidy date_val : Z) (created_by : pyid) (class_mappings : list mapping_in) :
    DB (option event_view) :=
  event_id ← transaction (
    owner ← bind_bigint_not_null created_by;
    check_money school_subsidy ;;
    check_fk users owner ;;
    id ← insert_serial events
      {| ev_title := title; ev_description := description; ev_address := address;
         ev_subsidy := school_subsidy; ev_date := date_val; ev_created_by := owner;
         ev_status := "draft"; ev_predicted := None; ev_manager_reviewer := None;
         ev_finance_reviewer := None; ev_total_cost := None; ev_submitted_at := None;
         ev_manager_approved_at := None; ev_finance_priced_at := None;
         ev_published_at := None; ev_rejection_reason := None |};
    for_each class_mappings (insert_mapping id) ;;
    mret id);
  get_event_by_id event_id.

Definition set_basics (title description : string) (address : option string)
    (school_subsidy date_val : Z) (r : event_row) : event_row :=
  r <| ev_title := title |> <| ev_description := description |> <| ev_address := address |>
    <| ev_subsidy := school_subsidy |> <| ev_date := date_val |>.

Definition update_event (event_id : Z) (title description : string) (address : option string)
    (school_subsidy date_val : Z) : DB (option event_row) :=
  check_money school_subsidy ;;
  modify (λ s, s <| events ::=
    alter (set_basics title description address school_subsidy date_val) event_id |>) ;;
  t ← gets events;
  mret (t !! event_id).

(** [existing_map]: the mapping of a class, the last row winning; it is read
    before the loop. *)
Definition existing_mapping (event_id class_id : Z) (s : TenantDB) : option Z :=
  mp_id <$> last (List.filter (λ m, mp_class m =? class_id) (event_mappings event_id s)).

Definition upsert_mapping (event_id : Z) (existing : Z → option Z) (m : mapping_in) : DB unit :=
  match existing (mi_class m) with
  | Some ecm_id =>
      check_money (mi_price m) ;;
      modify (λ s, s <| event_class_map ::= alter (λ r, r <| ecm_price := mi_price m |>) ecm_id |>)
  | None => insert_mapping event_id m
  end.

Definition update_event_full (event_id : Z) (title description : string)
    (address : option string) (school_subsidy date_val : Z) (class_mappings : list mapping_in) :
    DB (option event_view) :=
  transaction (
    check_money school_subsidy ;;
    modify (λ s, s <| events ::=
      alter (set_basics title description address school_subsidy date_val) event_id |>) ;;
    existing ← gets (λ s cid, existing_mapping event_id cid s);
    for_each class_mappings (upsert_mapping event_id existing)) ;;
  get_event_by_id event_id.

(** DELETE FROM event: CASCADE to the mappings (and with them enrollments and
    payments), resources with their costs, costs, feedback and notifications. *)
Definition delete_event (event_id : Z) : DB bool :=
  t ← gets events;
  modify (λ s, delete_ecm_where (λ _ r, ecm_event r =? event_id) s
    <| events ::= delete event_id |>
    <| resource_costs ::= delete_where (λ _ c, (co_event c =? event_id)
         || bool_decide (co_resource c ∈ keys_where (λ _ r, rs_event r =? event_id) (resources s))) |>
    <| resources ::= delete_where (λ _ r, rs_event r =? event_id) |>
    <| event_feedback ::= delete_where (λ _ f, fb_event f =? event_id) |>
    <| notifications ::= List.filter (λ n, negb (nt_event n =? event_id)) |>) ;;
  mret (has_row t event_id).

Definition get_class_map_by_id (map_id : Z) : DB (option ecm_row) :=
  t ← gets event_class_map; mret (t !! map_id).

(** [EventRepository.update_ticket_prices], [update_subsidy] *)
Definition update_ticket_prices (event_id : Z) (items : list (Z * Z)) : DB unit :=
  for_each items (λ item,
    check_money item.2 ;;
    modify (λ s, s <| event_class_map ::= update_where
      (λ k r, (k =? item.1) && (ecm_event r =? event_id)) (λ r, r <| ecm_price := item.2 |>) |>)).

Definition update_subsidy (event_id subsidy : Z) : DB unit :=
  check_money subsidy ;;
  modify (λ s, s <| events ::= alter (λ r, r <| ev_subsidy := subsidy |>) event_id |>).

(** ** Feedback *)
Definition create_event_feedback (event_id : Z) (user_id : pyid) (rating : Z) (comments : option string) : DB Z :=
  uid ← bind_bigint_not_null user_id;
  check ((1 <=? rating) && (rating <=? 5)) "event_feedback_rating_check" ;;
  check_fk events event_id ;;
  check_fk users uid ;;
  created ← gets clock;
  insert_serial event_feedback
    {| fb_event := event_id; fb_user := uid; fb_rating := rating; fb_comments := comments; fb_created := created |}.

(** COALESCE of the names of the profiles and the email. *)
Definition display_name_of (s : TenantDB) (uid : Z) (email : string) : string :=
  match teachers s !! uid, st_name <$> students s !! uid, parenets s !! uid with
  | Some n, _, _ | None, Some n, _ | None, None, Some n => n
  | None, None, None => email
  end.

Definition fb_newer (a b : Z * feedback_row * string) : Prop := fb_created b.1.2 ≤ fb_created a.1.2.
#[export] Instance fb_newer_dec a b : Decision (fb_newer a b).
Proof. unfold fb_newer. apply _. Defined.

(** JOIN users, ORDER BY created_at DESC *)
Definition get_feedback_for_event (event_id : Z) : DB (list (Z * feedback_row * string)) :=
  gets (λ s, merge_sort fb_newer
    (omap (λ kv : Z * feedback_row, (λ u, (kv, display_name_of s (fb_user kv.2) (us_email u))) <$> users s !! fb_user kv.2)
       (by_id (select (λ _ f, fb_event f =? event_id) (event_feedback s))))).

(** ** Notifications *)

(** Characters of a UTF-8 text, as VARCHAR(n) counts them. *)
Definition utf8_len (s : string) : Z :=
  Z.of_nat (List.length (List.filter (λ c, negb (code c / 64 =? 2)) (chars s))).

Definition create_notification (event_id : Z) (recipient : pyid) (title : option string) :
    DB Z :=
  rid ← bind_bigint_not_null recipient;
  check (match title with Some t => utf8_len t <=? 255 | None => true end)
    "value too long for type character varying(255)" ;;
  check_fk events event_id ;;
  check_fk users rid ;;
  id ← gets nextid;
  modify (λ s, s <| notifications ::= λ l, l ++
    [{| nt_id := id; nt_event := event_id; nt_recipient := rid; nt_title := title;
        nt_read_at := None |}] |> <| nextid := id + 1 |>) ;;
  mret id.

Definition mark_notification_read (notif_id : Z) (recipient : pyid) : DB bool :=
  rid ← bind_bigint recipient;
  l ← gets notifications;
  now ← gets clock;
  let mine (n : notification_row) :=
    (nt_id n =? notif_id) && bool_decide (Some (nt_recipient n) = rid)
      && bool_decide (nt_read_at n = None) in
  modify (λ s, s <| notifications ::= map (λ n,
    if mine n then {| nt_id := nt_id n; nt_event := nt_event n; nt_recipient := nt_recipient n;
                      nt_title := nt_title n; nt_read_at := Some now |} else n) |>) ;;
  mret (existsb mine l).

Definition get_notifications_for_user (user_id : pyid) : DB (list notification_row) :=
  rid ← bind_bigint user_id;
  l ← gets notifications;
  mret (List.filter (λ n, bool_decide (Some (nt_recipient n) = rid)) l).

Definition get_all_managers : DB (list Z) :=
  t ← gets users;
  mret (fst <$> by_id (select (λ _ u, bool_decide (us_role u = "manager")) t)).

Definition get_student_count_for_classes (class_ids : list Z) : DB Z :=
  gets (λ s, Z.of_nat (List.length (class_students class_ids s))).

(** Parents of a student, in id order. *)
Definition parents_of (student_id : Z) (s : TenantDB) : list Z :=
  merge_sort Z.le (snd <$> List.filter (λ kv : Z * Z, kv.1 =? student_id)
    (fst <$> map_to_list (student_parent_map s))).
