(* ===== verification/Demo.v ===== *)
(** * A small school

    The concrete tenant database on which the examples and witnesses of the
    development are evaluated: one active academic year (1) and a planned one
    (2), two grades (11, 12), two classes (21, 22) of the active year, a head
    teacher (7), an administrator (5), a manager (6), two students (31, 32),
    a linked parent (8), and one published trip (41) for class 21. *)
From S2P Require Import Prelude PyText Authz Store AcademicDelete.

Definition demo_user (email role : string) : user_row :=
  (new_user email role "managed") <| us_roles := [role] |>.

Definition demo_level (name : string) (ordinal : Z) : level_row :=
  {| lv_name := name; lv_isced := Some 1; lv_age_min := Some 6; lv_age_max := Some 7;
     lv_ordinal := Some ordinal; lv_active := true |}.

Definition demo_class (name : string) (level : Z) (section : option string) : class_row :=
  {| cl_name := name; cl_level := level; cl_head := Some 7; cl_capacity := 25;
     cl_active := true; cl_year := 1; cl_section := section |}.

Definition demo_student (name : string) (class : option Z) : student_row :=
  {| st_name := name; st_class := class; st_gender := None; st_birth := None;
     st_status := "enrolled"; st_exited := None |}.

Definition demo_event (title status : string) : event_row :=
  {| ev_title := title; ev_description := ""; ev_address := None; ev_subsidy := 0;
     ev_date := 5000; ev_created_by := 7; ev_status := status; ev_predicted := None;
     ev_manager_reviewer := None; ev_finance_reviewer := None; ev_total_cost := None;
     ev_submitted_at := None; ev_manager_approved_at := None; ev_finance_priced_at := None;
     ev_published_at := None; ev_rejection_reason := None |}.

Definition demo_db : TenantDB := empty_db
  <| users := {[5 := demo_user "admin@s.edu" "school_admin"; 6 := demo_user "m@s.edu" "manager";
                7 := demo_user "t@s.edu" "teacher"; 8 := demo_user "p@s.edu" "parent";
                31 := demo_user "s1@s.edu" "student"; 32 := demo_user "s2@s.edu" "student"]} |>
  <| teachers := {[7 := "Tara"]} |>
  <| parenets := {[8 := "Pat"]} |>
  <| academic_years := {[1 := {| ye_name := "2025-2026"; ye_status := "active"; ye_start := None;
                                 ye_end := Some 900; ye_rolled_from := None |};
                         2 := {| ye_name := "2026-2027"; ye_status := "planned"; ye_start := None;
                                 ye_end := None; ye_rolled_from := None |}]} |>
  <| levels := {[11 := demo_level "Grade 1" 1; 12 := demo_level "Grade 2" 2]} |>
  <| classes := {[21 := demo_class "Grade 1 - A" 11 (Some "A");
                  22 := demo_class "Grade 2 - A" 12 (Some "A")]} |>
  <| students := {[31 := demo_student "Sam" (Some 21); 32 := demo_student "Ali" (Some 22)]} |>
  <| student_parent_map := {[(31, 8) := {| pl_relationship := None; pl_primary := true;
                                           pl_can_approve := true |}]} |>
  <| class_history := [{| hi_student := 31; hi_old := None; hi_new := Some 21; hi_by := Some 5 |};
                       {| hi_student := 32; hi_old := None; hi_new := Some 22; hi_by := Some 5 |}] |>
  <| events := {[41 := demo_event "Museum" "published"; 42 := demo_event "Zoo" "draft"]} |>
  <| event_class_map := {[51 := {| ecm_event := 41; ecm_class := 21; ecm_price := 0 |};
                          52 := {| ecm_event := 42; ecm_class := 21; ecm_price := 150000 |}]} |>.

(** The same school with student 31 signed up for the trip. *)
Definition demo_enrolled : TenantDB := demo_db
  <| enrollments := {[61 := {| en_student := 31; en_ecm := 51; en_state := "teacher_review";
                               en_teacher := None; en_parent := None |}]} |>.

(** The rollover of year 1 into year 2, previewed: student 31 moves on to
    grade 2, student 32 graduates. *)
Definition demo_line (sid cid : Z) (lv : option Z) (sec : option string) (action : string) : line_row :=
  {| li_rollover := 91; li_student := sid; li_from_class := Some cid; li_to_level := lv;
     li_to_section := sec; li_to_class := None; li_proposed := action; li_override := None;
     li_exception := None; li_applied_at := None |}.
Definition demo_withdrawn : line_row :=
  {| li_rollover := 91; li_student := 32; li_from_class := Some 22; li_to_level := None;
     li_to_section := None; li_to_class := None; li_proposed := "graduate";
     li_override := Some "withdraw"; li_exception := None; li_applied_at := None |}.
Definition demo_rollover : TenantDB := demo_db
  <| rollovers := {[91 := {| ro_from := 1; ro_to := 2; ro_state := "previewed";
                             ro_summary := None; ro_created_by := Some 5 |}]} |>
  <| rollover_lines := {[92 := demo_line 31 21 (Some 12) (Some "A") "promote";
                         93 := demo_withdrawn]} |>.

Definition demo_actor (id role : string) : CurrentUser :=
  {| cu_id := PStr id; cu_tenant_id := Some "tenant_a"; cu_role := role;
     cu_email := id; cu_roles := [role] |}.

(** Trip 41 approved, not yet published. *)
Definition demo_approved : TenantDB := demo_db
  <| events := {[41 := demo_event "Museum" "approved"; 42 := demo_event "Zoo" "draft"]} |>.

Definition admin_role : role_arg := RList ["school_admin"].
Definition teacher_role : role_arg := RList ["teacher"].

(** Rows of a closed table: [H : t !! k = Some r] becomes its instances. *)
Ltac demo_rows H :=
  apply elem_of_map_to_list in H; vm_compute in H;
  repeat (apply elem_of_cons in H as [H|H]; [injection H as -> ->|]);
  try (by apply elem_of_nil in H).

Lemma demo_placement_logged : placement_logged demo_db.
Proof.
  intros sid. change (class_history demo_db) with
    [{| hi_student := 31; hi_old := None; hi_new := Some 21; hi_by := Some 5 |};
     {| hi_student := 32; hi_old := None; hi_new := Some 22; hi_by := Some 5 |}].
  change (students demo_db) with
    ({[31 := demo_student "Sam" (Some 21); 32 := demo_student "Ali" (Some 22)]} : gmap Z student_row).
  unfold latest_placement. cbn [fold_left hi_student hi_new].
  destruct (Z.eqb_spec 32 sid) as [<-|H2]; [by vm_compute|].
  destruct (Z.eqb_spec 31 sid) as [<-|H1]; [by vm_compute|].
  by rewrite lookup_insert_ne, lookup_singleton_ne.
Qed.
