(* ===== verification/AcademicSvc.v ===== *)
(** * Levels, classes, placements: the service

    The academic part of [TenantService] (src/app/domains/tenant/service.py):
    the role gate of every operation in front of the repository of
    AcademicRepo.v and AcademicDelete.v, the checks on deactivated levels,
    the audit hooks of the deletions, the linking of parents, and the
    theorems on deletions and on the placement log. *)
From S2P Require Import Prelude PyText Authz Store AuditLog AcademicRepo AcademicDelete Demo.

(** [if not authz.require(user_role, roles): raise PermissionError(msg)] *)
Definition gate (user_role : role_arg) (roles : list string) (msg : string) : DB unit :=
  guard_or (require user_role roles) (PermissionError msg).

Definition level_not_found (id : Z) : exn := ValueError ("Level " +:+ pretty id +:+ " not found").

Definition create_level (name : string) (user_role : role_arg)
    (isced age_min age_max ordinal : option Z) (is_active : bool) : DB Z :=
  gate user_role ["school_admin"; "level:create"] "Only school admins can create levels" ;;
  r ← upsert_level_by_name name isced age_min age_max ordinal is_active;
  mret r.1.

Definition update_level (level_id : Z) (name : option string)
    (isced age_min age_max ordinal : option Z) (is_active : option bool)
    (user_role : role_arg) : DB (option level_row) :=
  gate user_role ["school_admin"; "super_admin"; "admin"] "Only school admins can update levels" ;;
  AcademicRepo.update_level level_id name isced age_min age_max ordinal is_active.

Definition create_class (name : string) (level_id : Z) (head_teacher_id : option Z)
    (capacity : Z) (is_active : bool) (user_role : role_arg) : DB Z :=
  gate user_role ["school_admin"; "super_admin"; "admin"; "class:create"]
    "Only school admins can create classes" ;;
  level ← get_level_by_id level_id;
  lv ← from_option_or level (level_not_found level_id);
  guard_or (lv_active lv)
    (ValueError ("Cannot add a section to a deactivated level: " +:+ lv_name lv)) ;;
  r ← upsert_class_by_name_and_level name level_id
        (match head_teacher_id with Some h => Set_to (Some h) | None => UNSET end)
        (Some capacity) is_active None;
  mret r.1.

Definition update_class (class_id : Z) (name : option string) (level_id : option Z)
    (head_teacher_id : update (option Z)) (capacity : option Z) (is_active : option bool)
    (user_role : role_arg) : DB (option class_row) :=
  gate user_role ["school_admin"; "super_admin"; "admin"; "class:update"]
    "Only school admins can update classes" ;;
  match level_id with
  | None => mret tt
  | Some lid =>
      level ← get_level_by_id lid;
      lv ← from_option_or level (level_not_found lid);
      guard_or (lv_active lv)
        (ValueError ("Cannot move a section to a deactivated level: " +:+ lv_name lv))
  end ;;
  AcademicRepo.update_class class_id name level_id head_teacher_id capacity is_active.

Definition reassign_student_class (student_id : Z) (new_class_id : option Z)
    (user_role : role_arg) (changed_by : pyid) : DB bool :=
  gate user_role ["school_admin"; "super_admin"; "admin"; "student:manage"]
    "Only school admins can reassign student classes" ;;
  AcademicRepo.reassign_student_class student_id new_class_id changed_by.

Definition bulk_reassign_students (student_ids : list Z) (new_class_id : option Z)
    (user_role : role_arg) (changed_by : pyid) : DB bulk_result :=
  gate user_role ["school_admin"; "super_admin"; "admin"; "student:manage"]
    "Only school admins can reassign student classes" ;;
  AcademicRepo.bulk_reassign_students student_ids new_class_id changed_by.

Definition create_academic_year (name : string) (start_date end_date : option Z)
    (user_role : role_arg) : DB (option year_row) :=
  gate user_role ["school_admin"; "super_admin"]
    "Only a school admin can define an academic year" ;;
  id ← AcademicRepo.create_academic_year name start_date end_date;
  get_academic_year_by_id id.

(** [get_student_by_id]: the join with [users] always finds its row. *)
Definition get_student_by_id (student_id : Z) : DB (option student_row) :=
  t ← gets students; mret (t !! student_id).

Definition add_student_parent_link (student_id parent_id : Z) (link : parent_link) : DB unit :=
  check_fk students student_id ;;
  check_fk parenets parent_id ;;
  modify (λ s, s <| student_parent_map ::= <[(student_id, parent_id) := link]> |>).

Definition link_student_parent (student_id parent_id : Z) (user_role : role_arg)
    (user_id : pyid) (link : parent_link) : DB unit :=
  gate user_role ["school_admin"; "teacher"; "user:link"]
    "Only school admins and teachers can link students and parents" ;;
  (if require user_role ["teacher"] && negb (require user_role ["school_admin"])
   then
     student ← get_student_by_id student_id;
     st ← from_option_or student (ValueError "Student not found");
     teacher_classes ← get_classes_by_head_teacher user_id;
     guard_or (existsb (λ kv : Z * class_row, bool_decide (Some kv.1 = st_class st)) teacher_classes)
       (PermissionError "You can only link parents to students in your own class")
   else mret tt) ;;
  add_student_parent_link student_id parent_id link.

Section deletions.
Context (email_hmac : string → string).

Definition delete_hook (action entity : string) (id : Z) (user_role : role_arg)
    (changed_by : pyid) : DB unit :=
  record email_hmac (Some (_AuditActor changed_by user_role)) action entity
    (Some (pretty id)) "allow" None [] ;;
  mret tt.

Definition delete_class (class_id : Z) (user_role : role_arg) (changed_by : pyid) : DB bool :=
  gate user_role ["school_admin"; "super_admin"; "admin"]
    "Only school admins can delete classes" ;;
  AcademicDelete.delete_class class_id changed_by
    (delete_hook "class.delete" "class" class_id user_role changed_by).

Definition delete_level (level_id : Z) (user_role : role_arg) (changed_by : pyid) : DB bool :=
  gate user_role ["school_admin"; "super_admin"; "admin"]
    "Only school admins can delete levels" ;;
  AcademicDelete.delete_level level_id changed_by
    (delete_hook "level.delete" "level" level_id user_role changed_by).
End deletions.

(** ** What the deletions do *)
Lemma set_nextid_same s : s <| nextid := nextid s |> = s.
Proof. by destruct s. Qed.

(** The tables of [s'] are those of [s], the log of the audit grown by one. *)
Record deleted_classes (ids : list Z) (action : string) (s s' : TenantDB) : Prop := {
  dc_removed : removed ids s s';
  dc_no_history : class_enrollments ids s = [];
  dc_audit : ∃ row, audit_log s' = audit_log s ++ [row] ∧ au_action row = action;
}.

Lemma remove_classes_audit ids cb l :
  preserves (λ s, audit_log s = l) (remove_classes ids cb).
Proof.
  unfold remove_classes. preserve; by apply preserves_modify.
Qed.

Lemma wp_remove_classes_audit ids cb s :
  class_enrollments ids s = [] →
  wp (remove_classes ids cb)
    (λ _ s', removed ids s s' ∧ audit_log s' = audit_log s) (λ _ _, True) s.
Proof.
  intros Hn. eapply wp_mono.
  - apply wp_conj; [by apply wp_remove_classes|].
    by apply (remove_classes_audit ids cb (audit_log s)).
  - done.
  - done.
Qed.

Lemma wp_delete_hook h action ent id role cb s (Q : unit → TenantDB → Prop)
    (E : exn → TenantDB → Prop) :
  (∀ row, au_action row = action →
     Q tt (s <| audit_log ::= λ l, l ++ [row] |> <| nextid := nextid s + 1 |>)) →
  (∀ msg, E (DatabaseError msg) s) →
  wp (delete_hook h action ent id role cb) Q E s.
Proof.
  intros HQ HE. unfold delete_hook. wp_simpl. apply wp_record; [|done].
  intros row Ha _. wp_simpl. by apply HQ.
Qed.

Lemma removed_audited ids s s1 row n :
  removed ids s s1 → removed ids s (s1 <| audit_log ::= λ l, l ++ [row] |> <| nextid := n |>).
Proof. by intros []. Qed.

(** A transaction that fails leaves the tables, whatever it did. *)
Definition tables_kept (s s' : TenantDB) : Prop := s' = s <| nextid := nextid s' |>.

Lemma tables_kept_refl s : tables_kept s s.
Proof. unfold tables_kept. by rewrite set_nextid_same. Qed.
Lemma tables_kept_rollback s s' : tables_kept s (rollback s s').
Proof. done. Qed.
#[local] Hint Resolve tables_kept_refl tables_kept_rollback : core.

Lemma delete_where_one cid (t : gmap Z class_row) :
  delete_where (λ k _, any_of [cid] (Some k)) t = delete cid t.
Proof.
  apply map_eq. intros k. destruct (decide (k = cid)) as [->|Hne].
  - rewrite lookup_delete_eq. apply lookup_delete_where_None. intros r _. simpl.
    by rewrite bool_decide_true by set_solver.
  - rewrite lookup_delete_ne by done. destruct (t !! k) as [r|] eqn:E.
    + apply lookup_delete_where. split; [done|]. simpl.
      by rewrite bool_decide_false by set_solver.
    + apply lookup_delete_where_None. by intros r; rewrite E.
Qed.

(** Both deletions: the block, the removal and the audit row, or nothing. *)
Lemma wp_delete_class h cid role cb s :
  wp (delete_class h cid role cb)
    (λ b s', b = true ∧ require role ["school_admin"; "super_admin"; "admin"] = true ∧
       is_Some (classes s !! cid) ∧ deleted_classes [cid] "class.delete" s s')
    (λ _, tables_kept s) s.
Proof.
  unfold delete_class, gate, AcademicDelete.delete_class. wp_simpl.
  destruct (require _ _); [|done]. wp_simpl.
  destruct (has_row _ _) eqn:Hc; [|done]. apply has_row_true in Hc.
  wp_simpl. apply wp_block; [|done]. intros Hnone. wp_simpl.
  eapply wp_mono; [by apply wp_remove_classes_audit| |done].
  intros _ s1 [Hr Ha]. apply wp_delete_hook; [|done]. intros row Hrow. wp_simpl.
  split_and!; [done|done|done|]. split; [by apply removed_audited|done|].
  exists row. simpl. by rewrite Ha.
Qed.

Record deleted_level (lid : Z) (s s' : TenantDB) : Prop := {
  dl_levels : levels s' = delete lid (levels s);
  dl_classes : deleted_classes (keys_where (λ _ r, cl_level r =? lid) (classes s))
                 "level.delete" s s';
}.

Lemma removed_nil s : removed [] s s.
Proof.
  split; try done.
  - symmetry. apply delete_where_id. by intros; apply bool_decide_eq_false; set_solver.
  - symmetry. apply delete_where_id. by intros; apply bool_decide_eq_false; set_solver.
  - symmetry. apply update_where_id. intros k r _ Hr. exfalso. revert Hr.
    unfold any_of. by destruct (st_class r).
  - exists []. rewrite app_nil_r. split.
    + assert (placed_in [] s = []) as ->; [|constructor].
      unfold placed_in. assert (select (λ (_ : Z) r, any_of [] (st_class r)) (students s) = []) as ->;
        [|done].
      unfold select. induction (map_to_list (students s)) as [|[k r] l IH]; simpl; [done|].
      unfold any_of. by destruct (st_class r).
    + symmetry. rewrite <-(map_id (class_history s)) at 2. apply map_ext.
      intros [? o n ?]. unfold set_field; simpl. by destruct o, n.
Qed.

Lemma removed_null_lines ids s s1 lv ls :
  removed ids s s1 → removed ids s (s1 <| levels := lv |> <| rollover_lines := ls |>).
Proof. by intros []. Qed.

Lemma remove_classes_levels ids cb l :
  preserves (λ s, levels s = l) (remove_classes ids cb).
Proof. unfold remove_classes. preserve; by apply preserves_modify. Qed.

(** The middle of [delete_level], whether or not there are classes. *)
Lemma wp_remove_level_classes ids cb s :
  class_enrollments ids s = [] →
  wp (match ids with [] => mret tt | _ => remove_classes ids cb end)
    (λ _ s', removed ids s s' ∧ audit_log s' = audit_log s ∧ levels s' = levels s)
    (λ _ _, True) s.
Proof.
  intros Hn. destruct ids as [|i ids].
  - wp_simpl. split; [apply removed_nil|done].
  - eapply wp_mono.
    + apply wp_conj; [by apply wp_remove_classes_audit|].
      by apply (remove_classes_levels (i :: ids) cb (levels s)).
    + naive_solver.
    + done.
Qed.

Lemma wp_delete_level h lid role cb s :
  wp (delete_level h lid role cb)
    (λ b s', b = true ∧ require role ["school_admin"; "super_admin"; "admin"] = true ∧
       is_Some (levels s !! lid) ∧ deleted_level lid s s')
    (λ _, tables_kept s) s.
Proof.
  unfold delete_level, gate, AcademicDelete.delete_level. wp_simpl.
  destruct (require _ _); [|done]. wp_simpl.
  destruct (has_row _ _) eqn:Hc; [|done]. apply has_row_true in Hc.
  wp_simpl. apply wp_block; [|done]. intros Hnone. wp_simpl.
  eapply wp_mono; [by apply wp_remove_level_classes| |done].
  intros _ s1 (Hr & Ha & Hl). wp_simpl. unfold sql_delete_level, check. wp_simpl.
  destruct (forallb _ _); [|done]. wp_simpl.
  apply wp_delete_hook; [|done]. intros row Hrow. wp_simpl.
  split_and!; [done|done|done|]. split; [simpl; by rewrite Hl|]. split; [|done|].
  - apply removed_audited. destruct Hr; by split.
  - exists row. simpl. by rewrite Ha.
Qed.

(** ** The placement log stays true *)
Lemma placement_logged_rollback s s' :
  placement_logged s → placement_logged (rollback s s').
Proof. done. Qed.

Lemma placement_logged_audit s f g :
  placement_logged (s <| audit_log := f |> <| nextid := g |>) ↔ placement_logged s.
Proof. done. Qed.

(** One student moves, the log says so. *)
Lemma placement_logged_move s sid row old b :
  placement_logged s →
  placement_logged (s <| students ::= <[sid := row]> |>
    <| class_history ::= λ l, l ++
       [{| hi_student := sid; hi_old := old; hi_new := st_class row; hi_by := b |}] |>).
Proof.
  intros H k. simpl. rewrite latest_placement_snoc. simpl.
  destruct (Z.eqb_spec sid k) as [->|Hne].
  - by rewrite lookup_insert_eq.
  - rewrite lookup_insert_ne by done. apply H.
Qed.

Lemma placement_logged_same s sid row :
  placement_logged s → students s !! sid ≫= st_class = st_class row →
  placement_logged (s <| students ::= <[sid := row]> |>).
Proof.
  intros H Hc k. simpl. destruct (decide (sid = k)) as [->|Hne].
  - rewrite lookup_insert_eq. simpl. by rewrite <-Hc.
  - rewrite lookup_insert_ne by done. apply H.
Qed.

Lemma create_student_logged uid name cid g b cb :
  preserves placement_logged (create_student uid name cid g b cb).
Proof.
  intros s H. unfold create_student. wp_simpl.
  apply wp_readonly; [intros ?; auto with pres| |done]. intros u. wp_simpl.
  apply wp_readonly; [intros ?; auto with pres| |done]. intros _. wp_simpl.
  apply wp_readonly; [intros ?; auto with pres| |done]. intros _. wp_simpl.
  case_bool_decide as Hc.
  - wp_simpl. by apply placement_logged_same.
  - eapply wp_mono; [apply wp_record_class_change| |].
    + intros _ s' [by_ ->]. wp_simpl.
      by apply (placement_logged_move s u
        {| st_name := name; st_class := truthy_int cid; st_gender := g; st_birth := b;
           st_status := _; st_exited := _ |}).
    + intros e s' ->. done.
Qed.

Lemma reassign_logged sid cid cb :
  preserves placement_logged (AcademicRepo.reassign_student_class sid cid cb).
Proof.
  intros s H. unfold AcademicRepo.reassign_student_class. wp_simpl.
  destruct (students s !! sid) as [row|] eqn:Hs; [|done].
  case_bool_decide; [by wp_simpl|]. unfold set_student_class. wp_simpl.
  apply wp_readonly; [intros ?; auto with pres| |done]. intros _. wp_simpl.
  eapply wp_mono; [apply wp_record_class_change| |by intros ? ? ->].
  intros _ s' [by_ ->]. wp_simpl.
  pose proof (placement_logged_move s sid (row <| st_class := truthy_int cid |>)
                (st_class row) by_ H) as Hm.
  intros k. specialize (Hm k). simpl in *. rewrite Hm. f_equal.
  destruct (decide (sid = k)) as [->|Hne].
  - by rewrite lookup_insert_eq, lookup_alter_eq, Hs.
  - by rewrite lookup_insert_ne, lookup_alter_ne.
Qed.

Lemma bool_decide_snoc_ne (j k : Z) l :
  j ≠ k → bool_decide (j ∈ l ++ [k]) = bool_decide (j ∈ l).
Proof. intros Hj. apply bool_decide_ext. set_solver. Qed.

Lemma wp_bulk_log cid cb s0 (found : list (Z * student_row)) s :
  placement_logged s0 →
  (∀ kv, kv ∈ found → students s0 !! kv.1 = Some kv.2) →
  class_history s = class_history s0 →
  wp (for_each found (λ kv, if bool_decide (st_class kv.2 = cid) then mret tt
        else _record_class_change kv.1 (st_class kv.2) cid cb))
    (λ _ s', students s' = students s ∧ ∀ k, latest_placement k (class_history s') =
       if bool_decide (k ∈ found.*1) then cid else students s0 !! k ≫= st_class)
    (λ _ _, True) s.
Proof.
  intros H0 Hf Hh.
  apply (wp_for_each_prefix found _ (λ seen s', students s' = students s ∧
    ∀ k, latest_placement k (class_history s') =
      if bool_decide (k ∈ seen.*1) then cid else students s0 !! k ≫= st_class)).
  - split; [done|]. intros k. rewrite Hh, bool_decide_false by set_solver. apply H0.
  - intros seen [k r] todo s1 -> [Hst IH]. cbn [fst snd].
    assert (students s0 !! k = Some r) as Hk by (apply (Hf (k, r)); set_solver).
    case_bool_decide as Hc.
    + wp_simpl. split; [done|]. intros j. rewrite IH, fmap_app. simpl.
      destruct (decide (j = k)) as [->|Hj].
      * rewrite (bool_decide_true (k ∈ _ ++ _)) by set_solver.
        case_bool_decide; [done|]. by rewrite Hk.
      * by rewrite bool_decide_snoc_ne.
    + eapply wp_mono; [apply wp_record_class_change| |done]. intros _ s' [b ->].
      split; [done|]. intros j. simpl. rewrite latest_placement_snoc, IH, fmap_app. simpl.
      destruct (Z.eqb_spec k j) as [->|Hj].
      * by rewrite bool_decide_true by set_solver.
      * by rewrite bool_decide_snoc_ne.
Qed.

Lemma bulk_logged sids cid cb :
  preserves placement_logged (AcademicRepo.bulk_reassign_students sids cid cb).
Proof.
  intros s H. unfold AcademicRepo.bulk_reassign_students.
  destruct sids as [|i sids]; [done|]. set (ids := i :: sids). wp_simpl.
  set (found := by_id _). destruct (negb _); [|by wp_simpl]. wp_simpl.
  apply wp_readonly; [intros ?; auto with pres| |done]. intros _. wp_simpl.
  assert (∀ kv, kv ∈ found ↔ students s !! kv.1 = Some kv.2 ∧ kv.1 ∈ ids) as Hf.
  { intros [k r]. unfold found. rewrite elem_of_by_id, elem_of_select.
    by rewrite bool_decide_eq_true. }
  eapply wp_mono; [apply (wp_bulk_log (truthy_int cid) cb s found); [done| |done]| |done].
  { intros kv Hkv. by apply Hf. }
  intros _ s' [Hst Hl]. wp_simpl. intros k. rewrite Hl, Hst. simpl.
  rewrite lookup_update_where. destruct (students s !! k) as [r|] eqn:Hk; simpl.
  - by case_bool_decide.
  - rewrite bool_decide_false; [done|]. intros ([k' r'] & -> & Hin%Hf)%list_elem_of_fmap.
    simpl in *. by rewrite Hk in Hin; destruct Hin.
Qed.

Lemma tables_kept_logged s s' : tables_kept s s' → placement_logged s → placement_logged s'.
Proof. unfold tables_kept. intros ->. done. Qed.

Lemma deleted_classes_logged ids a s s' :
  deleted_classes ids a s s' → placement_logged s → placement_logged s'.
Proof. intros [Hr _ _]. by eapply removed_placement_logged. Qed.

(** ** Properties *)

(** Deleting a class is all or nothing and never destroys enrollment
    or payment history. When [delete_class] answers, its caller passed the
    administrators' gate, the class existed and no enrollment hung on one of
    its event mappings; the enrollments and payments are untouched, exactly
    that class is gone with its event mappings, exactly its students are
    unplaced, and one
    ["class.delete"] audit row is appended. On every exception no table has
    changed (only a sequence may have advanced). *)
Theorem delete_class_outcome h cid role by_ s :
  match delete_class h cid role by_ s with
  | (Ok b, s') =>
      require role ["school_admin"; "super_admin"; "admin"] = true ∧
      is_Some (classes s !! cid) ∧ class_enrollments [cid] s = [] ∧
      enrollments s' = enrollments s ∧ payments s' = payments s ∧
      classes s' = delete cid (classes s) ∧
      (∀ k m, event_class_map s' !! k = Some m ↔
         event_class_map s !! k = Some m ∧ ecm_class m ≠ cid) ∧
      (∀ sid, students s' !! sid =
         (λ r, if bool_decide (st_class r = Some cid) then r <| st_class := None |> else r)
           <$> students s !! sid) ∧
      ∃ row, audit_log s' = audit_log s ++ [row] ∧ au_action row = "class.delete"
  | (Raise e, s') => s' = s <| nextid := nextid s' |>
  end.
Proof.
  pose proof (wp_delete_class h cid role by_ s) as H. unfold wp in H.
  destruct (delete_class h cid role by_ s) as [[b|e] s']; [|done].
  destruct H as (_ & Hg & Hc & [Hr Hn Ha]). destruct Hr as [He Hp Hcl Hmp Hst Hh].
  split_and!; try done.
  - by rewrite Hcl, delete_where_one.
  - intros k m. rewrite Hmp, lookup_delete_where. unfold any_of. rewrite bool_decide_eq_false.
    by rewrite list_elem_of_singleton.
  - intros sid. rewrite Hst, lookup_update_where.
    destruct (students s !! sid) as [r|]; simpl; [|done]. f_equal.
    unfold any_of. destruct (st_class r) as [c|]; [|done].
    assert (bool_decide (c ∈ [cid]) = bool_decide (Some c = Some cid)) as ->; [|done].
    apply bool_decide_ext. set_solver.
Qed.

(** Deleting a grade is all or nothing over every class of it, in any
    year. When [delete_level] answers, the caller is an administrator, the
    level existed, none of its classes carried an enrollment, the level and
    exactly its classes are gone, enrollments and payments are untouched and
    one ["level.delete"] audit row is appended; on every exception no table
    has changed. *)
Theorem delete_level_outcome h lid role by_ s :
  match delete_level h lid role by_ s with
  | (Ok b, s') =>
      require role ["school_admin"; "super_admin"; "admin"] = true ∧
      is_Some (levels s !! lid) ∧
      class_enrollments (keys_where (λ _ r, cl_level r =? lid) (classes s)) s = [] ∧
      enrollments s' = enrollments s ∧ payments s' = payments s ∧
      levels s' = delete lid (levels s) ∧
      (∀ cid r, classes s' !! cid = Some r ↔ classes s !! cid = Some r ∧ cl_level r ≠ lid) ∧
      ∃ row, audit_log s' = audit_log s ++ [row] ∧ au_action row = "level.delete"
  | (Raise e, s') => s' = s <| nextid := nextid s' |>
  end.
Proof.
  pose proof (wp_delete_level h lid role by_ s) as H. unfold wp in H.
  destruct (delete_level h lid role by_ s) as [[b|e] s']; [|done].
  destruct H as (_ & Hg & Hc & [Hl [Hr Hn Ha]]). destruct Hr as [He Hp Hcl Hmp Hst Hh].
  split_and!; try done.
  intros cid r. rewrite Hcl, lookup_delete_where. unfold any_of.
  rewrite bool_decide_eq_false. unfold keys_where. rewrite list_elem_of_fmap.
  split; intros [Hcid Hn']; (split; [done|]).
  - intros Hlv. apply Hn'. exists (cid, r). split; [done|]. apply elem_of_select.
    by rewrite Hcid, Hlv, Z.eqb_refl.
  - intros ([c r'] & -> & [Hr' Hlv]%elem_of_select). simpl in *.
    apply Z.eqb_eq in Hlv. congruence.
Qed.

(** Enrollment history blocks the deletion. An administrator who asks
    for the deletion of a level with a class that still has enrollments gets
    the [ValueError] that counts them, and the database is not touched. *)
Theorem delete_level_blocked_by_history h lid role by_ s :
  require role ["school_admin"; "super_admin"; "admin"] = true →
  is_Some (levels s !! lid) →
  let ids := keys_where (λ _ r, cl_level r =? lid) (classes s) in
  class_enrollments ids s ≠ [] →
  delete_level h lid role by_ s =
    (Raise (history_error (List.length (class_enrollments ids s))), s).
Proof.
  intros Hrole Hl ids Hids. unfold delete_level, gate. rewrite Hrole.
  unfold AcademicDelete.delete_level, transaction. unfold mbind, M_bind, gets; simpl.
  rewrite (proj2 (has_row_true _ _) Hl). simpl. fold ids.
  unfold _block_if_classes_have_enrollment_history.
  destruct ids as [|i ids'] eqn:Eids.
  { rewrite class_enrollments_nil in Hids. done. }
  rewrite <-Eids in *. unfold mbind, M_bind, gets.
  destruct (class_enrollments ids s) as [|e l]; [done|]. simpl.
  f_equal. apply set_nextid_same.
Qed.

Lemma delete_level_blocked_by_history_witness :
  delete_level (λ s, s) 11 admin_role (PStr "5") demo_enrolled =
    (Raise (history_error 1), demo_enrolled).
Proof.
  apply (delete_level_blocked_by_history (λ s, s) 11 admin_role (PStr "5") demo_enrolled).
  - reflexivity.
  - eexists. reflexivity.
  - vm_compute. discriminate.
Defined.
