(* ===== verification/Structure.v ===== *)
(** * The academic structure as a whole

    [get_academic_structure] and [save_academic_structure] of
    [TenantRepository] and [TenantService] (src/app/domains/tenant/): the
    curriculum system, the calendar, the blackout dates, and the levels with
    their sections, saved in one transaction from the wizard's payload. *)
From Stdlib Require Import Ascii.
From S2P Require Import Prelude PyText Authz Store AcademicRepo AcademicDelete AcademicSvc Demo.

(** ** The payload ([StructureSetupRequest]) *)
Record section_in := { sn_id : option Z; sn_name : string; sn_capacity : Z }.
Record level_in := {
  lin_id : option Z; lin_name : string; lin_isced : option Z; lin_min : option Z;
  lin_max : option Z; lin_ordinal : option Z; lin_active : bool; lin_sections : list section_in }.
Record blackout_in := { bi_date : string; bi_title : string; bi_tags : list string }.
Record structure_in := {
  si_system : string; si_year : string; si_start_month : Z; si_weekend : list string;
  si_blackouts : list blackout_in; si_levels : list level_in }.

(** [x or d] on a text. *)
Definition or_text (x d : string) : string := if bool_decide (x = "") then d else x.
Definition or_list {A} (l d : list A) : list A := match l with [] => d | _ => l end.

(** ** [datetime.strptime(s[:10], "%Y-%m-%d").date()], as year * 10000 +
    month * 100 + day *)
Definition days_in_month (y m : Z) : Z :=
  if m =? 2 then
    if (y mod 4 =? 0) && (negb (y mod 100 =? 0) || (y mod 400 =? 0)) then 29 else 28
  else if bool_decide (m ∈ [4; 6; 9; 11]) then 30 else 31.

Fixpoint split_dash (l : list ascii) : list (list ascii) :=
  match l with
  | [] => [[]]
  | c :: l' =>
      let rest := split_dash l' in
      if code c =? 45 then [] :: rest
      else match rest with w :: ws => (c :: w) :: ws | [] => [[c]] end
  end.

Definition digits_of (l : list ascii) : option Z :=
  if forallb is_digit l && negb (bool_decide (l = []))
  then Some (fold_left (λ n c, n * 10 + (code c - 48)) l 0) else None.

(** A blank before a one-digit day is part of the format. *)
Definition day_digits (l : list ascii) : list ascii :=
  match l with [b; c] => if code b =? 32 then [c] else l | _ => l end.

Definition strptime_date (s : string) : result Z :=
  let bad := Raise (ValueError "time data does not match format '%Y-%m-%d'") in
  match split_dash (take 10 (chars s)) with
  | [y; m; d] =>
      match digits_of y, digits_of m, digits_of (day_digits d) with
      | Some yy, Some mm, Some dd =>
          if (Z.of_nat (List.length y) =? 4) && (Z.of_nat (List.length m) <=? 2)
             && (Z.of_nat (List.length d) <=? 2) && (1 <=? yy)
             && (1 <=? mm) && (mm <=? 12) && (1 <=? dd) && (dd <=? days_in_month yy mm)
          then Ok (yy * 10000 + mm * 100 + dd) else bad
      | _, _, _ => bad
      end
  | _ => bad
  end.

(** ** Reading *)
Definition id_desc (a b : Z * settings_row) : Prop := b.1 ≤ a.1.
#[export] Instance id_desc_dec a b : Decision (id_desc a b).
Proof. unfold id_desc. apply _. Defined.

(** ORDER BY id DESC LIMIT 1 *)
Definition current_settings (s : TenantDB) : option (Z * settings_row) :=
  head (merge_sort id_desc (map_to_list (academic_settings s))).

Definition current_system (s : TenantDB) : string :=
  match current_settings s with Some (_, r) => or_text (se_system r) "US" | None => "US" end.

Record section_out := { so_id : Z; so_name : string; so_capacity : Z }.
Record level_out := {
  lo_id : Z; lo_name : string; lo_isced : Z; lo_min : option Z; lo_max : option Z;
  lo_ordinal : option Z; lo_active : bool; lo_sections : list section_out }.
Record structure_out := {
  so_has_structure : bool; so_system : string; so_year : string; so_start_month : Z;
  so_weekend : list string; so_blackouts : list blackout_row; so_levels : list level_out }.

(** ORDER BY name ASC and ORDER BY date ASC; names compare byte by byte. *)
Definition name_le (a b : Z * class_row) : Prop := String.leb (cl_name a.2) (cl_name b.2) = true.
#[export] Instance name_le_dec a b : Decision (name_le a b).
Proof. unfold name_le. apply _. Defined.
Definition bo_date_le (a b : blackout_row) : Prop := bo_date a ≤ bo_date b.
#[export] Instance bo_date_le_dec a b : Decision (bo_date_le a b).
Proof. unfold bo_date_le. apply _. Defined.

(** [sections_by_level.get(level_id, [])] *)
Definition sections_of (lid : Z) (s : TenantDB) : list section_out :=
  (λ kv : Z * class_row, {| so_id := kv.1; so_name := cl_name kv.2;
                            so_capacity := or_default (Some (cl_capacity kv.2)) 25 |})
    <$> merge_sort name_le (select (λ _ r, cl_level r =? lid) (classes s)).

Definition structure_levels (s : TenantDB) : list level_out :=
  (λ kv : Z * level_row,
     {| lo_id := kv.1; lo_name := lv_name kv.2; lo_isced := or_default (lv_isced kv.2) 1;
        lo_min := lv_age_min kv.2; lo_max := lv_age_max kv.2; lo_ordinal := lv_ordinal kv.2;
        lo_active := lv_active kv.2; lo_sections := sections_of kv.1 s |})
    <$> merge_sort level_le (map_to_list (levels s)).

(** [lvl["is_active"] and len(lvl["sections"]) > 0] *)
Definition usable_level (l : level_out) : bool :=
  lo_active l && (0 <? Z.of_nat (List.length (lo_sections l))).

Definition structure_of (s : TenantDB) : structure_out :=
  let calendar := match current_settings s with
                  | Some (_, r) => (se_year r, se_start_month r,
                                    or_list (se_weekend r) ["Saturday"; "Sunday"])
                  | None => ("2026-2027", 9, ["Saturday"; "Sunday"])
                  end in
  {| so_has_structure := existsb usable_level (structure_levels s);
     so_system := current_system s; so_year := calendar.1.1; so_start_month := calendar.1.2;
     so_weekend := calendar.2;
     so_blackouts := merge_sort bo_date_le (map_to_list (blackout_dates s)).*2;
     so_levels := structure_levels s |}.

Definition get_academic_structure : DB structure_out := gets structure_of.

Definition get_academic_structure_svc (user_role : role_arg) : DB structure_out :=
  gate user_role ["school_admin"; "super_admin"; "admin"; "manager"; "teacher"; "level:read";
                  "level:manage"; "school:read"] "Insufficient permissions to view structure." ;;
  get_academic_structure.

(** ** Saving: settings and blackout dates *)
Definition save_settings (p : structure_in) : DB unit :=
  let row := {| se_system := or_text (si_system p) "US";
                se_year := or_text (si_year p) "2026-2027";
                se_start_month := or_default (Some (si_start_month p)) 9;
                se_weekend := or_list (si_weekend p) ["Saturday"; "Sunday"] |} in
  o ← gets current_settings;
  check_int4 [Some (se_start_month row)] ;;
  match o with
  | Some (id, _) => modify (λ s, s <| academic_settings ::= <[id := row]> |>)
  | None => insert_serial academic_settings row ;; mret tt
  end.

(** [{row["date"]: row["id"] for row in rows}] *)
Definition by_date (t : gmap Z blackout_row) : gmap Z Z :=
  fold_left (λ m (kv : Z * blackout_row), <[bo_date kv.2 := kv.1]> m) (map_to_list t) ∅.

Definition save_blackout (existing : gmap Z Z) (b : blackout_in) : DB (list Z) :=
  if bool_decide (bi_date b = "") then mret []
  else
    d ← (match strptime_date (bi_date b) with Ok d => mret d | Raise e => raise e end);
    let row := {| bo_date := d; bo_title := or_text (bi_title b) "Holiday"; bo_tags := bi_tags b |} in
    match existing !! d with
    | Some id => modify (λ s, s <| blackout_dates ::= alter (λ r : blackout_row,
                   {| bo_date := bo_date r; bo_title := bo_title row; bo_tags := bo_tags row |}) id |>)
    | None => insert_serial blackout_dates row ;; mret tt
    end ;;
    mret [d].

Definition save_blackouts (l : list blackout_in) : DB unit :=
  t ← gets blackout_dates;
  let existing := by_date t in
  dates ← map_each l (save_blackout existing);
  let incoming := concat dates in
  let stale := List.filter (λ d, negb (bool_decide (d ∈ incoming))) (map_to_list existing).*1 in
  modify (λ s, s <| blackout_dates ::= delete_where (λ _ r, bool_decide (bo_date r ∈ stale)) |>).

(** ** Saving: levels and sections *)
Definition same_text (a b : string) : bool := bool_decide (str_lower a = str_lower b).

(** An id that is truthy and still names a row. *)
Definition live_id {R} (t : gmap Z R) (id : option Z) : option Z :=
  truthy_int id ≫= λ n, if has_row t n then Some n else None.

Definition save_level_row (l : level_in) : DB Z :=
  let name := str_strip (or_text (lin_name l) "Grade") in
  let row := {| lv_name := name; lv_isced := lin_isced l; lv_age_min := lin_min l;
                lv_age_max := lin_max l; lv_ordinal := lin_ordinal l; lv_active := lin_active l |} in
  t ← gets levels;
  check_int4 [lin_isced l; lin_min l; lin_max l; lin_ordinal l] ;;
  let found := match live_id t (lin_id l) with
               | Some n => Some n
               | None => truthy_int (fst <$> head (select (λ _ r, same_text (lv_name r) name) t))
               end in
  match found with
  | Some lid => modify (λ s, s <| levels ::= <[lid := row]> |>) ;; mret lid
  | None => insert_serial levels row
  end.

Definition save_section (active_year default_teacher : option Z) (level_active : bool) (lid : Z)
    (level_name : string) (sec : section_in) : DB (option Z) :=
  let name := str_strip (or_text (sn_name sec) (level_name +:+ " - A")) in
  let cap := or_default (Some (sn_capacity sec)) 25 in
  t ← gets classes;
  let found := match live_id t (sn_id sec) with
               | Some n => Some n
               | None => truthy_int (fst <$> head (select (λ _ r, (cl_level r =? lid)
                                                          && same_text (cl_name r) name) t))
               end in
  match found ≫= (λ cid, pair cid <$> t !! cid) with
  | Some (cid, r) =>
      let row := r <| cl_name := name |> <| cl_level := lid |> <| cl_capacity := cap |>
                   <| cl_section := _derive_section_label name |> in
      check_class cid row ;;
      modify (λ s, s <| classes ::= <[cid := row]> |>) ;;
      mret (Some cid)
  | None =>
      if level_active then
        year ← from_option_or active_year no_active_year;
        let row := {| cl_name := name; cl_level := lid; cl_head := default_teacher;
                      cl_capacity := cap; cl_active := true; cl_year := year;
                      cl_section := _derive_section_label name |} in
        id ← gets nextid;
        check_class id row ;;
        cid ← insert_serial classes row;
        mret (Some cid)
      else mret None
  end.

Definition save_level (active_year default_teacher : option Z) (all_ids : list Z)
    (changed_by : pyid) (l : level_in) : DB unit :=
  lid ← save_level_row l;
  let name := str_strip (or_text (lin_name l) "Grade") in
  kept ← map_each (lin_sections l) (save_section active_year default_teacher (lin_active l) lid name);
  c ← gets classes;
  let stale := List.filter (λ cid, negb (bool_decide (cid ∈ omap (λ o, o) kept ++ all_ids)))
                 (keys_where (λ _ r, cl_level r =? lid) c) in
  match stale with
  | [] => mret tt
  | _ => _block_if_classes_have_enrollment_history stale ;; remove_classes stale changed_by
  end.

Definition incoming_section_ids (l : list level_in) : list Z :=
  omap (λ sec, truthy_int (sn_id sec)) (concat (lin_sections <$> l)).

Definition save_academic_structure (p : structure_in) (changed_by : pyid) : DB unit :=
  transaction (
    active_year ← get_active_academic_year_id;
    save_settings p ;;
    save_blackouts (si_blackouts p) ;;
    tch ← gets teachers;
    let default_teacher := head (merge_sort Z.le (map_to_list tch).*1) in
    for_each (si_levels p)
      (save_level active_year default_teacher (incoming_section_ids (si_levels p)) changed_by)).

(** The first row by id of the profile table. *)
Definition profile_le (a b : Z * profile_row) : Prop := a.1 ≤ b.1.
#[export] Instance profile_le_dec a b : Decision (profile_le a b).
Proof. unfold profile_le. apply _. Defined.
Definition profile_of (s : TenantDB) : option (Z * profile_row) :=
  head (merge_sort profile_le (map_to_list (school_profile s))).

Definition save_academic_structure_svc (p : structure_in) (user_role : role_arg)
    (changed_by : pyid) : DB unit :=
  gate user_role ["school_admin"; "super_admin"; "admin"; "level:manage"; "level:create";
                  "school:write"] "Insufficient permissions to manage structure." ;;
  profile ← gets profile_of;
  match profile with
  | Some (_, pr) =>
      if bool_decide (sp_locked pr = None) then mret tt
      else
        current ← get_academic_structure;
        guard_or (bool_decide (si_system p = "") || bool_decide (si_system p = so_system current))
          (PermissionError ("The curriculum system is locked after school activation and cannot "
             +:+ "be changed. Grades and class sections can still be edited."))
  | None => mret tt
  end ;;
  save_academic_structure p changed_by.

(** ** SELECT ... ORDER BY id LIMIT 1 *)
Section first_row.
Context {R : Type} (le : Z * R → Z * R → Prop) `{!RelDecision le, !Transitive le, !Total le}.
Implicit Types t : gmap Z R.

Definition first_row t : option (Z * R) := head (merge_sort le (map_to_list t)).

Lemma elem_of_sorted_rows t kv : kv ∈ merge_sort le (map_to_list t) ↔ t !! kv.1 = Some kv.2.
Proof. rewrite (merge_sort_Permutation le _). destruct kv. apply elem_of_map_to_list. Qed.

Lemma first_row_inv t k r :
  first_row t = Some (k, r) → t !! k = Some r ∧ ∀ j x, t !! j = Some x → le (k, r) (j, x).
Proof using Type*.
  unfold first_row. intros Hh.
  pose proof (Sorted_merge_sort le (map_to_list t)) as Hs.
  apply (Sorted_StronglySorted _) in Hs. pose proof (elem_of_sorted_rows t) as Hin.
  destruct (merge_sort le _) as [|[j x] l]; [done|]. injection Hh as -> ->.
  split; [apply (Hin (k, r)); left|]. intros j x Hx.
  apply (Hin (j, x)), elem_of_cons in Hx as [[= -> ->]|Hx].
  - by destruct (total le (k, r) (k, r)).
  - apply StronglySorted_inv in Hs as [_ Hall].
    by apply (proj1 (Forall_forall _ _) Hall) in Hx.
Qed.

Lemma first_row_none t : first_row t = None → t = ∅.
Proof using Type*.
  unfold first_row. intros Hh. apply map_to_list_empty_iff, Permutation_nil.
  rewrite <-(merge_sort_Permutation le (map_to_list _)). by destruct (merge_sort _ _).
Qed.

Lemma first_row_some t k r :
  (∀ a b, le a b → le b a → a.1 = b.1) →
  t !! k = Some r → (∀ j x, t !! j = Some x → le (k, r) (j, x)) → first_row t = Some (k, r).
Proof using Type*.
  intros Hanti Hk Hmin. destruct (first_row t) as [[j x]|] eqn:E.
  - apply first_row_inv in E as [Hj Hle].
    assert (j = k) as -> by (apply (Hanti (j, x) (k, r)); auto). congruence.
  - apply first_row_none in E as ->. by rewrite lookup_empty in Hk.
Qed.
End first_row.

#[export] Instance id_desc_trans : Transitive id_desc.
Proof. intros a b c. unfold id_desc. lia. Qed.
#[export] Instance id_desc_total : Total id_desc.
Proof. intros a b. unfold id_desc. lia. Qed.
#[export] Instance profile_le_trans : Transitive profile_le.
Proof. intros a b c. unfold profile_le. lia. Qed.
#[export] Instance profile_le_total : Total profile_le.
Proof. intros a b. unfold profile_le. lia. Qed.

(** ** The current settings row *)
Lemma current_settings_some s k r :
  academic_settings s !! k = Some r →
  (∀ j, is_Some (academic_settings s !! j) → j ≤ k) → current_settings s = Some (k, r).
Proof.
  intros Hk Hmax. apply (first_row_some id_desc); [unfold id_desc; lia|done|].
  intros j x Hj. apply Hmax. by exists x.
Qed.

Lemma current_settings_inv s k r :
  current_settings s = Some (k, r) →
  academic_settings s !! k = Some r ∧ ∀ j, is_Some (academic_settings s !! j) → j ≤ k.
Proof.
  intros [Hk Hmax]%(first_row_inv id_desc). split; [done|]. intros j [x Hx].
  by apply Hmax in Hx.
Qed.

Lemma current_settings_none s : current_settings s = None → academic_settings s = ∅.
Proof. apply (first_row_none id_desc). Qed.

Lemma wp_save_settings p s :
  wp (save_settings p)
    (λ _ s', current_system s' = or_text (si_system p) "US" ∧
       s' = s <| academic_settings := academic_settings s' |> <| nextid := nextid s' |>)
    (λ _ s', s' = s) s.
Proof.
  assert (∀ x, or_text (or_text x "US") "US" = or_text x "US") as Hus.
  { intros x. unfold or_text. by destruct (bool_decide (x = "")) eqn:E; [|rewrite E]. }
  unfold save_settings. wp_simpl. unfold check_int4, check. wp_simpl.
  destruct (forallb _ _); [|done]. destruct (current_settings s) as [[k r]|] eqn:Hc; wp_simpl.
  - apply current_settings_inv in Hc as [Hk Hmax]. split.
    + unfold current_system. erewrite (current_settings_some _ k); cycle 1; cbn.
      * by rewrite lookup_insert_eq.
      * intros j [->|[_ Hj]]%lookup_insert_is_Some; [done|auto].
      * apply Hus.
    + by destruct s.
  - apply current_settings_none in Hc. unfold insert_serial. wp_simpl. split.
    + unfold current_system. erewrite (current_settings_some _ (nextid s)); cycle 1; cbn.
      * by rewrite lookup_insert_eq.
      * intros j [->|[_ Hj]]%lookup_insert_is_Some; [done|]. rewrite Hc in Hj.
        by destruct Hj as [x ?%lookup_empty_Some].
      * apply Hus.
    + by destruct s.
Qed.

(** ** What a save may do to the rest of the school *)
Record saving (ids : list Z) (s0 s : TenantDB) : Prop := {
  sv_enrollments : enrollments s = enrollments s0;
  sv_payments : payments s = payments s0;
  sv_levels : ∀ k, is_Some (levels s0 !! k) → is_Some (levels s !! k);
  sv_classes : ∀ c, is_Some (classes s0 !! c) →
    is_Some (classes s !! c) ∨ (class_enrollments [c] s0 = [] ∧ c ∉ ids);
  sv_mappings : ∀ k m, event_class_map s0 !! k = Some m →
    event_class_map s !! k = Some m ∨ class_enrollments [ecm_class m] s0 = [];
  sv_students : ∀ sid, students s !! sid = students s0 !! sid ∨
    ∃ r c, students s0 !! sid = Some r ∧ st_class r = Some c ∧ class_enrollments [c] s0 = [] ∧
      (c ∉ ids) ∧ students s !! sid = Some (r <| st_class := None |>);
  sv_logged : placement_logged s0 → placement_logged s;
}.

Lemma saving_refl ids s : saving ids s s.
Proof. split; auto. Qed.

(** Steps that touch only the settings, the calendar, or a level or class row. *)
Lemma saving_step ids s0 s s' :
  saving ids s0 s → enrollments s' = enrollments s → payments s' = payments s →
  (∀ k, is_Some (levels s !! k) → is_Some (levels s' !! k)) →
  (∀ c, is_Some (classes s !! c) → is_Some (classes s' !! c)) →
  event_class_map s' = event_class_map s → students s' = students s →
  class_history s' = class_history s → saving ids s0 s'.
Proof.
  intros [H1 H2 H3 H4 H5 H6 H7] E1 E2 E3 E4 E5 E6 E7. split.
  - by rewrite E1.
  - by rewrite E2.
  - auto.
  - intros c Hc. destruct (H4 c Hc); auto.
  - by rewrite E5.
  - by rewrite E6.
  - intros Hl sid. rewrite E7, E6. by apply H7.
Qed.

Lemma insert_keeps {R} (t : gmap Z R) j r k : is_Some (t !! k) → is_Some (<[j := r]> t !! k).
Proof. intros Hk. apply lookup_insert_is_Some. destruct (decide (j = k)); auto. Qed.

Lemma check_class_preserves I id r : preserves I (check_class id r).
Proof. unfold check_class. preserve. Qed.
#[local] Hint Resolve check_class_preserves : pres.

Lemma save_level_row_saving ids s0 l : preserves (saving ids s0) (save_level_row l).
Proof.
  unfold save_level_row, insert_serial. preserve; apply preserves_modify; intros s Hs;
    apply (saving_step ids s0 s); try done; intros k; apply insert_keeps.
Qed.

Lemma save_section_saving ids s0 y t a lid n sec :
  preserves (saving ids s0) (save_section y t a lid n sec).
Proof.
  unfold save_section, insert_serial. preserve; apply preserves_modify; intros s Hs;
    apply (saving_step ids s0 s); try done; intros k; apply insert_keeps.
Qed.

Lemma save_blackouts_saving ids s0 l : preserves (saving ids s0) (save_blackouts l).
Proof.
  unfold save_blackouts, save_blackout, insert_serial. preserve; apply preserves_modify; intros s Hs;
    by apply (saving_step ids s0 s).
Qed.

(** A class that lost no enrollment at a step had none at the start. *)
Lemma no_enrollment_back ids s0 s stale c :
  saving ids s0 s → class_enrollments stale s = [] → c ∈ stale → class_enrollments [c] s0 = [].
Proof.
  intros Hs Hn Hc. destruct (class_enrollments [c] s0) as [|[k e] l] eqn:E; [done|]. rewrite <-E.
  assert ((k, e) ∈ class_enrollments [c] s0) as Hin by (rewrite E; left).
  apply elem_of_select in Hin as [He Hin].
  destruct (event_class_map s0 !! en_ecm e) as [m|] eqn:Hm; [|done].
  cbn in Hin. apply bool_decide_eq_true, list_elem_of_singleton in Hin. subst c.
  destruct (sv_mappings _ _ _ Hs _ _ Hm) as [Hm'|?]; [|done]. exfalso.
  assert ((k, e) ∈ class_enrollments stale s) as Hk.
  { apply elem_of_select. rewrite (sv_enrollments _ _ _ Hs), Hm'. split; [done|].
    by apply bool_decide_eq_true. }
  rewrite Hn in Hk. set_solver.
Qed.

Lemma saving_removed ids s0 s s' stale :
  saving ids s0 s → class_enrollments stale s = [] → (∀ c, c ∈ stale → c ∉ ids) →
  levels s' = levels s → removed stale s s' → saving ids s0 s'.
Proof.
  intros Hs Hn Hids Hl Hr.
  assert (∀ c, c ∈ stale → class_enrollments [c] s0 = []) as Hback
    by (intros c; by apply (no_enrollment_back ids s0 s)).
  pose proof (removed_placement_logged _ _ _ Hr) as Hlog.
  destruct Hr as [R1 R2 R3 R4 R5 _]. destruct Hs as [H1 H2 H3 H4 H5 H6 H7]. split.
  - by rewrite R1.
  - by rewrite R2.
  - by rewrite Hl.
  - intros c Hc. destruct (decide (c ∈ stale)) as [Hin|Hin]; [auto|].
    destruct (H4 c Hc) as [[x Hx]|?]; [left|by right]. exists x. rewrite R3.
    apply lookup_delete_where. split; [done|]. by apply bool_decide_eq_false.
  - intros k m Hm. destruct (decide (ecm_class m ∈ stale)) as [Hin|Hin]; [auto|].
    destruct (H5 k m Hm) as [Hx|?]; [left|by right]. rewrite R4.
    apply lookup_delete_where. split; [done|]. by apply bool_decide_eq_false.
  - intros sid. rewrite R5, lookup_update_where.
    destruct (H6 sid) as [He|(r & c & Hr & Hc & Hcn & Hci & Hs)].
    + rewrite He. destruct (students s0 !! sid) as [r|]; simpl; [|by left].
      destruct (any_of stale (st_class r)) eqn:Ha; [right|by left].
      unfold any_of in Ha. destruct (st_class r) as [c|] eqn:Hc; [|done].
      apply bool_decide_eq_true in Ha. exists r, c. auto 10.
    + right. exists r, c. rewrite Hs. simpl. done.
  - auto.
Qed.

Lemma save_level_saving ids s0 y t cb l s :
  saving ids s0 s → wp (save_level y t ids cb l) (λ _, saving ids s0) (λ _ _, True) s.
Proof.
  intros Hs. unfold save_level. wp_simpl.
  eapply wp_mono; [by apply save_level_row_saving| |done]. intros lid s1 H1. wp_simpl.
  eapply wp_mono.
  { apply preserves_map_each; [|exact H1]. intros x _. apply save_section_saving. }
  2: done.
  intros kept s2 H2. cbn beta in H2. wp_simpl.
  set (stale := List.filter _ _).
  assert (∀ c, c ∈ stale → c ∉ ids) as Hids.
  { intros c Hc. apply list_elem_of_In, filter_In in Hc as [_ Hc].
    apply negb_true_iff, bool_decide_eq_false in Hc. set_solver. }
  destruct stale as [|x l'] eqn:Est; [done|]. wp_simpl.
  apply wp_block; [|done]. intros Hn.
  eapply wp_mono.
  - apply wp_conj; [by apply wp_remove_classes|].
    by apply (remove_classes_levels (x :: l') cb (levels s2)).
  - intros _ s3 [Hr Hl]. eapply (saving_removed ids s0 s2); [exact H2|exact Hn|exact Hids|exact Hl|exact Hr].
  - done.
Qed.

(** The steps after the settings leave the settings alone. *)
Lemma blackouts_settings t l : preserves (λ s, academic_settings s = t) (save_blackouts l).
Proof.
  unfold save_blackouts, save_blackout, insert_serial. preserve; by apply preserves_modify.
Qed.

Lemma remove_classes_settings ids cb t :
  preserves (λ s, academic_settings s = t) (remove_classes ids cb).
Proof. unfold remove_classes. preserve; by apply preserves_modify. Qed.

Lemma level_settings y d ids cb l t :
  preserves (λ s, academic_settings s = t) (save_level y d ids cb l).
Proof.
  unfold save_level, save_level_row, save_section, insert_serial,
    _block_if_classes_have_enrollment_history.
  preserve; try apply remove_classes_settings; by apply preserves_modify.
Qed.

Lemma wp_save_structure p cb s :
  wp (save_academic_structure p cb)
    (λ _ s', saving (incoming_section_ids (si_levels p)) s s' ∧
       current_system s' = or_text (si_system p) "US")
    (λ _, tables_kept s) s.
Proof.
  unfold save_academic_structure. rewrite wp_transaction.
  apply (wp_mono _ (λ _ s', saving (incoming_section_ids (si_levels p)) s s' ∧
    current_system s' = or_text (si_system p) "US") _ (λ _ _, True)); [|done|done].
  unfold get_active_academic_year_id. wp_simpl.
  eapply wp_mono; [apply wp_save_settings| |done]. intros _ s1 [Hsys Hs1]. wp_simpl.
  assert (saving (incoming_section_ids (si_levels p)) s s1) as H1.
  { apply (saving_step _ s s); try (rewrite Hs1; done). apply saving_refl. }
  eapply wp_mono.
  { apply wp_conj; [by apply save_blackouts_saving|].
    by apply (blackouts_settings (academic_settings s1)). }
  2: done.
  intros _ s2 [H2 Hset2]. wp_simpl.
  set (I := λ s', saving (incoming_section_ids (si_levels p)) s s' ∧
    academic_settings s' = academic_settings s1).
  apply (wp_mono _ (λ _, I) _ (λ _ _, True)).
  - apply wp_for_each; [done|]. intros l s3 _ [H3 Hset3].
    eapply wp_mono.
    + apply wp_conj; [by apply save_level_saving|]. by apply level_settings.
    + done.
    + done.
  - intros _ s3 [H3 Hset3]. split; [done|]. rewrite <-Hsys.
    unfold current_system, current_settings. by rewrite Hset3.
  - done.
Qed.

Definition structure_admins : list string :=
  ["school_admin"; "super_admin"; "admin"; "level:manage"; "level:create"; "school:write"].

Definition system_locked (s : TenantDB) : Prop :=
  ∃ id pr, profile_of s = Some (id, pr) ∧ sp_locked pr ≠ None.

Lemma wp_save_structure_svc p role cb s :
  wp (save_academic_structure_svc p role cb)
    (λ _ s', require role structure_admins = true ∧
       (system_locked s → si_system p = "" ∨ si_system p = current_system s) ∧
       saving (incoming_section_ids (si_levels p)) s s' ∧
       current_system s' = or_text (si_system p) "US")
    (λ _, tables_kept s) s.
Proof.
  unfold save_academic_structure_svc, gate, get_academic_structure. wp_simpl.
  fold structure_admins. destruct (require role structure_admins); [|apply tables_kept_refl].
  wp_simpl.
  assert (∀ P : Prop, P → wp (save_academic_structure p cb)
    (λ _ s', true = true ∧ P ∧ saving (incoming_section_ids (si_levels p)) s s' ∧
       current_system s' = or_text (si_system p) "US") (λ _, tables_kept s) s) as Hsave.
  { intros P HP. eapply wp_mono; [apply wp_save_structure| |done]. intros _ s' [? ?]. done. }
  unfold system_locked. destruct (profile_of s) as [[pid pr]|] eqn:Hp.
  - case_bool_decide as Hl.
    + wp_simpl. apply Hsave. intros (id & pr' & [= -> ->] & Hn). done.
    + wp_simpl. destruct (bool_decide (si_system p = "")) eqn:E1.
      * apply Hsave. intros _. left. by apply bool_decide_eq_true in E1.
      * destruct (bool_decide (si_system p = so_system (structure_of s))) eqn:E2;
          [|apply tables_kept_refl].
        apply Hsave. intros _. right. by apply bool_decide_eq_true in E2.
  - wp_simpl. apply Hsave. by intros (id & pr' & ? & _).
Qed.

(** ** Properties *)

(** C8: saving the academic structure is all or nothing and destroys no
    record. A save that answers was made by someone allowed to manage the
    structure; on a locked school it named the current curriculum system or
    a blank one; it stored the named system ("US" for a blank one). No level
    is gone; a class is gone only if the payload does not name its id and no
    enrollment hangs on it, and only the students of such classes lost their
    class; enrollments and payments are untouched. A save that fails
    changes no table. *)
Theorem save_structure_outcome p role cb s :
  match save_academic_structure_svc p role cb s with
  | (Ok _, s') =>
      require role structure_admins = true ∧
      (system_locked s → si_system p = "" ∨ si_system p = current_system s) ∧
      current_system s' = or_text (si_system p) "US" ∧
      enrollments s' = enrollments s ∧ payments s' = payments s ∧
      (∀ k, is_Some (levels s !! k) → is_Some (levels s' !! k)) ∧
      (∀ c, is_Some (classes s !! c) → is_Some (classes s' !! c) ∨
         (class_enrollments [c] s = [] ∧ c ∉ incoming_section_ids (si_levels p))) ∧
      (∀ sid, students s' !! sid = students s !! sid ∨
         ∃ r c, students s !! sid = Some r ∧ st_class r = Some c ∧
           class_enrollments [c] s = [] ∧ (c ∉ incoming_section_ids (si_levels p)) ∧
           students s' !! sid = Some (r <| st_class := None |>))
  | (Raise _, s') => s' = s <| nextid := nextid s' |>
  end.
Proof.
  pose proof (wp_save_structure_svc p role cb s) as H. unfold wp in H.
  destruct (save_academic_structure_svc p role cb s) as [[u|e] s']; [|done].
  destruct H as (Hg & Hl & [H1 H2 H3 H4 _ H6 _] & Hs). done.
Qed.

(** A live school that runs the UK system. *)
Definition demo_profile : profile_row :=
  {| sp_fields := {["currency" := FText "JOD"; "school_code" := FText "S1"]};
     sp_committed := Some 10; sp_structure := Some 20; sp_locked := Some 20;
     sp_activated := Some 20 |}.
Definition demo_live : TenantDB := demo_db
  <| academic_settings := {[3 := {| se_system := "UK"; se_year := "2025-2026";
                                    se_start_month := 9; se_weekend := ["Friday"] |}]} |>
  <| school_profile := {[1 := demo_profile]} |>.
Definition demo_structure (system : string) : structure_in :=
  {| si_system := system; si_year := "2025-2026"; si_start_month := 9; si_weekend := ["Friday"];
     si_blackouts := [{| bi_date := "2026-01-07"; bi_title := ""; bi_tags := [] |}];
     si_levels := [{| lin_id := Some 11; lin_name := "Grade 1"; lin_isced := Some 1;
                      lin_min := Some 6; lin_max := Some 7; lin_ordinal := Some 1;
                      lin_active := true;
                      lin_sections := [{| sn_id := Some 21; sn_name := "Grade 1 - B";
                                          sn_capacity := 30 |}] |}] |}.

(** The lock of the curriculum system can be lifted by leaving the
    system blank. On a school whose system is locked, a save with a blank
    system that succeeds stores "US" as the system, whatever it was. *)
Theorem blank_system_resets_locked_curriculum p role cb s u s'
  (Hlock : system_locked s) (Hblank : si_system p = "")
  (Hrun : save_academic_structure_svc p role cb s = (Ok u, s')) :
  so_system (structure_of s') = "US".
Proof.
  pose proof (wp_save_structure_svc p role cb s) as H.
  apply (wp_Ok _ _ _ _ _ _ H) in Hrun as (_ & _ & _ & Hs). cbn. by rewrite Hs, Hblank.
Qed.

Lemma demo_live_locked : system_locked demo_live.
Proof. exists 1, demo_profile. split; [by vm_compute|done]. Qed.

Lemma blank_system_resets_locked_curriculum_witness :
  let s' := (save_academic_structure_svc (demo_structure "") admin_role (PStr "5") demo_live).2 in
  so_system (structure_of demo_live) = "UK" ∧ so_system (structure_of s') = "US".
Proof.
  split; [reflexivity|].
  destruct (run_ok (save_academic_structure_svc (demo_structure "") admin_role (PStr "5"))
              demo_live eq_refl) as (u & s' & E). rewrite E.
  exact (blank_system_resets_locked_curriculum (demo_structure "") _ _ demo_live u s' demo_live_locked eq_refl E).
Defined.

(** With another system named, the same save is refused. *)
Example locked_system_is_kept :
  (save_academic_structure_svc (demo_structure "US") admin_role (PStr "5") demo_live).2 = demo_live.
Proof. by vm_compute. Qed.
