(* ===== verification/School.v ===== *)
(** * The school profile and its setup

    The onboarding of a school (src/app/domains/school/): the singleton
    profile row, the campuses and contacts, the currency table, the checks of
    [commit_profile] and [activate], the grandfathering of schools that have
    a structure, and the gate [require_tenant_live]
    (src/app/core/dependencies.py). A [dict] of columns is a finite map. *)
From S2P Require Import Prelude PyText Authz Store AcademicRepo AcademicDelete AcademicSvc Demo Structure.

#[export] Instance field_value_eq_dec : EqDecision field_value.
Proof. solve_decision. Defined.

(** ** Currencies (locale.py) *)
Definition ISO_4217_MINOR_UNITS : list (string * Z) :=
  [("BIF", 0); ("CLP", 0); ("DJF", 0); ("GNF", 0); ("ISK", 0); ("JPY", 0); ("KMF", 0);
    ("KRW", 0); ("PYG", 0); ("RWF", 0); ("UGX", 0); ("UYI", 0); ("VND", 0); ("VUV", 0);
    ("XAF", 0); ("XOF", 0); ("XPF", 0); ("BHD", 3); ("IQD", 3); ("JOD", 3); ("KWD", 3);
    ("LYD", 3); ("OMR", 3); ("TND", 3); ("CLF", 4); ("UYW", 4); ("AED", 2); ("AFN", 2);
    ("ALL", 2); ("AMD", 2); ("ANG", 2); ("AOA", 2); ("ARS", 2); ("AUD", 2); ("AWG", 2);
    ("AZN", 2); ("BAM", 2); ("BBD", 2); ("BDT", 2); ("BGN", 2); ("BMD", 2); ("BND", 2);
    ("BOB", 2); ("BRL", 2); ("BSD", 2); ("BTN", 2); ("BWP", 2); ("BYN", 2); ("BZD", 2);
    ("CAD", 2); ("CDF", 2); ("CHF", 2); ("COP", 2); ("CRC", 2); ("CUP", 2); ("CVE", 2);
    ("CZK", 2); ("DKK", 2); ("DOP", 2); ("DZD", 2); ("EGP", 2); ("ERN", 2); ("ETB", 2);
    ("EUR", 2); ("FJD", 2); ("FKP", 2); ("GBP", 2); ("GEL", 2); ("GHS", 2); ("GIP", 2);
    ("GMD", 2); ("GTQ", 2); ("GYD", 2); ("HKD", 2); ("HNL", 2); ("HRK", 2); ("HTG", 2);
    ("HUF", 2); ("IDR", 2); ("ILS", 2); ("INR", 2); ("IRR", 2); ("JMD", 2); ("KES", 2);
    ("KGS", 2); ("KHR", 2); ("KYD", 2); ("KZT", 2); ("LAK", 2); ("LBP", 2); ("LKR", 2);
    ("LRD", 2); ("LSL", 2); ("MAD", 2); ("MDL", 2); ("MGA", 2); ("MKD", 2); ("MMK", 2);
    ("MNT", 2); ("MOP", 2); ("MRU", 2); ("MUR", 2); ("MVR", 2); ("MWK", 2); ("MXN", 2);
    ("MYR", 2); ("MZN", 2); ("NAD", 2); ("NGN", 2); ("NIO", 2); ("NOK", 2); ("NPR", 2);
    ("NZD", 2); ("PAB", 2); ("PEN", 2); ("PGK", 2); ("PHP", 2); ("PKR", 2); ("PLN", 2);
    ("QAR", 2); ("RON", 2); ("RSD", 2); ("RUB", 2); ("SAR", 2); ("SBD", 2); ("SCR", 2);
    ("SDG", 2); ("SEK", 2); ("SGD", 2); ("SHP", 2); ("SLE", 2); ("SOS", 2); ("SRD", 2);
    ("SSP", 2); ("STN", 2); ("SVC", 2); ("SYP", 2); ("SZL", 2); ("THB", 2); ("TJS", 2);
    ("TMT", 2); ("TOP", 2); ("TRY", 2); ("TTD", 2); ("TWD", 2); ("TZS", 2); ("UAH", 2);
    ("USD", 2); ("UYU", 2); ("UZS", 2); ("VES", 2); ("WST", 2); ("XCD", 2); ("YER", 2);
    ("ZAR", 2); ("ZMW", 2); ("ZWL", 2)].

Definition units_of (code : string) : option Z :=
  snd <$> List.find (λ kv, bool_decide (kv.1 = str_upper code)) ISO_4217_MINOR_UNITS.

Definition is_valid_currency (code : option string) : bool :=
  match code with
  | Some c => negb (bool_decide (c = "")) && bool_decide (is_Some (units_of c))
  | None => false
  end.

(** The [KeyError] of an unknown code is an error of the interpreter. *)
Definition minor_units_for (code : string) : result Z :=
  match units_of code with Some n => Ok n | None => Raise (TypeError "KeyError") end.

(** The validator of the request schemas (src/app/core/schemas.py). *)
Definition _validate_currency (v : option string) : result (option string) :=
  match v with
  | None => Ok None
  | Some c => match units_of c with
              | Some _ => Ok (Some (str_upper c))
              | None => Raise (ValueError "Unknown ISO-4217 currency code")
              end
  end.

(** ** The profile row *)
Definition default_profile : profile_row :=
  {| sp_fields := {["additional_languages" := FTexts []; "currency" := FText "JOD"]};
     sp_committed := None; sp_structure := None; sp_locked := None; sp_activated := None |}.

Definition get_profile_row : DB (option profile_row) := gets (λ s, snd <$> profile_of s).

Definition ensure_profile_row : DB profile_row :=
  row ← get_profile_row;
  match row with
  | Some r => mret r
  | None => insert_serial school_profile default_profile ;; mret default_profile
  end.

(** [UPDATE school_profile SET ... WHERE id = (SELECT id ... LIMIT 1)] *)
Definition update_first (f : profile_row → profile_row) (s : TenantDB) : TenantDB :=
  match profile_of s with
  | Some (id, _) => s <| school_profile ::= alter f id |>
  | None => s
  end.

Definition repo_update_profile (fields : gmap string field_value) : DB profile_row :=
  ensure_profile_row ;;
  (if bool_decide (fields = ∅) then mret tt
   else modify (update_first (λ r, r <| sp_fields ::= λ old, fields ∪ old |>))) ;;
  row ← get_profile_row; from_option_or row none_error.

Definition has_recorded_money (s : TenantDB) : bool :=
  negb (bool_decide (payments s = ∅)) || negb (bool_decide (resource_costs s = ∅))
  || existsb (λ kv, negb (ecm_price kv.2 =? 0)) (map_to_list (event_class_map s)).

Definition stamp_profile_committed : DB unit :=
  now ← gets clock; modify (update_first (λ r, r <| sp_committed := Some now |>)).

(** [COALESCE(column, CURRENT_TIMESTAMP)] *)
Definition coalesce_now (now : Z) (t : option Z) : option Z := opt_or_opt t (Some now).

Definition activate_profile : DB unit :=
  now ← gets clock;
  modify (update_first (λ r, r <| sp_activated := Some now |> <| sp_locked := Some now |>
                               <| sp_structure ::= coalesce_now now |>)).

Definition grandfather_activate_if_missing : DB unit :=
  now ← gets clock;
  modify (update_first (λ r,
    if bool_decide (sp_activated r = None)
    then r <| sp_activated := Some now |> <| sp_locked := Some now |>
           <| sp_committed ::= coalesce_now now |> <| sp_structure ::= coalesce_now now |>
    else r)).

(** ** Campuses and contacts *)
(** ORDER BY is_primary DESC, id ASC *)
Definition campus_le (a b : Z * campus_row) : Prop :=
  (ca_primary a.2 = true ∧ ca_primary b.2 = false) ∨ (ca_primary a.2 = ca_primary b.2 ∧ a.1 ≤ b.1).
#[export] Instance campus_le_dec a b : Decision (campus_le a b).
Proof. unfold campus_le. apply _. Defined.
Definition list_campuses : DB (list (Z * campus_row)) :=
  gets (λ s, merge_sort campus_le (map_to_list (school_campus s))).

Definition primary_campus (s : TenantDB) : option Z :=
  fst <$> head (by_id (select (λ _ r, ca_primary r) (school_campus s))).

(** NUMERIC(10,7): the numbers of a campus are in units of 10^-7. *)
Definition numeric_10_7 (v : field_value) : bool :=
  match v with FNumber n => Z.abs n <? 10 ^ 10 | _ => true end.
Definition check_campus_numbers (fields : gmap string field_value) : DB unit :=
  check (forallb (λ kv, numeric_10_7 kv.2) (map_to_list fields)) "numeric field overflow".

Definition primary_of (fields : gmap string field_value) (d : bool) : bool :=
  match fields !! "is_primary" with Some (FBool b) => b | _ => d end.

Definition set_campus (fields : gmap string field_value) (r : campus_row) : campus_row :=
  {| ca_fields := delete "is_primary" fields ∪ ca_fields r;
     ca_primary := primary_of fields (ca_primary r) |}.

Definition upsert_primary_campus (fields : gmap string field_value) : DB campus_row :=
  existing_id ← gets primary_campus;
  match existing_id with
  | Some id =>
      (if bool_decide (fields = ∅) then mret tt
       else check_campus_numbers fields ;;
            modify (λ s, s <| school_campus ::= alter (set_campus fields) id |>)) ;;
      row ← gets (λ s, school_campus s !! id);
      from_option_or row none_error
  | None =>
      check (bool_decide (fields !! "is_primary" = None)) "column specified more than once" ;;
      check_campus_numbers fields ;;
      check (bool_decide (fields !! "name" ≠ None)) "null value violates not-null constraint" ;;
      let row := {| ca_fields := fields; ca_primary := true |} in
      insert_serial school_campus row ;;
      mret row
  end.

(** ORDER BY escalation_order ASC NULLS LAST, id ASC *)
Definition contact_le (a b : Z * contact_row) : Prop :=
  match ct_order a.2, ct_order b.2 with
  | Some x, Some y => x < y ∨ (x = y ∧ a.1 ≤ b.1)
  | Some _, None => True
  | None, Some _ => False
  | None, None => a.1 ≤ b.1
  end.
#[export] Instance contact_le_dec a b : Decision (contact_le a b).
Proof. unfold contact_le. repeat case_match; apply _. Defined.
Definition list_contacts : DB (list (Z * contact_row)) :=
  gets (λ s, merge_sort contact_le (map_to_list (school_contact s))).

Definition create_contact (fields : contact_row) : DB contact_row :=
  check_int4 [ct_order fields] ;;
  insert_serial school_contact fields ;;
  mret fields.

(** The patch: the fields that are not [None]. *)
Definition patch_contact (fields r : contact_row) : contact_row :=
  {| ct_role_title := ct_role_title fields; ct_name := ct_name fields;
     ct_phone := opt_or_opt (ct_phone fields) (ct_phone r);
     ct_email := opt_or_opt (ct_email fields) (ct_email r);
     ct_emergency := ct_emergency fields;
     ct_order := opt_or_opt (ct_order fields) (ct_order r);
     ct_visible := ct_visible fields |}.

Definition update_contact (contact_id : Z) (fields : contact_row) : DB (option contact_row) :=
  check_int4 [ct_order fields] ;;
  modify (λ s, s <| school_contact ::= alter (patch_contact fields) contact_id |>) ;;
  gets (λ s, school_contact s !! contact_id).

Definition contact_not_found (id : Z) : exn :=
  ValueError ("Contact " +:+ pretty id +:+ " not found").

Definition delete_contact (contact_id : Z) : DB unit :=
  t ← gets school_contact;
  modify (λ s, s <| school_contact ::= delete contact_id |>) ;;
  guard_or (has_row t contact_id) (contact_not_found contact_id).

Definition reachable_contact (r : contact_row) : bool :=
  ct_emergency r && match ct_phone r with Some p => negb (bool_decide (p = "")) | None => false end.
Definition has_emergency_contact (s : TenantDB) : bool :=
  existsb (λ kv, reachable_contact kv.2) (map_to_list (school_contact s)).

(** ** The service *)
Definition admin_only (user_role : role_arg) : DB unit :=
  match _require_admin user_role with Ok u => mret u | Raise e => raise e end.

Definition text_of (v : option field_value) : option string :=
  match v with Some (FText s) => Some s | _ => None end.

(** [if profile.get(f)] *)
Definition field_truthy (v : option field_value) : bool :=
  match v with
  | Some (FText s) => negb (bool_decide (s = ""))
  | Some (FTexts l) => negb (bool_decide (l = []))
  | Some (FNumber n) => negb (n =? 0)
  | Some (FBool b) => b
  | Some (FDate _) => true
  | None => false
  end.

(** [str(a) == str(b)] on columns: NULL reads as the text None. *)
Definition same_str (a b : option field_value) : bool :=
  let str (v : option field_value) := match v with None => Some (FText "None") | _ => v end in
  bool_decide (str a = str b).

(** [sync_tenant_mirror] of the control plane, under CITEXT UNIQUE. *)
Definition sync_tenant_mirror (display_name school_code brand_color : option string) : DB unit :=
  m ← gets tenant_mirror;
  others ← gets other_school_codes;
  let new := opt_or_opt school_code (mr_school_code m) in
  check (match new with
         | Some c => negb (bool_decide (str_lower c ∈ map str_lower others))
         | None => true
         end) "duplicate key value violates unique constraint" ;;
  modify (λ s, s <| tenant_mirror :=
    {| mr_display_name := opt_or_opt display_name (mr_display_name m); mr_school_code := new;
       mr_brand_color := opt_or_opt brand_color (mr_brand_color m) |} |>).

(** [except asyncpg.PostgresError: pass] *)
Definition _sync_tenant_mirror (profile : profile_row) : DB unit :=
  let get k := text_of (sp_fields profile !! k) in
  try_except (sync_tenant_mirror (get "display_name") (get "school_code") (get "primary_color"))
    (λ e, match e with DatabaseError _ => mret tt | _ => raise e end).

(** [{k: v for k, v in fields.items() if v is not None}] *)
Definition clean_fields (fields : gmap string (option field_value)) : gmap string field_value :=
  omap (λ v, v) fields.

(** [is not None], as the code tests timestamps. *)
Definition live (r : profile_row) : bool := negb (bool_decide (sp_activated r = None)).

Definition check_locked_fields (current : profile_row) (clean : gmap string field_value)
    (user_role : role_arg) : DB unit :=
  let changes k := match clean !! k with
                   | Some v => negb (same_str (Some v) (sp_fields current !! k))
                   | None => false
                   end in
  if live current then
    guard_or (negb (changes "school_code"))
      (PermissionError "'school_code' is immutable after the school has been activated.") ;;
    if changes "currency" then
      guard_or (mem "super_admin" (role_set user_role))
        (PermissionError "'currency' can only be changed after activation by a super_admin.") ;;
      money ← gets has_recorded_money;
      guard_or (negb money)
        (PermissionError ("'currency' is immutable once payments, resource costs, or ticket "
           +:+ "prices have been recorded."))
    else mret tt
  else mret tt.

Definition update_profile (fields : gmap string (option field_value)) (user_role : role_arg) :
    DB profile_row :=
  admin_only user_role ;;
  current ← ensure_profile_row;
  let clean := clean_fields fields in
  check_locked_fields current clean user_role ;;
  if bool_decide (clean = ∅) then mret current
  else
    updated ← repo_update_profile clean;
    _sync_tenant_mirror updated ;;
    mret updated.

Definition upsert_campus (fields : gmap string (option field_value)) (user_role : role_arg) :
    DB campus_row :=
  admin_only user_role ;;
  upsert_primary_campus (clean_fields fields).

Definition create_contact_svc (fields : contact_row) (user_role : role_arg) : DB contact_row :=
  admin_only user_role ;; create_contact fields.

Definition update_contact_svc (contact_id : Z) (fields : contact_row) (user_role : role_arg) :
    DB contact_row :=
  admin_only user_role ;;
  updated ← update_contact contact_id fields;
  from_option_or updated (contact_not_found contact_id).

Definition delete_contact_svc (contact_id : Z) (user_role : role_arg) : DB unit :=
  admin_only user_role ;; delete_contact contact_id.

(** ** The setup transitions *)
Definition _REQUIRED_PROFILE_FIELDS : list string :=
  ["legal_name"; "display_name"; "school_code"; "country"; "timezone"; "currency"].

Definition _PROFILE_FIELD_LABELS : list (string * string) :=
  [("legal_name", "Legal Name"); ("display_name", "Display Name"); ("school_code", "School Code");
   ("country", "Country (School Identity step, not the Campus address)");
   ("timezone", "Time Zone"); ("currency", "Currency")].

Definition label_of (f : string) : string :=
  default f (snd <$> List.find (λ kv, bool_decide (kv.1 = f)) _PROFILE_FIELD_LABELS).

Definition missing_fields (profile : profile_row) : list string :=
  List.filter (λ f, negb (field_truthy (sp_fields profile !! f))) _REQUIRED_PROFILE_FIELDS.

Definition commit_profile (user_role : role_arg) : DB profile_row :=
  admin_only user_role ;;
  profile ← ensure_profile_row;
  guard_or (bool_decide (sp_committed profile = None))
    (ValueError "School Information is already committed and cannot be re-submitted.") ;;
  guard_or (bool_decide (missing_fields profile = []))
    (ValueError ("Missing required school information: "
       +:+ String.concat ", " (label_of <$> missing_fields profile))) ;;
  campuses ← list_campuses;
  guard_or (negb (bool_decide (campuses = [])))
    (ValueError "Add at least one campus address before continuing.") ;;
  emergency ← gets has_emergency_contact;
  guard_or emergency
    (ValueError "Add at least one emergency contact with a phone number before continuing.") ;;
  stamp_profile_committed ;;
  row ← get_profile_row;
  committed ← from_option_or row none_error;
  _sync_tenant_mirror committed ;;
  mret committed.

Definition activate (user_role : role_arg) : DB profile_row :=
  admin_only user_role ;;
  profile ← ensure_profile_row;
  guard_or (negb (live profile))
    (ValueError "School is already activated; activation cannot be repeated or undone.") ;;
  guard_or (negb (bool_decide (sp_committed profile = None)))
    (ValueError "Complete School Information before activating.") ;;
  structure ← get_academic_structure;
  guard_or (so_has_structure structure)
    (ValueError ("Configure the curriculum system, grades, and at least one class section "
       +:+ "before activating.")) ;;
  activate_profile ;;
  row ← get_profile_row;
  activated ← from_option_or row none_error;
  _sync_tenant_mirror activated ;;
  mret activated.

(** ** Reading the setup *)
Record setup_state := {
  ss_status : string; ss_profile_committed : bool; ss_has_primary_campus : bool;
  ss_has_emergency_contact : bool; ss_structure_committed : bool;
  ss_blocking : list string; ss_activated_at : option Z }.

Definition blocking_of (committed campus emergency structure : bool) : list string :=
  (if committed then [] else ["Complete School Information (Stage 1)."])
  ++ (if campus then [] else ["Add the primary campus address."])
  ++ (if emergency then [] else ["Add at least one emergency contact with a phone number."])
  ++ (if structure then []
      else ["Configure the curriculum system, grades, and at least one class section."]).

Definition get_setup_state : DB setup_state :=
  profile ← ensure_profile_row;
  structure ← get_academic_structure;
  let has_structure := so_has_structure structure in
  profile ← (if negb (live profile) && has_structure then
               grandfather_activate_if_missing ;;
               row ← get_profile_row; from_option_or row none_error
             else mret profile);
  has_emergency ← gets has_emergency_contact;
  campuses ← list_campuses;
  let has_primary := existsb (λ kv : Z * campus_row, ca_primary kv.2) campuses in
  let is_live := live profile in
  let committed := negb (bool_decide (sp_committed profile = None)) in
  mret {| ss_status := if is_live then "live" else "setup";
          ss_profile_committed := committed; ss_has_primary_campus := has_primary;
          ss_has_emergency_contact := has_emergency; ss_structure_committed := has_structure;
          ss_blocking := if is_live then []
                         else blocking_of committed has_primary has_emergency has_structure;
          ss_activated_at := sp_activated profile |}.

Record profile_bundle := {
  pb_profile : profile_row; pb_campuses : list (Z * campus_row);
  pb_contacts : list (Z * contact_row) }.

Definition get_profile_bundle : DB profile_bundle :=
  profile ← ensure_profile_row;
  campuses ← list_campuses;
  contacts ← list_contacts;
  mret {| pb_profile := profile; pb_campuses := campuses; pb_contacts := contacts |}.

Record locale_summary := {
  ls_school_name : option field_value; ls_currency : option field_value;
  ls_timezone : option field_value; ls_activated_at : option Z }.

Definition get_locale_summary : DB locale_summary :=
  profile ← ensure_profile_row;
  let get k := sp_fields profile !! k in
  mret {| ls_school_name := if field_truthy (get "display_name") then get "display_name"
                            else get "legal_name";
          ls_currency := get "currency"; ls_timezone := get "timezone";
          ls_activated_at := sp_activated profile |}.

(** ** The gate of every other domain ([require_tenant_live]) *)
Definition require_tenant_live (u : CurrentUser) : DB unit :=
  if has_role u "super_admin" then mret tt
  else if match cu_tenant_id u with Some t => bool_decide (t = "") | None => true end then mret tt
  else
    is_live ← try_except
      (profile ← get_profile_row;
       if match profile with Some r => live r | None => false end then mret true
       else
         structure ← get_academic_structure;
         if so_has_structure structure then grandfather_activate_if_missing ;; mret true
         else mret false)
      (λ _, mret true);
    guard_or is_live (HTTPException 403 "Complete school setup before performing this action").

(** ** The endpoints (router.py) *)
Definition http_errors {A} (value_status : option Z) (m : DB A) : DB A :=
  try_except m (λ e, match e, value_status with
    | PermissionError d, _ => raise (HTTPException 403 d)
    | ValueError d, Some st => raise (HTTPException st d)
    | _, _ => raise e
    end).

(** The schema [SchoolProfileUpdateRequest]: [zone] is the lookup in the
    time zone database, which is not part of the program. *)
Definition validate_profile (zone : string → bool) (fields : gmap string (option field_value)) :
    result (gmap string (option field_value)) :=
  match (match text_of (mjoin (fields !! "timezone")) with
         | Some z => zone z
         | None => true
         end),
        _validate_currency (text_of (mjoin (fields !! "currency"))) with
  | false, _ => Raise (HTTPException 422 "Unknown IANA timezone")
  | true, Raise _ => Raise (HTTPException 422 "Unknown ISO-4217 currency code")
  | true, Ok None => Ok fields
  | true, Ok (Some c) => Ok (<["currency" := Some (FText c)]> fields)
  end.

Definition put_profile (zone : string → bool) (fields : gmap string (option field_value))
    (u : CurrentUser) : DB profile_bundle :=
  payload ← (match validate_profile zone fields with Ok p => mret p | Raise e => raise e end);
  http_errors None (update_profile payload (RList (cu_roles u)) ;; get_profile_bundle).

Definition commit_profile_route (u : CurrentUser) : DB profile_bundle :=
  http_errors (Some 400) (commit_profile (RList (cu_roles u)) ;; get_profile_bundle).

Definition activate_route (u : CurrentUser) : DB profile_bundle :=
  http_errors (Some 400) (activate (RList (cu_roles u)) ;; get_profile_bundle).

Definition post_campus (fields : gmap string (option field_value)) (u : CurrentUser) :
    DB campus_row :=
  http_errors None (upsert_campus fields (RList (cu_roles u))).

Definition post_contact (fields : contact_row) (u : CurrentUser) : DB contact_row :=
  http_errors None (create_contact_svc fields (RList (cu_roles u))).

Definition put_contact (contact_id : Z) (fields : contact_row) (u : CurrentUser) :
    DB contact_row :=
  http_errors (Some 404) (update_contact_svc contact_id fields (RList (cu_roles u))).

Definition delete_contact_route (contact_id : Z) (u : CurrentUser) : DB unit :=
  http_errors (Some 404) (delete_contact_svc contact_id (RList (cu_roles u))).

(** ** The singleton row *)
Lemma profile_of_spec s id r :
  profile_of s = Some (id, r) ↔
  school_profile s !! id = Some r ∧ ∀ j x, school_profile s !! j = Some x → id ≤ j.
Proof.
  split.
  - apply (first_row_inv profile_le).
  - intros [Hk Hmin]. apply (first_row_some profile_le); [unfold profile_le; lia|done|].
    intros j x Hj. by apply (Hmin j x).
Qed.

Lemma profile_of_none s : profile_of s = None → school_profile s = ∅.
Proof. apply (first_row_none profile_le). Qed.

Lemma profile_of_ext s s' : school_profile s' = school_profile s → profile_of s' = profile_of s.
Proof. intros H. unfold profile_of. by rewrite H. Qed.

Lemma profile_of_update f s id r :
  profile_of s = Some (id, r) → profile_of (update_first f s) = Some (id, f r).
Proof.
  intros Hp. unfold update_first. rewrite Hp. apply profile_of_spec in Hp as [Hk Hmin].
  apply profile_of_spec. cbn. split; [by rewrite lookup_alter_eq, Hk|].
  intros j x. destruct (decide (j = id)) as [->|Hj]; [done|].
  rewrite lookup_alter_ne by done. apply Hmin.
Qed.

(** What [ensure_profile_row] answers and leaves. *)
Definition current_profile (s : TenantDB) : profile_row :=
  default default_profile (snd <$> profile_of s).
Definition ensured (s : TenantDB) : TenantDB :=
  match profile_of s with
  | Some _ => s
  | None => s <| school_profile ::= <[nextid s := default_profile]> |> <| nextid := nextid s + 1 |>
  end.

Lemma profile_of_ensured s : ∃ id, profile_of (ensured s) = Some (id, current_profile s).
Proof.
  unfold ensured, current_profile. destruct (profile_of s) as [[id r]|] eqn:Hp; [by exists id|].
  exists (nextid s). apply profile_of_none in Hp. apply profile_of_spec. cbn. rewrite Hp.
  split; [apply lookup_insert_eq|]. intros j x Hj.
  destruct (decide (j = nextid s)) as [->|Hn]; [done|].
  by rewrite lookup_insert_ne, lookup_empty in Hj.
Qed.

Lemma wp_ensure_profile_row Q E s :
  wp ensure_profile_row Q E s ↔ Q (current_profile s) (ensured s).
Proof.
  unfold ensure_profile_row, get_profile_row, insert_serial, current_profile, ensured. wp_simpl.
  by destruct (profile_of s) as [[id r]|]; cbn; wp_simpl.
Qed.

Lemma wp_get_profile_row Q E s : wp get_profile_row Q E s ↔ Q (snd <$> profile_of s) s.
Proof. done. Qed.

Lemma wp_admin_only role (Q : unit → TenantDB → Prop) (E : exn → TenantDB → Prop) s :
  wp (admin_only role) Q E s ↔
  match _require_admin role with Ok _ => Q tt s | Raise e => E e s end.
Proof. unfold admin_only. by destruct (_require_admin role) as [[]|e]. Qed.

(** The mirror is best effort: it never fails, and writes one row. *)
Lemma wp_sync_mirror p (Q : unit → TenantDB → Prop) E s :
  (∀ m, Q tt (s <| tenant_mirror := m |>)) → wp (_sync_tenant_mirror p) Q E s.
Proof.
  intros HQ. unfold _sync_tenant_mirror, sync_tenant_mirror, check. wp_simpl.
  destruct (match _ with Some _ => _ | None => _ end); wp_simpl; [apply HQ|].
  specialize (HQ (tenant_mirror s)). by destruct s.
Qed.

Lemma preserves_sync_mirror (I : TenantDB → Prop) p :
  (∀ s m, I s → I (s <| tenant_mirror := m |>)) → preserves I (_sync_tenant_mirror p).
Proof. intros H s Hs. apply wp_sync_mirror. intros m. by apply H. Qed.

(** ** What the setup of a school touches *)
Definition school_only (s s' : TenantDB) : Prop :=
  s' = s <| school_profile := school_profile s' |> <| school_campus := school_campus s' |>
         <| school_contact := school_contact s' |> <| tenant_mirror := tenant_mirror s' |>
         <| nextid := nextid s' |>.

#[export] Instance school_only_refl : Reflexive school_only.
Proof. by intros []. Qed.
#[export] Instance school_only_trans : Transitive school_only.
Proof. intros s1 s2 s3 H1 H2. unfold school_only in *. rewrite H2, H1. done. Qed.

Lemma update_first_only f s : school_only s (update_first f s).
Proof. unfold update_first. destruct (profile_of s) as [[id r]|]; by destruct s. Qed.
Lemma ensured_only s : school_only s (ensured s).
Proof. unfold ensured. destruct (profile_of s); by destruct s. Qed.

Lemma school_only_structure s s' : school_only s s' → structure_of s' = structure_of s.
Proof. intros ->. done. Qed.

(** ** The rules of a profile update *)
Definition same_column (clean : gmap string field_value) (current : profile_row) (k : string) : Prop :=
  ∀ v, clean !! k = Some v → same_str (Some v) (sp_fields current !! k) = true.

Definition change_allowed (s : TenantDB) (role : role_arg) (current : profile_row)
    (clean : gmap string field_value) : Prop :=
  live current = true →
  same_column clean current "school_code" ∧
  (same_column clean current "currency" ∨
   (mem "super_admin" (role_set role) = true ∧ has_recorded_money s = false)).

Lemma wp_check_locked_fields current clean role (Q : unit → TenantDB → Prop)
    (E : exn → TenantDB → Prop) s :
  (change_allowed s role current clean → Q tt s) →
  (¬ change_allowed s role current clean → ∀ m, E (PermissionError m) s) →
  wp (check_locked_fields current clean role) Q E s.
Proof.
  intros HQ HE. unfold check_locked_fields.
  assert (∀ k, same_column clean current k ↔
    (match clean !! k with
     | Some v => negb (same_str (Some v) (sp_fields current !! k)) | None => false end) = false) as Hsame.
  { intros k. unfold same_column. destruct (clean !! k) as [v|].
    - rewrite negb_false_iff. split; [by intros H; apply H|]. by intros H v' [= <-].
    - split; [done|]. by intros _ v. }
  destruct (live current) eqn:Hl; [|apply HQ; unfold change_allowed; by rewrite Hl].
  unfold change_allowed in *. rewrite !Hsame in *. wp_simpl.
  destruct (match clean !! "school_code" with Some _ => _ | None => _ end); cbn [negb].
  { apply HE. by intros [? _]. }
  wp_simpl. destruct (match clean !! "currency" with Some _ => _ | None => _ end); cbn [negb].
  - wp_simpl. destruct (mem _ _) eqn:Hm; [|apply HE; intros [_ [?|[? _]]]; done].
    wp_simpl. destruct (has_recorded_money s) eqn:Hr; cbn [negb]; wp_simpl.
    + apply HE. intros [_ [?|[_ ?]]]; done.
    + apply HQ. auto.
  - wp_simpl. apply HQ. auto.
Qed.

Lemma wp_repo_update fields Q E s id r :
  profile_of s = Some (id, r) → fields ≠ ∅ →
  (∀ s', school_only s s' → profile_of s' = Some (id, r <| sp_fields := fields ∪ sp_fields r |>) →
    Q (r <| sp_fields := fields ∪ sp_fields r |>) s') →
  wp (repo_update_profile fields) Q E s.
Proof.
  intros Hp Hf HQ. unfold repo_update_profile. wp_simpl. rewrite wp_ensure_profile_row.
  unfold ensured. rewrite Hp. wp_simpl. rewrite bool_decide_false by done. wp_simpl.
  rewrite wp_get_profile_row. erewrite profile_of_update by done. cbn. wp_simpl.
  apply HQ; [apply update_first_only|]. by erewrite profile_of_update by done.
Qed.

Definition is_admin (role : role_arg) : Prop := _require_admin role = Ok tt.

Lemma wp_update_profile fields role s :
  let clean := clean_fields fields in
  let current := current_profile s in
  wp (update_profile fields role)
    (λ r s', is_admin role ∧ change_allowed s role current clean ∧
       r = current <| sp_fields := clean ∪ sp_fields current |> ∧
       (∃ id, profile_of (ensured s) = Some (id, current) ∧ profile_of s' = Some (id, r)) ∧
       school_only s s')
    (λ e s', (∃ m, e = PermissionError m) ∧ (s' = s ∨ s' = ensured s) ∧
       ¬ (is_admin role ∧ change_allowed s role current clean)) s.
Proof.
  cbv zeta. unfold update_profile, is_admin. rewrite wp_bind, wp_admin_only.
  destruct (_require_admin role) as [[]|e] eqn:Ha; cycle 1.
  { unfold _require_admin in Ha. destruct (existsb _ _); [done|]. injection Ha as <-.
    split; [by eexists|]. split; [by left|]. by intros [? _]. }
  rewrite wp_bind, wp_ensure_profile_row, wp_bind.
  assert (∀ r c, change_allowed (ensured s) role r c ↔ change_allowed s role r c) as Heq.
  { intros r c. unfold change_allowed, has_recorded_money. by rewrite (ensured_only s). }
  destruct (profile_of_ensured s) as [id Hid].
  apply wp_check_locked_fields; rewrite Heq; intros Hc; cycle 1.
  { intros m. split; [by eexists|]. split; [by right|]. by intros [_ ?]. }
  case_bool_decide as He.
  - wp_simpl. rewrite He, map_empty_union. split; [done|]. split; [by rewrite <-He|].
    split; [by destruct (current_profile s)|]. split; [|apply ensured_only]. by exists id.
  - rewrite wp_bind. eapply wp_repo_update; [done|done|]. intros s' Hs' Hp'.
    rewrite wp_bind. apply wp_sync_mirror. intros m. wp_simpl. split; [done|]. split; [done|].
    split; [done|]. split; [by exists id|].
    etrans; [apply ensured_only|]. etrans; [exact Hs'|]. by destruct s'.
Qed.

(** ** Requests to a school, and the lock

    [PassGate]: the gate [require_tenant_live] in front of every endpoint of
    the other routers. *)
Inductive school_request :=
  | PutProfile (fields : gmap string (option field_value)) (role : role_arg)
  | PostCampus (fields : gmap string (option field_value)) (role : role_arg)
  | PostContact (fields : contact_row) (role : role_arg)
  | PutContact (contact_id : Z) (fields : contact_row) (role : role_arg)
  | DeleteContact (contact_id : Z) (role : role_arg)
  | CommitProfile (role : role_arg)
  | Activate (role : role_arg)
  | GetSetupState
  | GetProfile
  | PassGate (u : CurrentUser)
  | PutStructure (payload : structure_in) (role : role_arg) (changed_by : pyid).

Definition run_school (q : school_request) : DB unit :=
  match q with
  | PutProfile f role => update_profile f role ;; mret tt
  | PostCampus f role => upsert_campus f role ;; mret tt
  | PostContact f role => create_contact_svc f role ;; mret tt
  | PutContact i f role => update_contact_svc i f role ;; mret tt
  | DeleteContact i role => delete_contact_svc i role
  | CommitProfile role => commit_profile role ;; mret tt
  | Activate role => activate role ;; mret tt
  | GetSetupState => get_setup_state ;; mret tt
  | GetProfile => get_profile_bundle ;; mret tt
  | PassGate u => require_tenant_live u
  | PutStructure p role by_ => save_academic_structure_svc p role by_
  end.

(** Each request comes some time after the one before. *)
Fixpoint run_school_requests (l : list (Z * school_request)) (s : TenantDB) : TenantDB :=
  match l with
  | [] => s
  | (dt, q) :: l' => run_school_requests l' (run_school q (s <| clock ::= Z.add dt |>)).2
  end.

(** What the rest of the program does meanwhile is any change of the database
    of the school that leaves two tables alone: nothing outside of the setup,
    the structure and the gate writes [school_profile] or
    [academic_settings]. *)
Inductive school_step :=
  | Request (q : school_request)
  | Elsewhere (f : TenantDB → TenantDB).

Definition spares_settings (st : school_step) : Prop :=
  match st with
  | Request _ => True
  | Elsewhere f => ∀ s, school_profile (f s) = school_profile s ∧ academic_settings (f s) = academic_settings s
  end.

Definition school_after (st : Z * school_step) (s : TenantDB) : TenantDB :=
  let s := s <| clock ::= Z.add st.1 |> in
  match st.2 with Request q => (run_school q s).2 | Elsewhere f => f s end.

Fixpoint run_school_steps (l : list (Z * school_step)) (s : TenantDB) : TenantDB :=
  match l with [] => s | st :: l' => run_school_steps l' (school_after st s) end.

(** A payment is on record at the start and after every step. *)
Fixpoint paid_throughout (l : list (Z * school_step)) (s : TenantDB) : Prop :=
  payments s ≠ ∅ ∧ match l with [] => True | st :: l' => paid_throughout l' (school_after st s) end.

(** The school went live as profile row [id], [r0], with the curriculum
    [sys]; [paid]: a payment had been recorded. *)
Record live_since (id : Z) (r0 : profile_row) (sys : string) (paid : Prop) (s : TenantDB) : Prop := {
  ls_row : ∃ r, profile_of s = Some (id, r) ∧ sp_activated r = sp_activated r0 ∧
    sp_locked r = sp_locked r0 ∧
    same_str (sp_fields r !! "school_code") (sp_fields r0 !! "school_code") = true ∧
    (paid → same_str (sp_fields r !! "currency") (sp_fields r0 !! "currency") = true);
  ls_system : current_system s = sys ∨ current_system s = "US";
  ls_paid : paid → payments s ≠ ∅;
}.

Lemma same_str_refl a : same_str a a = true.
Proof. unfold same_str. by rewrite bool_decide_eq_true. Qed.
Lemma same_str_trans a b c : same_str a b = true → same_str b c = true → same_str a c = true.
Proof. unfold same_str. rewrite !bool_decide_eq_true. congruence. Qed.

Section locked.
Context (id : Z) (r0 : profile_row) (sys : string) (paid : Prop).
Hypothesis Hlive : live r0 = true.
Hypothesis Hlock : sp_locked r0 ≠ None.
Abbreviation I := (live_since id r0 sys paid).

Lemma live_since_ext s s' :
  I s → profile_of s' = profile_of s → academic_settings s' = academic_settings s →
  payments s' = payments s → I s'.
Proof.
  intros [H1 H2 H3] E1 E2 E3. split.
  - by rewrite E1.
  - unfold current_system, current_settings in *. by rewrite E2.
  - by rewrite E3.
Qed.

Lemma live_since_only s s' :
  I s → school_only s s' → profile_of s' = profile_of s → I s'.
Proof. intros Hs Ho Hp. apply (live_since_ext s); [done|done|by rewrite Ho|by rewrite Ho]. Qed.

(** A live profile stays as it is under the transitions of the setup. *)
Lemma live_since_update f s :
  I s → (∀ r, sp_activated r = sp_activated r0 → sp_activated (f r) = sp_activated r ∧
               sp_locked (f r) = sp_locked r ∧ sp_fields (f r) = sp_fields r) →
  I (update_first f s).
Proof.
  intros [(r & Hp & Ha & Hl & Hc & Hcur) H2 H3] Hf. pose proof (update_first_only f s) as Ho.
  destruct (Hf r Ha) as (Ha' & Hl' & Hf'). split.
  - exists (f r). rewrite (profile_of_update _ _ _ _ Hp), Ha', Hl', Hf'. done.
  - rewrite Ho. exact H2.
  - rewrite Ho. exact H3.
Qed.

Lemma live_since_live s : I s → live (current_profile s) = true ∧ ensured s = s.
Proof using Hlive.
  intros [(r & Hp & Ha & _) _ _]. unfold current_profile, ensured, live in *. rewrite Hp. cbn.
  by rewrite Ha.
Qed.

Lemma mirror_live_since p : preserves I (_sync_tenant_mirror p).
Proof. apply preserves_sync_mirror. intros s m Hs. by apply (live_since_ext s). Qed.

Lemma ensure_live_since : preserves I ensure_profile_row.
Proof using Hlive.
  intros s Hs. rewrite wp_ensure_profile_row. by destruct (live_since_live s Hs) as [_ ->].
Qed.

Lemma admin_live_since role : preserves I (admin_only role).
Proof. unfold admin_only. case_match; auto with pres. Qed.

Lemma grandfather_live_since : preserves I grandfather_activate_if_missing.
Proof using Hlive.
  unfold grandfather_activate_if_missing. preserve. apply preserves_modify. intros s Hs.
  apply live_since_update; [done|]. intros r Ha. unfold live in Hlive.
  rewrite <-Ha in Hlive. by destruct (bool_decide (sp_activated r = None)).
Qed.

Lemma stamp_live_since : preserves I stamp_profile_committed.
Proof.
  unfold stamp_profile_committed. preserve. apply preserves_modify. intros s Hs.
  by apply live_since_update.
Qed.

Lemma update_profile_live_since f role : preserves I (update_profile f role).
Proof using Hlive.
  intros s Hs. destruct (live_since_live s Hs) as [Hl He].
  eapply wp_mono; [apply wp_update_profile| |].
  - intros r s' (_ & Hc & -> & (id' & Hid & Hp) & Ho). rewrite He in Hid.
    destruct (Hc Hl) as [Hcode Hcur]. destruct Hs as [(r1 & Hp1 & Ha & Hlk & H4 & H5) H2 H3].
    rewrite Hp1 in Hid. injection Hid as -> Hr. rewrite <-Hr in *. split.
    + exists (r1 <| sp_fields := clean_fields f ∪ sp_fields r1 |>). split; [done|]. cbn.
      split; [done|]. split; [done|].
      assert (∀ k, same_column (clean_fields f) r1 k →
        same_str ((clean_fields f ∪ sp_fields r1) !! k) (sp_fields r1 !! k) = true) as Hk.
      { intros k Hk. rewrite lookup_union. destruct (clean_fields f !! k) as [v|] eqn:Hv.
        - rewrite union_Some_l. by apply Hk.
        - rewrite (left_id_L None (∪)). apply same_str_refl. }
      split; [eapply same_str_trans; [by apply Hk|done]|].
      intros HP. destruct Hcur as [Hcur|[_ Hm]].
      * eapply same_str_trans; [by apply Hk|]. by apply H5.
      * exfalso. unfold has_recorded_money in Hm. rewrite bool_decide_false in Hm by auto. done.
    + rewrite Ho. exact H2.
    + rewrite Ho. exact H3.
  - intros e s' (_ & [->| ->] & _); [done|]. by rewrite He.
Qed.

Lemma activate_live_since role : preserves I (activate role).
Proof using Hlive.
  intros s Hs. unfold activate. rewrite wp_bind, wp_admin_only.
  destruct (_require_admin role) as [u|e]; [|done].
  rewrite wp_bind, wp_ensure_profile_row. destruct (live_since_live s Hs) as [Hl ->].
  wp_simpl. by rewrite Hl.
Qed.

Lemma contact_live_since f s :
  I s → I (s <| school_contact ::= f |>).
Proof. intros Hs. by apply (live_since_ext s). Qed.

Lemma save_structure_profile t p role cb :
  preserves (λ s, school_profile s = t) (save_academic_structure_svc p role cb).
Proof.
  unfold save_academic_structure_svc, gate, get_academic_structure. preserve;
    (apply preserves_transaction; [intros s1 s2 H1 H2; by rewrite <-H1|]);
    unfold save_settings, save_blackouts, save_blackout, save_level, save_level_row,
      save_section, insert_serial, get_active_academic_year_id, check_class,
      _block_if_classes_have_enrollment_history, remove_classes, sql_delete_classes,
      _record_class_change;
    preserve; by apply preserves_modify.
Qed.

Lemma structure_live_since p role cb : preserves I (save_academic_structure_svc p role cb).
Proof using Hlock.
  intros s Hs.
  eapply wp_mono.
  - apply wp_conj; [apply wp_save_structure_svc|].
    by apply (save_structure_profile (school_profile s)).
  - intros u s' [(_ & Hsys & Hsv & Hnew) Hp]. cbn beta in Hp.
    pose proof (profile_of_ext _ _ Hp) as Hpo. destruct Hs as [(r & Hr & Ha & Hl & Hc) H2 H3].
    split.
    + exists r. rewrite Hpo. done.
    + assert (system_locked s) as Hlk by (exists id, r; rewrite Hl; done).
      rewrite Hnew. destruct (Hsys Hlk) as [-> | ->]; [by right|].
      unfold or_text. case_bool_decide; [by right|]. done.
    + intros HP. rewrite (sv_payments _ _ _ Hsv). auto.
  - intros e s' [Hk _]. rewrite Hk. by apply (live_since_ext s).
Qed.

Lemma run_school_live_since q : preserves I (run_school q).
Proof using Hlive Hlock.
  pose proof admin_live_since. pose proof mirror_live_since. pose proof ensure_live_since.
  pose proof grandfather_live_since. pose proof stamp_live_since.
  destruct q; cbn [run_school].
  all: try (apply preserves_bind; [|intros ?; apply preserves_ret]).
  all: try (by apply update_profile_live_since).
  all: try (by apply activate_live_since).
  all: try (by apply structure_live_since).
  all: unfold upsert_campus, upsert_primary_campus, check_campus_numbers, create_contact_svc,
    create_contact, update_contact_svc, update_contact, delete_contact_svc, delete_contact,
    commit_profile, get_setup_state, get_profile_bundle, require_tenant_live, list_campuses,
    list_contacts, get_profile_row, get_academic_structure, insert_serial.
  all: preserve; try apply preserves_modify; eauto with pres;
    try (intros s Hs; by apply (live_since_ext s)).
Qed.

Lemma run_steps_live_since l s :
  Forall (λ st, spares_settings st.2) l → (paid → paid_throughout l s) → I s → I (run_school_steps l s).
Proof using Hlive Hlock.
  intros Hl. revert s. induction Hl as [|[dt st] l Hst Hl IH]; intros s Hpaid Hs; [done|]. cbn [run_school_steps].
  apply IH; [intros HP; by apply (Hpaid HP)|]. unfold school_after. cbn [fst snd].
  destruct st as [q|f]; [apply preserves_run; [apply run_school_live_since|]; by apply (live_since_ext s)|].
  destruct (Hst (s <| clock ::= Z.add dt |>)) as [E1 E2]. pose proof Hs as [H1 H2 H3]. split.
  - by rewrite (profile_of_ext _ _ E1).
  - unfold current_system, current_settings in *. by rewrite E2.
  - intros HP. destruct (Hpaid HP) as [_ Hrest]. by destruct l; apply Hrest.
Qed.
End locked.

(** ** Reaching the live state *)
Definition identity (legal display code country tz currency : string) :
    gmap string (option field_value) :=
  {["legal_name" := Some (FText legal); "display_name" := Some (FText display);
    "school_code" := Some (FText code); "country" := Some (FText country);
    "timezone" := Some (FText tz); "currency" := Some (FText currency)]}.

Definition emergency_contact (name phone : string) : contact_row :=
  {| ct_role_title := "Emergency"; ct_name := name; ct_phone := Some phone; ct_email := None;
     ct_emergency := true; ct_order := None; ct_visible := ["staff"] |}.

(** The progress of a school in setup. *)
Record setup_stage (campus contact committed : bool) (s : TenantDB) : Prop := {
  sg_profile : ∃ id r, profile_of s = Some (id, r) ∧ live r = false ∧ missing_fields r = [] ∧
    (committed = true → sp_committed r ≠ None);
  sg_structure : so_has_structure (structure_of s) = true;
  sg_campus : campus = true → school_campus s ≠ ∅;
  sg_contact : contact = true → has_emergency_contact s = true;
}.

Lemma setup_stage_ext a b c s s' :
  setup_stage a b c s → school_profile s' = school_profile s → levels s' = levels s →
  classes s' = classes s → school_campus s' = school_campus s →
  school_contact s' = school_contact s → setup_stage a b c s'.
Proof.
  intros [H1 H2 H3 H4] E1 E2 E3 E4 E5. split.
  - by rewrite (profile_of_ext _ _ E1).
  - revert H2. unfold structure_of, structure_levels, sections_of. cbn. by rewrite E2, E3.
  - by rewrite E4.
  - unfold has_emergency_contact. by rewrite E5.
Qed.

Lemma truthy_text x : x ≠ "" → field_truthy (Some (FText x)) = true.
Proof. intros H. cbn. by rewrite bool_decide_false. Qed.

Lemma identity_complete l d c k t u old :
  Forall (λ x, x ≠ "") [l; d; c; k; t; u] →
  missing_fields (old <| sp_fields := clean_fields (identity l d c k t u) ∪ sp_fields old |>) = [].
Proof.
  intros H. unfold missing_fields, _REQUIRED_PROFILE_FIELDS. cbn [List.filter sp_fields].
  assert (∀ f x, clean_fields (identity l d c k t u) !! f = Some (FText x) → x ≠ "" →
    field_truthy ((clean_fields (identity l d c k t u) ∪ sp_fields old) !! f) = true) as Ht.
  { intros f x Hf Hx. rewrite (lookup_union_Some_l _ _ _ _ Hf). by apply truthy_text. }
  rewrite !Forall_cons in H. destruct H as (H1 & H2 & H3 & H4 & H5 & H6 & _).
  cbn. rewrite (Ht _ l), (Ht _ d), (Ht _ c), (Ht _ k), (Ht _ t), (Ht _ u); done.
Qed.

Section setup.
Context (role : role_arg) (Hadmin : is_admin role).

Lemma stage_profile l d c k t u s :
  Forall (λ x, x ≠ "") [l; d; c; k; t; u] →
  live (current_profile s) = false → so_has_structure (structure_of s) = true →
  wp (run_school (PutProfile (identity l d c k t u) role))
    (λ _, setup_stage false false false) (λ _ _, False) s.
Proof using Hadmin.
  intros Hne Hl Hst. cbn [run_school]. rewrite wp_bind.
  eapply wp_mono; [apply wp_update_profile| |].
  - intros r s' (_ & _ & -> & (id & _ & Hp) & Ho). split; [|by rewrite (school_only_structure _ _ Ho)|done|done].
    exists id. eexists. split; [exact Hp|]. split; [exact Hl|].
    split; [by apply identity_complete|done].
  - intros e s' (_ & _ & Hn). apply Hn. split; [done|]. intros Hl'. congruence.
Qed.

Lemma stage_campus name b c s :
  setup_stage false b c s →
  wp (run_school (PostCampus {["name" := Some (FText name)]} role))
    (λ _, setup_stage true b c) (λ _ _, False) s.
Proof using Hadmin.
  intros Hs. cbn [run_school]. unfold upsert_campus. rewrite wp_bind, wp_bind, wp_admin_only, Hadmin.
  assert (clean_fields {["name" := Some (FText name)]} = {["name" := FText name]}) as ->.
  { reflexivity. }
  unfold upsert_primary_campus, check_campus_numbers, check. wp_simpl.
  rewrite map_to_list_singleton. cbn [forallb numeric_10_7 snd andb].
  destruct (primary_campus s) as [id|] eqn:Hc.
  - rewrite bool_decide_false by done. wp_simpl. cbn.
    assert (∃ r, school_campus s !! id = Some r) as [r Hr].
    { unfold primary_campus in Hc. destruct (head _) as [[j r]|] eqn:Hh; [|done]. injection Hc as ->.
      apply head_elem in Hh. rewrite elem_of_by_id in Hh. apply elem_of_select in Hh as [Hh _].
      by exists r. }
    rewrite lookup_alter_eq, Hr. cbn. destruct Hs as [H1 H2 H3 H4]. split; try done.
    intros _ H0. apply (f_equal (lookup id)) in H0. cbn in H0.
    by rewrite lookup_alter_eq, Hr in H0.
  - rewrite bool_decide_true by discriminate. wp_simpl.
    rewrite bool_decide_true by reflexivity. unfold insert_serial. wp_simpl.
    destruct Hs as [H1 H2 H3 H4]. split; try done. intros _. apply insert_non_empty.
Qed.

Lemma stage_contact name phone a c s :
  phone ≠ "" → setup_stage a false c s →
  wp (run_school (PostContact (emergency_contact name phone) role))
    (λ _, setup_stage a true c) (λ _ _, False) s.
Proof using Hadmin.
  intros Hph Hs. cbn [run_school]. unfold create_contact_svc, create_contact, insert_serial.
  rewrite wp_bind, wp_bind, wp_admin_only, Hadmin. wp_simpl. cbn.
  destruct Hs as [H1 H2 H3 H4]. split; try done. intros _.
  unfold has_emergency_contact. apply existsb_exists.
  exists (nextid s, emergency_contact name phone). split.
  - apply list_elem_of_In, elem_of_map_to_list, lookup_insert_eq.
  - cbn. by rewrite bool_decide_false.
Qed.

Lemma stage_commit s :
  setup_stage true true false s →
  wp (run_school (CommitProfile role)) (λ _, setup_stage true true true)
    (λ _, setup_stage true true true) s.
Proof using Hadmin.
  intros [(id & r & Hp & Hl & Hm & _) H2 H3 H4]. cbn [run_school]. unfold commit_profile.
  rewrite wp_bind, wp_bind, wp_admin_only, Hadmin, wp_bind, wp_ensure_profile_row.
  unfold current_profile, ensured. rewrite Hp. cbn. wp_simpl. case_bool_decide as Hc.
  - wp_simpl. rewrite bool_decide_true by done. unfold list_campuses. wp_simpl.
    rewrite bool_decide_false; cycle 1.
    { intros Hn. apply (H3 eq_refl), map_to_list_empty_iff, Permutation_nil.
      by rewrite <-Hn, merge_sort_Permutation. }
    cbn [negb]. wp_simpl. rewrite (H4 eq_refl). unfold stamp_profile_committed. wp_simpl.
    rewrite wp_get_profile_row, (profile_of_update _ _ _ _ Hp). cbn. wp_simpl.
    apply wp_sync_mirror. intros m. wp_simpl.
    apply (setup_stage_ext true true true (update_first (λ r, r <| sp_committed := Some (clock s) |>) s));
      try done. pose proof (update_first_only (λ r, r <| sp_committed := Some (clock s) |>) s) as Ho.
    assert (school_campus (update_first (λ r, r <| sp_committed := Some (clock s) |>) s) = school_campus s
      ∧ school_contact (update_first (λ r, r <| sp_committed := Some (clock s) |>) s) = school_contact s)
      as [E1 E2] by (unfold update_first; by rewrite Hp).
    split.
    + exists id, (r <| sp_committed := Some (clock s) |>).
      by rewrite (profile_of_update _ _ _ _ Hp).
    + by rewrite (school_only_structure _ _ Ho).
    + by rewrite E1.
    + unfold has_emergency_contact. by rewrite E2.
  - wp_simpl. split; try done. exists id, r. done.
Qed.

Lemma stage_activate s :
  setup_stage true true true s →
  wp (run_school (Activate role))
    (λ _ s', ∃ id r, profile_of s' = Some (id, r) ∧ live r = true ∧ sp_committed r ≠ None ∧
       sp_locked r = sp_activated r ∧ missing_fields r = []) (λ _ _, False) s.
Proof using Hadmin.
  intros [(id & r & Hp & Hl & Hm & Hc) H2 _ _]. cbn [run_school]. unfold activate.
  rewrite wp_bind, wp_bind, wp_admin_only, Hadmin, wp_bind, wp_ensure_profile_row.
  unfold current_profile, ensured, get_academic_structure. rewrite Hp. cbn. wp_simpl.
  rewrite Hl. cbn [negb]. wp_simpl. rewrite bool_decide_false by auto. cbn [negb]. wp_simpl.
  rewrite H2. unfold activate_profile. wp_simpl. rewrite wp_get_profile_row.
  rewrite (profile_of_update _ _ _ _ Hp). cbn. wp_simpl. apply wp_sync_mirror. intros m. wp_simpl.
  exists id. eexists. rewrite (profile_of_ext (update_first _ s)) by done.
  rewrite (profile_of_update _ _ _ _ Hp). split; [done|]. split; [done|]. split; [by apply Hc|]. done.
Qed.
End setup.

(** ** Properties *)

(** C11: going live is permanent. From a school whose profile is activated
    and whose curriculum is locked, any sequence of requests to the setup
    endpoints and to the structure, of passes through the gate, and of changes
    of other tables by the rest of the program leaves the same profile row
    with the same activation and lock times and the same school code; the
    currency is the same if a payment was on record all the while; the
    curriculum system is the same, or the default "US". *)
Theorem activation_is_permanent l s id r0
    (Hprofile : profile_of s = Some (id, r0)) (Hlive : live r0 = true)
    (Hlock : sp_locked r0 ≠ None) (Helse : Forall (λ st, spares_settings st.2) l) :
  let s' := run_school_steps l s in
  ∃ r, profile_of s' = Some (id, r) ∧
    sp_activated r = sp_activated r0 ∧ sp_locked r = sp_locked r0 ∧
    same_str (sp_fields r !! "school_code") (sp_fields r0 !! "school_code") = true ∧
    (paid_throughout l s →
       same_str (sp_fields r !! "currency") (sp_fields r0 !! "currency") = true) ∧
    (current_system s' = current_system s ∨ current_system s' = "US").
Proof.
  cbv zeta.
  destruct (run_steps_live_since id r0 (current_system s) (paid_throughout l s) Hlive Hlock l s Helse)
    as [(r & Hr & H1 & H2 & H3 & H4) H5 _].
  - done.
  - split; [exists r0; auto using same_str_refl|by left|by destruct l; intros []].
  - exists r. auto 10.
Qed.

(** One payment is on record, a second one arrives between the requests. *)
Definition demo_payment : payment_row := {| pm_enrollment := 70; pm_amount := 5; pm_status := "paid"; pm_currency := "JOD" |}.
Definition demo_paid : TenantDB := demo_live <| payments := {[90 := demo_payment]} |>.
Definition demo_steps : list (Z * school_step) :=
  [(5, Request (PutProfile {["school_code" := Some (FText "S2")]} (RList ["super_admin"])));
   (5, Elsewhere (λ s, s <| payments ::= <[91 := demo_payment]> |>));
   (5, Request (PutProfile {["currency" := Some (FText "USD")]} admin_role));
   (5, Request (Activate admin_role)); (5, Request (PutStructure (demo_structure "US") admin_role (PStr "5")))].

Lemma activation_is_permanent_witness :
  paid_throughout demo_steps demo_paid ∧
  let s' := run_school_steps demo_steps demo_paid in
  ∃ r, profile_of s' = Some (1, r) ∧
    sp_activated r = sp_activated demo_profile ∧ sp_locked r = sp_locked demo_profile ∧
    same_str (sp_fields r !! "school_code") (sp_fields demo_profile !! "school_code") = true ∧
    (paid_throughout demo_steps demo_paid →
       same_str (sp_fields r !! "currency") (sp_fields demo_profile !! "currency") = true) ∧
    (current_system s' = current_system demo_paid ∨ current_system s' = "US").
Proof.
  split; [repeat split; vm_compute; discriminate|].
  apply (activation_is_permanent demo_steps demo_paid 1 demo_profile);
    [by vm_compute|reflexivity|discriminate|by repeat constructor].
Defined.

(** An update of the profile is decided by three rules. It answers
    exactly when the caller is an administrator and, once the school is
    live, the payload keeps the school code and either keeps the currency or
    comes from a super admin before any money is recorded. Then the row is
    the old one overwritten by the payload's non-null columns, and besides it
    only the mirror in the control plane may change. A refused update raises
    a [PermissionError] and changes nothing but creating a missing row. *)
Theorem update_profile_outcome fields role s :
  let clean := clean_fields fields in
  let current := current_profile s in
  match update_profile fields role s with
  | (Ok r, s') =>
      is_admin role ∧ change_allowed s role current clean ∧
      r = current <| sp_fields := clean ∪ sp_fields current |> ∧
      (∃ id, profile_of (ensured s) = Some (id, current) ∧ profile_of s' = Some (id, r)) ∧
      school_only s s'
  | (Raise e, s') =>
      (∃ m, e = PermissionError m) ∧ (s' = s ∨ s' = ensured s) ∧
      ¬ (is_admin role ∧ change_allowed s role current clean)
  end.
Proof.
  pose proof (wp_update_profile fields role s) as H. unfold wp in H. cbv zeta in *.
  by destruct (update_profile fields role s) as [[r|e] s'].
Qed.

(** C39: no school is stuck in setup. From any school that has an academic
    structure and is not live, an administrator who sends a complete identity,
    a campus, an emergency contact with a phone number, the commit and the
    activation brings it live, with every required field filled in, and with
    the curriculum locked at the moment of activation. *)
Theorem setup_reaches_live role s legal display code country tz currency campus contact phone
    (Hadmin : is_admin role)
    (Hne : Forall (λ x, x ≠ "") [legal; display; code; country; tz; currency])
    (Hphone : phone ≠ "") (Hsetup : live (current_profile s) = false)
    (Hstructure : so_has_structure (structure_of s) = true) :
  let s' := run_school_requests
    [(0, PutProfile (identity legal display code country tz currency) role);
     (0, PostCampus {["name" := Some (FText campus)]} role);
     (0, PostContact (emergency_contact contact phone) role);
     (0, CommitProfile role); (0, Activate role)] s in
  ∃ id r, profile_of s' = Some (id, r) ∧ live r = true ∧ sp_committed r ≠ None ∧
    sp_locked r = sp_activated r ∧ missing_fields r = [].
Proof.
  assert (∀ (m : DB unit) (P Q : TenantDB → Prop) s1,
    (∀ s2, P s2 → wp m (λ _, Q) (λ _, Q) s2) → P s1 → Q (m s1).2) as Hrun.
  { intros m P Q s1 Hm HP. specialize (Hm s1 HP). unfold wp in Hm. by destruct (m s1) as [[]]. }
  assert (∀ m (Q : TenantDB → Prop) s, wp m (λ _ : unit, Q) (λ _ _, False) s →
    wp m (λ _, Q) (λ _, Q) s) as Hok by (intros m Q s1 Hm; eapply wp_mono; [exact Hm|done|done]).
  assert (∀ a b c s1, setup_stage a b c s1 → setup_stage a b c (s1 <| clock ::= Z.add 0 |>)) as Hck
    by (intros a b c s1 H1; by apply (setup_stage_ext a b c s1)).
  cbv zeta. cbn [run_school_requests].
  apply (Hrun _ (setup_stage true true true)); [intros s2 H2; by apply Hok, stage_activate|].
  apply Hck, (Hrun _ (setup_stage true true false)); [intros s2 H2; by apply stage_commit|].
  apply Hck, (Hrun _ (setup_stage true false false)); [intros s2 H2; by apply Hok, stage_contact|].
  apply Hck, (Hrun _ (setup_stage false false false)); [intros s2 H2; by apply Hok, stage_campus|].
  apply Hck, (Hrun _ (λ s, live (current_profile s) = false ∧ so_has_structure (structure_of s) = true)).
  - intros s2 [H1 H2]. by apply Hok, stage_profile.
  - done.
Qed.

Lemma setup_reaches_live_witness :
  let s' := run_school_requests
    [(0, PutProfile (identity "Al" "Al" "S9" "JO" "Asia/Amman" "JOD") admin_role);
     (0, PostCampus {["name" := Some (FText "Main")]} admin_role);
     (0, PostContact (emergency_contact "Nora" "079") admin_role);
     (0, CommitProfile admin_role); (0, Activate admin_role)] demo_db in
  ∃ id r, profile_of s' = Some (id, r) ∧ live r = true ∧ sp_committed r ≠ None ∧
    sp_locked r = sp_activated r ∧ missing_fields r = [].
Proof.
  apply (setup_reaches_live admin_role demo_db "Al" "Al" "S9" "JO" "Asia/Amman" "JOD" "Main" "Nora" "079").
  - reflexivity.
  - repeat constructor; discriminate.
  - discriminate.
  - by vm_compute.
  - by vm_compute.
Defined.

(** The grandfathered row. *)
Definition grandfathered (now : Z) (r : profile_row) : profile_row :=
  {| sp_fields := sp_fields r; sp_committed := coalesce_now now (sp_committed r);
     sp_structure := coalesce_now now (sp_structure r); sp_locked := Some now;
     sp_activated := Some now |}.

Lemma blocking_nonempty c p e : blocking_of c p e false ≠ [].
Proof. unfold blocking_of. by destruct c, p, e. Qed.

(** Asking for the setup state decides it. The request, which any
    authenticated user may make, never fails. A school that has an academic
    structure and is not live is activated on the spot, its curriculum
    locked and its information marked as committed, with whatever columns
    are still empty; any other profile row stays as it is. The answer says
    "live" exactly when the school is live afterwards, and lists what blocks
    it exactly when it is not. *)
Theorem setup_state_outcome s :
  let r := current_profile s in
  let has_structure := so_has_structure (structure_of s) in
  match get_setup_state s with
  | (Ok st, s') =>
      let r' := if negb (live r) && has_structure then grandfathered (clock s) r else r in
      current_profile s' = r' ∧ school_only s s' ∧
      live r' = live r || has_structure ∧
      ss_activated_at st = sp_activated r' ∧
      (ss_status st = "live" ↔ live r' = true) ∧
      (ss_blocking st = [] ↔ live r' = true)
  | (Raise _, _) => False
  end.
Proof.
  cbv zeta.
  assert (wp get_setup_state (λ st s',
    let r := current_profile s in let has_structure := so_has_structure (structure_of s) in
    let r' := if negb (live r) && has_structure then grandfathered (clock s) r else r in
    current_profile s' = r' ∧ school_only s s' ∧ live r' = live r || has_structure ∧
    ss_activated_at st = sp_activated r' ∧ (ss_status st = "live" ↔ live r' = true) ∧
    (ss_blocking st = [] ↔ live r' = true)) (λ _ _, False) s) as H.
  2: { unfold wp in H. by destruct (get_setup_state s) as [[st|e] s']. }
  cbv zeta. unfold get_setup_state, get_academic_structure, list_campuses.
  rewrite wp_bind, wp_ensure_profile_row. wp_simpl.
  pose proof (ensured_only s) as Ho. rewrite (school_only_structure _ _ Ho).
  destruct (profile_of_ensured s) as [id Hid].
  set (r := current_profile s) in *. set (h := so_has_structure (structure_of s)) in *.
  destruct (negb (live r) && h) eqn:Hg.
  - apply andb_prop in Hg as [Hl ->]. apply negb_true_iff in Hl.
    unfold grandfather_activate_if_missing. wp_simpl. rewrite wp_get_profile_row.
    rewrite (profile_of_update _ _ _ _ Hid). cbn.
    assert (bool_decide (sp_activated r = None) = true) as Hn
      by (unfold live in Hl; by apply negb_false_iff in Hl).
    rewrite Hn. wp_simpl. cbn. rewrite orb_true_r.
    assert (clock (ensured s) = clock s) as Hck by (by rewrite Ho).
    split; [|split; [|rewrite Hck; done]].
    + unfold current_profile. rewrite (profile_of_update _ _ _ _ Hid). cbn. rewrite Hn, Hck. done.
    + etrans; [exact Ho|apply update_first_only].
  - wp_simpl. cbn. split; [unfold current_profile at 1; by rewrite Hid|]. split; [done|].
    assert (live r = live r || h) as Hlr by (by destruct (live r), h).
    split; [done|]. split; [done|]. destruct (live r) eqn:Hl; [done|]. cbn in Hg, Hlr.
    rewrite <-Hlr. split; [done|]. split; [|done]. intros Hb. by apply blocking_nonempty in Hb.
Qed.

(** The school of the examples: no identity, no campus, no contact. *)
Example grandfathering_skips_the_setup :
  let s' := (get_setup_state demo_db).2 in
  live (current_profile s') = true ∧ missing_fields (current_profile s') ≠ [] ∧
  (commit_profile admin_role s').1 =
    Raise (ValueError "School Information is already committed and cannot be re-submitted.").
Proof. split; [by vm_compute|]. split; [by vm_compute|by vm_compute]. Qed.

(** The table of currencies. *)
Definition currency_entry_ok (kv : string * Z) : bool :=
  bool_decide (str_upper kv.1 = kv.1) && (str_len kv.1 =? 3) && (0 <=? kv.2) && (kv.2 <=? 4).

Lemma units_of_entry c n :
  units_of c = Some n → str_upper (str_upper c) = str_upper c ∧ str_len (str_upper c) = 3 ∧ 0 ≤ n ≤ 4.
Proof.
  unfold units_of. destruct (List.find _ _) as [[k x]|] eqn:Hf; [|done]. cbn. intros [= ->].
  apply find_some in Hf as [Hin Hk]. cbn in Hk. apply bool_decide_eq_true in Hk. subst k.
  assert (forallb currency_entry_ok ISO_4217_MINOR_UNITS = true) as Hall by (by vm_compute).
  apply (proj1 (forallb_forall _ _) Hall) in Hin. unfold currency_entry_ok in Hin. cbn in Hin.
  apply andb_prop in Hin as [Hin H4]. apply andb_prop in Hin as [Hin H3].
  apply andb_prop in Hin as [H1 H2]. apply bool_decide_eq_true in H1. lia || (split; [done|lia]).
Qed.

(** A currency that passes validation fits the schema. The validator
    of the requests accepts exactly the codes [is_valid_currency] accepts;
    what it returns is a three-letter code (payments.currency is
    VARCHAR(3)) that it accepts again unchanged, and whose minor unit, found
    without a KeyError, has at most the four decimals of the NUMERIC(14,4)
    columns. *)
Theorem validated_currency_fits c :
  match _validate_currency (Some c) with
  | Ok v => is_valid_currency (Some c) = true ∧
      ∃ code n, v = Some code ∧ str_len code = 3 ∧ _validate_currency (Some code) = Ok (Some code) ∧
        minor_units_for code = Ok n ∧ 0 ≤ n ≤ 4
  | Raise e => is_valid_currency (Some c) = false ∧ e = ValueError "Unknown ISO-4217 currency code"
  end.
Proof.
  unfold _validate_currency at 1. unfold is_valid_currency.
  destruct (units_of c) as [n|] eqn:Hu.
  - destruct (units_of_entry c n Hu) as (Hup & Hlen & Hn). split.
    + rewrite bool_decide_false; [by rewrite bool_decide_true|]. by intros ->.
    + exists (str_upper c), n.
      assert (units_of (str_upper c) = Some n) as Hu' by (by unfold units_of in *; rewrite Hup).
      unfold _validate_currency, minor_units_for. rewrite Hu', Hup. done.
  - split; [|done]. rewrite (bool_decide_false (is_Some None)); [apply andb_false_r|].
    by intros [x ?].
Qed.
