(* ===== verification/World.v ===== *)
(** * The platform: the control plane and the schools behind it

    The control-plane tables of [_initialize_control_plane_tables]
    (src/app/core/database.py), one [TenantDB] per provisioned school, the
    connection pools this process has opened, and the membership cache of
    src/app/core/dependencies.py. [get_db_pool] opens a school: it registers
    an unknown tenant, creates its schema and runs the idempotent data steps
    of [_initialize_tenant_tables].

    Primary keys that PostgreSQL draws with [gen_random_uuid()] are integers
    from one counter. Timestamps are seconds. CITEXT columns compare without
    case. *)
From Stdlib Require Import Ascii String.
From S2P Require Import Prelude PyText Authz Store Structure School.

(** ** Rows of the control plane *)
Record parent_row := {
  pa_email : string; pa_hash : string; pa_phone : option string; pa_address : option string }.
Record super_admin_row := { sa_email : string; sa_hash : string }.

(** [user_tenant_map]: the membership of an identity in a school. *)
Record member_row := {
  mb_email : string; mb_role : string; mb_roles : list string; mb_status : string;
  mb_updated : Z; mb_invited_by : option string; mb_last_active : option Z; mb_default : bool }.

Record invitation_row := {
  iv_code : string; iv_tenant : string; iv_role : string; iv_target : option string;
  iv_max_uses : Z; iv_uses : Z; iv_expires : Z; iv_active : bool; iv_created : Z }.

Record user_invitation_row := {
  ui_email : string; ui_tenant : string; ui_role : string; ui_inviter : option string;
  ui_status : string; ui_created : Z }.

Record access_request_row := {
  ac_identity : Z; ac_tenant : string; ac_role : string; ac_note : option string;
  ac_status : string; ac_reason : option string; ac_decided_by : option string }.

Record challenge_row := {
  ch_hash : string; ch_identity : Z; ch_tenants : list string; ch_consumed : option Z;
  ch_expires : Z }.

Record refresh_row := {
  rf_hash : string; rf_identity : Z; rf_tenant : string; rf_role : string; rf_family : Z;
  rf_revoked : option Z; rf_replaced : option Z; rf_expires : Z }.

Record World := {
  identities : gmap Z string;
  parents : gmap Z parent_row;
  super_admins : gmap Z super_admin_row;
  tenants : gmap string string;
  parent_child_links : gmap (Z * string * Z) Z;
  parent_tenant_links : gmap (Z * string) Z;
  user_tenant_map : gmap (Z * string) member_row;
  invitations : gmap Z invitation_row;
  user_invitations : gmap Z user_invitation_row;
  access_requests : gmap Z access_request_row;
  challenges : gmap Z challenge_row;
  refresh_tokens : gmap Z refresh_row;
  (** One schema per school. *)
  schools : gmap string TenantDB;
  (** The state of the process: the open pools and [_MEMBERSHIP_CACHE]. *)
  open_pools : gset string;
  member_cache : gmap string (Z * list (string * string));
  cp_next : Z;
  now : Z;
}.

#[export] Instance World_eta : Settable World := λ w,
  {| identities := identities w; parents := parents w; super_admins := super_admins w;
     tenants := tenants w; parent_child_links := parent_child_links w;
     parent_tenant_links := parent_tenant_links w; user_tenant_map := user_tenant_map w;
     invitations := invitations w; user_invitations := user_invitations w;
     access_requests := access_requests w; challenges := challenges w;
     refresh_tokens := refresh_tokens w; schools := schools w; open_pools := open_pools w;
     member_cache := member_cache w; cp_next := cp_next w; now := now w |}.

#[export] Instance parent_row_eta : Settable parent_row := λ r,
  {| pa_email := pa_email r; pa_hash := pa_hash r; pa_phone := pa_phone r;
     pa_address := pa_address r |}.
#[export] Instance super_admin_row_eta : Settable super_admin_row := λ r,
  {| sa_email := sa_email r; sa_hash := sa_hash r |}.
#[export] Instance member_row_eta : Settable member_row := λ r,
  {| mb_email := mb_email r; mb_role := mb_role r; mb_roles := mb_roles r;
     mb_status := mb_status r; mb_updated := mb_updated r; mb_invited_by := mb_invited_by r;
     mb_last_active := mb_last_active r; mb_default := mb_default r |}.
#[export] Instance invitation_row_eta : Settable invitation_row := λ r,
  {| iv_code := iv_code r; iv_tenant := iv_tenant r; iv_role := iv_role r;
     iv_target := iv_target r; iv_max_uses := iv_max_uses r; iv_uses := iv_uses r;
     iv_expires := iv_expires r; iv_active := iv_active r; iv_created := iv_created r |}.
#[export] Instance access_request_row_eta : Settable access_request_row := λ r,
  {| ac_identity := ac_identity r; ac_tenant := ac_tenant r; ac_role := ac_role r;
     ac_note := ac_note r; ac_status := ac_status r; ac_reason := ac_reason r;
     ac_decided_by := ac_decided_by r |}.
#[export] Instance challenge_row_eta : Settable challenge_row := λ r,
  {| ch_hash := ch_hash r; ch_identity := ch_identity r; ch_tenants := ch_tenants r;
     ch_consumed := ch_consumed r; ch_expires := ch_expires r |}.
#[export] Instance refresh_row_eta : Settable refresh_row := λ r,
  {| rf_hash := rf_hash r; rf_identity := rf_identity r; rf_tenant := rf_tenant r;
     rf_role := rf_role r; rf_family := rf_family r; rf_revoked := rf_revoked r;
     rf_replaced := rf_replaced r; rf_expires := rf_expires r |}.

(** Operations across the control plane and the schools. *)
Definition CP (A : Type) : Type := M World A.

(** An aborted transaction keeps what the process itself holds. *)
#[export] Instance rollback_world : Rollback World :=
  λ before after, before <| cp_next := cp_next after |> <| open_pools := open_pools after |>
                         <| member_cache := member_cache after |>.

(** ** Text *)
(** CITEXT equality, and [UPPER(a) = UPPER(b)]. *)
Definition ci_eq (a b : string) : bool := bool_decide (str_lower a = str_lower b).
Definition upper_eq (a b : string) : bool := bool_decide (str_upper a = str_upper b).
(** [email.strip().lower()] *)
Definition norm_email (e : string) : string := str_lower (str_strip e).

(** [str.title()], [email.split("@")[0]]. *)
Fixpoint title_from (in_word : bool) (l : list ascii) : list ascii :=
  match l with
  | [] => []
  | c :: l' => (if in_word then lower_char c else upper_char c)
                 :: title_from (is_upper c || is_lower c) l'
  end.
Definition str_title (s : string) : string := text (title_from false (chars s)).
Fixpoint before_at (l : list ascii) : list ascii :=
  match l with [] => [] | c :: l' => if code c =? 64 then [] else c :: before_at l' end.
Definition local_part (email : string) : string := text (before_at (chars email)).
Definition replace_char (a b : Z) (s : string) : string :=
  text (map (λ c, if code c =? a then of_code b else c) (chars s)).

(** ** SQL over the control plane *)
(** [INSERT ... RETURNING id] with a fresh uuid. *)
Definition cp_insert {R} (tbl : World → gmap Z R) `{!Setter tbl} (r : R) : CP Z :=
  id ← gets cp_next;
  modify (λ w, w <| tbl ::= <[id := r]> |> <| cp_next := id + 1 |>) ;;
  mret id.

Definition cp_check (b : bool) (msg : string) : CP unit := guard_or b (DatabaseError msg).

(** The first row that satisfies [P] (the columns tested are UNIQUE). *)
Definition find_row {R} (P : Z → R → bool) (t : gmap Z R) : option (Z * R) := head (select P t).

Definition check_tenant (tenant_id : string) : CP unit :=
  t ← gets tenants;
  cp_check (bool_decide (is_Some (t !! tenant_id))) "violates foreign key constraint".

(** ** One school *)
(** Runs [m] against the schema of the school. *)
Definition in_school {A} (tenant_id : string) (m : DB A) : CP A := λ w,
  let (r, s') := m (default empty_db (schools w !! tenant_id)) in
  (r, w <| schools ::= <[tenant_id := s']> |>).

(** *** The data steps of [_initialize_tenant_tables]

    Its DDL creates the tables of [TenantDB] with their constraints; what
    follows are its statements that write rows. They run again on the first
    use of a school by every new process. *)
Definition init_academic_year : DB unit :=
  years ← gets academic_years;
  if bool_decide (years = ∅) then
    settings ← gets current_settings;
    insert_serial academic_years
      {| ye_name := match settings with Some (_, r) => se_year r | None => "2026-2027" end;
         ye_status := "active"; ye_start := None; ye_end := None; ye_rolled_from := None |} ;;
    mret tt
  else mret tt.

(** [SUBSTRING(name FROM '(?i)(?:-|Section)\s*(\S+)\s*$')]: as
    [_derive_section_label], but the word needs no boundary before it. *)
Fixpoint search_label_sql (l : list ascii) : option (list ascii) :=
  match l with
  | [] => None
  | _ :: l' =>
      match marker_at None l ≫= label_tail with
      | Some w => Some w
      | None => search_label_sql l'
      end
  end.
Definition section_label_sql (name : string) : option string :=
  text <$> search_label_sql (chars name).

Definition label_class (r : class_row) : class_row :=
  match cl_section r with
  | None => r <| cl_section := section_label_sql (cl_name r) |>
  | Some _ => r
  end.
Definition init_section_labels : DB unit :=
  modify (λ s, s <| classes ::= fmap label_class |>).

Definition init_profile : DB unit :=
  t ← gets school_profile;
  if bool_decide (t = ∅) then insert_serial school_profile default_profile ;; mret tt else mret tt.

Definition _DEFAULT_RESOURCE_TYPES : list (string * string) :=
  [("20-Seat Bus", "transport"); ("40-Seat Bus", "transport");
   ("Male Supervisor", "staffing"); ("Female Supervisor", "staffing");
   ("Kids Meal", "meals"); ("Adult Meal", "meals")].

Definition seeded_category (category : string) (s : TenantDB) : bool :=
  existsb (λ kv, bool_decide (rt_category kv.2 = category) && negb (rt_custom kv.2))
    (map_to_list (resource_types s)).

Definition init_category (category : string) : DB unit :=
  has_rows ← gets (seeded_category category);
  if has_rows : bool then mret tt
  else for_each (List.filter (λ nc, bool_decide (nc.2 = category)) _DEFAULT_RESOURCE_TYPES)
    (λ nc, insert_serial resource_types
             {| rt_name := nc.1; rt_category := nc.2; rt_custom := false; rt_created_by := None;
                rt_active := true |} ;; mret tt).

(** The set of categories is iterated in an arbitrary order; the rows of one
    do not depend on the others. *)
Definition init_resource_types : DB unit :=
  for_each ["transport"; "staffing"; "meals"] init_category.

Definition has_user (email : string) (s : TenantDB) : bool :=
  existsb (λ kv, ci_eq (us_email kv.2) email) (map_to_list (users s)).

(** Every super admin is mirrored in [users]. *)
Definition mirror_super_admin (r : super_admin_row) : DB unit :=
  known ← gets (has_user (sa_email r));
  if known : bool then mret tt
  else insert_serial users
         (new_user (sa_email r) "super_admin" (sa_hash r)) ;; mret tt.
Definition init_super_admins (sas : list super_admin_row) : DB unit :=
  for_each sas mirror_super_admin.

Definition _initialize_tenant_tables (sas : list super_admin_row) : DB unit :=
  init_academic_year ;; init_section_labels ;; init_profile ;; init_resource_types ;;
  init_super_admins sas.

(** *** [DatabaseManager.get_pool] *)
Definition TENANT_DB_CONFIG : list string := ["tenant_a"; "tenant_b"; "tenant_c"].

(** [tenant_id.replace("_", " ").title()] *)
Definition tenant_title (tenant_id : string) : string := str_title (replace_char 95 32 tenant_id).

(** VARCHAR(50) *)
Definition tenant_id_fits (tenant_id : string) : bool := str_len tenant_id <=? 50.

Definition get_db_pool (tenant_id : string) : CP unit :=
  opened ← gets open_pools;
  if bool_decide (tenant_id ∈ opened) then mret tt
  else
    known ← gets (λ w, bool_decide (is_Some (tenants w !! tenant_id)));
    (if known || bool_decide (tenant_id ∈ TENANT_DB_CONFIG) then mret tt
     else cp_check (tenant_id_fits tenant_id) "value too long for type character varying(50)" ;;
          modify (λ w, w <| tenants ::= <[tenant_id := tenant_title tenant_id]> |>)) ;;
    sas ← gets (λ w, snd <$> map_to_list (super_admins w));
    in_school tenant_id (_initialize_tenant_tables sas) ;;
    modify (λ w, w <| open_pools ::= λ o, {[tenant_id]} ∪ o |>).

(** [pool = await get_db_pool(t)], then statements on the pool. *)
Definition with_school {A} (tenant_id : string) (m : DB A) : CP A :=
  get_db_pool tenant_id ;; in_school tenant_id m.

(** A new process: no pool is open, the cache is empty. *)
Definition restart (w : World) : World := w <| open_pools := ∅ |> <| member_cache := ∅ |>.

(** ** Lemmas on the control-plane tables *)
Section tables.
Context {R : Type}.
Implicit Types (t : gmap Z R) (P : Z → R → bool).

Lemma find_row_Some P t k r : find_row P t = Some (k, r) → t !! k = Some r ∧ P k r = true.
Proof. intros H. by apply elem_of_select, head_elem. Qed.

Lemma find_row_None P t : find_row P t = None → ∀ k r, t !! k = Some r → P k r = false.
Proof.
  unfold find_row. intros H k r Hk. apply not_true_iff_false. intros HP.
  assert ((k, r) ∈ select P t) as Hin by by apply elem_of_select.
  destruct (select P t); [by apply elem_of_nil in Hin|done].
Qed.

(** A UNIQUE column. *)
Definition unique_by {K} (key : R → K) t : Prop :=
  ∀ i j a b, t !! i = Some a → t !! j = Some b → key a = key b → i = j.

Lemma find_row_unique {K} (key : R → K) P t k r :
  unique_by key t → t !! k = Some r → P k r = true →
  (∀ i a, t !! i = Some a → P i a = true → key a = key r) →
  find_row P t = Some (k, r).
Proof.
  intros Hu Hk HP Hkey. destruct (find_row P t) as [[i a]|] eqn:E.
  - apply find_row_Some in E as [Hi HPi].
    assert (i = k) as -> by eauto. congruence.
  - by rewrite (find_row_None _ _ E k r Hk) in HP.
Qed.

Lemma unique_by_insert {K} (key : R → K) t i r :
  unique_by key t → (∀ j a, t !! j = Some a → key a = key r → j = i) →
  unique_by key (<[i := r]> t).
Proof.
  intros Hu Hnew j k a b. rewrite !lookup_insert_Some.
  intros [[<- <-]|[? Ha]] [[<- <-]|[? Hb]] Hk; eauto. symmetry. eauto.
Qed.

Lemma unique_by_sub {K} (key : R → K) t t' :
  unique_by key t →
  (∀ i a, t' !! i = Some a → ∃ b, t !! i = Some b ∧ key a = key b) → unique_by key t'.
Proof.
  intros Hu Hsub i j a b Ha Hb Hk. apply Hsub in Ha as (a' & Ha & Ea).
  apply Hsub in Hb as (b' & Hb & Eb). apply (Hu i j a' b'); congruence.
Qed.

Lemma unique_by_alter {K} (key : R → K) f t i :
  unique_by key t → (∀ r, key (f r) = key r) → unique_by key (alter f i t).
Proof.
  intros Hu Hf. eapply unique_by_sub; [done|]. intros j a.
  rewrite lookup_alter_Some. intros [(<- & b & Hb & ->)|[_ Ha]]; eauto.
Qed.

Lemma unique_by_update {K} (key : R → K) P f t :
  unique_by key t → (∀ r, key (f r) = key r) → unique_by key (update_where P f t).
Proof.
  intros Hu Hf. eapply unique_by_sub; [done|]. intros j a.
  rewrite lookup_update_where, fmap_Some. intros (b & Hb & ->).
  exists b. split; [done|]. by destruct (P j b).
Qed.

Lemma unique_by_delete_where {K} (key : R → K) P t :
  unique_by key t → unique_by key (delete_where P t).
Proof.
  intros Hu. eapply unique_by_sub; [done|]. intros j a.
  rewrite lookup_delete_where. intros [? _]. eauto.
Qed.

Lemma ids_below_alter n t f i : ids_below n t → ids_below n (alter f i t).
Proof. intros H k. rewrite lookup_alter_is_Some. apply H. Qed.
Lemma ids_below_update n t P f : ids_below n t → ids_below n (update_where P f t).
Proof. intros H k. rewrite lookup_update_where, fmap_is_Some. apply H. Qed.
Lemma ids_below_delete_where n t P : ids_below n t → ids_below n (delete_where P t).
Proof. intros H k [r Hr]. apply lookup_delete_where in Hr as [Hr _]. eauto. Qed.
End tables.

Lemma ci_eq_true a b : ci_eq a b = true ↔ str_lower a = str_lower b.
Proof. apply bool_decide_eq_true. Qed.
Lemma ci_eq_false a b : ci_eq a b = false ↔ str_lower a ≠ str_lower b.
Proof. apply bool_decide_eq_false. Qed.

Lemma lower_char_idem c : lower_char (lower_char c) = lower_char c.
Proof. by destruct c as [[] [] [] [] [] [] [] []]; vm_compute. Qed.

Lemma str_lower_idem s : str_lower (str_lower s) = str_lower s.
Proof.
  unfold str_lower, chars, text. rewrite list_ascii_of_string_of_list_ascii. f_equal.
  induction (list_ascii_of_string s) as [|c l IH]; simpl; [done|].
  by rewrite lower_char_idem, IH.
Qed.

Lemma norm_email_lower e : str_lower (norm_email e) = norm_email e.
Proof. apply str_lower_idem. Qed.

Lemma drop_while_map p f l :
  (∀ c, p (f c) = p c) → drop_while p (map f l) = map f (drop_while p l).
Proof. intros Hf. induction l as [|c l IH]; simpl; [done|]. rewrite Hf. by destruct (p c). Qed.

Lemma is_space_lower c : is_space (lower_char c) = is_space c.
Proof. by destruct c as [[] [] [] [] [] [] [] []]; vm_compute. Qed.

Lemma norm_email_stripped e : str_strip (norm_email e) = norm_email e.
Proof.
  unfold norm_email, str_strip, str_lower, chars, text.
  rewrite !list_ascii_of_string_of_list_ascii. f_equal. unfold strip_by at 1.
  rewrite (drop_while_map is_space lower_char) by apply is_space_lower.
  rewrite <-map_rev, (drop_while_map is_space lower_char) by apply is_space_lower.
  rewrite <-map_rev. f_equal. apply strip_by_idem.
Qed.

Lemma norm_email_idem e : norm_email (norm_email e) = norm_email e.
Proof. unfold norm_email at 1. by rewrite norm_email_stripped, norm_email_lower. Qed.

(** *** The pools *)
Lemma wp_in_school {A} t (m : DB A) (Q : A → World → Prop) (E : exn → World → Prop) w :
  wp (in_school t m) Q E w ↔
  wp m (λ a s', Q a (w <| schools ::= <[t := s']> |>))
       (λ e s', E e (w <| schools ::= <[t := s']> |>)) (default empty_db (schools w !! t)).
Proof. unfold wp, in_school. by destruct (m _) as [[a|e] s']. Qed.

(** The platform before anything was created. *)
Definition empty_world : World :=
  {| identities := ∅; parents := ∅; super_admins := ∅; tenants := ∅; parent_child_links := ∅;
     parent_tenant_links := ∅; user_tenant_map := ∅; invitations := ∅; user_invitations := ∅;
     access_requests := ∅; challenges := ∅; refresh_tokens := ∅; schools := ∅; open_pools := ∅;
     member_cache := ∅; cp_next := 1; now := 1000 |}.
