(* ===== verification/UserRepo.v ===== *)
(** * The users of a school: the repository

    [UserRepository] (src/app/domains/tenant/user_repository.py) and the
    profile rows of [TenantRepository] that hang on a user: teachers and
    parents. Deleting a user follows the ON DELETE actions of the schema. *)
From S2P Require Import Prelude PyText Store AcademicRepo AcademicDelete World.

(** ** The id of a user

    The [parse_id] of this module strips the text first; that of the other
    repositories does not. *)
Definition user_parse_id (v : pyid) : pyid :=
  match v with
  | PStr val =>
      if bool_decide (val = "") then v
      else
        let val_str := str_strip val in
        if str_isdigit val_str
        then match py_int 10 val_str with Some n => PInt n | None => v end
        else match py_uuid val_str with Some u => PUuid u | None => PStr val_str end
  | _ => v
  end.

(** ** Roles of a user row *)
(** The roles Python accepts, and those the CHECK constraint accepts. *)
Definition valid_user_roles : list string :=
  ["super_admin"; "school_admin"; "admin"; "teacher"; "parent"; "student"; "manager";
   "event_teacher"; "pending"].
Definition users_role_check : list string :=
  ["school_admin"; "teacher"; "parent"; "student"; "manager"; "finance"; "event_teacher";
   "pending"; "super_admin"].
Definition check_role (role : string) : DB unit :=
  check (bool_decide (role ∈ users_role_check)) "users_role_check".

Definition invalid_role (role : string) : exn := ValueError ("Invalid tenant user role: " +:+ role).

(** ** Look-ups *)
(** WHERE UPPER(email) = UPPER($1) *)
Definition find_user (email : string) (s : TenantDB) : option (Z * user_row) :=
  find_row (λ _ r, upper_eq (us_email r) email) (users s).

Definition get_user_by_email (email : string) : DB (option (Z * user_row)) :=
  if bool_decide (email = "") then mret None else gets (find_user (str_strip email)).

(** A uuid, or an integer that does not fit, is refused by the driver and
    reads as no user. *)
Definition get_user_by_id (user_id : pyid) : DB (option (Z * user_row)) :=
  match user_parse_id user_id with
  | PInt n => gets (λ s, pair n <$> users s !! n)
  | _ => mret None
  end.

Definition get_users_by_role (role : string) : DB (list (Z * user_row)) :=
  gets (λ s, select (λ _ r, bool_decide (us_role r = role)) (users s)).

(** ORDER BY id *)
Definition get_all_tenant_users : DB (list (Z * user_row)) :=
  gets (λ s, by_id (map_to_list (users s))).

(** ** Writes *)
(** [email.strip().lower()] under CITEXT UNIQUE; a duplicate becomes a
    [ValueError]. *)
Definition create_user (email password_hash role : string) : DB Z :=
  guard_or (bool_decide (role ∈ valid_user_roles)) (invalid_role role) ;;
  check_role role ;;
  known ← gets (has_user (norm_email email));
  guard_or (negb known) (ValueError "Email already registered") ;;
  insert_serial users (new_user (norm_email email) role password_hash).

(** UPDATE users SET role, roles WHERE UPPER(email) = UPPER($2); the fallback
    of the [except] runs the same update of [role] and fails as well. *)
Definition update_user_role (email new_role : string) : DB bool :=
  guard_or (bool_decide (new_role ∈ valid_user_roles)) (invalid_role new_role) ;;
  t ← gets users;
  let P (_ : Z) r := upper_eq (us_email r) (str_strip email) in
  (match select P t with [] => mret tt | _ => check_role new_role end) ;;
  modify (λ s, s <| users ::= update_where P (λ r, r <| us_role := new_role |> <| us_roles := [new_role] |>) |>) ;;
  mret (bool_decide (List.length (select P t) = 1%nat)).

(** [list(dict.fromkeys(l))] *)
Fixpoint dedup (seen : list string) (l : list string) : list string :=
  match l with
  | [] => []
  | x :: l' => if bool_decide (x ∈ seen) then dedup seen l' else x :: dedup (x :: seen) l'
  end.
Definition unique (l : list string) : list string := dedup [] l.

Definition no_role_names : list string := ["pending"; "none"; "unassigned"].
Definition no_role (r : string) : bool := bool_decide (r ∈ no_role_names).

(** The roles and permissions stored by a full update. *)
Definition stored_roles (primary_role : string) (roles : list string) : list string :=
  if no_role primary_role then [primary_role]
  else unique (primary_role :: List.filter (λ r, negb (bool_decide (r = "")) && negb (no_role r)) roles).
Definition stored_permissions (primary_role : string) (permissions : list string) : list string :=
  if no_role primary_role then [] else permissions.

Definition set_roles (role : string) (roles permissions : list string) (r : user_row) : user_row :=
  r <| us_role := role |> <| us_roles := roles |> <| us_permissions := permissions |>.

(** [UPDATE users SET role, roles, permissions WHERE P RETURNING ...] *)
Definition update_roles_where (P : Z → user_row → bool) (role : string) (roles permissions : list string)
    : DB (option (Z * user_row)) :=
  t ← gets users;
  match find_row P t with
  | None => mret None
  | Some (id, _) =>
      check_role role ;;
      modify (λ s, s <| users ::= update_where P (set_roles role roles permissions) |>) ;;
      gets (λ s, pair id <$> users s !! id)
  end.

Definition is_email (s : string) : bool := existsb (λ c, code c =? 64) (chars s).

Definition update_user_roles_and_permissions (user_id : pyid) (primary_role : string)
    (roles permissions : list string) : DB (option (Z * user_row)) :=
  let all_roles := stored_roles primary_role roles in
  let perms := stored_permissions primary_role permissions in
  row ← match user_parse_id user_id with
        | PInt n =>
            check ((- 2 ^ 63 <=? n) && (n <? 2 ^ 63)) "value out of int64 range" ;;
            update_roles_where (λ k _, k =? n) primary_role all_roles perms
        | PUuid _ => raise (DatabaseError "invalid input for query argument")
        | _ => mret None
        end;
  match row, user_id with
  | Some r, _ => mret (Some r)
  | None, PStr s =>
      if is_email s then
        update_roles_where (λ _ r, upper_eq (us_email r) (str_strip s)) primary_role all_roles perms
      else mret None
  | None, _ => mret None
  end.

(** The updates by id: a uuid is refused, anything else but an int is nobody.
    [fits]: the new values fit their columns, which matters when a row
    matches. *)
Definition update_user (user_id : pyid) (fits : bool) (f : user_row → user_row) : DB (option user_row) :=
  match user_parse_id user_id with
  | PInt n =>
      check ((- 2 ^ 63 <=? n) && (n <? 2 ^ 63)) "value out of int64 range" ;;
      t ← gets users;
      match t !! n with
      | None => mret None
      | Some r =>
          check fits "value too long for type character varying(50)" ;;
          modify (λ s, s <| users ::= <[n := f r]> |>) ;; mret (Some (f r))
      end
  | PUuid _ => raise (DatabaseError "invalid input for query argument")
  | _ => mret None
  end.
Definition update_user_password_hash (user_id : pyid) (password_hash : string) : DB bool :=
  row ← update_user user_id true (λ r, r <| us_hash := password_hash |>);
  mret (bool_decide (is_Some row)).
Definition update_user_profile (user_id : pyid) (phone address : option string) : DB unit :=
  update_user user_id (from_option (λ p, str_len p <=? 50) true phone)
    (λ r, r <| us_phone := phone |> <| us_address := address |>) ;; mret tt.
Definition update_user_preferences (user_id : pyid) (language timezone : option string)
    : DB (option (option string * option string)) :=
  row ← update_user user_id true (λ r, r <| us_language := language |> <| us_timezone := timezone |>);
  mret ((λ r, (us_language r, us_timezone r)) <$> row).

(** ** The profile rows of a user *)
Definition upsert_profile (tbl : TenantDB → gmap Z string) `{!Setter tbl} (id : Z) (name : string) : DB unit :=
  check_fk users id ;; modify (λ s, s <| tbl ::= <[id := name]> |>).
(** [ON CONFLICT (id) DO UPDATE SET name] *)
Definition create_teacher (user_id : Z) (name : string) : DB Z :=
  upsert_profile teachers user_id name ;; mret user_id.
Definition create_parent_row (user_id : Z) (name : string) : DB Z :=
  upsert_profile parenets user_id name ;; mret user_id.
(** [ON CONFLICT DO NOTHING] *)
Definition ensure_profile (tbl : TenantDB → gmap Z string) `{!Setter tbl} (id : Z) (name : string) : DB unit :=
  t ← gets tbl;
  match t !! id with Some _ => mret tt | None => upsert_profile tbl id name end.

(** ** Deleting a user

    The referential actions of [DELETE FROM users]. The NO ACTION and RESTRICT
    references are checked first: in PostgreSQL their triggers on the user
    (and on the teacher row) run before the deletions that the cascades of
    other tables queue. *)
Definition user_blocked (id : Z) (s : TenantDB) : bool :=
  existsb (λ kv, (rs_added_by kv.2 =? id) || any_of [id] (rs_updated_by kv.2)) (map_to_list (resources s))
  || existsb (λ kv, co_set_by kv.2 =? id) (map_to_list (resource_costs s))
  || existsb (λ kv, any_of [id] (cl_head kv.2)) (map_to_list (classes s)).

(** DELETE FROM event: CASCADE to the mappings (and on to enrollments and
    payments), the feedback, the notifications, the resources and their costs. *)
Definition delete_events_of (id : Z) (s : TenantDB) : TenantDB :=
  let evs := keys_where (λ _ e, ev_created_by e =? id) (events s) in
  let gone (e : Z) := bool_decide (e ∈ evs) in
  let lines := keys_where (λ _ r, gone (rs_event r)) (resources s) in
  delete_ecm_where (λ _ m, gone (ecm_event m)) s
    <| events ::= delete_where (λ k _, gone k) |>
    <| event_feedback ::= delete_where (λ _ f, gone (fb_event f)) |>
    <| notifications ::= List.filter (λ n, negb (gone (nt_event n))) |>
    <| resources ::= delete_where (λ _ r, gone (rs_event r)) |>
    <| resource_costs ::= delete_where (λ _ c, gone (co_event c) || bool_decide (co_resource c ∈ lines)) |>.

(** DELETE FROM students: CASCADE to enrollments and payments, the health
    record, the placement log, the rollover lines and the links to parents. *)
Definition delete_student_rows (id : Z) (s : TenantDB) : TenantDB :=
  let enrolls := keys_where (λ _ e, en_student e =? id) (enrollments s) in
  s <| students ::= delete id |>
    <| enrollments ::= delete_where (λ _ e, en_student e =? id) |>
    <| payments ::= delete_where (λ _ p, bool_decide (pm_enrollment p ∈ enrolls)) |>
    <| student_health ::= delete_where (λ _ h, he_student h =? id) |>
    <| class_history ::= List.filter (λ h, negb (hi_student h =? id)) |>
    <| rollover_lines ::= delete_where (λ _ l, li_student l =? id) |>
    <| student_parent_map ::= base.filter (λ kv, kv.1.1 ≠ id) |>.

(** DELETE FROM teachers, parenets. *)
Definition delete_staff_rows (id : Z) (s : TenantDB) : TenantDB :=
  s <| teachers ::= delete id |>
    <| parenets ::= delete id |>
    <| student_parent_map ::= base.filter (λ kv, kv.1.2 ≠ id) |>
    <| enrollments ::= fmap (λ e, e <| en_teacher := set_null [id] (en_teacher e) |>
                                     <| en_parent := set_null [id] (en_parent e) |>) |>.

(** Notifications and feedback go with the user; other columns lose it: SET NULL. *)
Definition forget_user (id : Z) (s : TenantDB) : TenantDB :=
  s <| notifications ::= List.filter (λ n, negb (nt_recipient n =? id)) |>
    <| event_feedback ::= delete_where (λ _ f, fb_user f =? id) |>
    <| resource_types ::= fmap (λ r, {| rt_name := rt_name r; rt_category := rt_category r;
         rt_custom := rt_custom r; rt_created_by := set_null [id] (rt_created_by r);
         rt_active := rt_active r |}) |>
    <| class_history ::= map (λ h, h <| hi_by := set_null [id] (hi_by h) |>) |>
    <| rollovers ::= fmap (λ r, r <| ro_created_by := set_null [id] (ro_created_by r) |>) |>
    <| audit_log ::= map (λ a, {| au_id := au_id a; au_occurred_at := au_occurred_at a;
         au_actor := set_null [id] (au_actor a); au_email_hmac := au_email_hmac a; au_role := au_role a;
         au_action := au_action a; au_entity_type := au_entity_type a; au_entity_id := au_entity_id a;
         au_outcome := au_outcome a; au_changed := au_changed a; au_metadata := au_metadata a;
         au_retention := au_retention a |}) |>.

Definition delete_user_rows (id : Z) (s : TenantDB) : TenantDB :=
  forget_user id (delete_staff_rows id (delete_student_rows id (delete_events_of id s)))
    <| users ::= delete id |>.

Definition user_in_use : exn :=
  ValueError ("This user has added or priced event resources and cannot be deleted "
    +:+ "until those records are reassigned to another staff member.").

Definition clear_reviewer (id : Z) (e : event_row) : event_row :=
  e <| ev_manager_reviewer := set_null [id] (ev_manager_reviewer e) |>
    <| ev_finance_reviewer := set_null [id] (ev_finance_reviewer e) |>.

Definition delete_user (user_id : pyid) : DB (option (Z * user_row)) :=
  match user_parse_id user_id with
  | PInt id =>
      transaction (
        check ((- 2 ^ 63 <=? id) && (id <? 2 ^ 63)) "value out of int64 range" ;;
        t ← gets users;
        match t !! id with
        | None => mret None
        | Some r =>
            modify (λ s, s <| events ::= fmap (clear_reviewer id) |>) ;;
            blocked ← gets (user_blocked id);
            guard_or (negb blocked) user_in_use ;;
            modify (delete_user_rows id) ;;
            mret (Some (id, r))
        end)
  | PUuid _ => raise (DatabaseError "invalid input for query argument")
  | _ => mret None
  end.
