(* ===== verification/Provision.v ===== *)
(** * Opening a school

    [_initialize_tenant_tables] (src/app/core/database.py) runs again on the
    first use of a school by every new process, on live data. This file shows
    that its data steps only add what is missing and that running them again
    changes nothing. *)
From S2P Require Import Prelude PyText Authz Store Structure School World.

(** What one run establishes, and what makes the next one idle. *)
Record provisioned (sas : list super_admin_row) (s : TenantDB) : Prop := {
  pv_year : academic_years s ≠ ∅;
  pv_labels : label_class <$> classes s = classes s;
  pv_profile : school_profile s ≠ ∅;
  pv_types : ∀ c, c ∈ ["transport"; "staffing"; "meals"] → seeded_category c s = true;
  pv_admins : ∀ r, r ∈ sas → has_user (sa_email r) s = true;
}.

(** Only these columns change, and only by adding rows and labels. *)
Record only_adds (s s' : TenantDB) : Prop := {
  oa_users : users s ⊆ users s';
  oa_types : resource_types s ⊆ resource_types s';
  oa_years : academic_years s ⊆ academic_years s';
  oa_profile : school_profile s ⊆ school_profile s';
  oa_classes : classes s' = classes s ∨ classes s' = label_class <$> classes s;
  oa_rest : s' = s <| users := users s' |> <| resource_types := resource_types s' |>
                   <| academic_years := academic_years s' |> <| school_profile := school_profile s' |>
                   <| classes := classes s' |> <| nextid := nextid s' |>;
}.

(** The keys the steps draw are unused. *)
Record fresh_keys (s : TenantDB) : Prop := {
  fk_users : ids_below (nextid s) (users s);
  fk_types : ids_below (nextid s) (resource_types s);
}.

Lemma only_adds_refl s : only_adds s s.
Proof. constructor; try done; auto. by destruct s. Qed.

Lemma label_class_idem r : label_class (label_class r) = label_class r.
Proof.
  destruct r as [n l h c a y [sec|]]; [done|].
  unfold label_class. cbn -[section_label_sql].
  destruct (section_label_sql n) eqn:E; cbn -[section_label_sql]; by rewrite ?E.
Qed.

Lemma label_classes_idem (t : gmap Z class_row) :
  label_class <$> (label_class <$> t) = label_class <$> t.
Proof. rewrite <-map_fmap_compose. apply map_fmap_ext. intros. apply label_class_idem. Qed.

Lemma only_adds_trans s1 s2 s3 : only_adds s1 s2 → only_adds s2 s3 → only_adds s1 s3.
Proof.
  intros [U1 T1 Y1 P1 C1 R1] [U2 T2 Y2 P2 C2 R2]. constructor; try by etrans.
  - destruct C1 as [C1|C1], C2 as [C2|C2]; rewrite C2, ?C1, ?label_classes_idem; auto.
  - rewrite R2 at 1. rewrite R1 at 1. by destruct s1.
Qed.

(** *** Facts about the rows, kept by every later step *)
Lemma has_user_spec e s :
  has_user e s = true ↔ ∃ k r, users s !! k = Some r ∧ str_lower (us_email r) = str_lower e.
Proof.
  unfold has_user. rewrite existsb_exists. split.
  - intros ([k r] & Hin & Hc%ci_eq_true). apply list_elem_of_In, elem_of_map_to_list in Hin. eauto.
  - intros (k & r & Hk & Hc). exists (k, r). split; [|by apply ci_eq_true].
    by apply list_elem_of_In, elem_of_map_to_list.
Qed.

Lemma seeded_spec c s :
  seeded_category c s = true ↔
  ∃ k r, resource_types s !! k = Some r ∧ rt_category r = c ∧ rt_custom r = false.
Proof.
  unfold seeded_category. rewrite existsb_exists. split.
  - intros ([k r] & Hin & HP). apply list_elem_of_In, elem_of_map_to_list in Hin.
    apply andb_true_iff in HP as [Hc%bool_decide_eq_true Hn%negb_true_iff]. eauto.
  - intros (k & r & Hk & Hc & Hn). exists (k, r). split; [by apply list_elem_of_In, elem_of_map_to_list|].
    simpl. by rewrite bool_decide_true, Hn.
Qed.

Lemma has_user_mono e s s' : users s ⊆ users s' → has_user e s = true → has_user e s' = true.
Proof.
  rewrite !has_user_spec. intros Hs (k & r & Hk & Hc). exists k, r. split; [|done].
  by eapply lookup_weaken.
Qed.

Lemma seeded_mono c s s' :
  resource_types s ⊆ resource_types s' → seeded_category c s = true → seeded_category c s' = true.
Proof.
  rewrite !seeded_spec. intros Hs (k & r & Hk & Hc). exists k, r. split; [|done].
  by eapply lookup_weaken.
Qed.

(** *** One new row *)
Lemma add_user s r :
  fresh_keys s →
  let s' := s <| users ::= <[nextid s := r]> |> <| nextid := nextid s + 1 |> in
  fresh_keys s' ∧ only_adds s s' ∧ has_user (us_email r) s' = true.
Proof.
  intros [Hu Ht]. split_and!.
  - constructor; simpl.
    + apply ids_below_insert; [eapply ids_below_mono; [eassumption|lia]|lia].
    + eapply ids_below_mono; [eassumption|lia].
  - constructor; simpl; try done; auto.
    apply insert_subseteq. by apply ids_below_fresh.
  - apply has_user_spec. exists (nextid s), r. simpl. by rewrite lookup_insert_eq.
Qed.

Lemma add_type s r :
  fresh_keys s →
  let s' := s <| resource_types ::= <[nextid s := r]> |> <| nextid := nextid s + 1 |> in
  fresh_keys s' ∧ only_adds s s' ∧ (rt_custom r = false → seeded_category (rt_category r) s' = true).
Proof.
  intros [Hu Ht]. split_and!.
  - constructor; simpl.
    + eapply ids_below_mono; [eassumption|lia].
    + apply ids_below_insert; [eapply ids_below_mono; [eassumption|lia]|lia].
  - constructor; simpl; try done; auto.
    apply insert_subseteq. by apply ids_below_fresh.
  - intros Hc. apply seeded_spec. exists (nextid s), r. simpl. by rewrite lookup_insert_eq.
Qed.

(** A step from [s0] that has already grown to [s]. *)
Definition grown (s0 s : TenantDB) : Prop := fresh_keys s ∧ only_adds s0 s.

(** *** The steps *)
Lemma wp_init_category c s0 s :
  c ∈ ["transport"; "staffing"; "meals"] → grown s0 s →
  wp (init_category c) (λ _ s', grown s0 s' ∧ only_adds s s' ∧ seeded_category c s' = true)
    (λ _ _, False) s.
Proof.
  intros Hc [Hf Ha]. unfold init_category. wp_simpl. destruct (seeded_category c s) eqn:Hseed.
  { split; [done|]. split; [apply only_adds_refl|done]. }
  apply (wp_mono _ (λ _ s', grown s s' ∧ seeded_category c s' = true) _ (λ _ _, False)); [| |done].
  2:{ intros _ s' [[Hf' Ha'] Hs]. split_and!; [split; [done|by eapply only_adds_trans]|done|done]. }
  assert (∀ name s', grown s s' →
    wp (insert_serial resource_types {| rt_name := name; rt_category := c; rt_custom := false;
          rt_created_by := None; rt_active := true |} ;; mret tt)
      (λ _ s', grown s s' ∧ seeded_category c s' = true) (λ _ _, False) s') as Hstep.
  { intros name s' [Hf' Ha']. unfold insert_serial. wp_simpl.
    destruct (add_type s' {| rt_name := name; rt_category := c; rt_custom := false;
      rt_created_by := None; rt_active := true |} Hf') as (Hf2 & Ha2 & Hs).
    split; [split; [done|by eapply only_adds_trans]|by apply Hs]. }
  assert (grown s s) as H0 by (split; [done|apply only_adds_refl]).
  assert (∃ n1 n2, List.filter (λ nc, bool_decide (nc.2 = c)) _DEFAULT_RESOURCE_TYPES = [(n1, c); (n2, c)])
    as (n1 & n2 & ->).
  { repeat (apply elem_of_cons in Hc as [->|Hc]); [by eexists _, _..|by apply elem_of_nil in Hc]. }
  cbn [for_each fst snd]. rewrite wp_bind. eapply wp_mono; [by apply Hstep| |done].
  intros _ s1 [H1 _]. rewrite wp_bind. eapply wp_mono; [by apply Hstep| |done]. done.
Qed.

Lemma wp_init_resource_types s0 s :
  grown s0 s →
  wp init_resource_types (λ _ s', grown s0 s' ∧ only_adds s s' ∧
      ∀ c, c ∈ ["transport"; "staffing"; "meals"] → seeded_category c s' = true) (λ _ _, False) s.
Proof.
  intros Hg. unfold init_resource_types.
  apply (wp_mono _ (λ _ s', grown s0 s' ∧ only_adds s s' ∧
    ∀ c, c ∈ ["transport"; "staffing"; "meals"] → seeded_category c s' = true) _ (λ _ _, False));
    [|done..].
  apply (wp_for_each_prefix _ _ (λ seen s', grown s0 s' ∧ only_adds s s' ∧
    ∀ c, c ∈ seen → seeded_category c s' = true)).
  { split_and!; [done|apply only_adds_refl|]. by intros c ?%elem_of_nil. }
  intros seen c todo s1 Hl (Hg1 & Ha1 & Hs1).
  eapply wp_mono; [apply (wp_init_category c s0); [rewrite Hl; set_solver|done]| |done].
  intros _ s2 (Hg2 & Ha2 & Hs2). split_and!; [done|by eapply only_adds_trans|].
  intros c' [Hc|Hc%list_elem_of_singleton]%elem_of_app; [|by subst].
  eapply seeded_mono; [apply Ha2|by apply Hs1].
Qed.

Lemma wp_init_super_admins sas s0 s :
  grown s0 s →
  wp (init_super_admins sas) (λ _ s', grown s0 s' ∧ only_adds s s' ∧
      ∀ r, r ∈ sas → has_user (sa_email r) s' = true) (λ _ _, False) s.
Proof.
  intros Hg. unfold init_super_admins.
  apply (wp_for_each_prefix _ _ (λ seen s', grown s0 s' ∧ only_adds s s' ∧
    ∀ r, r ∈ seen → has_user (sa_email r) s' = true)).
  { split_and!; [done|apply only_adds_refl|]. by intros c ?%elem_of_nil. }
  intros seen r todo s1 Hl ([Hf1 Hg1] & Ha1 & Hs1). unfold mirror_super_admin, insert_serial. wp_simpl.
  destruct (has_user (sa_email r) s1) eqn:Hu; wp_simpl.
  { split_and!; [done..|]. intros r' [Hr|Hr%list_elem_of_singleton]%elem_of_app; subst; auto. }
  destruct (add_user s1 (new_user (sa_email r) "super_admin" (sa_hash r)) Hf1) as (Hf2 & Ha2 & Hs2).
  split_and!; [split; [done|by eapply only_adds_trans]|by eapply only_adds_trans|].
  intros r' [Hr|Hr%list_elem_of_singleton]%elem_of_app; [|by subst].
  eapply has_user_mono; [apply Ha2|by apply Hs1].
Qed.

Lemma nonempty_mono {A} (m m' : gmap Z A) : m ⊆ m' → m ≠ ∅ → m' ≠ ∅.
Proof.
  intros Hs Hn ->. apply Hn. apply map_empty. intros k. apply eq_None_not_Some. intros [x Hx].
  by apply (lookup_weaken _ _ _ _ Hx) in Hs.
Qed.

Lemma wp_initialize sas s :
  fresh_keys s →
  wp (_initialize_tenant_tables sas) (λ _ s', grown s s' ∧ provisioned sas s') (λ _ _, False) s.
Proof.
  intros Hf. unfold _initialize_tenant_tables.
  rewrite wp_bind. apply (wp_mono _ (λ _ s1, grown s s1 ∧ academic_years s1 ≠ ∅) _ (λ _ _, False));
    [|intros ? s1 [H1 Hy]|done].
  { unfold init_academic_year, insert_serial. wp_simpl. case_bool_decide as Hy; wp_simpl.
    - split; [|apply insert_non_empty]. split.
      + destruct Hf. constructor; simpl; (eapply ids_below_mono; [eassumption|lia]).
      + constructor; simpl; try done; auto. rewrite Hy. apply map_empty_subseteq.
    - split; [split; [done|apply only_adds_refl]|done]. }
  rewrite wp_bind. unfold init_section_labels. rewrite wp_modify.
  assert (grown s (s1 <| classes ::= fmap label_class |>)) as H2.
  { destruct H1 as [[? ?] H1]. split; [by constructor|]. eapply only_adds_trans; [done|].
    constructor; simpl; try done; auto. }
  assert (label_class <$> classes (s1 <| classes ::= fmap label_class |>)
          = classes (s1 <| classes ::= fmap label_class |>)) as Hlab by apply label_classes_idem.
  revert H2 Hlab Hy. change (academic_years s1) with (academic_years (s1 <| classes ::= fmap label_class |>)).
  generalize (s1 <| classes ::= fmap label_class |>) as s2. clear s1 H1. intros s2 H2 Hlab Hy.
  rewrite wp_bind.
  apply (wp_mono _ (λ _ s3, grown s s3 ∧ only_adds s2 s3 ∧ classes s3 = classes s2 ∧
    school_profile s3 ≠ ∅) _ (λ _ _, False)); [|intros ? s3 (H3 & Ha3 & Hc3 & Hp3)|done].
  { unfold init_profile, insert_serial. wp_simpl. case_bool_decide as Hp; wp_simpl.
    - assert (only_adds s2 (s2 <| school_profile ::= <[nextid s2 := default_profile]> |>
                              <| nextid := nextid s2 + 1 |>)) as Ha.
      { constructor; simpl; try done; auto. rewrite Hp. apply map_empty_subseteq. }
      destruct H2 as [[Hu Ht] H2]. split_and!; [split|done|done|apply insert_non_empty].
      + constructor; simpl; (eapply ids_below_mono; [eassumption|lia]).
      + by eapply only_adds_trans.
    - split_and!; [done|apply only_adds_refl|done|done]. }
  rewrite wp_bind. eapply wp_mono; [by apply (wp_init_resource_types s)| |done].
  intros ? s4 (H4 & Ha4 & Hs4).
  eapply wp_mono; [by apply (wp_init_super_admins sas s)| |done].
  intros ? s5 (H5 & Ha5 & Hs5). split; [done|].
  assert (only_adds s2 s5) as Ha by (eapply only_adds_trans; [|done]; by eapply only_adds_trans).
  constructor.
  - eapply nonempty_mono; [apply Ha|done].
  - destruct (oa_classes _ _ Ha) as [Heq|Heq]; rewrite Heq; [done|]. by rewrite label_classes_idem.
  - eapply nonempty_mono; [apply Ha5|]. eapply nonempty_mono; [apply Ha4|done].
  - intros c Hc. eapply seeded_mono; [apply Ha5|by apply Hs4].
  - done.
Qed.

(** A provisioned school is left as it is. *)
Lemma provisioned_noop sas s :
  provisioned sas s → _initialize_tenant_tables sas s = (Ok tt, s).
Proof.
  intros [Hy Hl Hp Ht Ha].
  assert (init_academic_year s = (Ok tt, s)) as E1.
  { unfold init_academic_year, mbind, M_bind, gets. by rewrite bool_decide_false. }
  assert (init_section_labels s = (Ok tt, s)) as E2.
  { unfold init_section_labels, modify, set_field. rewrite Hl. by destruct s. }
  assert (init_profile s = (Ok tt, s)) as E3.
  { unfold init_profile, mbind, M_bind, gets. by rewrite bool_decide_false. }
  assert (init_resource_types s = (Ok tt, s)) as E4.
  { assert (∀ c, c ∈ ["transport"; "staffing"; "meals"] → init_category c s = (Ok tt, s)) as Hc.
    { intros c Hc. unfold init_category, mbind, M_bind, gets. by rewrite Ht. }
    unfold init_resource_types. simpl. unfold mbind, M_bind. by rewrite !Hc by set_solver. }
  assert (init_super_admins sas s = (Ok tt, s)) as E5.
  { unfold init_super_admins. clear -Ha. induction sas as [|r sas IH]; [done|]. simpl.
    unfold mbind, M_bind, mirror_super_admin, gets. unfold mbind, M_bind.
    rewrite Ha by set_solver. simpl. apply IH. intros r' ?. apply Ha. set_solver. }
  unfold _initialize_tenant_tables, mbind, M_bind. by rewrite E1, E2, E3, E4, E5.
Qed.

(** Opening a school again changes nothing. The data steps that every
    new process runs against a live schema never fail, only add rows and
    section labels (no row of any table is lost or altered, and nothing but
    the users, resource types, academic years, the profile and the labels is
    touched), leave the school with an academic year, a profile, all system
    resource types and every super admin mirrored, and running them a second
    time is the identity. *)
Theorem provisioning_is_idempotent sas s :
  fresh_keys s →
  ∃ s', _initialize_tenant_tables sas s = (Ok tt, s') ∧ only_adds s s' ∧ provisioned sas s' ∧
        _initialize_tenant_tables sas s' = (Ok tt, s').
Proof.
  intros Hf. pose proof (wp_initialize sas s Hf) as H. unfold wp in H.
  destruct (_initialize_tenant_tables sas s) as [[[]|e] s'] eqn:E; [|done].
  destruct H as [[_ Ha] Hp]. exists s'. split_and!; [done..|]. by apply provisioned_noop.
Qed.

Lemma provisioning_is_idempotent_witness :
  ∃ s', _initialize_tenant_tables [{| sa_email := "sa@desk.com"; sa_hash := "h" |}] empty_db = (Ok tt, s')
    ∧ only_adds empty_db s' ∧ provisioned [{| sa_email := "sa@desk.com"; sa_hash := "h" |}] s' ∧
    _initialize_tenant_tables [{| sa_email := "sa@desk.com"; sa_hash := "h" |}] s' = (Ok tt, s').
Proof.
  apply (provisioning_is_idempotent _ empty_db). constructor; by intros k [r Hr].
Defined.

(** The backfill and [_derive_section_label] read a name differently: the
    regular expression of the backfill asks for no word boundary. *)
Example backfill_reads_more_labels :
  section_label_sql "Subsection B" = Some "B" ∧ _derive_section_label "Subsection B" = None.
Proof. by vm_compute. Qed.
