(* ===== verification/ControlPlane.v ===== *)
(** * The control-plane repository

    [ControlPlaneRepository] (src/app/domains/tenant/control_plane_repository.py)
    and the data steps of [_initialize_control_plane_tables]
    (src/app/core/database.py): parents, super admins, tenants, identities,
    the memberships with their life cycle, access requests, invitations,
    selection challenges and refresh tokens. *)
From S2P Require Import Prelude PyText Authz Store Structure School World.

(** ** Parents and super admins (email: CITEXT UNIQUE) *)
Definition find_parent (email : string) (w : World) : option (Z * parent_row) :=
  find_row (λ _ r, ci_eq (pa_email r) email) (parents w).
Definition find_super_admin (email : string) (w : World) : option (Z * super_admin_row) :=
  find_row (λ _ r, ci_eq (sa_email r) email) (super_admins w).

Definition duplicate_key : string := "duplicate key value violates unique constraint".

Definition create_parent (email password_hash : string) : CP Z :=
  known ← gets (find_parent email);
  cp_check (bool_decide (known = None)) duplicate_key ;;
  cp_insert parents {| pa_email := email; pa_hash := password_hash; pa_phone := None;
                       pa_address := None |}.
Definition get_parent_by_email (email : string) : CP (option (Z * parent_row)) :=
  gets (find_parent email).
Definition get_parent_by_id (id : Z) : CP (option parent_row) := gets (λ w, parents w !! id).
Definition update_parent_password (id : Z) (password_hash : string) : CP unit :=
  modify (λ w, w <| parents ::= alter (λ r, r <| pa_hash := password_hash |>) id |>).
Definition update_parent_profile (id : Z) (phone address : option string) : CP unit :=
  cp_check (from_option (λ p, str_len p <=? 50) true phone)
    "value too long for type character varying(50)" ;;
  modify (λ w, w <| parents ::= alter (λ r, r <| pa_phone := phone |> <| pa_address := address |>) id |>).

Definition create_super_admin (email password_hash : string) : CP Z :=
  known ← gets (find_super_admin email);
  cp_check (bool_decide (known = None)) duplicate_key ;;
  cp_insert super_admins {| sa_email := email; sa_hash := password_hash |}.
Definition get_super_admin_by_email (email : string) : CP (option (Z * super_admin_row)) :=
  gets (find_super_admin email).
Definition update_super_admin_password (id : Z) (password_hash : string) : CP unit :=
  modify (λ w, w <| super_admins ::= alter (λ r, r <| sa_hash := password_hash |>) id |>).

(** [DELETE FROM super_admins WHERE UPPER(email) = UPPER($1)] *)
Definition remove_super_admin (email : string) : CP bool :=
  t ← gets super_admins;
  let P (_ : Z) r := upper_eq (sa_email r) (str_strip email) in
  modify (λ w, w <| super_admins ::= delete_where P |>) ;;
  mret (bool_decide (List.length (select P t) = 1%nat)).

(** [INSERT INTO super_admins ... ON CONFLICT DO NOTHING] *)
Definition ensure_super_admin (email password_hash : string) : CP unit :=
  known ← gets (find_super_admin email);
  match known with
  | Some _ => mret tt
  | None => cp_insert super_admins {| sa_email := email; sa_hash := password_hash |} ;; mret tt
  end.

(** ** Tenants *)
Definition get_all_tenants : CP (list string) := gets (λ w, fst <$> map_to_list (tenants w)).
Definition create_tenant (tenant_id name : string) : CP unit :=
  cp_check (tenant_id_fits tenant_id) "value too long for type character varying(50)" ;;
  modify (λ w, w <| tenants ::= <[tenant_id := name]> |>).

(** ** Links of a parent to students and schools *)
Definition check_parent (id : Z) : CP unit :=
  t ← gets parents; cp_check (has_row t id) "violates foreign key constraint".

Definition create_parent_child_link (parent_id : Z) (tenant_id : string) (student_id : Z) : CP Z :=
  links ← gets parent_child_links;
  match links !! (parent_id, tenant_id, student_id) with
  | Some id => mret id
  | None =>
      check_parent parent_id ;; check_tenant tenant_id ;;
      id ← gets cp_next;
      modify (λ w, w <| parent_child_links ::= <[(parent_id, tenant_id, student_id) := id]> |>
                     <| cp_next := id + 1 |>) ;;
      mret id
  end.
Definition delete_parent_child_link (parent_id : Z) (tenant_id : string) (student_id : Z) : CP bool :=
  links ← gets parent_child_links;
  modify (λ w, w <| parent_child_links ::= delete (parent_id, tenant_id, student_id) |>) ;;
  mret (bool_decide (is_Some (links !! (parent_id, tenant_id, student_id)))).

Definition add_parent_tenant_link (parent_id : Z) (tenant_id : string) : CP unit :=
  links ← gets parent_tenant_links;
  match links !! (parent_id, tenant_id) with
  | Some _ => mret tt
  | None =>
      check_parent parent_id ;; check_tenant tenant_id ;;
      modify (λ w, w <| parent_tenant_links ::= <[(parent_id, tenant_id) := now w]> |>)
  end.

(** ORDER BY created_at DESC, tenant_id ASC *)
Definition newest_first (a b : string * Z) : Prop :=
  b.2 < a.2 ∨ (a.2 = b.2 ∧ String.leb a.1 b.1 = true).
#[export] Instance newest_first_dec a b : Decision (newest_first a b).
Proof. unfold newest_first. apply _. Defined.

Definition tenants_of_parent (parent_id : Z) (w : World) : list string :=
  fst <$> merge_sort newest_first
    (omap (λ kv : Z * string * Z, if kv.1.1 =? parent_id then Some (kv.1.2, kv.2) else None)
       (map_to_list (parent_tenant_links w))).
Definition get_tenants_for_parent (parent_id : Z) : CP (list string) :=
  gets (tenants_of_parent parent_id).
Definition check_parent_tenant_link (parent_id : Z) (tenant_id : string) : CP bool :=
  gets (λ w, bool_decide (is_Some (parent_tenant_links w !! (parent_id, tenant_id)))).

(** ** Identities *)
Definition find_identity (email : string) (w : World) : option (Z * string) :=
  find_row (λ _ e, ci_eq e email) (identities w).
Definition get_identity_by_id (id : Z) : CP (option string) := gets (λ w, identities w !! id).
Definition get_or_create_identity (email : string) : CP Z :=
  known ← gets (find_identity (norm_email email));
  match known with
  | Some (id, _) => mret id
  | None => cp_insert identities (norm_email email)
  end.

(** ** Memberships *)
Definition of_member (email tenant_id : string) (key : Z * string) (r : member_row) : bool :=
  ci_eq (mb_email r) email && bool_decide (key.2 = tenant_id).

Definition find_member (email tenant_id : string) (w : World) : option (Z * string * member_row) :=
  head (List.filter (λ kv, of_member email tenant_id kv.1 kv.2) (map_to_list (user_tenant_map w))).

(** The memberships an email holds, ORDER BY updated_at DESC, tenant_id ASC. *)
Definition member_le (a b : (Z * string) * member_row) : Prop :=
  newest_first (a.1.2, mb_updated a.2) (b.1.2, mb_updated b.2).
#[export] Instance member_le_dec a b : Decision (member_le a b).
Proof. unfold member_le. apply _. Defined.
Definition memberships_of (email : string) (w : World) : list (string * string) :=
  (λ kv, (kv.1.2, mb_role kv.2)) <$> merge_sort member_le
    (List.filter (λ kv, ci_eq (mb_email kv.2) (norm_email email)) (map_to_list (user_tenant_map w))).
Definition get_tenants_for_email (email : string) : CP (list (string * string)) :=
  gets (memberships_of email).
Definition get_tenant_for_email (email : string) : CP (option (string * string)) :=
  gets (λ w, head (memberships_of email w)).

Definition invalidate_membership_cache (email : string) : CP unit :=
  if bool_decide (email = "") then modify (λ w, w <| member_cache := ∅ |>)
  else modify (λ w, w <| member_cache ::= delete (norm_email email) |>).

Definition new_member (email role status : string) (roles : list string) (by_ : option string)
    (t : Z) : member_row :=
  {| mb_email := email; mb_role := role; mb_roles := roles; mb_status := status; mb_updated := t;
     mb_invited_by := by_; mb_last_active := None; mb_default := false |}.

(** [INSERT ... (identity_id, email, tenant_id, role, updated_at)
    ON CONFLICT (email, tenant_id) DO UPDATE SET role, updated_at] *)
Definition upsert_member (identity : Z) (email tenant_id role : string) : CP unit :=
  t ← gets now;
  known ← gets (find_member email tenant_id);
  match known with
  | Some (key, _) =>
      modify (λ w, w <| user_tenant_map ::= alter (λ r, r <| mb_role := role |> <| mb_updated := t |>) key |>)
  | None =>
      members ← gets user_tenant_map;
      cp_check (bool_decide (members !! (identity, tenant_id) = None)) duplicate_key ;;
      check_tenant tenant_id ;;
      modify (λ w, w <| user_tenant_map ::= <[(identity, tenant_id) := new_member email role "active" [] None t]> |>)
  end.
Definition upsert_user_tenant_map (email tenant_id role : string) : CP unit :=
  identity ← get_or_create_identity email;
  upsert_member identity (norm_email email) tenant_id role ;;
  invalidate_membership_cache email.

Definition remove_user_tenant_map (email tenant_id : string) : CP unit :=
  modify (λ w, w <| user_tenant_map ::=
    base.filter (λ kv, of_member (norm_email email) tenant_id kv.1 kv.2 = false) |>).

Definition get_membership (identity : Z) (tenant_id : string) : CP (option member_row) :=
  gets (λ w, user_tenant_map w !! (identity, tenant_id)).

(** [UPDATE user_tenant_map SET status = new WHERE identity, tenant AND
    status = old]: whether a row matched. *)
Definition move_status (key : Z * string) (old : string → bool) (new : string) : CP bool :=
  members ← gets user_tenant_map;
  match members !! key with
  | Some r =>
      if old (mb_status r) then
        modify (λ w, w <| user_tenant_map ::= <[key := r <| mb_status := new |>]> |>) ;; mret true
      else mret false
  | None => mret false
  end.
Definition is_status (a b : string) : bool := bool_decide (b = a).

(** The school offers a membership: a new row, or a revoked one again. *)
Definition create_invited_membership (identity : Z) (email tenant_id role invited_by : string) : CP unit :=
  members ← gets user_tenant_map;
  match members !! (identity, tenant_id) with
  | Some r =>
      if bool_decide (mb_status r = "revoked") then
        modify (λ w, w <| user_tenant_map ::= <[(identity, tenant_id) :=
          r <| mb_status := "invited" |> <| mb_role := role |> <| mb_roles := [role] |>
            <| mb_invited_by := Some invited_by |>]> |>)
      else mret tt
  | None =>
      known ← gets (find_member (norm_email email) tenant_id);
      cp_check (bool_decide (known = None)) duplicate_key ;;
      ids ← gets identities;
      cp_check (has_row ids identity) "violates foreign key constraint" ;;
      check_tenant tenant_id ;;
      t ← gets now;
      modify (λ w, w <| user_tenant_map ::= <[(identity, tenant_id) :=
        new_member (norm_email email) role "invited" [role] (Some invited_by) t]> |>)
  end.

Definition accept_membership (identity : Z) (tenant_id : string) : CP bool :=
  move_status (identity, tenant_id) (is_status "invited") "active".

Definition decline_membership (identity : Z) (tenant_id : string) : CP bool :=
  members ← gets user_tenant_map;
  match members !! (identity, tenant_id) with
  | Some r =>
      if bool_decide (mb_status r = "invited") then
        modify (λ w, w <| user_tenant_map ::= delete (identity, tenant_id) |>) ;; mret true
      else mret false
  | None => mret false
  end.

(** The operations of an administrator name the member by email. *)
Definition by_email (email tenant_id : string) (f : Z * string → CP bool) : CP bool :=
  known ← gets (find_member (norm_email email) tenant_id);
  match known with Some (key, _) => f key | None => mret false end.
Definition suspend_membership (email tenant_id : string) : CP bool :=
  by_email email tenant_id (λ key, move_status key (is_status "active") "suspended").
Definition restore_membership (email tenant_id : string) : CP bool :=
  by_email email tenant_id (λ key, move_status key (is_status "suspended") "active").
Definition revoke_membership (email tenant_id : string) : CP bool :=
  by_email email tenant_id (λ key, move_status key (λ st, negb (is_status "revoked" st)) "revoked").

(** Under the partial unique index on the default. *)
Definition set_default_membership (identity : Z) (tenant_id : string) : CP bool :=
  transaction (
    modify (λ w, w <| user_tenant_map ::= map_imap (λ key r,
      Some (if key.1 =? identity then r <| mb_default := false |> else r)) |>) ;;
    members ← gets user_tenant_map;
    match members !! (identity, tenant_id) with
    | Some r =>
        if bool_decide (mb_status r = "active") then
          modify (λ w, w <| user_tenant_map ::= <[(identity, tenant_id) := r <| mb_default := true |>]> |>) ;;
          mret true
        else mret false
    | None => mret false
    end).

Definition touch_membership_last_active (identity : Z) (tenant_id : string) : CP unit :=
  modify (λ w, w <| user_tenant_map ::=
    alter (λ r, r <| mb_last_active := Some (now w) |>) (identity, tenant_id) |>).

(** ** Access requests: one pending request per identity and school *)
Definition create_access_request (identity : Z) (tenant_id role : string) (note : option string)
    : CP (Z * access_request_row) :=
  t ← gets access_requests;
  match find_row (λ _ r, (ac_identity r =? identity) && bool_decide (ac_tenant r = tenant_id)
                         && bool_decide (ac_status r = "pending")) t with
  | Some (id, r) =>
      let r' := r <| ac_role := role |> <| ac_note := note |> in
      modify (λ w, w <| access_requests ::= <[id := r']> |>) ;; mret (id, r')
  | None =>
      ids ← gets identities;
      cp_check (has_row ids identity) "violates foreign key constraint" ;;
      check_tenant tenant_id ;;
      let r := {| ac_identity := identity; ac_tenant := tenant_id; ac_role := role; ac_note := note;
                  ac_status := "pending"; ac_reason := None; ac_decided_by := None |} in
      id ← cp_insert access_requests r; mret (id, r)
  end.

(** CHECK (status IN (...)) *)
Definition request_statuses : list string := ["pending"; "approved"; "rejected"; "withdrawn"].
Definition decide_access_request (id : Z) (status decided_by : string) (reason : option string)
    : CP bool :=
  t ← gets access_requests;
  match t !! id with
  | Some r =>
      if bool_decide (ac_status r = "pending") then
        cp_check (bool_decide (status ∈ request_statuses)) "violates check constraint" ;;
        modify (λ w, w <| access_requests ::= <[id :=
          r <| ac_status := status |> <| ac_decided_by := Some decided_by |> <| ac_reason := reason |>]> |>) ;;
        mret true
      else mret false
  | None => mret false
  end.

(** ** Invitations *)
Definition invitation_roles : list string :=
  ["school_admin"; "teacher"; "parent"; "student"; "manager"; "super_admin"].

Definition create_invitation_row (code tenant_id role : string) (target_email : option string)
    (max_uses expires_at : Z) : CP (Z * invitation_row) :=
  t ← gets invitations;
  cp_check (str_len code <=? 100) "value too long for type character varying(100)" ;;
  cp_check (bool_decide (role ∈ invitation_roles)) "violates check constraint" ;;
  cp_check (int4 (Some max_uses)) "value out of int32 range" ;;
  cp_check (bool_decide (find_row (λ _ r, bool_decide (iv_code r = code)) t = None)) duplicate_key ;;
  check_tenant tenant_id ;;
  t0 ← gets now;
  let r := {| iv_code := code; iv_tenant := tenant_id; iv_role := role; iv_target := target_email;
              iv_max_uses := max_uses; iv_uses := 0; iv_expires := expires_at; iv_active := true;
              iv_created := t0 |} in
  id ← cp_insert invitations r; mret (id, r).

Section by_code.
(** The text of a uuid, as [id::text] prints it. *)
Context (uuid_text : Z → string).

(** WHERE UPPER(code) = UPPER($1) OR UPPER(target_email) = UPPER($1) OR id::text = $1 *)
Definition invitation_matches (code : string) (id : Z) (r : invitation_row) : bool :=
  upper_eq (iv_code r) code
  || match iv_target r with Some e => upper_eq e code | None => false end
  || bool_decide (uuid_text id = code).

Definition get_invitation_by_code (code : string) : CP (option (Z * invitation_row)) :=
  gets (λ w, find_row (invitation_matches (str_strip code)) (invitations w)).

Definition use_once (r : invitation_row) : invitation_row :=
  r <| iv_uses ::= Z.succ |>
    <| iv_active := if iv_max_uses r <=? iv_uses r + 1 then false else iv_active r |>.

Definition increment_invitation_uses (code : string) : CP unit :=
  modify (λ w, w <| invitations ::= update_where (invitation_matches (str_strip code)) use_once |>).
End by_code.

(** ** Selection challenges *)
Definition create_selection_challenge (token_hash : string) (identity : Z)
    (matched_tenants : list string) (expires_at : Z) : CP unit :=
  t ← gets challenges;
  cp_check (bool_decide (find_row (λ _ r, bool_decide (ch_hash r = token_hash)) t = None)) duplicate_key ;;
  ids ← gets identities;
  cp_check (has_row ids identity) "violates foreign key constraint" ;;
  cp_insert challenges
    {| ch_hash := token_hash; ch_identity := identity; ch_tenants := matched_tenants;
       ch_consumed := None; ch_expires := expires_at |} ;; mret tt.

(** [UPDATE ... SET consumed_at WHERE token_hash = $1 AND consumed_at IS NULL
    AND expires_at > CURRENT_TIMESTAMP RETURNING identity_id, matched_tenants] *)
Definition redeemable (token_hash : string) (t : Z) (r : challenge_row) : bool :=
  bool_decide (ch_hash r = token_hash) && bool_decide (ch_consumed r = None) && (t <? ch_expires r).
Definition redeem_selection_challenge (token_hash : string) : CP (option (Z * list string)) :=
  t ← gets now;
  rows ← gets challenges;
  match find_row (λ _ r, redeemable token_hash t r) rows with
  | Some (id, r) =>
      modify (λ w, w <| challenges ::= <[id := r <| ch_consumed := Some t |>]> |>) ;;
      mret (Some (ch_identity r, ch_tenants r))
  | None => mret None
  end.

(** ** Refresh tokens *)
Definition find_refresh (token_hash : string) (w : World) : option (Z * refresh_row) :=
  find_row (λ _ r, bool_decide (rf_hash r = token_hash)) (refresh_tokens w).

Definition create_refresh_token (token_hash : string) (identity : Z) (tenant_id role : string)
    (family expires_at : Z) : CP unit :=
  known ← gets (find_refresh token_hash);
  cp_check (bool_decide (known = None)) duplicate_key ;;
  cp_check (tenant_id_fits tenant_id) "value too long for type character varying(50)" ;;
  ids ← gets identities;
  cp_check (has_row ids identity) "violates foreign key constraint" ;;
  cp_insert refresh_tokens
    {| rf_hash := token_hash; rf_identity := identity; rf_tenant := tenant_id; rf_role := role;
       rf_family := family; rf_revoked := None; rf_replaced := None; rf_expires := expires_at |} ;;
  mret tt.
Definition get_refresh_token (token_hash : string) : CP (option (Z * refresh_row)) :=
  gets (find_refresh token_hash).
Definition repo_rotate_refresh_token (old_id new_id : Z) : CP unit :=
  modify (λ w, w <| refresh_tokens ::= alter (λ r,
    r <| rf_revoked := Some (now w) |> <| rf_replaced := Some new_id |>) old_id |>).
Definition revoke_refresh_token_family (family : Z) : CP unit :=
  modify (λ w, w <| refresh_tokens ::=
    update_where (λ _ r, (rf_family r =? family) && bool_decide (rf_revoked r = None))
      (λ r, r <| rf_revoked := Some (now w) |>) |>).

(** ** The data steps of [_initialize_control_plane_tables]

    They run when a process first touches the control plane: identities for
    every known email, memberships for every parent link, the seed tenants,
    the default super admin. *)
Definition known_emails (w : World) : list string :=
  ((λ kv, mb_email kv.2) <$> map_to_list (user_tenant_map w))
  ++ ((λ kv, pa_email kv.2) <$> map_to_list (parents w))
  ++ ((λ kv, sa_email kv.2) <$> map_to_list (super_admins w)).

Definition ensure_identity (email : string) : CP unit :=
  known ← gets (find_identity email);
  match known with Some _ => mret tt | None => cp_insert identities email ;; mret tt end.

(** The row that one link gives to the [INSERT ... SELECT] below. *)
Definition link_membership (kv : Z * string * Z) : CP unit :=
  p ← gets (λ w, parents w !! kv.1.1);
  match p with
  | Some p =>
      identity ← gets (find_identity (pa_email p));
      match identity with
      | Some (id, _) =>
          members ← gets user_tenant_map;
          if bool_decide (is_Some (members !! (id, kv.1.2))) then mret tt
          else
            known ← gets (find_member (pa_email p) kv.1.2);
            cp_check (bool_decide (known = None)) duplicate_key ;;
            t ← gets now;
            modify (λ w, w <| user_tenant_map ::=
              <[(id, kv.1.2) := new_member (pa_email p) "parent" "active" ["parent"] None t]> |>)
      | None => mret tt
      end
  | None => mret tt
  end.

(** [INSERT INTO user_tenant_map ... SELECT ... FROM parent_tenant_links ...
    ON CONFLICT (identity_id, tenant_id) DO NOTHING]: one statement, so a row
    that is refused takes the others with it. *)
Definition link_memberships : CP unit :=
  transaction (
    links ← gets (λ w, map_to_list (parent_tenant_links w));
    for_each links link_membership).

Definition _initialize_control_plane_tables (pass_hash : string) : CP unit :=
  emails ← gets known_emails;
  for_each emails ensure_identity ;;
  link_memberships ;;
  (n ← gets (λ w, size (tenants w));
   if bool_decide (n = 0%nat) then
     for_each TENANT_DB_CONFIG (λ t, modify (λ w, w <| tenants ::= <[t := tenant_title t]> |>))
   else mret tt) ;;
  ensure_super_admin "sa@desk.com" pass_hash.
