(* ===== verification/Membership.v ===== *)
(** * Invariants of the control plane and the life cycle of a membership

    The operations of ControlPlane as one type of requests, the
    well-formedness of the control plane they keep, and the abstract life
    cycle (invited, active, suspended, revoked) that the membership
    operations implement. *)
From S2P Require Import Prelude PyText Authz Store Structure School World ControlPlane.

(** ** Well-formedness *)
Definition member_statuses : list string :=
  ["invited"; "pending_approval"; "active"; "suspended"; "revoked"].

(** A membership belongs to an identity of the same email, in a registered
    school, in one of the states of the CHECK constraint. *)
Definition member_ok (w : World) (key : Z * string) (r : member_row) : Prop :=
  (∃ e, identities w !! key.1 = Some e ∧ str_lower e = str_lower (mb_email r)) ∧
  is_Some (tenants w !! key.2) ∧ mb_status r ∈ member_statuses.

Definition pending_key (r : access_request_row) : option (Z * string) :=
  if bool_decide (ac_status r = "pending") then Some (ac_identity r, ac_tenant r) else None.

Record wf_people (w : World) : Prop := {
  wp_identity_ids : ids_below (cp_next w) (identities w);
  wp_identity_email : unique_by str_lower (identities w);
  wp_parent_ids : ids_below (cp_next w) (parents w);
  wp_parent_email : unique_by (λ r, str_lower (pa_email r)) (parents w);
  wp_admin_ids : ids_below (cp_next w) (super_admins w);
  wp_admin_email : unique_by (λ r, str_lower (sa_email r)) (super_admins w);
}.

Record wf_members (w : World) : Prop := {
  wm_ok : map_Forall (member_ok w) (user_tenant_map w);
  wm_default : ∀ i t t' r r', user_tenant_map w !! (i, t) = Some r →
    user_tenant_map w !! (i, t') = Some r' → mb_default r = true → mb_default r' = true → t = t';
  wm_links : ∀ p t c, parent_tenant_links w !! (p, t) = Some c →
    is_Some (parents w !! p) ∧ is_Some (tenants w !! t);
}.

Record wf_tokens (w : World) : Prop := {
  wt_request_ids : ids_below (cp_next w) (access_requests w);
  wt_one_pending : ∀ i j a b, access_requests w !! i = Some a → access_requests w !! j = Some b →
    pending_key a = pending_key b → pending_key a ≠ None → i = j;
  wt_invitation_ids : ids_below (cp_next w) (invitations w);
  wt_code : unique_by iv_code (invitations w);
  wt_challenge_ids : ids_below (cp_next w) (challenges w);
  wt_challenge_hash : unique_by ch_hash (challenges w);
  wt_challenge_owner : map_Forall (λ _ r, is_Some (identities w !! ch_identity r)) (challenges w);
  wt_refresh_ids : ids_below (cp_next w) (refresh_tokens w);
  wt_refresh_hash : unique_by rf_hash (refresh_tokens w);
  wt_refresh_owner : map_Forall (λ _ r, is_Some (identities w !! rf_identity r)) (refresh_tokens w);
}.

Definition control_plane_wf (w : World) : Prop := wf_people w ∧ wf_members w ∧ wf_tokens w.

(** ** Requests *)
Inductive cp_op :=
  | CreateParent (email hash : string)
  | UpdateParentPassword (id : Z) (hash : string)
  | UpdateParentProfile (id : Z) (phone address : option string)
  | CreateSuperAdmin (email hash : string)
  | UpdateSuperAdminPassword (id : Z) (hash : string)
  | RemoveSuperAdmin (email : string)
  | CreateTenant (tenant_id name : string)
  | LinkChild (parent : Z) (tenant_id : string) (student : Z)
  | UnlinkChild (parent : Z) (tenant_id : string) (student : Z)
  | LinkParent (parent : Z) (tenant_id : string)
  | Identify (email : string)
  | UpsertMember (email tenant_id role : string)
  | RemoveMember (email tenant_id : string)
  | InviteMember (email tenant_id role invited_by : string)
  | AcceptMember (identity : Z) (tenant_id : string)
  | DeclineMember (identity : Z) (tenant_id : string)
  | SuspendMember (email tenant_id : string)
  | RestoreMember (email tenant_id : string)
  | RevokeMember (email tenant_id : string)
  | SetDefault (identity : Z) (tenant_id : string)
  | TouchMember (identity : Z) (tenant_id : string)
  | RequestAccess (identity : Z) (tenant_id role : string) (note : option string)
  | DecideAccess (id : Z) (status decided_by : string) (reason : option string)
  | CreateInvitation (code tenant_id role : string) (target : option string) (uses expires : Z)
  | UseInvitation (code : string)
  | CreateChallenge (hash : string) (identity : Z) (matched : list string) (expires : Z)
  | RedeemChallenge (hash : string)
  | CreateRefresh (hash : string) (identity : Z) (tenant_id role : string) (family expires : Z)
  | RotateRefresh (old_id new_id : Z)
  | RevokeFamily (family : Z)
  | OpenSchool (tenant_id : string)
  | StartProcess (pass_hash : string)
  | Wait (seconds : Z).

Definition ignore {A} (m : CP A) : CP unit := m ;; mret tt.

Section ops.
Context (uuid_text : Z → string).

(** An invitation names the identity of its email, as a caller of
    [create_invited_membership] does with [get_or_create_identity]. *)
Definition run_cp (op : cp_op) : CP unit :=
  match op with
  | CreateParent e h => ignore (create_parent e h)
  | UpdateParentPassword i h => update_parent_password i h
  | UpdateParentProfile i p a => update_parent_profile i p a
  | CreateSuperAdmin e h => ignore (create_super_admin e h)
  | UpdateSuperAdminPassword i h => update_super_admin_password i h
  | RemoveSuperAdmin e => ignore (remove_super_admin e)
  | CreateTenant t n => create_tenant t n
  | LinkChild p t s => ignore (create_parent_child_link p t s)
  | UnlinkChild p t s => ignore (delete_parent_child_link p t s)
  | LinkParent p t => add_parent_tenant_link p t
  | Identify e => ignore (get_or_create_identity e)
  | UpsertMember e t r => upsert_user_tenant_map e t r
  | RemoveMember e t => remove_user_tenant_map e t
  | InviteMember e t r by_ => i ← get_or_create_identity e; create_invited_membership i e t r by_
  | AcceptMember i t => ignore (accept_membership i t)
  | DeclineMember i t => ignore (decline_membership i t)
  | SuspendMember e t => ignore (suspend_membership e t)
  | RestoreMember e t => ignore (restore_membership e t)
  | RevokeMember e t => ignore (revoke_membership e t)
  | SetDefault i t => ignore (set_default_membership i t)
  | TouchMember i t => touch_membership_last_active i t
  | RequestAccess i t r n => ignore (create_access_request i t r n)
  | DecideAccess i s d r => ignore (decide_access_request i s d r)
  | CreateInvitation c t r e u x => ignore (create_invitation_row c t r e u x)
  | UseInvitation c => increment_invitation_uses uuid_text c
  | CreateChallenge h i m x => create_selection_challenge h i m x
  | RedeemChallenge h => ignore (redeem_selection_challenge h)
  | CreateRefresh h i t r f x => create_refresh_token h i t r f x
  | RotateRefresh o n => repo_rotate_refresh_token o n
  | RevokeFamily f => revoke_refresh_token_family f
  | OpenSchool t => get_db_pool t
  | StartProcess h => modify restart ;; _initialize_control_plane_tables h
  | Wait n => modify (λ w, w <| now ::= λ t, t + Z.max 0 n |>)
  end.

Definition run_cps (ops : list cp_op) (w : World) : World :=
  fold_left (λ w op, (run_cp op w).2) ops w.
End ops.

(** ** Preservation of the well-formedness *)
Lemma preserves_cp_check I b msg : preserves I (cp_check b msg).
Proof. unfold cp_check. auto with pres. Qed.
Lemma preserves_check_tenant I t : preserves I (check_tenant t).
Proof. unfold check_tenant, cp_check. auto 10 with pres. Qed.
Lemma preserves_check_parent I p : preserves I (check_parent p).
Proof. unfold check_parent, cp_check. auto 10 with pres. Qed.
#[export] Hint Resolve preserves_cp_check preserves_check_tenant preserves_check_parent : pres.

Lemma wp_check_tenant t (Q : unit → World → Prop) (E : exn → World → Prop) w :
  (is_Some (tenants w !! t) → Q tt w) → (∀ e, E e w) → wp (check_tenant t) Q E w.
Proof. intros HQ HE. unfold check_tenant, cp_check. wp_simpl. case_bool_decide; auto. Qed.

Lemma wp_cp_check b msg (Q : unit → World → Prop) (E : exn → World → Prop) w :
  (b = true → Q tt w) → (∀ e, E e w) → wp (cp_check b msg) Q E w.
Proof. intros HQ HE. unfold cp_check. wp_simpl. destruct b; auto. Qed.

Lemma preserves_ignore {A} I (m : CP A) : preserves I m → preserves I (ignore m).
Proof. intros H. apply preserves_bind; [done|intros ?; apply preserves_ret]. Qed.

(** What must be shown about an update of the control plane: the fields it
    changes; the others stay by the old invariant. *)
Ltac wf_open :=
  match goal with H : control_plane_wf ?w |- control_plane_wf _ =>
    destruct H as ([Hii Hiu Hpi Hpu Hai Hau] & [Hmo Hmd Hml] & [Hri Hrp Hvi Hvc Hci Hch Hco Hti Hth Hto])
  end.
Ltac wf_frame :=
  wf_open; split_and!; constructor; simpl;
  try (assumption || (eapply ids_below_mono; [eassumption|lia])).

Lemma member_ok_mono w w' key r :
  identities w ⊆ identities w' → (∀ t, is_Some (tenants w !! t) → is_Some (tenants w' !! t)) →
  member_ok w key r → member_ok w' key r.
Proof.
  intros Hi Ht ((e & He & Hc) & Hten & Hs). split_and!; [|auto|done].
  exists e. split; [|done]. by eapply lookup_weaken.
Qed.

Lemma owner_mono {R} (f : R → Z) (ids ids' : gmap Z string) (t : gmap Z R) :
  ids ⊆ ids' → map_Forall (λ _ r, is_Some (ids !! f r)) t → map_Forall (λ _ r, is_Some (ids' !! f r)) t.
Proof. intros Hs H k r Hk. eapply lookup_weaken_is_Some; [by apply (H k)|done]. Qed.

(** New identities. *)
Lemma wf_new_identity w email :
  control_plane_wf w → find_identity email w = None →
  control_plane_wf (w <| identities ::= <[cp_next w := email]> |> <| cp_next := cp_next w + 1 |>).
Proof.
  intros Hwf Hn.
  assert (Hfresh : ∀ n, ids_below n (identities w) → cp_next w = n →
    identities w ⊆ <[cp_next w := email]> (identities w)).
  { intros n Hb <-. apply insert_subseteq. by apply ids_below_fresh. }
  assert (Huniq : ∀ j a, identities w !! j = Some a → str_lower a = str_lower email → j = cp_next w).
  { intros j a Ha He. apply find_row_None with (k := j) (r := a) in Hn; [|done].
    by apply ci_eq_false in Hn. }
  wf_frame.
  - apply ids_below_insert; [eapply ids_below_mono; [eassumption|lia]|lia].
  - by apply unique_by_insert.
  - intros key r Hr. eapply member_ok_mono; [..|by apply (Hmo key)]; simpl; eauto.
  - eapply owner_mono; [|done]. eauto.
  - eapply owner_mono; [|done]. eauto.
Qed.

Lemma wp_get_or_create_identity email (Q : Z → World → Prop) (E : exn → World → Prop) w :
  control_plane_wf w →
  (∀ i w', control_plane_wf w' → (∃ e, identities w' !! i = Some e ∧ str_lower e = norm_email email) →
     w' = w <| identities := identities w' |> <| cp_next := cp_next w' |> →
     identities w ⊆ identities w' → cp_next w ≤ cp_next w' → Q i w') →
  wp (get_or_create_identity email) Q E w.
Proof.
  intros Hwf HQ. unfold get_or_create_identity, cp_insert. wp_simpl.
  destruct (find_identity (norm_email email) w) as [[i e]|] eqn:Hf.
  - apply HQ; [done| |by destruct w|done|lia].
    apply find_row_Some in Hf as [He Hc]. apply ci_eq_true in Hc.
    rewrite norm_email_lower in Hc. eauto.
  - wp_simpl. apply HQ.
    + by apply wf_new_identity.
    + exists (norm_email email). simpl. by rewrite lookup_insert_eq, norm_email_lower.
    + by destruct w.
    + simpl. apply insert_subseteq. apply ids_below_fresh. apply Hwf.
    + simpl. lia.
Qed.

(** A change of one membership row that keeps its email, and its default
    unless it drops it. *)
Lemma wf_member_update w key r r' :
  control_plane_wf w → user_tenant_map w !! key = Some r →
  str_lower (mb_email r') = str_lower (mb_email r) → mb_status r' ∈ member_statuses →
  (mb_default r' = true → mb_default r = true) →
  control_plane_wf (w <| user_tenant_map ::= <[key := r']> |>).
Proof.
  intros Hwf Hr He Hs Hd. wf_frame.
  - apply map_Forall_insert_2; [|done]. destruct (Hmo key r Hr) as ((e & Hi & Hc) & Ht & _).
    split_and!; [|done|done]. exists e. by rewrite He.
  - intros i t t' a b. rewrite !lookup_insert_Some.
    intros [[-> <-]|[? Ha]] [[Hk <-]|[? Hb]] Hda Hdb; subst; eauto; try congruence.
    all: destruct key as [i0 t0]; simplify_eq; eauto.
Qed.

Lemma wf_member_new w i t e r :
  control_plane_wf w → identities w !! i = Some e → str_lower e = str_lower (mb_email r) →
  is_Some (tenants w !! t) → mb_status r ∈ member_statuses → mb_default r = false →
  control_plane_wf (w <| user_tenant_map ::= <[(i, t) := r]> |>).
Proof.
  intros Hwf Hi He Ht Hs Hd. wf_frame.
  - apply map_Forall_insert_2; [|done]. split_and!; eauto.
  - intros j u u' a b. rewrite !lookup_insert_Some.
    intros [[? <-]|[? Ha]] [[? <-]|[? Hb]] Hda Hdb; simplify_eq; try congruence. by eapply Hmd.
Qed.

Lemma find_member_Some email t w key r :
  find_member email t w = Some (key, r) →
  user_tenant_map w !! key = Some r ∧ str_lower (mb_email r) = str_lower email ∧ key.2 = t.
Proof.
  unfold find_member. intros H%head_elem.
  apply list_elem_of_In, filter_In in H as [Hin HP]. apply list_elem_of_In in Hin.
  apply elem_of_map_to_list in Hin. simpl in HP.
  apply andb_true_iff in HP as [Hc%ci_eq_true Ht%bool_decide_eq_true]. done.
Qed.

Lemma find_member_None email t w :
  find_member email t w = None →
  ∀ key r, user_tenant_map w !! key = Some r → str_lower (mb_email r) = str_lower email → key.2 ≠ t.
Proof.
  unfold find_member. intros H key r Hk He Ht.
  assert ((key, r) ∈ List.filter (λ kv, of_member email t kv.1 kv.2) (map_to_list (user_tenant_map w))) as Hin.
  { apply list_elem_of_In, filter_In. split; [by apply list_elem_of_In, elem_of_map_to_list|].
    apply andb_true_iff. simpl. by rewrite ci_eq_true, bool_decide_eq_true. }
  destruct (List.filter _ _); [by apply elem_of_nil in Hin|done].
Qed.

(** In a well-formed control plane the unique index on (email, school) and
    the key (identity, school) name the same row. *)
Lemma member_by_email w i t e r email :
  control_plane_wf w → identities w !! i = Some e → str_lower e = str_lower email →
  user_tenant_map w !! (i, t) = Some r → find_member email t w = Some ((i, t), r).
Proof.
  intros (Hp & Hm & _) Hi He Hr. destruct (find_member email t w) as [[[j u] a]|] eqn:E.
  - apply find_member_Some in E as (Ha & Hc & ?); simpl in *; subst u.
    destruct (wm_ok w Hm (j, t) a Ha) as ((e' & He' & Hc') & _). simpl in He'.
    assert (i = j) as <- by (eapply (wp_identity_email w Hp); [done..|congruence]). congruence.
  - exfalso. eapply find_member_None; [done..| |done].
    destruct (wm_ok w Hm (i, t) r Hr) as ((e' & He' & Hc') & _). simpl in He'. congruence.
Qed.

(** *** Requests that leave the memberships alone *)
Definition same_members (m : gmap (Z * string) member_row) (w : World) : Prop :=
  control_plane_wf w ∧ user_tenant_map w = m.

Ltac same_frame := let H := fresh "Hsame" in intros [H ?]; split; [|done]; wf_frame.

Section same.
Context (m : gmap (Z * string) member_row).

Lemma same_identity email : preserves (same_members m) (get_or_create_identity email).
Proof.
  intros w [Hwf Hm]. apply wp_get_or_create_identity; [done|].
  intros i w' Hwf' _ Heq _ _. split; [done|]. by rewrite Heq.
Qed.

Lemma same_parent e h : preserves (same_members m) (create_parent e h).
Proof.
  intros w Hw. unfold create_parent, cp_check, cp_insert. wp_simpl. case_bool_decide as Hn; [|done].
  wp_simpl. revert Hw. same_frame.
  - apply ids_below_insert; [eapply ids_below_mono; [eassumption|lia]|lia].
  - apply unique_by_insert; [done|]. intros j a Ha He.
    apply find_row_None with (k := j) (r := a) in Hn; [|done]. by apply ci_eq_false in Hn.
  - intros p t c Hl. destruct (Hml p t c Hl) as [? ?]. split; [|done].
    apply lookup_insert_is_Some. destruct (decide (cp_next w = p)); auto.
Qed.

Lemma same_parent_update i f :
  (∀ r, pa_email (f r) = pa_email r) →
  preserves (same_members m) (modify (λ w, w <| parents ::= alter f i |>)).
Proof.
  intros Hf. apply preserves_modify. intros w. same_frame.
  - by apply ids_below_alter.
  - apply unique_by_alter; [done|]. intros r. by rewrite Hf.
  - intros p t c Hl. rewrite lookup_alter_is_Some. eauto.
Qed.

Lemma same_super_admin e h : preserves (same_members m) (create_super_admin e h).
Proof.
  intros w Hw. unfold create_super_admin, cp_check, cp_insert. wp_simpl.
  case_bool_decide as Hn; [|done]. wp_simpl. revert Hw. same_frame.
  - apply ids_below_insert; [eapply ids_below_mono; [eassumption|lia]|lia].
  - apply unique_by_insert; [done|]. intros j a Ha He.
    apply find_row_None with (k := j) (r := a) in Hn; [|done]. by apply ci_eq_false in Hn.
Qed.

Lemma same_ensure_admin e h : preserves (same_members m) (ensure_super_admin e h).
Proof.
  intros w Hw. pose proof (same_super_admin e h w Hw) as H.
  unfold create_super_admin, ensure_super_admin, cp_check in *. revert H. wp_simpl.
  destruct (find_super_admin e w); simpl; [by intros; destruct Hw|]. by wp_simpl.
Qed.

Lemma same_super_admin_update i h : preserves (same_members m) (update_super_admin_password i h).
Proof.
  apply preserves_modify. intros w. same_frame; [by apply ids_below_alter|by apply unique_by_alter].
Qed.

Lemma same_super_admin_remove e : preserves (same_members m) (remove_super_admin e).
Proof.
  unfold remove_super_admin. apply preserves_bind; [apply preserves_gets|intros t].
  apply preserves_bind; [|intros _; apply preserves_ret]. apply preserves_modify. intros w. same_frame.
  - by apply ids_below_delete_where.
  - by apply unique_by_delete_where.
Qed.

Lemma wf_more_tenants w t n : control_plane_wf w → control_plane_wf (w <| tenants ::= <[t := n]> |>).
Proof.
  assert (∀ u, is_Some (tenants w !! u) → is_Some (<[t := n]> (tenants w) !! u)) as Hmore.
  { intros u Hu. rewrite lookup_insert_is_Some. destruct (decide (t = u)); auto. }
  intros Hwf. wf_frame.
  - intros key r Hr. eapply member_ok_mono; [..|by apply (Hmo key)]; simpl; auto.
  - intros p u c Hl. destruct (Hml p u c Hl) as [? ?]. auto.
Qed.

Lemma same_tenant t n : preserves (same_members m) (create_tenant t n).
Proof.
  unfold create_tenant. apply preserves_bind; [auto with pres|intros _].
  apply preserves_modify. intros w [? ?]. split; [by apply wf_more_tenants|done].
Qed.

Lemma same_open t : preserves (same_members m) (get_db_pool t).
Proof.
  unfold get_db_pool. apply preserves_bind; [apply preserves_gets|intros opened]. case_bool_decide.
  { apply preserves_ret. }
  apply preserves_bind; [apply preserves_gets|intros known]. apply preserves_bind.
  { destruct (known || _); [apply preserves_ret|].
    apply preserves_bind; [auto with pres|intros _]. apply preserves_modify. intros w [? ?].
    split; [by apply wf_more_tenants|done]. }
  intros _. apply preserves_bind; [apply preserves_gets|intros sas]. apply preserves_bind.
  { intros w Hw. rewrite wp_in_school. revert Hw. unfold wp.
    destruct (_initialize_tenant_tables sas _) as [[?|?] ?]; same_frame. }
  intros _. apply preserves_modify. intros w. same_frame.
Qed.

Lemma same_child p t s : preserves (same_members m) (create_parent_child_link p t s).
Proof.
  unfold create_parent_child_link. apply preserves_bind; [apply preserves_gets|intros links].
  destruct (links !! _); [apply preserves_ret|].
  apply preserves_bind; [auto with pres|intros _]. apply preserves_bind; [auto with pres|intros _].
  intros w Hw. wp_simpl. revert Hw. same_frame.
Qed.

Lemma same_link p t : preserves (same_members m) (add_parent_tenant_link p t).
Proof.
  intros w Hw. unfold add_parent_tenant_link, check_parent, cp_check. wp_simpl.
  destruct (parent_tenant_links w !! (p, t)); [done|]. wp_simpl.
  destruct (has_row (parents w) p) eqn:Hp0; [|done]. apply has_row_true in Hp0.
  wp_simpl. apply wp_check_tenant; [|done]. intros Ht0. wp_simpl. revert Hw. same_frame.
  intros q u c. rewrite lookup_insert_Some. intros [[? _]|[_ Hl]]; [by simplify_eq|eauto].
Qed.
End same.

Section same_tokens.
Context (m : gmap (Z * string) member_row).

Lemma same_request i t r n : preserves (same_members m) (create_access_request i t r n).
Proof.
  intros w Hw. unfold create_access_request, cp_check, cp_insert. wp_simpl.
  destruct (find_row _ (access_requests w)) as [[k a]|] eqn:Hf.
  - apply find_row_Some in Hf as [Ha HP].
    apply andb_true_iff in HP as [HP Hs%bool_decide_eq_true].
    wp_simpl. revert Hw. same_frame.
    + apply ids_below_insert; [done|]. by apply Hri.
    + intros j l b c. rewrite !lookup_insert_Some.
      intros [[<- <-]|[? Hb]] [[<- <-]|[? Hc]] Hk Hn; eauto.
      all: unfold pending_key in *; simpl in *; eapply (Hrp _ _ _ _ ltac:(eassumption) ltac:(eassumption)); eauto.
  - wp_simpl. destruct (has_row (identities w) i); [|done]. wp_simpl.
    apply wp_check_tenant; [|done]. intros Ht. wp_simpl. revert Hw. same_frame.
    + apply ids_below_insert; [eapply ids_below_mono; [eassumption|lia]|lia].
    + assert (∀ j b, access_requests w !! j = Some b → pending_key b = Some (i, t) → False) as Hno.
      { intros j b Hb. unfold pending_key. case_bool_decide as Hs; [|done]. intros [= <- <-].
        apply find_row_None with (k := j) (r := b) in Hf; [|done].
        by rewrite Z.eqb_refl, !bool_decide_true in Hf. }
      intros j l b c. rewrite !lookup_insert_Some.
      intros [[<- <-]|[? Hb]] [[<- <-]|[? Hc]] Hk Hn; eauto.
      all: exfalso; eapply Hno; [eassumption|]; unfold pending_key in *; simpl in *; congruence.
Qed.

Lemma same_decide i s d r : preserves (same_members m) (decide_access_request i s d r).
Proof.
  intros w Hw. unfold decide_access_request, cp_check. wp_simpl.
  destruct (access_requests w !! i) as [a|] eqn:Ha; [|done]. wp_simpl.
  case_bool_decide as Hpend; [|done]. wp_simpl. case_bool_decide; [|done]. wp_simpl.
  revert Hw. same_frame.
  - apply ids_below_insert; [done|]. apply Hri. eauto.
  - assert (∀ b, pending_key (a <| ac_status := s |> <| ac_decided_by := Some d |> <| ac_reason := r |>)
        = pending_key b → pending_key b ≠ None → pending_key a = pending_key b) as Hsame.
    { intros b. unfold pending_key. simpl. rewrite (bool_decide_true (ac_status a = "pending")) by done.
      repeat case_bool_decide; congruence. }
    intros j l b c. rewrite !lookup_insert_Some.
    intros [[<- <-]|[? Hb]] [[<- <-]|[? Hc]] Hk Hn; eauto.
    + eapply (Hrp _ _ a c Ha Hc); rewrite (Hsame c); congruence.
    + symmetry. eapply (Hrp _ _ a b Ha Hb); rewrite (Hsame b); congruence.
Qed.

Lemma same_invitation c t r e u x : preserves (same_members m) (create_invitation_row c t r e u x).
Proof.
  intros w Hw. unfold create_invitation_row, cp_check, cp_insert. wp_simpl.
  destruct (str_len c <=? 100); [|done]. wp_simpl. case_bool_decide; [|done]. wp_simpl.
  destruct (int4 (Some u)); [|done]. wp_simpl. case_bool_decide as Hn; [|done]. wp_simpl.
  apply wp_check_tenant; [|done]. intros Ht. wp_simpl. revert Hw. same_frame.
  - apply ids_below_insert; [eapply ids_below_mono; [eassumption|lia]|lia].
  - apply unique_by_insert; [done|]. intros j a Ha He.
    apply find_row_None with (k := j) (r := a) in Hn; [|done].
    by rewrite bool_decide_true in Hn.
Qed.

Lemma same_use uuid_text c : preserves (same_members m) (increment_invitation_uses uuid_text c).
Proof.
  apply preserves_modify. intros w. same_frame; [by apply ids_below_update|by apply unique_by_update].
Qed.

Lemma same_challenge h i l x : preserves (same_members m) (create_selection_challenge h i l x).
Proof.
  intros w Hw. unfold create_selection_challenge, cp_check, cp_insert. wp_simpl.
  case_bool_decide as Hn; [|done]. wp_simpl. destruct (has_row (identities w) i) eqn:Hi; [|done].
  apply has_row_true in Hi. wp_simpl. revert Hw. same_frame.
  - apply ids_below_insert; [eapply ids_below_mono; [eassumption|lia]|lia].
  - apply unique_by_insert; [done|]. intros j a Ha He.
    apply find_row_None with (k := j) (r := a) in Hn; [|done]. by rewrite bool_decide_true in Hn.
  - by apply map_Forall_insert_2.
Qed.

Lemma same_redeem h : preserves (same_members m) (redeem_selection_challenge h).
Proof.
  intros w Hw. unfold redeem_selection_challenge. wp_simpl.
  destruct (find_row _ (challenges w)) as [[k a]|] eqn:Hf; [|done].
  apply find_row_Some in Hf as [Ha _]. wp_simpl. revert Hw. same_frame.
  - apply ids_below_insert; [done|]. apply Hci. eauto.
  - apply unique_by_insert; [done|]. intros j b Hb He. by apply (Hch j k b a).
  - apply map_Forall_insert_2; [|done]. exact (Hco k a Ha).
Qed.

Lemma same_refresh h i t r f x : preserves (same_members m) (create_refresh_token h i t r f x).
Proof.
  intros w Hw. unfold create_refresh_token, cp_check, cp_insert. wp_simpl.
  case_bool_decide as Hn; [|done]. wp_simpl. destruct (tenant_id_fits t); [|done]. wp_simpl.
  destruct (has_row (identities w) i) eqn:Hi; [|done].
  apply has_row_true in Hi. wp_simpl. revert Hw. same_frame.
  - apply ids_below_insert; [eapply ids_below_mono; [eassumption|lia]|lia].
  - apply unique_by_insert; [done|]. intros j a Ha He.
    apply find_row_None with (k := j) (r := a) in Hn; [|done]. by rewrite bool_decide_true in Hn.
  - by apply map_Forall_insert_2.
Qed.

Lemma same_rotate o n : preserves (same_members m) (repo_rotate_refresh_token o n).
Proof.
  apply preserves_modify. intros w. same_frame; [by apply ids_below_alter|by apply unique_by_alter|].
  intros k r. rewrite lookup_alter_Some. intros [(_ & a & Ha & ->)|[_ Ha]]; exact (Hto k _ Ha).
Qed.

Lemma same_family f : preserves (same_members m) (revoke_refresh_token_family f).
Proof.
  apply preserves_modify. intros w. same_frame; [by apply ids_below_update|by apply unique_by_update|].
  intros k r. rewrite lookup_update_where, fmap_Some. intros (a & Ha & ->).
  specialize (Hto k a Ha). by destruct (_ && _).
Qed.
End same_tokens.

(** ** The life cycle of a membership

    [life ids op key st st']: the request [op] may take the membership [key]
    from the status [st] to [st'] (None: no row). *)
Definition status_of (w : World) (key : Z * string) : option string :=
  mb_status <$> user_tenant_map w !! key.

Definition owns (ids : gmap Z string) (email : string) (i : Z) : Prop :=
  ∃ e, ids !! i = Some e ∧ str_lower e = norm_email email.

Inductive life (ids : gmap Z string) : cp_op → Z * string → option string → option string → Prop :=
  | life_keep op key st : life ids op key st st
  | life_grant e t r i : owns ids e i → life ids (UpsertMember e t r) (i, t) None (Some "active")
  | life_link h key : life ids (StartProcess h) key None (Some "active")
  | life_offer e t r b i :
      owns ids e i → life ids (InviteMember e t r b) (i, t) None (Some "invited")
  | life_offer_again e t r b i :
      owns ids e i → life ids (InviteMember e t r b) (i, t) (Some "revoked") (Some "invited")
  | life_accept i t : life ids (AcceptMember i t) (i, t) (Some "invited") (Some "active")
  | life_decline i t : life ids (DeclineMember i t) (i, t) (Some "invited") None
  | life_suspend e t i :
      owns ids e i → life ids (SuspendMember e t) (i, t) (Some "active") (Some "suspended")
  | life_restore e t i :
      owns ids e i → life ids (RestoreMember e t) (i, t) (Some "suspended") (Some "active")
  | life_revoke e t i st :
      owns ids e i → st ≠ "revoked" → life ids (RevokeMember e t) (i, t) (Some st) (Some "revoked")
  | life_remove e t i st : owns ids e i → life ids (RemoveMember e t) (i, t) (Some st) None.

Definition life_ok (op : cp_op) (w w' : World) : Prop :=
  control_plane_wf w' ∧
  ∀ key, life (identities w') op key (status_of w key) (status_of w' key).

Lemma life_ok_same op w w' :
  control_plane_wf w' → user_tenant_map w' = user_tenant_map w → life_ok op w w'.
Proof. intros Hwf Hm. split; [done|]. intros key. unfold status_of. rewrite Hm. constructor. Qed.

Lemma life_ok_insert op w w' key r :
  control_plane_wf w' → user_tenant_map w' = <[key := r]> (user_tenant_map w) →
  life (identities w') op key (status_of w key) (Some (mb_status r)) → life_ok op w w'.
Proof.
  intros Hwf Hm Hl. split; [done|]. intros k. unfold status_of. rewrite Hm.
  destruct (decide (key = k)) as [<-|Hne]; [by rewrite lookup_insert_eq|].
  rewrite lookup_insert_ne by done. constructor.
Qed.

Lemma life_same_wp op (m : CP unit) w :
  control_plane_wf w → (∀ M, preserves (same_members M) m) →
  wp m (λ _, life_ok op w) (λ _, life_ok op w) w.
Proof.
  intros Hwf Hp. eapply wp_mono; [by apply (Hp (user_tenant_map w)); split| |].
  all: by intros ? w' [? ?]; apply life_ok_same.
Qed.

Lemma life_same_ignore {A} op (m : CP A) w :
  control_plane_wf w → (∀ M, preserves (same_members M) m) →
  wp (ignore m) (λ _, life_ok op w) (λ _, life_ok op w) w.
Proof. intros Hwf Hp. apply life_same_wp; [done|]. intros M. by apply preserves_ignore. Qed.

Lemma wf_cache w c : control_plane_wf w → control_plane_wf (w <| member_cache := c |>).
Proof. intros Hwf. wf_frame. Qed.

Lemma wp_invalidate e (Q : unit → World → Prop) (E : exn → World → Prop) w :
  (∀ c, Q tt (w <| member_cache := c |>)) → wp (invalidate_membership_cache e) Q E w.
Proof.
  intros HQ. unfold invalidate_membership_cache. case_bool_decide; wp_simpl; [apply HQ|].
  specialize (HQ (delete (norm_email e) (member_cache w))). by destruct w.
Qed.

(** One member moves along one edge. *)
Lemma life_move op w key old new :
  control_plane_wf w → new ∈ member_statuses →
  (∀ r, user_tenant_map w !! key = Some r → old (mb_status r) = true →
     life (identities w) op key (Some (mb_status r)) (Some new)) →
  wp (ignore (move_status key old new)) (λ _, life_ok op w) (λ _, life_ok op w) w.
Proof.
  intros Hwf Hn Hl. unfold ignore, move_status. wp_simpl.
  destruct (user_tenant_map w !! key) as [r|] eqn:Hr; [|by apply life_ok_same].
  destruct (old (mb_status r)) eqn:Ho; wp_simpl; [|by apply life_ok_same].
  eapply life_ok_insert; [|done|].
  - by eapply wf_member_update.
  - unfold status_of. rewrite Hr. by apply Hl.
Qed.

Lemma member_owned w key r email :
  control_plane_wf w → user_tenant_map w !! key = Some r →
  str_lower (mb_email r) = str_lower (norm_email email) → owns (identities w) email key.1.
Proof.
  intros (_ & Hm & _) Hr He. destruct (wm_ok w Hm key r Hr) as ((e & Hi & Hc) & _).
  exists e. split; [done|]. by rewrite Hc, He, norm_email_lower.
Qed.

Lemma life_by_email op w email t old new :
  control_plane_wf w → new ∈ member_statuses →
  (∀ i st, owns (identities w) email i → old st = true →
     life (identities w) op (i, t) (Some st) (Some new)) →
  wp (ignore (by_email email t (λ key, move_status key old new)))
    (λ _, life_ok op w) (λ _, life_ok op w) w.
Proof.
  intros Hwf Hn Hl. unfold ignore, by_email. wp_simpl.
  destruct (find_member (norm_email email) t w) as [[[i u] r]|] eqn:Hf; [|by apply life_ok_same].
  apply find_member_Some in Hf as (Hr & He & Hu); simpl in Hu; subst u.
  rewrite <-wp_bind. apply (life_move op w (i, t) old new); [done|done|]. intros r' Hr' Ho.
  assert (r' = r) as -> by congruence. apply Hl; [|done]. by apply (member_owned w (i, t) r email).
Qed.

Lemma alter_is_insert `{Countable K} {A} (f : A → A) (m : gmap K A) i x :
  m !! i = Some x → alter f i m = <[i := f x]> m.
Proof.
  intros Hx. apply map_eq. intros k. rewrite lookup_alter, lookup_insert.
  case_decide; [|done]. subst. by rewrite Hx.
Qed.

Lemma life_ok_identity op w w' :
  control_plane_wf w' → w' = w <| identities := identities w' |> <| cp_next := cp_next w' |> →
  life_ok op w w'.
Proof. intros Hwf Heq. apply life_ok_same; [done|]. by rewrite Heq. Qed.

Lemma life_upsert w e t r :
  control_plane_wf w →
  wp (upsert_user_tenant_map e t r) (λ _, life_ok (UpsertMember e t r) w)
    (λ _, life_ok (UpsertMember e t r) w) w.
Proof.
  intros Hwf. unfold upsert_user_tenant_map. wp_simpl.
  apply wp_get_or_create_identity; [done|]. intros i w1 Hwf1 Hown Heq _ _.
  assert (user_tenant_map w1 = user_tenant_map w) as Hm by (by rewrite Heq).
  unfold upsert_member, cp_check. wp_simpl.
  destruct (find_member (norm_email e) t w1) as [[key a]|] eqn:Hf; wp_simpl.
  - apply find_member_Some in Hf as (Ha & He & Hu). apply wp_invalidate. intros c.
    set (a' := a <| mb_role := r |> <| mb_updated := now w1 |>).
    assert (control_plane_wf (w1 <| user_tenant_map ::= <[key := a']> |>)) as Hwf2.
    { eapply wf_member_update; [done..| |done]. by apply (wm_ok w1 (proj1 (proj2 Hwf1)) key a). }
    assert (alter (λ r0, r0 <| mb_role := r |> <| mb_updated := now w1 |>) key (user_tenant_map w1)
            = <[key := a']> (user_tenant_map w1)) as Halt by exact (alter_is_insert _ _ _ _ Ha).
    apply (life_ok_insert _ _ _ key a').
    + apply wf_cache. unfold set_field at 1. rewrite Halt. exact Hwf2.
    + simpl. by rewrite Halt, Hm.
    + unfold status_of. rewrite <-Hm, Ha. constructor.
  - case_bool_decide as Hnone; [|by apply life_ok_identity]. wp_simpl.
    apply wp_check_tenant; [|intros ?; by apply life_ok_identity]. intros Ht. wp_simpl.
    apply wp_invalidate. intros c. destruct Hown as (e' & He' & Hc').
    eapply life_ok_insert; [|by rewrite <-Hm|].
    + apply wf_cache. eapply (wf_member_new w1); try done; [by cbn [mb_email new_member]; rewrite norm_email_lower|].
      simpl. set_solver.
    + unfold status_of. rewrite <-Hm, Hnone. simpl. apply life_grant. by exists e'.
Qed.

Lemma life_invite w e t r b :
  control_plane_wf w →
  wp (i ← get_or_create_identity e; create_invited_membership i e t r b)
    (λ _, life_ok (InviteMember e t r b) w) (λ _, life_ok (InviteMember e t r b) w) w.
Proof.
  intros Hwf. wp_simpl. apply wp_get_or_create_identity; [done|]. intros i w1 Hwf1 Hown Heq _ _.
  assert (user_tenant_map w1 = user_tenant_map w) as Hm by (by rewrite Heq).
  unfold create_invited_membership, cp_check. wp_simpl.
  destruct (user_tenant_map w1 !! (i, t)) as [a|] eqn:Ha; wp_simpl.
  - case_bool_decide as Hs; wp_simpl; [|by apply life_ok_identity].
    eapply life_ok_insert; [|by rewrite <-Hm|].
    + eapply wf_member_update; [done..| |done]. simpl. set_solver.
    + unfold status_of. rewrite <-Hm, Ha. simpl. rewrite Hs. by apply life_offer_again.
  - case_bool_decide as Hnone; [|by apply life_ok_identity]. wp_simpl.
    destruct (has_row (identities w1) i); [|by apply life_ok_identity]. wp_simpl.
    apply wp_check_tenant; [|intros ?; by apply life_ok_identity]. intros Ht. wp_simpl.
    destruct Hown as (e' & He' & Hc').
    eapply life_ok_insert; [|by rewrite <-Hm|].
    + eapply (wf_member_new w1); try done; [by cbn [mb_email new_member]; rewrite norm_email_lower|]. simpl. set_solver.
    + unfold status_of. rewrite <-Hm, Ha. simpl. apply life_offer. by exists e'.
Qed.

Lemma wf_fewer_members w m' :
  control_plane_wf w → m' ⊆ user_tenant_map w →
  control_plane_wf (w <| user_tenant_map := m' |>).
Proof.
  intros Hwf Hsub. wf_frame.
  - intros key r Hr. apply (Hmo key). by eapply lookup_weaken.
  - intros i t t' a b Ha Hb. eapply Hmd; by eapply lookup_weaken.
Qed.

Lemma life_decline_ok w i t :
  control_plane_wf w →
  wp (ignore (decline_membership i t)) (λ _, life_ok (DeclineMember i t) w)
    (λ _, life_ok (DeclineMember i t) w) w.
Proof.
  intros Hwf. unfold ignore, decline_membership. wp_simpl.
  destruct (user_tenant_map w !! (i, t)) as [r|] eqn:Hr; [|by apply life_ok_same].
  case_bool_decide as Hs; wp_simpl; [|by apply life_ok_same]. split.
  - apply (wf_fewer_members w (delete (i, t) (user_tenant_map w))); [done|]. apply delete_subseteq.
  - intros key. unfold status_of. simpl. destruct (decide ((i, t) = key)) as [<-|Hne].
    + rewrite lookup_delete_eq, Hr. simpl. rewrite Hs. constructor.
    + rewrite lookup_delete_ne by done. constructor.
Qed.

Lemma life_remove_ok w e t :
  control_plane_wf w →
  wp (remove_user_tenant_map e t) (λ _, life_ok (RemoveMember e t) w)
    (λ _, life_ok (RemoveMember e t) w) w.
Proof.
  intros Hwf. unfold remove_user_tenant_map. wp_simpl. split.
  - apply (wf_fewer_members w); [done|]. apply map_filter_subseteq.
  - intros [i u]. unfold status_of. simpl.
    destruct (user_tenant_map w !! (i, u)) as [r|] eqn:Hr.
    + destruct (of_member (norm_email e) t (i, u) r) eqn:Ho.
      * rewrite (proj2 (map_lookup_filter_None _ _ _)); [|right; intros r'; simpl; congruence].
        apply andb_true_iff in Ho as [Hc%ci_eq_true <-%bool_decide_eq_true]. simpl.
        apply life_remove. by apply (member_owned w (i, u) r).
      * rewrite (proj2 (map_lookup_filter_Some _ _ _ _)) by done. constructor.
    + rewrite (proj2 (map_lookup_filter_None _ _ _)) by auto. constructor.
Qed.

Lemma wf_member_rows w m' :
  control_plane_wf w →
  (∀ key r', m' !! key = Some r' → ∃ r, user_tenant_map w !! key = Some r ∧
     mb_email r' = mb_email r ∧ mb_status r' = mb_status r) →
  (∀ i t t' r r', m' !! (i, t) = Some r → m' !! (i, t') = Some r' →
     mb_default r = true → mb_default r' = true → t = t') →
  control_plane_wf (w <| user_tenant_map := m' |>).
Proof.
  intros Hwf Hrows Hdef. wf_frame.
  intros key r' Hr'. destruct (Hrows key r' Hr') as (r & Hr & He & Hs).
  destruct (Hmo key r Hr) as ((e & Hi & Hc) & Ht & Hst). split_and!; [|done|by rewrite Hs].
  exists e. by rewrite He.
Qed.

Lemma life_default w i t :
  control_plane_wf w →
  wp (ignore (set_default_membership i t)) (λ _, life_ok (SetDefault i t) w)
    (λ _, life_ok (SetDefault i t) w) w.
Proof.
  intros Hwf. unfold ignore, set_default_membership. wp_simpl.
  set (clear := λ (key : Z * string) r,
    Some (if key.1 =? i then r <| mb_default := false |> else r)).
  set (m1 := map_imap clear (user_tenant_map w)).
  assert (∀ key, m1 !! key = (λ r, if key.1 =? i then r <| mb_default := false |> else r)
            <$> user_tenant_map w !! key) as Hm1.
  { intros key. unfold m1, clear. rewrite map_lookup_imap. by destruct (user_tenant_map w !! key). }
  assert (∀ key r', m1 !! key = Some r' → ∃ r, user_tenant_map w !! key = Some r ∧
    mb_email r' = mb_email r ∧ mb_status r' = mb_status r ∧
    (mb_default r' = true → key.1 ≠ i ∧ mb_default r = true)) as Hrow.
  { intros key r'. rewrite Hm1, fmap_Some. intros (r & Hr & ->). exists r.
    destruct (Z.eqb_spec key.1 i); simpl; naive_solver. }
  assert (∀ j u u' r r', m1 !! (j, u) = Some r → m1 !! (j, u') = Some r' →
    mb_default r = true → mb_default r' = true → u = u') as Hdef.
  { intros j u u' r r' Hr Hr' Hd Hd'.
    apply Hrow in Hr as (a & Ha & _ & _ & Hx), Hr' as (b & Hb & _ & _ & Hy).
    eapply (wm_default w (proj1 (proj2 Hwf))); [exact Ha|exact Hb|by apply Hx|by apply Hy]. }
  assert (∀ key, status_of (w <| user_tenant_map := m1 |>) key = status_of w key) as Hst.
  { intros key. unfold status_of. simpl. rewrite Hm1. destruct (user_tenant_map w !! key); [|done].
    simpl. by destruct (_ =? _). }
  assert (control_plane_wf (w <| user_tenant_map := m1 |>)) as Hwf1.
  { apply wf_member_rows; [done| |done]. intros key r' Hr'.
    destruct (Hrow key r' Hr') as (r & ? & ? & ? & _). eauto. }
  match goal with |- context [match ?o !! (i, t) with _ => _ end] => change o with m1 end.
  destruct (m1 !! (i, t)) as [r|] eqn:Hr.
  2:{ split; [done|]. intros key. rewrite <-Hst. constructor. }
  case_bool_decide as Hs; wp_simpl; (split; [|intros key; rewrite <-(Hst key)]); [| |done|constructor].
  - apply (wf_member_rows w (<[(i, t) := r <| mb_default := true |>]> m1)); [done|..].
    + intros key r'. rewrite lookup_insert_Some. intros [[<- <-]|[_ Hr']].
      * destruct (Hrow _ r Hr) as (a & ? & ? & ? & _). eauto.
      * destruct (Hrow _ r' Hr') as (a & ? & ? & ? & _). eauto.
    + intros j u u' a b. rewrite !lookup_insert_Some.
      intros [[? <-]|[? Ha]] [[? <-]|[? Hb]] Hda Hdb; simplify_eq; [done|..|by eapply Hdef].
      * destruct (Hrow _ b Hb) as (? & _ & _ & _ & Hx). by destruct (Hx Hdb).
      * destruct (Hrow _ a Ha) as (? & _ & _ & _ & Hx). by destruct (Hx Hda).
  - unfold status_of. simpl. destruct (decide ((i, t) = key)) as [<-|Hne].
    + rewrite lookup_insert_eq, Hr. constructor.
    + rewrite lookup_insert_ne by done. constructor.
Qed.

Lemma life_touch w i t :
  control_plane_wf w →
  wp (touch_membership_last_active i t) (λ _, life_ok (TouchMember i t) w)
    (λ _, life_ok (TouchMember i t) w) w.
Proof.
  intros Hwf. unfold touch_membership_last_active. wp_simpl.
  destruct (user_tenant_map w !! (i, t)) as [r|] eqn:Hr.
  - pose proof (alter_is_insert (λ r, r <| mb_last_active := Some (now w) |>) _ _ _ Hr) as Halt.
    eapply (life_ok_insert _ _ _ (i, t) (r <| mb_last_active := Some (now w) |>)).
    + unfold set_field at 1. rewrite Halt. eapply (wf_member_update w (i, t) r); try done.
      by apply (wm_ok w (proj1 (proj2 Hwf)) (i, t) r).
    + exact Halt.
    + unfold status_of. rewrite Hr. constructor.
  - assert (alter (λ r, r <| mb_last_active := Some (now w) |>) (i, t) (user_tenant_map w)
            = user_tenant_map w) as Halt by by apply alter_id'.
    apply life_ok_same; [|exact Halt]. unfold set_field at 1. rewrite Halt. by destruct w.
Qed.

Lemma status_listed st : bool_decide (st ∈ member_statuses) = true → st ∈ member_statuses.
Proof. apply bool_decide_eq_true. Qed.

(** *** A process starts *)
Definition linked (w w' : World) : Prop :=
  control_plane_wf w' ∧
  ∀ key, status_of w' key = status_of w key ∨
         (status_of w key = None ∧ status_of w' key = Some "active").

Lemma linked_same w w1 w2 :
  linked w w1 → control_plane_wf w2 → user_tenant_map w2 = user_tenant_map w1 → linked w w2.
Proof.
  intros [_ Hs] Hwf Hm. split; [done|]. intros key. specialize (Hs key).
  unfold status_of in *. by rewrite Hm.
Qed.

Lemma linked_preserves w (m : CP unit) :
  (∀ M, preserves (same_members M) m) → preserves (linked w) m.
Proof.
  intros Hp w1 Hl. eapply wp_mono; [apply (Hp (user_tenant_map w1)); by split; [apply Hl|]|..].
  all: intros ? w2 [? ?]; by eapply linked_same.
Qed.

Lemma same_ensure_identity M e : preserves (same_members M) (ensure_identity e).
Proof.
  intros w [Hwf Hm]. unfold ensure_identity, cp_insert. wp_simpl.
  destruct (find_identity e w) eqn:Hf; wp_simpl; [done|]. split; [by apply wf_new_identity|done].
Qed.

Lemma linked_link w kv :
  (is_Some (tenants w !! kv.1.2)) → ∀ n,
  preserves (λ w', (linked w w' ∧ tenants w' = tenants w) ∧ cp_next w' = n) (link_membership kv).
Proof.
  intros Ht n w1 [[Hl Hten] Hnext]. unfold link_membership, cp_check. wp_simpl.
  destruct (parents w1 !! kv.1.1) as [p|]; [|done]. wp_simpl.
  destruct (find_identity (pa_email p) w1) as [[i e]|] eqn:Hi; [|done]. wp_simpl.
  apply find_row_Some in Hi as [Hi Hc%ci_eq_true].
  case_bool_decide as Hn; [done|]. wp_simpl. case_bool_decide; [|done]. wp_simpl.
  split; [|done]. split; [|done]. apply eq_None_not_Some in Hn. destruct Hl as [Hwf Hs]. split.
  - eapply (wf_member_new w1); [done|done|done|by rewrite Hten|by vm_compute; set_solver|done].
  - intros key. unfold status_of. simpl. destruct (decide ((i, kv.1.2) = key)) as [<-|Hne].
    + rewrite lookup_insert_eq. simpl. destruct (Hs (i, kv.1.2)) as [Heq|[Heq _]].
      * right. split; [|done]. unfold status_of in Heq. by rewrite Hn in Heq.
      * by right.
    + rewrite lookup_insert_ne by done. apply Hs.
Qed.

(** The memberships of the links, all or none of them. *)
Lemma linked_links w :
  preserves (λ w', linked w w' ∧ tenants w' = tenants w) link_memberships.
Proof.
  intros w2 Hw2. unfold link_memberships. rewrite wp_transaction, wp_bind, wp_gets.
  eapply (wp_mono _ (λ _ w', (linked w w' ∧ tenants w' = tenants w) ∧ cp_next w' = cp_next w2) _
    (λ _ w', (linked w w' ∧ tenants w' = tenants w) ∧ cp_next w' = cp_next w2)); [|by intros ? ? []|].
  - apply wp_for_each; [done|]. intros kv w3 Hkv Hw3. apply linked_link; [|done].
    destruct kv as [[p t] c]. apply elem_of_map_to_list in Hkv.
    destruct Hw2 as [[Hwf2 _] Ht2]. rewrite <-Ht2.
    apply (wm_links w2 (proj1 (proj2 Hwf2)) p t c Hkv).
  - intros e w3 [_ Hn]. destruct Hw2 as [Hl2 Ht2]. split; [|exact Ht2].
    eapply linked_same; [exact Hl2| |done]. destruct Hl2 as [Hwf _].
    unfold rollback, rollback_world. rewrite Hn. clear - Hwf. wf_frame.
Qed.

Lemma life_start w h :
  control_plane_wf w →
  wp (modify restart ;; _initialize_control_plane_tables h) (λ _, life_ok (StartProcess h) w)
    (λ _, life_ok (StartProcess h) w) w.
Proof.
  intros Hwf. assert (∀ w', linked w w' → life_ok (StartProcess h) w w') as Hend.
  { intros w' [Hwf' Hs]. split; [done|]. intros key.
    destruct (Hs key) as [->|[-> ->]]; constructor. }
  assert (preserves (λ w', linked w w' ∧ tenants w' = tenants w)
            (emails ← gets known_emails; for_each emails ensure_identity)) as H1.
  { apply preserves_bind; [apply preserves_gets|intros emails]. apply preserves_for_each.
    intros e _ w1 [Hl Ht]. unfold ensure_identity, cp_insert. wp_simpl.
    destruct (find_identity e w1) eqn:Hf; wp_simpl; (split; [|done]); [done|].
    eapply linked_same; [done| |done]. apply wf_new_identity; [apply Hl|done]. }
  wp_simpl. unfold _initialize_control_plane_tables.
  assert (linked w (restart w) ∧ tenants (restart w) = tenants w) as H0.
  { split; [|done]. split; [|by left]. unfold restart. wf_frame. }
  revert H0. generalize (restart w) as w1. intros w1 H0.
  rewrite wp_bind, wp_gets, wp_bind.
  eapply wp_mono; [exact (H1 w1 H0)| |]; [|intros e w2 [Hl _]; by apply Hend].
  intros ? w2 Hw2. rewrite wp_bind.
  eapply wp_mono; [exact (linked_links w w2 Hw2)| |intros e w3 [Hl _]; by apply Hend].
  clear w2 Hw2. intros ? w2 [Hl _].
  assert (preserves (linked w) (n ← gets (λ w, size (tenants w));
    if bool_decide (n = 0%nat) then
      for_each TENANT_DB_CONFIG (λ t, modify (λ w, w <| tenants ::= <[t := tenant_title t]> |>))
    else mret tt)) as Hseed.
  { apply preserves_bind; [apply preserves_gets|intros n]. case_bool_decide; [|apply preserves_ret].
    apply preserves_for_each. intros t _. apply preserves_modify. intros w3 Hl3.
    eapply linked_same; [done| |done]. apply wf_more_tenants, Hl3. }
  rewrite wp_bind. eapply wp_mono; [by apply Hseed| |]; [|intros e w3 ?; by apply Hend].
  intros ? w3 Hl3.
  eapply wp_mono; [apply (linked_preserves w); [intros M; apply same_ensure_admin|done]| |];
    intros ? w4 ?; by apply Hend.
Qed.

(** ** The theorems *)
Lemma life_step uuid_text w op :
  control_plane_wf w → life_ok op w (run_cp uuid_text op w).2.
Proof.
  intros Hwf. cut (wp (run_cp uuid_text op) (λ _, life_ok op w) (λ _, life_ok op w) w).
  { unfold wp. by destruct (run_cp uuid_text op w) as [[[]|e] w']. }
  destruct op; simpl.
  - apply life_same_ignore; [done|]. intros M. apply same_parent.
  - apply life_same_wp; [done|]. intros M. by apply same_parent_update.
  - apply life_same_wp; [done|]. intros M. unfold update_parent_profile.
    apply preserves_bind; [auto with pres|intros _]. by apply same_parent_update.
  - apply life_same_ignore; [done|]. intros M. apply same_super_admin.
  - apply life_same_wp; [done|]. intros M. apply same_super_admin_update.
  - apply life_same_ignore; [done|]. intros M. apply same_super_admin_remove.
  - apply life_same_wp; [done|]. intros M. apply same_tenant.
  - apply life_same_ignore; [done|]. intros M. apply same_child.
  - apply life_same_ignore; [done|]. intros M. unfold delete_parent_child_link.
    apply preserves_bind; [apply preserves_gets|intros links].
    apply preserves_bind; [|intros _; apply preserves_ret]. clear w Hwf.
    apply preserves_modify. intros w1. same_frame.
  - apply life_same_wp; [done|]. intros M. apply same_link.
  - apply life_same_ignore; [done|]. intros M. apply same_identity.
  - by apply life_upsert.
  - by apply life_remove_ok.
  - by apply life_invite.
  - apply life_move; [done|set_solver|]. intros r _ Hs%bool_decide_eq_true. rewrite Hs. constructor.
  - by apply life_decline_ok.
  - apply (life_by_email _ _ email tenant_id (is_status "active") "suspended");
      [done|by apply status_listed|]. intros i st Ho ->%bool_decide_eq_true. by constructor.
  - apply (life_by_email _ _ email tenant_id (is_status "suspended") "active");
      [done|by apply status_listed|]. intros i st Ho ->%bool_decide_eq_true. by constructor.
  - apply (life_by_email _ _ email tenant_id (λ st, negb (is_status "revoked" st)) "revoked");
      [done|by apply status_listed|]. intros i st Ho Hs%negb_true_iff%bool_decide_eq_false.
    by constructor.
  - by apply life_default.
  - by apply life_touch.
  - apply life_same_ignore; [done|]. intros M. apply same_request.
  - apply life_same_ignore; [done|]. intros M. apply same_decide.
  - apply life_same_ignore; [done|]. intros M. apply same_invitation.
  - apply life_same_wp; [done|]. intros M. apply same_use.
  - apply life_same_wp; [done|]. intros M. apply same_challenge.
  - apply life_same_ignore; [done|]. intros M. apply same_redeem.
  - apply life_same_wp; [done|]. intros M. apply same_refresh.
  - apply life_same_wp; [done|]. intros M. apply same_rotate.
  - apply life_same_wp; [done|]. intros M. apply same_family.
  - apply life_same_wp; [done|]. intros M. apply same_open.
  - by apply life_start.
  - apply life_same_wp; [done|]. intros M. clear w Hwf.
    apply preserves_modify. intros w1. same_frame.
Qed.

Lemma wf_run uuid_text ops w :
  control_plane_wf w → control_plane_wf (run_cps uuid_text ops w).
Proof.
  revert w. induction ops as [|op ops IH]; intros w Hwf; [done|]. simpl. apply IH.
  by apply (life_step uuid_text w op).
Qed.

Lemma empty_world_wf : control_plane_wf empty_world.
Proof.
  split_and!; constructor; simpl; repeat intro; try (by apply lookup_empty_Some in H);
    match goal with H : _ |- _ => by rewrite lookup_empty in H end.
Defined.

(** C33: the control plane stays well formed. Whatever requests reach its
    repository, in any order and whether or not they fail: emails, invitation
    codes and token hashes stay unique, every membership belongs to an
    identity with the same email and to a registered school and is in one of
    the five states, an identity has at most one default school and at most
    one pending access request per school, and every token and challenge
    belongs to an identity. *)
Theorem control_plane_stays_wf uuid_text ops w :
  control_plane_wf w → control_plane_wf (run_cps uuid_text ops w).
Proof. apply wf_run. Qed.

Definition demo_uuid (z : Z) : string := "uuid-" +:+ pretty z.

Definition demo_ops : list cp_op :=
  [StartProcess "h0"; CreateParent "Pat@Home.org" "h1"; LinkParent 2 "tenant_b";
   UpsertMember " Tea@School.edu" "tenant_a" "teacher"; UpsertMember "tea@school.edu" "tenant_b" "parent";
   SetDefault 3 "tenant_a"; SetDefault 3 "tenant_b"; InviteMember "tea@school.edu" "tenant_c" "manager" "5";
   RevokeMember "tea@school.edu" "tenant_b"; RequestAccess 3 "tenant_b" "teacher" None;
   RequestAccess 3 "tenant_b" "manager" None; CreateRefresh "t1" 3 "tenant_a" "teacher" 70 9000;
   StartProcess "h0"].

Lemma control_plane_stays_wf_witness :
  let w := run_cps demo_uuid demo_ops empty_world in
  control_plane_wf w ∧ size (user_tenant_map w) = 4%nat ∧
  status_of w (3, "tenant_b") = Some "revoked".
Proof.
  split; [apply (control_plane_stays_wf demo_uuid demo_ops empty_world), empty_world_wf|].
  by vm_compute.
Defined.

(** C6: the membership operations implement the life cycle. Whatever
    request runs, and whether or not it fails, each membership either keeps
    its status or makes one move of [life]: only its own invitee accepts or
    declines an invitation, only an active member is suspended, only a
    suspended one restored, anything but a revoked one revoked, a revoked one
    comes back only through a new invitation, and a membership appears only
    by a registration, a parent link or an invitation of that email. *)
Theorem membership_follows_lifecycle uuid_text ops op w :
  control_plane_wf w →
  let w1 := run_cps uuid_text ops w in
  let w2 := (run_cp uuid_text op w1).2 in
  ∀ key, life (identities w2) op key (status_of w1 key) (status_of w2 key).
Proof.
  intros Hwf w1 w2. apply (life_step uuid_text w1 op). by apply wf_run.
Qed.

Lemma membership_follows_lifecycle_witness :
  let w1 := run_cps demo_uuid demo_ops empty_world in
  let op := InviteMember "TEA@school.edu" "tenant_b" "teacher" "5" in
  let w2 := (run_cp demo_uuid op w1).2 in
  (∀ key, life (identities w2) op key (status_of w1 key) (status_of w2 key)) ∧
  status_of w1 (3, "tenant_b") = Some "revoked" ∧ status_of w2 (3, "tenant_b") = Some "invited".
Proof.
  split; [|by vm_compute].
  apply (membership_follows_lifecycle demo_uuid demo_ops _ empty_world), empty_world_wf.
Defined.

(** The requests that may end a revocation. *)
Definition reopens (op : cp_op) : bool :=
  match op with InviteMember _ _ _ _ | RemoveMember _ _ => true | _ => false end.

Lemma life_revoked ids op key st :
  life ids op key (Some "revoked") st → reopens op = false → st = Some "revoked".
Proof. intros H Ho. by inversion H; subst. Qed.

(** Revocation is terminal. Once a membership is revoked, no
    registration, login, acceptance, restoration, or start of a process
    brings it back: without a new invitation to that school, or the removal
    of the row, it stays revoked. *)
Theorem revocation_is_terminal uuid_text ops key w :
  control_plane_wf w → status_of w key = Some "revoked" →
  Forall (λ op, reopens op = false) ops →
  status_of (run_cps uuid_text ops w) key = Some "revoked".
Proof.
  revert w. induction ops as [|op ops IH]; intros w Hwf Hs Hops; [done|].
  apply Forall_cons in Hops as [Hop Hops]. simpl.
  destruct (life_step uuid_text w op Hwf) as [Hwf' Hl]. apply IH; [done| |done].
  specialize (Hl key). rewrite Hs in Hl. by eapply life_revoked.
Qed.

Lemma revocation_is_terminal_witness :
  let w := run_cps demo_uuid demo_ops empty_world in
  status_of (run_cps demo_uuid
    [UpsertMember "tea@school.edu" "tenant_b" "parent"; RestoreMember "tea@school.edu" "tenant_b";
     AcceptMember 3 "tenant_b"; StartProcess "h0"] w) (3, "tenant_b") = Some "revoked".
Proof.
  apply (revocation_is_terminal demo_uuid _ (3, "tenant_b")).
  - apply wf_run, empty_world_wf.
  - by vm_compute.
  - by repeat constructor.
Defined.
