(* ===== verification/Session.v ===== *)
(** * Sessions: login, tenant selection, refresh rotation, passwords

    [AuthService] (src/app/domains/auth/service.py): [login_user] with its
    candidates, [login_redeem], [issue_refresh_token] and
    [rotate_refresh_token], [change_password]. An access token is the payload
    that is signed; signing and hashing are functions of the libraries. *)
From S2P Require Import Prelude PyText Authz Store Structure School World UserRepo ControlPlane.

(** The payload of [create_access_token]. *)
Record claims := {
  cl_sub : string; cl_tenant : string; cl_role : string; cl_roles : list string;
  cl_email : string; cl_exp : Z; cl_identity : option Z }.

Inductive login_answer :=
  | Tokens (access : claims) (refresh : string)
  | SelectTenant (selection_token : string) (expires_in : Z) (choices : list (string * string)).

(** One account whose password is to be compared. *)
Inductive candidate :=
  | SuperAdmin (id : Z) (r : super_admin_row)
  | Parent (tenant_id : string) (id : Z) (r : parent_row)
  | TenantUser (tenant_id : string) (id : Z) (r : user_row).

Definition cand_tenant (c : candidate) : string :=
  match c with SuperAdmin _ _ => "" | Parent t _ _ | TenantUser t _ _ => t end.
Definition cand_hash (c : candidate) : string :=
  match c with
  | SuperAdmin _ r => sa_hash r | Parent _ _ r => pa_hash r | TenantUser _ _ r => us_hash r
  end.
Definition cand_role (c : candidate) : string :=
  match c with SuperAdmin _ _ => "super_admin" | Parent _ _ _ => "parent" | TenantUser _ _ r => us_role r end.

Definition JWT_EXPIRATION_MINUTES : Z := 30.
Definition REFRESH_TOKEN_EXPIRATION_DAYS : Z := 30.

Definition bad_credentials : exn := ValueError "Invalid email or password".
Definition no_school : exn := ValueError ("This account is not associated with a school. Ask an "
  +:+ "administrator to invite you to one.").
Definition bad_refresh : exn := ValueError "Invalid refresh token".
Definition account_gone : exn := ValueError "Account no longer exists".
Definition bad_selection : exn := ValueError "Invalid or expired selection token".

(** A draw of [secrets] or [uuid4]: the next number of the source. *)
Definition draw : CP Z :=
  n ← gets cp_next; modify (λ w, w <| cp_next := n + 1 |>) ;; mret n.

(** [list(dict.fromkeys([role] + roles + permissions))] *)
Definition token_roles (r : user_row) : list string :=
  unique ((if bool_decide (us_role r = "") then [] else [us_role r]) ++ us_roles r ++ us_permissions r).

Section session.
(** sha256 of a token, the n-th random token, passlib's [verify] ([None]:
    [UnknownHashError]) and salted [hash], the text of a uuid, and the order in
    which a Python set is iterated. *)
Context (sha256 : string → string) (token_urlsafe : Z → string)
        (pwd_verify : string → string → option bool) (pwd_hash : Z → string → string)
        (uuid_text : Z → string) (set_order : list string → list string).

Definition verify_password (plain hashed : string) : bool := default false (pwd_verify plain hashed).
Definition hash_password (plain : string) : CP string := n ← draw; mret (pwd_hash n plain).

Definition create_access_token (user_id : string) (tenant_id : option string) (role email : string)
    (roles : option (list string)) (identity : option Z) : CP claims :=
  t ← gets now;
  mret {| cl_sub := user_id; cl_tenant := default "" tenant_id; cl_role := role;
          cl_roles := match roles with
                      | Some (x :: l) => x :: l
                      | _ => if bool_decide (role = "") then [] else [role]
                      end;
          cl_email := email; cl_exp := t + JWT_EXPIRATION_MINUTES * 60; cl_identity := identity |}.

Definition issue_refresh_token (identity : Z) (tenant_id role : string) : CP string :=
  n ← draw;
  let raw := token_urlsafe n in
  family ← draw;
  t ← gets now;
  create_refresh_token (sha256 raw) identity tenant_id role family
    (t + REFRESH_TOKEN_EXPIRATION_DAYS * 86400) ;;
  mret raw.

(** ** Finding the account of a token again *)
Definition _resolve_local_account (identity : Z) (tenant_id role : string)
    : CP (string * string * list string) :=
  email ← get_identity_by_id identity;
  email ← from_option_or email account_gone;
  if bool_decide (tenant_id = "") || bool_decide (role = "super_admin") then
    sa ← get_super_admin_by_email email;
    sa ← from_option_or sa account_gone;
    mret (uuid_text sa.1, "super_admin", ["super_admin"])
  else
    user ← with_school tenant_id (get_user_by_email email);
    user ← from_option_or user account_gone;
    if bool_decide (role = "parent") && bool_decide (us_role user.2 = "parent")
    then mret (pretty user.1, "parent", ["parent"])
    else mret (pretty user.1, us_role user.2, token_roles user.2).

(** ** Refresh *)
Definition rotate_refresh_token (raw_token : string) : CP (claims * string) :=
  row ← get_refresh_token (sha256 raw_token);
  row ← from_option_or row bad_refresh;
  match rf_revoked row.2 with
  | Some _ => revoke_refresh_token_family (rf_family row.2) ;; raise bad_refresh
  | None =>
      t ← gets now;
      guard_or (t <? rf_expires row.2) (ValueError "Refresh token expired") ;;
      account ← _resolve_local_account (rf_identity row.2) (rf_tenant row.2) (rf_role row.2);
      let '(user_id, role, roles) := account in
      n ← draw;
      let new_raw := token_urlsafe n in
      t ← gets now;
      create_refresh_token (sha256 new_raw) (rf_identity row.2) (rf_tenant row.2) role
        (rf_family row.2) (t + REFRESH_TOKEN_EXPIRATION_DAYS * 86400) ;;
      new_row ← get_refresh_token (sha256 new_raw);
      new_row ← from_option_or new_row none_error;
      repo_rotate_refresh_token row.1 new_row.1 ;;
      access ← create_access_token user_id
        (if bool_decide (rf_tenant row.2 = "") then None else Some (rf_tenant row.2))
        role "" (Some roles) (Some (rf_identity row.2));
      mret (access, new_raw)
  end.

(** ** Login *)
(** The set of schools the email may belong to; the empty string is the platform. *)
Definition _enumerate_login_tenants (email : string)
    : CP (list string * option (Z * parent_row) * option (Z * super_admin_row)) :=
  super_admin ← get_super_admin_by_email email;
  memberships ← get_tenants_for_email email;
  parent ← get_parent_by_email email;
  linked ← match parent with Some (id, _) => get_tenants_for_parent id | None => mret [] end;
  let member_ids := List.filter (λ t, negb (bool_decide (t = ""))) memberships.*1 in
  let ids := member_ids ++ linked ++ match super_admin with Some _ => [""] | None => [] end in
  mret (set_order (unique ids), parent, super_admin).

(** The account of the school's own [users] table; an error reads as none. *)
Definition local_candidate (email tenant_id : string) : CP (option candidate) :=
  u ← try_except (with_school tenant_id (get_user_by_email email)) (λ _, mret None);
  mret match u with
       | Some (id, r) => if bool_decide (us_hash r = "") then None else Some (TenantUser tenant_id id r)
       | None => None
       end.

Definition _fetch_login_candidate (email tenant_id : string) (parent : option (Z * parent_row))
    (super_admin : option (Z * super_admin_row)) : CP (option candidate) :=
  match super_admin, bool_decide (tenant_id = "") with
  | Some (id, r), true => mret (Some (SuperAdmin id r))
  | _, _ =>
      match parent with
      | Some (pid, p) =>
          linked ← check_parent_tenant_link pid tenant_id;
          if linked : bool then mret (Some (Parent tenant_id pid p)) else local_candidate email tenant_id
      | None => local_candidate email tenant_id
      end
  end.

(** The first school that has an account of this email. *)
Fixpoint scan_tenants (email : string) (tids : list string) : CP (option candidate) :=
  match tids with
  | [] => mret None
  | tid :: rest =>
      if bool_decide (tid = "") then scan_tenants email rest
      else
        c ← local_candidate email tid;
        match c with Some c => mret (Some c) | None => scan_tenants email rest end
  end.
Definition _legacy_scan_for_candidate (email : string) : CP (option candidate) :=
  tids ← get_all_tenants; scan_tenants email tids.

(** Padding and concurrency change the duration only. *)
Definition _verify_candidates_padded (candidates : list candidate) (password : string) : list candidate :=
  List.filter (λ c, verify_password password (cand_hash c)) candidates.

Definition _complete_login (chosen : candidate) (email : string) : CP login_answer :=
  identity ← get_or_create_identity email;
  match chosen with
  | SuperAdmin id _ =>
      access ← create_access_token (uuid_text id) None "super_admin" email None (Some identity);
      refresh ← issue_refresh_token identity "" "super_admin";
      mret (Tokens access refresh)
  | Parent tenant_id pid p =>
      is_linked ← check_parent_tenant_link pid tenant_id;
      guard_or is_linked bad_credentials ;;
      get_db_pool tenant_id ;;
      local_user ← in_school tenant_id (get_user_by_email email);
      local_user_id ← match local_user with
                      | Some (id, _) => mret id
                      | None =>
                          id ← in_school tenant_id (create_user email (pa_hash p) "parent");
                          in_school tenant_id (create_parent_row id (str_title (local_part email)))
                      end;
      upsert_user_tenant_map email tenant_id "parent" ;;
      access ← create_access_token (pretty local_user_id) (Some tenant_id) "parent" email None (Some identity);
      refresh ← issue_refresh_token identity tenant_id "parent";
      mret (Tokens access refresh)
  | TenantUser tenant_id id r =>
      upsert_user_tenant_map email tenant_id (us_role r) ;;
      access ← create_access_token (pretty id) (Some tenant_id) (us_role r) email (Some (token_roles r))
                 (Some identity);
      refresh ← issue_refresh_token identity tenant_id (us_role r);
      mret (Tokens access refresh)
  end.

Definition _issue_login_selection_challenge (email : string) (matched : list candidate) : CP login_answer :=
  identity ← get_or_create_identity email;
  n ← draw;
  let raw := token_urlsafe n in
  t ← gets now;
  create_selection_challenge (sha256 raw) identity (map cand_tenant matched) (t + 120) ;;
  mret (SelectTenant raw 120 (map (λ c, (cand_tenant c, cand_role c)) matched)).

(** No school was named. *)
Definition login_anywhere (email password : string) (tenant_ids : list string)
    (parent : option (Z * parent_row)) (super_admin : option (Z * super_admin_row)) : CP login_answer :=
  match tenant_ids with
  | [] =>
      fallback ← _legacy_scan_for_candidate email;
      fallback ← from_option_or fallback no_school;
      guard_or (verify_password password (cand_hash fallback)) bad_credentials ;;
      _complete_login fallback email
  | _ =>
      fetched ← map_each (take 8 tenant_ids) (λ t, _fetch_login_candidate email t parent super_admin);
      match _verify_candidates_padded (omap id fetched) password with
      | [] => raise bad_credentials
      | [c] => _complete_login c email
      | matched => _issue_login_selection_challenge email matched
      end
  end.

Definition login_user (email password : string) (tenant_id : option string) : CP login_answer :=
  let email := norm_email email in
  found ← _enumerate_login_tenants email;
  let '(tenant_ids, parent, super_admin) := found in
  match tenant_id with
  | Some t =>
      if bool_decide (t = "") then login_anywhere email password tenant_ids parent super_admin
      else
        guard_or (bool_decide (t ∈ tenant_ids)) bad_credentials ;;
        chosen ← _fetch_login_candidate email t parent super_admin;
        chosen ← from_option_or chosen bad_credentials;
        guard_or (verify_password password (cand_hash chosen)) bad_credentials ;;
        _complete_login chosen email
  | None => login_anywhere email password tenant_ids parent super_admin
  end.

(** [except ValueError: raise ValueError(...)] *)
Definition login_redeem (selection_token tenant_id : string) : CP login_answer :=
  row ← redeem_selection_challenge (sha256 selection_token);
  row ← from_option_or row bad_selection;
  let '(identity, matched_tenants) := row in
  guard_or (bool_decide (tenant_id ∈ matched_tenants)) bad_selection ;;
  account ← try_except
    (membership ← (if bool_decide (tenant_id = "") then mret None else get_membership identity tenant_id);
     let hint_role := if bool_decide (tenant_id = "") then "super_admin"
                      else from_option mb_role "" membership in
     _resolve_local_account identity tenant_id hint_role)
    (λ e, match e with ValueError _ => raise bad_selection | _ => raise e end);
  let '(user_id, role, roles) := account in
  email ← get_identity_by_id identity;
  email ← from_option_or email none_error;
  access ← create_access_token user_id (if bool_decide (tenant_id = "") then None else Some tenant_id)
             role email (Some roles) (Some identity);
  (if bool_decide (tenant_id = "") then mret tt else touch_membership_last_active identity tenant_id) ;;
  refresh ← issue_refresh_token identity tenant_id role;
  mret (Tokens access refresh).

(** ** Changing one's own password

    The store the login of this role reads. The answer says whether Keycloak
    followed, which is not modelled. *)
Definition sso_managed : exn := PermissionError ("This account's password is managed by single sign-on and cannot "
  +:+ "be changed here.").
Definition check_current (stored_hash current_password : string) : CP unit :=
  guard_or (negb (bool_decide (stored_hash ∈ ["managed"; "keycloak_managed"]))) sso_managed ;;
  guard_or (verify_password current_password stored_hash) (ValueError "Current password is incorrect").

Definition change_password (email role : string) (tenant_id : option string)
    (current_password new_password : string) : CP unit :=
  guard_or (negb (bool_decide (new_password = current_password)))
    (ValueError "New password must be different from the current password") ;;
  let not_found := ValueError "Account not found" in
  let tid := match tenant_id with Some t => if bool_decide (t = "") then None else Some t | None => None end in
  if bool_decide (role = "super_admin") then
    record ← get_super_admin_by_email email;
    record ← from_option_or record not_found;
    check_current (sa_hash record.2) current_password ;;
    h ← hash_password new_password;
    update_super_admin_password record.1 h
  else if bool_decide (role = "parent") then
    record ← get_parent_by_email email;
    record ← from_option_or record not_found;
    check_current (pa_hash record.2) current_password ;;
    h ← hash_password new_password;
    update_parent_password record.1 h ;;
    match tid with
    | None => mret tt
    | Some t =>
        local_user ← with_school t (get_user_by_email email);
        match local_user with
        | Some (id, _) => in_school t (update_user_password_hash (PInt id) h) ;; mret tt
        | None => mret tt
        end
    end
  else
    t ← from_option_or tid not_found;
    user ← with_school t (get_user_by_email email);
    user ← from_option_or user not_found;
    check_current (us_hash user.2) current_password ;;
    h ← hash_password new_password;
    in_school t (update_user_password_hash (PInt user.1) h) ;; mret tt.
End session.
