(* ===== verification/Login.v ===== *)
(** * No session without a password

    What [login_user], [login_redeem] and the refresh rotation of Session
    guarantee over any sequence of requests: a session names a school whose
    own store accepted the password, a selection token works once, and a
    family of refresh tokens has at most one live member. *)
From S2P Require Import Prelude PyText Authz Store Structure School World UserRepo Provision ControlPlane Membership Session.

Lemma lower_upper_char c : lower_char (upper_char c) = lower_char c.
Proof. by destruct c as [[] [] [] [] [] [] [] []]; vm_compute. Qed.

Lemma str_lower_upper s : str_lower (str_upper s) = str_lower s.
Proof.
  unfold str_lower, str_upper, chars, text.
  rewrite String.list_ascii_of_string_of_list_ascii, List.map_map. f_equal.
  apply map_ext. apply lower_upper_char.
Qed.

Lemma upper_eq_lower a b : upper_eq a b = true → str_lower a = str_lower b.
Proof.
  intros H%bool_decide_eq_true. by rewrite <-(str_lower_upper a), H, str_lower_upper.
Qed.

(** ** Opening a school *)
Definition school_user (w : World) (t : string) (k : Z) (r : user_row) : Prop :=
  ∃ s, schools w !! t = Some s ∧ users s !! k = Some r.

Definition mirrored (w : World) (r : user_row) : Prop :=
  ∃ i sa, super_admins w !! i = Some sa ∧ r = new_user (sa_email sa) "super_admin" (sa_hash sa).

(** Only schools are opened; the users found there were there, or mirror a
    super admin. *)
Record opened (w w' : World) : Prop := {
  op_rest : w' = w <| tenants := tenants w' |> <| schools := schools w' |> <| open_pools := open_pools w' |>;
  op_users : ∀ t k r, school_user w' t k r → school_user w t k r ∨ mirrored w r;
}.

Lemma opened_refl w : opened w w.
Proof. constructor; [by destruct w|auto]. Qed.

Lemma opened_trans w1 w2 w3 : opened w1 w2 → opened w2 w3 → opened w1 w3.
Proof.
  intros [R1 U1] [R2 U2]. constructor.
  - rewrite R2 at 1. rewrite R1 at 1. by destruct w1.
  - intros t k r H. apply U2 in H as [H|(i & sa & Hi & ->)]; [by apply U1|].
    right. exists i, sa. split; [|done]. by rewrite R1 in Hi.
Qed.

(** The users of [s'] are those of [s], or mirror one of [sas]. *)
Definition mirrors (sas : list super_admin_row) (s s' : TenantDB) : Prop :=
  ∀ k r, users s' !! k = Some r → users s !! k = Some r ∨
    ∃ sa, sa ∈ sas ∧ r = new_user (sa_email sa) "super_admin" (sa_hash sa).

Lemma init_users sas s :
  mirrors sas s (_initialize_tenant_tables sas s).2.
Proof.
  set (I := mirrors sas s).
  assert (∀ (f : TenantDB → TenantDB), (∀ s', users (f s') = users s') → preserves I (modify f)) as Hf.
  { intros f Hu. apply preserves_modify. intros s' Hs k r. rewrite Hu. apply Hs. }
  assert (∀ {R} (tbl : TenantDB → gmap Z R) (st : Setter tbl) r,
    (∀ s' g n, users ((set_field tbl g s') <| nextid := n |>) = users s') →
    preserves I (insert_serial tbl r ;; mret tt)) as Hins.
  { intros R tbl st r Hu. unfold insert_serial. apply preserves_bind; [|intros; apply preserves_ret].
    apply preserves_bind; [apply preserves_gets|intros n].
    apply preserves_bind; [apply Hf; intros s'; apply Hu|intros; apply preserves_ret]. }
  cut (preserves I (_initialize_tenant_tables sas)).
  { intros Hp. apply preserves_run; [done|]. by left. }
  unfold _initialize_tenant_tables. apply preserves_bind; [|intros ?; apply preserves_bind; [|intros ?;
    apply preserves_bind; [|intros ?; apply preserves_bind; [|intros ?]]]].
  - apply preserves_bind; [apply preserves_gets|intros years]. case_bool_decide; [|apply preserves_ret].
    apply preserves_bind; [apply preserves_gets|intros se]. by apply Hins.
  - by apply Hf.
  - apply preserves_bind; [apply preserves_gets|intros t]. case_bool_decide; [|apply preserves_ret].
    by apply Hins.
  - unfold init_resource_types. apply (preserves_for_each I). intros c _.
    apply preserves_bind; [apply preserves_gets|intros []].
    { apply preserves_ret. }
    apply (preserves_for_each I). intros nc _. by apply Hins.
  - unfold init_super_admins. apply (preserves_for_each I). intros sa Hsa s' Hs. unfold mirror_super_admin, insert_serial. wp_simpl.
    destruct (has_user (sa_email sa) s'); [done|]. wp_simpl. intros k r.
    simpl. rewrite lookup_insert_Some. intros [[_ <-]|[_ Hr]]; [|by apply Hs].
    right. by exists sa.
Qed.

Lemma wp_get_db_pool t (Q : unit → World → Prop) (E : exn → World → Prop) w :
  (∀ w', opened w w' → Q tt w') → (∀ e w', opened w w' → E e w') → wp (get_db_pool t) Q E w.
Proof.
  intros HQ HE. unfold get_db_pool, cp_check. wp_simpl. case_bool_decide; wp_simpl; [apply HQ, opened_refl|].
  assert (∀ w1, opened w w1 →
    wp (in_school t (_initialize_tenant_tables (map_to_list (super_admins w1)).*2))
      (λ _ w2, Q tt (w2 <| open_pools ::= λ o, {[t]} ∪ o |>)) E w1) as Hrest.
  { intros w1 Hw1. rewrite wp_in_school.
    set (s1 := default empty_db (schools w1 !! t)).
    assert (∀ k r, users s1 !! k = Some r → school_user w1 t k r) as Hold.
    { intros k r Hr. unfold s1, school_user in *.
      destruct (schools w1 !! t) as [s|]; simpl in *; [eauto|by rewrite lookup_empty in Hr]. }
    set (sas := snd <$> map_to_list (super_admins w1)).
    assert (∀ s' o, mirrors sas s1 s' →
       opened w (w1 <| schools ::= <[t := s']> |> <| open_pools := o |>)) as Hop.
    { intros s' o Hs. eapply opened_trans; [exact Hw1|]. constructor; [by destruct w1|].
      intros u k r (su & Hsu & Hk). revert Hsu. simpl. rewrite lookup_insert_Some.
      intros [[<- <-]|[_ Hsu]]; [|left; by exists su].
      destruct (Hs k r Hk) as [Hr|(sa & Hin & ->)]; [by left; apply Hold|]. right.
      apply list_elem_of_fmap in Hin as ([i sa'] & -> & Hin). apply elem_of_map_to_list in Hin.
      by exists i, sa'. }
    pose proof (init_users sas s1) as Hi. unfold wp.
    destruct (_initialize_tenant_tables sas s1) as [[[]|e] s'] eqn:Es; simpl in Hi.
    - apply HQ. by apply Hop.
    - apply HE. specialize (Hop s' (open_pools w1) Hi). by destruct w1. }
  destruct (_ || _); wp_simpl; [by apply Hrest, opened_refl|].
  destruct (tenant_id_fits t); wp_simpl; [|apply HE, opened_refl].
  apply Hrest. constructor; [by destruct w|by left].
Qed.

Lemma wp_in_school_readonly {A} t (m : DB A) (Q : A → World → Prop) (E : exn → World → Prop) w :
  readonly m →
  (∀ a w', m (default empty_db (schools w !! t)) = (Ok a, default empty_db (schools w !! t)) →
     opened w w' → Q a w') →
  (∀ e w', opened w w' → E e w') → wp (in_school t m) Q E w.
Proof.
  intros Hm HQ HE. rewrite wp_in_school. set (s := default empty_db (schools w !! t)).
  assert (opened w (w <| schools ::= <[t := s]> |>)) as Hop.
  { constructor; [by destruct w|]. intros u k r (su & Hsu & Hk). left. revert Hsu. simpl.
    rewrite lookup_insert_Some. intros [[<- <-]|[_ Hsu]]; [|by exists su].
    unfold s, school_user in *. destruct (schools w !! t); simpl in *; [eauto|].
    by rewrite lookup_empty in Hk. }
  pose proof (readonly_run m s Hm) as Hs. unfold wp.
  destruct (m s) as [[a|e] s'] eqn:E'; simpl in Hs; subst s'.
  - by apply HQ.
  - by apply HE.
Qed.

Lemma get_user_by_email_readonly email : readonly (get_user_by_email email).
Proof.
  unfold get_user_by_email. case_bool_decide; intros s; [apply preserves_ret|apply preserves_gets].
Qed.

(** A look-up by email in a school that may have to be opened first. *)
Lemma wp_lookup_user t email (Q : option (Z * user_row) → World → Prop) (E : exn → World → Prop) w :
  (∀ u w', opened w w' →
     (∀ k r, u = Some (k, r) → upper_eq (us_email r) (str_strip email) = true ∧
        (school_user w t k r ∨ mirrored w r)) → Q u w') →
  (∀ e w', opened w w' → E e w') → wp (with_school t (get_user_by_email email)) Q E w.
Proof.
  intros HQ HE. unfold with_school. wp_simpl. apply wp_get_db_pool; [|done]. intros w1 Hw1.
  apply wp_in_school_readonly; [apply get_user_by_email_readonly| |].
  - intros u w2 Hu Hw2. apply HQ; [by eapply opened_trans|]. intros k r ->.
    unfold get_user_by_email in Hu. case_bool_decide; [done|]. injection Hu as Hu.
    apply find_row_Some in Hu as [Hk He]. split; [done|].
    apply (op_users _ _ Hw1). unfold school_user.
    destruct (schools w1 !! t) as [s|]; simpl in Hk; [eauto|by rewrite lookup_empty in Hk].
  - intros e w2 Hw2. apply HE. by eapply opened_trans.
Qed.

(** ** What a password proves *)
Section login.
Context (sha256 : string → string) (token_urlsafe : Z → string)
        (pwd_verify : string → string → option bool)
        (uuid_text : Z → string) (set_order : list string → list string).

Local Abbreviation verify := (verify_password pwd_verify).

(** The password is that of the account the email has at this school: the
    platform operator's, a linked parent's, or the school's own user. *)
Definition credential (w : World) (email tenant password : string) : Prop :=
  (∃ i r, super_admins w !! i = Some r ∧ str_lower (sa_email r) = str_lower email ∧
     verify password (sa_hash r) = true) ∨
  (∃ i r c, parents w !! i = Some r ∧ str_lower (pa_email r) = str_lower email ∧
     parent_tenant_links w !! (i, tenant) = Some c ∧ verify password (pa_hash r) = true) ∨
  (∃ k r, school_user w tenant k r ∧ str_lower (us_email r) = str_lower (str_strip email) ∧
     verify password (us_hash r) = true).

Definition super_admin_ok (w : World) (email : string) (o : option (Z * super_admin_row)) : Prop :=
  ∀ i r, o = Some (i, r) → super_admins w !! i = Some r ∧ str_lower (sa_email r) = str_lower email.
Definition parent_ok (w : World) (email : string) (o : option (Z * parent_row)) : Prop :=
  ∀ i r, o = Some (i, r) → parents w !! i = Some r ∧ str_lower (pa_email r) = str_lower email.

Definition cand_ok (w : World) (email : string) (c : candidate) : Prop :=
  match c with
  | SuperAdmin i r => super_admins w !! i = Some r ∧ str_lower (sa_email r) = str_lower email
  | Parent t i r => parents w !! i = Some r ∧ str_lower (pa_email r) = str_lower email ∧
                    is_Some (parent_tenant_links w !! (i, t))
  | TenantUser t k r => upper_eq (us_email r) (str_strip email) = true ∧
                        (school_user w t k r ∨ mirrored w r)
  end.

Lemma cand_credential w email c password :
  str_strip email = email → cand_ok w email c → verify password (cand_hash c) = true →
  credential w email (cand_tenant c) password.
Proof.
  intros Hstrip Hc Hv. destruct c as [i r|t i r|t k r]; simpl in *.
  - left. destruct Hc. eauto.
  - right; left. destruct Hc as (? & ? & c & ?). eauto 10.
  - destruct Hc as [He%upper_eq_lower [Hu|(i & sa & Hi & ->)]].
    + right; right. eauto.
    + left. exists i, sa. simpl in *. by rewrite He, Hstrip.
Qed.

Lemma opened_same w w' :
  opened w w' → super_admins w' = super_admins w ∧ parents w' = parents w ∧
  parent_tenant_links w' = parent_tenant_links w ∧ identities w' = identities w.
Proof. intros [-> _]. done. Qed.

Lemma cand_ok_opened w w' email c : opened w w' → cand_ok w' email c → cand_ok w email c.
Proof.
  intros Ho. destruct (opened_same w w' Ho) as (Hs & Hp & Hl & _).
  destruct c as [i r|t i r|t k r]; simpl; rewrite ?Hs, ?Hp, ?Hl; [done..|].
  intros [He H]. split; [done|]. destruct H as [H|(i & sa & Hi & ->)].
  - by apply (op_users _ _ Ho).
  - right. exists i, sa. by rewrite <-Hs.
Qed.

Lemma wp_local_candidate email t (Q : option candidate → World → Prop) E w :
  (∀ c w', opened w w' → (∀ x, c = Some x → cand_ok w email x ∧ cand_tenant x = t) → Q c w') →
  wp (local_candidate email t) Q E w.
Proof.
  intros HQ. unfold local_candidate. wp_simpl. apply wp_lookup_user.
  - intros u w' Ho Hu. wp_simpl. apply HQ; [done|]. intros x Hx.
    destruct u as [[k r]|]; [|done]. case_bool_decide; [done|]. injection Hx as <-.
    split; [|done]. by apply Hu.
  - intros e w' Ho. wp_simpl. by apply HQ.
Qed.

Lemma wp_fetch_candidate email t parent super_admin (Q : option candidate → World → Prop) E w :
  parent_ok w email parent → super_admin_ok w email super_admin →
  (∀ c w', opened w w' → (∀ x, c = Some x → cand_ok w email x ∧ cand_tenant x = t) → Q c w') →
  wp (_fetch_login_candidate email t parent super_admin) Q E w.
Proof.
  intros Hp Hs HQ. unfold _fetch_login_candidate.
  assert (wp match parent with
    | Some (pid, p) => linked ← check_parent_tenant_link pid t;
        if linked : bool then mret (Some (Parent t pid p)) else local_candidate email t
    | None => local_candidate email t
    end Q E w) as Hrest.
  { destruct parent as [[pid p]|]; [|by apply wp_local_candidate].
    unfold check_parent_tenant_link. wp_simpl. case_bool_decide as Hl; wp_simpl; [|by apply wp_local_candidate].
    apply HQ; [apply opened_refl|]. intros x [= <-]. simpl. destruct (Hp pid p eq_refl). done. }
  destruct super_admin as [[i r]|]; [|done]. case_bool_decide as Ht; [|done]. wp_simpl.
  apply HQ; [apply opened_refl|]. intros x [= <-]. simpl. destruct (Hs i r eq_refl). done.
Qed.

Lemma wp_enumerate email (Q : _ → World → Prop) E w :
  (∀ tids parent super_admin, parent_ok w email parent → super_admin_ok w email super_admin →
     Q (tids, parent, super_admin) w) →
  wp (_enumerate_login_tenants set_order email) Q E w.
Proof.
  intros HQ. unfold _enumerate_login_tenants, get_super_admin_by_email, get_tenants_for_email,
    get_parent_by_email, get_tenants_for_parent. wp_simpl.
  assert (parent_ok w email (find_parent email w)) as Hp.
  { intros i r H. apply find_row_Some in H as [? ?%ci_eq_true]. done. }
  assert (super_admin_ok w email (find_super_admin email w)) as Hs.
  { intros i r H. apply find_row_Some in H as [? ?%ci_eq_true]. done. }
  destruct (find_parent email w) as [[i r]|]; wp_simpl; by apply HQ.
Qed.

Lemma wp_scan email tids (Q : option candidate → World → Prop) E w :
  (∀ c w', opened w w' → (∀ x, c = Some x → cand_ok w email x) → Q c w') →
  wp (scan_tenants email tids) Q E w.
Proof.
  revert w Q. induction tids as [|t tids IH]; intros w Q HQ; simpl; wp_simpl.
  { by apply HQ; [apply opened_refl|]. }
  assert (∀ w1, opened w w1 → wp (scan_tenants email tids) Q E w1) as Hrest.
  { intros w1 H1. apply IH. intros c w2 H2 Hc. apply HQ; [by eapply opened_trans|].
    intros x Hx. eapply cand_ok_opened; [done|by apply Hc]. }
  case_bool_decide; [by apply Hrest, opened_refl|]. wp_simpl. apply wp_local_candidate.
  intros c w1 H1 Hc. destruct c as [c|]; [|by apply Hrest]. wp_simpl. apply HQ; [done|].
  intros x [= <-]. by apply Hc.
Qed.

Lemma wp_fetch_all email l parent super_admin (Q : list (option candidate) → World → Prop) E w0 w :
  opened w0 w → parent_ok w0 email parent → super_admin_ok w0 email super_admin →
  (∀ cs w', opened w0 w' → (∀ x, x ∈ omap id cs → cand_ok w0 email x) → Q cs w') →
  wp (map_each l (λ t, _fetch_login_candidate email t parent super_admin)) Q E w.
Proof.
  intros Ho Hp Hs. revert w Q Ho. induction l as [|t l IH]; intros w Q Ho HQ; cbn [map_each]; wp_simpl.
  { apply HQ; [done|]. by intros x ?%elem_of_nil. }
  destruct (opened_same w0 w Ho) as (Es & Ep & _).
  apply wp_fetch_candidate; [by unfold parent_ok; rewrite Ep|by unfold super_admin_ok; rewrite Es|].
  intros c w1 H1 Hc. wp_simpl. apply IH; [by eapply opened_trans|]. intros cs w2 H2 Hcs. wp_simpl.
  apply HQ; [done|]. intros x. simpl. destruct c as [c|]; simpl; [|apply Hcs].
  intros [->|Hx]%elem_of_cons; [|by apply Hcs]. eapply cand_ok_opened; [exact Ho|]. by apply Hc.
Qed.

(** ** What the stored tokens stand for

    [P i t]: identity [i] has proved its password at school [t]. [ids] are
    identities that stay. *)
Record secure (P : Z → string → Prop) (ids : gmap Z string) (w : World) : Prop := {
  se_wf : control_plane_wf w;
  se_ids : ids ⊆ identities w;
  se_challenges : ∀ k r t, challenges w !! k = Some r → t ∈ ch_tenants r → P (ch_identity r) t;
  se_refresh : ∀ k r, refresh_tokens w !! k = Some r → P (rf_identity r) (rf_tenant r);
}.

Lemma secure_frame P ids w w' :
  secure P ids w → control_plane_wf w' → identities w ⊆ identities w' →
  challenges w' = challenges w → refresh_tokens w' = refresh_tokens w → secure P ids w'.
Proof. intros [Hwf Hi Hc Hr] Hwf' Hi' Ec Er. constructor; rewrite ?Ec, ?Er; try done. by etrans. Qed.

Lemma secure_weaken (P P' : Z → string → Prop) ids w :
  (∀ i t, P i t → P' i t) → secure P ids w → secure P' ids w.
Proof. intros HP [Hwf Hi Hc Hr]. constructor; eauto. Qed.

Lemma secure_ids P ids w : secure P ids w → secure P (identities w) w.
Proof. intros [Hwf Hi Hc Hr]. by constructor. Qed.

Lemma secure_ids_weaken P ids ids' w : ids ⊆ ids' → secure P ids' w → secure P ids w.
Proof. intros Hs [Hwf Hi Hc Hr]. constructor; [done|by etrans|done|done]. Qed.

Lemma wf_next w n : control_plane_wf w → cp_next w ≤ n → control_plane_wf (w <| cp_next := n |>).
Proof. intros Hwf Hn. wf_frame. Qed.

Lemma opened_wf_open t w : control_plane_wf w → control_plane_wf (get_db_pool t w).2.
Proof.
  intros Hwf. apply (preserves_run (same_members (user_tenant_map w)) (get_db_pool t) w);
    [apply same_open|by split].
Qed.

Lemma wf_school w t s : control_plane_wf w → control_plane_wf (w <| schools ::= <[t := s]> |>).
Proof. intros Hwf. wf_frame. Qed.

(** ** Steps that leave the tokens alone

    Between two states: identities only grow, serial numbers only rise, and
    the two token tables stay. *)
Record calm (w w' : World) : Prop := {
  ca_wf : control_plane_wf w';
  ca_ids : identities w ⊆ identities w';
  ca_challenges : challenges w' = challenges w;
  ca_refresh : refresh_tokens w' = refresh_tokens w;
  ca_next : cp_next w ≤ cp_next w';
}.

(** The invariants such a step keeps. *)
Class Framed (I : World → Prop) : Prop := {
  framed_wf w : I w → control_plane_wf w;
  framed_calm w w' : I w → calm w w' → I w';
}.

#[global] Instance calm_framed w0 : Framed (calm w0).
Proof.
  split; [by intros w []|]. intros w w' [_ Hi Hc Hr Hn] [Hwf Hi' Hc' Hr' Hn'].
  constructor; [done|by etrans|congruence|congruence|lia].
Qed.

#[global] Instance secure_framed P ids : Framed (secure P ids).
Proof.
  split; [by intros w []|]. intros w w' Hs []. by eapply secure_frame.
Qed.

(** The tables the tokens depend on. *)
Definition same_tokens (w w' : World) : Prop :=
  identities w ⊆ identities w' ∧ challenges w' = challenges w ∧ refresh_tokens w' = refresh_tokens w ∧
  cp_next w ≤ cp_next w'.

Lemma same_tokens_upsert_member w i e t r : preserves (same_tokens w) (upsert_member i e t r).
Proof.
  unfold upsert_member. apply preserves_bind; [apply preserves_gets|intros n].
  apply preserves_bind; [apply preserves_gets|intros [[key a]|]].
  { by apply preserves_modify. }
  apply preserves_bind; [apply preserves_gets|intros members].
  apply preserves_bind; [auto with pres|intros _]. apply preserves_bind; [auto with pres|intros _].
  by apply preserves_modify.
Qed.

Lemma same_tokens_invalidate w e : preserves (same_tokens w) (invalidate_membership_cache e).
Proof. unfold invalidate_membership_cache. case_bool_decide; by apply preserves_modify. Qed.

Lemma upsert_frame e t r w :
  control_plane_wf w →
  wp (upsert_user_tenant_map e t r) (λ _, same_tokens w) (λ _, same_tokens w) w.
Proof.
  intros Hwf. unfold upsert_user_tenant_map. rewrite wp_bind.
  apply wp_get_or_create_identity; [done|]. intros i w1 _ _ Heq Hsub Hn.
  apply (preserves_bind (same_tokens w)); [apply same_tokens_upsert_member
    |intros _; apply same_tokens_invalidate|]. split_and!; [done|by rewrite Heq..|done].
Qed.

Section framed.
Set Default Proof Using "Type*".
Context (I : World → Prop) `{!Framed I}.

(** It is enough to look at one step from a well-formed state. *)
Lemma framed_keeps {A} (m : CP A) :
  (∀ w, control_plane_wf w → wp m (λ _, calm w) (λ _, calm w) w) → preserves I m.
Proof.
  intros Hm w Hw. eapply wp_mono; [apply Hm; by apply framed_wf|..]; intros ? w' ?; by eapply framed_calm.
Qed.

Lemma keeps_open t : preserves I (get_db_pool t).
Proof.
  apply framed_keeps. intros w Hwf.
  apply (wp_mono _ (λ _ w', opened w w' ∧ control_plane_wf w') _ (λ _ w', opened w w' ∧ control_plane_wf w')).
  { apply wp_conj; [by apply wp_get_db_pool|].
    eapply wp_mono; [apply (same_open (user_tenant_map w) t w); by split| |]; by intros ? w' [? _]. }
  all: intros ? w' [[Hr _] ?]; constructor; [done|by rewrite Hr..].
Qed.

Lemma keeps_in_school {A} t (m : DB A) : preserves I (in_school t m).
Proof.
  apply framed_keeps. intros w Hwf. rewrite wp_in_school. unfold wp. destruct (m _) as [[a|e] s'].
  all: constructor; [by apply wf_school|done..].
Qed.

Lemma keeps_identity email (Q : Z → World → Prop) (E : exn → World → Prop) w :
  I w →
  (∀ i w', I w' → (∃ e, identities w' !! i = Some e ∧ str_lower e = norm_email email) → Q i w') →
  wp (get_or_create_identity email) Q E w.
Proof.
  intros Hs HQ. apply wp_get_or_create_identity; [by apply framed_wf|].
  intros i w' Hwf Hown Heq Hsub Hn. apply HQ; [|done]. eapply framed_calm; [exact Hs|].
  constructor; [done|done|by rewrite Heq..|done].
Qed.

Lemma keeps_draw : preserves I draw.
Proof.
  apply framed_keeps. intros w Hwf. unfold draw. wp_simpl.
  constructor; simpl; [apply wf_next; [done|lia]|done..|lia].
Qed.

Lemma keeps_upsert e t r : preserves I (upsert_user_tenant_map e t r).
Proof.
  apply framed_keeps. intros w Hwf.
  apply (wp_mono _ (λ _ w', life_ok (UpsertMember e t r) w w' ∧ same_tokens w w')
    _ (λ _ w', life_ok (UpsertMember e t r) w w' ∧ same_tokens w w')).
  { apply wp_conj; [by apply life_upsert|by apply upsert_frame]. }
  all: by intros ? w' [[Hwf' _] (Hi & Hc & Hr & Hn)].
Qed.

Lemma keeps_touch i t : preserves I (touch_membership_last_active i t).
Proof.
  apply framed_keeps. intros w Hwf.
  apply (wp_mono _ (λ _ w', life_ok (TouchMember i t) w w' ∧ same_tokens w w')
    _ (λ _ w', life_ok (TouchMember i t) w w' ∧ same_tokens w w')).
  { apply wp_conj; [by apply life_touch|]. unfold touch_membership_last_active. wp_simpl. by split_and!. }
  all: by intros ? w' [[Hwf' _] (Hi & Hc & Hr & Hn)].
Qed.

Lemma keeps_lookup_user t e : preserves I (with_school t (get_user_by_email e)).
Proof.
  unfold with_school. apply preserves_bind; [apply keeps_open|intros ?]. apply keeps_in_school.
Qed.

Lemma keeps_resolve i t role : preserves I (_resolve_local_account uuid_text i t role).
Proof.
  unfold _resolve_local_account, get_identity_by_id, get_super_admin_by_email, from_option_or.
  apply preserves_bind; [apply preserves_gets|intros o].
  apply preserves_bind; [destruct o; [apply preserves_ret|apply preserves_raise]|intros email].
  destruct (_ || _).
  - apply preserves_bind; [apply preserves_gets|intros u].
    apply preserves_bind; [destruct u; [apply preserves_ret|apply preserves_raise]|intros ?].
    apply preserves_ret.
  - apply preserves_bind; [apply keeps_lookup_user|intros u].
    apply preserves_bind; [destruct u; [apply preserves_ret|apply preserves_raise]|intros ?].
    destruct (_ && _); apply preserves_ret.
Qed.

Lemma keeps_local_candidate e t : preserves I (local_candidate e t).
Proof.
  unfold local_candidate. apply preserves_bind; [|intros u; destruct u as [[]|]; apply preserves_ret].
  apply preserves_try_except; [apply keeps_lookup_user|intros; apply preserves_ret].
Qed.

Lemma keeps_fetch_candidate e t parent sa : preserves I (_fetch_login_candidate e t parent sa).
Proof.
  unfold _fetch_login_candidate, check_parent_tenant_link.
  assert (preserves I match parent with
      | Some (pid, p) => linked ← gets (λ w, bool_decide (is_Some (parent_tenant_links w !! (pid, t))));
          if linked : bool then mret (Some (Parent t pid p)) else local_candidate e t
      | None => local_candidate e t
      end) as H.
  { destruct parent as [[]|]; [|apply keeps_local_candidate].
    apply preserves_bind; [apply preserves_gets|intros []; [apply preserves_ret|apply keeps_local_candidate]]. }
  destruct sa as [[]|]; [|exact H]. case_bool_decide; [apply preserves_ret|exact H].
Qed.

Lemma keeps_scan e tids : preserves I (scan_tenants e tids).
Proof.
  induction tids as [|t tids IH]; [apply preserves_ret|]. simpl. case_bool_decide; [done|].
  apply preserves_bind; [apply keeps_local_candidate|intros [c|]; [apply preserves_ret|done]].
Qed.

Lemma keeps_account i t :
  preserves I (try_except
    (membership ← (if bool_decide (t = "") then mret None else get_membership i t);
     let hint_role := if bool_decide (t = "") then "super_admin"
                      else from_option mb_role "" membership in
     _resolve_local_account uuid_text i t hint_role)
    (λ e, match e with ValueError _ => raise bad_selection | _ => raise e end)).
Proof.
  apply preserves_try_except; [|intros []; apply preserves_raise]. apply preserves_bind.
  - case_bool_decide; [apply preserves_ret|apply preserves_gets].
  - intros o. apply keeps_resolve.
Qed.
End framed.

(** Both halves of [secure] at once: the well-formedness comes from
    Membership, the rest from the statement's effect on the two tables. *)
Lemma secure_by {A} P ids (m : CP A) w (Q : A → World → Prop) :
  secure P ids w → preserves (same_members (user_tenant_map w)) m →
  wp m (λ a w', Q a w' ∧ identities w' = identities w ∧
      (∀ k r t, challenges w' !! k = Some r → t ∈ ch_tenants r → P (ch_identity r) t) ∧
      (∀ k r, refresh_tokens w' !! k = Some r → P (rf_identity r) (rf_tenant r)))
    (λ _ w', w' = w) w →
  wp m (λ a w', Q a w' ∧ secure P ids w') (λ _ w', secure P ids w') w.
Proof.
  intros Hs Hm Hw.
  eapply wp_mono; [apply wp_conj; [exact Hw|apply (Hm w); split; [apply Hs|done]]| |].
  - intros a w' [(HQ & Hi & Hc & Hr) [Hwf _]]. split; [done|]. constructor; [done| |done|done].
    rewrite Hi. apply Hs.
  - by intros e w' [-> _].
Qed.

(** A refresh token may be created for what has been proved. *)
Lemma secure_create_refresh (P : Z → string → Prop) ids h i t r f x :
  P i t → preserves (secure P ids) (create_refresh_token h i t r f x).
Proof.
  intros HP w Hs.
  apply (wp_mono _ (λ _ w', True ∧ secure P ids w') _ (λ _ w', secure P ids w')); [|by intros ? ? [_ ?]|done].
  apply secure_by; [done|apply same_refresh|].
  unfold create_refresh_token, cp_check, cp_insert. wp_simpl. case_bool_decide; [|done]. wp_simpl.
  destruct (tenant_id_fits t); [|done]. wp_simpl. destruct (has_row (identities w) i); [|done]. wp_simpl.
  split_and!; [done|done|by apply (se_challenges _ _ _ Hs)|]. intros k row. simpl.
  rewrite lookup_insert_Some. intros [[_ <-]|[_ Hk]]; [done|by eapply se_refresh].
Qed.

Lemma secure_create_challenge (P : Z → string → Prop) ids h i ts x :
  (∀ t, t ∈ ts → P i t) → preserves (secure P ids) (create_selection_challenge h i ts x).
Proof.
  intros HP w Hs.
  apply (wp_mono _ (λ _ w', True ∧ secure P ids w') _ (λ _ w', secure P ids w')); [|by intros ? ? [_ ?]|done].
  apply secure_by; [done|apply same_challenge|].
  unfold create_selection_challenge, cp_check, cp_insert. wp_simpl. case_bool_decide; [|done]. wp_simpl.
  destruct (has_row (identities w) i); [|done]. wp_simpl.
  split_and!; [done|done| |by apply (se_refresh _ _ _ Hs)]. intros k row t. simpl.
  rewrite lookup_insert_Some. intros [[_ <-]|[_ Hk]]; [by apply HP|by eapply se_challenges].
Qed.

Lemma secure_redeem (P : Z → string → Prop) ids h w :
  secure P ids w →
  wp (redeem_selection_challenge h)
    (λ o w', (∀ i ts t, o = Some (i, ts) → t ∈ ts → P i t) ∧ secure P ids w')
    (λ _ w', secure P ids w') w.
Proof.
  intros Hs. apply secure_by; [done|apply same_redeem|].
  unfold redeem_selection_challenge. wp_simpl.
  destruct (find_row _ (challenges w)) as [[k r]|] eqn:Hf; wp_simpl.
  - apply find_row_Some in Hf as [Hk _].
    split_and!; [|done| |by apply (se_refresh _ _ _ Hs)].
    + intros i ts t [= <- <-] Ht. by eapply se_challenges.
    + intros j row t. simpl. rewrite lookup_insert_Some.
      intros [[_ <-]|[_ Hj]]; simpl; [apply (se_challenges _ _ _ Hs k r t Hk)|apply (se_challenges _ _ _ Hs j row t Hj)].
  - split_and!; [done|done|by apply (se_challenges _ _ _ Hs)|by apply (se_refresh _ _ _ Hs)].
Qed.

Lemma secure_rotate P ids o n : preserves (secure P ids) (repo_rotate_refresh_token o n).
Proof.
  intros w Hs.
  apply (wp_mono _ (λ _ w', True ∧ secure P ids w') _ (λ _ w', secure P ids w')); [|by intros ? ? [_ ?]|done].
  apply secure_by; [done|apply same_rotate|]. unfold repo_rotate_refresh_token. wp_simpl.
  split_and!; [done|done|by apply (se_challenges _ _ _ Hs)|]. intros k r. simpl.
  rewrite lookup_alter_Some. intros [(_ & a & Ha & ->)|[_ Ha]]; simpl; apply (se_refresh _ _ _ Hs _ _ Ha).
Qed.

Lemma secure_family P ids f : preserves (secure P ids) (revoke_refresh_token_family f).
Proof.
  intros w Hs.
  apply (wp_mono _ (λ _ w', True ∧ secure P ids w') _ (λ _ w', secure P ids w')); [|by intros ? ? [_ ?]|done].
  apply secure_by; [done|apply same_family|]. unfold revoke_refresh_token_family. wp_simpl.
  split_and!; [done|done|by apply (se_challenges _ _ _ Hs)|]. intros k r. simpl.
  rewrite lookup_update_where, fmap_Some. intros (a & Ha & ->). pose proof (se_refresh _ _ _ Hs k a Ha).
  by destruct (_ && _).
Qed.

(** A step that keeps [I] may be skipped. *)
Lemma wp_skip {A B} (I : World → Prop) (m : CP A) (f : A → CP B) Q E w :
  preserves I m → I w → (∀ a w', I w' → wp (f a) Q E w') → (∀ e w', I w' → E e w') → wp (m ≫= f) Q E w.
Proof.
  intros Hm Hw Hf HE. rewrite wp_bind. eapply wp_mono; [by apply Hm|by apply Hf|by apply HE].
Qed.

Lemma secure_issue (P : Z → string → Prop) ids i t role :
  P i t → preserves (secure P ids) (issue_refresh_token sha256 token_urlsafe i t role).
Proof.
  intros HP. unfold issue_refresh_token.
  apply preserves_bind; [apply keeps_draw, _|intros n]. apply preserves_bind; [apply keeps_draw, _|intros f].
  apply preserves_bind; [apply preserves_gets|intros now].
  apply preserves_bind; [by apply secure_create_refresh|intros ?; apply preserves_ret].
Qed.

(** ** One request *)
Lemma keeps_create_token (I : World → Prop) u t r e rs i : preserves I (create_access_token u t r e rs i).
Proof. unfold create_access_token. apply preserves_bind; [apply preserves_gets|intros; apply preserves_ret]. Qed.

(** The session carries this identity and this school. *)
Definition session_of (i : Z) (t : string) (c : claims) : Prop :=
  cl_identity c = Some i ∧ cl_tenant c = t.

Definition answers (i : Z) (t : string) (a : login_answer) : Prop :=
  match a with Tokens c _ => session_of i t c | SelectTenant _ _ _ => True end.

(** The last step of every way to a session: mint, store, answer. *)
Lemma wp_mint {A} (P : Z → string → Prop) ids i (t : option string) t' u r e rs role
    (f : claims → string → A) (Q : A → World → Prop) (E : exn → World → Prop) w :
  secure P ids w → P i t' → default "" t = t' →
  (∀ c raw w', session_of i t' c → secure P ids w' → Q (f c raw) w') →
  (∀ x w', secure P ids w' → E x w') →
  wp (access ← create_access_token u t r e rs (Some i);
      refresh ← issue_refresh_token sha256 token_urlsafe i t' role; mret (f access refresh)) Q E w.
Proof.
  intros Hs HP Ht HQ HE. unfold create_access_token. wp_simpl.
  eapply wp_mono; [by apply secure_issue|..]; [|done]. intros raw w' Hw'. wp_simpl. by apply HQ.
Qed.

Definition grants (P : Z → string → Prop) (i : Z) (t : string) (j : Z) (u : string) : Prop :=
  P j u ∨ (j = i ∧ u = t).

Lemma wp_complete_login P ids email c (Q : login_answer → World → Prop) (E : exn → World → Prop) w :
  secure P ids w →
  (∀ i a w', secure (grants P i (cand_tenant c)) ids w' →
     (∃ e, identities w' !! i = Some e ∧ str_lower e = norm_email email) →
     answers i (cand_tenant c) a → Q a w') →
  (∀ i x w', secure (grants P i (cand_tenant c)) ids w' →
     (∃ e, identities w' !! i = Some e ∧ str_lower e = norm_email email) → E x w') →
  wp (_complete_login sha256 token_urlsafe uuid_text c email) Q E w.
Proof.
  intros Hs HQ HE. unfold _complete_login. rewrite wp_bind.
  apply (keeps_identity (secure P ids)); [done|]. intros i w1 Hs1 (e & He & Hle).
  set (t := cand_tenant c) in *. set (P2 := grants P i t).
  assert (P2 i t) as Hit by by right.
  assert (secure P2 (identities w1) w1) as Hs2.
  { apply secure_ids with ids. eapply secure_weaken; [|exact Hs1]. by left. }
  assert (ids ⊆ identities w1) as Hids by apply Hs1.
  assert (∀ w', secure P2 (identities w1) w' → secure P2 ids w' ∧
    ∃ e, identities w' !! i = Some e ∧ str_lower e = norm_email email) as Hend.
  { intros w' Hw'. split; [by eapply secure_ids_weaken|]. exists e. split; [|done].
    eapply lookup_weaken; [done|apply Hw']. }
  assert (∀ w' a, secure P2 (identities w1) w' → answers i t a → Q a w') as HQ'.
  { intros w' a Hw' Ha. destruct (Hend w' Hw'). by eapply HQ. }
  assert (∀ x w', secure P2 (identities w1) w' → E x w') as HE'.
  { intros x w' Hw'. destruct (Hend w' Hw'). by eapply HE. }
  assert (∀ t1 u r em rs role w', secure P2 (identities w1) w' → default "" t1 = t →
    wp (access ← create_access_token u t1 r em rs (Some i);
        refresh ← issue_refresh_token sha256 token_urlsafe i t role; mret (Tokens access refresh)) Q E w')
    as Hmint.
  { intros. eapply (wp_mint P2 (identities w1)); eauto. }
  destruct c as [id r|t' pid p|t' id r]; simpl in t; subst t.
  - by apply Hmint.
  - unfold check_parent_tenant_link. wp_simpl. case_bool_decide; [|by apply HE'].
    wp_simpl. eapply wp_mono; [by apply (keeps_open (secure P2 (identities w1)))| |done]. intros ? w3 Hs3.
    wp_simpl. eapply wp_mono; [by apply (keeps_in_school (secure P2 (identities w1)))| |done]. intros u w4 Hs4.
    eapply (wp_skip (secure P2 (identities w1))); [|done| |done].
    { destruct u as [[]|]; [apply preserves_ret|].
      apply preserves_bind; [apply keeps_in_school, _|intros ?; apply keeps_in_school, _]. }
    intros uid w5 Hs5. eapply (wp_skip (secure P2 (identities w1))); [apply keeps_upsert, _|done| |done].
    intros ? w6 Hs6. by apply Hmint.
  - eapply (wp_skip (secure P2 (identities w1))); [apply keeps_upsert, _|done| |done].
    intros ? w3 Hs3. by apply Hmint.
Qed.

Inductive auth_req :=
  | Login (email password : string) (tenant_id : option string)
  | Redeem (selection_token tenant_id : string)
  | Refresh (raw_token : string)
  | Pass (seconds : Z).

(** The sessions a request hands out. *)
Definition run_auth (q : auth_req) : CP (list claims) :=
  match q with
  | Login e p t =>
      a ← login_user sha256 token_urlsafe pwd_verify uuid_text set_order e p t;
      mret match a with Tokens c _ => [c] | SelectTenant _ _ _ => [] end
  | Redeem tok t =>
      a ← login_redeem sha256 token_urlsafe uuid_text tok t;
      mret match a with Tokens c _ => [c] | SelectTenant _ _ _ => [] end
  | Refresh tok => r ← rotate_refresh_token sha256 token_urlsafe uuid_text tok; mret [r.1]
  | Pass secs => modify (λ w, w <| now := now w + secs |>) ;; mret []
  end.

(** What a request proves: a login that names the identity's email with a
    password the school's store accepts. *)
Definition earned (q : auth_req) (w w' : World) (i : Z) (t : string) : Prop :=
  match q with
  | Login email password _ => credential w (norm_email email) t password ∧
      ∃ e, identities w' !! i = Some e ∧ str_lower e = norm_email email
  | _ => False
  end.

Definition trusted (P : Z → string → Prop) q (w w' : World) (i : Z) (t : string) : Prop :=
  P i t ∨ earned q w w' i t.

Definition sessions_ok (P : Z → string → Prop) q (w : World) (cs : list claims) (w' : World) : Prop :=
  secure (trusted P q w w') (identities w) w' ∧
  ∀ c, c ∈ cs → ∃ i t, session_of i t c ∧ trusted P q w w' i t.

Lemma wp_complete_ok P email pw tid c w0 w :
  secure P (identities w0) w → cand_ok w0 (norm_email email) c → verify pw (cand_hash c) = true →
  wp (_complete_login sha256 token_urlsafe uuid_text c (norm_email email))
    (λ a, sessions_ok P (Login email pw tid) w0 match a with Tokens c _ => [c] | _ => [] end)
    (λ _, sessions_ok P (Login email pw tid) w0 []) w.
Proof.
  intros Hs Hc Hv.
  assert (credential w0 (norm_email email) (cand_tenant c) pw) as Hcred.
  { eapply cand_credential; [apply norm_email_stripped|done|done]. }
  assert (∀ i w', secure (grants P i (cand_tenant c)) (identities w0) w' →
    (∃ e, identities w' !! i = Some e ∧ str_lower e = norm_email (norm_email email)) →
    secure (trusted P (Login email pw tid) w0 w') (identities w0) w' ∧
    trusted P (Login email pw tid) w0 w' i (cand_tenant c)) as Hok.
  { intros i w' Hs' He. rewrite norm_email_idem in He. split; [|by right].
    eapply secure_weaken; [|exact Hs']. intros j u [Hj|[-> ->]]; [by left|by right]. }
  eapply wp_complete_login; [exact Hs|..].
  - intros i a w' Hs' He Ha. destruct (Hok i w' Hs' He). split; [done|].
    intros c' Hc'. destruct a as [c1 r|]; [|by apply elem_of_nil in Hc'].
    apply list_elem_of_singleton in Hc' as ->. by exists i, (cand_tenant c).
  - intros i x w' Hs' He. destruct (Hok i w' Hs' He). split; [done|]. by intros c' ?%elem_of_nil.
Qed.

Lemma sessions_ok_none P q w w' : secure P (identities w) w' → sessions_ok P q w [] w'.
Proof.
  intros Hs. split; [|by intros ? ?%elem_of_nil]. eapply secure_weaken; [|exact Hs]. by left.
Qed.

Lemma candidates_verified cs pw c :
  c ∈ _verify_candidates_padded pwd_verify cs pw → c ∈ cs ∧ verify pw (cand_hash c) = true.
Proof.
  unfold _verify_candidates_padded. rewrite !list_elem_of_In, filter_In. done.
Qed.

Lemma wp_challenge_ok P email pw tid l w0 w :
  secure P (identities w0) w →
  (∀ c, c ∈ l → cand_ok w0 (norm_email email) c ∧ verify pw (cand_hash c) = true) →
  wp (_issue_login_selection_challenge sha256 token_urlsafe (norm_email email) l)
    (λ a, sessions_ok P (Login email pw tid) w0 match a with Tokens c _ => [c] | _ => [] end)
    (λ _, sessions_ok P (Login email pw tid) w0 []) w.
Proof.
  intros Hs Hl. unfold _issue_login_selection_challenge. rewrite wp_bind.
  apply (keeps_identity (secure P (identities w0))); [done|]. intros i w1 Hs1 (e & He & Hle).
  set (P2 := λ j t, P j t ∨ (j = i ∧ t ∈ map cand_tenant l)).
  assert (secure P2 (identities w1) w1) as Hs2.
  { apply secure_ids with (identities w0). eapply secure_weaken; [|exact Hs1]. by left. }
  assert (∀ w', secure P2 (identities w1) w' → sessions_ok P (Login email pw tid) w0 [] w') as Hend.
  { intros w' Hw'. split; [|by intros ? ?%elem_of_nil].
    eapply secure_weaken; [|eapply secure_ids_weaken; [apply Hs1|exact Hw']].
    intros j t [Hj|[-> (c & -> & Hc)%list_elem_of_fmap]]; [by left|]. right.
    destruct (Hl c Hc) as [Hok Hv]. split.
    - eapply cand_credential; [apply norm_email_stripped|done|done].
    - exists e. rewrite norm_email_idem in Hle. split; [|done]. eapply lookup_weaken; [done|apply Hw']. }
  eapply (wp_skip (secure P2 (identities w1))); [apply keeps_draw, _|done| |done]. intros n w2 Hw2.
  wp_simpl. eapply wp_mono; [apply (secure_create_challenge P2 (identities w1))| |done]; [|done|].
  - intros t Ht. by right.
  - intros ? w3 Hw3. wp_simpl. by apply Hend.
Qed.

(** Reading candidates keeps [secure] and finds only accounts of the email. *)
Lemma wp_read_candidates {A} P ids (m : CP A) (ok : A → Prop) w Q (E : exn → World → Prop) :
  preserves (secure P ids) m →
  (∀ Q' E', (∀ a w', opened w w' → ok a → Q' a w') → (∀ e w', E' e w') → wp m Q' E' w) →
  secure P ids w →
  (∀ a w', secure P ids w' → opened w w' → ok a → Q a w') →
  (∀ e w', secure P ids w' → E e w') → wp m Q E w.
Proof.
  intros Hp Hm Hs HQ HE.
  eapply wp_mono; [apply wp_conj; [by apply Hp|apply (Hm (λ a w', opened w w' ∧ ok a) (λ _ _, True)); [done|done]]| |].
  - intros a w' (? & ? & ?). by apply HQ.
  - intros e w' [? _]. by apply HE.
Qed.

Lemma wp_login_anywhere P email pw tid tids parent sa w0 :
  secure P (identities w0) w0 → parent_ok w0 (norm_email email) parent →
  super_admin_ok w0 (norm_email email) sa →
  wp (login_anywhere sha256 token_urlsafe pwd_verify uuid_text (norm_email email) pw tids parent sa)
    (λ a, sessions_ok P (Login email pw tid) w0 match a with Tokens c _ => [c] | _ => [] end)
    (λ _, sessions_ok P (Login email pw tid) w0 []) w0.
Proof.
  clear set_order. intros Hs Hp Hsa. unfold login_anywhere. destruct tids as [|t tids].
  - unfold _legacy_scan_for_candidate, get_all_tenants. wp_simpl.
    apply (wp_read_candidates P (identities w0) _ (λ o, ∀ c, o = Some c → cand_ok w0 (norm_email email) c));
      [apply keeps_scan, _| |done| |].
    + intros Q' E' HQ' HE'. by apply wp_scan.
    + intros o w1 Hs1 _ Ho. destruct o as [c|]; wp_simpl; [|by apply sessions_ok_none].
      destruct (verify pw (cand_hash c)) eqn:Hv; wp_simpl; [|by apply sessions_ok_none].
      apply wp_complete_ok; [done|by apply Ho|done].
    + intros e w1 Hs1. by apply sessions_ok_none.
  - generalize (take 8 (t :: tids)) as l. intros l. rewrite wp_bind.
    apply (wp_read_candidates P (identities w0) _ (λ cs, ∀ c, c ∈ omap id cs → cand_ok w0 (norm_email email) c));
      [apply preserves_map_each; intros; apply keeps_fetch_candidate, _| |done| |].
    + intros Q' E' HQ' HE'. apply wp_fetch_all with w0; [apply opened_refl|done..].
    + intros cs w1 Hs1 _ Hcs.
      assert (∀ c, c ∈ _verify_candidates_padded pwd_verify (omap id cs) pw →
        cand_ok w0 (norm_email email) c ∧ verify pw (cand_hash c) = true) as Hv.
      { intros c [Hc ?]%candidates_verified. split; [by apply Hcs|done]. }
      destruct (_verify_candidates_padded pwd_verify (omap id cs) pw) as [|c [|c' l']].
      * wp_simpl. by apply sessions_ok_none.
      * apply wp_complete_ok; [done|apply Hv; set_solver|apply Hv; set_solver].
      * by apply wp_challenge_ok.
    + intros e w1 Hs1. by apply sessions_ok_none.
Qed.

Lemma wp_login P email pw tid w0 :
  secure P (identities w0) w0 →
  wp (login_user sha256 token_urlsafe pwd_verify uuid_text set_order email pw tid)
    (λ a, sessions_ok P (Login email pw tid) w0 match a with Tokens c _ => [c] | _ => [] end)
    (λ _, sessions_ok P (Login email pw tid) w0 []) w0.
Proof.
  intros Hs. unfold login_user. rewrite wp_bind. apply wp_enumerate. intros tids parent sa Hp Hsa.
  destruct tid as [t|]; [|by apply wp_login_anywhere].
  case_bool_decide; [by apply wp_login_anywhere|].
  case_bool_decide; wp_simpl; [|by apply sessions_ok_none].
  apply (wp_read_candidates P (identities w0) _ (λ o, ∀ c, o = Some c → cand_ok w0 (norm_email email) c));
    [apply keeps_fetch_candidate, _| |done| |].
  - intros Q' E' HQ' HE'. apply wp_fetch_candidate; [done|done|]. intros o w1 Ho Hc. apply HQ'; [done|].
    intros c ->. by apply (Hc c).
  - intros o w1 Hs1 _ Ho. destruct o as [c|]; wp_simpl; [|by apply sessions_ok_none].
    destruct (verify pw (cand_hash c)) eqn:Hv; wp_simpl; [|by apply sessions_ok_none].
    apply wp_complete_ok; [done|by apply Ho|done].
  - intros e w1 Hs1. by apply sessions_ok_none.
Qed.

Lemma wp_refresh P tok w :
  secure P (identities w) w →
  wp (rotate_refresh_token sha256 token_urlsafe uuid_text tok)
    (λ r, sessions_ok P (Refresh tok) w [r.1]) (λ _, sessions_ok P (Refresh tok) w []) w.
Proof.
  intros Hs. unfold rotate_refresh_token, get_refresh_token. wp_simpl.
  destruct (find_refresh (sha256 tok) w) as [[id r]|] eqn:Hf; wp_simpl; [|by apply sessions_ok_none].
  apply find_row_Some in Hf as [Hr _]. pose proof (se_refresh _ _ _ Hs _ _ Hr) as HP.
  cbn [fst snd]. destruct (rf_revoked r); wp_simpl.
  { eapply wp_mono; [by apply (secure_family P (identities w))| |];
      intros; wp_simpl; by apply sessions_ok_none. }
  destruct (_ <? _); wp_simpl; [|by apply sessions_ok_none].
  assert (∀ w', secure P (identities w) w' → sessions_ok P (Refresh tok) w [] w') as Hend.
  { intros. by apply sessions_ok_none. }
  eapply wp_mono; [by apply (keeps_resolve (secure P (identities w)))| |done]. intros [[user role] roles] w1 Hs1.
  eapply (wp_skip (secure P (identities w))); [apply keeps_draw, _|done| |done]. intros n w2 Hs2.
  wp_simpl. eapply wp_mono; [by apply (secure_create_refresh P (identities w))| |done].
  intros ? w3 Hs3. wp_simpl. destruct (find_refresh _ w3) as [[new_id new_r]|]; wp_simpl; [|by apply Hend].
  eapply wp_mono; [by apply (secure_rotate P (identities w))| |done]. intros ? w4 Hs4.
  unfold create_access_token. wp_simpl. split; [apply (Hend w4 Hs4)|].
  intros c ->%list_elem_of_singleton. exists (rf_identity r), (rf_tenant r). split; [|by left].
  split; [done|]. simpl. by case_bool_decide.
Qed.

Lemma wp_redeem P tok t w :
  secure P (identities w) w →
  wp (login_redeem sha256 token_urlsafe uuid_text tok t)
    (λ a, sessions_ok P (Redeem tok t) w match a with Tokens c _ => [c] | _ => [] end)
    (λ _, sessions_ok P (Redeem tok t) w []) w.
Proof.
  intros Hs. unfold login_redeem.
  assert (∀ w', secure P (identities w) w' → sessions_ok P (Redeem tok t) w [] w') as Hend.
  { intros. by apply sessions_ok_none. }
  rewrite wp_bind. eapply wp_mono; [by apply (secure_redeem P (identities w))| |by intros; apply Hend].
  intros o w1 [Ho Hs1]. destruct o as [[i ts]|]; rewrite wp_bind; [|by apply wp_raise, Hend].
  apply wp_ret. rewrite wp_bind, wp_guard_or. case_bool_decide as Ht; [|by apply Hend].
  specialize (Ho i ts t eq_refl Ht).
  eapply (wp_skip (secure P (identities w))); [apply keeps_account, _|done| |done].
  intros [[user role] roles] w2 Hs2. unfold get_identity_by_id. wp_simpl.
  destruct (identities w2 !! i) as [email|]; wp_simpl; [|by apply Hend].
  assert (∀ c w3, session_of i t c → secure P (identities w) w3 →
    wp (issue_refresh_token sha256 token_urlsafe i t role)
      (λ raw, wp (mret (Tokens c raw) : CP login_answer)
        (λ a, sessions_ok P (Redeem tok t) w match a with Tokens c _ => [c] | _ => [] end)
        (λ _, sessions_ok P (Redeem tok t) w []))
      (λ _, sessions_ok P (Redeem tok t) w []) w3) as Hfin.
  { intros c w3 Hc Hs3. eapply wp_mono; [by apply (secure_issue P (identities w))| |done].
    intros raw w4 Hs4. wp_simpl. split; [apply (Hend w4 Hs4)|].
    intros c' ->%list_elem_of_singleton. exists i, t. split; [done|by left]. }
  unfold create_access_token. wp_simpl. case_bool_decide; wp_simpl.
  - by apply Hfin.
  - eapply wp_mono; [by apply (keeps_touch (secure P (identities w)))| |done]. intros ? w3 Hs3.
    cbv beta. wp_simpl. by apply Hfin.
Qed.

Lemma auth_step P q w :
  secure P (identities w) w →
  wp (run_auth q) (λ cs, sessions_ok P q w cs) (λ _, sessions_ok P q w []) w.
Proof.
  intros Hs. destruct q as [e p t|tok t|tok|secs]; unfold run_auth; [| | |wp_simpl].
  1-3: rewrite wp_bind; eapply wp_mono;
    [first [by apply wp_login|by apply wp_redeem|by apply wp_refresh]|intros; by wp_simpl|done].
  apply sessions_ok_none. eapply secure_frame; [exact Hs| |done..]. destruct Hs as [Hwf _ _ _]. wf_frame.
Qed.

(** ** Every session goes back to a password

    The requests answered so far, each with the state it met, the sessions it
    handed out and the state it left. *)
Definition entry : Type := auth_req * World * list claims * World.

Fixpoint auth_log (qs : list auth_req) (w : World) : list entry :=
  match qs with
  | [] => []
  | q :: qs =>
      let '(r, w') := run_auth q w in
      (q, w, match r with Ok cs => cs | Raise _ => [] end, w') :: auth_log qs w'
  end.

(** Identity [i] passed a password at school [t] in one of the entries. *)
Definition proved (log : list entry) (i : Z) (t : string) : Prop :=
  ∃ email password tid w cs w', (Login email password tid, w, cs, w') ∈ log ∧
    credential w (norm_email email) t password ∧
    ∃ e, identities w' !! i = Some e ∧ str_lower e = norm_email email.

Lemma auth_log_trusted P qs w l1 q w1 cs w2 l2 :
  secure P (identities w) w →
  auth_log qs w = l1 ++ (q, w1, cs, w2) :: l2 →
  ∀ c, c ∈ cs → ∃ i t, session_of i t c ∧ (P i t ∨ proved (l1 ++ [(q, w1, cs, w2)]) i t).
Proof.
  revert P w l1. induction qs as [|q0 qs IH]; intros P w l1 Hs Hlog; [by destruct l1|].
  simpl in Hlog. pose proof (auth_step P q0 w Hs) as Hstep. unfold wp in Hstep.
  destruct (run_auth q0 w) as [r w'].
  set (cs0 := match r with Ok cs => cs | Raise _ => [] end) in *.
  assert (sessions_ok P q0 w cs0 w') as [Hs' Hcs] by by destruct r.
  assert (∀ i t, trusted P q0 w w' i t → P i t ∨ proved [(q0, w, cs0, w')] i t) as Htr.
  { intros i t [|Ht]; [by left|]. right. destruct q0 as [e p tid| | |]; try done.
    exists e, p, tid, w, cs0, w'. split; [by apply list_elem_of_singleton|done]. }
  destruct l1 as [|x l1]; simpl in Hlog; injection Hlog as Hx Hlog.
  - simplify_eq. intros c Hc. destruct (Hcs c Hc) as (i & t & ? & Ht). eauto.
  - subst x. intros c Hc.
    destruct (IH (trusted P q0 w w') w' l1 (secure_ids _ _ _ Hs') Hlog c Hc) as (i & t & Hct & Ht).
    exists i, t. split; [done|].
    assert (∀ l, l ⊆ ((q0, w, cs0, w') :: l1) ++ [(q, w1, cs, w2)] → proved l i t →
      proved (((q0, w, cs0, w') :: l1) ++ [(q, w1, cs, w2)]) i t) as Hmono.
    { intros l Hl (? & ? & ? & ? & ? & ? & Hin & ?). do 6 eexists. split; [by apply Hl|done]. }
    destruct Ht as [[Ht|Ht]%Htr|Ht]; [by left|right..]; (eapply Hmono; [|exact Ht]); set_solver.
Qed.

(** C1: no session without a password. Take any sequence of logins,
    school selections, refreshes and pauses, from a state with no outstanding
    tokens. Every access token handed out names an identity and a school such
    that, in this request or an earlier one, a login with that identity's
    email gave a password that the account it has at that school (or the
    platform operator's account) accepted at that moment. *)
Theorem sessions_come_from_passwords qs w l1 q w1 cs w2 l2 :
  control_plane_wf w → challenges w = ∅ → refresh_tokens w = ∅ →
  auth_log qs w = l1 ++ (q, w1, cs, w2) :: l2 →
  ∀ c, c ∈ cs → ∃ i t, session_of i t c ∧ proved (l1 ++ [(q, w1, cs, w2)]) i t.
Proof.
  intros Hwf Hch Hrf Hlog c Hc.
  destruct (auth_log_trusted (λ _ _, False) qs w l1 q w1 cs w2 l2) with (c := c) as (i & t & ? & [[]|?]);
    [|done|done|eauto].
  constructor; [done|done|rewrite Hch|rewrite Hrf]; intros ? ?; by rewrite lookup_empty.
Qed.
End login.

(** ** A concrete deployment *)
Definition demo_sha (s : string) : string := "sha:" +:+ s.
Definition demo_token (n : Z) : string := "tok" +:+ pretty n.
Definition demo_verify (p h : string) : option bool := Some (bool_decide (h = "pw:" +:+ p)).
Definition demo_login_world : World :=
  run_cps demo_uuid [StartProcess "pw:root"; CreateParent "Pat@Home.org" "pw:secret"; LinkParent 2 "tenant_b"]
    empty_world.
Definition demo_log (qs : list auth_req) : list entry :=
  auth_log demo_sha demo_token demo_verify demo_uuid id qs demo_login_world.
Definition entry_0 : entry := (Pass 0, empty_world, [], empty_world).
Definition nth_entry (n : nat) (l : list entry) : entry := default entry_0 (l !! n).

(** A log around one of its entries. *)
Lemma nth_entry_lookup n l : (n < length l)%nat → l !! n = Some (nth_entry n l).
Proof. unfold nth_entry. intros [e He]%lookup_lt_is_Some_2. by rewrite He. Qed.

Lemma log_around n l q cs :
  (n < length l)%nat → (nth_entry n l).1.1.1 = q → (nth_entry n l).1.2 = cs →
  l = take n l ++ (q, (nth_entry n l).1.1.2, cs, (nth_entry n l).2) :: drop (S n) l.
Proof.
  intros Hn%nth_entry_lookup <- <-. rewrite <-(take_drop_middle l n _ Hn) at 1.
  by destruct (nth_entry n l) as [[[]]].
Qed.

Lemma log_has d k l q :
  (d + k < length l)%nat → (nth_entry (d + k) l).1.1.1 = q →
  (q, (nth_entry (d + k) l).1.1.2, (nth_entry (d + k) l).1.2, (nth_entry (d + k) l).2) ∈ drop d l.
Proof.
  intros Hn%nth_entry_lookup <-. rewrite <-lookup_drop in Hn. apply list_elem_of_lookup_2 in Hn.
  by destruct (nth_entry (d + k) l) as [[[]]].
Qed.

Definition demo_reqs : list auth_req :=
  [Login "pat@home.org" "guess" None; Login " PAT@home.org" "secret" None; Refresh "tok4"].
Definition no_claims : claims := Build_claims "" "" "" [] "" 0 None.
Definition demo_session : claims := default no_claims (head (nth_entry 2 (demo_log demo_reqs)).1.2).

Lemma sessions_come_from_passwords_witness :
  let e := nth_entry 2 (demo_log demo_reqs) in
  ∃ i, session_of i "tenant_b" demo_session ∧
    proved demo_verify (take 2 (demo_log demo_reqs) ++ [(Refresh "tok4", e.1.1.2, [demo_session], e.2)]) i "tenant_b".
Proof.
  intros e. destruct (sessions_come_from_passwords demo_sha demo_token demo_verify demo_uuid id demo_reqs
    demo_login_world (take 2 (demo_log demo_reqs)) (Refresh "tok4") e.1.1.2
    [demo_session] e.2 (drop 3 (demo_log demo_reqs))) with (c := demo_session) as (i & t & Hs & Hp).
  - apply wf_run, empty_world_wf.
  - vm_compute. reflexivity.
  - vm_compute. reflexivity.
  - apply (log_around 2 (demo_log demo_reqs)); [apply Nat.ltb_lt|..]; vm_compute; reflexivity.
  - by left.
  - assert (t = "tenant_b") as -> by (destruct Hs as [_ <-]; vm_compute; reflexivity).
    exists i. split; [exact Hs|exact Hp].
Defined.

(** A parent of two schools who never entered one of them gets a session
    there by naming it, but not by selecting it: the selection looks the
    account up and does not create it. *)
Definition two_schools : World :=
  run_cps demo_uuid [StartProcess "pw:root"; CreateParent "Pat@Home.org" "pw:secret"; LinkParent 2 "tenant_b";
    LinkParent 2 "tenant_a"] empty_world.

Example selection_refuses_a_new_school :
  let log := auth_log demo_sha demo_token demo_verify demo_uuid id in
  map (λ e : entry, length e.1.2)
    (log [Login "pat@home.org" "secret" None; Redeem "tok4" "tenant_a"] two_schools) = [0; 0]%nat ∧
  map (λ e : entry, length e.1.2) (log [Login "pat@home.org" "secret" (Some "tenant_a")] two_schools) = [1]%nat.
Proof. by vm_compute. Qed.
