(* ===== verification/Refresh.v ===== *)
(** * Refresh tokens: single use, and theft detection

    The [refresh_tokens] table under any sequence of requests, as an abstract
    step relation on families: a login opens a family with one live token, a
    refresh moves the family on to a new token, a reused token closes it. *)
From S2P Require Import Prelude PyText Authz Store Structure School World UserRepo Provision ControlPlane Membership Session Login.

Abbreviation refresh_table := (gmap Z refresh_row).

Definition live (m : refresh_table) (f : Z) : Prop :=
  ∃ k r, m !! k = Some r ∧ rf_family r = f ∧ rf_revoked r = None.

(** What one request may do to the table; [n] and [n'] bound the serial
    numbers drawn before and after it. *)
Inductive rt_step (sha256 : string → string)
    : auth_req → Z → refresh_table → list claims → Z → refresh_table → Prop :=
  | rt_quiet q n n' m cs :
      (∀ tok, q = Refresh tok → cs = [] ∧
         ∀ k r, m !! k = Some r → rf_hash r = sha256 tok → rf_revoked r = None) →
      n ≤ n' → rt_step sha256 q n m cs n' m
  | rt_open q n n' m cs k r :
      (∀ tok, q ≠ Refresh tok) → n ≤ n' → m !! k = None → rf_revoked r = None →
      n ≤ rf_family r < n' → rt_step sha256 q n m cs n' (<[k := r]> m)
  | rt_reuse tok n n' m k r t :
      n ≤ n' → m !! k = Some r → rf_hash r = sha256 tok → rf_revoked r ≠ None →
      rt_step sha256 (Refresh tok) n m [] n'
        (update_where (λ _ r', (rf_family r' =? rf_family r) && bool_decide (rf_revoked r' = None))
           (λ r', r' <| rf_revoked := Some t |>) m)
  | rt_rotate tok n n' m cs k r k' r' t :
      n ≤ n' → m !! k = Some r → rf_hash r = sha256 tok → rf_revoked r = None →
      m !! k' = None → rf_revoked r' = None → rf_family r' = rf_family r →
      rt_step sha256 (Refresh tok) n m cs n'
        (alter (λ r, r <| rf_revoked := Some t |> <| rf_replaced := Some k' |>) k (<[k' := r']> m)).

(** Every family was drawn, and has at most one live token. *)
Record families_ok (n : Z) (m : refresh_table) : Prop := {
  fo_drawn : ∀ k r, m !! k = Some r → rf_family r < n;
  fo_live : ∀ k k' r r', m !! k = Some r → m !! k' = Some r' → rf_family r = rf_family r' →
    rf_revoked r = None → rf_revoked r' = None → k = k';
}.

Section table.
Context (sha256 : string → string).

(** Rows stay, keep their hash and family, and are never revived. *)
Lemma rt_rows q n m cs n' m' k r :
  rt_step sha256 q n m cs n' m' → m !! k = Some r →
  ∃ r', m' !! k = Some r' ∧ rf_hash r' = rf_hash r ∧ rf_family r' = rf_family r ∧
    (rf_revoked r ≠ None → rf_revoked r' ≠ None).
Proof.
  intros H Hk. inversion H; subst; [by eauto 6|..].
  - exists r. rewrite lookup_insert_ne by congruence. done.
  - rewrite lookup_update_where, Hk. simpl. eexists. split; [done|]. by destruct (_ && _).
  - destruct (decide (k0 = k)) as [->|].
    + rewrite lookup_alter_eq, lookup_insert_ne, Hk by congruence. simpl. eauto 6.
    + rewrite lookup_alter_ne, lookup_insert_ne by congruence. eauto 6.
Qed.

(** A family that was drawn and has no live token gets none. *)
Lemma rt_dead q n m cs n' m' f :
  rt_step sha256 q n m cs n' m' → f < n → ¬ live m f → ¬ live m' f.
Proof.
  intros H Hf Hdead (j & a & Ha & Hfa & Hl). inversion H; subst.
  - apply Hdead. by exists j, a.
  - revert Ha. rewrite lookup_insert_Some. intros [[_ <-]|[_ Ha]]; [lia|]. apply Hdead. by exists j, a.
  - revert Ha. rewrite lookup_update_where, fmap_Some. intros (b & Hb & ->).
    destruct (_ && _) eqn:E; [done|]. apply Hdead. by exists j, b.
  - revert Ha. rewrite lookup_alter_Some. intros [(_ & b & _ & ->)|[Hne Ha]]; [done|].
    revert Ha. rewrite lookup_insert_Some. intros [[_ <-]|[_ Ha]].
    + apply Hdead. exists k, r. done.
    + apply Hdead. by exists j, a.
Qed.

Lemma rt_families q n m cs n' m' :
  rt_step sha256 q n m cs n' m' → families_ok n m → families_ok n' m'.
Proof.
  intros H [Hd Hl]. inversion H; subst.
  - split; [|done]. intros k r Hk. specialize (Hd k r Hk). lia.
  - split.
    + intros j a. rewrite lookup_insert_Some. intros [[_ <-]|[_ Ha]]; [lia|]. specialize (Hd j a Ha). lia.
    + intros j j' a b. rewrite !lookup_insert_Some. intros [[<- <-]|[_ Ha]] [[<- <-]|[_ Hb]] Hf; [done|..].
      * specialize (Hd _ _ Hb). lia.
      * specialize (Hd _ _ Ha). lia.
      * by apply (Hl j j' a b).
  - split.
    + intros j a. rewrite lookup_update_where, fmap_Some. intros (b & Hb & ->).
      specialize (Hd j b Hb). destruct (_ && _); simpl; lia.
    + intros j j' a b. rewrite !lookup_update_where, !fmap_Some. intros (a' & Ha & ->) (b' & Hb & ->).
      destruct (_ && _); [done|]. destruct (_ && _); [done|]. by apply (Hl j j' a' b').
  - split.
    + intros j a. rewrite lookup_alter_Some. intros Hj.
      assert (∃ b, <[k' := r']> m !! j = Some b ∧ rf_family a = rf_family b) as (b & Hb & ->)
        by (destruct Hj as [(_ & b & ? & ->)|[_ ?]]; eauto).
      revert Hb. rewrite lookup_insert_Some.
      intros [[_ <-]|[_ Hb]]; [match goal with H : rf_family r' = _ |- _ => rewrite H end|];
        (eapply Z.lt_le_trans; [by eapply Hd|done]).
    + intros j j' a b. rewrite !lookup_alter_Some.
      intros [(_ & a' & _ & ->)|[Hj Ha]]; [done|]. intros [(_ & b' & _ & ->)|[Hj' Hb]]; [done|].
      revert Ha Hb. rewrite !lookup_insert_Some.
      intros [[<- <-]|[_ Ha]] [[<- <-]|[_ Hb]] Hf Hra Hrb; [done|..].
      * destruct Hj'. apply (Hl k j' r b); try done. congruence.
      * destruct Hj. apply (Hl k j r a); try done. congruence.
      * by apply (Hl j j' a b).
Qed.

Lemma rt_refused tok n m cs n' m' k r :
  unique_by rf_hash m → rt_step sha256 (Refresh tok) n m cs n' m' →
  m !! k = Some r → rf_hash r = sha256 tok → rf_revoked r ≠ None →
  cs = [] ∧ ¬ live m' (rf_family r).
Proof.
  intros Hu H Hk Hh Hr. inversion H as [? ? ? ? ? Hq|? ? ? ? ? ? ? Hq|? ? ? ? k0 r0 t ? Hk0 Hh0
    |? ? ? ? ? k0 r0 ? ? ? ? Hk0 Hh0 Hl0]; subst.
  - destruct (Hq tok eq_refl) as [_ Hl]. destruct Hr. by eapply Hl.
  - by destruct (Hq tok).
  - assert (k0 = k) as -> by (apply (Hu k0 k r0 r); congruence). simplify_eq. split; [done|].
    intros (j & a & Ha & Hf & Hl). revert Ha. rewrite lookup_update_where, fmap_Some.
    intros (b & Hb & ->). destruct (_ && _) eqn:E; [done|].
    rewrite andb_false_iff, Z.eqb_neq, bool_decide_eq_false in E. by destruct E.
  - assert (k0 = k) as -> by (apply (Hu k0 k r0 r); congruence). simplify_eq.
Qed.

Lemma rt_used tok n m c cs n' m' :
  rt_step sha256 (Refresh tok) n m (c :: cs) n' m' →
  ∃ k r, m' !! k = Some r ∧ rf_hash r = sha256 tok ∧ rf_revoked r ≠ None.
Proof.
  intros H. inversion H as [? ? ? ? ? Hq|? ? ? ? ? ? ? Hq|
    |? ? ? ? ? k0 r0 k1 ? ? ? Hk0 Hh0 Hl0 Hk1]; subst.
  - by destruct (Hq tok eq_refl).
  - by destruct (Hq tok).
  - exists k0. rewrite lookup_alter_eq, lookup_insert_ne, Hk0 by congruence. by eexists.
Qed.
End table.

(** ** The requests implement the step relation *)
Section requests.
Context (sha256 : string → string) (token_urlsafe : Z → string)
        (pwd_verify : string → string → option bool)
        (uuid_text : Z → string) (set_order : list string → list string).

(** A request that is no refresh keeps the table, or opens one family. *)
Definition session_step (w w' : World) : Prop :=
  cp_next w ≤ cp_next w' ∧
  (refresh_tokens w' = refresh_tokens w ∨
   ∃ k r, refresh_tokens w !! k = None ∧ refresh_tokens w' = <[k := r]> (refresh_tokens w) ∧
     rf_revoked r = None ∧ cp_next w ≤ rf_family r < cp_next w').

Lemma session_calm w w' : calm w w' → session_step w w'.
Proof. intros []. split; [done|]. by left. Qed.

Lemma session_step_from w w1 w' :
  refresh_tokens w1 = refresh_tokens w → cp_next w ≤ cp_next w1 → session_step w1 w' → session_step w w'.
Proof.
  intros Hr Hn [Hn' H]. split; [lia|]. rewrite Hr in H. destruct H as [H|(k & r & ? & ? & ? & ?)]; [by left|].
  right. exists k, r. split_and!; [done..|lia|lia].
Qed.

Lemma wp_create_refresh h i t r f x (Q : unit → World → Prop) (E : exn → World → Prop) w :
  control_plane_wf w →
  (∀ row w', rf_family row = f → rf_revoked row = None → rf_hash row = h → find_refresh h w = None →
     refresh_tokens w !! cp_next w = None → cp_next w' = cp_next w + 1 →
     w' = w <| refresh_tokens ::= <[cp_next w := row]> |> <| cp_next := cp_next w' |> → Q tt w') →
  (∀ e, E e w) → wp (create_refresh_token h i t r f x) Q E w.
Proof.
  intros Hwf HQ HE. unfold create_refresh_token, cp_check, cp_insert. wp_simpl.
  case_bool_decide as Hf; wp_simpl; [|done]. destruct (tenant_id_fits t); wp_simpl; [|done].
  destruct (has_row _ _); wp_simpl; [|done]. eapply HQ; [..|by destruct w]; try done.
  apply ids_below_fresh, Hwf.
Qed.

Lemma issue_opens w0 i t role w :
  calm w0 w →
  wp (issue_refresh_token sha256 token_urlsafe i t role) (λ _, session_step w0) (λ _, session_step w0) w.
Proof.
  intros Hw. unfold issue_refresh_token. eapply (wp_skip (calm w0)); [apply keeps_draw, _|done| |by intros; apply session_calm].
  intros n w1 Hw1. unfold draw. wp_simpl.
  assert (calm w0 (w1 <| cp_next := cp_next w1 + 1 |>)) as Hw2.
  { eapply framed_calm; [exact Hw1|]. constructor; simpl; [|done..|lia]. apply wf_next; [apply Hw1|lia]. }
  apply wp_create_refresh; [apply Hw2| |intros; by apply session_calm].
  intros row w2 Hf Hrv _ _ Hk Hn2 ->. wp_simpl. destruct Hw1 as [_ _ _ Hr1 Hn1]. simpl in *.
  split; simpl; [lia|]. right. rewrite Hn2. exists (cp_next w1 + 1), row. rewrite <-Hr1, Hf. split_and!; try done; lia.
Qed.

Lemma complete_opens w0 c email w :
  calm w0 w →
  wp (_complete_login sha256 token_urlsafe uuid_text c email) (λ _, session_step w0) (λ _, session_step w0) w.
Proof.
  intros Hw. unfold _complete_login. rewrite wp_bind. apply (keeps_identity (calm w0)); [done|].
  assert (∀ e w', calm w0 w' → (λ _ : exn, session_step w0) e w') as HE by (intros; by apply session_calm).
  intros i w1 Hw1 _.
  assert (∀ u t1 r em rs t role w', calm w0 w' →
    wp (access ← create_access_token u t1 r em rs (Some i);
        refresh ← issue_refresh_token sha256 token_urlsafe i t role; mret (Tokens access refresh))
      (λ _, session_step w0) (λ _, session_step w0) w') as Hmint.
  { intros. unfold create_access_token. wp_simpl. eapply wp_mono; [by apply issue_opens|done|done]. }
  destruct c as [id r|t pid p|t id r]; [by apply Hmint|..].
  - unfold check_parent_tenant_link. wp_simpl. case_bool_decide; wp_simpl; [|by apply session_calm].
    eapply wp_mono; [by apply (keeps_open (calm w0))| |done]. intros ? w3 Hs3.
    wp_simpl. eapply wp_mono; [by apply (keeps_in_school (calm w0))| |done]. intros u w4 Hs4.
    eapply (wp_skip (calm w0)); [|done| |done].
    { destruct u as [[]|]; [apply preserves_ret|].
      apply preserves_bind; [apply keeps_in_school, _|intros ?; apply keeps_in_school, _]. }
    intros uid w5 Hs5. eapply (wp_skip (calm w0)); [apply keeps_upsert, _|done| |done].
    intros ? w6 Hs6. by apply Hmint.
  - eapply (wp_skip (calm w0)); [apply keeps_upsert, _|done| |done].
    intros ? w3 Hs3. by apply Hmint.
Qed.

Lemma challenge_opens w0 email l w :
  calm w0 w →
  wp (_issue_login_selection_challenge sha256 token_urlsafe email l) (λ _, session_step w0)
    (λ _, session_step w0) w.
Proof.
  intros Hw. unfold _issue_login_selection_challenge. rewrite wp_bind.
  apply (keeps_identity (calm w0)); [done|]. intros i w1 Hw1 _.
  eapply (wp_skip (calm w0)); [apply keeps_draw, _|done| |by intros; apply session_calm].
  intros n w2 [_ _ _ Hr Hn]. unfold create_selection_challenge, cp_check, cp_insert. wp_simpl.
  assert (session_step w0 w2) by (split; [lia|by left]).
  case_bool_decide; wp_simpl; [|done]. destruct (has_row _ _); wp_simpl; [|done].
  split; simpl; [lia|by left].
Qed.

Lemma login_opens email pw tid w0 :
  control_plane_wf w0 →
  wp (login_user sha256 token_urlsafe pwd_verify uuid_text set_order email pw tid)
    (λ _, session_step w0) (λ _, session_step w0) w0.
Proof.
  intros Hwf. assert (calm w0 w0) as H0 by (constructor; [done..|lia]).
  assert (∀ e w', calm w0 w' → (λ _ : exn, session_step w0) e w') as HE by (intros; by apply session_calm).
  assert (∀ w1, calm w0 w1 → session_step w0 w1) as HS by apply session_calm.
  unfold login_user. rewrite wp_bind. apply wp_enumerate. intros tids parent sa _ _.
  assert (wp (login_anywhere sha256 token_urlsafe pwd_verify uuid_text (norm_email email) pw tids parent sa)
    (λ _, session_step w0) (λ _, session_step w0) w0) as Hany.
  { unfold login_anywhere. destruct tids as [|t tids].
    - unfold _legacy_scan_for_candidate, get_all_tenants. wp_simpl.
      eapply wp_mono; [by apply (keeps_scan (calm w0))| |done]. intros o w1 Hw1.
      destruct o as [c|]; wp_simpl; [|by apply HS]. destruct (verify_password _ _ _); wp_simpl; [|by apply HS].
      by apply complete_opens.
    - generalize (take 8 (t :: tids)) as l. intros l.
      eapply (wp_skip (calm w0)); [|done| |done].
      { apply preserves_map_each. intros. apply keeps_fetch_candidate, _. }
      intros cs w1 Hw1. destruct (_verify_candidates_padded _ _ _) as [|c [|c' l']].
      + wp_simpl. by apply HS.
      + by apply complete_opens.
      + by apply challenge_opens. }
  destruct tid as [t|]; [|done]. case_bool_decide; [done|].
  case_bool_decide; wp_simpl; [|by apply HS].
  eapply wp_mono; [by apply (keeps_fetch_candidate (calm w0))| |done]. intros o w1 Hw1.
  destruct o as [c|]; wp_simpl; [|by apply HS]. destruct (verify_password _ _ _); wp_simpl; [|by apply HS].
  by apply complete_opens.
Qed.

Lemma redeem_opens tok t w0 :
  control_plane_wf w0 →
  wp (login_redeem sha256 token_urlsafe uuid_text tok t) (λ _, session_step w0) (λ _, session_step w0) w0.
Proof.
  intros Hwf. unfold login_redeem. rewrite wp_bind.
  set (kept := λ w1, refresh_tokens w1 = refresh_tokens w0 ∧ cp_next w1 = cp_next w0).
  assert (wp (redeem_selection_challenge (sha256 tok)) (λ _, kept) (λ _, kept) w0) as Hkept.
  { unfold redeem_selection_challenge. wp_simpl. by destruct (find_row _ _) as [[k r]|]. }
  eapply wp_mono; [apply wp_conj; [apply (same_redeem (user_tenant_map w0)); by split|exact Hkept]|..].
  2:{ intros e w1 [_ [Hr Hn]]. split; [lia|by left]. }
  intros o w1 [[Hwf1 _] [Hr Hn]].
  assert (calm w1 w1) as H1 by (constructor; [done..|lia]).
  assert (∀ w2, session_step w1 w2 → session_step w0 w2) as HS1.
  { intros w2. apply session_step_from; [done|lia]. }
  assert (∀ w2, calm w1 w2 → session_step w0 w2) as HS by (intros; by apply HS1, session_calm).
  destruct o as [[i ts]|]; rewrite wp_bind; [|by apply wp_raise, HS].
  apply wp_ret. rewrite wp_bind, wp_guard_or. case_bool_decide as Ht; [|by apply HS].
  eapply (wp_skip (calm w1)); [apply keeps_account, _|done| |by intros; apply HS].
  intros [[user role] roles] w2 Hw2. unfold get_identity_by_id. wp_simpl.
  destruct (identities w2 !! i) as [email|]; wp_simpl; [|by apply HS].
  assert (∀ c w3, calm w1 w3 →
    wp (issue_refresh_token sha256 token_urlsafe i t role)
      (λ raw, wp (mret (Tokens c raw) : CP login_answer) (λ _, session_step w0) (λ _, session_step w0))
      (λ _, session_step w0) w3) as Hfin.
  { intros c w3 Hw3. eapply wp_mono; [by apply (issue_opens w1)|..]; intros; by apply HS1. }
  unfold create_access_token. wp_simpl. case_bool_decide; wp_simpl.
  - by apply Hfin.
  - eapply wp_mono; [by apply (keeps_touch (calm w1))| |by intros; apply HS]. intros ? w3 Hw3.
    cbv beta. wp_simpl. by apply Hfin.
Qed.

Definition refines (q : auth_req) (w : World) (cs : list claims) (w' : World) : Prop :=
  rt_step sha256 q (cp_next w) (refresh_tokens w) cs (cp_next w') (refresh_tokens w').

Lemma find_refresh_new h w k row :
  find_refresh h w = None → refresh_tokens w !! k = None → rf_hash row = h →
  find_row (λ _ r, bool_decide (rf_hash r = h)) (<[k := row]> (refresh_tokens w)) = Some (k, row).
Proof.
  intros Hn Hk Hh.
  assert (∀ k' r', <[k := row]> (refresh_tokens w) !! k' = Some r' → rf_hash r' = h → k' = k) as Huniq.
  { intros k' r'. rewrite lookup_insert_Some. intros [[<- <-]|[_ Hr']]; [done|]. intros He.
    eapply find_row_None in Hn; [|exact Hr']. by case_bool_decide. }
  destruct (find_row _ _) as [[k' r']|] eqn:E.
  - apply find_row_Some in E as [Hk' Hh'%bool_decide_eq_true].
    pose proof (Huniq _ _ Hk' Hh') as ->. rewrite lookup_insert_eq in Hk'. by injection Hk' as ->.
  - eapply find_row_None in E; [|apply lookup_insert_eq]. rewrite Hh in E. by case_bool_decide.
Qed.

Lemma refresh_refines tok w :
  control_plane_wf w →
  wp (rotate_refresh_token sha256 token_urlsafe uuid_text tok)
    (λ r, refines (Refresh tok) w [r.1]) (λ _, refines (Refresh tok) w []) w.
Proof.
  intros Hwf.
  assert (∀ w', (∀ k r, refresh_tokens w !! k = Some r → rf_hash r = sha256 tok → rf_revoked r = None) →
    calm w w' → refines (Refresh tok) w [] w') as Hend.
  { intros w' Hno [_ _ _ Hr Hn]. unfold refines. rewrite Hr. constructor; [|done]. intros ? [= <-]. done. }
  assert (calm w w) as H0 by (constructor; [done..|lia]).
  unfold rotate_refresh_token, get_refresh_token. wp_simpl.
  destruct (find_refresh (sha256 tok) w) as [[id r]|] eqn:Hf; wp_simpl.
  2:{ apply Hend; [|done]. intros k r Hk He. eapply find_row_None in Hf; [|exact Hk]. by case_bool_decide. }
  apply find_row_Some in Hf as [Hr Hh%bool_decide_eq_true].
  cbn [fst snd]. destruct (rf_revoked r) eqn:Hrv.
  { unfold revoke_refresh_token_family. wp_simpl. apply rt_reuse with id; simpl; [lia|done|done|congruence]. }
  assert (∀ k r, refresh_tokens w !! k = Some r → rf_hash r = sha256 tok → rf_revoked r = None) as Hlv.
  { intros k r' Hk He. assert (k = id) as ->; [|congruence].
    apply (wt_refresh_hash w (proj2 (proj2 Hwf)) k id r' r); congruence. }
  specialize (λ w', Hend w' Hlv).
  wp_simpl. destruct (_ <? _); wp_simpl; [|by apply Hend].
  eapply wp_mono; [by apply (keeps_resolve uuid_text (calm w))| |by intros; apply Hend].
  intros [[user role] roles] w1 Hs1.
  eapply (wp_skip (calm w)); [apply keeps_draw, _|done| |by intros; apply Hend]. intros n w2 Hs2.
  wp_simpl. apply wp_create_refresh; [apply Hs2| |intros; by apply Hend].
  intros row w3 Hfam Hlive Hhash Hnone Hk Hn3 ->. wp_simpl.
  unfold find_refresh. simpl. rewrite (find_refresh_new _ w2) by done. wp_simpl.
  unfold repo_rotate_refresh_token, create_access_token. wp_simpl.
  unfold refines. simpl. destruct Hs2 as [_ _ _ Hr2 Hn2]. rewrite Hr2, Hn3 in *.
  eapply rt_rotate; [lia|exact Hr|done..].
Qed.

Lemma session_refines q w cs w' : (∀ tok, q ≠ Refresh tok) → session_step w w' → refines q w cs w'.
Proof.
  intros Hq [Hn [Hr|(k & r & Hk & Hr & Hl & Hf)]]; unfold refines; rewrite Hr.
  - apply rt_quiet; [|done]. by intros tok ?%Hq.
  - by apply rt_open.
Qed.

Lemma auth_refines q w :
  control_plane_wf w → wp (run_auth sha256 token_urlsafe pwd_verify uuid_text set_order q)
    (λ cs, refines q w cs) (λ _, refines q w []) w.
Proof.
  intros Hwf. destruct q as [e p t|tok t|tok|secs]; unfold run_auth.
  4:{ wp_simpl. apply session_refines; [done|]. split; simpl; [lia|by left]. }
  all: rewrite wp_bind; eapply wp_mono;
    [first [by apply login_opens|by apply redeem_opens|by apply refresh_refines]|intros ? w' ?; wp_simpl|intros ? w' ?].
  all: first [by apply session_refines|done].
Qed.

(** ** Sequences of requests *)
Local Abbreviation log := (auth_log sha256 token_urlsafe pwd_verify uuid_text set_order).

Definition rt_ok (w : World) : Prop :=
  control_plane_wf w ∧ families_ok (cp_next w) (refresh_tokens w).

Lemma auth_wf q w :
  control_plane_wf w →
  control_plane_wf (run_auth sha256 token_urlsafe pwd_verify uuid_text set_order q w).2.
Proof.
  intros Hwf. assert (secure (λ _ _, True) (identities w) w) as Hs by by constructor.
  apply (auth_step sha256 token_urlsafe pwd_verify uuid_text set_order _ q) in Hs. unfold wp in *.
  destruct (run_auth _ _ _ _ _ q w) as [[cs|e] w']; apply Hs.
Qed.

Lemma auth_rt q w :
  rt_ok w →
  let '(r, w') := run_auth sha256 token_urlsafe pwd_verify uuid_text set_order q w in
  rt_ok w' ∧ refines q w match r with Ok cs => cs | Raise _ => [] end w'.
Proof.
  intros [Hwf Hfam]. pose proof (auth_refines q w Hwf) as Hr. pose proof (auth_wf q w Hwf) as Hwf'.
  unfold wp in *. destruct (run_auth _ _ _ _ _ q w) as [r w'].
  destruct r; (split; [split; [done|by eapply rt_families]|done]).
Qed.

(** What holds of a state and is kept by the requests holds at every later one. *)
Lemma log_invariant (I : World → Prop) qs w :
  (∀ q w1, rt_ok w1 → I w1 → I (run_auth sha256 token_urlsafe pwd_verify uuid_text set_order q w1).2) →
  rt_ok w → I w → ∀ q w1 cs w2, (q, w1, cs, w2) ∈ log qs w → rt_ok w1 ∧ I w1.
Proof.
  intros HI. revert w. induction qs as [|q0 qs IH]; intros w Hok Hw q w1 cs w2; simpl.
  { by intros ?%elem_of_nil. }
  pose proof (auth_rt q0 w Hok) as Hst. specialize (HI q0 w Hok Hw).
  destruct (run_auth _ _ _ _ _ q0 w) as [r w']. destruct Hst as [Hok' _].
  rewrite elem_of_cons. intros [[= -> -> -> ->]|Hin]; [done|]. by apply (IH w' Hok' HI q w1 cs w2).
Qed.

Lemma log_split qs w l1 q w1 cs w2 l2 :
  rt_ok w → log qs w = l1 ++ (q, w1, cs, w2) :: l2 →
  rt_ok w1 ∧ rt_ok w2 ∧ refines q w1 cs w2 ∧ ∃ qs', l2 = log qs' w2.
Proof.
  revert w l1. induction qs as [|q0 qs IH]; intros w l1 Hok Hlog; [by destruct l1|].
  simpl in Hlog. pose proof (auth_rt q0 w Hok) as Hst.
  destruct (run_auth _ _ _ _ _ q0 w) as [r w']. destruct Hst as [Hok' Href].
  destruct l1 as [|x l1]; simplify_eq/=.
  - eauto.
  - by eapply IH.
Qed.

Lemma log_rows qs w k r :
  rt_ok w → refresh_tokens w !! k = Some r →
  ∀ q w1 cs w2, (q, w1, cs, w2) ∈ log qs w →
  rt_ok w1 ∧ refines q w1 cs w2 ∧
  ∃ r', refresh_tokens w1 !! k = Some r' ∧ rf_hash r' = rf_hash r ∧ (rf_revoked r ≠ None → rf_revoked r' ≠ None).
Proof.
  intros Hok Hk q w1 cs w2 Hin.
  destruct (log_invariant (λ w1, ∃ r', refresh_tokens w1 !! k = Some r' ∧ rf_hash r' = rf_hash r ∧
    (rf_revoked r ≠ None → rf_revoked r' ≠ None)) qs w) with (4 := Hin) as [Hok1 Hr'].
  - intros q' w' Hok' (r1 & Hk1 & Hh1 & Hr1). pose proof (auth_rt q' w' Hok') as Hst.
    destruct (run_auth _ _ _ _ _ q' w') as [o w'']. destruct Hst as [_ Href]. simpl.
    destruct (rt_rows _ _ _ _ _ _ _ _ _ Href Hk1) as (r2 & ? & ? & _ & ?). exists r2.
    split_and!; [done|congruence|auto].
  - done.
  - eauto.
  - apply list_elem_of_split in Hin as (l1 & l2 & Hl).
    destruct (log_split _ _ _ _ _ _ _ _ Hok Hl) as (? & _ & ? & _). done.
Qed.

Definition auths (qs : list auth_req) (w : World) : World :=
  fold_left (λ w q, (run_auth sha256 token_urlsafe pwd_verify uuid_text set_order q w).2) qs w.

Lemma auths_wf qs w : control_plane_wf w → control_plane_wf (auths qs w).
Proof. revert w. induction qs as [|q qs IH]; intros w Hwf; [done|]. by apply IH, auth_wf. Qed.

(** One live token per session family. Whatever sequence of logins,
    school selections and refreshes runs, each successful or not, a family of
    refresh tokens never has two tokens that are not revoked, and the control
    plane stays well formed. *)
Theorem one_live_token_per_family qs w : rt_ok w → rt_ok (auths qs w).
Proof.
  revert w. induction qs as [|q qs IH]; intros w Hok; [done|]. simpl. apply IH.
  pose proof (auth_rt q w Hok) as H. by destruct (run_auth _ _ _ _ _ q w) as [r w'], H.
Qed.

(** C9: a refresh token is used at most once. After a refresh token has
    been exchanged for a session, every later attempt to exchange the same
    token is refused, whatever happens in between. *)
Theorem refresh_token_single_use qs w l1 tok w1 c cs w2 l2 w3 cs3 w4 :
  rt_ok w → log qs w = l1 ++ (Refresh tok, w1, c :: cs, w2) :: l2 →
  (Refresh tok, w3, cs3, w4) ∈ l2 → cs3 = [].
Proof.
  intros Hok Hlog Hin. destruct (log_split _ _ _ _ _ _ _ _ Hok Hlog) as (Hok1 & Hok2 & Href & qs' & ->).
  apply rt_used in Href as (k & r & Hk & Hh & Hr).
  destruct (log_rows qs' w2 k r Hok2 Hk _ _ _ _ Hin) as ([Hwf3 _] & Href3 & r' & Hk' & Hh' & Hr').
  eapply rt_refused in Href3; [apply Href3|apply Hwf3|exact Hk'|congruence|auto].
Qed.

(** Reuse closes the session family. When a refresh token that was
    already exchanged (or revoked) is presented again, every token of its
    family is revoked at once, and no token of that family is accepted by any
    later request. *)
Theorem reuse_closes_family qs w l1 tok w1 cs w2 l2 k r :
  rt_ok w → log qs w = l1 ++ (Refresh tok, w1, cs, w2) :: l2 →
  refresh_tokens w1 !! k = Some r → rf_hash r = sha256 tok → rf_revoked r ≠ None →
  cs = [] ∧ ¬ live (refresh_tokens w2) (rf_family r) ∧
  ∀ tok' w3 cs3 w4 k' r', (Refresh tok', w3, cs3, w4) ∈ l2 →
    refresh_tokens w3 !! k' = Some r' → rf_hash r' = sha256 tok' → rf_family r' = rf_family r →
    cs3 = [].
Proof.
  intros Hok Hlog Hk Hh Hr.
  destruct (log_split _ _ _ _ _ _ _ _ Hok Hlog) as ([Hwf1 Hfam1] & Hok2 & Href & qs' & ->).
  assert (cp_next w1 ≤ cp_next w2) as Hn by by inversion Href.
  pose proof (fo_drawn _ _ Hfam1 k r Hk) as Hdrawn.
  eapply rt_refused in Href as [-> Hdead]; [|apply Hwf1|exact Hk|exact Hh|exact Hr].
  split; [done|]. split; [done|]. intros tok' w3 cs3 w4 k' r' Hin Hk' Hh' Hf'.
  destruct (log_invariant (λ w3, rf_family r < cp_next w3 ∧ ¬ live (refresh_tokens w3) (rf_family r)) qs' w2)
    with (4 := Hin) as [Hok3 [_ Hdead3]].
  - intros q' w' Hok' [Hlt Hd]. pose proof (auth_rt q' w' Hok') as Hst.
    destruct (run_auth _ _ _ _ _ q' w') as [o w'']. destruct Hst as [_ Href']. simpl.
    assert (cp_next w' ≤ cp_next w'') by by inversion Href'.
    split; [lia|]. by eapply rt_dead.
  - done.
  - split; [lia|done].
  - apply list_elem_of_split in Hin as (l2' & l3 & Hl).
    destruct (log_split _ _ _ _ _ _ _ _ Hok2 Hl) as (_ & _ & Href3 & _).
    eapply rt_refused in Href3; [apply Href3|apply Hok3|exact Hk'|exact Hh'|].
    intros Hl'. apply Hdead3. exists k', r'. by rewrite Hf'.
Qed.
End requests.

(** ** A concrete deployment *)
Definition demo_refreshes : list auth_req :=
  [Login "pat@home.org" "secret" None; Refresh "tok4"; Refresh "tok4"; Refresh "tok7"].
Definition demo_refresh_log : list entry := demo_log demo_refreshes.

Lemma demo_rt_ok : rt_ok demo_login_world.
Proof.
  split; [apply wf_run, empty_world_wf|]. split; intros *; vm_compute; done.
Defined.

Lemma one_live_token_per_family_witness :
  rt_ok (auths demo_sha demo_token demo_verify demo_uuid id demo_refreshes demo_login_world) ∧
  length (map_to_list (refresh_tokens
    (auths demo_sha demo_token demo_verify demo_uuid id demo_refreshes demo_login_world))) = 2%nat.
Proof. split; [apply one_live_token_per_family, demo_rt_ok|by vm_compute]. Defined.

Lemma refresh_token_single_use_witness :
  (nth_entry 1 demo_refresh_log).1.2 ≠ [] ∧ (nth_entry 2 demo_refresh_log).1.2 = [].
Proof.
  split; [by vm_compute|].
  set (e := nth_entry 1 demo_refresh_log). set (e' := nth_entry 2 demo_refresh_log).
  apply (refresh_token_single_use demo_sha demo_token demo_verify demo_uuid id demo_refreshes
    demo_login_world (take 1 demo_refresh_log) "tok4" e.1.1.2 (default no_claims (head e.1.2))
    [] e.2 (drop 2 demo_refresh_log) e'.1.1.2 e'.1.2 e'.2).
  - apply demo_rt_ok.
  - apply (log_around 1 demo_refresh_log); [apply Nat.ltb_lt|..]; vm_compute; reflexivity.
  - apply (log_has 2 0 demo_refresh_log); [apply Nat.ltb_lt|..]; vm_compute; reflexivity.
Defined.

Definition row_0 : refresh_row :=
  {| rf_hash := "sha:tok4"; rf_identity := 3; rf_tenant := "tenant_b"; rf_role := "parent"; rf_family := 5;
     rf_revoked := Some 1000; rf_replaced := Some 8; rf_expires := 2593000 |}.

Lemma reuse_closes_family_witness :
  (nth_entry 3 demo_refresh_log).1.1.1 = Refresh "tok7" ∧ (nth_entry 3 demo_refresh_log).1.2 = [].
Proof.
  split; [by vm_compute|].
  set (e := nth_entry 2 demo_refresh_log). set (e' := nth_entry 3 demo_refresh_log).
  destruct (reuse_closes_family demo_sha demo_token demo_verify demo_uuid id demo_refreshes
    demo_login_world (take 2 demo_refresh_log) "tok4" e.1.1.2 e.1.2 e.2 (drop 3 demo_refresh_log) 6 row_0)
    as (_ & _ & H).
  - apply demo_rt_ok.
  - apply (log_around 2 demo_refresh_log); [apply Nat.ltb_lt|..]; vm_compute; reflexivity.
  - vm_compute. reflexivity.
  - vm_compute. reflexivity.
  - done.
  - apply (H "tok7" e'.1.1.2 e'.1.2 e'.2 8 (row_0 <| rf_hash := "sha:tok7" |> <| rf_replaced := None |>)).
    + apply (log_has 3 0 demo_refresh_log); [apply Nat.ltb_lt|..]; vm_compute; reflexivity.
    + vm_compute. reflexivity.
    + reflexivity.
    + reflexivity.
Defined.
