(* ===== verification/Interleaving.v ===== *)
(** * Requests that interleave

    Handlers are coroutines: between two statements of one request the server
    may run statements of another. A request is given here as the sequence of
    statements it runs, each of them atomic as PostgreSQL makes it, and a
    schedule picks which request moves next. The account of a token is read
    in one step, which only leaves schedules out. *)
From S2P Require Import Prelude PyText Authz Store Structure School World UserRepo Provision ControlPlane Membership Session Login Refresh.

(** ** Requests in steps *)
Inductive prog (A : Type) : Type :=
  | Done (r : result A)
  | Step {B : Type} (m : CP B) (k : result B → prog A).
Arguments Done {A} r.
Arguments Step {A B} m k.

#[global] Instance prog_ret : MRet prog := λ A a, Done (Ok a).
#[global] Instance prog_bind : MBind prog := λ A B f, fix go p :=
  match p with
  | Done (Ok a) => f a
  | Done (Raise e) => Done (Raise e)
  | Step m k => Step m (λ r, go (k r))
  end.
Definition stmt {A} (m : CP A) : prog A := Step m Done.
Definition fails {A} (e : exn) : prog A := Done (Raise e).
Definition pure_guard (b : bool) (e : exn) : prog unit := if b then mret tt else fails e.
Definition some_or {A} (o : option A) (e : exn) : prog A :=
  match o with Some a => mret a | None => fails e end.

(** The request alone. *)
Fixpoint exec {A} (p : prog A) (w : World) : result A * World :=
  match p with
  | Done r => (r, w)
  | Step m k => let '(r, w') := m w in exec (k r) w'
  end.

Lemma exec_bind {A B} (p : prog A) (f : A → prog B) w :
  exec (p ≫= f) w = ((exec p : CP A) ≫= (λ a, exec (f a) : CP B)) w.
Proof.
  revert w. induction p as [[a|e]|C m k IH]; intros w; [done..|]. simpl.
  destruct (m w) as [r w'] eqn:Hm.
  transitivity (((exec (k r) : CP A) ≫= (λ a, exec (f a) : CP B)) w'); [apply (IH r w')|].
  unfold mbind, M_bind. simpl. by rewrite Hm.
Qed.

(** One step of request [i]; a finished or unknown request does not move. *)
Definition step_one {A} (p : prog A) (w : World) : prog A * World :=
  match p with
  | Done r => (Done r, w)
  | Step m k => let '(r, w') := m w in (k r, w')
  end.

Fixpoint interleave {A} (schedule : list nat) (ps : list (prog A)) (w : World) : list (prog A) * World :=
  match schedule with
  | [] => (ps, w)
  | i :: schedule =>
      match ps !! i with
      | Some p => let '(p', w') := step_one p w in interleave schedule (<[i := p']> ps) w'
      | None => interleave schedule ps w
      end
  end.

Section requests.
Context (sha256 : string → string) (token_urlsafe : Z → string) (uuid_text : Z → string).

(** ** The two requests that spend a token *)
Definition rotate_prog (raw_token : string) : prog (claims * string) :=
  row ← stmt (get_refresh_token (sha256 raw_token));
  row ← some_or row bad_refresh;
  match rf_revoked row.2 with
  | Some _ => stmt (revoke_refresh_token_family (rf_family row.2)) ;; fails bad_refresh
  | None =>
      t ← stmt (gets now);
      pure_guard (t <? rf_expires row.2) (ValueError "Refresh token expired") ;;
      account ← stmt (_resolve_local_account uuid_text (rf_identity row.2) (rf_tenant row.2) (rf_role row.2));
      let '(user_id, role, roles) := account in
      n ← stmt draw;
      let new_raw := token_urlsafe n in
      t ← stmt (gets now);
      stmt (create_refresh_token (sha256 new_raw) (rf_identity row.2) (rf_tenant row.2) role
        (rf_family row.2) (t + REFRESH_TOKEN_EXPIRATION_DAYS * 86400)) ;;
      new_row ← stmt (get_refresh_token (sha256 new_raw));
      new_row ← some_or new_row none_error;
      stmt (repo_rotate_refresh_token row.1 new_row.1) ;;
      access ← stmt (create_access_token user_id
        (if bool_decide (rf_tenant row.2 = "") then None else Some (rf_tenant row.2))
        role "" (Some roles) (Some (rf_identity row.2)));
      mret (access, new_raw)
  end.

Definition redeem_rest (tenant_id : string) (row : Z * list string) : prog login_answer :=
  let '(identity, matched_tenants) := row in
  pure_guard (bool_decide (tenant_id ∈ matched_tenants)) bad_selection ;;
  account ← stmt (try_except
    (membership ← (if bool_decide (tenant_id = "") then mret None else get_membership identity tenant_id);
     let hint_role := if bool_decide (tenant_id = "") then "super_admin"
                      else from_option mb_role "" membership in
     _resolve_local_account uuid_text identity tenant_id hint_role)
    (λ e, match e with ValueError _ => raise bad_selection | _ => raise e end));
  let '(user_id, role, roles) := account in
  email ← stmt (get_identity_by_id identity);
  email ← some_or email none_error;
  access ← stmt (create_access_token user_id (if bool_decide (tenant_id = "") then None else Some tenant_id)
             role email (Some roles) (Some identity));
  (if bool_decide (tenant_id = "") then mret tt
   else stmt (touch_membership_last_active identity tenant_id)) ;;
  refresh ← stmt (issue_refresh_token sha256 token_urlsafe identity tenant_id role);
  mret (Tokens access refresh).

Definition redeem_prog (selection_token tenant_id : string) : prog login_answer :=
  row ← stmt (redeem_selection_challenge (sha256 selection_token));
  row ← some_or row bad_selection;
  redeem_rest tenant_id row.

(** Alone, they are the functions of Session. *)
Lemma exec_stmt_bind {A B} (m : CP A) (f : A → prog B) (g : A → CP B) w :
  (∀ a w', exec (f a) w' = g a w') → exec (stmt m ≫= f) w = (m ≫= g) w.
Proof.
  intros H. rewrite exec_bind. unfold mbind, M_bind. simpl. by destruct (m w) as [[a|e] w']; simpl.
Qed.

Lemma exec_some_bind {A B} (o : option A) e (f : A → prog B) (g : A → CP B) w :
  (∀ a, exec (f a) w = g a w) → exec (some_or o e ≫= f) w = (from_option_or o e ≫= g) w.
Proof. intros H. by destruct o; [apply H|]. Qed.

Lemma exec_guard_bind {B} b e (f : unit → prog B) (g : unit → CP B) w :
  exec (f tt) w = g tt w → exec (pure_guard b e ≫= f) w = (guard_or b e ≫= g) w.
Proof. intros H. by destruct b. Qed.

Lemma exec_ret_bind {A B} (a : A) (f : A → prog B) (g : A → CP B) w :
  exec (f a) w = g a w → exec (mret a ≫= f) w = (mret a ≫= g) w.
Proof. done. Qed.

Ltac same_steps := repeat
  first [apply exec_stmt_bind; intros ? ?|apply exec_some_bind; intros ?|apply exec_guard_bind
        |done|match goal with |- context [let '(_, _) := ?p in _] => destruct p end
        |progress case_match; try done].

Lemma rotate_prog_alone tok w :
  exec (rotate_prog tok) w = rotate_refresh_token sha256 token_urlsafe uuid_text tok w.
Proof. unfold rotate_prog, rotate_refresh_token. same_steps. Qed.

Lemma redeem_prog_alone tok t w :
  exec (redeem_prog tok t) w = login_redeem sha256 token_urlsafe uuid_text tok t w.
Proof. unfold redeem_prog, login_redeem, redeem_rest. same_steps. apply exec_ret_bind. same_steps. Qed.

(** ** A selection token is spent once *)
Definition spent (h : string) (w : World) : Prop :=
  ∀ k r, challenges w !! k = Some r → ch_hash r = h → ch_consumed r ≠ None.

(** A state that keeps these challenges. *)
Definition fixed (c : gmap Z challenge_row) (w : World) : Prop := control_plane_wf w ∧ challenges w = c.

#[global] Instance fixed_framed c : Framed (fixed c).
Proof. split; [by intros w []|]. intros w w' [_ <-] []. by split. Qed.

(** The steps of [p] leave the challenges alone. *)
Inductive quiet {A} : prog A → Prop :=
  | quiet_done r : quiet (Done r)
  | quiet_step {B} (m : CP B) k : (∀ c, preserves (fixed c) m) → (∀ r, quiet (k r)) → quiet (Step m k).

Lemma quiet_bind {A B} (p : prog A) (f : A → prog B) : quiet p → (∀ a, quiet (f a)) → quiet (p ≫= f).
Proof.
  intros Hp Hf. induction Hp as [[a|e]|C m k Hm Hk IH]; [apply Hf|constructor|].
  constructor; [done|]. apply IH.
Qed.

Lemma quiet_stmt {A} (m : CP A) : (∀ c, preserves (fixed c) m) → quiet (stmt m).
Proof. intros Hm. constructor; [done|constructor]. Qed.

Lemma fixed_create_refresh c h i t r f x : preserves (fixed c) (create_refresh_token h i t r f x).
Proof.
  intros w [Hwf <-].
  assert (preserves (λ w', challenges w' = challenges w) (create_refresh_token h i t r f x)) as Hc.
  { intros w1 H1. unfold create_refresh_token, cp_check, cp_insert. wp_simpl.
    case_bool_decide; wp_simpl; [|done]. destruct (tenant_id_fits t); wp_simpl; [|done].
    by destruct (has_row _ _); wp_simpl. }
  eapply wp_mono; [apply wp_conj; [apply (same_refresh (user_tenant_map w)); by split|by apply Hc]|..];
    by intros ? w' [[? _] ?].
Qed.

Lemma fixed_issue c i t role : preserves (fixed c) (issue_refresh_token sha256 token_urlsafe i t role).
Proof.
  unfold issue_refresh_token. apply preserves_bind; [apply keeps_draw, _|intros n].
  apply preserves_bind; [apply keeps_draw, _|intros f]. apply preserves_bind; [apply preserves_gets|intros t0].
  apply preserves_bind; [apply fixed_create_refresh|intros ?; apply preserves_ret].
Qed.

Lemma quiet_redeem_rest t row : quiet (redeem_rest t row).
Proof.
  destruct row as [i ts]. unfold redeem_rest. apply quiet_bind; [case_bool_decide; constructor|intros _].
  apply quiet_bind; [apply quiet_stmt; intros c; apply keeps_account, _|intros [[user role] roles]].
  apply quiet_bind; [apply quiet_stmt; intros c; apply preserves_gets|intros email].
  apply quiet_bind; [destruct email; constructor|intros email'].
  apply quiet_bind; [apply quiet_stmt; intros c; apply keeps_create_token|intros access].
  apply quiet_bind; [case_bool_decide; [constructor|apply quiet_stmt; intros c; apply keeps_touch, _]|intros _].
  apply quiet_bind; [apply quiet_stmt; intros c; apply fixed_issue|intros refresh; constructor].
Qed.

(** The statement that spends a token finds it unspent, and spends it. *)
Lemma wp_spend h w :
  control_plane_wf w →
  wp (redeem_selection_challenge h)
    (λ o w', control_plane_wf w' ∧ (∀ h', spent h' w → spent h' w') ∧ (o ≠ None → ¬ spent h w ∧ spent h w'))
    (λ _ _, False) w.
Proof.
  intros Hwf.
  assert (wp (redeem_selection_challenge h) (λ _ w', control_plane_wf w') (λ _ _, True) w) as Hwf'.
  { eapply wp_mono; [apply (same_redeem (user_tenant_map w)); by split|by intros ? ? [? _]|done]. }
  cut (wp (redeem_selection_challenge h) (λ o w', (∀ h', spent h' w → spent h' w') ∧
    (o ≠ None → ¬ spent h w ∧ spent h w')) (λ _ _, False) w).
  { unfold wp in *. by destruct (redeem_selection_challenge h w) as [[]]. }
  clear Hwf'. unfold redeem_selection_challenge. wp_simpl.
  destruct (find_row _ (challenges w)) as [[k r]|] eqn:Hf; wp_simpl; [|done].
  apply find_row_Some in Hf as [Hk Hr]. unfold redeemable in Hr.
  apply andb_true_iff in Hr as [[Hh%bool_decide_eq_true Hc%bool_decide_eq_true]%andb_true_iff _].
  split; [|intros _; split].
  - intros h' Hs j a. simpl. rewrite lookup_insert_Some. intros [[<- <-]|[_ Ha]]; [done|exact (Hs j a Ha)].
  - intros Hs. by apply (Hs k r).
  - intros j a. simpl. rewrite lookup_insert_Some. intros [[<- <-]|[Hne Ha]] Hha; [done|].
    destruct Hne. apply (wt_challenge_hash w (proj2 (proj2 Hwf)) k j r a); [exact Hk|exact Ha|]. by rewrite Hh, Hha.
Qed.

Definition redeems (reqs : list (string * string)) : list (prog login_answer) :=
  map (λ q, redeem_prog q.1 q.2) reqs.

(** [W]: the requests that were given the challenge. *)
Record pool_ok (reqs : list (string * string)) (W : nat → Prop) (ps : list (prog login_answer)) (w : World)
    : Prop := {
  po_wf : control_plane_wf w;
  po_state : ∀ i p, ps !! i = Some p → ∃ q, reqs !! i = Some q ∧
    (p = redeem_prog q.1 q.2 ∨ (quiet p ∧ W i) ∨ ∃ e, p = Done (Raise e));
  po_spent : ∀ i q, W i → reqs !! i = Some q → spent (sha256 q.1) w;
  po_one : ∀ i j q q', W i → W j → reqs !! i = Some q → reqs !! j = Some q' →
    sha256 q.1 = sha256 q'.1 → i = j;
}.

Lemma pool_step reqs W ps w i p :
  pool_ok reqs W ps w → ps !! i = Some p →
  ∃ W', pool_ok reqs W' (<[i := (step_one p w).1]> ps) (step_one p w).2.
Proof.
  intros [Hwf Hst Hsp Hone] Hp. destruct (Hst i p Hp) as (q & Hq & [->|[[Hquiet HW]|[e ->]]]).
  - pose proof (wp_spend (sha256 q.1) w Hwf) as Hw. unfold wp in Hw. cbn [step_one redeem_prog stmt mbind prog_bind].
    destruct (redeem_selection_challenge (sha256 q.1) w) as [[o|e] w'] eqn:Er; [|done].
    destruct Hw as (Hwf' & Hmono & Hspend). destruct o as [row|]; simpl.
    + destruct (Hspend ltac:(done)) as [Hno Hyes]. exists (λ j, W j ∨ j = i). split; [done|..].
      * intros j p'. rewrite list_lookup_insert_Some. intros [(<- & <- & _)|[Hne Hp']].
        { exists q. split; [done|]. right; left. split; [apply quiet_redeem_rest|by right]. }
        destruct (Hst j p' Hp') as (q' & ? & H). exists q'. split; [done|]. naive_solver.
      * intros j q' [HWj| ->] Hq'; [by eapply Hmono, Hsp|]. by simplify_eq.
      * assert (∀ j q', W j → reqs !! j = Some q' → sha256 q.1 ≠ sha256 q'.1) as Hnew.
        { intros j q' HWj Hq' Heq. apply Hno. rewrite Heq. by eapply Hsp. }
        intros j j' a b [Ha| ->] [Hb| ->] Hja Hjb Heq; simplify_eq; [by eapply Hone|..|done].
        -- by destruct (Hnew j a).
        -- by destruct (Hnew j' b).
    + exists W. split; [done| |by eauto|done].
      intros j p'. rewrite list_lookup_insert_Some. intros [(<- & <- & _)|[Hne Hp']]; [|by apply Hst].
      exists q. split; [done|]. right; right. by eexists.
  - exists W. destruct Hquiet as [r|B m k Hm Hk]; simpl.
    + rewrite list_insert_id by done. by split.
    + pose proof (Hm (challenges w) w ltac:(by split)) as Hw. unfold wp in Hw.
      assert (fixed (challenges w) (m w).2) as [Hwf' Hc] by by destruct (m w) as [[]].
      destruct (m w) as [r w']. simpl in *. split; [done| | |done].
      * intros j p'. rewrite list_lookup_insert_Some. intros [(<- & <- & _)|[Hne Hp']]; [|by apply Hst].
        exists q. split; [done|]. right; left. split; [apply Hk|done].
      * intros j q' HWj Hq'. unfold spent. rewrite Hc. by apply (Hsp j).
  - exists W. simpl. rewrite list_insert_id by done. by split.
Qed.

Lemma pool_run reqs schedule W ps w :
  pool_ok reqs W ps w →
  ∃ W', pool_ok reqs W' (interleave schedule ps w).1 (interleave schedule ps w).2.
Proof.
  revert W ps w. induction schedule as [|i schedule IH]; intros W ps w Hok; simpl; [by exists W|].
  destruct (ps !! i) as [p|] eqn:Hp; [|by eapply IH].
  destruct (pool_step reqs W ps w i p Hok Hp) as [W' Hok'].
  destruct (step_one p w) as [p' w']. by eapply IH.
Qed.

(** C16: a selection token is spent once under any interleaving. Let any
    number of requests redeem selection tokens at the same time, their
    statements interleaved in any order: no two of them get a session from
    the same token. *)
Theorem selection_token_spent_once reqs schedule w i j tok t t' a :
  control_plane_wf w →
  reqs !! i = Some (tok, t) → reqs !! j = Some (tok, t') → i ≠ j →
  (interleave schedule (redeems reqs) w).1 !! i = Some (Done (Ok a)) →
  ∀ b, (interleave schedule (redeems reqs) w).1 !! j ≠ Some (Done (Ok b)).
Proof.
  intros Hwf Hi Hj Hne Ha b Hb. apply Hne.
  assert (pool_ok reqs (λ _, False) (redeems reqs) w) as H0.
  { split; [done| |done|done]. intros k p. unfold redeems. rewrite list_lookup_fmap, fmap_Some.
    intros (q & Hq & ->). eauto. }
  destruct (pool_run reqs schedule _ _ _ H0) as (W & [_ Hst _ Hone]).
  assert (∀ k q c, reqs !! k = Some q →
    (interleave schedule (redeems reqs) w).1 !! k = Some (Done (Ok c)) → W k) as HW.
  { intros k q c Hk Hc. destruct (Hst _ _ Hc) as (q' & _ & [?|[[_ ?]|[? ?]]]); done. }
  eapply Hone; eauto.
Qed.
End requests.

(** ** A concrete deployment *)
Definition after (w : World) (qs : list auth_req) : World :=
  auths demo_sha demo_token demo_verify demo_uuid id qs w.
Definition turns (n : nat) : list nat := concat (repeat [0; 1]%nat n).

(** The parent has entered both schools, and now logs in without naming one. *)
Definition demo_selecting : World :=
  after two_schools [Login "pat@home.org" "secret" (Some "tenant_a");
    Login "pat@home.org" "secret" (Some "tenant_b"); Login "pat@home.org" "secret" None].
Definition demo_redeems : list (string * string) := [("tok10", "tenant_a"); ("tok10", "tenant_b")].
Definition demo_redeemed : list (prog login_answer) :=
  (interleave (turns 12) (redeems demo_sha demo_token demo_uuid demo_redeems) demo_selecting).1.

Definition demo_answer : login_answer :=
  match demo_redeemed !! 0%nat with Some (Done (Ok a)) => a | _ => SelectTenant "" 0 [] end.

Lemma selection_token_spent_once_witness :
  demo_redeemed !! 0%nat = Some (Done (Ok demo_answer)) ∧
  ∀ b, demo_redeemed !! 1%nat ≠ Some (Done (Ok b)).
Proof.
  split; [vm_compute; reflexivity|].
  apply (selection_token_spent_once demo_sha demo_token demo_uuid demo_redeems (turns 12) demo_selecting
    0 1 "tok10" "tenant_a" "tenant_b" demo_answer).
  - unfold demo_selecting, after. apply (auths_wf demo_sha demo_token demo_verify demo_uuid id).
    apply wf_run, empty_world_wf.
  - done.
  - done.
  - done.
  - vm_compute. reflexivity.
Defined.

(** Two refreshes of one token that interleave both succeed and leave the
    family with two live tokens: the row is read in one statement and revoked
    in a later one that does not test whether it is still live. *)
Definition demo_rotations : list (prog (claims * string)) * World :=
  interleave (turns 12) [rotate_prog demo_sha demo_token demo_uuid "tok4"; rotate_prog demo_sha demo_token demo_uuid "tok4"]
    (after demo_login_world [Login "pat@home.org" "secret" None]).

Definition succeeded {A} (p : prog A) : bool := match p with Done (Ok _) => true | _ => false end.

Example concurrent_refreshes_both_succeed :
  map succeeded demo_rotations.1 = [true; true] ∧
  map (λ r, (rf_hash r, rf_family r)) (List.filter (λ r, bool_decide (rf_revoked r = None))
    (map_to_list (refresh_tokens demo_rotations.2)).*2) = [("sha:tok7", 5); ("sha:tok8", 5)].
Proof. by vm_compute. Qed.
