(* ===== verification/Identify.v ===== *)
(** * Who is calling, and in which school

    [get_current_user] of src/app/core/dependencies.py, the dependency every
    endpoint starts with: from a bearer token and the school the request names
    to a [CurrentUser], with the accounts it provisions on the way.

    The verified claims of a token are a record of the fields the code reads;
    an absent field is empty. The local variables of the coroutine that a
    swallowed exception keeps are the record [context]. *)
From Stdlib Require Import Ascii String.
From stdpp Require Import gmap.
From S2P Require Import Prelude PyText Authz Store AcademicRepo Structure School World UserRepo ControlPlane.

(** ** The claims of a token *)
Inductive org_item :=
  | OrgEntry (alias name id : string)
  | OrgAlias (s : string).

(** [payload.get("organization") or payload.get("org") or ...] *)
Inductive org_claim :=
  | NoOrg
  | OrgKeys (keys : list string)
  | OrgList (items : list org_item)
  | OrgText (s : string).

(** [attributes["tenant_id"]] *)
Inductive attribute :=
  | NoAttribute
  | AttrText (s : string)
  | AttrList (l : list string).

Record payload := {
  pl_sub : string;
  pl_email : string; pl_username : string;
  pl_role : string; pl_roles : list string;
  pl_tenant : string;
  pl_org : org_claim; pl_attribute : attribute; pl_groups : list string; pl_iss : string }.

Definition or_else (a b : string) : string := if bool_decide (a = "") then b else a.

(** ** The school the token names *)
Definition reserved_tenants : list string := ["sams"; "schooldesk"; "master"].
Definition reserved (t : string) : bool := mem (str_lower t) reserved_tenants.
(** [not tenant_id or tenant_id.lower() in (...)] *)
Definition unresolved (t : string) : bool := bool_decide (t = "") || reserved t.

Definition item_alias (i : org_item) : list string :=
  match i with
  | OrgEntry alias name id =>
      let val := or_else alias (or_else name id) in if bool_decide (val = "") then [] else [val]
  | OrgAlias s => let a := str_strip s in if bool_decide (a = "") then [] else [a]
  end.
Definition org_aliases (o : org_claim) : list string :=
  match o with
  | NoOrg => []
  | OrgKeys keys => keys
  | OrgList items => concat (map item_alias items)
  | OrgText s => item_alias (OrgAlias s)
  end.

(** [val[0] if isinstance(val, list) and val else str(val)] *)
Definition attribute_tenant (a : attribute) : string :=
  match a with
  | NoAttribute => ""
  | AttrText s => s
  | AttrList (x :: _) => x
  | AttrList [] => "[]"
  end.

Fixpoint split_slash (l : list ascii) : list (list ascii) :=
  match l with
  | [] => [[]]
  | c :: l' =>
      let rest := split_slash l' in
      if code c =? 47 then [] :: rest
      else match rest with w :: ws => (c :: w) :: ws | [] => [[c]] end
  end.
(** [[p.strip() for p in g.split("/") if p.strip()]] *)
Definition path_parts (g : string) : list string :=
  List.filter (λ p, negb (bool_decide (p = ""))) (map (λ p, str_strip (text p)) (split_slash (chars g))).
Definition group_tenant (groups : list string) : string :=
  default "" (head (List.filter (λ p, is_prefix (chars "tenant_") (chars p)) (concat (map path_parts groups)))).

(** [s.split(sub)[-1]] *)
Fixpoint last_part (sub : list ascii) (skip : nat) (last l : list ascii) : list ascii :=
  match l with
  | [] => last
  | _ :: l' =>
      match skip with
      | S k => last_part sub k last l'
      | O => if is_prefix sub l then last_part sub (Nat.pred (List.length sub)) (drop (List.length sub) l) l'
             else last_part sub O last l'
      end
  end.
Definition realm_tenant (iss : string) : string :=
  if contains (chars "/realms/") (chars iss) then
    let realm := text (last_part (chars "/realms/") O (chars iss) (chars iss)) in
    if reserved realm then "" else realm
  else "".

Definition org_ambiguous (p : payload) : bool := bool_decide (1 < List.length (org_aliases (pl_org p)))%nat.
Definition token_tenant (p : payload) : string :=
  let t := or_else (pl_tenant p) (match org_aliases (pl_org p) with [a] => a | _ => "" end) in
  if org_ambiguous p then t
  else or_else t (or_else (attribute_tenant (pl_attribute p))
         (or_else (group_tenant (pl_groups p)) (realm_tenant (pl_iss p)))).

(** ** The roles the token names *)
Definition roles_set : Type := gset string.

(** [for r in list(s): if r in COMPOSITE_ROLE_PERMISSIONS: s.update(...)] *)
Definition expand (s : roles_set) : roles_set :=
  s ∪ list_to_set (elements s ≫= composite).
Definition with_role (r : string) (s : roles_set) : roles_set :=
  {[r]} ∪ s ∪ list_to_set (composite r).

Definition clean_role (single_role : string) : string :=
  if bool_decide (single_role = "") then ""
  else
    let clean_sr := str_strip (str_lower single_role) in
    if mem clean_sr ["admin"; "administrator"; "school_admin"] then "school_admin"
    else if mem clean_sr VALID_ROLES then clean_sr else "".

Definition token_role (is_keycloak : bool) (p : payload) : string :=
  or_else (clean_role (if is_keycloak then "" else pl_role p)) "pending".

Definition token_roles (is_keycloak : bool) (p : payload) : roles_set :=
  let role := token_role is_keycloak p in
  let named := if is_keycloak then [] else List.filter (λ r, mem r VALID_ROLES) (pl_roles p) in
  let s := {[role]} ∪ list_to_set named : roles_set in
  let s := if bool_decide (role = "school_admin") || bool_decide ("school_admin" ∈ s) then {["admin"]} ∪ s
           else if bool_decide (role = "admin") || bool_decide ("admin" ∈ s) then {["school_admin"]} ∪ s
           else s in
  expand s.

(** ** The local variables *)
Record context := {
  cx_user_id : string; cx_role : string; cx_roles : roles_set; cx_tenant : string }.

#[export] Instance context_eta : Settable context := λ c,
  {| cx_user_id := cx_user_id c; cx_role := cx_role c; cx_roles := cx_roles c; cx_tenant := cx_tenant c |}.

(** An exception of the infrastructure is logged and forgotten. *)
Definition swallow {A} (d : A) (m : CP A) : CP A := try_except m (λ _, mret d).

(** [super_admins] by email, when the token carries no role. *)
Definition recognise_super_admin (email : string) (c : context) : CP context :=
  if bool_decide (cx_role c = "pending") && negb (bool_decide (email = "")) then
    known ← gets (λ w, find_row (λ _ r, upper_eq (sa_email r) email) (super_admins w));
    mret match known with
         | Some _ => c <| cx_role := "super_admin" |>
                       <| cx_roles := with_role "super_admin" (cx_roles c ∖ {["pending"]}) |>
         | None => c
         end
  else mret c.

(** ** The schools the caller belongs to *)
Definition set_default (k v : string) (d : list (string * string)) : list (string * string) :=
  if mem k d.*1 then d else dict_set k v d.

Definition CACHE_TTL : Z := 30.

(** [_membership_map] *)
Definition read_memberships (email : string) : CP (list (string * string)) :=
  rows ← get_tenants_for_email email;
  parent ← gets (find_parent (norm_email email));
  linked ← match parent with Some (id, _) => get_tenants_for_parent id | None => mret [] end;
  mret (fold_left (λ d t, set_default t "parent" d) linked (dict_of rows)).

Definition get_memberships (is_super_admin : bool) (email : string) : CP (list (string * string)) :=
  if is_super_admin || bool_decide (email = "") then mret []
  else
    t ← gets now;
    cached ← gets (λ w, member_cache w !! norm_email email);
    let fresh := match cached with Some (t0, l) => if t - t0 <? CACHE_TTL then Some l else None | None => None end in
    match fresh with
    | Some l => mret l
    | None =>
        l ← read_memberships email;
        modify (λ w, w <| member_cache ::= <[norm_email email := (t, l)]> |>) ;;
        mret l
    end.

(** ** Resolving the school from the control plane *)
Definition unassigned_role (r : string) : bool := mem r ["student"; "pending"].

(** [ORDER BY created_at DESC LIMIT 1]; rows of one instant in any order. *)
Definition later {R} (created : R → Z) (a b : Z * R) : Prop := created b.2 ≤ created a.2.
#[export] Instance later_dec {R} (created : R → Z) a b : Decision (later created a b).
Proof. unfold later. apply _. Defined.
Definition latest {R} (created : R → Z) (P : R → bool) (t : gmap Z R) : option R :=
  snd <$> head (merge_sort (later created) (select (λ _ r, P r) t)).

(** The school and role of the last invitation sent to the email. *)
Definition last_invitation (email : string) (w : World) : option (string * string) :=
  match latest ui_created (λ r, upper_eq (ui_email r) email) (user_invitations w) with
  | Some r => Some (ui_tenant r, ui_role r)
  | None =>
      match latest iv_created (λ r, from_option (λ e, upper_eq e email) false (iv_target r)) (invitations w) with
      | Some r => Some (iv_tenant r, iv_role r)
      | None => None
      end
  end.

Definition last_resort (ambiguous : bool) (email : string) (c : context) : CP context :=
  if negb ambiguous && (unresolved (cx_tenant c) || unassigned_role (cx_role c))
     && negb (bool_decide (email = "")) then
    mapping ← get_tenant_for_email email;
    let c1 := match mapping with
              | Some (t, r) =>
                  let c1 := c <| cx_tenant := t |> in
                  if (bool_decide (cx_role c = "") || unassigned_role (cx_role c))
                     && negb (bool_decide (r = "")) && mem r VALID_ROLES
                  then c1 <| cx_role := r |> <| cx_roles := with_role r (cx_roles c) |> else c1
              | None => c
              end in
    if bool_decide (mapping = None) || bool_decide (cx_role c1 = "") || unassigned_role (cx_role c1) then
      invitation ← gets (last_invitation email);
      match invitation with
      | Some (t, r) =>
          if bool_decide (t = "") || bool_decide (r = "") then mret c1
          else
            swallow tt (upsert_user_tenant_map email t r) ;;
            mret (c1 <| cx_tenant := t |> <| cx_role := r |> <| cx_roles := with_role r (cx_roles c1) |>)
      | None => mret c1
      end
    else mret c1
  else mret c.

(** ** The school the request names

    For a super admin an assertion, for everyone else a choice among the
    memberships. The audit entries of both are never written: the class that
    names their actor fails. *)
Definition not_a_member : exn := HTTPException 403 "You are not a member of that school.".

Definition select_tenant (is_super_admin : bool) (memberships : list (string * string))
    (requested : string) (c : context) : CP (context * bool) :=
  let req := str_lower (str_strip requested) in
  if bool_decide (str_strip requested = "") then mret (c, false)
  else if is_super_admin then mret (c <| cx_tenant := req |>, false)
  else
    match List.find (λ m : string * string, bool_decide (str_lower (str_strip m.1) = req)) memberships with
    | None => raise not_a_member
    | Some (t, _) =>
        if bool_decide (t = cx_tenant c) then mret (c, false) else mret (c <| cx_tenant := t |>, true)
    end.

(** ** The scan for an account in any school *)
Fixpoint scan_for_account (email : string) (tids : list string) (c : context) : CP context :=
  match tids with
  | [] => mret c
  | tid :: rest =>
      if bool_decide (tid = "") then scan_for_account email rest c
      else
        found ← swallow None (with_school tid (get_user_by_email email));
        match found with
        | None => scan_for_account email rest c
        | Some (_, r) =>
            let c := c <| cx_tenant := tid |> in
            let c := if bool_decide (us_role r = "") || no_role (us_role r) then c
                     else c <| cx_role := us_role r |> <| cx_roles ::= λ s, {[us_role r]} ∪ s |> in
            swallow tt (upsert_user_tenant_map email tid (or_else (cx_role c) "pending")) ;;
            mret c
        end
  end.

Definition cross_tenant_scan (is_super_admin ambiguous : bool) (email : string)
    (memberships : list (string * string)) (c : context) : CP context :=
  if unresolved (cx_tenant c) && negb (bool_decide (email = "")) && negb is_super_admin
     && negb ambiguous && bool_decide (memberships = []) then
    all_tenants ← get_all_tenants;
    scan_for_account email all_tenants c
  else mret c.

(** FAIL CLOSED *)
Definition fail_closed (is_super_admin : bool) (memberships : list (string * string)) (c : context)
    : CP (option string) :=
  if unresolved (cx_tenant c) then
    if is_super_admin then mret None
    else match memberships with
         | _ :: _ :: _ => raise (HTTPException 400 ("Your account belongs to more than one school. "
                                   +:+ "Choose one to continue."))
         | _ => raise (HTTPException 400 ("Your account is not associated with a school. Ask an "
                                   +:+ "administrator to invite you to one."))
         end
  else mret (Some (cx_tenant c)).

(** ** The account in the school *)
Definition account_roles (is_super_admin is_tenant_selection : bool) (id : Z) (r : user_row) (c : context)
    : context :=
  let c := c <| cx_user_id := pretty id |> in
  let base := if is_tenant_selection then ∅ else cx_roles c in
  if no_role (us_role r) && negb is_super_admin
  then c <| cx_role := us_role r |> <| cx_roles := {["pending"]} |>
  else
    let known := negb (bool_decide (us_role r = "")) && mem (us_role r) VALID_ROLES in
    let roles := if known then {[us_role r]} ∪ base else base in
    let role := if known && (is_tenant_selection || bool_decide (cx_role c = "") || unassigned_role (cx_role c))
                then us_role r else cx_role c in
    let db_roles := List.filter (λ x, negb (bool_decide (x = "")) && mem x VALID_ROLES && negb (no_role x))
                      (us_roles r) in
    let roles := list_to_set db_roles ∪ roles in
    let roles := if negb (bool_decide (us_role r = "student")) && negb (mem "student" (us_roles r))
                 then roles ∖ {["student"]} else roles in
    c <| cx_role := role |>
      <| cx_roles := list_to_set (List.filter (λ p, negb (bool_decide (p = ""))) (us_permissions r)) ∪ roles |>.

(** [INSERT INTO users (email, role, password_hash) VALUES (...,
    'keycloak_managed') ON CONFLICT (email) DO NOTHING], then its id. *)
Definition managed_account (email role : string) (existing : TenantDB → option Z) : DB (option Z) :=
  check_role role ;;
  known ← gets (has_user email);
  if known : bool then gets existing
  else id ← insert_serial users (new_user email role "keycloak_managed"); mret (Some id).

(** The first class by id, active or not; no placement is recorded. *)
Definition place_student (id : Z) (name : string) : DB unit :=
  t ← gets students;
  match t !! id with
  | Some _ => mret tt
  | None =>
      class_id ← gets (λ s, head (merge_sort Z.le (map_to_list (classes s)).*1));
      check_fk users id ;;
      modify (λ s, s <| students ::= <[id := {| st_name := name; st_class := class_id; st_gender := None;
        st_birth := None; st_status := "enrolled"; st_exited := None |}]> |>)
  end.

Definition create_profile (id : Z) (email role : string) : DB unit :=
  let name := str_title (local_part email) in
  if mem role ["teacher"; "event_teacher"; "school_admin"; "manager"] then ensure_profile teachers id name
  else if bool_decide (role = "student") then place_student id name
  else mret tt.

Definition local_account (is_super_admin is_tenant_selection : bool) (email tenant_id : string) (c : context)
    : CP context :=
  try_except
    (get_db_pool tenant_id ;;
     user_row ← in_school tenant_id (get_user_by_email email);
     match user_row with
     | Some (id, r) => mret (account_roles is_super_admin is_tenant_selection id r c)
     | None =>
         if is_tenant_selection then raise not_a_member
         else if is_super_admin then mret c
         else
           local_id ← in_school tenant_id
             (managed_account email (cx_role c) (λ s, fst <$> find_user email s));
           match local_id with
           | Some id =>
               (* the id is kept when one of the writes below fails *)
               swallow tt
                 (in_school tenant_id (create_profile id email (cx_role c)) ;;
                  swallow tt (upsert_user_tenant_map email tenant_id (cx_role c))) ;;
               mret (c <| cx_user_id := pretty id |>)
           | None => mret c
           end
     end)
    (λ e, match e with HTTPException _ _ => raise e | _ => mret c end).

(** ** A parent who came through single sign-on *)
Definition managed_parent (email : string) : CP Z :=
  known ← gets (find_parent email);
  match known with Some (id, _) => mret id | None => create_parent email "keycloak_managed" end.

Definition parent_account (email : string) : DB (option Z) :=
  known ← gets (λ s, fst <$> find_row (λ _ r, ci_eq (us_email r) email) (users s));
  match known with
  | Some id => mret (Some id)
  | None =>
      transaction (
        local_id ← managed_account email "parent"
                     (λ s, fst <$> find_row (λ _ r, ci_eq (us_email r) email) (users s));
        match local_id with
        | Some id => ensure_profile parenets id (str_title (local_part email)) ;; mret (Some id)
        | None => raise (DatabaseError "null value in column")
        end)
  end.

Definition provision_parent (email tenant_id : string) (c : context) : CP context :=
  local_id ← swallow None
    (parent_id ← managed_parent email;
     add_parent_tenant_link parent_id tenant_id ;;
     get_db_pool tenant_id ;;
     in_school tenant_id (parent_account email));
  match local_id with
  | Some id =>
      swallow tt (upsert_user_tenant_map email tenant_id "parent") ;;
      mret (c <| cx_user_id := pretty id |>)
  | None => mret c
  end.

(** ** The status of the membership *)
Definition access_ended : exn :=
  HTTPException 403 "Your access to this school has been suspended or revoked.".
Definition member_status (email tenant_id : string) (w : World) : option string :=
  (λ kv, mb_status kv.2) <$> find_member (norm_email email) tenant_id w.
Definition check_membership (email tenant_id : string) : CP unit :=
  status ← gets (member_status email tenant_id);
  guard_or (negb (bool_decide (status ∈ [Some "suspended"; Some "revoked"]))) access_ended.

(** The account, the parent, the membership and the answer, once the school is
    settled. *)
Definition finish (is_super_admin is_keycloak is_tenant_selection : bool) (email : string)
    (memberships : list (string * string)) (tenant_id : option string) (c : context)
    : CP (CurrentUser * list (string * string)) :=
  c ← match tenant_id with
      | Some t => if bool_decide (email = "") then mret c
                  else local_account is_super_admin is_tenant_selection email t c
      | None => mret c
      end;
  c ← (if bool_decide (cx_role c = "parent") && negb (bool_decide (email = "")) && is_keycloak
       then match tenant_id with Some t => provision_parent email t c | None => mret c end
       else mret c);
  let roles := expand (cx_roles c) in
  match tenant_id with
  | Some t => if negb is_super_admin && negb (bool_decide (email = "")) then check_membership email t else mret tt
  | None => mret tt
  end ;;
  mret ({| cu_id := PStr (cx_user_id c); cu_tenant_id := tenant_id; cu_role := cx_role c; cu_email := email;
           cu_roles := if bool_decide (roles = ∅) then [cx_role c] else elements roles |}, memberships).

(** ** The dependency *)
Section identify.
(** [jwt.decode] under the program's own key, and under the realm's keys. *)
Context (decode_access_token verify_keycloak_token : string → option payload).

Definition verified (token : string) : option (payload * bool) :=
  match decode_access_token token with
  | Some p => Some (p, false)
  | None => (λ p, (p, true)) <$> verify_keycloak_token token
  end.

(** [requested]: the X-Tenant-ID header, or the query parameter. *)
Definition get_current_user (token requested : option string)
    : CP (CurrentUser * list (string * string)) :=
  token ← from_option_or token (HTTPException 401 "Missing authentication token");
  claims ← from_option_or (verified token) (HTTPException 401 "Invalid or expired token");
  let '(p, is_keycloak) := claims in
  let email := or_else (pl_email p) (pl_username p) in
  c ← recognise_super_admin email
    {| cx_user_id := pl_sub p; cx_role := token_role is_keycloak p; cx_roles := token_roles is_keycloak p;
       cx_tenant := token_tenant p |};
  let is_super_admin := bool_decide (cx_role c = "super_admin") || bool_decide ("super_admin" ∈ cx_roles c) in
  memberships ← get_memberships is_super_admin email;
  c ← last_resort (org_ambiguous p) email c;
  selected ← select_tenant is_super_admin memberships (default "" requested) c;
  let '(c, is_tenant_selection) := selected in
  c ← cross_tenant_scan is_super_admin (org_ambiguous p) email memberships c;
  tenant_id ← fail_closed is_super_admin memberships c;
  finish is_super_admin is_keycloak is_tenant_selection email memberships tenant_id c.
End identify.
