(* ===== verification/Caller.v ===== *)
(** * What a request may claim to be

    Properties of [get_current_user]: it answers or refuses with an HTTP
    status, it never guesses a school, a header only chooses among verified
    memberships, the roles after a switch are those of the chosen school, and
    a suspended or revoked membership ends access. *)
From stdpp Require Import gmap.
From S2P Require Import Prelude PyText Authz Store AcademicRepo Structure School World UserRepo Provision ControlPlane Membership Session Login Identify.

(** ** Invariants that identification keeps *)
Class Stable (I : World → Prop) : Prop := {
  st_open t : preserves I (get_db_pool t);
  st_school {A} t (m : DB A) : preserves I (in_school t m);
  st_upsert e t r : preserves I (upsert_user_tenant_map e t r);
  st_parent e h : preserves I (create_parent e h);
  st_link p t : preserves I (add_parent_tenant_link p t);
  st_cache w c : I w → I (w <| member_cache := c |>);
}.

Section stable.
Context (I : World → Prop) `{!Stable I}.
Set Default Proof Using "Type*".

Ltac keep := repeat match goal with
  | |- preserves _ (mret _) => apply preserves_ret
  | |- preserves _ (raise _) => apply preserves_raise
  | |- preserves _ (gets _) => apply preserves_gets
  | |- preserves _ (guard_or _ _) => apply preserves_guard_or
  | |- preserves _ (from_option_or _ _) => apply preserves_from_option_or
  | |- preserves _ (get_db_pool _) => apply st_open
  | |- preserves _ (in_school _ _) => apply st_school
  | |- preserves _ (upsert_user_tenant_map _ _ _) => apply st_upsert
  | |- preserves _ (create_parent _ _) => apply st_parent
  | |- preserves _ (add_parent_tenant_link _ _) => apply st_link
  | |- preserves _ (try_except _ _) => apply preserves_try_except; [|intros ?]
  | |- preserves _ (_ ≫= _) => apply preserves_bind; [|intros ?]
  | |- preserves _ (match ?x with _ => _ end) => destruct x
  end.

Lemma keeps_recognise e c : preserves I (recognise_super_admin e c).
Proof. unfold recognise_super_admin. keep. Qed.

Lemma keeps_memberships b e : preserves I (get_memberships b e).
Proof.
  unfold get_memberships, read_memberships, get_tenants_for_email, get_tenants_for_parent. keep.
  all: by apply preserves_modify; intros; apply st_cache.
Qed.

Lemma keeps_last_resort b e c : preserves I (last_resort b e c).
Proof. unfold last_resort, get_tenant_for_email, swallow. keep. Qed.

Lemma keeps_select b l r c : preserves I (select_tenant b l r c).
Proof. unfold select_tenant. keep. Qed.

Lemma keeps_scan_account e l c : preserves I (scan_for_account e l c).
Proof.
  revert c. induction l as [|t l IH]; intros c; [apply preserves_ret|]. simpl. unfold swallow, with_school.
  keep; apply IH.
Qed.

Lemma keeps_tenant_scan b b' e l c : preserves I (cross_tenant_scan b b' e l c).
Proof. unfold cross_tenant_scan, get_all_tenants. keep. apply keeps_scan_account. Qed.

Lemma keeps_closed b l c : preserves I (fail_closed b l c).
Proof. unfold fail_closed. keep. Qed.

Lemma keeps_local_account b b' e t c : preserves I (local_account b b' e t c).
Proof. unfold local_account, swallow. keep. Qed.

Lemma keeps_parent e t c : preserves I (provision_parent e t c).
Proof. unfold provision_parent, managed_parent, swallow. keep. Qed.

Lemma keeps_check e t : preserves I (check_membership e t).
Proof. unfold check_membership. keep. Qed.

Lemma identify_keeps decode keycloak token requested :
  preserves I (get_current_user decode keycloak token requested).
Proof.
  unfold get_current_user, finish. keep.
  all: first [apply keeps_recognise|apply keeps_memberships|apply keeps_last_resort|apply keeps_select
    |apply keeps_tenant_scan|apply keeps_closed|apply keeps_local_account|apply keeps_parent|apply keeps_check].
Qed.
End stable.

(** ** Refusals are HTTP errors *)
Definition http_refusal (e : exn) : Prop := ∃ status detail, e = HTTPException status detail ∧ status ∈ [400; 401; 403].

Definition refuses {A} (m : CP A) : Prop := ∀ w, wp m (λ _ _, True) (λ e _, http_refusal e) w.

Lemma refuses_bind {A B} (m : CP A) (f : A → CP B) : refuses m → (∀ a, refuses (f a)) → refuses (m ≫= f).
Proof. intros Hm Hf w. rewrite wp_bind. eapply wp_mono; [apply Hm|intros a w' _; apply Hf|done]. Qed.

Lemma refuses_swallow {A} d (m : CP A) : refuses (swallow d m).
Proof. intros w. unfold swallow. rewrite wp_try_except. unfold wp at 1. destruct (m w) as [[]]; exact I. Qed.

Lemma refuses_try {A} (m : CP A) h : (∀ e, refuses (h e)) → refuses (try_except m h).
Proof. intros Hh w. rewrite wp_try_except. unfold wp. destruct (m w) as [[a|e] w']; [done|apply Hh]. Qed.

Lemma refuses_http {A} s d : s ∈ [400; 401; 403] → refuses (raise (HTTPException s d) : CP A).
Proof. intros Hs w. rewrite wp_raise. by exists s, d. Qed.

Lemma refuses_scan_account e l c : refuses (scan_for_account e l c).
Proof.
  revert c. induction l as [|t l IH]; intros c w; [done|]. revert w. change (refuses (scan_for_account e (t :: l) c)).
  simpl. case_bool_decide; [apply IH|]. apply refuses_bind; [apply refuses_swallow|intros [[k r]|]; [|apply IH]].
  apply refuses_bind; [apply refuses_swallow|intros _; done].
Qed.

Lemma refuses_guard b s d : s ∈ [400; 401; 403] → refuses (guard_or b (HTTPException s d)).
Proof. intros Hs. destruct b; [intros ?; exact I|by apply refuses_http]. Qed.
Lemma refuses_option {A} (o : option A) s d : s ∈ [400; 401; 403] → refuses (from_option_or o (HTTPException s d)).
Proof. intros Hs. destruct o; [intros ?; exact I|by apply refuses_http]. Qed.

Ltac refuse := repeat match goal with
  | |- refuses (mret _) => intros ?; exact I
  | |- refuses (gets _) => intros ?; exact I
  | |- refuses (modify _) => intros ?; exact I
  | |- refuses (raise not_a_member) => apply refuses_http
  | |- refuses (raise (HTTPException _ _)) => apply refuses_http
  | |- refuses (guard_or ?b _) => apply refuses_guard
  | |- refuses (from_option_or ?o _) => apply refuses_option
  | |- refuses (swallow _ _) => apply refuses_swallow
  | |- refuses (scan_for_account _ _ _) => apply refuses_scan_account
  | |- refuses (_ ≫= _) => apply refuses_bind; [|intros ?]
  | |- refuses (match ?x with _ => _ end) => destruct x
  | |- _ ∈ _ => set_solver
  end.

(** The database never raises an HTTP error. *)
Definition mild (e : exn) : Prop := match e with HTTPException s _ => s = 403 | _ => True end.
Definition mildly {S A} (m : M S A) : Prop := ∀ s, wp m (λ _ _, True) (λ e _, mild e) s.

Lemma mildly_bind {S A B} (m : M S A) (f : A → M S B) : mildly m → (∀ a, mildly (f a)) → mildly (m ≫= f).
Proof. intros Hm Hf w. rewrite wp_bind. eapply wp_mono; [apply Hm|intros a w' _; apply Hf|done]. Qed.

Lemma mildly_for_each {S A} (l : list A) (f : A → M S unit) : (∀ a, mildly (f a)) → mildly (for_each l f).
Proof. intros Hf. induction l as [|a l IH]; [by intros s|]. by apply mildly_bind. Qed.

Lemma mildly_in_school {A} t (m : DB A) : mildly m → mildly (in_school t m).
Proof.
  intros Hm w. rewrite wp_in_school. unfold wp.
  specialize (Hm (default empty_db (schools w !! t))). unfold wp in Hm. by destruct (m _) as [[]].
Qed.

Lemma mildly_swallow {A} d (m : CP A) : mildly (swallow d m).
Proof. intros w. unfold swallow. rewrite wp_try_except. unfold wp at 1. destruct (m w) as [[]]; exact I. Qed.

Ltac milden := repeat match goal with
  | |- mildly (mret _) => intros ?; exact I
  | |- mildly (gets _) => intros ?; exact I
  | |- mildly (modify _) => intros ?; exact I
  | |- mildly (raise _) => intros ?; first [exact I|exact eq_refl]
  | |- mildly (guard_or ?b _) => intros ?; destruct b; exact I
  | |- mildly (swallow _ _) => apply mildly_swallow
  | |- mildly (for_each _ _) => apply mildly_for_each; intros ?
  | |- mildly (_ ≫= _) => apply mildly_bind; [|intros ?]
  | |- mildly (match ?x with _ => _ end) => destruct x
  end.

Lemma mildly_init sas : mildly (_initialize_tenant_tables sas).
Proof.
  unfold _initialize_tenant_tables, init_academic_year, init_section_labels, init_profile,
    init_resource_types, init_category, init_super_admins, mirror_super_admin, insert_serial.
  milden.
Qed.

Lemma mildly_open t : mildly (get_db_pool t).
Proof. unfold get_db_pool, cp_check. milden. apply mildly_in_school, mildly_init. Qed.

Lemma mildly_lookup e : mildly (get_user_by_email e).
Proof. unfold get_user_by_email. milden. Qed.

Lemma mildly_account e r f : mildly (managed_account e r f).
Proof. unfold managed_account, check_role, check, insert_serial. milden. Qed.

Lemma mildly_profile k e r : mildly (create_profile k e r).
Proof.
  unfold create_profile, ensure_profile,
    upsert_profile, place_student, check_fk, check. milden.
Qed.

Lemma account_refuses b b' e t c : refuses (local_account b b' e t c).
Proof.
  unfold local_account. intros w. rewrite wp_try_except.
  match goal with |- wp ?m _ _ _ => assert (mildly m) as H end.
  { apply mildly_bind; [apply mildly_open|intros _].
    apply mildly_bind; [apply mildly_in_school, mildly_lookup|intros u]. milden.
    all: apply mildly_in_school; first [apply mildly_account|apply mildly_profile]. }
  eapply wp_mono; [apply H|done|]. intros x w' Hx. destruct x; try done.
  rewrite wp_raise. simpl in Hx. subst. eexists _, _. split; [done|set_solver].
Qed.

(** C40: a caller is identified or refused. Whatever the token, the
    requested school and the state of the databases, [get_current_user]
    answers with a caller or raises an HTTP error 400, 401 or 403; no failure
    of a statement on the way reaches the endpoint. *)
Theorem identification_never_crashes decode keycloak token requested w :
  match get_current_user decode keycloak token requested w with
  | (Ok _, _) => True
  | (Raise e, _) => http_refusal e
  end.
Proof.
  cut (refuses (get_current_user decode keycloak token requested)).
  { intros H. specialize (H w). unfold wp in H. by destruct (get_current_user _ _ _ _ w) as [[]]. }
  unfold get_current_user, recognise_super_admin, get_memberships, read_memberships, get_tenants_for_email,
    get_tenants_for_parent, last_resort, get_tenant_for_email, select_tenant, cross_tenant_scan,
    get_all_tenants, fail_closed, finish, provision_parent, check_membership, access_ended.
  refuse; try apply account_refuses.
  all: apply refuses_http; set_solver.
Qed.

(** ** Suspension *)
(** [w] has at least the memberships of [w0], each with its status. *)
Record ended (w0 w : World) : Prop := {
  en_wf : control_plane_wf w;
  en_ids : identities w0 ⊆ identities w;
  en_status : ∀ key st, status_of w0 key = Some st → status_of w key = Some st;
}.

Lemma ended_same w0 w w' :
  ended w0 w → control_plane_wf w' → identities w ⊆ identities w' → user_tenant_map w' = user_tenant_map w →
  ended w0 w'.
Proof.
  intros [_ Hi Hs] Hwf Hi' Hm. constructor; [done|by etrans|]. intros key st Hk.
  unfold status_of. rewrite Hm. by apply Hs.
Qed.

Lemma ended_by {A} w0 (m : CP A) :
  (∀ M, preserves (same_members M) m) → (∀ ids, preserves (λ w, identities w = ids) m) →
  preserves (ended w0) m.
Proof.
  intros Hm Hi w Hw.
  eapply wp_mono; [apply wp_conj; [apply (Hm (user_tenant_map w)); split; [apply Hw|done]
    |apply (Hi (identities w)); done]|..]; intros ? w' [[Hwf Hmap] Hids];
    (eapply ended_same; [exact Hw|done|by rewrite Hids|done]).
Qed.

#[global] Instance ended_stable w0 : Stable (ended w0).
Proof.
  constructor.
  - intros t. apply ended_by; [intros M; apply same_open|]. intros ids w Hw.
    apply wp_get_db_pool; [intros w' Ho|intros e w' Ho]; destruct (opened_same _ _ Ho) as (_ & _ & _ & ->); done.
  - intros A t m. apply ended_by.
    + intros M w [Hwf Hm]. rewrite wp_in_school. unfold wp. destruct (m _) as [[]]; (split; [by apply wf_school|done]).
    + intros ids w Hw. rewrite wp_in_school. unfold wp. by destruct (m _) as [[]].
  - intros e t r w Hw.
    eapply wp_mono; [apply wp_conj; [apply (life_upsert w e t r); apply Hw|apply (upsert_frame e t r w); apply Hw]|..];
      intros ? w' [[Hwf Hl] (Hi & _)]; (constructor; [done|etrans; [apply Hw|done]|]);
      intros key st Hk; apply (en_status _ _ Hw) in Hk; specialize (Hl key); rewrite Hk in Hl;
      by inversion Hl; subst.
  - intros e h. apply ended_by; [intros M; apply same_parent|]. intros ids w Hw.
    unfold create_parent, cp_check, cp_insert. wp_simpl. case_bool_decide; [|done]. by wp_simpl.
  - intros p t. apply ended_by; [intros M; apply same_link|]. intros ids w Hw.
    unfold add_parent_tenant_link, check_parent, check_tenant, cp_check. wp_simpl.
    destruct (parent_tenant_links w !! (p, t)); wp_simpl; [done|].
    destruct (has_row (parents w) p); wp_simpl; [|done]. case_bool_decide; wp_simpl; done.
  - intros w c Hw. eapply ended_same; [exact Hw|by apply wf_cache, Hw|done|done].
Qed.

Lemma ended_refl w : control_plane_wf w → ended w w.
Proof. by constructor. Qed.

(** The membership that [member_status] reads keeps its status. *)
Lemma ended_member w0 w email t st :
  control_plane_wf w0 → ended w0 w → member_status email t w0 = Some st → member_status email t w = Some st.
Proof.
  intros Hwf0 [Hwf Hids Hst]. unfold member_status. rewrite !fmap_Some. intros ([[i u] r] & Hf & ->).
  apply find_member_Some in Hf as (Hr & He & Hu). simpl in Hu. subst u.
  assert (status_of w0 (i, t) = Some (mb_status r)) as Hs0 by (unfold status_of; by rewrite Hr).
  apply Hst in Hs0. unfold status_of in Hs0. apply fmap_Some in Hs0 as (r' & Hr' & Hs').
  destruct (wm_ok w0 (proj1 (proj2 Hwf0)) (i, t) r Hr) as ((e & Hie & Hce) & _). simpl in Hie.
  exists ((i, t), r'). split; [|done]. eapply (member_by_email w i t e); [done| |congruence|done].
  by eapply lookup_weaken.
Qed.

(** ** The caller as the token and the operator list name it *)
Section claims.
Context (decode keycloak : string → option payload).

Definition email_of (p : payload) : string := or_else (pl_email p) (pl_username p).

Definition operator (w : World) (email : string) : bool :=
  bool_decide (is_Some (find_row (λ _ r, upper_eq (sa_email r) email) (super_admins w))).

(** A super admin by the token, or by email when the token carries no role. *)
Definition platform_admin (w : World) (p : payload) (is_keycloak : bool) : bool :=
  bool_decide (token_role is_keycloak p = "super_admin") ||
  bool_decide ("super_admin" ∈ token_roles is_keycloak p) ||
  (bool_decide (token_role is_keycloak p = "pending") && negb (bool_decide (email_of p = ""))
   && operator w (email_of p)).

Definition start (p : payload) (is_keycloak : bool) : context :=
  {| cx_user_id := pl_sub p; cx_role := token_role is_keycloak p; cx_roles := token_roles is_keycloak p;
     cx_tenant := token_tenant p |}.

(** Recognising an operator decides [is_super_admin], and changes nothing for
    anyone else. *)
Lemma wp_recognise p kc (Q : context → World → Prop) (E : exn → World → Prop) w :
  (∀ c, bool_decide (cx_role c = "super_admin") || bool_decide ("super_admin" ∈ cx_roles c)
        = platform_admin w p kc →
     (platform_admin w p kc = false → c = start p kc) → Q c w) →
  wp (recognise_super_admin (email_of p) (start p kc)) Q E w.
Proof.
  intros HQ. unfold recognise_super_admin. unfold platform_admin in HQ. fold (email_of p) in *.
  cbn [cx_role cx_roles start] in *.
  destruct (bool_decide (token_role kc p = "pending") && negb (bool_decide (email_of p = ""))) eqn:Hp.
  2:{ wp_simpl. apply HQ; simpl; [by rewrite orb_false_r|done]. }
  wp_simpl. unfold operator in HQ.
  destruct (find_row _ (super_admins w)) as [[k r]|] eqn:Hf; simpl in *; wp_simpl; apply HQ; simpl.
  - by rewrite orb_true_r.
  - by rewrite orb_true_r.
  - by rewrite orb_false_r.
  - done.
Qed.

Definition cache_only (w w' : World) : Prop := w' = w <| member_cache := member_cache w' |>.

(** The memberships of an email: the control plane's rows, and the schools a
    parent is linked to. *)
Definition members_of (email : string) (w : World) : list (string * string) :=
  fold_left (λ d t, set_default t "parent" d)
    match find_parent (norm_email email) w with Some (id, _) => tenants_of_parent id w | None => [] end
    (dict_of (memberships_of email w)).

(** What a request reads: a recent copy, or the memberships. *)
Definition known_members (email : string) (w : World) : list (string * string) :=
  match member_cache w !! norm_email email with
  | Some (t0, l) => if now w - t0 <? CACHE_TTL then l else members_of email w
  | None => members_of email w
  end.

Lemma wp_get_memberships b email (Q : list (string * string) → World → Prop) (E : exn → World → Prop) w :
  (∀ w', cache_only w w' → Q (if b || bool_decide (email = "") then [] else known_members email w) w') →
  wp (get_memberships b email) Q E w.
Proof.
  intros HQ. unfold get_memberships. destruct (b || bool_decide (email = "")).
  { wp_simpl. apply HQ. by destruct w. }
  wp_simpl. unfold known_members in HQ.
  assert (∀ t E, wp (l ← read_memberships email;
      modify (λ w, w <| member_cache ::= <[norm_email email := (t, l)]> |>) ;; mret l)
      (λ l w', l = members_of email w ∧ cache_only w w') E w) as Hread.
  { intros t E'. unfold read_memberships, get_tenants_for_email, get_tenants_for_parent, members_of. wp_simpl.
    destruct (find_parent (norm_email email) w) as [[id r]|]; wp_simpl; (split; [done|by destruct w]). }
  destruct (member_cache w !! norm_email email) as [[t0 l]|]; [destruct (now w - t0 <? CACHE_TTL)|].
  - wp_simpl. apply HQ. by destruct w.
  - eapply wp_mono; [apply Hread with (E := E)|intros ? w' [-> Hw']; by apply HQ|done].
  - eapply wp_mono; [apply Hread with (E := E)|intros ? w' [-> Hw']; by apply HQ|done].
Qed.

Lemma wp_any {A} (m : CP A) w : wp m (λ _ _, True) (λ _ _, True) w.
Proof. unfold wp. by destruct (m w) as [[]]. Qed.

(** C5: suspension takes effect on the next request. A caller whose token
    carries an email, and who is no platform operator, is refused in a school
    where the membership of that email is suspended or revoked, whatever the
    token says and however the school was chosen. *)
Theorem suspended_member_is_refused token requested p kc t w :
  control_plane_wf w → verified decode keycloak token = Some (p, kc) → platform_admin w p kc = false →
  email_of p ≠ "" → member_status (email_of p) t w ∈ [Some "suspended"; Some "revoked"] →
  match get_current_user decode keycloak (Some token) requested w with
  | (Ok (u, _), _) => cu_tenant_id u ≠ Some t
  | (Raise _, _) => True
  end.
Proof.
  intros Hwf Hv Hadm Hem Hst.
  cut (wp (get_current_user decode keycloak (Some token) requested)
    (λ r _, cu_tenant_id r.1 ≠ Some t) (λ _ _, True) w).
  { unfold wp. by destruct (get_current_user _ _ _ _ w) as [[[u ms]|e] w']. }
  unfold get_current_user. wp_simpl. rewrite Hv. simpl. wp_simpl.
  apply wp_recognise. intros c -> _. rewrite Hadm.
  pose proof (ended_refl w Hwf) as H0.
  eapply (wp_skip (ended w)); [apply keeps_memberships, _|done| |done]. intros ms w1 H1.
  eapply (wp_skip (ended w)); [apply keeps_last_resort, _|done| |done]. intros c2 w2 H2.
  eapply (wp_skip (ended w)); [apply keeps_select, _|done| |done]. intros [c3 sel] w3 H3.
  eapply (wp_skip (ended w)); [apply keeps_tenant_scan, _|done| |done]. intros c4 w4 H4.
  eapply (wp_skip (ended w)); [apply keeps_closed, _|done| |done]. intros tid w5 H5.
  unfold finish. eapply (wp_skip (ended w)); [|done| |done].
  { destruct tid; [|apply preserves_ret]. case_bool_decide; [apply preserves_ret|apply keeps_local_account, _]. }
  intros c6 w6 H6. eapply (wp_skip (ended w)); [|done| |done].
  { destruct (_ && _); [|apply preserves_ret]. destruct tid; [apply keeps_parent, _|apply preserves_ret]. }
  intros c7 w7 H7. fold (email_of p). rewrite (bool_decide_eq_false_2 (email_of p = "")) by exact Hem. simpl.
  destruct tid as [t'|]; [|wp_simpl; simpl; done].
  unfold check_membership. wp_simpl.
  destruct (bool_decide (member_status (email_of p) t' w7 ∈ _)) eqn:Hd; simpl; [done|]. wp_simpl. simpl.
  intros [= ->]. apply bool_decide_eq_false in Hd. apply Hd.
  destruct (member_status (email_of p) t w) as [st|] eqn:E; [|set_solver].
  by rewrite (ended_member w w7 _ _ st).
Qed.

(** *** Where the school comes from *)
(** The accounts seen later were there, or mirror an operator. *)
Definition seen (w w' : World) : Prop :=
  super_admins w' = super_admins w ∧
  ∀ t k r, school_user w' t k r → school_user w t k r ∨ mirrored w r.

Lemma seen_refl w : seen w w.
Proof. split; [done|by left]. Qed.

Lemma seen_trans w1 w2 w3 : seen w1 w2 → seen w2 w3 → seen w1 w3.
Proof.
  intros [S1 U1] [S2 U2]. split; [congruence|]. intros t k r H. apply U2 in H as [H|(i & sa & Hi & ->)]; [by apply U1|].
  right. exists i, sa. by rewrite <-S1.
Qed.

Lemma seen_same w w' : super_admins w' = super_admins w → schools w' = schools w → seen w w'.
Proof. intros Hs Hc. split; [done|]. intros t k r. unfold school_user. rewrite Hc. by left. Qed.

Lemma seen_cache w w' : cache_only w w' → seen w w'.
Proof. intros ->. by apply seen_same. Qed.

Lemma seen_opened w w' : opened w w' → seen w w'.
Proof. intros Ho. split; [apply (opened_same _ _ Ho)|apply (op_users _ _ Ho)]. Qed.

Lemma seen_upsert w0 e t r : preserves (seen w0) (upsert_user_tenant_map e t r).
Proof.
  assert (∀ f : World → World, (∀ w, super_admins (f w) = super_admins w ∧ schools (f w) = schools w) →
    preserves (seen w0) (modify f)) as Hf.
  { intros f H. apply preserves_modify. intros w Hw. eapply seen_trans; [exact Hw|]. by apply seen_same; apply H. }
  unfold upsert_user_tenant_map. apply preserves_bind.
  { unfold get_or_create_identity, cp_insert. apply preserves_bind; [apply preserves_gets|intros [[i x]|]];
      [apply preserves_ret|]. apply preserves_bind; [apply preserves_gets|intros i].
    apply preserves_bind; [by apply Hf|intros _; apply preserves_ret]. }
  intros i. apply preserves_bind.
  - unfold upsert_member. apply preserves_bind; [apply preserves_gets|intros n].
    apply preserves_bind; [apply preserves_gets|intros [[key a]|]]; [by apply Hf|].
    apply preserves_bind; [apply preserves_gets|intros members].
    apply preserves_bind; [auto with pres|intros _]. apply preserves_bind; [auto with pres|intros _]. by apply Hf.
  - intros _. unfold invalidate_membership_cache. case_bool_decide; by apply Hf.
Qed.

Lemma wp_swallow {A} (J : World → Prop) d (m : CP A) (Q : A → World → Prop) (E : exn → World → Prop) w :
  preserves J m → J w → (∀ a w', J w' → Q a w') → wp (swallow d m) Q E w.
Proof.
  intros Hm Hw HQ. unfold swallow. rewrite wp_try_except. eapply wp_mono; [by apply Hm|..].
  - intros a w' Hw'. by apply HQ.
  - intros e w' Hw'. rewrite wp_ret. by apply HQ.
Qed.

(** An account of the email in the school. *)
Definition has_account (w : World) (email t : string) : Prop :=
  ∃ k r, (school_user w t k r ∨ mirrored w r) ∧ upper_eq (us_email r) (str_strip email) = true.

Lemma has_account_seen w w' email t : seen w w' → has_account w' email t → has_account w email t.
Proof.
  intros Hs (k & r & H & He). exists k, r. split; [|done]. destruct H as [H|(i & sa & Hi & ->)].
  - by apply Hs.
  - right. exists i, sa. destruct Hs as [<- _]. done.
Qed.

Definition mapped (w : World) (email t : string) : Prop :=
  (∃ r, head (memberships_of email w) = Some (t, r)) ∨ (∃ r, last_invitation email w = Some (t, r)).

Lemma wp_last_resort amb email c (Q : context → World → Prop) (E : exn → World → Prop) w :
  (∀ c' w', seen w w' → (cx_tenant c' = cx_tenant c ∨ mapped w email (cx_tenant c')) →
     (unresolved (cx_tenant c) || unassigned_role (cx_role c) = false → c' = c) → Q c' w') →
  wp (last_resort amb email c) Q E w.
Proof.
  intros HQ. unfold last_resort.
  destruct (negb amb && (unresolved (cx_tenant c) || unassigned_role (cx_role c)) && _) eqn:Hc.
  2:{ wp_simpl. apply HQ; [apply seen_refl|by left|done]. }
  assert (unresolved (cx_tenant c) || unassigned_role (cx_role c) = true) as Hact.
  { by apply andb_true_iff in Hc as [[_ Hc]%andb_true_iff _]. }
  unfold get_tenant_for_email. wp_simpl.
  match goal with |- context [bool_decide (head _ = None) || bool_decide (cx_role ?d = "") || _] => set (c1 := d) end.
  assert (cx_tenant c1 = cx_tenant c ∨ mapped w email (cx_tenant c1)) as Ht1.
  { subst c1. destruct (head (memberships_of email w)) as [[t r]|] eqn:Hh; [|by left]. right. left.
    exists r. by destruct (_ && mem r VALID_ROLES). }
  destruct (_ || _ || unassigned_role (cx_role c1)).
  2:{ wp_simpl. apply HQ; [apply seen_refl|done|by rewrite Hact]. }
  wp_simpl. destruct (last_invitation email w) as [[t r]|] eqn:Hi.
  2:{ wp_simpl. apply HQ; [apply seen_refl|done|by rewrite Hact]. }
  destruct (bool_decide (t = "") || bool_decide (r = "")).
  { wp_simpl. apply HQ; [apply seen_refl|done|by rewrite Hact]. }
  rewrite wp_bind. apply (wp_swallow (seen w)); [apply seen_upsert|apply seen_refl|].
  intros _ w' Hw'. wp_simpl. apply HQ; [done| |by rewrite Hact]. right. right. by exists r.
Qed.

Lemma wp_scan_account email l c (Q : context → World → Prop) (E : exn → World → Prop) w0 w :
  seen w0 w →
  (∀ c' w', seen w0 w' → (c' = c ∨ has_account w0 email (cx_tenant c')) → Q c' w') →
  wp (scan_for_account email l c) Q E w.
Proof.
  revert w. induction l as [|t l IH]; intros w Hw HQ; simpl; [wp_simpl; by apply HQ; [|left]|].
  case_bool_decide; [by apply IH|]. rewrite wp_bind.
  match goal with |- wp (swallow ?d ?m) ?P ?F _ => change (wp (try_except m (λ _, mret d)) P F w) end.
  rewrite wp_try_except.
  apply wp_lookup_user.
  - intros u w1 Ho Hu. assert (seen w0 w1) as Hw1 by (eapply seen_trans; [exact Hw|by apply seen_opened]).
    destruct u as [[k r]|]; [|by apply IH].
    destruct (Hu k r eq_refl) as [He Hk].
    assert (has_account w0 email t) as Hacc.
    { apply (has_account_seen w0 w); [done|]. by exists k, r. }
    rewrite wp_bind. apply (wp_swallow (seen w0)); [apply seen_upsert|done|].
    intros _ w2 Hw2. wp_simpl. apply HQ; [done|]. right. simpl. by destruct (_ || no_role (us_role r)).
  - intros e w1 Ho. wp_simpl. apply IH; [|done]. eapply seen_trans; [exact Hw|by apply seen_opened].
Qed.

(** The end of the identification keeps the school it is given. *)
Lemma wp_finish_named kc sel email known t c w' :
  wp (finish false kc sel email known (Some t) c) (λ r _, cu_tenant_id r.1 = Some t ∧ r.2 = known) (λ _ _, True) w'.
Proof.
  unfold finish. rewrite wp_bind. eapply wp_mono; [apply wp_any| |done]. intros c3 w3 _.
  rewrite wp_bind. eapply wp_mono; [apply wp_any| |done]. intros c4 w4 _.
  rewrite wp_bind. eapply wp_mono; [apply wp_any| |done]. intros ? w5 _. by wp_simpl.
Qed.

Lemma wp_fail_closed known c w' (Q : option string → World → Prop) :
  (unresolved (cx_tenant c) = false → Q (Some (cx_tenant c)) w') → wp (fail_closed false known c) Q (λ _ _, True) w'.
Proof.
  intros HQ. unfold fail_closed. destruct (unresolved (cx_tenant c)) eqn:Hu.
  - destruct known as [|? [|? ?]]; by wp_simpl.
  - wp_simpl. by apply HQ.
Qed.

(** A caller with memberships stays in the school the request selected. *)
Lemma wp_selected kc sel ambiguous email known c w' :
  known ≠ [] →
  wp (c ← cross_tenant_scan false ambiguous email known c;
      tenant_id ← fail_closed false known c;
      finish false kc sel email known tenant_id c)
    (λ r _, cu_tenant_id r.1 = Some (cx_tenant c) ∧ unresolved (cx_tenant c) = false ∧ r.2 = known) (λ _ _, True) w'.
Proof.
  intros Hk. unfold cross_tenant_scan. rewrite (bool_decide_eq_false_2 (known = [])) by done. rewrite andb_false_r.
  wp_simpl. apply wp_fail_closed. intros Hu. eapply wp_mono; [apply wp_finish_named| |done]. intros r w2 [? ?]. auto.
Qed.

(** C4: a school is never guessed. A caller who is no platform operator
    acts in a school, and not in a reserved name. If the request names a
    school, it is that school, and one of the caller's memberships. If it
    names none, the school is the one the token names, or that of the newest
    membership or invitation of the caller's email, or one with an account of
    that email. *)
Theorem school_is_never_guessed token requested p kc w :
  verified decode keycloak token = Some (p, kc) → platform_admin w p kc = false →
  match get_current_user decode keycloak (Some token) requested w with
  | (Ok (u, ms), _) => ∃ t, cu_tenant_id u = Some t ∧ unresolved t = false ∧
      ms = (if bool_decide (email_of p = "") then [] else known_members (email_of p) w) ∧
      if bool_decide (str_strip (default "" requested) = "")
      then t = token_tenant p ∨ mapped (w <| member_cache := ∅ |>) (email_of p) t ∨ has_account w (email_of p) t
      else (∃ r, (t, r) ∈ ms) ∧ str_lower (str_strip t) = str_lower (str_strip (default "" requested))
  | (Raise _, _) => True
  end.
Proof.
  intros Hv Hadm.
  set (known := if bool_decide (email_of p = "") then [] else known_members (email_of p) w).
  set (answer := λ (r : CurrentUser * list (string * string)), ∃ t, cu_tenant_id r.1 = Some t ∧
    unresolved t = false ∧ r.2 = known ∧
    if bool_decide (str_strip (default "" requested) = "")
    then t = token_tenant p ∨ mapped (w <| member_cache := ∅ |>) (email_of p) t ∨ has_account w (email_of p) t
    else (∃ r, (t, r) ∈ known) ∧ str_lower (str_strip t) = str_lower (str_strip (default "" requested))).
  cut (wp (get_current_user decode keycloak (Some token) requested) (λ r _, answer r) (λ _ _, True) w).
  { unfold wp, answer. destruct (get_current_user _ _ _ _ w) as [[[u ms]|e] w']; [|done].
    intros (t & Ht & Hu & Hms & H). simpl in *. exists t. rewrite Hms. done. }
  unfold get_current_user. wp_simpl. rewrite Hv. simpl. wp_simpl. fold (email_of p).
  apply wp_recognise. intros c Hsup Hc. rewrite Hadm in Hsup. specialize (Hc Hadm). subst c. rewrite Hsup.
  rewrite wp_bind. apply wp_get_memberships. intros w1 Hw1. simpl. fold known.
  rewrite wp_bind. apply wp_last_resort. intros c2 w2 Hw2 Ht2 _.
  assert (cx_tenant c2 = token_tenant p ∨ mapped (w <| member_cache := ∅ |>) (email_of p) (cx_tenant c2)) as Ht2'.
  { destruct Ht2 as [Ht2|Hm]; [by left|right]. rewrite Hw1 in Hm. exact Hm. }
  assert (seen w w2) as Hs2 by (eapply seen_trans; [by apply seen_cache|done]).
  unfold select_tenant. destruct (bool_decide (str_strip (default "" requested) = "")) eqn:Hblank.
  - wp_simpl.
    assert (∀ c', (c' = c2 ∨ has_account w (email_of p) (cx_tenant c')) →
      cx_tenant c' = token_tenant p ∨ mapped (w <| member_cache := ∅ |>) (email_of p) (cx_tenant c') ∨
      has_account w (email_of p) (cx_tenant c')) as Hprov.
    { intros c' [->|]; [|auto]. destruct Ht2'; auto. }
    unfold cross_tenant_scan. destruct (_ && bool_decide (known = [])).
    + unfold get_all_tenants. wp_simpl. eapply wp_scan_account; [exact Hs2|].
      intros c3 w3 Hw3 Hc3. wp_simpl. apply wp_fail_closed. intros Hu.
      eapply wp_mono; [apply wp_finish_named| |done]. intros r w4 [Hr1 Hr2]. exists (cx_tenant c3).
      split_and!; [done..|]. rewrite ?Hblank. by apply Hprov.
    + wp_simpl. apply wp_fail_closed. intros Hu.
      eapply wp_mono; [apply wp_finish_named| |done]. intros r w4 [Hr1 Hr2]. exists (cx_tenant c2).
      split_and!; [done..|]. rewrite ?Hblank. apply Hprov; by left.
  - destruct (List.find _ known) as [[t r]|] eqn:Hf; [|by wp_simpl].
    apply List.find_some in Hf as [Hin Ht%bool_decide_eq_true]. apply list_elem_of_In in Hin. simpl in Ht.
    assert (known ≠ []) as Hk by (intros Hk; rewrite Hk in Hin; by apply elem_of_nil in Hin).
    destruct (bool_decide (t = cx_tenant c2)) eqn:Hsame; wp_simpl; rewrite <-wp_bind;
      (eapply wp_mono; [by apply wp_selected| |done]); intros r' w4 (Hr1 & Hu & Hr2); exists t; rewrite ?Hblank.
    + apply bool_decide_eq_true in Hsame. rewrite <-Hsame in Hr1, Hu. split_and!; [done..|by exists r|done].
    + split_and!; [done..|by exists r|done].
Qed.

(** *** The roles in another school *)
(** The data steps that open a school never fail, whatever the school holds. *)
Definition succeeds {S A} (m : M S A) : Prop := ∀ s, wp m (λ _ _, True) (λ _ _, False) s.

Lemma succeeds_bind {S A B} (m : M S A) (f : A → M S B) :
  succeeds m → (∀ a, succeeds (f a)) → succeeds (m ≫= f).
Proof. intros Hm Hf w. rewrite wp_bind. eapply wp_mono; [apply Hm|intros a w' _; apply Hf|done]. Qed.

Lemma succeeds_for_each {S A} (l : list A) (f : A → M S unit) : (∀ a, succeeds (f a)) → succeeds (for_each l f).
Proof. intros Hf. induction l as [|a l IH]; [by intros s|]. by apply succeeds_bind. Qed.

Lemma succeeds_in_school {A} t (m : DB A) : succeeds m → succeeds (in_school t m).
Proof.
  intros Hm w. rewrite wp_in_school. unfold wp.
  specialize (Hm (default empty_db (schools w !! t))). unfold wp in Hm. by destruct (m _) as [[]].
Qed.

Ltac succeed := repeat match goal with
  | |- succeeds (mret _) => intros ?; exact I
  | |- succeeds (gets _) => intros ?; exact I
  | |- succeeds (modify _) => intros ?; exact I
  | |- succeeds (for_each _ _) => apply succeeds_for_each; intros ?
  | |- succeeds (_ ≫= _) => apply succeeds_bind; [|intros ?]
  | |- succeeds (match ?x with _ => _ end) => destruct x
  end.

Lemma succeeds_init sas : succeeds (_initialize_tenant_tables sas).
Proof.
  unfold _initialize_tenant_tables, init_academic_year, init_section_labels, init_profile,
    init_resource_types, init_category, init_super_admins, mirror_super_admin, insert_serial.
  succeed.
Qed.

Lemma succeeds_open t : tenant_id_fits t = true → succeeds (get_db_pool t).
Proof.
  intros Ht. unfold get_db_pool, cp_check. rewrite Ht. succeed; try (intros ?; exact I).
  apply succeeds_in_school, succeeds_init.
Qed.

(** An account read after a selection replaces what the caller could do. *)
Lemma wp_selected_account email t c (Q : context → World → Prop) w0 w :
  tenant_id_fits t = true → seen w0 w →
  (∀ k r w', (school_user w0 t k r ∨ mirrored w0 r) → upper_eq (us_email r) (str_strip email) = true →
     Q (account_roles false true k r c) w') →
  wp (local_account false true email t c) Q (λ _ _, True) w.
Proof.
  intros Ht Hw HQ. unfold local_account. rewrite wp_try_except, wp_bind.
  assert (wp (get_db_pool t) (λ _ w', opened w w') (λ _ _, False) w) as Hopen.
  { eapply wp_mono; [apply wp_conj; [apply (wp_get_db_pool t (λ _ w', opened w w') (λ _ w', opened w w')); auto
      |apply (succeeds_open t Ht)]|intros ? ? [H _]; exact H|intros ? ? [_ []]]. }
  eapply wp_mono; [exact Hopen| |done]. intros ? w1 Hw1. simpl in Hw1. rewrite wp_bind.
  rewrite wp_in_school. unfold get_user_by_email. case_bool_decide; [by wp_simpl|]. rewrite wp_gets.
  destruct (find_user _ _) as [[k r]|] eqn:Hu; [|by wp_simpl]. wp_simpl.
  apply find_row_Some in Hu as [Hk He]. apply HQ; [|done].
  assert (school_user w1 t k r) as Hs.
  { unfold school_user. destruct (schools w1 !! t); simpl in Hk; [eauto|by rewrite lookup_empty in Hk]. }
  apply (op_users _ _ Hw1) in Hs as [Hs|(i & sa & Hi & ->)]; [by apply Hw|]. right. exists i, sa.
  destruct Hw as [<- _]. done.
Qed.

Lemma expand_mono (s1 s2 : roles_set) : s1 ⊆ s2 → expand s1 ⊆ expand s2.
Proof.
  intros Hs x. unfold expand. rewrite !elem_of_union, !elem_of_list_to_set, !list_elem_of_bind.
  intros [H|(y & Hx & Hy%elem_of_elements)]; [by left; apply Hs|right]. exists y. split; [done|].
  by apply elem_of_elements, Hs.
Qed.

(** What an account names: its role, its further roles and its permissions;
    nothing for an account without a role. *)
Definition named_by (r : user_row) : roles_set :=
  if no_role (us_role r) then {["pending"]}
  else {[us_role r]} ∪ list_to_set (us_roles r) ∪ list_to_set (us_permissions r).

Lemma filter_subset (P : string → bool) (l : list string) : (list_to_set (List.filter P l) : roles_set) ⊆ list_to_set l.
Proof.
  intros x. rewrite !elem_of_list_to_set, !list_elem_of_In, List.filter_In. by intros [].
Qed.

Lemma account_roles_selected k r c :
  us_role r ∈ VALID_ROLES → us_role r ≠ "" →
  let c' := account_roles false true k r c in
  cx_role c' = us_role r ∧ cx_roles c' ⊆ named_by r ∧ cx_roles c' ≠ ∅.
Proof.
  clear decode keycloak. intros Hv0 Hne0. assert (mem (us_role r) VALID_ROLES = true) as Hv by (by apply bool_decide_eq_true).
  assert (bool_decide (us_role r = "") = false) as Hne by (by apply bool_decide_eq_false). clear Hv0 Hne0.
  unfold account_roles, named_by. rewrite Hv, Hne. clear Hv Hne. generalize VALID_ROLES. intros V.
  destruct (no_role (us_role r)); cbn; [split_and!; [done|done|set_solver]|]. split; [done|].
  pose proof (filter_subset (λ p, negb (bool_decide (p = ""))) (us_permissions r)) as Hp.
  pose proof (filter_subset (λ x, negb (bool_decide (x = "")) && mem x V && negb (no_role x)) (us_roles r)) as Hr.
  set (ps := list_to_set (List.filter _ (us_permissions r)) : roles_set) in *.
  set (rs := list_to_set (List.filter _ (us_roles r)) : roles_set) in *.
  destruct (decide (us_role r = "student")) as [->|Hs]; [cbn; set_solver|].
  rewrite (bool_decide_eq_false_2 (us_role r = "student") Hs). cbn.
  destruct (negb (mem "student" (us_roles r))); set_solver.
Qed.

Lemma wp_provision_parent_roles email t c w :
  wp (provision_parent email t c) (λ c' _, cx_role c' = cx_role c ∧ cx_roles c' = cx_roles c) (λ _ _, True) w.
Proof.
  unfold provision_parent. rewrite wp_bind. apply (wp_swallow (λ _, True)); [by intros ??; apply wp_any|done|].
  intros [k|] w' _; [|by wp_simpl]. rewrite wp_bind.
  apply (wp_swallow (λ _, True)); [by intros ??; apply wp_any|done|]. intros _ w'' _. by rewrite wp_ret.
Qed.

(** What the last steps answer, after a selection. *)
Lemma wp_finish_selected kc email ms t c (Q : CurrentUser * list (string * string) → World → Prop) w0 w :
  email ≠ "" → tenant_id_fits t = true → seen w0 w →
  (∀ u k r w', (school_user w0 t k r ∨ mirrored w0 r) → upper_eq (us_email r) (str_strip email) = true →
     (us_role r ∈ VALID_ROLES → us_role r ≠ "" →
      cu_role u = us_role r ∧ ∀ x, x ∈ cu_roles u → x ∈ expand (named_by r)) → cu_tenant_id u = Some t → Q (u, ms) w') →
  wp (finish false kc true email ms (Some t) c) Q (λ _ _, True) w.
Proof.
  intros Hem Ht Hw HQ. unfold finish. rewrite (bool_decide_eq_false_2 (email = "")) by done.
  rewrite wp_bind. apply (wp_selected_account email t c _ w0); [done|done|]. intros k r w1 Hr He.
  set (c1 := account_roles false true k r c).
  assert (wp (if bool_decide (cx_role c1 = "parent") && negb false && kc then provision_parent email t c1 else mret c1)
    (λ c' _, cx_role c' = cx_role c1 ∧ cx_roles c' = cx_roles c1) (λ _ _, True) w1) as Hp.
  { destruct (_ && kc); [apply wp_provision_parent_roles|by rewrite wp_ret]. }
  rewrite wp_bind. eapply wp_mono; [exact Hp| |done]. intros c2 w2 [Hrole Hroles].
  rewrite wp_bind. eapply wp_mono; [apply wp_any| |done]. intros ? w3 _. rewrite wp_ret.
  apply (HQ _ k r); [done|done| |done]. intros Hv Hne. unfold cu_role, cu_roles.
  destruct (account_roles_selected k r c Hv Hne) as (H1 & H2 & H3). fold c1 in H1, H2, H3.
  rewrite Hrole, Hroles. split; [done|]. intros x. rewrite bool_decide_eq_false_2.
  - intros Hx%elem_of_elements. by apply (expand_mono _ _ H2).
  - intros [Hx _]%empty_union_L. by apply H3.
Qed.

(** C17: switching schools replaces the roles. When a caller who is no
    platform operator, and whose token names a role and a school, acts in
    another school, there is an account of the caller's email in that school;
    if its role is one the program knows, the caller's role is that of the
    account, and every permission of the caller comes from the account:
    nothing of the token's school is carried over. *)
Theorem switching_schools_replaces_roles token requested p kc w :
  verified decode keycloak token = Some (p, kc) → platform_admin w p kc = false → email_of p ≠ "" →
  unresolved (token_tenant p) = false → unassigned_role (token_role kc p) = false →
  match get_current_user decode keycloak (Some token) requested w with
  | (Ok (u, _), _) => ∀ t, cu_tenant_id u = Some t → t ≠ token_tenant p → tenant_id_fits t = true →
      ∃ k r, (school_user w t k r ∨ mirrored w r) ∧ upper_eq (us_email r) (str_strip (email_of p)) = true ∧
        (us_role r ∈ VALID_ROLES → us_role r ≠ "" →
         cu_role u = us_role r ∧ ∀ x, x ∈ cu_roles u → x ∈ expand (named_by r))
  | (Raise _, _) => True
  end.
Proof.
  intros Hv Hadm Hem Hun Hrole.
  set (answer := λ (u : CurrentUser), ∀ t, cu_tenant_id u = Some t → t ≠ token_tenant p → tenant_id_fits t = true →
      ∃ k r, (school_user w t k r ∨ mirrored w r) ∧ upper_eq (us_email r) (str_strip (email_of p)) = true ∧
        (us_role r ∈ VALID_ROLES → us_role r ≠ "" →
         cu_role u = us_role r ∧ ∀ x, x ∈ cu_roles u → x ∈ expand (named_by r))).
  cut (wp (get_current_user decode keycloak (Some token) requested) (λ r _, answer r.1) (λ _ _, True) w).
  { unfold wp, answer. by destruct (get_current_user _ _ _ _ w) as [[[u ms]|e] w']. }
  unfold get_current_user. wp_simpl. rewrite Hv. simpl. wp_simpl. fold (email_of p).
  apply wp_recognise. intros c Hsup Hc. rewrite Hadm in Hsup. specialize (Hc Hadm). subst c. rewrite Hsup.
  rewrite wp_bind. apply wp_get_memberships. intros w1 Hw1%seen_cache. simpl.
  rewrite wp_bind. apply wp_last_resort. intros c2 w2 Hw2 _ Hc2. simpl in Hc2. rewrite Hun, Hrole in Hc2.
  specialize (Hc2 eq_refl). subst c2.
  assert (seen w w2) as Hs2 by (by eapply seen_trans).
  set (known := if bool_decide (email_of p = "") then [] else known_members (email_of p) w).
  assert (wp (select_tenant false known (default "" requested) (start p kc)) (λ r w', w' = w2 ∧
    (r = (start p kc, false) ∨ known ≠ [] ∧ ∃ t, r = ((start p kc) <| cx_tenant := t |>, true))) (λ _ _, True) w2) as Hsel.
  { unfold select_tenant. destruct (bool_decide (str_strip (default "" requested) = "")); [wp_simpl; by auto|].
    destruct (List.find _ known) as [[t r]|] eqn:Hf; [|exact I].
    destruct (bool_decide (t = _)); wp_simpl; [by auto|]. split; [done|]. right. split; [|by exists t].
    by intros Hk; rewrite Hk in Hf. }
  rewrite wp_bind. eapply wp_mono; [exact Hsel| |done]. clear Hsel. intros r w3 [-> [->|[Hms [t ->]]]].
  - unfold cross_tenant_scan, fail_closed. cbn [cx_tenant start]. rewrite Hun. cbn [andb]. rewrite wp_bind, wp_ret. cbn [cx_tenant start].
    rewrite Hun, wp_bind, wp_ret.
    unfold finish. rewrite wp_bind. eapply wp_mono; [apply wp_any| |done]. intros c4 w4 _.
    rewrite wp_bind. eapply wp_mono; [apply wp_any| |done]. intros c5 w5 _.
    rewrite wp_bind. eapply wp_mono; [apply wp_any| |done]. intros ? w6 _. rewrite wp_ret.
    intros t [= ->]. done.
  - unfold cross_tenant_scan. rewrite (bool_decide_eq_false_2 (known = [])) by done. rewrite andb_false_r. wp_simpl.
    unfold fail_closed. cbn. destruct (unresolved t); [destruct known as [|? [|]]; by wp_simpl|]. wp_simpl.
    destruct (tenant_id_fits t) eqn:Hfit.
    + apply (wp_finish_selected kc (email_of p) known t _ _ w); [done|done|done|].
      intros u k r w' Hr He Hu Hut t' Ht' _ _. simpl in Ht'. rewrite Hut in Ht'. injection Ht' as <-. by exists k, r.
    + unfold finish. rewrite wp_bind. eapply wp_mono; [apply wp_any| |done]. intros c4 w4 _.
      rewrite wp_bind. eapply wp_mono; [apply wp_any| |done]. intros c5 w5 _.
      rewrite wp_bind. eapply wp_mono; [apply wp_any| |done]. intros ? w6 _. rewrite wp_ret.
      intros t' [= Ht'] _ Hfit'. subst t'. by rewrite Hfit in Hfit'.
Qed.
End claims.

(** ** A concrete deployment *)
Definition add_account (t email role : string) (w : World) : World :=
  (in_school t (insert_serial users (new_user email role "h")) w).2.

(** Fin administers one school and keeps the books of another; Tea teaches in
    both. *)
Definition demo_offices : World :=
  add_account "tenant_b" "tea@x.org" "teacher" (add_account "tenant_b" "fin@x.org" "finance"
    (add_account "tenant_a" "tea@x.org" "manager" (add_account "tenant_a" "fin@x.org" "school_admin"
      (run_cps demo_uuid [StartProcess "pw:root"; OpenSchool "tenant_a"; OpenSchool "tenant_b";
        UpsertMember "fin@x.org" "tenant_a" "school_admin"; UpsertMember "fin@x.org" "tenant_b" "finance";
        UpsertMember "tea@x.org" "tenant_a" "manager"; UpsertMember "tea@x.org" "tenant_b" "teacher"]
        empty_world)))).

Lemma demo_offices_wf : control_plane_wf demo_offices.
Proof. unfold demo_offices, add_account, in_school. apply wf_school, wf_school, wf_school, wf_school, wf_run, empty_world_wf. Defined.

Definition demo_claims (email role tenant : string) : payload :=
  {| pl_sub := "0"; pl_email := email; pl_username := ""; pl_role := role; pl_roles := [role]; pl_tenant := tenant;
     pl_org := NoOrg; pl_attribute := NoAttribute; pl_groups := []; pl_iss := "" |}.
Definition identify (p : payload) (requested : option string) (w : World) :
    result (CurrentUser * list (string * string)) :=
  (get_current_user (λ _, Some p) (λ _, None) (Some "token") requested w).1.
Definition caller_of (r : result (CurrentUser * list (string * string))) : option (option string * string) :=
  match r with Ok (u, _) => Some (cu_tenant_id u, cu_role u) | Raise _ => None end.

Definition tea : payload := demo_claims "tea@x.org" "manager" "tenant_a".
Definition demo_suspended : World := run_cps demo_uuid [SuspendMember "tea@x.org" "tenant_b"] demo_offices.

Lemma suspended_member_is_refused_witness :
  caller_of (identify tea (Some "Tenant_B") demo_offices) = Some (Some "tenant_b", "teacher") ∧
  match identify tea (Some "Tenant_B") demo_suspended with
  | Ok (u, _) => cu_tenant_id u ≠ Some "tenant_b"
  | Raise _ => True
  end.
Proof.
  split; [vm_compute; reflexivity|]. unfold identify.
  pose proof (suspended_member_is_refused (λ _, Some tea) (λ _, None) "token" (Some "Tenant_B") tea false
    "tenant_b" demo_suspended) as H.
  destruct (get_current_user _ _ _ _ _) as [[[u ms]|e] w']; [|exact I]. apply H.
  - apply wf_run, demo_offices_wf.
  - reflexivity.
  - vm_compute. reflexivity.
  - discriminate.
  - vm_compute. set_solver.
Defined.

Lemma school_is_never_guessed_witness :
  caller_of (identify tea (Some " Tenant_B") demo_offices) = Some (Some "tenant_b", "teacher") ∧
  match identify tea (Some " Tenant_B") demo_offices with
  | Ok (u, ms) => ∃ t r, cu_tenant_id u = Some t ∧ (t, r) ∈ ms
  | Raise _ => True
  end.
Proof.
  split; [vm_compute; reflexivity|]. unfold identify.
  pose proof (school_is_never_guessed (λ _, Some tea) (λ _, None) "token" (Some " Tenant_B") tea false
    demo_offices eq_refl) as H.
  destruct (get_current_user _ _ _ _ _) as [[[u ms]|e] w']; [|exact I].
  destruct H as (t & Ht & _ & -> & H); [vm_compute; reflexivity|].
  destruct H as [[r Hr] _]. by exists t, r.
Defined.

Lemma switching_schools_replaces_roles_witness :
  caller_of (identify tea (Some "tenant_b") demo_offices) = Some (Some "tenant_b", "teacher") ∧
  match identify tea (Some "tenant_b") demo_offices with
  | Ok (u, _) => cu_tenant_id u = Some "tenant_b" → ∃ k r,
      (school_user demo_offices "tenant_b" k r ∨ mirrored demo_offices r) ∧
      upper_eq (us_email r) "tea@x.org" = true ∧
      (us_role r ∈ VALID_ROLES → us_role r ≠ "" → ∀ x, x ∈ cu_roles u → x ∈ expand (named_by r))
  | Raise _ => True
  end.
Proof.
  split; [vm_compute; reflexivity|]. unfold identify.
  pose proof (switching_schools_replaces_roles (λ _, Some tea) (λ _, None) "token" (Some "tenant_b") tea false
    demo_offices eq_refl) as H.
  destruct (get_current_user _ _ _ _ _) as [[[u ms]|e] w']; [|exact I].
  intros Hu. destruct H with (t := "tenant_b") as (k & r & Hr & He & H'); try (vm_compute; reflexivity);
    try discriminate; [exact Hu|].
  exists k, r. split; [exact Hr|]. split; [exact He|]. intros Hv Hne. apply (H' Hv Hne).
Defined.

(** The condition on the account's role matters: an account of a role that the
    schema allows and [VALID_ROLES] lacks leaves the caller with the role of
    the other school. *)
Example unknown_role_keeps_the_other_schools_role :
  "finance" ∈ users_role_check ∧
  caller_of (identify (demo_claims "fin@x.org" "school_admin" "tenant_a") (Some "tenant_b") demo_offices)
  = Some (Some "tenant_b", "school_admin").
Proof. split; [by apply (list_elem_of_lookup_2 _ 5)|vm_compute; reflexivity]. Qed.

(** ... and so does the email: an access token minted by a refresh carries
    none, and a suspended member goes on with it. *)
Definition payload_of (c : claims) : payload :=
  {| pl_sub := cl_sub c; pl_email := cl_email c; pl_username := ""; pl_role := cl_role c; pl_roles := cl_roles c;
     pl_tenant := cl_tenant c; pl_org := NoOrg; pl_attribute := NoAttribute; pl_groups := []; pl_iss := "" |}.

Example suspended_member_keeps_a_refreshed_session :
  let log := demo_log [Login "pat@home.org" "secret" None; Refresh "tok4"] in
  let session n := payload_of (default no_claims (head (nth_entry n log).1.2)) in
  let w := run_cps demo_uuid [SuspendMember "pat@home.org" "tenant_b"] (nth_entry 1 log).2 in
  map (λ p, caller_of (identify p None w)) [session 0%nat; session 1%nat]
  = [None; Some (Some "tenant_b", "parent")].
Proof. vm_compute. reflexivity. Qed.
