(* ===== verification/Registration.v ===== *)
(** * Invitations and registration

    [AuthService.register_user], [create_invitation], [get_invitation] and
    [create_tenant] (src/app/domains/auth/service.py) with their endpoints
    (src/app/domains/auth/router.py), and the invitations domain
    (src/app/domains/invitations/): who may become what, and with which code.

    The dependencies of the endpoints ([get_current_user],
    [require_tenant_live]) have run; Keycloak and the mail server are called
    for their effects elsewhere. *)
From Stdlib Require Import Ascii String.
From stdpp Require Import gmap.
From S2P Require Import Prelude PyText Authz Store AcademicRepo Structure School World UserRepo Provision ControlPlane Membership Session Login Identify Caller.

(** ** An invitation, as both tables give it *)
Record invite := {
  in_code : string; in_tenant : string; in_role : string; in_target : option string;
  in_max : Z; in_uses : Z; in_expires : option Z; in_active : bool }.

Definition invite_of (r : invitation_row) : invite :=
  {| in_code := iv_code r; in_tenant := iv_tenant r; in_role := iv_role r; in_target := iv_target r;
     in_max := iv_max_uses r; in_uses := iv_uses r; in_expires := Some (iv_expires r);
     in_active := iv_active r |}.

(** The [dict] built from a row of [user_invitations]. *)
Definition pre_provisioned (code : string) (r : user_invitation_row) : invite :=
  {| in_code := code; in_tenant := ui_tenant r; in_role := ui_role r; in_target := Some (ui_email r);
     in_max := 1; in_uses := 0; in_expires := None; in_active := true |}.

Definition fallback_codes : list string :=
  ["school-staff-2026"; "regester123"; "register123"; "teacher-pass-2026"].

(** The record without a school that [get_invitation] answers for them. *)
Definition shared_pass (code : string) : invite :=
  {| in_code := code; in_tenant := ""; in_role := ""; in_target := None;
     in_max := 999999; in_uses := 0; in_expires := None; in_active := true |}.

Definition norm_text (s : string) : string := str_lower (str_strip s).

(** ** Rows read without ORDER BY name or with one *)
Definition name_le {R} (name : R → string) (a b : Z * R) : Prop :=
  String.leb (name a.2) (name b.2) = true.
#[export] Instance name_le_dec {R} (name : R → string) a b : Decision (name_le name a b).
Proof. unfold name_le. apply _. Defined.

(** ORDER BY t.name ASC *)
Definition get_all_teachers : DB (list (Z * string)) :=
  gets (λ s, merge_sort (name_le id) (map_to_list (teachers s))).

(** ORDER BY COALESCE(l.ordinal, 999) ASC, c.name ASC *)
Definition class_rank (s : TenantDB) (c : class_row) : Z :=
  match levels s !! cl_level c with Some l => opt_or (lv_ordinal l) 999 | None => 999 end.
Definition class_le (s : TenantDB) (a b : Z * class_row) : Prop :=
  class_rank s a.2 < class_rank s b.2 ∨
  (class_rank s a.2 = class_rank s b.2 ∧ String.leb (cl_name a.2) (cl_name b.2) = true).
#[export] Instance class_le_dec s a b : Decision (class_le s a b).
Proof. unfold class_le. apply _. Defined.
Definition get_all_classes : DB (list (Z * class_row)) :=
  gets (λ s, merge_sort (class_le s) (map_to_list (classes s))).

Section registration.
(** The libraries of [Session], the digits of [secrets.token_hex], and the
    configuration of src/app/core/config.py. *)
Context (pwd_verify : string → string → option bool) (pwd_hash : Z → string → string)
        (uuid_text : Z → string) (token_hex : Z → string).
Context (TEACHER_INVITE_CODE SUPER_ADMIN_BOOTSTRAP_CODE SUPER_ADMIN_ALLOWED_EMAIL : string).

(** ** Finding and checking an invitation *)
(** (id::text = $1 OR UPPER(email) = UPPER($1) OR $1 LIKE 'INV-%')
    AND status = 'pending', ORDER BY created_at DESC LIMIT 1 *)
Definition open_for (code : string) (id : Z) (r : user_invitation_row) : bool :=
  (bool_decide (uuid_text id = code) || upper_eq (ui_email r) code || is_prefix (chars "INV-") (chars code))
  && bool_decide (ui_status r = "pending").
Definition newest_open (code : string) (w : World) : option (Z * user_invitation_row) :=
  head (merge_sort (later ui_created) (select (open_for code) (user_invitations w))).

Definition lookup_invite (code : string) : CP (option invite) :=
  inv_record ← get_invitation_by_code uuid_text code;
  match inv_record with
  | Some (_, r) => mret (Some (invite_of r))
  | None => gets (λ w, (λ kv, pre_provisioned code kv.2) <$> newest_open code w)
  end.

Definition expired_at (t : Z) (i : invite) : bool :=
  match in_expires i with Some e => e <? t | None => false end.

Definition get_invitation (code : string) : CP invite :=
  let code_str := str_strip code in
  inv ← lookup_invite code_str;
  let inv := match inv with
             | Some i => Some i
             | None => if mem (str_lower code_str) fallback_codes then Some (shared_pass code_str) else None
             end in
  inv ← from_option_or inv (ValueError "Invalid or inactive invitation code");
  guard_or (in_active inv) (ValueError "Invalid or inactive invitation code") ;;
  t ← gets now;
  guard_or (negb (expired_at t inv)) (ValueError "Invitation code has expired") ;;
  guard_or (in_uses inv <? in_max inv) (ValueError "Invitation code maximum usage limit reached") ;;
  mret inv.

(** The checks of [register_user] on the invitation it found. *)
Definition check_invite (email : string) (i : invite) : CP unit :=
  guard_or (in_active i) (ValueError "Invitation code is inactive or has already been used") ;;
  t ← gets now;
  guard_or (negb (expired_at t i)) (ValueError "Invitation code has expired") ;;
  guard_or (in_uses i <? in_max i) (ValueError "Invitation code max uses reached") ;;
  match in_target i with
  | Some target =>
      guard_or (bool_decide (target = "") || bool_decide (norm_text target = norm_text email))
        (ValueError ("Invitation code is strictly reserved for email: " +:+ target))
  | None => mret tt
  end.

Definition use_invite (i : option invite) : CP unit :=
  match i with Some i => increment_invitation_uses uuid_text (in_code i) | None => mret tt end.

(** ** The accounts a registration creates *)
Definition register_super_admin (email hashed code : string) (invitation : option invite) : CP claims :=
  guard_or (bool_decide (norm_text email = norm_text SUPER_ADMIN_ALLOWED_EMAIL))
    (PermissionError ("super_admin registration is restricted to the platform's single "
       +:+ "designated operator account.")) ;;
  guard_or (bool_decide (is_Some invitation) || bool_decide (code = SUPER_ADMIN_BOOTSTRAP_CODE))
    (PermissionError ("super_admin accounts require the dedicated platform bootstrap code, "
       +:+ "not a staff self-registration passphrase.")) ;;
  known ← get_super_admin_by_email email;
  guard_or (bool_decide (known = None)) (ValueError "Email already registered") ;;
  user_id ← create_super_admin email hashed;
  use_invite invitation ;;
  create_access_token (uuid_text user_id) None "super_admin" email None None.

(** [hashed]: the hash of [password]. *)
Definition register_parent (email password hashed tenant_id : string) (invitation : option invite) : CP claims :=
  guard_or (negb (bool_decide (tenant_id = "")))
    (ValueError "Tenant ID is required for parent registration") ;;
  global_parent ← get_parent_by_email email;
  global_parent_id ← match global_parent with
    | Some (id, r) =>
        guard_or (verify_password pwd_verify password (pa_hash r))
          (ValueError "Email already registered with a different password") ;;
        mret id
    | None => create_parent email hashed
    end;
  add_parent_tenant_link global_parent_id tenant_id ;;
  local_user ← with_school tenant_id (get_user_by_email email);
  local_user_id ← match local_user with
    | Some (id, _) => mret id
    | None => in_school tenant_id (
        id ← create_user email hashed "parent";
        create_parent_row id (str_title (local_part email)))
    end;
  upsert_user_tenant_map email tenant_id "parent" ;;
  use_invite invitation ;;
  create_access_token (pretty local_user_id) (Some tenant_id) "parent" email None None.

(** A student is placed in the first class; what is missing for that is made
    up. [hashed_default]: the hash of the placeholder password. *)
Definition first_class (tenant_id hashed_default : string) : DB Z :=
  all_levels ← get_all_levels;
  lvl_id ← match all_levels with
    | (id, _) :: _ => mret id
    | [] => create_level "Grade 1" None None None None true
    end;
  all_classes ← get_all_classes;
  match all_classes with
  | (id, _) :: _ => mret id
  | [] =>
      all_teachers ← get_all_teachers;
      t_id ← match all_teachers with
        | (id, _) :: _ => mret id
        | [] =>
            t_user_id ← create_user ("teacher_" +:+ tenant_id +:+ "@school.com") hashed_default "teacher";
            create_teacher t_user_id "Primary Head Teacher"
        end;
      create_class "General" lvl_id (Some t_id) None true None
  end.

Definition school_roles : list string := ["school_admin"; "teacher"; "student"; "manager"; "event_teacher"].

Definition display_name (name first_name last_name : option string) (email : string) : string :=
  let full := str_strip (default "" first_name +:+ " " +:+ default "" last_name) in
  or_else (or_else (default "" name) full) (str_title (local_part email)).

(** [valid_codes] *)
Definition staff_codes : list string := [TEACHER_INVITE_CODE; "regester123"; "register123"; "SCHOOL-STAFF-2026"].

Definition create_profile (role tenant_id user_name : string) (local_user_id : Z) : CP unit :=
  if bool_decide (role = "teacher") then in_school tenant_id (create_teacher local_user_id user_name) ;; mret tt
  else if bool_decide (role = "student") then
    hashed_default ← hash_password pwd_hash "password";
    in_school tenant_id (
      cls_id ← first_class tenant_id hashed_default;
      create_student (PInt local_user_id) user_name (Some cls_id) None None PNone) ;; mret tt
  else mret tt.

Definition register_member (email hashed code role tenant_id : string) (name first_name last_name : option string)
    (invitation : option invite) : CP claims :=
  guard_or (negb (bool_decide (tenant_id = ""))) (ValueError "Tenant ID is required for school users") ;;
  guard_or (negb (bool_decide (role = "school_admin")) || bool_decide (is_Some invitation))
    (PermissionError ("A school_admin account can only be created from a real invitation issued by "
       +:+ "a super_admin or an existing school_admin for this tenant.")) ;;
  guard_or (bool_decide (is_Some invitation) || negb (mem role ["teacher"; "manager"; "event_teacher"])
            || mem code staff_codes)
    (PermissionError "Invalid or missing registration pass") ;;
  known ← with_school tenant_id (get_user_by_email email);
  guard_or (bool_decide (known = None)) (ValueError "Email already registered") ;;
  local_user_id ← in_school tenant_id (create_user email hashed role);
  create_profile role tenant_id (display_name name first_name last_name email) local_user_id ;;
  upsert_user_tenant_map email tenant_id role ;;
  use_invite invitation ;;
  create_access_token (pretty local_user_id) (Some tenant_id) role email None None.

(** The school and the role an invitation locks. *)
Definition locked (given held : string) : string := if bool_decide (held = "") then given else norm_text held.

Definition register_user (email password role : string) (tenant_id invite_code : option string)
    (name first_name last_name : option string) : CP claims :=
  let code := str_strip (default "" invite_code) in
  guard_or (negb (bool_decide (code = ""))) (ValueError "Invitation code is required for registration") ;;
  invitation ← lookup_invite code;
  guard_or (bool_decide (is_Some invitation) || mem (str_lower code) fallback_codes
            || bool_decide (role = "super_admin") && bool_decide (code = SUPER_ADMIN_BOOTSTRAP_CODE))
    (ValueError "Invalid or unrecognized invitation code") ;;
  match invitation with Some i => check_invite email i | None => mret tt end ;;
  let tenant_id := match invitation with
                   | Some i => locked (default "" tenant_id) (in_tenant i)
                   | None => default "" tenant_id
                   end in
  let role := match invitation with Some i => locked role (in_role i) | None => role end in
  hashed ← hash_password pwd_hash password;
  if bool_decide (role = "super_admin") then register_super_admin email hashed code invitation
  else if bool_decide (role = "parent") then register_parent email password hashed tenant_id invitation
  else if mem role school_roles then
    register_member email hashed code role tenant_id name first_name last_name invitation
  else raise (ValueError ("Invalid registration role: " +:+ role)).
End registration.

(** ** The endpoints *)

(** [except ValueError -> 400, except PermissionError -> 403, except Exception -> 500] *)
Definition auth_error (e : exn) : exn :=
  match e with
  | ValueError m => HTTPException 400 m
  | PermissionError m => HTTPException 403 m
  | _ => HTTPException 500 (exn_text e)
  end.

Section endpoints.
Context (pwd_verify : string → string → option bool) (pwd_hash : Z → string → string)
        (uuid_text : Z → string) (token_hex : Z → string).
Context (TEACHER_INVITE_CODE SUPER_ADMIN_BOOTSTRAP_CODE SUPER_ADMIN_ALLOWED_EMAIL : string).
(** What Keycloak answers to the provisioning of a user, and of a school. *)
Context (provision_user : string → string → string → option exn) (provision_organization : string → string → option exn).

(** POST /register *)
Definition register (email password : string) (role tenant_id invite_code : option string)
    (name first_name last_name : option string) : CP claims :=
  let role := or_else (default "" role) "student" in
  guard_or (negb (bool_decide (default "" tenant_id = "") && bool_decide (default "" invite_code = "")
                  && negb (bool_decide (role = "super_admin"))))
    (HTTPException 400 "An invitation code or an explicit tenant_id is required to register.") ;;
  try_except
    (register_user pwd_verify pwd_hash uuid_text TEACHER_INVITE_CODE SUPER_ADMIN_BOOTSTRAP_CODE
       SUPER_ADMIN_ALLOWED_EMAIL email password role
       (if bool_decide (role = "super_admin") then None else tenant_id) invite_code name first_name last_name)
    (λ e, raise (auth_error e)).

(** [datetime] and [timedelta] are bounded. *)
Definition MIN_DATETIME : Z := -62135596800.
Definition MAX_DATETIME : Z := 253402300799.
Definition add_days (t days : Z) : CP Z :=
  let e := t + days * 86400 in
  guard_or ((MIN_DATETIME <=? e) && (e <=? MAX_DATETIME)) (TypeError "date value out of range") ;;
  mret e.

(** [AuthService.create_invitation] *)
Definition create_invitation (tenant_id role : string) (target_email : option string) (max_uses valid_days : Z)
    : CP (Z * invitation_row) :=
  n ← draw;
  let code := "INV-" +:+ str_upper tenant_id +:+ "-" +:+ str_upper role +:+ "-" +:+ str_upper (token_hex n) in
  t ← gets now;
  expires_at ← add_days t valid_days;
  create_invitation_row code tenant_id role
    (match target_email with Some e => if bool_decide (e = "") then None else Some (norm_text e) | None => None end)
    max_uses expires_at.

(** A school named in the payload must be the caller's, unless a platform
    operator names it. *)
Definition scoped_tenant (is_super : bool) (current_user : CurrentUser) (tenant_id : string) (refusal : string)
    : CP string :=
  match cu_tenant_id current_user with
  | Some own =>
      if negb is_super && negb (bool_decide (own = "")) then
        guard_or (bool_decide (tenant_id = "") || bool_decide (norm_text tenant_id = norm_text own))
          (HTTPException 403 refusal) ;;
        mret own
      else mret tenant_id
  | None => mret tenant_id
  end.

(** [current_user.role == r or r in current_user.roles] *)
Definition names_role (current_user : CurrentUser) (r : string) : bool :=
  bool_decide (cu_role current_user = r) || mem r (cu_roles current_user).

(** POST /invitations of the auth router *)
Definition create_invitation_endpoint (current_user : CurrentUser) (tenant_id role : string)
    (target_email : option string) (max_uses valid_days : Z) : CP (Z * invitation_row) :=
  let is_super := names_role current_user "super_admin" in
  guard_or (names_role current_user "school_admin" || is_super)
    (HTTPException 403 "Only school_admin or super_admin can create invitations") ;;
  guard_or (negb (bool_decide (role = "super_admin")) || is_super)
    (HTTPException 403 "Only a super_admin can create a super_admin invitation") ;;
  target_tenant ← scoped_tenant is_super current_user tenant_id
    ("Admins of tenant '" +:+ default "" (cu_tenant_id current_user) +:+ "' cannot create invitations for tenant '"
       +:+ tenant_id +:+ "'");
  try_except (create_invitation target_tenant role target_email max_uses valid_days)
    (λ e, raise (HTTPException 400 (exn_text e))).

(** ** Pre-provisioned invitations: [InvitationRepository] *)
Definition get_invitation_by_email (email tenant_id : string) : CP (option (Z * user_invitation_row)) :=
  gets (λ w, find_row (λ _ r, ci_eq (ui_email r) (norm_text email) && bool_decide (ui_tenant r = str_strip tenant_id)
                              && bool_decide (ui_status r = "pending")) (user_invitations w)).

Definition create_invitation_record (email tenant_id role inviter_id : string) : CP (Z * user_invitation_row) :=
  check_tenant (str_strip tenant_id) ;;
  t ← gets now;
  let r := {| ui_email := norm_text email; ui_tenant := str_strip tenant_id; ui_role := str_strip role;
              ui_inviter := Some inviter_id; ui_status := "pending"; ui_created := t |} in
  id ← cp_insert user_invitations r; mret (id, r).

(** The upsert of the identity stores the email again; the cache stays. *)
Definition invite_identity (email : string) : CP Z :=
  known ← gets (find_identity (norm_email email));
  match known with
  | Some (id, _) =>
      modify (λ w, w <| identities ::= <[id := norm_email email]> |>) ;; mret id
  | None => cp_insert identities (norm_email email)
  end.
Definition map_invited_user (email tenant_id role : string) : CP unit :=
  identity_id ← invite_identity email;
  upsert_member identity_id (norm_email email) (str_strip tenant_id) (str_strip role).

(** [InvitationService.send_user_invitation] *)
Definition send_user_invitation (email tenant_id role inviter_id : string) : CP (Z * user_invitation_row) :=
  existing ← get_invitation_by_email email tenant_id;
  guard_or (bool_decide (existing = None))
    (ValueError ("A pending invitation already exists for " +:+ email +:+ " under tenant " +:+ tenant_id)) ;;
  match provision_user email tenant_id role with Some e => raise e | None => mret tt end ;;
  inv_record ← create_invitation_record email tenant_id role inviter_id;
  map_invited_user email tenant_id role ;;
  mret inv_record.

(** [str(current_user.id)] *)
Definition id_text (i : pyid) : string :=
  match i with PInt n => pretty n | PUuid n => uuid_text n | PStr s => s | PNone => "None" end.

(** POST of the invitations router *)
Definition invite_user_endpoint (current_user : CurrentUser) (email tenant_id role : string)
    : CP (Z * user_invitation_row) :=
  let is_super := has_role current_user "super_admin" in
  guard_or (has_role current_user "school_admin" || is_super || has_role current_user "user:invite")
    (HTTPException 403 ("Only school_admin, super_admin, or users with user:invite permission can "
       +:+ "send invitations")) ;;
  guard_or (negb (bool_decide (role = "super_admin")) || is_super)
    (HTTPException 403 "Only a super_admin can invite a user as super_admin") ;;
  target ← scoped_tenant is_super current_user tenant_id
    ("Admins of tenant '" +:+ default "" (cu_tenant_id current_user) +:+ "' cannot send invitations for tenant '"
       +:+ tenant_id +:+ "'");
  try_except (send_user_invitation email target role (id_text (cu_id current_user)))
    (λ e, match e with
          | ValueError m => raise (HTTPException 400 m)
          | HTTPException _ _ => raise e
          | _ => raise (HTTPException 500 (exn_text e))
          end).

(** [AuthService.create_tenant]: the organization first, then the school. *)
Definition create_school (tenant_id name : string) : CP unit :=
  match provision_organization tenant_id name with Some e => raise e | None => mret tt end ;;
  create_tenant tenant_id name ;;
  get_db_pool tenant_id.
End endpoints.

(** ** Who is admitted *)
Section admission.
Context (pwd_verify : string → string → option bool) (pwd_hash : Z → string → string)
        (uuid_text : Z → string).
Context (TEACHER_INVITE_CODE SUPER_ADMIN_BOOTSTRAP_CODE SUPER_ADMIN_ALLOWED_EMAIL : string).

(** One of the two tables holds the invitation the code finds. *)
Definition issued (w : World) (code : string) (i : invite) : Prop :=
  (∃ k r, invitations w !! k = Some r ∧ i = invite_of r ∧ invitation_matches uuid_text code k r = true) ∨
  (∃ k r, user_invitations w !! k = Some r ∧ ui_status r = "pending" ∧ i = pre_provisioned code r).

Record usable (t : Z) (email : string) (i : invite) : Prop := {
  us_active : in_active i = true;
  us_fresh : expired_at t i = false;
  us_left : in_uses i < in_max i;
  us_mine : ∀ target, in_target i = Some target → target = "" ∨ norm_text target = norm_text email;
}.

Lemma wp_lookup_invite code (Q : option invite → World → Prop) (E : exn → World → Prop) w :
  str_strip code = code →
  (∀ o, (∀ i, o = Some i → issued w code i) →
     (∀ k r, find_row (invitation_matches uuid_text code) (invitations w) = Some (k, r) → o = Some (invite_of r)) → Q o w) →
  wp (lookup_invite uuid_text code) Q E w.
Proof.
  intros Hc HQ. unfold lookup_invite, get_invitation_by_code. wp_simpl. rewrite Hc.
  destruct (find_row _ (invitations w)) as [[k r]|] eqn:Hf; wp_simpl; apply HQ.
  - intros i [= <-]. apply find_row_Some in Hf as [Hk Hm]. left. by exists k, r.
  - by intros ?? [= <- <-].
  - unfold newest_open. intros i Hi. apply fmap_Some in Hi as ([k r] & Hh & ->). right. exists k, r.
    apply head_elem in Hh. rewrite merge_sort_Permutation in Hh. apply elem_of_select in Hh as [Hk Hm].
    unfold open_for in Hm. apply andb_true_iff in Hm as [_ Hm%bool_decide_eq_true]. done.
  - done.
Qed.

Lemma wp_check_invite email i (Q : unit → World → Prop) w :
  (usable (now w) email i → Q tt w) → wp (check_invite email i) Q (λ _ _, True) w.
Proof.
  intros HQ. unfold check_invite. wp_simpl.
  destruct (in_active i) eqn:Ha; [|done]. wp_simpl. destruct (expired_at (now w) i) eqn:He; [done|]. wp_simpl.
  destruct (in_uses i <? in_max i) eqn:Hu; [|done]. wp_simpl. apply Z.ltb_lt in Hu.
  destruct (in_target i) as [tg|] eqn:Ht; wp_simpl.
  - destruct (bool_decide (tg = "") || bool_decide (norm_text tg = norm_text email)) eqn:Hm; [|done]. wp_simpl. apply HQ.
    constructor; [done|done|done|]. intros x Hx. rewrite Ht in Hx. injection Hx as <-. apply orb_true_iff in Hm as [?%bool_decide_eq_true|?%bool_decide_eq_true]; auto.
  - apply HQ. constructor; [done|done|done|]. congruence.
Qed.
End admission.

(** Passing over a statement whose result does not matter. *)
Ltac pass := rewrite wp_bind; eapply wp_mono; [apply wp_any| |by intros]; intros.

Section outcome.
Context (pwd_verify : string → string → option bool) (pwd_hash : Z → string → string)
        (uuid_text : Z → string).
Context (TEACHER_INVITE_CODE SUPER_ADMIN_BOOTSTRAP_CODE SUPER_ADMIN_ALLOWED_EMAIL : string).

Lemma wp_token u t r e (Q : claims → World → Prop) (E : exn → World → Prop) w :
  (∀ c, cl_role c = r → cl_tenant c = default "" t → Q c w) → wp (create_access_token u t r e None None) Q E w.
Proof. intros HQ. unfold create_access_token. wp_simpl. by apply HQ. Qed.

Lemma wp_register_super_admin email hashed code inv w :
  wp (register_super_admin uuid_text SUPER_ADMIN_BOOTSTRAP_CODE SUPER_ADMIN_ALLOWED_EMAIL email hashed code inv)
    (λ c _, cl_role c = "super_admin" ∧ norm_text email = norm_text SUPER_ADMIN_ALLOWED_EMAIL ∧
       (inv = None → code = SUPER_ADMIN_BOOTSTRAP_CODE)) (λ _ _, True) w.
Proof.
  unfold register_super_admin. rewrite wp_bind, wp_guard_or. case_bool_decide as He; [|done].
  rewrite wp_bind, wp_guard_or.
  destruct (bool_decide (is_Some inv) || bool_decide (code = SUPER_ADMIN_BOOTSTRAP_CODE)) eqn:Hc; [|done].
  do 4 pass. apply wp_token. intros c Hr _. split; [done|]. split; [done|]. intros ->.
  apply orb_true_iff in Hc as [[? Hc]%bool_decide_eq_true|Hc%bool_decide_eq_true]; done.
Qed.

Lemma wp_register_parent email password hashed t inv w :
  wp (register_parent pwd_verify uuid_text email password hashed t inv)
    (λ c _, cl_role c = "parent" ∧ cl_tenant c = t) (λ _ _, True) w.
Proof. unfold register_parent. do 8 pass. apply wp_token. by intros c -> ->. Qed.

Lemma wp_register_member email hashed code role t n f l inv w :
  wp (register_member pwd_hash uuid_text TEACHER_INVITE_CODE email hashed code role t n f l inv)
    (λ c _, cl_role c = role ∧ cl_tenant c = t ∧ (inv = None → role ≠ "school_admin")) (λ _ _, True) w.
Proof.
  unfold register_member. pass. rewrite wp_bind, wp_guard_or.
  destruct (negb (bool_decide (role = "school_admin")) || bool_decide (is_Some inv)) eqn:Hc; [|done].
  do 7 pass. apply wp_token. intros c Hr Ht. split_and!; [done|done|]. intros ->.
  apply orb_true_iff in Hc as [Hc%negb_true_iff%bool_decide_eq_false|[? Hc]%bool_decide_eq_true]; done.
Qed.

(** Who may register as what. A registration that succeeds was admitted
    by an invitation that one of the two tables held, live, with uses left and
    not reserved for another email, which fixed the role and the school; or by
    a shared pass, and then never as an administrator; or by the bootstrap
    code, and then as the platform operator. In every case the operator's role
    goes to the one configured email. *)
Lemma registration_admitted email password role tenant_id invite_code name first_name last_name w :
  match register_user pwd_verify pwd_hash uuid_text TEACHER_INVITE_CODE SUPER_ADMIN_BOOTSTRAP_CODE
          SUPER_ADMIN_ALLOWED_EMAIL email password role tenant_id invite_code name first_name last_name w with
  | (Ok c, _) =>
      let code := str_strip (default "" invite_code) in
      ((∃ i, issued uuid_text w code i ∧ usable (now w) email i ∧ cl_role c = locked role (in_role i) ∧
          (cl_role c = "super_admin" ∨ cl_tenant c = locked (default "" tenant_id) (in_tenant i)))
       ∨ (str_lower code ∈ fallback_codes ∧
          cl_role c ∈ ["parent"; "teacher"; "student"; "manager"; "event_teacher"])
       ∨ (code = SUPER_ADMIN_BOOTSTRAP_CODE ∧ cl_role c = "super_admin")) ∧
      (cl_role c = "super_admin" → norm_text email = norm_text SUPER_ADMIN_ALLOWED_EMAIL)
  | (Raise _, _) => True
  end.
Proof.
  set (code := str_strip (default "" invite_code)).
  set (admitted := λ c : claims,
      ((∃ i, issued uuid_text w code i ∧ usable (now w) email i ∧ cl_role c = locked role (in_role i) ∧
          (cl_role c = "super_admin" ∨ cl_tenant c = locked (default "" tenant_id) (in_tenant i)))
       ∨ (str_lower code ∈ fallback_codes ∧
          cl_role c ∈ ["parent"; "teacher"; "student"; "manager"; "event_teacher"])
       ∨ (code = SUPER_ADMIN_BOOTSTRAP_CODE ∧ cl_role c = "super_admin")) ∧
      (cl_role c = "super_admin" → norm_text email = norm_text SUPER_ADMIN_ALLOWED_EMAIL)).
  cut (wp (register_user pwd_verify pwd_hash uuid_text TEACHER_INVITE_CODE SUPER_ADMIN_BOOTSTRAP_CODE
          SUPER_ADMIN_ALLOWED_EMAIL email password role tenant_id invite_code name first_name last_name)
         (λ c _, admitted c) (λ _ _, True) w).
  { unfold wp, admitted. destruct (register_user _ _ _ _ _ _ _ _ _ _ _ _ _ _ w) as [[c|e] w']; done. }
  unfold register_user. fold code. rewrite wp_bind, wp_guard_or. case_bool_decide; [done|]. simpl.
  rewrite wp_bind. apply wp_lookup_invite; [apply str_strip_idem|]. intros inv Hinv _.
  rewrite wp_bind, wp_guard_or. destruct (bool_decide (is_Some inv) || _ || _) eqn:Hcode; [|done]. rewrite wp_bind.
  assert (wp (match inv with Some i => check_invite email i | None => mret tt end)
    (λ _ w', ∀ i, inv = Some i → usable (now w) email i) (λ _ _, True) w) as Hchk.
  { destruct inv as [i|]; [|by wp_simpl]. apply wp_check_invite. by intros ?? [= <-]. }
  eapply wp_mono; [exact Hchk| |done]. clear Hchk. intros [] w' Hus.
  set (role' := match inv with Some i => locked role (in_role i) | None => role end).
  set (tid := match inv with Some i => _ | None => _ end). simpl.
  assert (∀ c, cl_role c = role' → (role' = "super_admin" ∨ cl_tenant c = tid) →
    (role' = "super_admin" → norm_text email = norm_text SUPER_ADMIN_ALLOWED_EMAIL ∧ (inv = None → code = SUPER_ADMIN_BOOTSTRAP_CODE)) →
    (inv = None → role' ≠ "super_admin" → role' ∈ ["parent"; "teacher"; "student"; "manager"; "event_teacher"]) →
    admitted c) as Hfin.
  { intros c Hr Ht Hsa Hno. split; [|rewrite Hr; intros H'; by apply Hsa]. destruct inv as [i|].
    - left. exists i. split_and!; [by apply Hinv|by apply Hus|done|]. by rewrite Hr.
    - right. destruct (decide (role' = "super_admin")) as [Hs|Hs].
      + right. split; [by apply Hsa|by rewrite Hr].
      + left. rewrite Hr. split; [|by apply Hno]. apply orb_true_iff in Hcode as [Hcode|Hcode].
        * simpl in Hcode. by apply mem_true.
        * apply andb_true_iff in Hcode as [Hcode%bool_decide_eq_true _]. done. }
  clear Hcode. pass. case_bool_decide as Hsup; [|case_bool_decide as Hpar; [|destruct (mem role' school_roles) eqn:Hm]].
  - eapply wp_mono; [apply wp_register_super_admin| |done]. intros c w3 (Hr & He & Hb). simpl.
    apply Hfin; [congruence|auto|auto|done].
  - eapply wp_mono; [apply wp_register_parent| |done]. intros c w3 (Hr & Ht). simpl.
    apply Hfin; [congruence|auto|done|]. rewrite Hpar. set_solver.
  - eapply wp_mono; [apply wp_register_member| |done]. intros c w3 (Hr & Ht & Hadm). simpl.
    apply Hfin; [done|auto|done|]. intros Hi _. specialize (Hadm Hi). apply mem_true in Hm.
    unfold school_roles in Hm. set_solver.
  - by rewrite wp_raise.
Qed.

End outcome.

(** Tables that the statements of a computation do not touch. *)
Ltac quiet := repeat match goal with
  | |- preserves _ (mret _) => apply preserves_ret
  | |- preserves _ (raise _) => apply preserves_raise
  | |- preserves _ (gets _) => apply preserves_gets
  | |- preserves _ (guard_or _ _) => apply preserves_guard_or
  | |- preserves _ (from_option_or _ _) => apply preserves_from_option_or
  | |- preserves _ (modify _) => apply preserves_modify; intros ? <-; reflexivity
  | |- preserves _ (get_db_pool _) => apply st_open
  | |- preserves _ (in_school _ _) => apply st_school
  | |- preserves _ (upsert_user_tenant_map _ _ _) => apply st_upsert
  | |- preserves _ (create_parent _ _) => apply st_parent
  | |- preserves _ (add_parent_tenant_link _ _) => apply st_link
  | |- preserves _ (_ ≫= _) => apply preserves_bind; [|intros ?]
  | |- preserves _ (match ?x with _ => _ end) => destruct x
  end.

(** ** An invitation is used at most as often as it allows *)
Section uses.
Context (pwd_verify : string → string → option bool) (pwd_hash : Z → string → string)
        (uuid_text : Z → string).
Context (TEACHER_INVITE_CODE SUPER_ADMIN_BOOTSTRAP_CODE SUPER_ADMIN_ALLOWED_EMAIL : string).

Abbreviation invitation_table := (gmap Z invitation_row).

#[global] Instance invitations_stable (X : invitation_table) : Stable (λ w, invitations w = X).
Proof.
  constructor.
  - intros t w Hw. apply wp_get_db_pool; [intros w' Ho|intros e w' Ho]; by rewrite (op_rest _ _ Ho).
  - intros A t m w Hw. rewrite wp_in_school. unfold wp. by destruct (m _) as [[]].
  - intros e t r. unfold upsert_user_tenant_map, get_or_create_identity, upsert_member, cp_insert,
      invalidate_membership_cache, check_tenant, cp_check. quiet.
  - intros e h. unfold create_parent, cp_check, cp_insert. quiet.
  - intros p t. unfold add_parent_tenant_link, check_parent, check_tenant, cp_check. quiet.
  - done.
Qed.

(** The table after a registration with the invitation [inv]. *)
Definition after_use (inv : option invite) (X : invitation_table) : invitation_table :=
  match inv with
  | Some i => update_where (invitation_matches uuid_text (str_strip (in_code i))) use_once X
  | None => X
  end.

Lemma wp_last_steps X inv u t r e w :
  invitations w = X →
  wp (use_invite uuid_text inv ;; create_access_token u t r e None None)
    (λ _ w', invitations w' = after_use inv X) (λ _ w', invitations w' = X) w.
Proof.
  intros <-. unfold use_invite, increment_invitation_uses, create_access_token. by destruct inv; wp_simpl.
Qed.

Ltac skip X := repeat (eapply (wp_skip (λ w, invitations w = X));
  [solve [quiet]|eassumption|intros ? ? ?|by intros]).

Lemma wp_uses_super_admin X email hashed code inv w :
  invitations w = X →
  wp (register_super_admin uuid_text SUPER_ADMIN_BOOTSTRAP_CODE SUPER_ADMIN_ALLOWED_EMAIL email hashed code inv)
    (λ _ w', invitations w' = after_use inv X) (λ _ w', invitations w' = X) w.
Proof.
  intros Hw. unfold register_super_admin, create_super_admin, cp_check, cp_insert, get_super_admin_by_email.
  skip X. by apply wp_last_steps.
Qed.

Lemma wp_uses_parent X email password hashed t inv w :
  invitations w = X →
  wp (register_parent pwd_verify uuid_text email password hashed t inv)
    (λ _ w', invitations w' = after_use inv X) (λ _ w', invitations w' = X) w.
Proof.
  intros Hw. unfold register_parent, get_parent_by_email, with_school. skip X. by apply wp_last_steps.
Qed.

Lemma wp_uses_member X email hashed code role t n f l inv w :
  invitations w = X →
  wp (register_member pwd_hash uuid_text TEACHER_INVITE_CODE email hashed code role t n f l inv)
    (λ _ w', invitations w' = after_use inv X) (λ _ w', invitations w' = X) w.
Proof.
  intros Hw. unfold register_member, with_school, create_profile, hash_password, draw. skip X. by apply wp_last_steps.
Qed.

Definition found_by (X : invitation_table) (code : string) : option (Z * invitation_row) :=
  find_row (invitation_matches uuid_text code) X.

(** What one registration does to the invitations. *)
Lemma wp_register_uses email password role tenant_id invite_code name first_name last_name w :
  let code := str_strip (default "" invite_code) in
  wp (register_user pwd_verify pwd_hash uuid_text TEACHER_INVITE_CODE SUPER_ADMIN_BOOTSTRAP_CODE
        SUPER_ADMIN_ALLOWED_EMAIL email password role tenant_id invite_code name first_name last_name)
    (λ _ w', ∃ inv, invitations w' = after_use inv (invitations w) ∧
       ∀ k r, found_by (invitations w) code = Some (k, r) → inv = Some (invite_of r) ∧ iv_uses r < iv_max_uses r)
    (λ _ w', invitations w' = invitations w) w.
Proof.
  intros code. unfold register_user. fold code. rewrite wp_bind, wp_guard_or. case_bool_decide; [done|]. simpl.
  rewrite wp_bind. apply wp_lookup_invite; [apply str_strip_idem|]. intros inv _ Hfound.
  set (X := invitations w) in *. assert (invitations w = X) as HX by done.
  eapply (wp_skip (λ w, invitations w = X)); [quiet|done| |by intros]. intros [] w1 H1. rewrite wp_bind.
  assert (wp (match inv with Some i => check_invite email i | None => mret tt end)
    (λ _ w', invitations w' = X ∧ ∀ i, inv = Some i → in_uses i < in_max i) (λ _ w', invitations w' = X) w1) as Hchk.
  { destruct inv as [i|]; [|by wp_simpl].
    assert (preserves (λ w, invitations w = X) (check_invite email i)) as Hp by (unfold check_invite; quiet).
    eapply wp_mono; [apply wp_conj; [apply Hp, H1|apply (wp_check_invite email i (λ _ _, usable (now w1) email i)); by intros]|..];
      simpl; [|by intros ? ? []]. intros ? w2 [H2 Hu]. split; [done|]. intros ? [= <-]. apply Hu. }
  eapply wp_mono; [exact Hchk| |by intros]. clear Hchk. intros [] w2 [H2 Hus].
  eapply (wp_skip (λ w, invitations w = X)); [unfold hash_password, draw; quiet|done| |by intros]. intros hashed w3 H3.
  assert (∀ w' : World, invitations w' = after_use inv X → ∃ inv', invitations w' = after_use inv' X ∧
    ∀ k r, found_by X code = Some (k, r) → inv' = Some (invite_of r) ∧ iv_uses r < iv_max_uses r) as Hfin.
  { intros w' Hw'. exists inv. split; [done|]. intros k r Hf. pose proof (Hfound k r Hf) as Hi. split; [done|].
    by apply (Hus _ Hi). }
  simpl. destruct (bool_decide _); [|destruct (bool_decide _); [|destruct (mem _ _)]].
  - eapply wp_mono; [by apply (wp_uses_super_admin X)|by intros; apply Hfin|done].
  - eapply wp_mono; [by apply (wp_uses_parent X)|by intros; apply Hfin|done].
  - eapply wp_mono; [by apply (wp_uses_member X)|by intros; apply Hfin|done].
  - by rewrite wp_raise.
Qed.

(** A sequence of registrations, and how many of those that succeeded found
    the invitation [k]. *)
Record reg_req := {
  rq_email : string; rq_password : string; rq_role : string; rq_tenant : option string; rq_code : option string }.
Definition run_reg (q : reg_req) : CP claims :=
  register_user pwd_verify pwd_hash uuid_text TEACHER_INVITE_CODE SUPER_ADMIN_BOOTSTRAP_CODE
    SUPER_ADMIN_ALLOWED_EMAIL (rq_email q) (rq_password q) (rq_role q) (rq_tenant q) (rq_code q) None None None.
Definition found_at (k : Z) (q : reg_req) (w : World) : bool :=
  match found_by (invitations w) (str_strip (default "" (rq_code q))) with Some (k', _) => k' =? k | None => false end.
Fixpoint admitted_with (k : Z) (qs : list reg_req) (w : World) : Z :=
  match qs with
  | [] => 0
  | q :: qs =>
      let (r, w') := run_reg q w in
      (match r with Ok _ => if found_at k q w then 1 else 0 | Raise _ => 0 end) + admitted_with k qs w'
  end.

(** The uses of an invitation only grow. *)
Definition used_more (d : Z) (r r' : invitation_row) : Prop :=
  iv_code r' = iv_code r ∧ iv_max_uses r' = iv_max_uses r ∧ iv_uses r + d ≤ iv_uses r'.

Lemma after_use_row inv (X : invitation_table) k r :
  X !! k = Some r → ∃ r', after_use inv X !! k = Some r' ∧ used_more 0 r r'.
Proof.
  intros Hk. unfold after_use. destruct inv as [i|]; [|exists r; unfold used_more; split_and!; [done..|lia]].
  rewrite lookup_update_where, Hk. simpl.
  eexists. split; [done|]. unfold used_more. destruct (invitation_matches _ _ k r); simpl; (split_and!; [done..|lia]).
Qed.

Lemma after_use_own (X : invitation_table) k r :
  X !! k = Some r → str_strip (iv_code r) = iv_code r →
  ∃ r', after_use (Some (invite_of r)) X !! k = Some r' ∧ used_more 1 r r'.
Proof.
  intros Hk Hc. unfold after_use. rewrite lookup_update_where, Hk. simpl. rewrite Hc.
  unfold invitation_matches, upper_eq. rewrite bool_decide_eq_true_2 by done. simpl.
  eexists. split; [done|]. unfold used_more. simpl. split_and!; [done..|lia].
Qed.

Lemma run_reg_row q w k r :
  invitations w !! k = Some r → str_strip (iv_code r) = iv_code r →
  let (o, w') := run_reg q w in
  ∃ r', invitations w' !! k = Some r' ∧
    used_more (match o with Ok _ => if found_at k q w then 1 else 0 | Raise _ => 0 end) r r' ∧
    (match o with Ok _ => found_at k q w = true → iv_uses r < iv_max_uses r | Raise _ => True end).
Proof.
  intros Hk Hc. pose proof (wp_register_uses (rq_email q) (rq_password q) (rq_role q) (rq_tenant q) (rq_code q)
    None None None w) as H. unfold wp in H. fold (run_reg q) in H. simpl in H.
  destruct (run_reg q w) as [[c|e] w'].
  - destruct H as (inv & -> & Hf). unfold found_at.
    destruct (found_by (invitations w) _) as [[k' r0]|] eqn:Hfound.
    + destruct (Hf k' r0 eq_refl) as [-> Hlt]. destruct (k' =? k) eqn:Heq.
      * apply Z.eqb_eq in Heq. subst k'. unfold found_by in Hfound. apply find_row_Some in Hfound as [Hk' _].
        rewrite Hk in Hk'. injection Hk' as <-. destruct (after_use_own _ _ _ Hk Hc) as (r' & ? & ?).
        by exists r'.
      * destruct (after_use_row (Some (invite_of r0)) _ _ _ Hk) as (r' & ? & ?). by exists r'.
    + destruct (after_use_row inv _ _ _ Hk) as (r' & ? & ?). by exists r'.
  - rewrite H. exists r. split; [done|]. split; [|done]. unfold used_more. split_and!; [done..|lia].
Qed.

(** C15: an invitation is not used more often than it allows. Through any
    sequence of registrations, at most [max_uses - uses_count] of those that
    find an invitation by its code succeed. (The codes the program issues have
    no blanks around them.) *)
Theorem invitation_uses_bounded qs k r w :
  invitations w !! k = Some r → str_strip (iv_code r) = iv_code r →
  admitted_with k qs w ≤ Z.max 0 (iv_max_uses r - iv_uses r).
Proof.
  revert r w. induction qs as [|q qs IH]; intros r w Hk Hc; simpl; [lia|].
  pose proof (run_reg_row q w k r Hk Hc) as H. destruct (run_reg q w) as [o w'].
  destruct H as (r' & Hk' & (Hcode & Hmax & Huses) & Hlt).
  assert (str_strip (iv_code r') = iv_code r') as Hc' by by rewrite Hcode.
  specialize (IH r' w' Hk' Hc'). destruct o; [|lia]. destruct (found_at k q w); [|lia].
  specialize (Hlt eq_refl). lia.
Qed.
End uses.

(** ** A concrete deployment *)
Definition demo_hash (n : Z) (p : string) : string := "pw:" +:+ p.
Definition demo_platform : World := run_cps demo_uuid [StartProcess "pw:root"; OpenSchool "tenant_a"] empty_world.

(** One registration exhausts an invitation for one. *)
Definition demo_pass : invitation_row :=
  {| iv_code := "INV-1"; iv_tenant := "tenant_a"; iv_role := "teacher"; iv_target := None; iv_max_uses := 1;
     iv_uses := 0; iv_expires := 90000; iv_active := true; iv_created := 0 |}.
Definition demo_issued : World := demo_platform <| invitations := {[50 := demo_pass]} |>.
Definition demo_teachers : list reg_req :=
  map (λ e, {| rq_email := e; rq_password := "secret"; rq_role := "student"; rq_tenant := None;
               rq_code := Some " inv-1" |}) ["one@x.org"; "two@x.org"].

Lemma invitation_uses_bounded_witness :
  let n := admitted_with demo_verify demo_hash demo_uuid "teach" "boot" "sa@desk.com" 50 demo_teachers demo_issued in
  n = 1 ∧ n ≤ 1.
Proof.
  split; [vm_compute; reflexivity|].
  apply (invitation_uses_bounded demo_verify demo_hash demo_uuid "teach" "boot" "sa@desk.com" demo_teachers
    50 demo_pass demo_issued); vm_compute; reflexivity.
Defined.
