(* ===== verification/Onboarding.v ===== *)
(** * Where administrators come from

    The two endpoints that issue invitations and the one that uses them, in any
    sequence: a school administrator who registers was invited by somebody who
    may invite, into the school of that somebody. *)
From Stdlib Require Import Ascii String.
From stdpp Require Import gmap.
From S2P Require Import Prelude PyText Authz Store AcademicRepo Structure School World UserRepo Provision ControlPlane Membership Session Login Identify Caller Registration.

Section onboarding.
Context (pwd_verify : string → string → option bool) (pwd_hash : Z → string → string)
        (uuid_text : Z → string) (token_hex : Z → string).
Context (TEACHER_INVITE_CODE SUPER_ADMIN_BOOTSTRAP_CODE SUPER_ADMIN_ALLOWED_EMAIL : string).
Context (provision_user : string → string → string → option exn).

Inductive onboarding :=
  | Issue (u : CurrentUser) (tenant_id role : string) (target : option string) (max_uses valid_days : Z)
  | InviteUser (u : CurrentUser) (email tenant_id role : string)
  | Register (q : reg_req).

(** The access token of a registration. *)
Definition run_onboarding (q : onboarding) : CP (option claims) :=
  match q with
  | Issue u t r e n d => create_invitation_endpoint token_hex u t r e n d ;; mret None
  | InviteUser u e t r => invite_user_endpoint uuid_text provision_user u e t r ;; mret None
  | Register q =>
      c ← run_reg pwd_verify pwd_hash uuid_text TEACHER_INVITE_CODE SUPER_ADMIN_BOOTSTRAP_CODE
            SUPER_ADMIN_ALLOWED_EMAIL q;
      mret (Some c)
  end.

(** The requests with their answers. *)
Fixpoint onboard (qs : list onboarding) (w : World) : list (onboarding * option claims) :=
  match qs with
  | [] => []
  | q :: qs =>
      let (r, w') := run_onboarding q w in
      (q, match r with Ok o => o | Raise _ => None end) :: onboard qs w'
  end.

Definition issuer (q : onboarding) : option CurrentUser :=
  match q with Issue u _ _ _ _ _ | InviteUser u _ _ _ => Some u | Register _ => None end.

Definition operator_of (u : CurrentUser) : Prop := has_role u "super_admin" = true.
Definition may_invite (u : CurrentUser) : Prop :=
  has_role u "school_admin" = true ∨ has_role u "user:invite" = true ∨ operator_of u.

(** [u] may invite into the school [t]: an operator anywhere, everyone else
    at home. *)
Definition invites_into (u : CurrentUser) (t : string) : Prop :=
  may_invite u ∧ (operator_of u ∨ ∀ own, cu_tenant_id u = Some own → own ≠ "" → norm_text t = norm_text own).

(** Every invitation was issued by one of [us]. *)
Record rows_issued (us : list CurrentUser) (w : World) : Prop := {
  ri_code : ∀ k r, invitations w !! k = Some r → ∃ u, u ∈ us ∧ invites_into u (iv_tenant r);
  ri_mail : ∀ k r, user_invitations w !! k = Some r → ∃ u, u ∈ us ∧ invites_into u (ui_tenant r);
}.

#[global] Instance user_invitations_stable (X : gmap Z user_invitation_row) : Stable (λ w, user_invitations w = X).
Proof.
  constructor.
  - intros t w Hw. apply wp_get_db_pool; [intros w' Ho|intros e w' Ho]; by rewrite (op_rest _ _ Ho).
  - intros A t m w Hw. rewrite wp_in_school. unfold wp. by destruct (m _) as [[]].
  - intros e t r. unfold upsert_user_tenant_map, get_or_create_identity, upsert_member, cp_insert,
      invalidate_membership_cache, check_tenant, cp_check. quiet.
  - intros e h. unfold create_parent, cp_check, cp_insert. quiet.
  - intros p t. unfold add_parent_tenant_link, check_parent, check_tenant, cp_check. quiet.
  - done.
Qed.

Lemma register_keeps_mail q X :
  preserves (λ w, user_invitations w = X)
    (run_reg pwd_verify pwd_hash uuid_text TEACHER_INVITE_CODE SUPER_ADMIN_BOOTSTRAP_CODE SUPER_ADMIN_ALLOWED_EMAIL q).
Proof.
  unfold run_reg, register_user, lookup_invite, get_invitation_by_code, check_invite, register_super_admin,
    create_super_admin, get_super_admin_by_email, cp_check, cp_insert, register_parent, get_parent_by_email,
    register_member, create_profile, with_school, hash_password, draw, use_invite, increment_invitation_uses,
    create_access_token.
  quiet.
Qed.

Definition tables (w : World) : gmap Z invitation_row * gmap Z user_invitation_row :=
  (invitations w, user_invitations w).

Lemma wp_scoped sup u t msg w :
  wp (scoped_tenant sup u t msg)
    (λ own w', w' = w ∧ (sup = true ∨ ∀ x, cu_tenant_id u = Some x → x ≠ "" → own = x)) (λ _ w', w' = w) w.
Proof.
  unfold scoped_tenant. destruct (cu_tenant_id u) as [own|]; [|wp_simpl; split; [done|right; by intros]].
  destruct sup; [wp_simpl; split; [done|by left]|]. simpl. destruct (bool_decide (own = "")) eqn:Ho; simpl.
  - wp_simpl. split; [done|]. right. intros x [= <-] Hx. apply bool_decide_eq_true in Ho. done.
  - rewrite wp_bind, wp_guard_or. destruct (_ || _); [|done]. rewrite wp_ret. split; [done|]. right.
    by intros x [= <-].
Qed.

Lemma wp_state {A} (m : CP A) (P : World → Prop) w : wp m (λ _ w', P w') (λ _ w', P w') w → P (m w).2.
Proof. unfold wp. by destruct (m w) as [[]]. Qed.

(** Rethrowing keeps the state. *)
Lemma wp_rethrow {A} (m : CP A) (f : exn → exn) Q (E : World → Prop) w :
  wp m Q (λ _ w', E w') w → wp (try_except m (λ e, raise (f e))) Q (λ _ w', E w') w.
Proof. intros Hm. rewrite wp_try_except. eapply wp_mono; [exact Hm|done|]. intros e w' Hw'. by rewrite wp_raise. Qed.

Lemma wp_create_invitation t r e n d w :
  wp (create_invitation token_hex t r e n d)
    (λ _ w', ∃ k row, tables w' = (<[k := row]> (invitations w), user_invitations w) ∧ iv_tenant row = t)
    (λ _ w', tables w' = tables w) w.
Proof.
  unfold create_invitation, draw, add_days, create_invitation_row, check_tenant, cp_check, cp_insert, tables.
  wp_simpl.
  repeat match goal with |- if ?b then _ else _ => destruct b; wp_simpl; [|done] end.
  eexists _, _. done.
Qed.

Lemma wp_issue u t r e n d w :
  wp (create_invitation_endpoint token_hex u t r e n d)
    (λ _ w', ∃ k row, tables w' = (<[k := row]> (invitations w), user_invitations w) ∧ invites_into u (iv_tenant row))
    (λ _ w', tables w' = tables w) w.
Proof.
  unfold create_invitation_endpoint.
  rewrite wp_bind, wp_guard_or. destruct (names_role u "school_admin" || names_role u "super_admin") eqn:Hmay; [|done].
  rewrite wp_bind, wp_guard_or. destruct (negb (bool_decide (r = "super_admin")) || names_role u "super_admin"); [|done].
  rewrite wp_bind. eapply wp_mono; [apply wp_scoped| |by intros ? ? ->]. intros own w' [-> Hown].
  apply wp_rethrow. eapply wp_mono; [apply wp_create_invitation| |done].
  intros _ w' (k & row & Ht & Hrow). exists k, row. split; [exact Ht|].
  assert (∀ x, x ≠ "" → names_role u x = true → x ∈ roles_of u) as Hin.
  { intros x Hx Hh. unfold roles_of. apply orb_true_iff in Hh as [Hh%bool_decide_eq_true|Hh%mem_true].
    - rewrite bool_decide_eq_false_2 by congruence. clear -Hh. set_solver.
    - case_bool_decide; clear -Hh; set_solver. }
  assert (∀ x, names_role u "super_admin" = true → has_role u x = true) as Hsuper.
  { intros x Hs. apply has_role_spec. left. left. by apply Hin. }
  rewrite Hrow. split.
  - apply orb_true_iff in Hmay as [Hm|Hm]; left; [|by apply Hsuper].
    apply has_role_spec. right. left. left. by apply Hin.
  - destruct Hown as [Hs|Hs]; [left; by apply Hsuper|right]. intros x Hx Hne. by rewrite (Hs x Hx Hne).
Qed.

Lemma wp_send_invitation e t r i w :
  wp (send_user_invitation provision_user e t r i)
    (λ _ w', ∃ k row, tables w' = (invitations w, <[k := row]> (user_invitations w)) ∧ ui_tenant row = str_strip t)
    (λ _ w', tables w' = tables w ∨
       ∃ k row, tables w' = (invitations w, <[k := row]> (user_invitations w)) ∧ ui_tenant row = str_strip t) w.
Proof.
  unfold send_user_invitation, get_invitation_by_email. wp_simpl.
  match goal with |- if ?b then _ else _ => destruct b; wp_simpl; [|by left] end.
  destruct (provision_user e t r); wp_simpl; [by left|].
  unfold create_invitation_record, check_tenant, cp_check, cp_insert. wp_simpl.
  match goal with |- if ?b then _ else _ => destruct b; wp_simpl; [|by left] end.
  match goal with |- wp _ _ _ ?w1 => set (w' := w1) end.
  assert (preserves (λ v, tables v = tables w') (map_invited_user e t r)) as Hp.
  { unfold map_invited_user, invite_identity, upsert_member, check_tenant, cp_check, cp_insert. quiet. }
  eapply wp_mono; [by apply Hp| |]; simpl.
  - intros _ v Hv. wp_simpl. eexists _, _. split; [exact Hv|done].
  - intros _ v Hv. right. eexists _, _. split; [exact Hv|done].
Qed.

Lemma wp_invite_user u e t r w :
  let posted v := ∃ k row, tables v = (invitations w, <[k := row]> (user_invitations w)) ∧ invites_into u (ui_tenant row) in
  wp (invite_user_endpoint uuid_text provision_user u e t r)
    (λ _ w', posted w') (λ _ w', tables w' = tables w ∨ posted w') w.
Proof.
  intros posted. unfold invite_user_endpoint. rewrite wp_bind, wp_guard_or.
  destruct (has_role u "school_admin" || has_role u "super_admin" || has_role u "user:invite") eqn:Hmay; [|by left].
  rewrite wp_bind, wp_guard_or. destruct (negb (bool_decide (r = "super_admin")) || has_role u "super_admin"); [|by left].
  rewrite wp_bind. eapply wp_mono; [apply wp_scoped| |by intros ? ? ->; left]. intros own w' [-> Hown].
  assert (∀ v, (∃ k row, tables v = (invitations w, <[k := row]> (user_invitations w)) ∧ ui_tenant row = str_strip own) →
    posted v) as Hpost.
  { intros v (k & row & Hv & Hrow). exists k, row. split; [exact Hv|]. rewrite Hrow. split.
    - unfold may_invite, operator_of. apply orb_true_iff in Hmay as [[Hm|Hm]%orb_true_iff|Hm]; auto.
    - destruct Hown as [Hs|Hs]; [by left|right]. intros x Hx Hne. rewrite (Hs x Hx Hne).
      unfold norm_text. by rewrite str_strip_idem. }
  rewrite wp_try_except. eapply wp_mono; [apply wp_send_invitation| |]; simpl.
  - intros _ v Hv. by apply Hpost.
  - intros x v Hv. destruct x; rewrite wp_raise; destruct Hv; auto.
Qed.

Lemma rows_more us u w : rows_issued us w → rows_issued (u :: us) w.
Proof.
  intros [Hc Hm]. constructor.
  - intros k r Hk. destruct (Hc k r Hk) as (x & ? & ?). exists x. split; [by right|done].
  - intros k r Hk. destruct (Hm k r Hk) as (x & ? & ?). exists x. split; [by right|done].
Qed.

Lemma rows_same us w w' : tables w' = tables w → rows_issued us w → rows_issued us w'.
Proof. intros [= Hc Hm] [Hi Hu]. by constructor; rewrite ?Hc, ?Hm. Qed.

Lemma run_reg_tables q us w :
  rows_issued us w →
  rows_issued us (run_reg pwd_verify pwd_hash uuid_text TEACHER_INVITE_CODE SUPER_ADMIN_BOOTSTRAP_CODE
    SUPER_ADMIN_ALLOWED_EMAIL q w).2.
Proof.
  intros Hw. pose proof (wp_register_uses pwd_verify pwd_hash uuid_text TEACHER_INVITE_CODE
    SUPER_ADMIN_BOOTSTRAP_CODE SUPER_ADMIN_ALLOWED_EMAIL (rq_email q) (rq_password q) (rq_role q) (rq_tenant q)
    (rq_code q) None None None w) as H.
  pose proof (register_keeps_mail q (user_invitations w) w eq_refl) as Hm. simpl in H. unfold wp in H, Hm.
  unfold run_reg in *. destruct (register_user _ _ _ _ _ _ _ _ _ _ _ _ _ _ w) as [[c|e] w']; simpl.
  - destruct H as (inv & Hinv & _). destruct Hw as [Hc Hu]. constructor; [|by rewrite Hm].
    intros k r. rewrite Hinv. unfold after_use. destruct inv as [i|]; [|apply Hc].
    rewrite lookup_update_where. intros (r0 & Hr0 & ->)%fmap_Some. destruct (Hc k r0 Hr0) as (u & ? & ?).
    exists u. split; [done|]. by destruct (invitation_matches _ _ k r0).
  - apply (rows_same us w); [|done]. unfold tables. by rewrite H, Hm.
Qed.

Lemma run_onboarding_rows q us w :
  rows_issued us w → rows_issued (option_list (issuer q) ++ us) (run_onboarding q w).2.
Proof.
  intros Hw. destruct q as [u t r e n d|u e t r|q]; simpl.
  - apply wp_state. rewrite wp_bind. eapply wp_mono; [apply wp_issue| |]; simpl.
    + intros _ w' (k & row & [= Hc Hm] & Hrow). rewrite wp_ret. apply rows_more with (u := u) in Hw as [Hi Hu].
      constructor; rewrite ?Hm; [|done]. intros k' r'. rewrite Hc. intros [[<- <-]|[_ ?]]%lookup_insert_Some; [|by eapply Hi].
      exists u. split; [by left|done].
    + intros _ w' Ht. by eapply rows_same, rows_more.
  - apply wp_state.
    assert (∀ w', (∃ k row, tables w' = (invitations w, <[k := row]> (user_invitations w)) ∧ invites_into u (ui_tenant row)) →
      rows_issued (u :: us) w') as Hpost.
    { intros w' (k & row & [= Hc Hm] & Hrow). apply rows_more with (u := u) in Hw as [Hi Hu].
      constructor; rewrite ?Hc; [done|]. intros k' r'. rewrite Hm. intros [[<- <-]|[_ ?]]%lookup_insert_Some; [|by eapply Hu].
      exists u. split; [by left|done]. }
    rewrite wp_bind. eapply wp_mono; [apply wp_invite_user| |]; simpl.
    + intros _ w' Hp. rewrite wp_ret. by apply Hpost.
    + intros _ w' [Ht|Hp]; [by eapply rows_same, rows_more|by apply Hpost].
  - apply wp_state. pose proof (run_reg_tables q us w Hw) as H. rewrite wp_bind. unfold wp at 1.
    by destruct (run_reg _ _ _ _ _ _ q w) as [[]].
Qed.

(** A registration as administrator, by the invitations that are there. *)
Lemma admin_registration us q c w w' :
  rows_issued us w →
  run_reg pwd_verify pwd_hash uuid_text TEACHER_INVITE_CODE SUPER_ADMIN_BOOTSTRAP_CODE
    SUPER_ADMIN_ALLOWED_EMAIL q w = (Ok c, w') →
  cl_role c = "school_admin" →
  ∃ u, u ∈ us ∧ may_invite u ∧
    (operator_of u ∨ ∀ own, cu_tenant_id u = Some own → str_strip own ≠ "" → cl_tenant c = norm_text own).
Proof.
  intros Hw Hrun Hrole.
  pose proof (registration_admitted pwd_verify pwd_hash uuid_text TEACHER_INVITE_CODE SUPER_ADMIN_BOOTSTRAP_CODE
    SUPER_ADMIN_ALLOWED_EMAIL (rq_email q) (rq_password q) (rq_role q) (rq_tenant q) (rq_code q) None None None w) as H.
  unfold run_reg in Hrun. rewrite Hrun in H. destruct H as [H _]. rewrite Hrole in H.
  destruct H as [(i & Hiss & _ & _ & Ht)|[[_ Hin]|[_ Hr]]]; [|exfalso; clear -Hin; set_solver|done].
  destruct Ht as [|Ht]; [done|].
  assert (∃ u, u ∈ us ∧ invites_into u (in_tenant i)) as (u & Hu & Hmay & Hinto).
  { destruct Hiss as [(k & r & Hk & -> & _)|(k & r & Hk & _ & ->)]; [by apply (ri_code _ _ Hw k)|by apply (ri_mail _ _ Hw k)]. }
  exists u. split; [done|]. split; [done|]. destruct Hinto as [Hop|Hown]; [by left|right]. intros own Ho Hne.
  assert (own ≠ "") as Hne' by (intros ->; done).
  assert (norm_text own ≠ "") as Hnn by (unfold norm_text; intros H; by apply str_lower_empty in H).
  rewrite Ht, <-(Hown own Ho Hne'). unfold locked. case_bool_decide as He; [|done].
  specialize (Hown own Ho Hne'). rewrite He in Hown. by rewrite <-Hown in Hnn.
Qed.

(** C14: administrators come from administrators. Through any sequence of
    issued invitations, pre-provisioned users and registrations, from a state
    without invitations, whoever registers as a school administrator does so
    after a request of somebody with the right to invite, an operator or a
    member of the very school the new administrator gets. *)
Theorem administrators_are_invited qs w l1 q c l2 :
  invitations w = ∅ → user_invitations w = ∅ →
  onboard qs w = l1 ++ (Register q, Some c) :: l2 → cl_role c = "school_admin" →
  ∃ u, u ∈ omap (λ x, issuer x.1) l1 ∧ may_invite u ∧
    (operator_of u ∨ ∀ own, cu_tenant_id u = Some own → str_strip own ≠ "" → cl_tenant c = norm_text own).
Proof.
  intros Hi Hu Hlog Hrole.
  assert (rows_issued [] w) as Hw.
  { constructor; rewrite ?Hi, ?Hu; intros ??; by rewrite lookup_empty. }
  cut (∃ u, u ∈ omap (λ x : onboarding * option claims, issuer x.1) l1 ++ [] ∧ may_invite u ∧
    (operator_of u ∨ ∀ own, cu_tenant_id u = Some own → str_strip own ≠ "" → cl_tenant c = norm_text own)).
  { by rewrite app_nil_r. }
  clear Hi Hu. revert Hw Hlog. generalize (@nil CurrentUser) as us. revert w l1.
  induction qs as [|q0 qs IH]; intros w l1 us Hw Hlog; [by destruct l1|]. simpl in Hlog.
  pose proof (run_onboarding_rows q0 us w Hw) as Hstep.
  destruct (run_onboarding q0 w) as [o w'] eqn:Hrun. simpl in Hstep.
  destruct l1 as [|x l1]; simpl in Hlog.
  - injection Hlog as -> Ho _. destruct o as [o|e]; [subst o|discriminate]. clear IH Hstep.
    simpl in Hrun. unfold mbind, M_bind, mret, M_ret in Hrun.
    destruct (run_reg _ _ _ _ _ _ q w) as [[c'|e] w''] eqn:Hreg; [|discriminate].
    injection Hrun as -> ->. by apply (admin_registration us q c w w').
  - injection Hlog as <- Hlog. destruct (IH w' l1 (option_list (issuer q0) ++ us) Hstep Hlog) as (u & Hin & Hu). exists u. split; [|done].
    revert Hin. csimpl. destruct (issuer q0); csimpl; repeat (rewrite elem_of_app || rewrite elem_of_cons); clear; tauto.
Qed.
End onboarding.

(** ** A concrete deployment *)
Definition demo_hex (n : Z) : string := "f" +:+ pretty n.
Definition demo_onboard : list onboarding → World → list (onboarding * option claims) :=
  onboard demo_verify demo_hash demo_uuid demo_hex "teach" "boot" "sa@desk.com" (λ _ _ _, None).
Definition run_demo (qs : list onboarding) (w : World) : World :=
  fold_left (λ w q, (run_onboarding demo_verify demo_hash demo_uuid demo_hex "teach" "boot" "sa@desk.com"
    (λ _ _ _, None) q w).2) qs w.

Definition demo_boss : CurrentUser :=
  {| cu_id := PStr "7"; cu_tenant_id := Some "tenant_a"; cu_role := "school_admin"; cu_email := "boss@x.org";
     cu_roles := ["school_admin"] |}.
Definition apply_as (email role : string) (tenant : option string) (code : string) : onboarding :=
  Register {| rq_email := email; rq_password := "secret"; rq_role := role; rq_tenant := tenant; rq_code := Some code |}.
Definition granted (l : list (onboarding * option claims)) : list (option (string * string)) :=
  map (λ x, (λ c, (cl_tenant c, cl_role c)) <$> x.2) l.

Definition demo_hiring : list onboarding :=
  [Issue demo_boss "Tenant_A" "school_admin" (Some "New@x.org") 1 7;
   apply_as "new@x.org" "student" None "inv-tenant_a-school_admin-f2";
   apply_as "other@x.org" "student" None "inv-tenant_a-school_admin-f2"].

Example hiring :
  granted (demo_onboard demo_hiring demo_platform) = [None; Some ("tenant_a", "school_admin"); None].
Proof. vm_compute. reflexivity. Qed.

Definition demo_admin : claims :=
  default no_claims ((demo_onboard demo_hiring demo_platform !! 1%nat) ≫= snd).

Lemma administrators_are_invited_witness :
  cl_role demo_admin = "school_admin" ∧
  ∃ u, u ∈ [demo_boss] ∧ may_invite u ∧
    (operator_of u ∨ ∀ own, cu_tenant_id u = Some own → str_strip own ≠ "" → cl_tenant demo_admin = norm_text own).
Proof.
  assert (cl_role demo_admin = "school_admin") as Hrole by (vm_compute; reflexivity). split; [exact Hrole|].
  assert (omap (λ x : onboarding * option claims, issuer x.1) (take 1 (demo_onboard demo_hiring demo_platform))
    = [demo_boss]) as Hus by (vm_compute; reflexivity).
  destruct (administrators_are_invited demo_verify demo_hash demo_uuid demo_hex "teach" "boot" "sa@desk.com"
    (λ _ _ _, None) demo_hiring demo_platform (take 1 (demo_onboard demo_hiring demo_platform))
    {| rq_email := "new@x.org"; rq_password := "secret"; rq_role := "student"; rq_tenant := None;
       rq_code := Some "inv-tenant_a-school_admin-f2" |}
    demo_admin (drop 2 (demo_onboard demo_hiring demo_platform))) as (u & Hu & H).
  - vm_compute. reflexivity.
  - vm_compute. reflexivity.
  - symmetry. apply (take_drop_middle _ 1). vm_compute. reflexivity.
  - exact Hrole.
  - exists u. split; [|exact H]. rewrite <-Hus. exact Hu.
Defined.

(** Any code that starts with INV- finds the newest pre-provisioned user. *)
Example any_inv_code_is_accepted :
  granted (demo_onboard [InviteUser demo_boss "New@x.org" "tenant_a" "school_admin";
    apply_as "new@x.org" "student" None "INV-guess"] demo_platform)
  = [None; Some ("tenant_a", "school_admin")].
Proof. vm_compute. reflexivity. Qed.

(** A shared pass and a made-up name open a new school. *)
Example shared_pass_opens_a_school :
  granted (demo_onboard [apply_as "me@x.org" "teacher" (Some "nowhere") "register123"] demo_platform)
  = [Some ("nowhere", "teacher")] ∧
  is_Some (tenants (run_demo [apply_as "me@x.org" "teacher" (Some "nowhere") "register123"] demo_platform) !! "nowhere").
Proof. split; vm_compute; [reflexivity|by eexists]. Qed.

(** A delegated right to invite users makes administrators. *)
Example delegated_inviter_makes_an_admin :
  let helper := {| cu_id := PStr "8"; cu_tenant_id := Some "tenant_a"; cu_role := "teacher"; cu_email := "h@x.org";
                   cu_roles := ["teacher"; "user:invite"] |} in
  has_role helper "school_admin" = false ∧
  granted (demo_onboard [InviteUser helper "pal@x.org" "" "school_admin";
    apply_as "pal@x.org" "student" None "INV-"] demo_platform) = [None; Some ("tenant_a", "school_admin")].
Proof. split; vm_compute; reflexivity. Qed.
