(* ===== verification/UserAdmin.v ===== *)
(** * Administering the users of a school

    The services above [UserRepository]: [create_teacher],
    [create_staff_user], [create_student], [update_tenant_user_permissions]
    and [delete_tenant_user] (src/app/domains/tenant/service.py),
    [assign_user_role] (src/app/domains/auth/service.py), and their endpoints
    in src/app/domains/auth/router.py.

    The calls to Keycloak are wrapped in handlers that log and forget; their
    effects are outside the state. *)
From Stdlib Require Import Ascii String.
From stdpp Require Import gmap.
From S2P Require Import Prelude PyText Authz Store AuditLog AcademicRepo AcademicDelete AcademicSvc Structure School World UserRepo Provision ControlPlane Membership Session Login Identify Caller Registration.

Section user_admin.
(** Libraries and configuration as in [Registration]; the row that [LIMIT 1]
    without [ORDER BY] picks; the keyed hash of the audit log. *)
Context (pwd_hash : Z → string → string) (SUPER_ADMIN_ALLOWED_EMAIL : string)
        (uuid_text : Z → string) (limit_1 : list Z → option Z) (email_hmac : string → string).

Definition permission (user_role : role_arg) (allowed : list string) (msg : string) : CP unit :=
  guard_or (require user_role allowed) (PermissionError msg).

(** [_upsert_user_tenant_mapping] *)
Definition map_user (email tenant_id role : string) : CP unit :=
  swallow tt (upsert_user_tenant_map email tenant_id role).

(** ** Creating accounts *)
Definition create_teacher (tenant_id email password name : string) (user_role : role_arg) : CP Z :=
  permission user_role ["school_admin"; "teacher:create"] "Only staff can register teachers" ;;
  get_db_pool tenant_id ;;
  password_hash ← hash_password pwd_hash password;
  user_id ← in_school tenant_id (create_user email password_hash "teacher");
  map_user email tenant_id "teacher" ;;
  in_school tenant_id (UserRepo.create_teacher user_id name).

Definition staff_allowed (role : string) : list string :=
  if bool_decide (role = "manager") then ["school_admin"; "user:create"] else ["school_admin"].

Definition create_staff_user (tenant_id email password role : string) (user_role : role_arg) : CP Z :=
  guard_or (mem role ["manager"; "school_admin"]) (ValueError "Invalid staff role") ;;
  permission user_role (staff_allowed role) "Only school admins can register staff users" ;;
  known ← with_school tenant_id (get_user_by_email email);
  guard_or (bool_decide (known = None)) (ValueError "Email already registered") ;;
  password_hash ← hash_password pwd_hash password;
  user_id ← in_school tenant_id (create_user email password_hash role);
  map_user email tenant_id role ;;
  mret user_id.

Definition create_student (tenant_id email password name : string) (class_id : Z)
    (gender birth_data : option string) (user_role : role_arg) (changed_by : pyid) : CP pyid :=
  permission user_role ["school_admin"; "student:create"] "Only staff can register students" ;;
  get_db_pool tenant_id ;;
  password_hash ← hash_password pwd_hash password;
  user_id ← in_school tenant_id (create_user email password_hash "student");
  map_user email tenant_id "student" ;;
  in_school tenant_id
    (AcademicRepo.create_student (PInt user_id) name (Some class_id) gender birth_data changed_by).

(** ** The profile that goes with a role *)
(** [email.split("@")[0].replace(".", " ").title()] *)
Definition profile_name (email : string) : string := str_title (replace_char 46 32 (local_part email)).

(** INSERT INTO class (name, level_id, head_teacher_id) names no year, and
    [academic_year_id] is NOT NULL. *)
Definition default_class (tenant_id : string) : DB Z :=
  l_id ← gets (λ s, limit_1 (map_to_list (levels s)).*1);
  match l_id with
  | Some _ => mret tt
  | None =>
      insert_serial levels {| lv_name := "Grade 1"; lv_isced := None; lv_age_min := None; lv_age_max := None;
                              lv_ordinal := None; lv_active := true |} ;; mret tt
  end ;;
  t_id ← gets (λ s, limit_1 (map_to_list (teachers s)).*1);
  match t_id with
  | Some _ => mret tt
  | None =>
      let email := "head_teacher_" +:+ tenant_id +:+ "@school.com" in
      known ← gets (has_user email);
      check (negb known) "duplicate key value violates unique constraint" ;;
      t_u ← insert_serial users (new_user email "teacher" "managed");
      upsert_profile teachers t_u "Head Teacher"
  end ;;
  raise (DatabaseError "null value in column academic_year_id violates not-null constraint").

Definition sync_profile (tenant_id role : string) (user_id : Z) (name : string) : DB unit :=
  if mem role ["teacher"; "event_teacher"; "school_admin"; "manager"; "admin"]
  then ensure_profile teachers user_id name
  else if bool_decide (role = "student") then
    c_id ← gets (λ s, limit_1 (map_to_list (classes s)).*1);
    c_id ← match c_id with Some c => mret c | None => default_class tenant_id end;
    t ← gets students;
    match t !! user_id with
    | Some _ => mret tt
    | None =>
        check_fk users user_id ;;
        modify (λ s, s <| students ::= <[user_id := {| st_name := name; st_class := Some c_id; st_gender := None;
          st_birth := None; st_status := "enrolled"; st_exited := None |}]> |>)
    end
  else if bool_decide (role = "parent") then ensure_profile parenets user_id name
  else mret tt.

(** ** [AuthService.assign_user_role] (its [RuntimeError] is a [TypeError]
    here; both become a 500). *)
Definition only_operator : exn :=
  PermissionError ("super_admin is restricted to the platform's single designated "
    +:+ "operator account and cannot be granted to another email.").

Definition is_operator_email (email : string) : bool :=
  bool_decide (norm_text email = norm_text SUPER_ADMIN_ALLOWED_EMAIL).

Definition assign_user_role (tenant_id email new_role : string) (requesting_user_roles : role_arg) : CP unit :=
  guard_or (mem new_role valid_user_roles) (ValueError ("Invalid role: " +:+ new_role)) ;;
  (if bool_decide (new_role = "super_admin") then
     let caller_roles := match requesting_user_roles with RStr s => [s] | RList l => l | RNone => [] end in
     guard_or (mem "super_admin" caller_roles)
       (PermissionError "Only a super_admin can grant the super_admin role") ;;
     guard_or (is_operator_email email) only_operator
   else mret tt) ;;
  user ← with_school tenant_id (get_user_by_email email);
  user_id ← match user with
    | None => in_school tenant_id (create_user email "managed" new_role)
    | Some (id, _) =>
        success ← in_school tenant_id (update_user_role email new_role);
        guard_or success (TypeError ("Failed to update role for " +:+ email +:+ " in tenant DB")) ;;
        mret id
    end;
  swallow tt (in_school tenant_id (sync_profile tenant_id new_role user_id (profile_name email))) ;;
  upsert_user_tenant_map email tenant_id new_role ;;
  if bool_decide (new_role = "super_admin") then swallow tt (ensure_super_admin email "managed") else mret tt.

(** ** [TenantService.update_tenant_user_permissions] *)
Definition names_super (role : string) (roles : list string) : bool :=
  bool_decide (role = "super_admin") || mem "super_admin" roles.
Definition row_is_super (r : user_row) : bool := names_super (us_role r) (us_roles r).

Definition audit_in (tenant_id : string) (user_id : pyid) (user_role : role_arg) (action : string)
    (entity_id : pyid) (changed : option (list string)) (metadata : list (string * meta_value)) : CP unit :=
  swallow tt (
    with_school tenant_id (record email_hmac (Some (_AuditActor user_id user_role)) action "user"
      (Some (id_text uuid_text entity_id)) "allow" changed metadata) ;;
    mret tt).

(** What follows the update of the row. *)
Definition sync_user (tenant_id primary_role : string) (demoted : bool) (target_id : Z) (user_email : string)
    : CP unit :=
  (if demoted then swallow tt (remove_super_admin user_email ;; mret tt) else mret tt) ;;
  map_user user_email tenant_id primary_role ;;
  (if bool_decide (primary_role = "super_admin") then swallow tt (ensure_super_admin user_email "managed")
   else mret tt) ;;
  swallow tt (in_school tenant_id (sync_profile tenant_id primary_role target_id (profile_name user_email))).

Definition update_tenant_user_permissions (tenant_id : string) (user_id : pyid) (primary_role : string)
    (roles permissions : list string) (user_role : role_arg) (requesting_user_id : pyid) : CP (Z * user_row) :=
  permission user_role ["school_admin"; "super_admin"; "admin"; "user:invite"]
    "Only school administrators can update user roles and permissions" ;;
  let grants := names_super primary_role roles in
  guard_or (negb grants || require user_role ["super_admin"])
    (PermissionError "Only a super_admin can grant the super_admin role") ;;
  existing ← with_school tenant_id (get_user_by_id user_id);
  let was_super_admin := from_option (λ kr, row_is_super kr.2) false existing in
  guard_or (negb (grants && negb was_super_admin)
            || from_option (λ kr, negb (bool_decide (us_email kr.2 = "")) && is_operator_email (us_email kr.2)) false existing)
    only_operator ;;
  updated ← in_school tenant_id (update_user_roles_and_permissions user_id primary_role roles permissions);
  updated ← from_option_or updated (ValueError "User not found in tenant");
  let user_email := us_email updated.2 in
  (if bool_decide (user_email = "") then mret tt
   else sync_user tenant_id primary_role (was_super_admin && negb grants) updated.1 user_email) ;;
  audit_in tenant_id requesting_user_id user_role "user.permissions.update" user_id
    (Some ["role"; "roles"; "permissions"])
    [("new_primary_role", MStr primary_role); ("role_count", MInt (Z.of_nat (length roles)));
     ("permission_count", MInt (Z.of_nat (length permissions)))] ;;
  mret updated.

(** ** [TenantService.delete_tenant_user] *)
Definition role_list (user_role : role_arg) : list string :=
  match user_role with RList l => l | RStr s => if bool_decide (s = "") then [] else [s] | RNone => [] end.

Definition delete_tenant_user (tenant_id : string) (target_user_id requesting_user_id : pyid) (user_role : role_arg)
    : CP (Z * user_row) :=
  let roles := role_list user_role in
  let is_super := mem "super_admin" roles in
  guard_or (is_super || mem "school_admin" roles || mem "admin" roles)
    (PermissionError "Only school_admin or super_admin can delete users") ;;
  target ← with_school tenant_id (get_user_by_id target_user_id);
  target ← from_option_or target (ValueError "User not found");
  guard_or (negb (bool_decide (pretty target.1 = id_text uuid_text requesting_user_id)))
    (PermissionError "You cannot delete your own account") ;;
  guard_or (is_super || negb (row_is_super target.2))
    (PermissionError "school_admin cannot delete a super_admin account") ;;
  deleted ← in_school tenant_id (delete_user target_user_id);
  deleted ← from_option_or deleted (ValueError "User not found");
  let user_email := us_email deleted.2 in
  (if bool_decide (user_email = "") then mret tt
   else
     swallow tt (remove_user_tenant_map user_email tenant_id) ;;
     if row_is_super target.2 then swallow tt (remove_super_admin user_email ;; mret tt) else mret tt) ;;
  audit_in tenant_id requesting_user_id user_role "user.delete" target_user_id None
    [("deleted_role", MStr (us_role deleted.2)); ("was_super_admin", MBool (row_is_super target.2))] ;;
  mret deleted.

(** ** The endpoints *)
Definition selected_tenant (current_user : CurrentUser) : CP string :=
  match require_selected_tenant current_user with Ok t => mret t | Raise e => raise e end.

(** [get_db_pool(None)]. *)
Definition tenant_of (current_user : CurrentUser) : CP string :=
  from_option_or (cu_tenant_id current_user) (TypeError "'NoneType' object has no attribute 'replace'").

(** [except PermissionError: 403, except ValueError: value_status, except Exception: 500] *)
Definition admin_error (value_status : string → Z) (e : exn) : exn :=
  match e with
  | PermissionError m => HTTPException 403 m
  | ValueError m => HTTPException (value_status m) m
  | _ => HTTPException 500 (exn_text e)
  end.

(** PUT /users/{user_id}/permissions *)
Definition update_user_permissions (current_user : CurrentUser) (user_id : pyid) (role : string)
    (roles permissions : list string) : CP (Z * user_row) :=
  tenant_id ← selected_tenant current_user;
  try_except
    (update_tenant_user_permissions tenant_id user_id role roles permissions (RList (cu_roles current_user))
       (cu_id current_user))
    (λ e, raise (admin_error (λ _, 404) e)).

(** DELETE /users/{user_id} *)
Definition delete_user_endpoint (current_user : CurrentUser) (user_id : pyid) : CP (Z * user_row) :=
  guard_or (has_any_role current_user ["school_admin"; "super_admin"; "admin"] || has_role current_user "user:delete")
    (HTTPException 403 "Only school administrators can delete users") ;;
  tenant_id ← selected_tenant current_user;
  try_except (delete_tenant_user tenant_id user_id (cu_id current_user) (RList (cu_roles current_user)))
    (λ e, raise (admin_error
       (λ m, if contains (chars "not found") (chars (str_lower m)) then 404 else 409) e)).

(** PATCH /users/{email}/role *)
Definition assign_user_role_endpoint (current_user : CurrentUser) (email role : string) : CP unit :=
  guard_or (has_any_role current_user ["school_admin"; "super_admin"; "admin"])
    (HTTPException 403 "Only school administrators can assign roles") ;;
  tenant_id ← selected_tenant current_user;
  try_except (assign_user_role tenant_id email role (RList (cu_roles current_user)))
    (λ e, raise (admin_error (λ _, 400) e)).

(** GET /users/pending *)
Definition get_pending_users (current_user : CurrentUser) : CP (list (Z * user_row)) :=
  guard_or (has_any_role current_user ["school_admin"; "super_admin"; "admin"])
    (HTTPException 403 "Only school administrators can view pending users") ;;
  tenant_id ← selected_tenant current_user;
  try_except (with_school tenant_id (get_users_by_role "pending")) (λ e, raise (HTTPException 500 (exn_text e))).

Definition get_tenant_users_permissions (tenant_id : string) (user_role : role_arg) : CP (list (Z * user_row)) :=
  permission user_role ["school_admin"; "super_admin"; "admin"]
    "Only school administrators can access the user permissions matrix" ;;
  with_school tenant_id get_all_tenant_users.

(** GET /users-permissions; a [ValueError] is a 500 here. *)
Definition list_users_permissions (current_user : CurrentUser) : CP (list (Z * user_row)) :=
  tenant_id ← selected_tenant current_user;
  try_except (get_tenant_users_permissions tenant_id (RList (cu_roles current_user)))
    (λ e, raise (admin_error (λ _, 500) e)).
End user_admin.

(** ** A deletion *)
Definition users_at (w : World) (t : string) : gmap Z user_row := users (default empty_db (schools w !! t)).

Lemma get_db_pool_noop t w : t ∈ open_pools w → get_db_pool t w = (Ok tt, w).
Proof. intros H. unfold get_db_pool, mbind, M_bind, gets. by rewrite bool_decide_eq_true_2. Qed.

Lemma wp_pool_opened t w : wp (get_db_pool t) (λ _ w', opened w w' ∧ t ∈ open_pools w') (λ _ w', opened w w') w.
Proof.
  apply (wp_mono _ (λ _ w', opened w w' ∧ t ∈ open_pools w') _ (λ _ w', opened w w' ∧ True)); [|done|by intros ?? [? _]].
  apply wp_conj; [by apply wp_get_db_pool|].
  unfold get_db_pool, cp_check. wp_simpl. case_bool_decide; wp_simpl; [done|].
  assert (∀ w1, wp (in_school t (_initialize_tenant_tables (map_to_list (super_admins w1)).*2))
      (λ _ w2, t ∈ open_pools (w2 <| open_pools ::= λ o, {[t]} ∪ o |>)) (λ _ _, True) w1) as Hrest.
  { intros w1. rewrite wp_in_school. unfold wp. destruct (_initialize_tenant_tables _ _) as [[] s]; [|done].
    simpl. set_solver. }
  destruct (_ || _); wp_simpl; [apply Hrest|]. destruct (tenant_id_fits t); wp_simpl; [|done]. apply Hrest.
Qed.

(** What the steps after the deletion keep. *)
Definition after_deletion (t : string) (U : gmap Z user_row) (w : World) : Prop :=
  t ∈ open_pools w ∧ users_at w t = U.

Section deletion.
Context (uuid_text : Z → string) (email_hmac : string → string).

Lemma audit_keeps t U i r a e c m (I : World → Prop) :
  (∀ w s, I w → I (w <| schools ::= <[t := s]> |>)) →
  ∀ w, after_deletion t U w ∧ I w →
  wp (audit_in uuid_text email_hmac t i r a e c m) (λ _ w', after_deletion t U w' ∧ I w') (λ _ _, False) w.
Proof.
  intros HI w [[Ho Hu] Hw]. unfold audit_in, swallow, with_school. rewrite wp_try_except, !wp_bind.
  unfold wp at 1. rewrite get_db_pool_noop by done. rewrite wp_in_school.
  assert (preserves (λ s, users s = U)
    (record email_hmac (Some (_AuditActor i r)) a "user" (Some (id_text uuid_text e)) "allow" c m)) as Hp.
  { unfold record, check_fk_opt, check_fk, check. quiet. }
  assert (∀ s, users s = U → after_deletion t U (w <| schools ::= <[t := s]> |>) ∧ I (w <| schools ::= <[t := s]> |>)) as Hs.
  { intros s Hs. split; [|by apply HI]. split; [done|]. unfold users_at. cbn. by rewrite lookup_insert_eq. }
  eapply wp_mono; [apply Hp, Hu| |]; intros ? s Hk; wp_simpl; by apply Hs.
Qed.

(** What is left of the account [kr]: nothing at the school, no membership,
    and no row of [super_admins] if it was an operator's. *)
Definition forgotten (t : string) (kr : Z * user_row) (w : World) : Prop :=
  us_email kr.2 ≠ "" →
  (∀ key m, user_tenant_map w !! key = Some m → of_member (norm_email (us_email kr.2)) t key m = false) ∧
  (row_is_super kr.2 = true → ∀ k sa, super_admins w !! k = Some sa →
     upper_eq (sa_email sa) (str_strip (us_email kr.2)) = false).

(** The row that the request names, in the opened school. *)
Lemma opened_school w t : opened w (w <| schools ::= <[t := default empty_db (schools w !! t)]> |>).
Proof.
  constructor; [by destruct w|]. intros u k r (s & Hs & Hk). left. cbn in Hs.
  apply lookup_insert_Some in Hs as [[<- <-]|[_ Hs]]; [|by exists s].
  unfold school_user. destruct (schools w !! t); simpl in *; [eauto|by rewrite lookup_empty in Hk].
Qed.

Lemma wp_target t i (Q : option (Z * user_row) → World → Prop) (E : exn → World → Prop) w :
  (∀ o w1, opened w w1 → t ∈ open_pools w1 →
     (∀ kr, o = Some kr → user_parse_id i = PInt kr.1 ∧ users_at w1 t !! kr.1 = Some kr.2) → Q o w1) →
  (∀ e w1, opened w w1 → E e w1) →
  wp (with_school t (get_user_by_id i)) Q E w.
Proof.
  intros HQ HE. unfold with_school. rewrite wp_bind.
  eapply wp_mono; [apply wp_pool_opened|cbv beta|]; [|intros e w1 Ho; by apply HE].
  intros _ w1 [Ho Hopen]. rewrite wp_in_school.
  assert (∀ o, (∀ kr, o = Some kr → user_parse_id i = PInt kr.1 ∧ users_at w1 t !! kr.1 = Some kr.2) →
    Q o (w1 <| schools ::= <[t := default empty_db (schools w1 !! t)]> |>)) as HQ'.
  { intros o Ho'. apply HQ; [eapply opened_trans; [done|apply opened_school]|done|].
    unfold users_at. cbn. by rewrite lookup_insert_eq. }
  unfold get_user_by_id. destruct (user_parse_id i) as [n| | |]; wp_simpl; apply HQ'; [|done..].
  intros kr (r & Hr & ->)%fmap_Some. done.
Qed.

Lemma wp_delete_user t i n r w (Q : option (Z * user_row) → World → Prop) (E : exn → World → Prop) :
  user_parse_id i = PInt n → users_at w t !! n = Some r →
  (∀ w', w' = w <| schools := schools w' |> → users_at w' t = delete n (users_at w t) → Q (Some (n, r)) w') →
  (∀ e w', users_at w' t = users_at w t → E e w') →
  wp (in_school t (delete_user i)) Q E w.
Proof.
  intros Hi Hr HQ HE. rewrite wp_in_school. unfold delete_user, check. rewrite Hi, wp_transaction.
  assert (∀ s, users s = delete n (users_at w t) → Q (Some (n, r)) (w <| schools ::= <[t := s]> |>)) as HQ'.
  { intros s Hs. apply HQ; [by destruct w|]. unfold users_at at 1. cbn. by rewrite lookup_insert_eq. }
  assert (∀ e s, users s = users_at w t → E e (w <| schools ::= <[t := s]> |>)) as HE'.
  { intros e s Hs. apply HE. unfold users_at at 1. cbn. by rewrite lookup_insert_eq. }
  wp_simpl. destruct (_ && _); wp_simpl; [|by apply HE']. unfold users_at in Hr. rewrite Hr. wp_simpl.
  destruct (user_blocked _ _); wp_simpl; [by apply HE'|]. by apply HQ'.
Qed.
(** C32: a deleted user is gone. A deletion that succeeds removes exactly the
    account the request names from the school, its membership there, and the
    row of [super_admins] of an operator; the caller is an administrator, is
    not the account itself, and is an operator if the account is one. A
    deletion that fails removes nobody. ([w1]: the school after it has been
    opened for the first time by this process.) *)
Theorem deletion_outcome t i req roles w :
  wp (delete_tenant_user uuid_text email_hmac t i req roles)
    (λ kr w', (∃ r, r ∈ role_list roles ∧ r ∈ ["super_admin"; "school_admin"; "admin"]) ∧
       user_parse_id i = PInt kr.1 ∧ pretty kr.1 ≠ id_text uuid_text req ∧
       (row_is_super kr.2 = true → "super_admin" ∈ role_list roles) ∧
       (∃ w1, opened w w1 ∧ users_at w1 t !! kr.1 = Some kr.2 ∧ users_at w' t = delete kr.1 (users_at w1 t)) ∧
       forgotten t kr w')
    (λ _ w', ∃ w1, opened w w1 ∧ users_at w' t = users_at w1 t) w.
Proof.
  unfold delete_tenant_user. rewrite wp_bind, wp_guard_or.
  destruct (_ || _ || _) eqn:Hadmin; [|exists w; split; [apply opened_refl|done]].
  rewrite wp_bind. apply wp_target; [|intros e w1 Ho; by exists w1].
  intros o w1 Ho Hopen Htarget. rewrite wp_bind, wp_from_option_or. destruct o as [[n r]|]; [|by exists w1].
  destruct (Htarget _ eq_refl) as [Hi Hr]. cbn in Hi, Hr.
  rewrite wp_bind, wp_guard_or. destruct (negb (bool_decide (pretty _ = _))) eqn:Hown; [|by exists w1].
  rewrite wp_bind, wp_guard_or. destruct (mem "super_admin" _ || negb _) eqn:Hsuper; [|by exists w1].
  rewrite wp_bind. eapply wp_delete_user; [exact Hi|exact Hr| |intros e w2 H2; by exists w1].
  intros w2 Hw2 H2. rewrite wp_bind, wp_from_option_or, wp_bind. simpl snd.
  apply (wp_mono _ (λ _ w', after_deletion t (delete n (users_at w1 t)) w' ∧ forgotten t (n, r) w') _ (λ _ _, False)); [| |done].
  - assert (after_deletion t (delete n (users_at w1 t)) w2) as Ha by (rewrite Hw2; split; [exact Hopen|by rewrite <-Hw2]).
    unfold forgotten. cbn. destruct (bool_decide (us_email r = "")) eqn:He; wp_simpl;
      [split; [exact Ha|by apply bool_decide_eq_true in He]|].
    unfold swallow, remove_user_tenant_map, remove_super_admin. wp_simpl.
    destruct (row_is_super r); wp_simpl; (split; [exact Ha|]); intros _; cbn.
    all: split; [intros key m [_ Hm]%map_lookup_filter_Some; exact Hm|].
    2: done.
    intros _ k sa [_ H]%lookup_delete_where. exact H.
  - intros [] w3 H3. rewrite wp_bind.
    eapply wp_mono; [apply (audit_keeps t (delete n (users_at w1 t)) _ _ _ _ _ _ (forgotten t (n, r))); [done|exact H3]| |].
    + intros [] w4 [[_ H4] Hf]. rewrite wp_ret. split_and!; [|done| | |by exists w1|done].
      * apply orb_true_iff in Hadmin as [[H|H]%orb_true_iff|H]; apply mem_true in H; eexists; (split; [exact H|]); set_solver.
      * intros Heq. cbn in Heq, Hown. by rewrite Heq, bool_decide_eq_true_2 in Hown.
      * intros Hs. apply orb_true_iff in Hsuper as [Hsuper|Hsuper]; [by apply mem_true|].
        cbn in Hs, Hsuper. by rewrite Hs in Hsuper.
    + done.
Qed.
End deletion.
