(* ===== verification/Operators.v ===== *)
(** * One platform operator

    The role super_admin belongs to designated emails: whatever registrations
    and administration requests are made, by callers with whatever roles, no
    other account of a school carries it and no other row of [super_admins]
    appears. *)
From Stdlib Require Import Ascii String.
From stdpp Require Import gmap.
From S2P Require Import Prelude PyText Authz Store AuditLog AcademicRepo AcademicDelete AcademicSvc Structure School World UserRepo Provision ControlPlane Membership Session Login Identify Caller Registration UserAdmin.

(** ** Emails *)
Lemma str_strip_lower s : str_strip (str_lower s) = str_lower (str_strip s).
Proof.
  unfold str_strip, str_lower, chars, text. rewrite !list_ascii_of_string_of_list_ascii. f_equal.
  unfold strip_by. rewrite (drop_while_map is_space lower_char) by apply is_space_lower.
  by rewrite <-map_rev, (drop_while_map is_space lower_char), <-map_rev by apply is_space_lower.
Qed.

Lemma norm_text_upper_eq a b : upper_eq a (str_strip b) = true → norm_text a = norm_text b.
Proof.
  intros H%upper_eq_lower. unfold norm_text at 1. rewrite <-str_strip_lower, H.
  apply norm_email_stripped.
Qed.

Lemma norm_text_norm_email e : norm_text (norm_email e) = norm_text e.
Proof. apply norm_email_idem. Qed.

Lemma names_super_true role roles :
  names_super role roles = true ↔ role = "super_admin" ∨ "super_admin" ∈ roles.
Proof. unfold names_super. by rewrite orb_true_iff, bool_decide_eq_true, mem_true. Qed.

Ltac same_users := repeat match goal with
  | |- preserves _ (mret _) => apply preserves_ret
  | |- preserves _ (raise _) => apply preserves_raise
  | |- preserves _ (gets _) => apply preserves_gets
  | |- preserves _ (guard_or _ _) => apply preserves_guard_or
  | |- preserves _ (check _ _) => apply preserves_guard_or
  | |- preserves _ (check_fk _ _) => unfold check_fk
  | |- preserves _ (from_option_or _ _) => apply preserves_from_option_or
  | |- preserves _ (transaction _) => apply preserves_transaction; [by intros ? ? ? ?|]
  | |- preserves _ (_ ≫= _) => apply preserves_bind; [|intros ?]
  | |- preserves _ (modify _) => apply preserves_modify; intros ? Hs; exact Hs
  | |- preserves _ (insert_serial ?t _) => lazymatch t with users => fail | _ => unfold insert_serial end
  | |- preserves _ (upsert_profile _ _ _) => unfold upsert_profile
  | |- preserves _ (ensure_profile _ _ _) => unfold ensure_profile
  | |- preserves _ (match ?x with _ => _ end) => destruct x
  end.

(** A check that establishes [P] when it passes. *)
Lemma preserves_checked {S A} (I : S → Prop) (P : Prop) (m : M S unit) (k : M S A) :
  (∀ s, wp m (λ _ s', s' = s ∧ P) (λ _ s', s' = s) s) → (P → preserves I k) → preserves I (m ;; k).
Proof.
  intros Hm Hk s Hs. rewrite wp_bind. eapply wp_mono; [apply Hm| |]; cbv beta.
  - intros _ s' [-> HP]. by apply Hk.
  - by intros e s' ->.
Qed.

Lemma preserves_guarded {S A} (I : S → Prop) b e (k : M S A) :
  (b = true → preserves I k) → preserves I (guard_or b e ;; k).
Proof. apply preserves_checked. intros s. by destruct b. Qed.

Section operators.
(** [ok] holds of the normalised emails an operator may have. *)
Context (ok : string → Prop).
Definition may_operate (r : user_row) : Prop := row_is_super r = true → ok (norm_text (us_email r)).

(** The accounts of a school with the operator's role, and the table. *)
Definition users_ok (s : TenantDB) : Prop := ∀ k r, users s !! k = Some r → may_operate r.
Record operators_ok (w : World) : Prop := {
  oo_table : ∀ k r, super_admins w !! k = Some r → ok (norm_text (sa_email r));
  oo_users : ∀ t k r, school_user w t k r → may_operate r;
}.

Lemma users_ok_insert s id r : users_ok s → may_operate r → users_ok (s <| users ::= <[id := r]> |>).
Proof. intros Hs Hr k r'. simpl. intros [[<- <-]|[_ H]]%lookup_insert_Some; [exact Hr|by apply Hs in H]. Qed.

Lemma new_user_operates email role h :
  (role = "super_admin" → ok (norm_text email)) → may_operate (new_user email role h).
Proof.
  intros H [Hs|Hs]%names_super_true; [by apply H|by apply elem_of_nil in Hs].
Qed.

(** *** The repository *)
Lemma insert_user_ok r : may_operate r → preserves users_ok (insert_serial users r).
Proof. intros Hr s Hs. unfold insert_serial. wp_simpl. exact (users_ok_insert s _ r Hs Hr). Qed.

Lemma create_user_ok email h role :
  (role = "super_admin" → ok (norm_text email)) → preserves users_ok (create_user email h role).
Proof.
  intros Hr. unfold create_user, check_role. same_users. apply insert_user_ok, new_user_operates.
  by rewrite norm_text_norm_email.
Qed.

(** An update of the rows [P] selects. *)
Lemma update_users_ok P f :
  (∀ k r, P k r = true → may_operate r → may_operate (f r)) →
  preserves users_ok (modify (λ s, s <| users ::= update_where P f |>)).
Proof.
  intros Hf. apply preserves_modify. intros s Hs k r. simpl. rewrite lookup_update_where.
  destruct (users s !! k) as [r0|] eqn:Hk; [|done]. simpl. intros [= <-].
  destruct (P k r0) eqn:HP; [apply (Hf k)|]; by eauto using Hs.
Qed.
Lemma update_user_role_ok email role :
  (role = "super_admin" → ok (norm_text email)) → preserves users_ok (update_user_role email role).
Proof.
  intros Hr. unfold update_user_role, check_role. same_users.
  all: apply update_users_ok; intros _ r Hm _ Hs; simpl in *; rewrite (norm_text_upper_eq _ _ Hm); apply Hr.
  all: apply names_super_true in Hs as [Hs|Hs]; [exact Hs|]; symmetry; by apply list_elem_of_singleton.
Qed.

Lemma elem_of_dedup x seen l : x ∈ dedup seen l → x ∈ l.
Proof.
  revert seen. induction l as [|y l IH]; intros seen; simpl; [done|]. case_bool_decide; [by intros ?%IH; right|].
  intros [->|?%IH]%elem_of_cons; [by left|by right].
Qed.

(** What is stored names the operator only when the request does. *)
Lemma stored_roles_super primary roles r ps :
  row_is_super (set_roles primary (stored_roles primary roles) ps r) = true → names_super primary roles = true.
Proof.
  unfold row_is_super. rewrite !names_super_true. simpl. intros [H|H]; [by left|].
  unfold stored_roles in H. destruct (no_role primary).
  - left. apply list_elem_of_singleton in H. by rewrite H.
  - apply elem_of_dedup, elem_of_cons in H as [H|H]; [by left|right].
    apply list_elem_of_In, List.filter_In in H as [H _]. by apply list_elem_of_In.
Qed.

Lemma update_roles_where_ok P primary roles ps s :
  users_ok s →
  (names_super primary roles = true → ∀ k r, users s !! k = Some r → P k r = true → ok (norm_text (us_email r))) →
  wp (update_roles_where P primary (stored_roles primary roles) ps)
    (λ o s', users_ok s' ∧ match o with
      | Some (k, r) => users s' !! k = Some r ∧ (names_super primary roles = true → ok (norm_text (us_email r)))
      | None => s' = s ∧ find_row P (users s) = None end)
    (λ _ s', users_ok s') s.
Proof.
  intros Hs Hn. unfold update_roles_where, check_role, check. wp_simpl.
  destruct (find_row P (users s)) as [[id r]|] eqn:Hf; wp_simpl; [|done]. case_bool_decide; wp_simpl; [|done].
  apply find_row_Some in Hf as [Hk HP]. cbn. rewrite lookup_update_where, Hk. cbn. rewrite HP.
  split; [|split; [by rewrite lookup_update_where, Hk; cbn; rewrite HP|intros Hsup; exact (Hn Hsup id r Hk HP)]].
  intros k r0. simpl. rewrite lookup_update_where. destruct (users s !! k) as [r1|] eqn:Hk1; [|done].
  simpl. intros [= <-]. destruct (P k r1) eqn:HP1; [|exact (Hs k r1 Hk1)].
  intros Hsup%stored_roles_super. exact (Hn Hsup k r1 Hk1 HP1).
Qed.

Lemma update_permissions_ok user_id primary roles ps s :
  users_ok s →
  (names_super primary roles = true →
     ∃ n r, user_parse_id user_id = PInt n ∧ users s !! n = Some r ∧ ok (norm_text (us_email r))) →
  wp (update_user_roles_and_permissions user_id primary roles ps)
    (λ o s', users_ok s' ∧ match o with
      | Some (_, r) => names_super primary roles = true → ok (norm_text (us_email r)) | None => True end)
    (λ _ s', users_ok s') s.
Proof.
  intros Hs Hn. unfold update_user_roles_and_permissions, check. rewrite wp_bind.
  apply (wp_mono _ (λ o s', users_ok s' ∧ match o with
    | Some (_, r) => names_super primary roles = true → ok (norm_text (us_email r))
    | None => names_super primary roles = false end) _ (λ _ s', users_ok s')); [| |by intros].
  - destruct (names_super primary roles) eqn:Hsup.
    + destruct (Hn eq_refl) as (n & r & -> & Hr & Hok). wp_simpl. destruct (_ && _); wp_simpl; [|done].
      eapply wp_mono; [apply (update_roles_where_ok (λ k _, k =? n) primary roles); [done|]| |by intros].
      { intros _ k r' Hk ->%Z.eqb_eq. congruence. }
      intros [[k r']|] s' [Hs' H]; [split; naive_solver|]. exfalso. destruct H as [_ H].
      pose proof (find_row_None _ _ H n r Hr) as Hne. cbv beta in Hne. by rewrite Z.eqb_refl in Hne.
    + destruct (user_parse_id user_id) as [n| | |]; wp_simpl; [|done..]. destruct (_ && _); wp_simpl; [|done].
      eapply wp_mono; [apply (update_roles_where_ok (λ k _, k =? n) primary roles); [done|congruence]| |by intros].
      intros [[k r']|] s' [Hs' _]; by split.
  - intros [[k r]|] s' [Hs' H]; [by destruct user_id|]. destruct user_id; wp_simpl; try by split.
    destruct (is_email _); wp_simpl; [|by split].
    eapply wp_mono; [apply update_roles_where_ok; [done|congruence]| |by intros].
    intros [[k r]|] s2 [Hs2 _]; split; (done || congruence).
Qed.
Lemma delete_user_ok user_id : preserves users_ok (delete_user user_id).
Proof.
  unfold delete_user. same_users. apply preserves_modify. intros s Hs k r. cbn.
  intros [_ H]%lookup_delete_Some. exact (Hs k r H).
Qed.

(** *** The world *)
Lemma open_ok t : preserves operators_ok (get_db_pool t).
Proof.
  intros w Hw. assert (∀ w', opened w w' → operators_ok w') as H.
  { intros w' Ho. pose proof (opened_same _ _ Ho) as [Hs _]. constructor; [rewrite Hs; apply Hw|].
    intros t' k r [H|(i & sa & Hi & ->)]%(op_users _ _ Ho); [by eapply (oo_users _ Hw)|].
    apply new_user_operates. intros _. by apply (oo_table _ Hw i). }
  apply wp_get_db_pool; auto.
Qed.

Lemma school_users_ok w t : operators_ok w → users_ok (default empty_db (schools w !! t)).
Proof.
  intros Hw k r Hk. destruct (schools w !! t) as [s|] eqn:Hs; [|cbn in Hk; by rewrite lookup_empty in Hk].
  apply (oo_users _ Hw t k). by exists s.
Qed.

Lemma set_school_ok w t s : operators_ok w → users_ok s → operators_ok (w <| schools ::= <[t := s]> |>).
Proof.
  intros Hw Hs. constructor; [apply Hw|]. intros t' k r (s' & Ht & Hk). cbn in Ht.
  apply lookup_insert_Some in Ht as [[<- <-]|[_ Ht]]; [by apply (Hs k)|]. eapply (oo_users _ Hw). by exists s'.
Qed.

Lemma wp_school_ok {A} t (m : DB A) (Q : A → Prop) w :
  operators_ok w →
  wp m (λ a s, users_ok s ∧ Q a) (λ _, users_ok) (default empty_db (schools w !! t)) →
  wp (in_school t m) (λ a w', operators_ok w' ∧ Q a) (λ _, operators_ok) w.
Proof.
  intros Hw H. rewrite wp_in_school. eapply wp_mono; [exact H| |].
  - intros a s [Hs HQ]. split; [by apply set_school_ok|done].
  - intros e s Hs. by apply set_school_ok.
Qed.

Lemma school_ok {A} t (m : DB A) : preserves users_ok m → preserves operators_ok (in_school t m).
Proof.
  intros Hm w Hw. eapply wp_mono; [apply (wp_school_ok t m (λ _, True)); [done|]| |by intros].
  - eapply wp_mono; [by apply Hm, school_users_ok| |by intros]. by intros.
  - by intros ? ? [? _].
Qed.

Lemma insert_super_ok email h : ok (norm_text email) →
  preserves operators_ok (cp_insert super_admins {| sa_email := email; sa_hash := h |}).
Proof.
  intros He w Hw. unfold cp_insert. wp_simpl. constructor; [|exact (oo_users _ Hw)].
  intros k r. cbn. intros [[_ <-]|[_ H]]%lookup_insert_Some; [done|by apply (oo_table _ Hw k)].
Qed.

Lemma remove_super_ok email : preserves operators_ok (remove_super_admin email).
Proof.
  intros w Hw. unfold remove_super_admin. wp_simpl. constructor; [|exact (oo_users _ Hw)].
  intros k r H. cbn in H. apply lookup_delete_where in H as [H _]. by apply (oo_table _ Hw k).
Qed.
End operators.

(** Steps that leave the operators alone. *)
Ltac same_operator := match goal with
  | |- preserves _ (mret _) => apply preserves_ret
  | |- preserves _ (raise _) => apply preserves_raise
  | |- preserves _ (gets _) => apply preserves_gets
  | |- preserves _ (guard_or _ _) => apply preserves_guard_or
  | |- preserves _ (cp_check _ _) => apply preserves_guard_or
  | |- preserves _ (permission _ _ _) => apply preserves_guard_or
  | |- preserves _ (from_option_or _ _) => apply preserves_from_option_or
  | |- preserves _ (get_db_pool _) => apply open_ok
  | |- preserves _ (with_school _ _) => unfold with_school
  | |- preserves _ (in_school _ _) => apply school_ok
  | |- preserves _ (swallow _ _) => unfold swallow
  | |- preserves _ (try_except _ _) => apply preserves_try_except; [|intros ?]
  | |- preserves _ (remove_super_admin _) => apply remove_super_ok
  | |- preserves _ (cp_insert ?t _) => lazymatch t with super_admins => fail | _ => unfold cp_insert end
  | |- preserves _ (_ ≫= _) => apply preserves_bind; [|intros ?]
  | |- preserves (operators_ok _) (modify _) =>
      apply preserves_modify; intros ? [Ht Hu]; constructor; [exact Ht|exact Hu]
  | |- preserves _ (match ?x with _ => _ end) => destruct x eqn:?
  end.
Ltac same_operators := repeat same_operator.

Section steps.
Context (ok : string → Prop).
Abbreviation I := (operators_ok ok).

Lemma upsert_ok e t r : preserves I (upsert_user_tenant_map e t r).
Proof.
  unfold upsert_user_tenant_map, get_or_create_identity, upsert_member, invalidate_membership_cache, check_tenant.
  same_operators.
Qed.
Lemma create_parent_ok e h : preserves I (create_parent e h).
Proof. unfold create_parent. same_operators. Qed.
Lemma parent_link_ok p t : preserves I (add_parent_tenant_link p t).
Proof. unfold add_parent_tenant_link, check_parent, check_tenant. same_operators. Qed.
Lemma ensure_super_ok e h : ok (norm_text e) → preserves I (ensure_super_admin e h).
Proof. intros He. unfold ensure_super_admin. same_operators. by apply insert_super_ok. Qed.
Lemma unmap_ok e t : preserves I (remove_user_tenant_map e t).
Proof. unfold remove_user_tenant_map. same_operators. Qed.

Lemma by_email_ok e : preserves (users_ok ok) (get_user_by_email e).
Proof. unfold get_user_by_email. same_users. Qed.
Lemma by_id_ok i : preserves (users_ok ok) (get_user_by_id i).
Proof. unfold get_user_by_id. same_users. Qed.

(** *** Reading a school, and the rows that hang on an account *)
Lemma place_ok uid n c g b p : preserves (users_ok ok) (AcademicRepo.create_student uid n c g b p).
Proof.
  unfold AcademicRepo.create_student, _record_class_change, bind_bigint_not_null, bind_bigint, check_fk_opt. same_users.
Qed.

Lemma profile_ok t role id n limit_1 : preserves (users_ok ok) (sync_profile limit_1 t role id n).
Proof.
  unfold sync_profile, default_class. same_users. all: apply insert_user_ok, new_user_operates; discriminate.
Qed.

Lemma first_class_ok t h : preserves (users_ok ok) (first_class t h).
Proof.
  unfold first_class, AcademicRepo.get_all_levels, get_all_classes, get_all_teachers, AcademicRepo.create_level,
    AcademicRepo.create_class, UserRepo.create_teacher, resolve_year,
    get_active_academic_year_id, check_class, check_int4, check_fk_opt. same_users.
  apply create_user_ok; discriminate.
Qed.
End steps.

Ltac step_operators := repeat first [same_operator | match goal with
  | |- preserves _ (upsert_user_tenant_map _ _ _) => apply upsert_ok
  | |- preserves _ (map_user _ _ _) => unfold map_user
  | |- preserves _ (create_parent _ _) => apply create_parent_ok
  | |- preserves _ (add_parent_tenant_link _ _) => apply parent_link_ok
  | |- preserves _ (remove_user_tenant_map _ _) => apply unmap_ok
  | |- preserves _ (hash_password _ _) => unfold hash_password, draw
  | |- preserves _ (create_access_token _ _ _ _ _ _) => unfold create_access_token
  | |- preserves (operators_ok _) (get_super_admin_by_email _) => unfold get_super_admin_by_email
  | |- preserves (operators_ok _) (get_parent_by_email _) => unfold get_parent_by_email
  | |- preserves (users_ok _) (get_user_by_email _) => apply by_email_ok
  | |- preserves (users_ok _) (get_user_by_id _) => apply by_id_ok
  | |- preserves (users_ok _) (first_class _ _) => apply first_class_ok
  | |- preserves (users_ok _) (AcademicRepo.create_student _ _ _ _ _ _) => apply place_ok
  | |- preserves (users_ok _) (sync_profile _ _ _ _ _) => apply profile_ok
  | |- preserves (users_ok _) (UserRepo.create_teacher _ _) => unfold UserRepo.create_teacher, upsert_profile, check_fk
  | |- preserves (users_ok _) (create_parent_row _ _) => unfold create_parent_row, upsert_profile, check_fk
  | |- preserves (users_ok _) (check _ _) => apply preserves_guard_or
  | |- preserves (users_ok _) (modify _) => apply preserves_modify; intros ? Hs; exact Hs
  end].

(** ** The requests *)
Section requests.
Context (pwd_verify : string → string → option bool) (pwd_hash : Z → string → string)
        (uuid_text : Z → string) (limit_1 : list Z → option Z) (email_hmac : string → string).
Set Default Proof Using "Type*".
Context (TEACHER_INVITE_CODE SUPER_ADMIN_BOOTSTRAP_CODE SUPER_ADMIN_ALLOWED_EMAIL : string).

(** A request that creates, changes or removes accounts; [user_role]: what
    the endpoint passes on of its caller. *)
Inductive user_op :=
  | StartPlatform (pass_hash : string)
  | OpenASchool (t : string)
  | NewProcess
  | RegisterUser (q : reg_req)
  | CreateTeacher (t email password name : string) (by_ : role_arg)
  | CreateStaff (t email password role : string) (by_ : role_arg)
  | CreateStudent (t email password name : string) (class_id : Z) (gender birth : option string) (by_ : role_arg) (who : pyid)
  | AssignRole (caller : CurrentUser) (email role : string)
  | UpdatePermissions (caller : CurrentUser) (user_id : pyid) (role : string) (roles permissions : list string)
  | DeleteUser (caller : CurrentUser) (user_id : pyid).

Definition run_user_op (op : user_op) : CP unit :=
  match op with
  | StartPlatform h => _initialize_control_plane_tables h
  | OpenASchool t => get_db_pool t
  | NewProcess => modify restart
  | RegisterUser q =>
      run_reg pwd_verify pwd_hash uuid_text TEACHER_INVITE_CODE SUPER_ADMIN_BOOTSTRAP_CODE SUPER_ADMIN_ALLOWED_EMAIL q ;;
      mret tt
  | CreateTeacher t e p n r => create_teacher pwd_hash t e p n r ;; mret tt
  | CreateStaff t e p role r => create_staff_user pwd_hash t e p role r ;; mret tt
  | CreateStudent t e p n c g b r who => create_student pwd_hash t e p n c g b r who ;; mret tt
  | AssignRole u e r => assign_user_role_endpoint SUPER_ADMIN_ALLOWED_EMAIL limit_1 u e r
  | UpdatePermissions u i r rs ps =>
      update_user_permissions SUPER_ADMIN_ALLOWED_EMAIL uuid_text limit_1 email_hmac u i r rs ps ;; mret tt
  | DeleteUser u i => delete_user_endpoint uuid_text email_hmac u i ;; mret tt
  end.
Definition run_user_ops (ops : list user_op) (w : World) : World :=
  fold_left (λ w op, (run_user_op op w).2) ops w.

Context (ok : string → Prop).
Hypothesis ok_operator : ok (norm_text SUPER_ADMIN_ALLOWED_EMAIL).
Hypothesis ok_default : ok "sa@desk.com".
Abbreviation I := (operators_ok ok).

Lemma use_invite_ok i : preserves I (use_invite uuid_text i).
Proof. unfold use_invite, increment_invitation_uses. step_operators. Qed.

Lemma new_account_ok t email h role : (role = "super_admin" → ok (norm_text email)) →
  preserves I (in_school t (create_user email h role)).
Proof. intros Hr. by apply school_ok, create_user_ok. Qed.

Lemma register_member_ok email h code role t n f l inv : role ∈ school_roles →
  preserves I (register_member pwd_hash uuid_text TEACHER_INVITE_CODE email h code role t n f l inv).
Proof.
  intros Hr. unfold register_member, create_profile. step_operators; [|apply use_invite_ok].
  apply create_user_ok. intros ->. unfold school_roles in Hr. clear -Hr. set_solver.
Qed.

Lemma register_parent_ok email p h t inv : preserves I (register_parent pwd_verify uuid_text email p h t inv).
Proof.
  unfold register_parent, verify_password. step_operators; [|apply use_invite_ok]. by apply create_user_ok.
Qed.

Lemma register_super_ok email h code inv :
  preserves I (register_super_admin uuid_text SUPER_ADMIN_BOOTSTRAP_CODE SUPER_ADMIN_ALLOWED_EMAIL email h code inv).
Proof.
  unfold register_super_admin. apply preserves_guarded. intros He%bool_decide_eq_true.
  unfold create_super_admin. step_operators; [|apply use_invite_ok]. apply insert_super_ok. by rewrite He.
Qed.

Lemma registration_ok q : preserves I (run_user_op (RegisterUser q)).
Proof.
  simpl. apply preserves_bind; [|intros ?; apply preserves_ret]. unfold run_reg, register_user, lookup_invite, get_invitation_by_code.
  apply preserves_bind; [step_operators|intros _]. apply preserves_bind; [step_operators|intros inv].
  apply preserves_bind; [step_operators|intros _].
  apply preserves_bind; [unfold check_invite; step_operators|intros _]. apply preserves_bind; [step_operators|intros h].
  destruct (bool_decide _); [apply register_super_ok|]. destruct (bool_decide _); [apply register_parent_ok|].
  destruct (mem _ school_roles) eqn:Hr; [|apply preserves_raise]. by apply register_member_ok, mem_true.
Qed.

Lemma start_ok h : preserves I (run_user_op (StartPlatform h)).
Proof.
  simpl. unfold _initialize_control_plane_tables, link_memberships. step_operators; [| | |by apply ensure_super_ok].
  - apply preserves_for_each. intros e _. unfold ensure_identity. step_operators.
  - apply preserves_transaction; [intros s s' Hs _; constructor; apply Hs|]. step_operators.
    apply preserves_for_each. intros e _. unfold link_membership. step_operators.
  - apply preserves_for_each. intros t _. step_operators.
Qed.

Lemma assign_ok u e r : preserves I (run_user_op (AssignRole u e r)).
Proof.
  simpl. unfold assign_user_role_endpoint, selected_tenant. step_operators.
  unfold assign_user_role. apply preserves_bind; [step_operators|intros _].
  apply (preserves_checked _ (r = "super_admin" → ok (norm_text e))).
  { intros w. case_bool_decide as Hr; [|by split]. wp_simpl. destruct (mem _ _); [|done]. wp_simpl.
    destruct (is_operator_email _ e) eqn:He; [|done]. wp_simpl. split; [done|intros _].
    apply bool_decide_eq_true in He. by rewrite He. }
  intros He. step_operators; try (by apply create_user_ok); try (by apply update_user_role_ok).
  apply ensure_super_ok, He. by eapply bool_decide_eq_true.
Qed.

Lemma audit_ok t i r a e c m : preserves I (audit_in uuid_text email_hmac t i r a e c m).
Proof. unfold audit_in, AuditLog.record, check_fk_opt, check_fk. step_operators. Qed.

Lemma sync_user_ok t role d i email : (role = "super_admin" → ok (norm_text email)) →
  preserves I (sync_user limit_1 t role d i email).
Proof.
  intros He. unfold sync_user. step_operators. apply ensure_super_ok, He. by eapply bool_decide_eq_true.
Qed.

(** The update of a row after the check on who may become an operator. *)
Lemma update_row_ok t i role roles ps w :
  I w →
  (names_super role roles = true → ∃ n r, user_parse_id i = PInt n ∧
     users (default empty_db (schools w !! t)) !! n = Some r ∧ ok (norm_text (us_email r))) →
  wp (in_school t (update_user_roles_and_permissions i role roles ps))
    (λ o w', I w' ∧ match o with
      | Some (_, r) => names_super role roles = true → ok (norm_text (us_email r)) | None => True end) (λ _, I) w.
Proof. intros Hw Hn. apply wp_school_ok; [done|]. apply update_permissions_ok; [by apply school_users_ok|done]. Qed.

Definition found_row (w : World) (t : string) (i : pyid) (kr : Z * user_row) : Prop :=
  user_parse_id i = PInt kr.1 ∧ users (default empty_db (schools w !! t)) !! kr.1 = Some kr.2.

Lemma wp_read_user t i w : I w →
  wp (with_school t (get_user_by_id i)) (λ o w', I w' ∧ ∀ kr, o = Some kr → found_row w' t i kr) (λ _, I) w.
Proof.
  intros Hw. unfold with_school. rewrite wp_bind. eapply wp_mono; [by apply open_ok| |by intros].
  intros ? w1 Hw1. rewrite wp_in_school. pose proof (school_users_ok _ w1 t Hw1) as Hs. unfold get_user_by_id.
  destruct (user_parse_id i) as [n| | |] eqn:Hi; wp_simpl; (split; [by apply set_school_ok|]); [|done..].
  intros [k r] Hkr. apply fmap_Some in Hkr as (r' & Hr & [= -> ->]).
  unfold found_row. cbn. by rewrite lookup_insert_eq.
Qed.

Lemma update_ok u i r rs ps : preserves I (run_user_op (UpdatePermissions u i r rs ps)).
Proof.
  simpl. unfold update_user_permissions, selected_tenant. step_operators.
  unfold update_tenant_user_permissions. apply preserves_bind; [step_operators|intros _].
  apply preserves_bind; [step_operators|intros _]. intros w Hw. rewrite wp_bind.
  eapply wp_mono; [by apply wp_read_user| |by intros]. intros existing w1 [Hw1 Hex]. cbv beta.
  rewrite wp_bind, wp_guard_or. destruct (negb _ || _) eqn:Hg; [|done].
  rewrite wp_bind. eapply wp_mono; [apply update_row_ok; [done|]| |by intros].
  - intros Hsup. rewrite Hsup in Hg. destruct existing as [[n r0]|]; [|done]. destruct (Hex _ eq_refl) as [Hn Hr].
    exists n, r0. split_and!; [done..|]. cbn in Hg. destruct (row_is_super r0) eqn:H0; cbn in Hg.
    + by apply (school_users_ok _ _ a Hw1 n).
    + apply andb_true_iff in Hg as [_ Hg]. apply bool_decide_eq_true in Hg. by rewrite Hg.
  - intros updated w2 [Hw2 Hup]. cbv beta. revert w2 Hw2. destruct updated as [[n r2]|]; [|by intros].
    assert (r = "super_admin" → ok (norm_text (us_email r2))) as Hr.
    { intros ->. apply Hup. by apply names_super_true; left. }
    intros w2 Hw2. rewrite wp_bind, wp_from_option_or. revert w2 Hw2.
    match goal with |- ∀ w2, I w2 → wp ?m _ _ w2 => cut (preserves I m); [done|] end.
    step_operators; [by apply sync_user_ok|apply audit_ok].
Qed.

Lemma delete_ok u i : preserves I (run_user_op (DeleteUser u i)).
Proof.
  simpl. unfold delete_user_endpoint, selected_tenant, delete_tenant_user. step_operators.
  all: first [apply delete_user_ok | apply audit_ok].
Qed.

Lemma user_op_ok op : preserves I (run_user_op op).
Proof.
  destruct op.
  - apply start_ok.
  - apply open_ok.
  - apply preserves_modify. intros w [Ht Hu]. constructor; [exact Ht|exact Hu].
  - apply registration_ok.
  - simpl. unfold create_teacher. step_operators. by apply create_user_ok.
  - simpl. unfold create_staff_user. apply preserves_bind; [|intros ?; apply preserves_ret].
    apply preserves_guarded. intros Hr%mem_true. step_operators. apply create_user_ok. intros ->. set_solver.
  - simpl. unfold create_student. step_operators. by apply create_user_ok.
  - apply assign_ok.
  - apply update_ok.
  - apply delete_ok.
Qed.

(** C3: one platform operator. Whatever registrations and administration
    requests are made, by callers with whatever roles and permissions, in
    whatever order and with process starts in between: every row of
    [super_admins] and every account of a school that carries the role
    super_admin has the designated email, the default one of a first start,
    or one that had the role before. *)
Theorem one_platform_operator ops w : I w → I (run_user_ops ops w).
Proof.
  revert w. induction ops as [|op ops IH]; intros w Hw; [done|]. apply IH.
  by apply preserves_run; [apply user_op_ok|].
Qed.
End requests.

(** ** A concrete deployment *)
Definition demo_ops (ops : list user_op) (w : World) : World :=
  run_user_ops demo_verify demo_hash demo_uuid head id "teach" "boot" "Op@desk.com" ops w.
Definition demo_operator : CurrentUser :=
  {| cu_id := PStr "1"; cu_tenant_id := Some "tenant_a"; cu_role := "super_admin"; cu_email := "sa@desk.com";
     cu_roles := ["super_admin"] |}.
Definition demo_school_admin : CurrentUser :=
  {| cu_id := PStr "7"; cu_tenant_id := Some "tenant_a"; cu_role := "school_admin"; cu_email := "boss@x.org";
     cu_roles := ["school_admin"] |}.
Definition demo_designated (e : string) : Prop := e ∈ ["op@desk.com"; "sa@desk.com"].
Definition demo_requests : list user_op :=
  [StartPlatform "pw:root"; OpenASchool "tenant_a"; CreateStaff "tenant_a" "boss@x.org" "pw" "school_admin" (RStr "school_admin");
   AssignRole demo_operator " Op@desk.com " "super_admin"; AssignRole demo_operator "boss@x.org" "super_admin"].

Lemma one_platform_operator_witness :
  size (super_admins (demo_ops demo_requests empty_world)) = 2%nat ∧
  operators_ok demo_designated (demo_ops demo_requests empty_world).
Proof.
  split; [vm_compute; reflexivity|].
  apply (one_platform_operator demo_verify demo_hash demo_uuid head id "teach" "boot" "Op@desk.com" demo_designated).
  - vm_compute. left.
  - unfold demo_designated. right. left.
  - constructor; [intros k r H|intros t k r (s & H & _)]; by vm_compute in H.
Defined.

(** The accounts of a school. *)
Definition account_ids (t : string) (w : World) : list (Z * (string * string)) :=
  map (λ kv, (kv.1, (us_email kv.2, us_role kv.2))) (by_id (map_to_list (users (default empty_db (schools w !! t))))).

(** The list of permissions is not checked: a school administrator can name
    the operator's role there, and identification puts the permissions of an
    account among the caller's roles. *)
Example permissions_may_name_the_operator :
  let w := demo_ops (demo_requests ++ [UpdatePermissions demo_school_admin (PStr "109") "school_admin" [] ["super_admin"]])
             empty_world in
  account_ids "tenant_a" w
  = [(108, ("sa@desk.com", "super_admin")); (109, ("boss@x.org", "school_admin")); (110, ("op@desk.com", "super_admin"))] ∧
  match identify (demo_claims "boss@x.org" "school_admin" "tenant_a") None w with
  | Ok (u, _) => has_role u "super_admin" = true
  | Raise _ => False
  end.
Proof. split; vm_compute; reflexivity. Qed.

(** A demotion that names the account by its email updates the account, and
    leaves the row of [super_admins] that a login asks first. *)
Example demotion_by_email_keeps_the_operator :
  let demote i := demo_ops (demo_requests ++ [UpdatePermissions demo_operator i "teacher" [] []]) empty_world in
  map (λ w, (account_ids "tenant_a" w !! 0%nat, size (super_admins w)))
    [demote (PInt 108); demote (PStr "sa@desk.com")]
  = [(Some (108, ("sa@desk.com", "teacher")), 1%nat); (Some (108, ("sa@desk.com", "teacher")), 2%nat)].
Proof. vm_compute. reflexivity. Qed.
