(* ===== verification/Health.v ===== *)
(** * Health records

    [TenantService.create_or_update_health_record], [get_health_record],
    [_mask_field] (src/app/domains/tenant/service.py), the repository behind
    them and their endpoints (src/app/domains/students/router.py). The
    endpoints' [require_permission] (OPA) has run. *)
From Stdlib Require Import Ascii String.
From stdpp Require Import gmap.
From S2P Require Import Prelude PyText Authz Store AuditLog AcademicRepo School World UserRepo ControlPlane Membership Session Login Identify Caller Registration UserAdmin.

(** ** Masking *)
(** [val[-n:]] *)
Definition last_chars (n : nat) (val : string) : string :=
  text (drop (List.length (chars val) - n) (chars val)).

Definition shown (stars : string) (n : nat) (val : string) : string :=
  if Z.of_nat n <=? str_len val then stars +:+ last_chars n val else "********".

Definition _mask_field (val field_name : string) : string :=
  if bool_decide (val = "") then ""
  else if bool_decide (field_name = "national_id") then shown "********" 4 val
  else if bool_decide (field_name = "medical_conditions") then shown "***" 2 val
  else if bool_decide (field_name = "emergency_contact") then shown "******" 4 val
  else "********".

(** ** The repository *)
(** INSERT ... ON CONFLICT (student_id) DO UPDATE, then the hook, in one
    transaction. The id of a new record is a UUID of [gen_random_uuid]; here
    the next number stands for it, which is new as well. *)
Definition create_or_update_student_health (student_id : pyid) (national medical contact : string)
    (audit_hook : DB unit) : DB Z :=
  transaction (
    sid ← bind_bigint_not_null student_id;
    let row := {| he_student := sid; he_national := national; he_medical := medical; he_contact := contact |} in
    t ← gets student_health;
    record_id ← match find_row (λ _ h, he_student h =? sid) t with
      | Some (id, _) => modify (λ s, s <| student_health ::= <[id := row]> |>) ;; mret id
      | None => check_fk students sid ;; insert_serial student_health row
      end;
    audit_hook ;;
    mret record_id).

Definition get_student_health_by_student_id (student_id : pyid) : DB (option (Z * health_row)) :=
  sid ← bind_bigint student_id;
  gets (λ s, sid ≫= λ n, find_row (λ _ h, he_student h =? n) (student_health s)).

Record health_view := {
  hv_id : Z; hv_student : Z; hv_national : string; hv_medical : string; hv_contact : string; hv_masked : bool }.

Section health.
(** [Fernet]: the n-th token for a value, and its decryption ([None]:
    [InvalidToken]). *)
Context (fernet_encrypt : Z → string → string) (fernet_decrypt : string → option string).
Context (uuid_text : Z → string) (email_hmac : string → string).

Definition _encrypt (val : string) : CP string := n ← draw; mret (fernet_encrypt n val).
(** [InvalidToken] is nothing the callers catch. *)
Definition _decrypt (token : string) : CP string := from_option_or (fernet_decrypt token) (TypeError "").

(** ** The services *)
Definition create_or_update_health_record (tenant_id : string) (student_id : pyid)
    (national_id medical_conditions emergency_contact : string) (requesting_user_id : pyid)
    (requesting_user_role : role_arg) : CP Z :=
  permission requesting_user_role ["school_admin"; "teacher"] "Only staff can manage health records" ;;
  get_db_pool tenant_id ;;
  nat_enc ← _encrypt national_id;
  med_enc ← _encrypt medical_conditions;
  emg_enc ← _encrypt emergency_contact;
  in_school tenant_id (create_or_update_student_health student_id nat_enc med_enc emg_enc (
    record email_hmac (Some (_AuditActor requesting_user_id requesting_user_role)) "student.health.write" "student"
      (Some (id_text uuid_text student_id)) "allow" None
      [("fields_written", MList ["national_id"; "medical_conditions"; "emergency_contact"])] ;;
    mret tt)).

Definition unmasked (requesting_user_role : role_arg) (elevated_clearance : bool) : bool :=
  match requesting_user_role with
  | RStr r => bool_decide (r = "school_admin") && elevated_clearance
  | _ => false
  end.

Definition get_health_record (tenant_id : string) (student_id requesting_user_id : pyid)
    (requesting_user_role : role_arg) (elevated_clearance : bool) : CP (option health_view) :=
  found ← with_school tenant_id (get_student_health_by_student_id student_id);
  match found with
  | None => mret None
  | Some (id, r) =>
      nat_dec ← _decrypt (he_national r);
      med_dec ← _decrypt (he_medical r);
      emg_dec ← _decrypt (he_contact r);
      swallow tt (with_school tenant_id (
        record email_hmac (Some (_AuditActor requesting_user_id requesting_user_role)) "student.health.read" "student"
          (Some (id_text uuid_text student_id)) "allow" None []) ;; mret tt) ;;
      mret (Some (if unmasked requesting_user_role elevated_clearance
        then {| hv_id := id; hv_student := he_student r; hv_national := nat_dec; hv_medical := med_dec;
                hv_contact := emg_dec; hv_masked := false |}
        else {| hv_id := id; hv_student := he_student r; hv_national := _mask_field nat_dec "national_id";
                hv_medical := _mask_field med_dec "medical_conditions";
                hv_contact := _mask_field emg_dec "emergency_contact"; hv_masked := true |}))
  end.

(** ** The endpoints *)
(** POST and GET /students/{student_id}/health *)
Definition create_or_update_health (current_user : CurrentUser) (student_id : Z)
    (national_id medical_conditions emergency_contact : string) : CP Z :=
  tenant_id ← tenant_of current_user;
  try_except
    (create_or_update_health_record tenant_id (PInt student_id) national_id medical_conditions emergency_contact
       (cu_id current_user) (RList (cu_roles current_user)))
    (λ e, match e with PermissionError m => raise (HTTPException 403 m) | _ => raise e end).

Definition get_health (current_user : CurrentUser) (student_id : Z) (elevated_clearance : bool) : CP health_view :=
  tenant_id ← tenant_of current_user;
  try_except
    (record ← get_health_record tenant_id (PInt student_id) (cu_id current_user) (RList (cu_roles current_user))
       elevated_clearance;
     from_option_or record (HTTPException 404 "Health record not found"))
    (λ e, match e with PermissionError m => raise (HTTPException 403 m) | _ => raise e end).
End health.

(** ** A record reads back *)
Section reads_back.
Context (fernet_encrypt : Z → string → string) (fernet_decrypt : string → option string).
Context (uuid_text : Z → string) (email_hmac : string → string).
Abbreviation write := (create_or_update_health_record fernet_encrypt uuid_text email_hmac).
Abbreviation read := (get_health_record fernet_decrypt uuid_text email_hmac).
(** A token decrypts to what was encrypted. *)
Hypothesis fernet_law : ∀ n v, fernet_decrypt (fernet_encrypt n v) = Some v.

Definition records_at (w : World) (t : string) : gmap Z health_row :=
  student_health (default empty_db (schools w !! t)).
(** UNIQUE (student_id) *)
Definition one_record (w : World) (t : string) : Prop := unique_by he_student (records_at w t).

(** The record [id] holds tokens of the three values. *)
Definition holds_record (w : World) (t : string) (id sid : Z) (nat med con : string) : Prop :=
  ∃ r, records_at w t !! id = Some r ∧ he_student r = sid ∧ fernet_decrypt (he_national r) = Some nat ∧
    fernet_decrypt (he_medical r) = Some med ∧ fernet_decrypt (he_contact r) = Some con.

Definition view_of (id sid : Z) (nat med con : string) (masked : bool) : health_view :=
  {| hv_id := id; hv_student := sid;
     hv_national := if masked then _mask_field nat "national_id" else nat;
     hv_medical := if masked then _mask_field med "medical_conditions" else med;
     hv_contact := if masked then _mask_field con "emergency_contact" else con; hv_masked := masked |}.

Lemma init_health H sas : preserves (λ s, student_health s = H) (_initialize_tenant_tables sas).
Proof.
  unfold _initialize_tenant_tables, init_academic_year, init_section_labels, init_profile, init_resource_types,
    init_super_admins, insert_serial. quiet.
  - apply preserves_for_each. intros c _. unfold init_category, insert_serial. quiet.
    apply preserves_for_each. intros nc _. quiet.
  - apply preserves_for_each. intros sa _. unfold mirror_super_admin, insert_serial. quiet.
Qed.

Lemma open_health t H : preserves (λ w, records_at w t = H) (get_db_pool t).
Proof.
  unfold get_db_pool, cp_check. quiet.
  - intros w Hw. rewrite wp_in_school. eapply wp_mono; [apply init_health, Hw| |].
    all: intros ? s Hs; unfold records_at; cbn; by rewrite lookup_insert_eq.
Qed.

Lemma wp_upsert_health sid n m c hook s :
  (∀ H, preserves (λ s, student_health s = H) hook) → unique_by he_student (student_health s) →
  wp (create_or_update_student_health (PInt sid) n m c hook)
    (λ id s', in_int8 sid = true ∧ unique_by he_student (student_health s') ∧
       student_health s' !! id = Some {| he_student := sid; he_national := n; he_medical := m; he_contact := c |})
    (λ _ s', student_health s' = student_health s) s.
Proof.
  intros Hhook Hu. unfold create_or_update_student_health, bind_bigint_not_null, bind_bigint, check.
  rewrite wp_transaction, wp_bind. cbn [parse_id]. wp_simpl. fold (in_int8 sid). destruct (in_int8 sid); wp_simpl; [|done].
  set (row := {| he_student := sid; he_national := n; he_medical := m; he_contact := c |}).
  assert (∀ id s', unique_by he_student (<[id := row]> (student_health s)) → student_health s' = <[id := row]> (student_health s) →
    wp hook (λ _ s'', true = true ∧ unique_by he_student (student_health s'') ∧ student_health s'' !! id = Some row)
      (λ _ _, student_health s = student_health s) s') as Hend.
  { intros id s' Hu' Hs'. eapply wp_mono; [exact (Hhook _ s' Hs')| |]; [intros [] s'' ->|].
    { split_and!; [done|done|]. by rewrite lookup_insert_eq. }
    by intros. }
  destruct (find_row _ _) as [[id r]|] eqn:Hf; wp_simpl.
  - apply find_row_Some in Hf as [Hid Hr]. apply Z.eqb_eq in Hr. apply Hend; [|done].
    apply unique_by_insert; [done|]. intros j a Ha Heq. apply (Hu j id a r); [done..|]. cbn in Heq. congruence.
  - unfold check_fk, check, insert_serial. wp_simpl. destruct (has_row _ _); wp_simpl; [|done]. apply Hend; [|done].
    apply unique_by_insert; [done|]. intros j a Ha Heq. pose proof (find_row_None _ _ Hf j a Ha) as Hne.
    cbv beta in Hne. cbn in Heq. by rewrite Heq, Z.eqb_refl in Hne.
Qed.

Lemma audit_hook_health a i act ch md H :
  preserves (λ s, student_health s = H)
    (record email_hmac a act "student" (Some (id_text uuid_text i)) "allow" ch md ;; mret tt).
Proof. clear. unfold record, check_fk_opt, check_fk, check. quiet. Qed.

(** The school is open, and its record [id] holds the values. *)
Definition stored (w : World) (t : string) (id sid : Z) (nat med con : string) : Prop :=
  t ∈ open_pools w ∧ in_int8 sid = true ∧ one_record w t ∧ holds_record w t id sid nat med con.

Lemma wp_encrypt v (Q : string → World → Prop) (E : exn → World → Prop) w :
  (∀ n w', open_pools w' = open_pools w → schools w' = schools w → Q (fernet_encrypt n v) w') →
  wp (_encrypt fernet_encrypt v) Q E w.
Proof. clear. intros HQ. unfold _encrypt, draw. wp_simpl. by apply HQ. Qed.

Set Default Proof Using "Type*".

Lemma wp_write_row t sid n1 n2 n3 nat med con a w :
  t ∈ open_pools w → one_record w t →
  wp (in_school t (create_or_update_student_health (PInt sid) (fernet_encrypt n1 nat) (fernet_encrypt n2 med)
        (fernet_encrypt n3 con) (record email_hmac a "student.health.write" "student"
          (Some (id_text uuid_text (PInt sid))) "allow" None
          [("fields_written", MList ["national_id"; "medical_conditions"; "emergency_contact"])] ;; mret tt)))
    (λ id w', stored w' t id sid nat med con) (λ _ w', records_at w' t = records_at w t) w.
Proof.
  intros Hopen Hu. rewrite wp_in_school.
  eapply wp_mono; [apply (wp_upsert_health _ _ _ _ _ _ (λ H, audit_hook_health _ _ _ _ _ H) Hu)| |].
  - intros id s (Hin & Hu' & Hid). unfold stored, one_record, holds_record, records_at. cbn. rewrite lookup_insert_eq. cbn.
    split_and!; [done..|]. eexists. split; [exact Hid|]. cbn. by rewrite !fernet_law.
  - intros e s Hs. unfold records_at at 1. cbn. rewrite lookup_insert_eq. exact Hs.
Qed.

Lemma wp_write t sid nat med con by_ role w :
  one_record w t →
  wp (write t (PInt sid) nat med con by_ role) (λ id w', stored w' t id sid nat med con)
    (λ _ w', records_at w' t = records_at w t) w.
Proof.
  intros Hu. unfold create_or_update_health_record, permission. rewrite wp_bind, wp_guard_or.
  destruct (require _ _); [|done]. rewrite wp_bind.
  pose proof (wp_conj _ _ _ _ _ _ (wp_pool_opened t w) (open_health t (records_at w t) w eq_refl)) as Hopened.
  eapply wp_mono; [exact Hopened| |by intros e w' [_ H]].
  intros [] w1 [[_ Hopen] H1]. rewrite wp_bind. apply wp_encrypt. intros n1 w2 Ho2 Hs2.
  rewrite wp_bind. apply wp_encrypt. intros n2 w3 Ho3 Hs3. rewrite wp_bind. apply wp_encrypt. intros n3 w4 Ho4 Hs4.
  assert (records_at w4 t = records_at w t) as H4 by (rewrite <-H1; unfold records_at; by rewrite Hs4, Hs3, Hs2).
  eapply wp_mono; [apply wp_write_row; [by rewrite Ho4, Ho3, Ho2|unfold one_record; by rewrite H4]|done|].
  intros e w' H. by rewrite H.
Qed.

(** Whatever leaves the table of the school alone. *)
Lemma stored_school w t s id sid nat med con :
  stored w t id sid nat med con → student_health s = records_at w t →
  stored (w <| schools ::= <[t := s]> |>) t id sid nat med con.
Proof.
  clear. intros (Ho & Hin & Hu & H) Hs. unfold stored, one_record, holds_record, records_at. cbn. rewrite lookup_insert_eq.
  cbn. rewrite Hs. by split_and!.
Qed.

Lemma audit_stored w t a act i ch md id sid nat med con :
  stored w t id sid nat med con →
  wp (swallow tt (with_school t (record email_hmac a act "student" (Some (id_text uuid_text i)) "allow" ch md) ;; mret tt))
    (λ _ w', stored w' t id sid nat med con) (λ _ _, False) w.
Proof.
  intros Hst. unfold swallow, with_school. rewrite wp_try_except, !wp_bind.
  unfold wp at 1. rewrite get_db_pool_noop by apply Hst. rewrite wp_in_school.
  pose proof (audit_hook_health a i act ch md (records_at w t) (default empty_db (schools w !! t)) eq_refl) as Hp.
  rewrite wp_bind in Hp. eapply wp_mono; [exact Hp| |]; intros ? s Hs; wp_simpl; by apply stored_school.
Qed.

Lemma wp_read t id sid nat med con by_ role elevated w :
  stored w t id sid nat med con →
  wp (read t (PInt sid) by_ role elevated)
    (λ o w', o = Some (view_of id sid nat med con (negb (unmasked role elevated))) ∧ stored w' t id sid nat med con)
    (λ _ _, False) w.
Proof.
  intros Hst. pose proof Hst as (Hopen & Hin & Hu & r & Hid & Hsid & Hn & Hm & Hc). unfold get_health_record.
  rewrite wp_bind. unfold with_school at 1. rewrite wp_bind. unfold wp at 1. rewrite get_db_pool_noop by done.
  rewrite wp_in_school. unfold get_student_health_by_student_id, bind_bigint, check. cbn [parse_id]. wp_simpl.
  fold (in_int8 sid). rewrite Hin. wp_simpl. cbn [mbind option_bind].
  rewrite (find_row_unique he_student _ _ id r Hu Hid) by
    (first [by rewrite Hsid, Z.eqb_refl | intros i a _ ->%Z.eqb_eq; by rewrite Hsid]).
  unfold _decrypt. wp_simpl. rewrite Hn, Hm, Hc. wp_simpl.
  eapply wp_mono; [apply audit_stored, stored_school; [exact Hst|done]| |done].
  intros [] w' Hw'. wp_simpl. split; [|exact Hw']. unfold view_of. by destruct (unmasked role elevated); rewrite Hsid.
Qed.

(** The endpoint passes the list of the caller's roles. *)
Lemma endpoint_answers u t id sid elevated nat med con w :
  cu_tenant_id u = Some t → stored w t id sid nat med con →
  (get_health fernet_decrypt uuid_text email_hmac u sid elevated w).1 = Ok (view_of id sid nat med con true).
Proof.
  intros Ht Hst.
  pose proof (wp_read t id sid nat med con (cu_id u) (RList (cu_roles u)) elevated w Hst) as Hr.
  unfold wp in Hr. unfold get_health, tenant_of. rewrite Ht.
  unfold from_option_or, mbind, M_bind, mret, M_ret, try_except. cbn.
  destruct (read _ _ _ _ _ w) as [[o|e] w']; [|done]. by destruct Hr as [-> _].
Qed.

(** C30: a health record reads back. After a write that succeeds, any sequence
    of calls of [get_health_record] answers with the three values written: in
    full to the role given as the text "school_admin" (not as a list of roles)
    with elevated clearance, masked to all others. The endpoint, which passes
    a list, answers masks to everybody. A write that fails changes no record. *)
Theorem health_record_reads_back t sid nat med con by_ role w :
  one_record w t →
  wp (write t (PInt sid) nat med con by_ role)
    (λ id w',
       (∀ readers : list (pyid * role_arg * bool),
          (map_each readers (λ q, read t (PInt sid) q.1.1 q.1.2 q.2) w').1
          = Ok (map (λ q, Some (view_of id sid nat med con (negb (unmasked q.1.2 q.2)))) readers)) ∧
       ∀ u elevated, cu_tenant_id u = Some t →
         (get_health fernet_decrypt uuid_text email_hmac u sid elevated w').1 = Ok (view_of id sid nat med con true))
    (λ _ w', records_at w' t = records_at w t) w.
Proof.
  intros Hu. eapply wp_mono; [by apply wp_write| |done]. intros id w' Hst.
  split; [|intros u elevated Ht; by apply (endpoint_answers u t)]. intros readers. revert w' Hst.
  induction readers as [|q readers IH]; intros w' Hst; [done|]. cbn [map_each map].
  pose proof (wp_read t id sid nat med con q.1.1 q.1.2 q.2 w' Hst) as Hr. unfold wp in Hr.
  unfold mbind, M_bind, mret, M_ret. destruct (read _ _ _ _ _ w') as [[o|e] w2]; [|done].
  destruct Hr as [-> Hst2]. specialize (IH w2 Hst2). cbv beta in IH. destruct (map_each _ _ w2) as [[l|e] w3]; [|done].
  cbn in *. congruence.
Qed.

(** Values that agree on what their masks show. *)
Definition same_ending (n : nat) (x y : string) : Prop :=
  x = y ∨
  (Z.of_nat n ≤ str_len x ∧ Z.of_nat n ≤ str_len y ∧ last_chars n x = last_chars n y) ∨
  (0 < str_len x < Z.of_nat n ∧ 0 < str_len y < Z.of_nat n).

Lemma shown_same stars n x y : same_ending n x y → shown stars n x = shown stars n y.
Proof.
  clear. unfold shown. intros [->|[(Hx & Hy & ->)|[[_ Hx] [_ Hy]]]]; [done| |].
  - apply Z.leb_le in Hx, Hy. by rewrite Hx, Hy.
  - apply Z.leb_gt in Hx, Hy. by rewrite Hx, Hy.
Qed.

Lemma same_ending_empty n x y : (0 < n)%nat → same_ending n x y → x = "" ↔ y = "".
Proof.
  clear. intros Hn [->|[(Hx & Hy & _)|[[Hx _] [Hy _]]]]; [done| |]; split; intros ->; change (str_len "") with 0 in *; lia.
Qed.

Lemma mask_same f n x y : (0 < n)%nat →
  f = "national_id" ∧ n = 4%nat ∨ f = "medical_conditions" ∧ n = 2%nat ∨ f = "emergency_contact" ∧ n = 4%nat →
  same_ending n x y → _mask_field x f = _mask_field y f.
Proof.
  clear. intros Hn Hf H. unfold _mask_field.
  rewrite (bool_decide_ext _ _ (same_ending_empty n x y Hn H)).
  destruct (bool_decide (y = "")); [done|].
  destruct Hf as [[-> ->]|[[-> ->]|[-> ->]]]; cbn; by apply shown_same.
Qed.

(** C29: the endpoint shows endings only. Whoever asks, with or without
    elevated clearance: two records whose values agree on their last four,
    two and four characters (or are all shorter) get the same answer. *)
Theorem endpoint_shows_endings u t id sid elevated nat1 med1 con1 nat2 med2 con2 w1 w2 :
  cu_tenant_id u = Some t →
  stored w1 t id sid nat1 med1 con1 → stored w2 t id sid nat2 med2 con2 →
  same_ending 4 nat1 nat2 → same_ending 2 med1 med2 → same_ending 4 con1 con2 →
  let answer w := (get_health fernet_decrypt uuid_text email_hmac u sid elevated w).1 in
  answer w1 = answer w2 ∧ ∃ v, answer w1 = Ok v ∧ hv_masked v = true.
Proof.
  intros Ht H1 H2 Hn Hm Hc.
  cbv zeta beta. rewrite (endpoint_answers u t _ _ _ _ _ _ w1 Ht H1), (endpoint_answers u t _ _ _ _ _ _ w2 Ht H2). split; [|by eexists].
  unfold view_of. by rewrite (mask_same "national_id" 4 nat1 nat2), (mask_same "medical_conditions" 2 med1 med2),
    (mask_same "emergency_contact" 4 con1 con2) by auto with lia.
Qed.
End reads_back.

(** ** A concrete deployment *)
Definition demo_encrypt (n : Z) (v : string) : string := "gAAAA" +:+ v.
Definition demo_decrypt (token : string) : option string :=
  if is_prefix (chars "gAAAA") (chars token) then Some (text (drop 5 (chars token))) else None.
Lemma demo_fernet n v : demo_decrypt (demo_encrypt n v) = Some v.
Proof.
  unfold demo_decrypt, demo_encrypt, chars, text.
  change (list_ascii_of_string ("gAAAA" +:+ v)) with ("g" :: "A" :: "A" :: "A" :: "A" :: list_ascii_of_string v)%char.
  cbn. rewrite drop_0, string_of_list_ascii_of_string. reflexivity.
Qed.

Definition demo_pupil : student_row :=
  {| st_name := "Pia"; st_class := None; st_gender := None; st_birth := None; st_status := "enrolled"; st_exited := None |}.
Definition demo_ward : World :=
  demo_platform <| schools ::= alter (λ s, s <| students ::= <[5 := demo_pupil]> |>) "tenant_a" |>.
Definition demo_write (nat med con : string) : CP Z :=
  create_or_update_health_record demo_encrypt demo_uuid id "tenant_a" (PInt 5) nat med con (PStr "108") (RStr "teacher").
Definition demo_read (elevated : bool) : CP (option health_view) :=
  get_health_record demo_decrypt demo_uuid id "tenant_a" (PInt 5) (PStr "108") (RStr "school_admin") elevated.

Lemma demo_ward_records : one_record demo_ward "tenant_a".
Proof.
  assert (records_at demo_ward "tenant_a" = ∅) as H by (vm_compute; reflexivity).
  unfold one_record. rewrite H. intros i j a b Hi. by rewrite lookup_empty in Hi.
Qed.

Definition demo_recorded : World := (demo_write "9876543210" "asthma" "0790001111" demo_ward).2.

Lemma health_record_reads_back_witness :
  (demo_write "9876543210" "asthma" "0790001111" demo_ward).1 = Ok 109 ∧
  (map_each [(PStr "108", RStr "school_admin", true)]
     (λ q, get_health_record demo_decrypt demo_uuid id "tenant_a" (PInt 5) q.1.1 q.1.2 q.2) demo_recorded).1
  = Ok [Some (view_of 109 5 "9876543210" "asthma" "0790001111" false)].
Proof.
  assert ((demo_write "9876543210" "asthma" "0790001111" demo_ward).1 = Ok 109) as H by (vm_compute; reflexivity).
  split; [exact H|].
  exact (proj1 (wp_ok _ _ _ _ _ (health_record_reads_back demo_encrypt demo_decrypt demo_uuid id demo_fernet "tenant_a" 5
    "9876543210" "asthma" "0790001111" (PStr "108") (RStr "teacher") demo_ward demo_ward_records) H)
    [(PStr "108", RStr "school_admin", true)]).
Defined.

(** Two records, stored by two writes. *)
Lemma demo_stored nat med con k :
  (demo_write nat med con demo_ward).1 = Ok k → stored demo_decrypt (demo_write nat med con demo_ward).2 "tenant_a" k 5 nat med con.
Proof.
  intros H. exact (wp_ok _ _ _ _ _ (wp_write demo_encrypt demo_decrypt demo_uuid id demo_fernet "tenant_a" 5 nat med con
    (PStr "108") (RStr "teacher") demo_ward demo_ward_records) H).
Qed.

Definition demo_nurse : CurrentUser :=
  {| cu_id := PStr "108"; cu_tenant_id := Some "tenant_a"; cu_role := "school_admin"; cu_email := "nurse@x.org";
     cu_roles := ["school_admin"] |}.

Lemma endpoint_shows_endings_witness :
  let answer w := (get_health demo_decrypt demo_uuid id demo_nurse 5 true w).1 in
  let other := (demo_write "1113210" "bronchitis, asthma" "0790001111" demo_ward).2 in
  answer demo_recorded = answer other ∧ ∃ v, answer demo_recorded = Ok v ∧ hv_masked v = true.
Proof.
  apply (endpoint_shows_endings demo_encrypt demo_decrypt demo_uuid id demo_fernet demo_nurse "tenant_a" 109 5 true
    "9876543210" "asthma" "0790001111" "1113210" "bronchitis, asthma" "0790001111").
  - reflexivity.
  - apply demo_stored. vm_compute. reflexivity.
  - apply demo_stored. vm_compute. reflexivity.
  - right. left. vm_compute. repeat split; discriminate.
  - right. left. vm_compute. repeat split; discriminate.
  - left. reflexivity.
Defined.

(** A value as short as the ending its mask shows is shown whole. *)
Example short_values_are_shown :
  (demo_read false (demo_write "4321" "MS" "1111" demo_ward).2).1
  = Ok (Some {| hv_id := 109; hv_student := 5; hv_national := "********4321"; hv_medical := "***MS";
                hv_contact := "******1111"; hv_masked := true |}).
Proof. vm_compute. reflexivity. Qed.
