(* ===== verification/ImportFile.v ===== *)
(** * Import files

    The parser of bulk-import files (src/app/domains/students/import_parser.py)
    with what it uses of Python: [bytes.decode("utf-8-sig")], [csv.DictReader]
    in the excel dialect, and the conversions of
    [TenantRepository._parse_import_int] and [_parse_import_bool]: [float] of
    a text, rounded to a binary64, and [int] of that. The workbook reader
    openpyxl is the parameter [workbook] of [parse_import_file]. *)
From Stdlib Require Import Ascii.
From S2P Require Import Prelude PyText.

(** A cell: absent, a text, or a value of another type, of which the code
    uses the truth value and [str()]. *)
Inductive cell :=
  | CNone
  | CText (s : string)
  | COther (truthy : bool) (str : string).

#[export] Instance cell_eq_dec : EqDecision cell.
Proof. solve_decision. Defined.

(** ** Columns *)
Definition IMPORT_COLUMNS : list string :=
  ["grade_name"; "grade_ordinal"; "grade_isced_level"; "grade_age_min"; "grade_age_max";
   "grade_active"; "class_name"; "class_capacity"; "class_active"; "head_teacher_email"].

Definition MAX_IMPORT_ROWS : Z := 2000.
Definition MAX_IMPORT_BYTES : Z := 5 * 1024 * 1024.

(** One row: a cell per canonical column. *)
Definition import_row : Type := list (string * cell).
Definition cell_of (col : string) (row : import_row) : cell := default CNone (dict_get col row).
Definition canonical (d : list (string * cell)) : import_row :=
  (λ col, (col, default CNone (dict_get col d))) <$> IMPORT_COLUMNS.

Definition underscored (c : ascii) : ascii :=
  if (code c =? 32) || (code c =? 45) then of_code 95 else c.
Definition _normalize_header (raw : string) : string :=
  text (map underscored (chars (str_lower (str_strip raw)))).
Definition _normalize_row (raw_row : list (string * cell)) : import_row :=
  canonical (dict_of ((λ kv : string * cell, (_normalize_header kv.1, kv.2)) <$> raw_row)).

(** ** The kind of a file *)
Definition ends_with (suffix s : string) : bool := is_prefix (rev (chars suffix)) (rev (chars s)).

Definition detect_file_kind (filename : string) (content_type : option string) : result string :=
  let name := str_lower (str_strip filename) in
  let ctype := chars (str_lower (default "" content_type)) in
  if ends_with ".csv" name then Ok "csv"
  else if ends_with ".xlsx" name then Ok "xlsx"
  else if contains (chars "csv") ctype then Ok "csv"
  else if contains (chars "spreadsheetml") ctype || contains (chars "excel") ctype then Ok "xlsx"
  else Raise (ValueError "Unsupported file type -- only .csv and .xlsx are accepted").

(** ** [bytes.decode("utf-8-sig")] *)
Definition continuation (c : ascii) : bool := (128 <=? code c) && (code c <? 192).

(** Strict UTF-8: no overlong form, no surrogate, nothing above U+10FFFF. *)
Fixpoint valid_utf8 (l : list ascii) : bool :=
  match l with
  | [] => true
  | a :: l1 =>
      if code a <? 128 then valid_utf8 l1
      else match l1 with
      | b :: l2 =>
          if negb (continuation b) then false
          else if (194 <=? code a) && (code a <? 224) then valid_utf8 l2
          else match l2 with
          | c :: l3 =>
              if negb (continuation c) then false
              else if (224 <=? code a) && (code a <? 240) then
                negb ((code a =? 224) && (code b <? 160)) && negb ((code a =? 237) && (160 <=? code b))
                && valid_utf8 l3
              else match l3 with
              | d :: l4 =>
                  continuation d && (240 <=? code a) && (code a <? 245)
                  && negb ((code a =? 240) && (code b <? 144)) && negb ((code a =? 244) && (144 <=? code b))
                  && valid_utf8 l4
              | [] => false
              end
          | [] => false
          end
      | [] => false
      end
  end.

Definition strip_bom (l : list ascii) : list ascii :=
  match l with
  | a :: b :: c :: l' => if (code a =? 239) && (code b =? 187) && (code c =? 191) then l' else l
  | _ => l
  end.

Definition decode_utf8_sig (l : list ascii) : result (list ascii) :=
  if valid_utf8 l then Ok (strip_bom l) else Raise (ValueError "'utf-8' codec can't decode").

(** ** [csv.reader], excel dialect

    A model of the standard library: the limit on the length of a field is
    tested by [_parse_csv] below, on the records read. *)
Inductive csv_state := START_RECORD | START_FIELD | IN_FIELD | IN_QUOTED | QUOTE_IN_QUOTED | EAT_CRNL.

#[export] Instance csv_state_eq_dec : EqDecision csv_state.
Proof. solve_decision. Defined.

(** The field being read, backwards, and the fields of the record, backwards. *)
Record csv_parser := { cp_state : csv_state; cp_field : list ascii; cp_fields : list string }.
Definition csv_start : csv_parser := {| cp_state := START_RECORD; cp_field := []; cp_fields := [] |}.

Definition save_field (st : csv_state) (p : csv_parser) : csv_parser :=
  {| cp_state := st; cp_field := []; cp_fields := text (rev (cp_field p)) :: cp_fields p |}.
Definition add_char (st : csv_state) (c : ascii) (p : csv_parser) : csv_parser :=
  {| cp_state := st; cp_field := c :: cp_field p; cp_fields := cp_fields p |}.
Definition to_state (st : csv_state) (p : csv_parser) : csv_parser :=
  {| cp_state := st; cp_field := cp_field p; cp_fields := cp_fields p |}.

(** The csv module's own exception is not a [ValueError]. *)
Definition csv_error : exn := TypeError "_csv.Error: new-line character seen in unquoted field".

(** One character; [None] is the end of a line. *)
Definition csv_step (p : csv_parser) (c : option ascii) : result csv_parser :=
  let newline := match c with Some a => (code a =? 10) || (code a =? 13) | None => true end in
  let after := match c with None => START_RECORD | Some _ => EAT_CRNL end in
  let start_field :=
    if newline then save_field after p
    else match c with
         | Some a => if code a =? 34 then to_state IN_QUOTED p
                     else if code a =? 44 then save_field START_FIELD p
                     else add_char IN_FIELD a p
         | None => p
         end in
  match cp_state p, c with
  | START_RECORD, None => Ok p
  | START_RECORD, Some _ => Ok (if newline then to_state EAT_CRNL p else start_field)
  | START_FIELD, _ => Ok start_field
  | IN_FIELD, _ =>
      Ok (if newline then save_field after p
          else match c with
               | Some a => if code a =? 44 then save_field START_FIELD p else add_char IN_FIELD a p
               | None => p
               end)
  | IN_QUOTED, None => Ok p
  | IN_QUOTED, Some a =>
      Ok (if code a =? 34 then to_state QUOTE_IN_QUOTED p else add_char IN_QUOTED a p)
  | QUOTE_IN_QUOTED, _ =>
      Ok (if newline then save_field after p
          else match c with
               | Some a => if code a =? 34 then add_char IN_QUOTED a p
                           else if code a =? 44 then save_field START_FIELD p
                           else add_char IN_FIELD a p
               | None => p
               end)
  | EAT_CRNL, None => Ok (to_state START_RECORD p)
  | EAT_CRNL, Some _ => if newline then Ok p else Raise csv_error
  end.

(** The end of a line ends the record unless a quoted field goes on. *)
Definition csv_end_line (p : csv_parser) (k : csv_parser → result (list (list string))) :
    result (list (list string)) :=
  match csv_step p None with
  | Raise e => Raise e
  | Ok p' =>
      if bool_decide (cp_state p' = START_RECORD) then
        match k csv_start with
        | Ok rows => Ok (rev (cp_fields p') :: rows)
        | Raise e => Raise e
        end
      else k p'
  end.

(** The records of a text; [fresh] says that no character of the current
    line has been read. An unclosed quoted field is closed by the end of
    the file. *)
Fixpoint csv_reader (p : csv_parser) (fresh : bool) (l : list ascii) : result (list (list string)) :=
  let at_end (p : csv_parser) : result (list (list string)) :=
    if bool_decide (cp_state p = IN_QUOTED) then Ok [rev (cp_fields (save_field START_RECORD p))]
    else Ok [] in
  match l with
  | [] => if fresh then at_end p else csv_end_line p at_end
  | c :: l' =>
      match csv_step p (Some c) with
      | Raise e => Raise e
      | Ok p' =>
          if code c =? 10 then csv_end_line p' (λ q, csv_reader q true l')
          else csv_reader p' false l'
      end
  end.

(** [field_size_limit], in characters. *)
Definition field_fits (f : string) : bool :=
  Z.of_nat (List.length (List.filter (λ c, negb (continuation c)) (chars f))) <=? 131072.

(** [csv.DictReader]: the first record names the fields, blank records are
    skipped, missing values are [None], extra ones have no name. *)
Definition dict_row (fieldnames row : list string) : list (string * cell) :=
  fold_left (λ d k, dict_set k CNone d) (drop (List.length row) fieldnames)
    (dict_of (zip_with (λ k v, (k, CText v)) fieldnames row)).

Definition _parse_csv (raw_bytes : list ascii) : result (list import_row) :=
  match decode_utf8_sig raw_bytes with
  | Raise e => Raise e
  | Ok txt =>
      match csv_reader csv_start true txt with
      | Raise e => Raise e
      | Ok rows =>
          if negb (forallb (forallb field_fits) rows)
          then Raise (TypeError "_csv.Error: field larger than field limit")
          else match rows with
               | [] => Ok []
               | fieldnames :: body =>
                   Ok ((λ row, _normalize_row (dict_row fieldnames row))
                         <$> List.filter (λ row, negb (bool_decide (row = []))) body)
               end
      end
  end.

(** ** Workbooks *)
Definition str_of (c : cell) : string :=
  match c with CNone => "" | CText s => s | COther _ s => s end.
Definition blank_cell (c : cell) : bool := bool_decide (str_strip (str_of c) = "").

Definition sheet_rows (sheet : list (list cell)) : list import_row :=
  match sheet with
  | [] => []
  | header_row :: body =>
      let headers := (λ h, _normalize_header (str_of h)) <$> header_row in
      (λ values, canonical (dict_of (zip_with pair headers values)))
        <$> List.filter (λ values, negb (forallb blank_cell values)) body
  end.

Definition _parse_xlsx (workbook : list ascii → result (list (list cell))) (raw_bytes : list ascii) :
    result (list import_row) :=
  match workbook raw_bytes with Ok sheet => Ok (sheet_rows sheet) | Raise e => Raise e end.

Definition parse_import_file (workbook : list ascii → result (list (list cell)))
    (raw_bytes : list ascii) (kind : string) : result (list import_row) :=
  if MAX_IMPORT_BYTES <? Z.of_nat (List.length raw_bytes)
  then Raise (ValueError "File is too large")
  else
    match (if bool_decide (kind = "csv") then _parse_csv raw_bytes
           else if bool_decide (kind = "xlsx") then _parse_xlsx workbook raw_bytes
           else Raise (ValueError "Unsupported file kind")) with
    | Raise e => Raise e
    | Ok rows =>
        if MAX_IMPORT_ROWS <? Z.of_nat (List.length rows)
        then Raise (ValueError ("File has " +:+ pretty (Z.of_nat (List.length rows))
                     +:+ " rows -- the limit is 2000"))
        else Ok rows
    end.

(** A file with a byte order mark, a quoted field, an extra value, a blank
    line, and a short last record without a line end. *)
Definition demo_csv : list ascii :=
  map of_code [239; 187; 191] ++ chars "Grade Name,class-name" ++ map of_code [13; 10]
  ++ chars "Grade 7," ++ [of_code 34] ++ chars "7, A" ++ [of_code 34] ++ chars ",x"
  ++ map of_code [10; 10] ++ chars "Grade 8".

Example demo_csv_rows :
  (fmap (M := list) (λ row, (cell_of "grade_name" row, cell_of "class_name" row))) <$>
    match parse_import_file (λ _, Ok []) demo_csv "csv" with Ok rows => Some rows | _ => None end
  = Some [(CText "Grade 7", CText "7, A"); (CText "Grade 8", CNone)].
Proof. by vm_compute. Qed.

(** ** [float] of a text *)
Inductive py_float :=
  | FInfinity
  | FNaN
  | FDecimal (negative : bool) (mantissa exponent : Z).

(** Underscores stand between two digits. *)
Fixpoint drop_underscores (prev_digit : bool) (l : list ascii) : option (list ascii) :=
  match l with
  | [] => Some []
  | c :: l' =>
      if code c =? 95 then
        if prev_digit && match l' with d :: _ => is_digit d | [] => false end
        then drop_underscores false l' else None
      else cons c <$> drop_underscores (is_digit c) l'
  end.

Fixpoint span_digits (l : list ascii) : list ascii * list ascii :=
  match l with
  | c :: l' => if is_digit c then let '(d, r) := span_digits l' in (c :: d, r) else ([], l)
  | [] => ([], [])
  end.
Definition value_of (digits : list ascii) : Z := fold_left (λ n c, n * 10 + (code c - 48)) digits 0.

Definition take_sign (l : list ascii) : bool * list ascii :=
  match l with
  | c :: l' => if code c =? 45 then (true, l') else if code c =? 43 then (false, l') else (false, l)
  | [] => (false, [])
  end.

(** The exponent part, up to the end of the text. *)
Definition parse_exponent (l : list ascii) : option Z :=
  match l with
  | [] => Some 0
  | c :: l' =>
      if (code c =? 69) || (code c =? 101) then
        let '(neg, l'') := take_sign l' in
        let '(d, rest) := span_digits l'' in
        match d, rest with
        | _ :: _, [] => Some (if neg then - value_of d else value_of d)
        | _, _ => None
        end
      else None
  end.

Definition parse_float (s : string) : option py_float :=
  l ← drop_underscores false (strip_by is_space (chars s));
  let '(neg, body) := take_sign l in
  let word := str_lower (text body) in
  if bool_decide (word ∈ ["inf"; "infinity"]) then Some FInfinity
  else if bool_decide (word = "nan") then Some FNaN
  else
    let '(int_part, rest) := span_digits body in
    let '(frac, rest') := match rest with
                          | c :: r => if code c =? 46 then span_digits r else ([], rest)
                          | [] => ([], [])
                          end in
    if bool_decide (int_part ++ frac = []) then None
    else e ← parse_exponent rest';
         Some (FDecimal neg (value_of (int_part ++ frac)) (e - Z.of_nat (List.length frac))).

(** [int] of the binary64 nearest to [num / den], for positive numbers;
    [None] when it is infinite. Below 2^-1022 the value is truncated to 0
    whatever its precision. *)
Definition trunc_double (num den : Z) : option Z :=
  let k0 := Z.log2 num - Z.log2 den - 52 in
  let scaled k := if 0 <=? k then (num, den * 2 ^ k) else (num * 2 ^ (- k), den) in
  let k := if (scaled k0).1 <? (scaled k0).2 * 2 ^ 52 then k0 - 1 else k0 in
  let '(n, d) := scaled k in
  let q := n / d in
  let twice := 2 * (n mod d) in
  let m := if (d <? twice) || ((d =? twice) && Z.odd q) then q + 1 else q in
  if 0 <=? k then if 2 ^ 1024 <=? m * 2 ^ k then None else Some (m * 2 ^ k)
  else Some (m / 2 ^ (- k)).

Definition int_of_decimal (mantissa exponent : Z) : option Z :=
  if mantissa =? 0 then Some 0
  else if 400 <? exponent then None
  else if 0 <=? exponent then trunc_double (mantissa * 10 ^ exponent) 1
  else if Z.log2 mantissa <? - exponent then Some 0
  else trunc_double mantissa (10 ^ (- exponent)).

(** [repr] of a text: printable ASCII and the bytes of other characters as
    they are. *)
Definition hex_digit (n : Z) : ascii := if n <? 10 then of_code (48 + n) else of_code (87 + n).
Definition repr_char (quote c : ascii) : list ascii :=
  if (code c =? 92) || (code c =? code quote) then [of_code 92; c]
  else if code c =? 10 then chars "\n" else if code c =? 13 then chars "\r"
  else if code c =? 9 then chars "\t"
  else if (code c <? 32) || (code c =? 127)
  then chars "\x" ++ [hex_digit (code c / 16); hex_digit (code c mod 16)]
  else [c].
Definition repr (s : string) : string :=
  let has n := existsb (λ c, code c =? n) (chars s) in
  let quote := of_code (if has 39 && negb (has 34) then 34 else 39) in
  text (quote :: concat (map (repr_char quote) (chars s)) ++ [quote]).

(** ** [_parse_import_bool], [_parse_import_int] *)
Definition _parse_import_bool (value : cell) (default : bool) : bool :=
  let raw := str_strip (str_of value) in
  if bool_decide (raw = "") then default
  else bool_decide (str_lower raw ∈ ["true"; "1"; "yes"; "y"]).

(** The value, and the error it appends; an infinite number raises an
    [OverflowError], which the code does not catch. *)
Definition _parse_import_int (value : cell) (field_label : string) :
    result (option Z * list string) :=
  let raw := str_strip (str_of value) in
  let bad := Ok (None, [field_label +:+ " must be a whole number, got " +:+ repr raw]) in
  if bool_decide (raw = "") then Ok (None, [])
  else match parse_float raw with
       | None | Some FNaN => bad
       | Some FInfinity => Raise (TypeError "OverflowError: cannot convert float infinity to integer")
       | Some (FDecimal neg m e) =>
           match int_of_decimal m e with
           | Some n => Ok (Some (if neg then - n else n), [])
           | None => Raise (TypeError "OverflowError: cannot convert float infinity to integer")
           end
       end.

Definition import_ints (l : list string) : list (option (option Z * list string)) :=
  (λ s, match _parse_import_int (CText s) "n" with Ok r => Some r | Raise _ => None end) <$> l.

Example parse_import_int_runs :
  import_ints ["7"; " 7.9 "; "-7.9"; "1e3"; "1_000"; ".5"; "9007199254740993"; "2.9999999999999999"] =
    [Some (Some 7, []); Some (Some 7, []); Some (Some (-7), []); Some (Some 1000, []);
     Some (Some 1000, []); Some (Some 0, []); Some (Some 9007199254740992, []); Some (Some 3, [])]
  ∧ import_ints ["seven"; "nan"; ""; "inf"; "1e400"; "1__0"] =
    [Some (None, ["n must be a whole number, got 'seven'"]);
     Some (None, ["n must be a whole number, got 'nan'"]); Some (None, []); None; None;
     Some (None, ["n must be a whole number, got '1__0'"])].
Proof. split; by vm_compute. Qed.
