(* ===== verification/Reports.v ===== *)
(** * Reports

    [AnalyticsService] (src/app/domains/analytics/service.py) with the
    statements behind it ([TenantRepository.get_analytics_summary] and the
    school report) and the CSV export: [csv.writer] in the excel dialect,
    which [csv.reader] (ImportFile.v) reads back. *)
From Stdlib Require Import Ascii String.
From stdpp Require Import gmap.
From S2P Require Import Prelude PyText Authz Store AcademicRepo EventRepo Demo School World UserRepo ControlPlane Session Login Identify Caller Registration UserAdmin ImportFile.

(** ** The statements *)
Record summary_counts := {
  sc_students : Z; sc_classes : Z; sc_enrollments : Z; sc_events : Z }.
Definition no_counts : summary_counts :=
  {| sc_students := 0; sc_classes := 0; sc_enrollments := 0; sc_events := 0 |}.

Definition get_analytics_summary : DB summary_counts :=
  gets (λ s, {| sc_students := Z.of_nat (size (students s)); sc_classes := Z.of_nat (size (classes s));
                sc_enrollments := Z.of_nat (size (enrollments s)); sc_events := Z.of_nat (size (events s)) |}).

(** ORDER BY id DESC LIMIT 1 *)
Definition get_active_academic_year_name : DB (option string) :=
  gets (λ s, (λ kv, ye_name kv.2) <$> last (by_id (select (λ _ r, bool_decide (ye_status r = "active")) (academic_years s)))).

Record class_count := {
  cc_class : Z; cc_level : level_row; cc_name : string; cc_students : Z; cc_capacity : Z }.

Definition class_headcount (c : Z) (s : TenantDB) : Z :=
  Z.of_nat (List.length (select (λ _ r, bool_decide (st_class r = Some c)) (students s))).

Definition class_count_of (s : TenantDB) (kv : Z * class_row) : option class_count :=
  (λ l, {| cc_class := kv.1; cc_level := l; cc_name := cl_name kv.2; cc_students := class_headcount kv.1 s;
           cc_capacity := cl_capacity kv.2 |}) <$> levels s !! cl_level kv.2.

(** ORDER BY l.ordinal NULLS LAST, l.name, c.name *)
Definition ordinal_le (a b : option Z) : bool :=
  match a, b with Some x, Some y => x <=? y | _, None => true | None, Some _ => false end.
Definition count_le (a b : class_count) : Prop :=
  let la := cc_level a in let lb := cc_level b in
  (if bool_decide (lv_ordinal la = lv_ordinal lb) then
     if bool_decide (lv_name la = lv_name lb) then String.leb (cc_name a) (cc_name b)
     else String.leb (lv_name la) (lv_name lb)
   else ordinal_le (lv_ordinal la) (lv_ordinal lb)) = true.
#[export] Instance count_le_dec a b : Decision (count_le a b).
Proof. unfold count_le. apply _. Defined.

Definition get_enrollment_by_class : DB (list class_count) :=
  gets (λ s, merge_sort count_le (omap (class_count_of s) (map_to_list (classes s)))).

Record participation := {
  pt_event : Z; pt_title : string; pt_date : Z; pt_total : Z; pt_confirmed : Z; pt_rejected : Z }.

Definition enrollments_of_event (e : Z) (s : TenantDB) : list (Z * enrollment_row) :=
  select (λ _ en, match event_class_map s !! en_ecm en with Some m => ecm_event m =? e | None => false end) (enrollments s).
Definition count_states (states : list string) (l : list (Z * enrollment_row)) : Z :=
  Z.of_nat (List.length (List.filter (λ kv : Z * enrollment_row, bool_decide (en_state kv.2 ∈ states)) l)).

Definition participation_of (s : TenantDB) (kv : Z * event_row) : participation :=
  let l := enrollments_of_event kv.1 s in
  {| pt_event := kv.1; pt_title := ev_title kv.2; pt_date := ev_date kv.2; pt_total := Z.of_nat (List.length l);
     pt_confirmed := count_states ["approved_by_teacher"] l;
     pt_rejected := count_states ["rejected_by_parent"; "rejected_by_teacher"] l |}.

(** ORDER BY e.date DESC *)
Definition newer (a b : participation) : Prop := pt_date b ≤ pt_date a.
#[export] Instance newer_dec a b : Decision (newer a b).
Proof. unfold newer. apply _. Defined.

Definition get_event_participation_report : DB (list participation) :=
  gets (λ s, merge_sort newer (participation_of s <$>
    by_id (select (λ _ e, bool_decide (ev_status e = "published")) (events s)))).

(** GROUP BY status *)
Record payment_total := { py_status : string; py_count : Z; py_amount : Z }.
Definition total_of (s : TenantDB) (status : string) : payment_total :=
  let l := select (λ _ p, bool_decide (pm_status p = status)) (payments s) in
  {| py_status := status; py_count := Z.of_nat (List.length l); py_amount := foldr (λ kv n, pm_amount kv.2 + n) 0 l |}.
Definition get_payment_status_report : DB (list payment_total) :=
  gets (λ s, total_of s <$> remove_dups ((λ kv, pm_status kv.2) <$> map_to_list (payments s))).

(** ** The services *)
Record school_report := {
  rp_year : option string; rp_classes : list class_count; rp_events : list participation;
  rp_payments : list payment_total }.

Definition get_school_report (tenant_id : string) : CP school_report :=
  get_db_pool tenant_id ;;
  in_school tenant_id (
    active_year_name ← get_active_academic_year_name;
    enrollment_by_class ← get_enrollment_by_class;
    event_participation ← get_event_participation_report;
    payment_status ← get_payment_status_report;
    mret {| rp_year := active_year_name; rp_classes := enrollment_by_class; rp_events := event_participation;
            rp_payments := payment_status |}).

(** One school of the platform; a failure is an entry of its own. *)
Record tenant_summary := {
  ts_tenant : string; ts_name : string; ts_error : option string; ts_counts : summary_counts }.

Definition fetch_tenant_data (tenant : string * string) : CP tenant_summary :=
  try_except
    (counts ← with_school tenant.1 get_analytics_summary;
     mret {| ts_tenant := tenant.1; ts_name := tenant.2; ts_error := None; ts_counts := counts |})
    (λ exc, mret {| ts_tenant := tenant.1; ts_name := tenant.2; ts_error := Some (exn_text exc); ts_counts := no_counts |}).

Record platform_analytics := {
  pf_tenants : Z; pf_counts : summary_counts; pf_summaries : list tenant_summary }.

Definition add_counts (a b : summary_counts) : summary_counts :=
  {| sc_students := sc_students a + sc_students b; sc_classes := sc_classes a + sc_classes b;
     sc_enrollments := sc_enrollments a + sc_enrollments b; sc_events := sc_events a + sc_events b |}.

Definition get_platform_analytics (requesting_user_role : string) : CP platform_analytics :=
  guard_or (bool_decide (requesting_user_role = "super_admin"))
    (PermissionError "Only super_admins can access platform analytics") ;;
  known ← gets (λ w, map_to_list (tenants w));
  summaries ← map_each known fetch_tenant_data;
  mret {| pf_tenants := Z.of_nat (List.length known);
          pf_counts := fold_left add_counts (ts_counts <$> summaries) no_counts; pf_summaries := summaries |}.

(** ** The export *)
(** [csv.writer]: a field with a separator, a quote or a line break is
    quoted, its quotes are doubled; so is the only field of a record if it is
    empty. *)
Definition special (c : ascii) : bool :=
  (code c =? 34) || (code c =? 44) || (code c =? 10) || (code c =? 13).
Definition quote : ascii := of_code 34.
Definition comma : ascii := of_code 44.
Definition crlf : list ascii := [of_code 13; of_code 10].

Definition quoted_char (c : ascii) : list ascii := if code c =? 34 then [c; c] else [c].
Definition quoted (l : list ascii) : list ascii := quote :: (l ≫= quoted_char) ++ [quote].
Definition write_field (alone : bool) (field : string) : list ascii :=
  let l := chars field in
  if existsb special l || alone && bool_decide (l = []) then quoted l else l.

Fixpoint write_fields (alone : bool) (row : list string) : list ascii :=
  match row with
  | [] => []
  | [f] => write_field alone f
  | f :: row => write_field false f ++ comma :: write_fields false row
  end.
Definition writerow (row : list string) : list ascii := write_fields true row ++ crlf.
Definition csv_text (rows : list (list string)) : list ascii := rows ≫= writerow.

Definition report_header : list string := ["level_name"; "class_name"; "student_count"; "capacity"].
Definition report_row (c : class_count) : list string :=
  [lv_name (cc_level c); cc_name c; pretty (cc_students c); pretty (cc_capacity c)].

Definition get_school_report_csv (tenant_id : string) : CP (list ascii) :=
  rows ← with_school tenant_id get_enrollment_by_class;
  mret (csv_text (report_header :: (report_row <$> rows))).

(** ** The endpoints *)
(** GET /analytics/platform *)
Definition platform_endpoint (current_user : CurrentUser) : CP platform_analytics :=
  guard_or (bool_decide (cu_role current_user = "super_admin"))
    (HTTPException 403 "Only super_admins can view platform analytics") ;;
  try_except (get_platform_analytics (cu_role current_user)) (λ e, raise (admin_error (λ _, 500) e)).

(** GET /analytics/school-report, GET /analytics/school-report/export.csv;
    [require_permission] has run. *)
Definition school_report_endpoint (current_user : CurrentUser) : CP school_report :=
  try_except (tenant_id ← tenant_of current_user; get_school_report tenant_id)
    (λ e, raise (HTTPException 500 (exn_text e))).
Definition export_school_report_csv (current_user : CurrentUser) : CP (list ascii) :=
  try_except (tenant_id ← tenant_of current_user; get_school_report_csv tenant_id)
    (λ e, raise (HTTPException 500 (exn_text e))).



Abbreviation reading st field fields := {| cp_state := st; cp_field := field; cp_fields := fields |}.








(** ** The counts add up *)
Definition placed (s : TenantDB) (kv : Z * student_row) : bool :=
  match st_class kv.2 with
  | Some c => match classes s !! c with Some r => bool_decide (is_Some (levels s !! cl_level r)) | None => false end
  | None => false
  end.

Definition sum_students (l : list class_count) : Z := foldr (λ c n, cc_students c + n) 0 l.

Lemma sum_students_perm l l' : l ≡ₚ l' → sum_students l = sum_students l'.
Proof. induction 1; simpl; lia. Qed.

Lemma filter_disjoint {A} (f g : A → bool) l :
  (∀ x, f x = true → g x = false) →
  List.length (List.filter (λ x, f x || g x) l) = (List.length (List.filter f l) + List.length (List.filter g l))%nat.
Proof.
  intros H. induction l as [|x l IH]; [done|]. simpl. specialize (H x). destruct (f x); simpl.
  - rewrite H by done. simpl. by rewrite IH.
  - destruct (g x); simpl; rewrite IH; lia.
Qed.

(** The student sits in one of the classes [l]. *)
Definition sits_in (s : TenantDB) (l : list (Z * class_row)) (kv : Z * student_row) : bool :=
  existsb (λ c : Z * class_row, bool_decide (st_class kv.2 = Some c.1) && bool_decide (is_Some (levels s !! cl_level c.2))) l.

Lemma sum_counts s l :
  NoDup l.*1 → sum_students (omap (class_count_of s) l) =
  Z.of_nat (List.length (List.filter (sits_in s l) (map_to_list (students s)))).
Proof.
  induction l as [|[c r] l IH]; intros Hnd; [by induction (map_to_list (students s))|].
  apply NoDup_cons in Hnd as [Hc Hnd]. specialize (IH Hnd). csimpl.
  unfold class_count_of at 1. cbn [fst snd]. unfold sits_in. cbn [existsb fst snd].
  destruct (levels s !! cl_level r) as [lv|] eqn:Hl; cbn [fmap option_fmap option_map].
  - rewrite filter_disjoint.
    + cbn [sum_students foldr]. fold (sum_students (omap (class_count_of s) l)). rewrite IH. cbn [cc_students].
      unfold class_headcount, select, sits_in. rewrite Nat2Z.inj_add. f_equal. do 2 f_equal.
      apply filter_ext. intros [k st]. cbn. by rewrite andb_true_r.
    + intros [k st] Hk. cbn in *. apply andb_true_iff in Hk as [Hk%bool_decide_eq_true _].
      apply not_true_iff_false. rewrite existsb_exists. intros ([c' r'] & Hin & H).
      apply andb_true_iff in H as [H%bool_decide_eq_true _]. cbn in H. rewrite Hk in H. injection H as <-.
      apply Hc. apply list_elem_of_fmap. exists (c, r'). split; [done|]. by apply list_elem_of_In.
  - rewrite IH. do 2 f_equal. apply filter_ext. intros [k st]. cbn. by rewrite andb_false_r.
Qed.

Lemma sits_in_all s kv : sits_in s (map_to_list (classes s)) kv = placed s kv.
Proof.
  unfold sits_in, placed. destruct (st_class kv.2) as [c|]; [|by induction (map_to_list (classes s))].
  apply eq_true_iff_eq. rewrite existsb_exists. split.
  - intros ([c' r] & Hin%list_elem_of_In%elem_of_map_to_list & [H%bool_decide_eq_true Hl]%andb_true_iff).
    cbn in *. injection H as ->. by rewrite Hin.
  - destruct (classes s !! c) as [r|] eqn:Hr; [|done]. intros Hl. exists (c, r). split.
    + by apply list_elem_of_In, elem_of_map_to_list.
    + cbn. by rewrite bool_decide_eq_true_2.
Qed.

Lemma class_count_of_Some s kv c : class_count_of s kv = Some c → cc_class c = kv.1 ∧ cc_students c = class_headcount kv.1 s.
Proof. unfold class_count_of. by intros (l & _ & ->)%fmap_Some. Qed.

Lemma counted_once s l : NoDup l.*1 → NoDup (cc_class <$> omap (class_count_of s) l).
Proof.
  induction l as [|kv l IH]; csimpl; [by constructor|]. intros [Hk Hl]%NoDup_cons.
  destruct (class_count_of s kv) as [c|] eqn:Hc; csimpl; [|by apply IH]. constructor; [|by apply IH].
  apply class_count_of_Some in Hc as [-> _]. intros (c' & Heq & Hin)%list_elem_of_fmap.
  apply list_elem_of_omap in Hin as (kv' & Hin & [H _]%class_count_of_Some). apply Hk, list_elem_of_fmap.
  exists kv'. split; [congruence|done].
Qed.

Lemma decided_at_most_all (l : list (Z * enrollment_row)) :
  count_states ["approved_by_teacher"] l + count_states ["rejected_by_parent"; "rejected_by_teacher"] l ≤ Z.of_nat (List.length l).
Proof.
  unfold count_states. rewrite <-Nat2Z.inj_add, <-filter_disjoint.
  - apply Nat2Z.inj_le, List.filter_length_le.
  - intros [k r] H%bool_decide_eq_true%list_elem_of_singleton. cbn in *. rewrite H. by vm_compute.
Qed.

(** The school report adds up. Its head counts sum to the number of
    students who sit in a class of a level, each class is listed once with the
    students it has, and no trip confirms and rejects more enrollments than it
    has. *)
Theorem school_report_adds_up s :
  wp (get_enrollment_by_class) (λ rows s', s' = s ∧
      sum_students rows = Z.of_nat (List.length (List.filter (placed s) (map_to_list (students s)))) ∧
      NoDup (cc_class <$> rows) ∧ ∀ c, c ∈ rows → cc_students c = class_headcount (cc_class c) s) (λ _ _, False) s ∧
  wp (get_event_participation_report) (λ rows s', s' = s ∧
      ∀ p, p ∈ rows → 0 ≤ pt_confirmed p ∧ 0 ≤ pt_rejected p ∧ pt_confirmed p + pt_rejected p ≤ pt_total p) (λ _ _, False) s.
Proof.
  split.
  - unfold get_enrollment_by_class. wp_simpl. split; [done|].
    assert (merge_sort count_le (omap (class_count_of s) (map_to_list (classes s)))
      ≡ₚ omap (class_count_of s) (map_to_list (classes s))) as Hp by apply merge_sort_Permutation.
    split_and!.
    + rewrite (sum_students_perm _ _ Hp), sum_counts by apply NoDup_fst_map_to_list. do 2 f_equal.
      apply filter_ext. intros kv. apply sits_in_all.
    + rewrite Hp. apply counted_once, NoDup_fst_map_to_list.
    + intros c Hin. rewrite Hp in Hin. apply list_elem_of_omap in Hin as (kv & _ & [-> ->]%class_count_of_Some). done.
  - unfold get_event_participation_report. wp_simpl. split; [done|]. intros p Hin.
    rewrite merge_sort_Permutation in Hin. apply list_elem_of_fmap in Hin as ([k e] & -> & _). cbn.
    split_and!; [unfold count_states; lia..|apply decided_at_most_all].
Qed.


#[export] Instance count_le_total : Total count_le.
Proof.
  intros a b. unfold count_le. rewrite (bool_decide_ext (lv_ordinal (cc_level b) = _) (lv_ordinal (cc_level a) = lv_ordinal (cc_level b))) by done.
  rewrite (bool_decide_ext (lv_name (cc_level b) = _) (lv_name (cc_level a) = lv_name (cc_level b))) by done.
  case_bool_decide as Ho; [case_bool_decide; apply String.leb_total|].
  destruct (lv_ordinal (cc_level a)) as [x|], (lv_ordinal (cc_level b)) as [y|]; cbn; auto.
  destruct (Z.le_ge_cases x y); [left|right]; by apply Z.leb_le.
Qed.




(** A platform report has one entry per school, failed ones included, and its
    totals are the sums of the entries. *)
Lemma fetch_answers t w : wp (fetch_tenant_data t) (λ r _, ts_tenant r = t.1 ∧ ts_name r = t.2) (λ _ _, False) w.
Proof.
  unfold fetch_tenant_data. rewrite wp_try_except, wp_bind. unfold wp at 1.
  by destruct (with_school t.1 get_analytics_summary w) as [[c|e] w'].
Qed.

Theorem platform_lists_every_school w :
  wp (get_platform_analytics "super_admin")
    (λ a _, (λ r, (ts_tenant r, ts_name r)) <$> pf_summaries a = map_to_list (tenants w) ∧
       pf_tenants a = Z.of_nat (size (tenants w)) ∧
       pf_counts a = fold_left add_counts (ts_counts <$> pf_summaries a) no_counts)
    (λ _ _, False) w.
Proof.
  unfold get_platform_analytics. rewrite bool_decide_eq_true_2 by done. wp_simpl.
  apply (wp_mono _ (λ l _, (λ r, (ts_tenant r, ts_name r)) <$> l = map_to_list (tenants w)) _ (λ _ _, False)); [| |done].
  - generalize (map_to_list (tenants w)) as l. generalize w. clear w. intros w l. revert w.
    induction l as [|[t n] l IH]; intros w; [done|]. cbn [map_each]. rewrite wp_bind.
    eapply wp_mono; [apply fetch_answers| |done]. intros r w' [Ht Hn]. rewrite wp_bind.
    eapply wp_mono; [apply IH| |done]. intros rs w2 Hrs. rewrite wp_ret. cbn in *. by rewrite Ht, Hn, Hrs.
  - intros l w' Hl. wp_simpl. split; [exact Hl|]. split; [|done].
    by rewrite <-length_map_to_list.
Qed.


Example a_quoted_export :
  csv_text [["a,b"; "he said " +:+ text [quote] +:+ "hi" +:+ text [quote]]; [""]; []]
  = chars (text [quote] +:+ "a,b" +:+ text [quote; comma; quote] +:+ "he said " +:+ text [quote; quote] +:+ "hi"
           +:+ text [quote; quote; quote] +:+ text crlf +:+ text [quote; quote] +:+ text crlf +:+ text crlf).
Proof. vm_compute. reflexivity. Qed.
