(* ===== verification/Import.v ===== *)
(** * The import of grades and classes

    [preview_structure_import] and [commit_structure_import] of
    [TenantService], with [_plan_new_grade_ordinals], [_resolve_import_row],
    [preview_import_rows] and [import_academic_rows] of [TenantRepository]
    (src/app/domains/tenant/), on the rows of ImportFile. *)
From S2P Require Import Prelude PyText Authz Store AcademicRepo AcademicDelete AcademicSvc Demo ImportFile.

(** [row.get(column) or ""] followed by [.strip()]: a cell that is neither
    absent, a text, nor falsy has no such method. *)
Definition strip_cell (c : cell) : result string :=
  match c with
  | CNone => Ok ""
  | CText s => Ok (str_strip s)
  | COther false _ => Ok ""
  | COther true _ => Raise (TypeError "AttributeError: no attribute 'strip'")
  end.
Definition of_result {A} (r : result A) : DB A :=
  match r with Ok a => mret a | Raise e => raise e end.

(** ** Ordinals of new grades *)
(** [MAX(column)]: NULLs do not count. *)
Fixpoint sql_max (l : list (option Z)) : option Z :=
  match l with
  | [] => None
  | o :: l' => match o, sql_max l' with
               | Some x, Some y => Some (Z.max x y)
               | Some x, None => Some x
               | None, m => m
               end
  end.
Definition max_ordinal (s : TenantDB) : Z :=
  or_default (sql_max ((λ kv : Z * level_row, lv_ordinal kv.2) <$> map_to_list (levels s))) 0.

Definition plan_has (g : string) (plan : list (string * Z)) : bool := bool_decide (g ∈ plan.*1).

Fixpoint plan_names (existing : list string) (next_ordinal : Z) (plan : list (string * Z))
    (names : list string) : list (string * Z) :=
  match names with
  | [] => plan
  | g :: names' =>
      if bool_decide (g = "") || bool_decide (str_lower g ∈ existing) || plan_has g plan
      then plan_names existing next_ordinal plan names'
      else plan_names existing (next_ordinal + 1) (plan ++ [(g, next_ordinal + 1)]) names'
  end.

Definition _plan_new_grade_ordinals (rows : list import_row) : DB (list (string * Z)) :=
  m ← gets max_ordinal;
  lvls ← get_all_levels;
  let existing := (λ kv : Z * level_row, str_lower (str_strip (lv_name kv.2))) <$> lvls in
  names ← map_each rows (λ row, of_result (strip_cell (cell_of "grade_name" row)));
  mret (plan_names existing m [] names).

(** ** One row *)
Record row_result := {
  rr_row_number : Z; rr_grade_name : string; rr_class_name : option string;
  rr_action : string; rr_status : string; rr_errors : list string; rr_warnings : list string }.

#[export] Instance row_result_eta : Settable row_result := λ r,
  {| rr_row_number := rr_row_number r; rr_grade_name := rr_grade_name r;
     rr_class_name := rr_class_name r; rr_action := rr_action r; rr_status := rr_status r;
     rr_errors := rr_errors r; rr_warnings := rr_warnings r |}.

Definition get_teacher_by_email (email : string) : DB (option Z) :=
  t ← gets teachers;
  u ← gets users;
  mret (fst <$> head (select (λ tid _, match u !! tid with
    | Some r => bool_decide (str_upper (us_email r) = str_upper (str_strip email))
    | None => false end) t)).

(** The values of a row once its cells are parsed. *)
Record parsed_row := {
  pr_grade : string; pr_class : option string; pr_isced : option Z; pr_age_min : option Z;
  pr_age_max : option Z; pr_ordinal : option Z; pr_grade_active : bool;
  pr_capacity : option Z; pr_class_active : bool; pr_teacher : update (option Z);
  pr_action : string; pr_errors : list string; pr_warnings : list string }.

Definition parse_int (row : import_row) (column : string) : DB (option Z * list string) :=
  of_result (_parse_import_int (cell_of column row) column).

Definition no_teacher (email : string) : string :=
  "No teacher found for head_teacher_email " +:+ repr email
  +:+ " -- class will have no head teacher".

(** The reads: shared by the preview and the commit. *)
Definition parse_row (row : import_row) (ordinal_plan : list (string * Z)) (grade_name : string)
    (class_name : option string) : DB parsed_row :=
  isced ← parse_int row "grade_isced_level";
  age_min ← parse_int row "grade_age_min";
  age_max ← parse_int row "grade_age_max";
  ordinal ← parse_int row "grade_ordinal";
  let errors := isced.2 ++ age_min.2 ++ age_max.2 ++ ordinal.2 in
  let active := _parse_import_bool (cell_of "grade_active" row) true in
  existing_level ← get_level_by_name grade_name;
  let grade_action := match existing_level with Some _ => "update_grade" | None => "create_grade" end in
  let grade_ordinal := match ordinal.1, existing_level with
                       | None, None => dict_get grade_name ordinal_plan
                       | o, _ => o
                       end in
  match class_name with
  | None =>
      mret {| pr_grade := grade_name; pr_class := None; pr_isced := isced.1; pr_age_min := age_min.1;
              pr_age_max := age_max.1; pr_ordinal := grade_ordinal; pr_grade_active := active;
              pr_capacity := None; pr_class_active := true; pr_teacher := UNSET;
              pr_action := grade_action; pr_errors := errors; pr_warnings := [] |}
  | Some cname =>
      capacity ← parse_int row "class_capacity";
      email ← of_result (strip_cell (cell_of "head_teacher_email" row));
      teacher ← (if bool_decide (email = "") then mret None
                 else t ← get_teacher_by_email email; mret (Some t));
      existing_class ← (match existing_level with
                        | Some (lid, _) => get_class_by_name_and_level cname lid None
                        | None => mret None
                        end);
      mret {| pr_grade := grade_name; pr_class := Some cname; pr_isced := isced.1;
              pr_age_min := age_min.1; pr_age_max := age_max.1; pr_ordinal := grade_ordinal;
              pr_grade_active := active; pr_capacity := capacity.1;
              pr_class_active := _parse_import_bool (cell_of "class_active" row) true;
              pr_teacher := match teacher with Some (Some t) => Set_to (Some t) | _ => UNSET end;
              pr_action := grade_action +:+ "+" +:+
                match existing_class with Some _ => "update_class" | None => "create_class" end;
              pr_errors := errors ++ capacity.2;
              pr_warnings := match teacher with Some None => [no_teacher email] | _ => [] end |}
  end.

(** The writes of a valid row. *)
Definition apply_row (p : parsed_row) : DB unit :=
  l ← upsert_level_by_name (pr_grade p) (pr_isced p) (pr_age_min p) (pr_age_max p) (pr_ordinal p)
        (pr_grade_active p);
  match pr_class p with
  | None => mret tt
  | Some cname =>
      upsert_class_by_name_and_level cname l.1 (pr_teacher p) (pr_capacity p) (pr_class_active p) None ;;
      mret tt
  end.

Definition skipped (n : Z) (p : parsed_row) (errors : list string) : row_result :=
  {| rr_row_number := n; rr_grade_name := pr_grade p; rr_class_name := pr_class p;
     rr_action := "skipped"; rr_status := "error"; rr_errors := errors;
     rr_warnings := pr_warnings p |}.
Definition accepted (n : Z) (p : parsed_row) : row_result :=
  {| rr_row_number := n; rr_grade_name := pr_grade p; rr_class_name := pr_class p;
     rr_action := pr_action p; rr_status := "valid"; rr_errors := []; rr_warnings := pr_warnings p |}.
Definition nameless (n : Z) (class_name : option string) : row_result :=
  {| rr_row_number := n; rr_grade_name := ""; rr_class_name := class_name; rr_action := "skipped";
     rr_status := "error"; rr_errors := ["grade_name is required"]; rr_warnings := [] |}.

Definition non_empty (s : string) : option string := if bool_decide (s = "") then None else Some s.

Definition _resolve_import_row (ordinal_plan : list (string * Z)) (apply : bool)
    (numbered : Z * import_row) : DB row_result :=
  let '(n, row) := numbered in
  grade_name ← of_result (strip_cell (cell_of "grade_name" row));
  class ← of_result (strip_cell (cell_of "class_name" row));
  let class_name := non_empty class in
  if bool_decide (grade_name = "") then mret (nameless n class_name)
  else
    p ← parse_row row ordinal_plan grade_name class_name;
    if negb (bool_decide (pr_errors p = [])) then mret (skipped n p (pr_errors p))
    else if negb apply then mret (accepted n p)
    else
      try_except (apply_row p ;; mret (accepted n p))
        (λ e, match e with ValueError msg => mret (skipped n p [msg]) | _ => raise e end).

(** [enumerate(rows, start=2)] *)
Fixpoint enumerate (start : Z) (rows : list import_row) : list (Z * import_row) :=
  match rows with [] => [] | r :: rows' => (start, r) :: enumerate (start + 1) rows' end.

Definition is_valid (r : row_result) : bool := bool_decide (rr_status r = "valid").
Definition count_rows (P : row_result → bool) (l : list row_result) : Z :=
  Z.of_nat (List.length (List.filter P l)).

(** ** Files *)
Record import_preview := {
  ip_total_rows : Z; ip_valid_rows : Z; ip_error_rows : Z; ip_rows : list row_result }.

Definition preview_import_rows (rows : list import_row) : DB import_preview :=
  plan ← _plan_new_grade_ordinals rows;
  results ← map_each (enumerate 2 rows) (_resolve_import_row plan false);
  let valid := count_rows is_valid results in
  let total := Z.of_nat (List.length results) in
  mret {| ip_total_rows := total; ip_valid_rows := valid; ip_error_rows := total - valid;
          ip_rows := results |}.

Record import_report := {
  ir_total_rows : Z; ir_applied_rows : Z; ir_skipped_rows : Z; ir_created_grades : Z;
  ir_updated_grades : Z; ir_created_classes : Z; ir_updated_classes : Z;
  ir_row_results : list row_result }.

Definition action_starts (p : string) (r : row_result) : bool := is_prefix (chars p) (chars (rr_action r)).
Definition action_ends (p : string) (r : row_result) : bool := ends_with p (rr_action r).

Definition import_academic_rows (rows : list import_row) : DB import_report :=
  plan ← _plan_new_grade_ordinals rows;
  results ← map_each (enumerate 2 rows) (_resolve_import_row plan true);
  let applied := List.filter is_valid results in
  let total := Z.of_nat (List.length results) in
  mret {| ir_total_rows := total; ir_applied_rows := Z.of_nat (List.length applied);
          ir_skipped_rows := total - Z.of_nat (List.length applied);
          ir_created_grades := count_rows (action_starts "create_grade") applied;
          ir_updated_grades := count_rows (action_starts "update_grade") applied;
          ir_created_classes := count_rows (action_ends "create_class") applied;
          ir_updated_classes := count_rows (action_ends "update_class") applied;
          ir_row_results := results |}.

Definition _IMPORT_PERMISSIONS : list string :=
  ["school_admin"; "super_admin"; "admin"; "level:create"; "level:manage"; "class:create";
   "school:write"].

(** The answer carries the file's name. The two requests differ in the last step; [workbook] reads an XLSX file. *)
Section import.
Context (workbook : list Ascii.ascii → result (list (list cell))).

Definition uploaded_rows (filename : string) (content_type : option string)
    (raw_bytes : list Ascii.ascii) (user_role : role_arg) : DB (list import_row) :=
  gate user_role _IMPORT_PERMISSIONS "Insufficient permissions to import academic structure." ;;
  kind ← of_result (detect_file_kind filename content_type);
  of_result (parse_import_file workbook raw_bytes kind).

Definition preview_structure_import (filename : string) (content_type : option string)
    (raw_bytes : list Ascii.ascii) (user_role : role_arg) : DB (string * import_preview) :=
  rows ← uploaded_rows filename content_type raw_bytes user_role;
  result ← preview_import_rows rows;
  mret (filename, result).

Definition commit_structure_import (filename : string) (content_type : option string)
    (raw_bytes : list Ascii.ascii) (user_role : role_arg) : DB (string * import_report) :=
  rows ← uploaded_rows filename content_type raw_bytes user_role;
  result ← import_academic_rows rows;
  mret (filename, result).
End import.

(** ** Ordinals *)
Lemma plan_names_spec existing names m plan :
  NoDup plan.*1 →
  ∃ new, plan_names existing m plan names = plan ++ new ∧
    new.*2 = seqZ (m + 1) (Z.of_nat (List.length new)) ∧ NoDup (plan ++ new).*1 ∧
    (∀ g n, (g, n) ∈ new → g ≠ "" ∧ (str_lower g ∉ existing) ∧ g ∈ names) ∧
    (∀ g, g ∈ names → g = "" ∨ str_lower g ∈ existing ∨ g ∈ (plan ++ new).*1).
Proof.
  revert m plan. induction names as [|g names IH]; intros m plan Hnd; cbn [plan_names].
  { exists []. rewrite app_nil_r. split; [done|]. split; [done|]. split; [done|].
    split; intros ?; [|set_solver]. intros n. set_solver. }
  unfold plan_has. destruct (bool_decide (g = "") || _ || _) eqn:Hc.
  - destruct (IH m plan Hnd) as (new & -> & H1 & H2 & H3 & H4). exists new.
    split; [done|]. split; [done|]. split; [done|]. split.
    + intros x n Hx. destruct (H3 x n Hx) as (? & ? & ?). split; [done|]. split; [done|]. by right.
    + intros x [->|Hx]%elem_of_cons; [|by apply H4].
      rewrite !orb_true_iff, !bool_decide_eq_true in Hc. rewrite fmap_app, elem_of_app. tauto.
  - rewrite !orb_false_iff, !bool_decide_eq_false in Hc. destruct Hc as [[Hg He] Hp].
    destruct (IH (m + 1) (plan ++ [(g, m + 1)])) as (new & -> & H1 & H2 & H3 & H4).
    { rewrite fmap_app. apply NoDup_app. split; [done|]. split; [|apply NoDup_singleton].
      intros x Hx Hin. cbn in Hin. apply list_elem_of_singleton in Hin. by subst. }
    exists ((g, m + 1) :: new). rewrite <-!app_assoc in *. cbn [app] in *.
    split; [done|]. split; [|split; [done|split]].
    + replace (Z.of_nat (List.length ((g, m + 1) :: new))) with (Z.succ (Z.of_nat (List.length new)))
        by (cbn; lia).
      rewrite seqZ_cons, Z.pred_succ by lia. cbn. by rewrite H1.
    + intros x n [[= -> ->]|Hx]%elem_of_cons; [split; [done|]; split; [done|by left]|].
      destruct (H3 x n Hx) as (? & ? & ?). split; [done|]. split; [done|]. by right.
    + intros x [->|Hx]%elem_of_cons; [|by apply H4].
      right. right. rewrite fmap_app, elem_of_app. right. by left.
Qed.

Lemma sql_max_ge l o : Some o ∈ l → ∃ m, sql_max l = Some m ∧ o ≤ m.
Proof.
  induction l as [|x l IH]; [by intros ?%elem_of_nil|]. cbn.
  intros [<-|Hin]%elem_of_cons.
  - destruct (sql_max l); eexists; (split; [done|lia]).
  - destruct (IH Hin) as (m & -> & Hm). destruct x; eexists; (split; [done|lia]).
Qed.

Lemma max_ordinal_ge s k r o :
  levels s !! k = Some r → lv_ordinal r = Some o → o ≤ max_ordinal s.
Proof.
  intros Hk Ho. unfold max_ordinal.
  destruct (sql_max_ge ((λ kv : Z * level_row, lv_ordinal kv.2) <$> map_to_list (levels s)) o)
    as (m & -> & Hm).
  - apply list_elem_of_fmap. exists (k, r). split; [done|]. by apply elem_of_map_to_list.
  - cbn. destruct (Z.eqb_spec m 0); lia.
Qed.

(** ** The reads change nothing *)
Lemma of_result_readonly {A} (r : result A) : readonly (of_result r).
Proof. intros s. unfold of_result. case_match; auto with pres. Qed.

Lemma plan_readonly rows : readonly (_plan_new_grade_ordinals rows).
Proof.
  intros s. unfold _plan_new_grade_ordinals, get_all_levels. preserve. apply of_result_readonly.
Qed.

Lemma parse_row_readonly row plan g c : readonly (parse_row row plan g c).
Proof.
  intros s. unfold parse_row, parse_int, get_level_by_name, get_teacher_by_email,
    get_class_by_name_and_level, resolve_year, get_active_academic_year_id.
  preserve; apply of_result_readonly.
Qed.

Lemma preview_row_readonly plan nr : readonly (_resolve_import_row plan false nr).
Proof.
  intros s. unfold _resolve_import_row. destruct nr as [n row]. cbn [negb]. preserve;
    first [apply of_result_readonly | apply parse_row_readonly].
Qed.

(** ** The writes only add and update *)
Record grown (s0 s : TenantDB) : Prop := {
  gw_frame : s = s0 <| levels := levels s |> <| classes := classes s |> <| nextid := nextid s |>;
  gw_levels : ∀ k r, levels s0 !! k = Some r → ∃ r', levels s !! k = Some r' ∧
    str_lower (lv_name r') = str_lower (lv_name r);
  gw_classes : ∀ k r, classes s0 !! k = Some r → ∃ r', classes s !! k = Some r' ∧
    str_lower (cl_name r') = str_lower (cl_name r) ∧ cl_level r' = cl_level r ∧
    cl_year r' = cl_year r;
}.

Lemma grown_refl s : grown s s.
Proof. split; [by destruct s|eauto|]. intros k r Hr. by exists r. Qed.

Lemma grown_trans s1 s2 s3 : grown s1 s2 → grown s2 s3 → grown s1 s3.
Proof.
  intros [F1 L1 C1] [F2 L2 C2]. split.
  - rewrite F2, F1. done.
  - intros k r Hr. destruct (L1 k r Hr) as (r1 & Hr1 & E1). destruct (L2 k r1 Hr1) as (r2 & Hr2 & E2).
    exists r2. split; [done|]. congruence.
  - intros k r Hr. destruct (C1 k r Hr) as (r1 & Hr1 & E1 & E1' & E1'').
    destruct (C2 k r1 Hr1) as (r2 & Hr2 & E2 & E2' & E2''). exists r2. split; [done|].
    split; [|split]; congruence.
Qed.

Lemma grown_level s k row :
  (∀ r, levels s !! k = Some r → str_lower (lv_name row) = str_lower (lv_name r)) →
  grown s (s <| levels ::= <[k := row]> |>).
Proof.
  intros Hk. split; [by destruct s| |intros j r Hr; by exists r].
  intros j r Hr. cbn. destruct (decide (j = k)) as [->|Hj].
  - exists row. rewrite lookup_insert_eq. auto.
  - exists r. by rewrite lookup_insert_ne.
Qed.

Lemma grown_class s k row :
  (∀ r, classes s !! k = Some r → str_lower (cl_name row) = str_lower (cl_name r) ∧
     cl_level row = cl_level r ∧ cl_year row = cl_year r) →
  grown s (s <| classes ::= <[k := row]> |>).
Proof.
  intros Hk. split; [by destruct s|intros j r Hr; by exists r|].
  intros j r Hr. cbn. destruct (decide (j = k)) as [->|Hj].
  - exists row. rewrite lookup_insert_eq. auto.
  - exists r. by rewrite lookup_insert_ne.
Qed.

Lemma grown_nextid s n : grown s (s <| nextid := n |>).
Proof. split; [by destruct s| |]; intros k r Hr; by exists r. Qed.

(** A fresh serial key names no row. *)
Definition fresh_ids (s : TenantDB) : Prop :=
  ids_below (nextid s) (levels s) ∧ ids_below (nextid s) (classes s).

Definition growing (s0 s : TenantDB) : Prop := grown s0 s ∧ fresh_ids s.

Lemma growing_level s0 s k row :
  growing s0 s →
  (∀ r, levels s !! k = Some r → str_lower (lv_name row) = str_lower (lv_name r)) →
  k < nextid s → growing s0 (s <| levels ::= <[k := row]> |>).
Proof.
  intros [Hg [Hl Hc]] Hk Hn. split; [eapply grown_trans; [exact Hg|by apply grown_level]|].
  split; [|exact Hc]. by apply ids_below_insert.
Qed.

Lemma growing_class s0 s k row :
  growing s0 s →
  (∀ r, classes s !! k = Some r → str_lower (cl_name row) = str_lower (cl_name r) ∧
     cl_level row = cl_level r ∧ cl_year row = cl_year r) →
  k < nextid s → growing s0 (s <| classes ::= <[k := row]> |>).
Proof.
  intros [Hg [Hl Hc]] Hk Hn. split; [eapply grown_trans; [exact Hg|by apply grown_class]|].
  split; [exact Hl|]. by apply ids_below_insert.
Qed.

(** An insertion under the next serial key. *)
Lemma growing_fresh_level s0 s row :
  growing s0 s → growing s0 (s <| levels ::= <[nextid s := row]> |> <| nextid := nextid s + 1 |>).
Proof.
  intros [Hg [Hl Hc]]. split.
  - eapply grown_trans; [exact Hg|].
    eapply grown_trans; [apply (grown_level s (nextid s) row)|apply grown_nextid].
    intros r Hr. by rewrite (ids_below_fresh _ _ Hl) in Hr.
  - split; cbn; [apply ids_below_insert; [|lia]|]; eapply ids_below_mono; (eassumption || lia).
Qed.

Lemma growing_fresh_class s0 s row :
  growing s0 s → growing s0 (s <| classes ::= <[nextid s := row]> |> <| nextid := nextid s + 1 |>).
Proof.
  intros [Hg [Hl Hc]]. split.
  - eapply grown_trans; [exact Hg|].
    eapply grown_trans; [apply (grown_class s (nextid s) row)|apply grown_nextid].
    intros r Hr. by rewrite (ids_below_fresh _ _ Hc) in Hr.
  - split; cbn; [|apply ids_below_insert; [|lia]]; eapply ids_below_mono; (eassumption || lia).
Qed.

Lemma select_head {R} (P : Z → R → bool) (t : gmap Z R) k r :
  head (select P t) = Some (k, r) → t !! k = Some r ∧ P k r = true.
Proof. intros H. by apply head_elem, elem_of_select in H. Qed.

Lemma upsert_level_growing s0 name i a b o active :
  preserves (growing s0) (upsert_level_by_name name i a b o active).
Proof.
  intros s Hs. unfold upsert_level_by_name, get_level_by_name. wp_simpl.
  destruct (head _) as [[k r]|] eqn:Hh.
  - apply select_head in Hh as [Hk Hn]. apply bool_decide_eq_true in Hn.
    unfold AcademicRepo.update_level, get_level_by_id, check_int4, check. wp_simpl. rewrite Hk. cbn. wp_simpl.
    case_match; [|done]. apply growing_level; [done| |].
    + intros r' Hr'. cbn. rewrite Hk in Hr'. injection Hr' as <-. by rewrite Hn.
    + destruct Hs as [_ [Hl _]]. apply Hl. by rewrite Hk.
  - unfold AcademicRepo.create_level, check_int4, check, insert_serial. wp_simpl.
    case_match; [|done]. by apply growing_fresh_level.
Qed.

Lemma check_class_readonly id r : readonly (check_class id r).
Proof. intros s. unfold check_class. preserve. Qed.
Lemma check_class_growing s0 id r : preserves (growing s0) (check_class id r).
Proof. unfold check_class. preserve. Qed.

Lemma upsert_class_growing s0 name lid h c active y :
  preserves (growing s0) (upsert_class_by_name_and_level name lid h c active y).
Proof.
  intros s Hs. unfold upsert_class_by_name_and_level. rewrite wp_bind.
  apply wp_readonly; [unfold resolve_year, get_active_academic_year_id; intros s1; preserve| |done].
  intros ay. wp_simpl. destruct ay as [ay|]; [|done]. wp_simpl.
  unfold get_class_by_name_and_level. wp_simpl.
  apply wp_readonly; [unfold resolve_year, get_active_academic_year_id; intros s1; preserve| |done].
  intros ay_id. wp_simpl. destruct (head _) as [[k r]|] eqn:Hh.
  - apply select_head in Hh as [Hk Hn]. rewrite !andb_true_iff, bool_decide_eq_true, Z.eqb_eq in Hn.
    destruct Hn as [[Hn Hl] _].
    unfold AcademicRepo.update_class, get_class_by_id. wp_simpl. rewrite Hk. cbn. wp_simpl.
    eapply wp_mono; [apply wp_conj; [by apply check_class_growing|by apply (check_class_readonly _ _ s)]| |].
    + intros _ s' [_ ->]. wp_simpl. apply growing_class; [done| |].
      * intros r' Hr'. cbn. rewrite Hk in Hr'. injection Hr' as <-. by rewrite Hn.
      * destruct Hs as [_ [_ Hc]]. apply Hc. by rewrite Hk.
    + by intros e s' [? _].
  - unfold AcademicRepo.create_class, insert_serial. wp_simpl.
    apply wp_readonly; [unfold resolve_year, get_active_academic_year_id; intros s1; preserve| |done].
    intros y'. wp_simpl. destruct y' as [y'|]; [|done]. wp_simpl.
    eapply wp_mono; [apply wp_conj; [by apply check_class_growing|by apply (check_class_readonly _ _ s)]| |].
    + intros _ s' [_ ->]. wp_simpl. by apply growing_fresh_class.
    + by intros e s' [? _].
Qed.

Lemma apply_row_growing s0 p : preserves (growing s0) (apply_row p).
Proof.
  unfold apply_row. apply preserves_bind; [apply upsert_level_growing|intros l].
  destruct (pr_class p); [|apply preserves_ret].
  apply preserves_bind; [apply upsert_class_growing|intros ?; apply preserves_ret].
Qed.

Lemma readonly_preserves {A} (I : TenantDB → Prop) (m : DB A) : readonly m → preserves I m.
Proof. intros Hm s Hs. by apply wp_readonly. Qed.

Lemma import_row_growing s0 plan nr : preserves (growing s0) (_resolve_import_row plan true nr).
Proof.
  unfold _resolve_import_row. destruct nr as [n row].
  apply preserves_bind; [apply readonly_preserves, of_result_readonly|intros g].
  apply preserves_bind; [apply readonly_preserves, of_result_readonly|intros c].
  apply preserves_if; [apply preserves_ret|].
  apply preserves_bind; [apply readonly_preserves, parse_row_readonly|intros q].
  apply preserves_if; [apply preserves_ret|]. apply preserves_if; [apply preserves_ret|].
  apply preserves_try_except; [|intros []; auto with pres].
  apply preserves_bind; [apply apply_row_growing|intros _; apply preserves_ret].
Qed.

Lemma import_rows_growing s0 rows : preserves (growing s0) (import_academic_rows rows).
Proof.
  unfold import_academic_rows. apply preserves_bind; [apply readonly_preserves, plan_readonly|].
  intros plan. apply preserves_bind; [|intros ?; apply preserves_ret].
  apply preserves_map_each. intros nr _. apply import_row_growing.
Qed.

(** ** What a report says *)
Definition ACTIONS : list string :=
  ["create_grade"; "update_grade"; "create_grade+create_class"; "create_grade+update_class";
   "update_grade+create_class"; "update_grade+update_class"].

Lemma wp_parse_row row plan g c s :
  wp (parse_row row plan g c)
    (λ p s', s' = s ∧ pr_grade p = g ∧ pr_class p = c ∧ pr_action p ∈ ACTIONS) (λ _ s', s' = s) s.
Proof.
  assert (wp (parse_row row plan g c)
    (λ p _, pr_grade p = g ∧ pr_class p = c ∧ pr_action p ∈ ACTIONS) (λ _ _, True) s) as H.
  { unfold parse_row, parse_int, get_level_by_name. wp_simpl.
    do 4 (apply wp_readonly; [apply of_result_readonly| |done]; intros ?; wp_simpl).
    set (ga := match head _ with Some _ => "update_grade" | None => "create_grade" end).
    assert (ga ∈ ["create_grade"; "update_grade"]) as Hga by (unfold ga; case_match; set_solver).
    destruct c as [cname|]; wp_simpl.
    - apply wp_readonly; [apply of_result_readonly| |done]. intros cap. wp_simpl.
      apply wp_readonly; [apply of_result_readonly| |done]. intros email. wp_simpl.
      apply wp_readonly; [intros s1; unfold get_teacher_by_email; preserve| |done]. intros t. wp_simpl.
      apply wp_readonly; [intros s1; unfold get_class_by_name_and_level, resolve_year,
        get_active_academic_year_id; preserve| |done]. intros ec. wp_simpl. cbn.
      split; [done|]. split; [done|]. unfold ACTIONS.
      repeat (apply elem_of_cons in Hga as [->|Hga]; [destruct ec; cbn; set_solver|]).
      by apply elem_of_nil in Hga.
    - cbn. split; [done|]. split; [done|]. unfold ACTIONS. set_solver. }
  eapply wp_mono; [apply wp_conj; [exact (parse_row_readonly row plan g c s s eq_refl)|exact H]| |].
  - by intros p s' [-> ?].
  - by intros e s' [-> _].
Qed.

(** What the report says of one row. *)
Definition reports (nr : Z * import_row) (r : row_result) : Prop :=
  rr_row_number r = nr.1 ∧ (is_valid r = true → rr_action r ∈ ACTIONS ∧ rr_errors r = []) ∧
  (is_valid r = false → rr_action r = "skipped" ∧ rr_errors r ≠ []).

Lemma reports_accepted nr p : pr_action p ∈ ACTIONS → reports nr (accepted nr.1 p).
Proof. intros H. split; [done|]. split; intros Hv; [done|discriminate Hv]. Qed.
Lemma reports_skipped nr p l : l ≠ [] → reports nr (skipped nr.1 p l).
Proof. intros H. split; [done|]. split; intros Hv; [discriminate Hv|done]. Qed.

Lemma wp_import_row plan nr apply_ s :
  wp (_resolve_import_row plan apply_ nr) (λ r _, reports nr r) (λ _ _, True) s.
Proof.
  unfold _resolve_import_row. destruct nr as [n row]. wp_simpl.
  apply wp_readonly; [apply of_result_readonly| |done]. intros g. wp_simpl.
  apply wp_readonly; [apply of_result_readonly| |done]. intros c. wp_simpl.
  case_bool_decide; [by split|]. wp_simpl.
  eapply wp_mono; [apply wp_parse_row| |done]. intros p s1 (-> & _ & _ & Ha).
  case_bool_decide as He; cbn [negb]; [|by apply (reports_skipped (n, row))].
  destruct apply_; cbn [negb]; [|by apply (reports_accepted (n, row))].
  wp_simpl. eapply (wp_mono _ (λ _ _, True) _ (λ _ _, True)).
  - unfold wp. by destruct (apply_row p s) as [[]].
  - intros _ s2 _. by apply (reports_accepted (n, row)).
  - intros e s2 _. by destruct e.
Qed.

Lemma wp_map_each {A B} (f : A → DB B) (R : A → B → Prop) l s :
  (∀ x s, wp (f x) (λ y _, R x y) (λ _ _, True) s) →
  wp (map_each l f) (λ ys _, Forall2 R l ys) (λ _ _, True) s.
Proof.
  intros Hf. revert s. induction l as [|x l IH]; intros s; cbn [map_each].
  - wp_simpl. constructor.
  - wp_simpl. eapply wp_mono; [apply Hf| |done]. intros y s1 Hy. wp_simpl.
    eapply wp_mono; [apply IH| |done]. intros ys s2 Hys. wp_simpl. by constructor.
Qed.

Lemma enumerate_numbers k rows : (enumerate k rows).*1 = seqZ k (Z.of_nat (List.length rows)).
Proof.
  revert k. induction rows as [|r rows IH]; intros k; [done|]. cbn [enumerate].
  rewrite fmap_cons, IH. replace (Z.of_nat (List.length (r :: rows))) with
    (Z.succ (Z.of_nat (List.length rows))) by (cbn; lia).
  rewrite (seqZ_cons k), Z.pred_succ by lia. done.
Qed.

Lemma reports_numbers l rs : Forall2 reports l rs → rr_row_number <$> rs = l.*1.
Proof. induction 1 as [|nr r l rs [H _] _ IH]; [done|]. cbn. by rewrite H, IH. Qed.

(** The four counters over the applied rows. *)
Lemma count_actions l rs :
  Forall2 reports l rs →
  let applied := List.filter is_valid rs in
  count_rows (action_starts "create_grade") applied + count_rows (action_starts "update_grade") applied
    = Z.of_nat (List.length applied) ∧
  count_rows (action_ends "create_class") applied + count_rows (action_ends "update_class") applied
    ≤ Z.of_nat (List.length applied).
Proof.
  unfold count_rows. induction 1 as [|nr r l rs (_ & Hv & _) _ [IH1 IH2]]; cbn; [done|].
  destruct (is_valid r); [|done]. destruct (Hv eq_refl) as [Ha _]. cbn [List.filter].
  assert (action_starts "update_grade" r = negb (action_starts "create_grade" r) ∧
    (action_ends "create_class" r && action_ends "update_class" r = false)) as [E1 E2].
  { unfold action_starts, action_ends, ACTIONS in *.
    repeat (apply elem_of_cons in Ha as [->|Ha]; [by vm_compute|]). by apply elem_of_nil in Ha. }
  rewrite E1. destruct (action_starts "create_grade" r), (action_ends "create_class" r),
    (action_ends "update_class" r); cbn in *; try done; lia.
Qed.

(** ** Properties *)

(** An import only adds and updates. Whatever the rows, and whether
    the import answers or fails on the way, every level and class is still
    there under its name (up to case), every class in its level and year,
    and no other table has changed. When it answers, the report has one line
    per row, numbered from 2 as in the file; a line is either applied,
    without errors, or skipped, with at least one; each applied line counts
    as a created or an updated grade, and at most once as a class. *)
Theorem import_only_grows rows s (Hfresh : fresh_ids s) :
  match import_academic_rows rows s with
  | (Ok rep, s') =>
      grown s s' ∧
      rr_row_number <$> ir_row_results rep = seqZ 2 (Z.of_nat (List.length rows)) ∧
      ir_total_rows rep = Z.of_nat (List.length rows) ∧
      ir_applied_rows rep + ir_skipped_rows rep = ir_total_rows rep ∧
      ir_created_grades rep + ir_updated_grades rep = ir_applied_rows rep ∧
      ir_created_classes rep + ir_updated_classes rep ≤ ir_applied_rows rep ∧
      Forall (λ r, is_valid r = bool_decide (rr_errors r = [])) (ir_row_results rep)
  | (Raise _, s') => grown s s'
  end.
Proof.
  assert (wp (import_academic_rows rows) (λ rep _, ∃ rs, Forall2 reports (enumerate 2 rows) rs ∧
    rep = (let applied := List.filter is_valid rs in
      {| ir_total_rows := Z.of_nat (List.length rs); ir_applied_rows := Z.of_nat (List.length applied);
         ir_skipped_rows := Z.of_nat (List.length rs) - Z.of_nat (List.length applied);
         ir_created_grades := count_rows (action_starts "create_grade") applied;
         ir_updated_grades := count_rows (action_starts "update_grade") applied;
         ir_created_classes := count_rows (action_ends "create_class") applied;
         ir_updated_classes := count_rows (action_ends "update_class") applied;
         ir_row_results := rs |})) (λ _ _, True) s) as H.
  { unfold import_academic_rows. rewrite wp_bind. apply wp_readonly; [apply plan_readonly| |done].
    intros plan. wp_simpl. eapply wp_mono; [apply wp_map_each; intros; apply wp_import_row| |done].
    intros rs s' Hrs. wp_simpl. by exists rs. }
  pose proof (import_rows_growing s rows s (conj (grown_refl s) Hfresh)) as Hg. unfold wp in H, Hg.
  destruct (import_academic_rows rows s) as [[rep|e] s']; [|by destruct Hg].
  destruct H as (rs & Hrs & ->). cbn. split; [by destruct Hg|].
  pose proof (count_actions _ _ Hrs) as [C1 C2].
  pose proof (reports_numbers _ _ Hrs) as Hn. rewrite enumerate_numbers in Hn.
  apply (f_equal List.length) in Hn as Hlen. rewrite !length_fmap, length_seqZ, Nat2Z.id in Hlen.
  split; [done|]. rewrite Hlen. split; [done|]. split; [lia|]. split; [done|]. split; [done|].
  clear -Hrs. induction Hrs as [|nr r l rs (_ & Hv & Hs) _ IH]; constructor; [|done].
  destruct (is_valid r); symmetry; [apply bool_decide_eq_true|apply bool_decide_eq_false].
  - by apply Hv. 
  - by apply Hs.
Qed.

Definition demo_import : list import_row :=
  [canonical [("grade_name", CText "grade 1"); ("class_name", CText "Grade 1 - A");
              ("class_capacity", CText "30")];
   canonical [("grade_name", CText "Grade 3"); ("class_name", CText "Grade 3 - A")];
   canonical [("grade_name", CText "Grade 4"); ("grade_age_min", CText "x")];
   canonical [("class_name", CText "Lost")]].

Lemma demo_fresh : fresh_ids demo_db.
Proof.
  split; intros k [r Hr].
  - change (levels demo_db) with
      ({[11 := demo_level "Grade 1" 1; 12 := demo_level "Grade 2" 2]} : gmap Z level_row) in Hr.
    demo_rows Hr; change (nextid demo_db) with 100; lia.
  - change (classes demo_db) with
      ({[21 := demo_class "Grade 1 - A" 11 (Some "A");
         22 := demo_class "Grade 2 - A" 12 (Some "A")]} : gmap Z class_row) in Hr.
    demo_rows Hr; change (nextid demo_db) with 100; lia.
Qed.

Lemma import_only_grows_witness :
  ∃ rep s', import_academic_rows demo_import demo_db = (Ok rep, s') ∧
    grown demo_db s' ∧ ir_created_grades rep + ir_updated_grades rep = ir_applied_rows rep.
Proof.
  pose proof (import_only_grows demo_import demo_db demo_fresh) as H.
  destruct (run_ok (import_academic_rows demo_import) demo_db eq_refl) as (rep & s' & E).
  exists rep, s'. rewrite E in H. destruct H as (H1 & _ & _ & _ & H5 & _). auto.
Defined.

Example demo_import_report :
  match (import_academic_rows demo_import demo_db).1 with
  | Ok r => (ir_applied_rows r, ir_skipped_rows r, ir_created_grades r, ir_updated_grades r,
             ir_created_classes r, ir_updated_classes r)
  | Raise _ => (0, 0, 0, 0, 0, 0)
  end = (2, 2, 1, 1, 1, 1).
Proof. by vm_compute. Qed.

(** The ordinals planned for new grades. They are the consecutive
    integers after the largest ordinal in use, one for each new name in
    order of appearance; no name is planned twice, none names an existing
    grade, every named row is planned or exists, and every planned ordinal is
    above every ordinal in use. *)
Theorem planned_ordinals_follow rows s :
  match _plan_new_grade_ordinals rows s with
  | (Ok plan, s') =>
      s' = s ∧ plan.*2 = seqZ (max_ordinal s + 1) (Z.of_nat (List.length plan)) ∧ NoDup plan.*1 ∧
      (∀ g n, (g, n) ∈ plan → g ≠ "" ∧ ∀ k r, levels s !! k = Some r →
         str_lower (str_strip (lv_name r)) ≠ str_lower g ∧
         ∀ o, lv_ordinal r = Some o → o < n) ∧
      (∀ row g, row ∈ rows → strip_cell (cell_of "grade_name" row) = Ok g →
         g = "" ∨ g ∈ plan.*1 ∨
         ∃ k r, levels s !! k = Some r ∧ str_lower (str_strip (lv_name r)) = str_lower g)
  | (Raise _, s') => s' = s
  end.
Proof.
  pose proof (plan_readonly rows s s eq_refl) as Hro. unfold wp in Hro.
  set (existing := (λ kv : Z * level_row, str_lower (str_strip (lv_name kv.2)))
    <$> merge_sort level_le (map_to_list (levels s))).
  assert (∀ x, x ∈ existing ↔ ∃ k r, levels s !! k = Some r ∧ str_lower (str_strip (lv_name r)) = x) as Hex.
  { intros x. unfold existing. rewrite list_elem_of_fmap. split.
    - intros ([k r] & -> & Hin). rewrite merge_sort_Permutation in Hin.
      apply elem_of_map_to_list in Hin. by exists k, r.
    - intros (k & r & Hk & <-). exists (k, r). split; [done|].
      rewrite merge_sort_Permutation. by apply elem_of_map_to_list. }
  assert (wp (_plan_new_grade_ordinals rows) (λ plan _, ∃ names,
    Forall2 (λ row g, strip_cell (cell_of "grade_name" row) = Ok g) rows names ∧
    plan = plan_names existing (max_ordinal s) [] names) (λ _ _, True) s) as H.
  { unfold _plan_new_grade_ordinals, get_all_levels. wp_simpl.
    eapply wp_mono; [apply (wp_map_each _ (λ row g, strip_cell (cell_of "grade_name" row) = Ok g))| |done].
    - intros row s1. unfold of_result. by destruct (strip_cell _) eqn:E.
    - intros names s1 Hn. wp_simpl. by exists names. }
  unfold wp in H. destruct (_plan_new_grade_ordinals rows s) as [[plan|e] s']; [|done].
  destruct H as (names & Hnames & ->). split; [done|].
  destruct (plan_names_spec existing names (max_ordinal s) []) as (new & -> & H1 & H2 & H3 & H4);
    [constructor|]. cbn [app] in *.
  split; [done|]. split; [done|]. split.
  - intros g n Hg. destruct (H3 g n Hg) as (Hne & Hnot & _). split; [done|]. intros k r Hk. split.
    + intros He. apply Hnot, Hex. by exists k, r.
    + intros o Ho. pose proof (max_ordinal_ge _ _ _ _ Hk Ho).
      assert (n ∈ new.*2) as Hn by (apply list_elem_of_fmap; by exists (g, n)).
      rewrite H1 in Hn. apply elem_of_seqZ in Hn. lia.
  - intros row g Hrow Hg. apply list_elem_of_lookup in Hrow as [i Hi].
    destruct (Forall2_lookup_l _ _ _ _ _ Hnames Hi) as (g' & Hg' & E). rewrite E in Hg.
    injection Hg as ->. apply list_elem_of_lookup_2 in Hg'.
    destruct (H4 g Hg') as [?|[He|?]]; [by left| |by right; left].
    right. right. by apply Hex.
Qed.

(** *** What an accepted row writes *)
(** The first level of that name, up to case, and the first class of that
    name in the level and the year. *)
Definition named_level (g : string) (s : TenantDB) : option (Z * level_row) :=
  head (select (λ _ r, bool_decide (str_lower (lv_name r) = str_lower (str_strip g))) (levels s)).
Definition named_class (c : string) (lid year : Z) (s : TenantDB) : option (Z * class_row) :=
  head (select (λ _ r, bool_decide (str_lower (cl_name r) = str_lower (str_strip c)) && (cl_level r =? lid)
    && bool_decide (Some (cl_year r) = Some year)) (classes s)).
Definition active_year (s : TenantDB) : option Z :=
  fst <$> head (select (λ _ r, bool_decide (ye_status r = "active")) (academic_years s)).

(** The values of the row, cell by cell. *)
Record read_as (row : import_row) (plan : list (string * Z)) (s : TenantDB) (p : parsed_row) : Prop := {
  ra_grade : strip_cell (cell_of "grade_name" row) = Ok (pr_grade p) ∧ pr_grade p ≠ "";
  ra_class : ∃ c, strip_cell (cell_of "class_name" row) = Ok c ∧ pr_class p = non_empty c;
  ra_isced : _parse_import_int (cell_of "grade_isced_level" row) "grade_isced_level" = Ok (pr_isced p, []);
  ra_min : _parse_import_int (cell_of "grade_age_min" row) "grade_age_min" = Ok (pr_age_min p, []);
  ra_max : _parse_import_int (cell_of "grade_age_max" row) "grade_age_max" = Ok (pr_age_max p, []);
  ra_ordinal : ∃ o, _parse_import_int (cell_of "grade_ordinal" row) "grade_ordinal" = Ok (o, []) ∧
    pr_ordinal p = (if bool_decide (o = None ∧ named_level (pr_grade p) s = None) then dict_get (pr_grade p) plan else o);
  ra_active : pr_grade_active p = _parse_import_bool (cell_of "grade_active" row) true;
  ra_section : pr_class p ≠ None →
    _parse_import_int (cell_of "class_capacity" row) "class_capacity" = Ok (pr_capacity p, []) ∧
    pr_class_active p = _parse_import_bool (cell_of "class_active" row) true ∧
    ∃ email, strip_cell (cell_of "head_teacher_email" row) = Ok email ∧
      pr_teacher p = (if bool_decide (email = "") then UNSET
        else match (get_teacher_by_email email s).1 with Ok (Some t) => Set_to (Some t) | _ => UNSET end) }.

(** The grade is the level [lid]: updated where the row has a value, or
    created with the defaults of the import. *)
Definition grade_written (p : parsed_row) (s s1 : TenantDB) (lid : Z) : Prop :=
  match named_level (pr_grade p) s with
  | Some (id, cur) => lid = id ∧ s1 = s <| levels ::= <[id :=
      {| lv_name := str_strip (pr_grade p); lv_isced := opt_or_opt (pr_isced p) (lv_isced cur);
         lv_age_min := opt_or_opt (pr_age_min p) (lv_age_min cur);
         lv_age_max := opt_or_opt (pr_age_max p) (lv_age_max cur);
         lv_ordinal := opt_or_opt (pr_ordinal p) (lv_ordinal cur); lv_active := pr_grade_active p |}]> |>
  | None => lid = nextid s ∧ s1 = s <| levels ::= <[nextid s :=
      {| lv_name := pr_grade p; lv_isced := Some (opt_or (pr_isced p) 1); lv_age_min := Some (opt_or (pr_age_min p) 6);
         lv_age_max := Some (opt_or (pr_age_max p) 7); lv_ordinal := Some (opt_or (pr_ordinal p) 1);
         lv_active := pr_grade_active p |}]> |> <| nextid := nextid s + 1 |>
  end.
(** The class, in the active year: its head teacher only changes if the row
    names one. *)
Definition section_written (p : parsed_row) (c : string) (lid : Z) (s s2 : TenantDB) : Prop :=
  ∃ year, active_year s = Some year ∧
  let name := str_strip c in
  match named_class c lid year s with
  | Some (id, cur) => s2 = s <| classes ::= <[id :=
      {| cl_name := name; cl_level := lid; cl_head := match pr_teacher p with UNSET => cl_head cur | Set_to h => h end;
         cl_capacity := opt_or (pr_capacity p) (cl_capacity cur); cl_active := pr_class_active p; cl_year := cl_year cur;
         cl_section := _derive_section_label name |}]> |>
  | None => s2 = s <| classes ::= <[nextid s :=
      {| cl_name := name; cl_level := lid;
         cl_head := truthy_int (match pr_teacher p with UNSET => None | Set_to h => h end);
         cl_capacity := or_default (Some (opt_or (pr_capacity p) 25)) 25; cl_active := pr_class_active p; cl_year := year;
         cl_section := _derive_section_label name |}]> |> <| nextid := nextid s + 1 |>
  end.
Definition row_written (p : parsed_row) (s s2 : TenantDB) : Prop :=
  ∃ lid s1, grade_written p s s1 lid ∧
    match pr_class p with None => s2 = s1 | Some c => section_written p c lid s1 s2 end.
(** A row that fails on the way has written its grade at most. *)
Definition cut_short (p : parsed_row) (s s2 : TenantDB) : Prop := s2 = s ∨ ∃ lid, grade_written p s s2 lid.

Lemma wp_grade p s :
  wp (upsert_level_by_name (pr_grade p) (pr_isced p) (pr_age_min p) (pr_age_max p) (pr_ordinal p) (pr_grade_active p))
    (λ l s1, grade_written p s s1 l.1) (λ _ s1, s1 = s) s.
Proof.
  unfold upsert_level_by_name, get_level_by_name, grade_written, named_level. wp_simpl.
  destruct (head _) as [[k r]|] eqn:Hh.
  - apply select_head in Hh as [Hk _]. unfold AcademicRepo.update_level, get_level_by_id, check_int4, check. wp_simpl.
    rewrite Hk. cbn. wp_simpl. by case_match.
  - unfold AcademicRepo.create_level, check_int4, check, insert_serial. wp_simpl. by case_match.
Qed.

Lemma wp_year o (Q : option Z → TenantDB → Prop) (E : exn → TenantDB → Prop) s :
  o = None ∨ o = active_year s → Q (active_year s) s → wp (resolve_year o) Q E s.
Proof.
  intros Ho HQ. unfold resolve_year, get_active_academic_year_id.
  assert (wp (t ← gets academic_years; mret (fst <$> head (select (λ _ r, bool_decide (ye_status r = "active")) t))) Q E s) as H
    by (wp_simpl; exact HQ).
  destruct Ho as [->| ->]; [exact H|]. unfold truthy_int. destruct (active_year s) as [y|]; [|exact H].
  destruct (y =? 0); [exact H|]. by rewrite wp_ret.
Qed.

Lemma wp_section p c lid s :
  wp (upsert_class_by_name_and_level c lid (pr_teacher p) (pr_capacity p) (pr_class_active p) None)
    (λ _ s2, section_written p c lid s s2) (λ _ s2, s2 = s) s.
Proof.
  unfold upsert_class_by_name_and_level, section_written. rewrite wp_bind. apply wp_year; [by left|]. rewrite wp_bind, wp_from_option_or.
  destruct (active_year s) as [year|] eqn:Hy; [|done]. unfold get_class_by_name_and_level. rewrite !wp_bind.
  apply wp_year; [by right|]. rewrite Hy. wp_simpl. fold (named_class c lid year s).
  destruct (named_class c lid year s) as [[k r]|] eqn:Hh.
  - pose proof Hh as [Hk _]%select_head. unfold AcademicRepo.update_class, get_class_by_id. wp_simpl. rewrite Hk. cbn. wp_simpl.
    apply wp_readonly; [apply check_class_readonly| |done]. intros _. wp_simpl. exists year. split; [done|]. by rewrite Hh.
  - unfold AcademicRepo.create_class, insert_serial. rewrite !wp_bind. apply wp_year; [by right|]. rewrite Hy. wp_simpl.
    apply wp_readonly; [apply check_class_readonly| |done]. intros _. wp_simpl. exists year. split; [done|]. by rewrite Hh.
Qed.

Lemma wp_apply_row p s : wp (apply_row p) (λ _ s2, row_written p s s2) (λ _ s2, cut_short p s s2) s.
Proof.
  unfold apply_row, row_written, cut_short. rewrite wp_bind. eapply wp_mono; [apply wp_grade| |by left].
  intros l s1 H1. cbn beta. destruct (pr_class p) as [c|]; [|rewrite wp_ret; by exists l.1, s1].
  rewrite wp_bind. eapply wp_mono; [apply wp_section| |].
  - intros ? s2 H2. rewrite wp_ret. by exists l.1, s1.
  - intros ? s2 ->. right. by exists l.1.
Qed.

Lemma wp_result {A} (r : result A) (Q : A → TenantDB → Prop) (E : exn → TenantDB → Prop) s :
  (∀ a, r = Ok a → Q a s) → (∀ e, E e s) → wp (of_result r) Q E s.
Proof. intros HQ HE. destruct r; [by apply HQ|by apply HE]. Qed.

Lemma parse_row_reads row plan g c s :
  strip_cell (cell_of "grade_name" row) = Ok g → g ≠ "" → strip_cell (cell_of "class_name" row) = Ok c →
  wp (parse_row row plan g (non_empty c)) (λ p _, pr_errors p = [] → read_as row plan s p) (λ _ _, True) s.
Proof.
  intros Hg Hne Hc. unfold parse_row, parse_int, get_level_by_name.
  rewrite wp_bind; apply wp_result; [|done]; intros [isced e1] H1; cbn beta.
  rewrite wp_bind; apply wp_result; [|done]; intros [amin e2] H2; cbn beta.
  rewrite wp_bind; apply wp_result; [|done]; intros [amax e3] H3; cbn beta.
  rewrite wp_bind; apply wp_result; [|done]; intros [o e4] H4; cbn beta.
  wp_simpl. fold (named_level g s). destruct (non_empty c) as [cname|] eqn:Hn.
  - rewrite wp_bind. apply wp_result; [|done]. intros [cap errs] Hcap. rewrite wp_bind. apply wp_result; [|done].
    intros email Hemail. rewrite wp_bind.
    assert (wp (if bool_decide (email = "") then mret None else t ← get_teacher_by_email email; mret (Some t))
      (λ o s', s' = s ∧ match o with Some (Some t) => Set_to (Some t) | _ => UNSET end
        = (if bool_decide (email = "") then UNSET
           else match (get_teacher_by_email email s).1 with Ok (Some t) => Set_to (Some t) | _ => UNSET end))
      (λ _ _, True) s) as Hteach.
    { destruct (bool_decide (email = "")); [by rewrite wp_ret|]. unfold get_teacher_by_email. by wp_simpl. }
    eapply wp_mono; [exact Hteach| |done]. intros t s' [-> Ht]. wp_simpl.
    apply wp_readonly; [intros s1; unfold get_class_by_name_and_level, resolve_year, get_active_academic_year_id; preserve| |done].
    intros ec. wp_simpl. cbn [pr_errors fst snd].
    intros [[-> [-> [-> ->]%app_eq_nil]%app_eq_nil]%app_eq_nil ->]%app_eq_nil.
    constructor; cbn; rewrite ?Hn; eauto.
    exists o. split; [done|]. by destruct o, (named_level g s).
  - wp_simpl. cbn [pr_errors fst snd]. intros [-> [-> [-> ->]%app_eq_nil]%app_eq_nil]%app_eq_nil.
    constructor; cbn; rewrite ?Hn; eauto; [|done]. exists o. split; [done|]. by destruct o, (named_level g s).
Qed.

(** What is stored when the row is applied, and when it is cut short. *)
Definition applied (row : import_row) (plan : list (string * Z)) (s s2 : TenantDB) : Prop :=
  ∃ p, read_as row plan s p ∧ row_written p s s2.
Definition interrupted (row : import_row) (plan : list (string * Z)) (s s2 : TenantDB) : Prop :=
  ∃ p, read_as row plan s p ∧ cut_short p s s2.

(** C38: a preview and a commit of one row in the same state. The preview
    writes nothing. A row the preview rejects is rejected by the commit for
    the same reasons, and nothing is written; a row it crashes on crashes
    the commit the same way. A row it accepts is applied with the same line
    in the report, and then the grade and the class of the row hold exactly
    the values of its cells and nothing else has changed; or the commit fails
    on the way, reported with one error or not, and has written the grade at
    most. *)
Theorem import_row_preview_agrees plan nr s :
  match _resolve_import_row plan false nr s with
  | (Ok r, s1) =>
      s1 = s ∧
      match _resolve_import_row plan true nr s with
      | (Ok r', s2) =>
          if is_valid r
          then r' = r ∧ applied nr.2 plan s s2 ∨
               (∃ msg, r' = r <| rr_action := "skipped" |> <| rr_status := "error" |> <| rr_errors := [msg] |>) ∧
               interrupted nr.2 plan s s2
          else r' = r ∧ s2 = s
      | (Raise e, s2) => is_valid r = true ∧ (∀ msg, e ≠ ValueError msg) ∧ interrupted nr.2 plan s s2
      end
  | (Raise e, s1) => s1 = s ∧ _resolve_import_row plan true nr s = (Raise e, s)
  end.
Proof.
  destruct nr as [n row]. unfold _resolve_import_row, of_result. cbn [snd].
  destruct (strip_cell (cell_of "grade_name" row)) as [g|e] eqn:Hg; [|done].
  destruct (strip_cell (cell_of "class_name" row)) as [c|e] eqn:Hc; [|done].
  unfold mbind, M_bind, mret, M_ret. cbv beta iota zeta.
  destruct (bool_decide (g = "")) eqn:Hne; [done|]. apply bool_decide_eq_false in Hne.
  pose proof (wp_parse_row row plan g (non_empty c) s) as Hp.
  pose proof (parse_row_reads row plan g c s Hg Hne Hc) as Hread. unfold wp in Hp, Hread.
  destruct (parse_row row plan g (non_empty c) s) as [[p|e] s1]; [|by subst].
  destruct Hp as [-> _]. case_bool_decide as He; [|done]. specialize (Hread He). split; [done|].
  pose proof (wp_apply_row p s) as Ha. unfold wp in Ha.
  unfold try_except. cbn [negb]. destruct (apply_row p s) as [[u|e] s2]; [left; split; [done|by exists p]|].
  assert (interrupted row plan s s2) as Hi by (by exists p).
  destruct e; first [by right; split; [eexists|] | by split_and!].
Qed.

(** A file for a school without an active year: the preview accepts the row,
    the commit reports it as skipped, and the grade has been created. *)
Example skipped_row_creates_its_grade :
  let s := demo_db <| academic_years := ∅ |> in
  let row := canonical [("grade_name", CText "Grade 3"); ("class_name", CText "Grade 3 - A")] in
  (match (preview_import_rows [row] s).1 with
   | Ok p => (ip_valid_rows p, ip_error_rows p) | Raise _ => (0, 0) end) = (1, 0) ∧
  (match (import_academic_rows [row] s).1 with
   | Ok r => (ir_applied_rows r, ir_created_grades r) | Raise _ => (1, 1) end) = (0, 0) ∧
  lv_name <$> levels (import_academic_rows [row] s).2 !! 100 = Some "Grade 3".
Proof. cbv zeta. repeat split; vm_compute; reflexivity. Qed.

(** Two grades with a section of the same name: the preview accepts both
    rows, the commit stores the first and fails with the file half applied. *)
Example same_section_name_aborts_the_import :
  let rows := [canonical [("grade_name", CText "Grade 3"); ("class_name", CText "A")];
               canonical [("grade_name", CText "Grade 4"); ("class_name", CText "A")]] in
  (match (preview_import_rows rows demo_db).1 with Ok p => ip_valid_rows p | Raise _ => 0 end) = 2 ∧
  (import_academic_rows rows demo_db).1 = Raise (DatabaseError "class_name_academic_year_unique") ∧
  lv_name <$> levels (import_academic_rows rows demo_db).2 !! 100 = Some "Grade 3".
Proof. cbv zeta. repeat split; vm_compute; reflexivity. Qed.
