(* ===== verification/Rollover.v ===== *)
(** * Year rollover

    The rollover of ADR 0003: the plan ([get_rollover_plan_facts],
    [_recompute_rollover_lines], [upsert_rollover_lines]), its overrides, the
    preview gate and the commit, of src/app/domains/tenant/service.py and
    tenant_repository.py. [get_rollover_lines] sorts its rows for display by
    level, section and student name; here they come by line id. *)
From S2P Require Import Prelude PyText Authz Store AcademicRepo AcademicDelete Demo AcademicSvc.

(** ** The repository *)
Record plan_fact := {
  fa_student : Z; fa_from_class : Z; fa_capacity : Z; fa_active : bool;
  fa_section : option string; fa_to_level : option Z }.

(** LEFT JOIN levels nl ON nl.ordinal = l.ordinal + 1: one row per next level,
    or one with NULL. *)
Definition next_levels (s : TenantDB) (l : level_row) : list (option Z) :=
  match lv_ordinal l with
  | None => [None]
  | Some o =>
      match select (λ _ nl, bool_decide (lv_ordinal nl = Some (o + 1))) (levels s) with
      | [] => [None]
      | found => (Some ∘ fst) <$> found
      end
  end.

Definition facts_of_student (s : TenantDB) (from_year_id : Z) (kv : Z * student_row) :
    list plan_fact :=
  match st_class kv.2 with
  | None => []
  | Some cid =>
      match classes s !! cid with
      | None => []
      | Some c =>
          match levels s !! cl_level c with
          | None => []
          | Some l =>
              if (cl_year c =? from_year_id) && bool_decide (st_status kv.2 = "enrolled")
              then (λ nl, {| fa_student := kv.1; fa_from_class := cid;
                             fa_capacity := cl_capacity c; fa_active := cl_active c;
                             fa_section := cl_section c; fa_to_level := nl |})
                     <$> next_levels s l
              else []
          end
      end
  end.

Definition plan_facts (from_year_id : Z) (s : TenantDB) : list plan_fact :=
  concat (facts_of_student s from_year_id <$> map_to_list (students s)).
Definition get_rollover_plan_facts (from_year_id : Z) : DB (list plan_fact) :=
  gets (plan_facts from_year_id).

Definition get_year_rollover_by_id (id : Z) : DB (option rollover_row) :=
  t ← gets rollovers; mret (t !! id).

Definition get_year_rollover_by_years (from_year_id to_year_id : Z) :
    DB (option (Z * rollover_row)) :=
  t ← gets rollovers;
  mret (head (select (λ _ r, (ro_from r =? from_year_id) && (ro_to r =? to_year_id)) t)).

Definition create_year_rollover (from_year_id to_year_id : Z) (created_by : pyid) :
    DB (option (Z * rollover_row)) :=
  cb ← bind_bigint (truthy_id created_by);
  existing ← get_year_rollover_by_years from_year_id to_year_id;
  match existing with
  | Some _ => mret existing
  | None =>
      check_fk academic_years from_year_id ;;
      check_fk academic_years to_year_id ;;
      check_fk_opt users cb ;;
      let row := {| ro_from := from_year_id; ro_to := to_year_id; ro_state := "draft";
                    ro_summary := None; ro_created_by := cb |} in
      id ← insert_serial rollovers row;
      mret (Some (id, row))
  end.

Definition update_rollover_state (id : Z) (state : string) (summary : option rollover_summary) :
    DB unit :=
  modify (λ s, s <| rollovers ::= alter (λ r, r <| ro_state := state |>
                      <| ro_summary := opt_or_opt summary (ro_summary r) |>) id |>).

(** A line about to be stored. *)
Record plan_line := {
  pn_student : Z; pn_from_class : option Z; pn_to_level : option Z;
  pn_to_section : option string; pn_proposed : string; pn_exception : option string }.

Definition line_of (rid sid : Z) (kv : Z * line_row) : bool :=
  (li_rollover kv.2 =? rid) && (li_student kv.2 =? sid).

(** INSERT ... ON CONFLICT (rollover_id, student_id) DO UPDATE *)
Definition upsert_line (rid : Z) (p : plan_line) : DB unit :=
  check_fk rollovers rid ;;
  check_fk students (pn_student p) ;;
  check_fk_opt classes (truthy_int (pn_from_class p)) ;;
  check_fk_opt levels (truthy_int (pn_to_level p)) ;;
  t ← gets rollover_lines;
  match head (select (λ k l, line_of rid (pn_student p) (k, l)) t) with
  | None =>
      insert_serial rollover_lines
        {| li_rollover := rid; li_student := pn_student p;
           li_from_class := truthy_int (pn_from_class p);
           li_to_level := truthy_int (pn_to_level p); li_to_section := pn_to_section p;
           li_to_class := None; li_proposed := pn_proposed p; li_override := None;
           li_exception := pn_exception p; li_applied_at := None |} ;;
      mret tt
  | Some (lid, l) =>
      let fixed := match li_override l with Some _ => true | None => false end in
      modify (λ s, s <| rollover_lines ::= <[lid := l
        <| li_from_class := truthy_int (pn_from_class p) |>
        <| li_proposed := pn_proposed p |>
        <| li_exception := pn_exception p |>
        <| li_to_level := if fixed then li_to_level l else truthy_int (pn_to_level p) |>
        <| li_to_section := if fixed then li_to_section l else pn_to_section p |>]> |>)
  end.

Definition upsert_rollover_lines (rollover_id : Z) (lines : list plan_line) : DB unit :=
  let student_ids := map pn_student lines in
  transaction (
    modify (λ s, s <| rollover_lines ::= delete_where (λ _ l,
      (li_rollover l =? rollover_id) && negb (bool_decide (li_student l ∈ student_ids))) |>) ;;
    for_each lines (upsert_line rollover_id)).

Definition rollover_lines_of (rid : Z) (s : TenantDB) : list (Z * line_row) :=
  by_id (select (λ _ l, (li_rollover l =? rid) && has_row (students s) (li_student l))
           (rollover_lines s)).
Definition get_rollover_lines (rollover_id : Z) : DB (list (Z * line_row)) :=
  gets (rollover_lines_of rollover_id).

Definition get_rollover_line_by_id (line_id : Z) : DB (option line_row) :=
  t ← gets rollover_lines; mret (t !! line_id).

Definition set_rollover_line_override (line_id : Z) (override_action : option string)
    (to_level_id : option Z) (to_section_label : option string) : DB (option line_row) :=
  check_fk_opt levels (truthy_int to_level_id) ;;
  modify (λ s, s <| rollover_lines ::= alter (λ l, l <| li_override := override_action |>
    <| li_to_level := opt_or_opt (truthy_int to_level_id) (li_to_level l) |>
    <| li_to_section := opt_or_opt to_section_label (li_to_section l) |>) line_id |>) ;;
  get_rollover_line_by_id line_id.

(** [line["override_action"] or line["proposed_action"]] *)
Definition effective (l : line_row) : string := opt_or (li_override l) (li_proposed l).

(** ** [_recompute_rollover_lines] *)
Definition classify (f : plan_fact) : string * option string :=
  match fa_to_level f with
  | None => ("graduate", Some "no_next_level")
  | Some _ =>
      if negb (fa_active f) || match fa_section f with
                               | Some l => bool_decide (l = "")
                               | None => true
                               end
      then ("hold", Some "no_placement")
      else ("promote", None)
  end.

Definition natural_line (f : plan_fact) : plan_line :=
  let pe := classify f in
  let promote := bool_decide (pe.1 = "promote") in
  {| pn_student := fa_student f; pn_from_class := Some (fa_from_class f);
     pn_to_level := if promote then fa_to_level f else None;
     pn_to_section := if promote then fa_section f else None;
     pn_proposed := pe.1; pn_exception := pe.2 |}.

Definition target_key : Type := option Z * option string.

(** The cell of the target year a line counts against, if it promotes: the
    frozen target of an override, or the engine's proposal. *)
Definition effective_target (existing : option line_row) (p : plan_line) : option target_key :=
  let override := existing ≫= li_override in
  if bool_decide (opt_or override (pn_proposed p) = "promote")
  then Some (match override, existing with
             | Some _, Some l => (li_to_level l, li_to_section l)
             | _, _ => (pn_to_level p, pn_to_section p)
             end)
  else None.

Definition existing_line (existing : list (Z * line_row)) (sid : Z) : option line_row :=
  snd <$> head (List.filter (λ kv : Z * line_row, li_student kv.2 =? sid) existing).

Definition flag_over_capacity (existing : list (Z * line_row)) (facts : list plan_fact) :
    list plan_line :=
  let target (f : plan_fact) :=
    effective_target (existing_line existing (fa_student f)) (natural_line f) in
  let group (key : target_key) :=
    List.filter (λ f, bool_decide (target f = Some key)) facts in
  let capacity (key : target_key) :=
    match List.filter (λ f, bool_decide (pn_proposed (natural_line f) = "promote")) (group key) with
    | f :: _ => or_default (Some (fa_capacity f)) 25
    | [] => 25
    end in
  map (λ f,
    let p := natural_line f in
    match target f with
    | Some key =>
        if capacity key <? Z.of_nat (List.length (group key))
        then {| pn_student := pn_student p; pn_from_class := pn_from_class p;
                pn_to_level := pn_to_level p; pn_to_section := pn_to_section p;
                pn_proposed := pn_proposed p; pn_exception := Some "over_capacity" |}
        else p
    | None => p
    end) facts.

Definition _recompute_rollover_lines (rollover_id from_year_id : Z) : DB unit :=
  facts ← get_rollover_plan_facts from_year_id;
  existing ← get_rollover_lines rollover_id;
  upsert_rollover_lines rollover_id (flag_over_capacity existing facts).

(** ** The service *)
Definition admins : list string := ["school_admin"; "super_admin"].
Definition rollover_not_found (id : Z) : exn :=
  ValueError ("Rollover " +:+ pretty id +:+ " not found").

Record rollover_view := {
  rv_id : Z; rv_rollover : rollover_row; rv_lines : list (Z * line_row); rv_blocking : list Z }.

Definition is_hold (kv : Z * line_row) : bool := bool_decide (effective kv.2 = "hold").

Definition get_rollover (rollover_id : Z) (user_role : role_arg) : DB rollover_view :=
  gate user_role admins "Only a school admin can view a rollover plan" ;;
  o ← get_year_rollover_by_id rollover_id;
  rollover ← from_option_or o (rollover_not_found rollover_id);
  lines ← get_rollover_lines rollover_id;
  mret {| rv_id := rollover_id; rv_rollover := rollover; rv_lines := lines;
          rv_blocking := fst <$> List.filter is_hold lines |}.

Definition year_not_found (id : Z) : exn :=
  ValueError ("Academic year " +:+ pretty id +:+ " not found").

Definition generate_rollover_plan (from_year_id to_year_id : Z) (created_by : pyid)
    (user_role : role_arg) : DB rollover_view :=
  gate user_role admins "Only a school admin can run year rollover" ;;
  fy ← get_academic_year_by_id from_year_id;
  ty ← get_academic_year_by_id to_year_id;
  from_year ← from_option_or fy (year_not_found from_year_id);
  to_year ← from_option_or ty (year_not_found to_year_id);
  guard_or (bool_decide (ye_status from_year = "active"))
    (ValueError "Rollover can only be planned from the currently active academic year") ;;
  guard_or (bool_decide (ye_status to_year = "planned"))
    (ValueError "The target academic year must be 'planned' (not yet active or closed)") ;;
  o ← create_year_rollover from_year_id to_year_id created_by;
  rollover ← from_option_or o none_error;
  _recompute_rollover_lines rollover.1 from_year_id ;;
  get_rollover rollover.1 user_role.

Definition override_rollover_line (line_id : Z) (override_action : option string)
    (to_level_id : option Z) (to_section_label : option string) (user_role : role_arg) :
    DB (option line_row) :=
  gate user_role admins "Only a school admin can override a rollover line" ;;
  guard_or (match override_action with
            | Some a => mem a ["promote"; "graduate"; "hold"; "withdraw"]
            | None => true
            end)
    (ValueError ("Invalid override action: " +:+ opt_or override_action "None")) ;;
  o ← get_rollover_line_by_id line_id;
  line ← from_option_or o (ValueError ("Rollover line " +:+ pretty line_id +:+ " not found"));
  let effective_level := opt_or_opt to_level_id (li_to_level line) in
  let effective_section := opt_or_opt to_section_label (li_to_section line) in
  guard_or (negb (bool_decide (override_action = Some "promote")
                  && negb (match truthy_int effective_level with Some _ => true | None => false end
                           && match effective_section with
                              | Some l => negb (bool_decide (l = ""))
                              | None => false
                              end)))
    (ValueError ("Cannot override to 'promote' without a resolved target -- "
       +:+ "pass both to_level_id and to_section_label to resolve the placement first")) ;;
  set_rollover_line_override line_id override_action to_level_id to_section_label.

Definition unresolved_error (n : nat) : exn :=
  ValueError (pretty n +:+ " student(s) have no resolved placement and must be overridden "
    +:+ "before this rollover can advance to preview").

Definition preview_rollover (rollover_id : Z) (user_role : role_arg) : DB rollover_view :=
  gate user_role admins "Only a school admin can preview a rollover plan" ;;
  o ← get_year_rollover_by_id rollover_id;
  rollover ← from_option_or o (rollover_not_found rollover_id);
  guard_or (negb (bool_decide (ro_state rollover = "committed")))
    (ValueError "This rollover has already been committed") ;;
  _recompute_rollover_lines rollover_id (ro_from rollover) ;;
  lines ← get_rollover_lines rollover_id;
  let blocking := List.filter is_hold lines in
  guard_or (bool_decide (blocking = [])) (unresolved_error (List.length blocking)) ;;
  update_rollover_state rollover_id "previewed" None ;;
  get_rollover rollover_id user_role.

(** ** [commit_year_rollover] *)
Definition line_key (l : line_row) : target_key := (li_to_level l, li_to_section l).

Definition key_lookup (key : target_key) (resolved : list (target_key * Z)) : option Z :=
  snd <$> head (List.filter (λ kv : target_key * Z, bool_decide (kv.1 = key)) resolved).

(** [str(x)] of an optional section in an f-string. *)
Definition fmt_opt (o : option string) : string := opt_or o "None".

Definition target_name (level_name : string) (section : option string) : string :=
  level_name +:+ " - " +:+ fmt_opt section.

(** INSERT INTO class ... ON CONFLICT (name, academic_year_id) DO NOTHING, and
    the SELECT that follows a conflict. *)
Definition clone_class (to_year : Z) (l : line_row) (from_class : Z) : DB Z :=
  c ← gets classes;
  source ← from_option_or (c !! from_class) none_error;
  lv ← gets levels;
  level_row ← from_option_or (li_to_level l ≫= (lv !!.)) none_error;
  let name := target_name (lv_name level_row) (li_to_section l) in
  match head (select (λ _ r, bool_decide (cl_name r = name) && (cl_year r =? to_year)) c) with
  | Some (id, _) => mret id
  | None =>
      let row := {| cl_name := name; cl_level := default 0 (li_to_level l);
                    cl_head := cl_head source; cl_capacity := cl_capacity source;
                    cl_active := true; cl_year := to_year; cl_section := li_to_section l |} in
      id ← gets nextid;
      check_class id row ;;
      insert_serial classes row
  end.

(** Step 1: a class of the target year for every key a line promotes to. *)
Fixpoint resolve_classes (to_year : Z) (lines : list (Z * line_row))
    (resolved : list (target_key * Z)) : DB (list (target_key * Z)) :=
  match lines with
  | [] => mret resolved
  | (lid, l) :: lines' =>
      if negb (bool_decide (effective l = "promote")) then resolve_classes to_year lines' resolved
      else
        match key_lookup (line_key l) resolved, truthy_int (li_from_class l) with
        | None, Some from_class =>
            id ← clone_class to_year l from_class;
            resolve_classes to_year lines' (resolved ++ [(line_key l, id)])
        | _, _ => resolve_classes to_year lines' resolved
        end
  end.

Definition unresolvable (lid : Z) (l : line_row) : exn :=
  ValueError ("Rollover line " +:+ pretty lid +:+ " (student " +:+ pretty (li_student l)
    +:+ ") could not resolve a target class for level="
    +:+ match li_to_level l with Some n => pretty n | None => "None" end
    +:+ ", section=" +:+ match li_to_section l with Some x => "'" +:+ x +:+ "'" | None => "None" end
    +:+ " -- aborting commit").

(** Step 2: one line; the answer says whether it was applied. *)
Definition apply_line (resolved : list (target_key * Z)) (exit_date : option Z) (cb : pyid)
    (kv : Z * line_row) : DB bool :=
  let lid := kv.1 in
  let l := kv.2 in
  if bool_decide (effective l = "promote") then
    target ← from_option_or (key_lookup (line_key l) resolved ≫= (λ c, truthy_int (Some c)))
               (unresolvable lid l);
    set_student_class (Some target) (li_student l) ;;
    modify (λ s, s <| rollover_lines ::= alter (λ r, r <| li_to_class := Some target |>) lid |>) ;;
    _record_class_change (li_student l) (li_from_class l) (Some target) cb ;;
    mret true
  else if mem (effective l) ["graduate"; "withdraw"] then
    let new_status := if bool_decide (effective l = "graduate") then "graduated" else "withdrawn" in
    modify (λ s, s <| students ::= alter (λ r, r <| st_class := None |>
      <| st_status := new_status |> <| st_exited := exit_date |>) (li_student l) |>) ;;
    _record_class_change (li_student l) (li_from_class l) None cb ;;
    mret true
  else mret false.

Fixpoint apply_lines (resolved : list (target_key * Z)) (exit_date : option Z) (cb : pyid)
    (lines : list (Z * line_row)) : DB (list Z) :=
  match lines with
  | [] => mret []
  | kv :: lines' =>
      applied ← apply_line resolved exit_date cb kv;
      rest ← apply_lines resolved exit_date cb lines';
      mret (if applied : bool then kv.1 :: rest else rest)
  end.

(** Step 3; the partial unique index allows one active year. *)
Definition flip_years (from_year to_year : Z) : DB unit :=
  modify (λ s, s <| academic_years ::= alter (λ y, y <| ye_status := "closed" |>) from_year |>) ;;
  t ← gets academic_years;
  check (forallb (λ kv : Z * year_row, (kv.1 =? to_year) || negb (bool_decide (ye_status kv.2 = "active")))
           (map_to_list t)) "one_active_academic_year" ;;
  modify (λ s, s <| academic_years ::= alter (λ y, y <| ye_status := "active" |>
    <| ye_rolled_from := Some from_year |>) to_year |>).

Definition count_lines (action : string) (lines : list (Z * line_row)) : Z :=
  Z.of_nat (List.length (List.filter (λ kv : Z * line_row, bool_decide (effective kv.2 = action)) lines)).

Definition summary_of (lines : list (Z * line_row)) : rollover_summary :=
  {| sm_promoted := count_lines "promote" lines; sm_graduated := count_lines "graduate" lines;
     sm_withdrawn := count_lines "withdraw" lines; sm_held := count_lines "hold" lines |}.

Definition unapplied_lines (rid : Z) (s : TenantDB) : list (Z * line_row) :=
  by_id (select (λ _ l, (li_rollover l =? rid) && bool_decide (li_applied_at l = None))
           (rollover_lines s)).

Definition commit_year_rollover (rid : Z) (changed_by : pyid) : DB rollover_row :=
  let cb := if pyid_truthy changed_by then parse_id changed_by else PNone in
  transaction (
    o ← get_year_rollover_by_id rid;
    rollover ← from_option_or o (rollover_not_found rid);
    if bool_decide (ro_state rollover = "committed") then mret rollover
    else
      guard_or (bool_decide (ro_state rollover = "previewed"))
        (ValueError ("Rollover must be previewed before it can be committed (current state: "
           +:+ ro_state rollover +:+ ")")) ;;
      let from_year := ro_from rollover in
      let to_year := ro_to rollover in
      update_rollover_state rid "committing" None ;;
      lines ← gets (unapplied_lines rid);
      resolved ← resolve_classes to_year lines [];
      years ← gets academic_years;
      let exit_date := years !! from_year ≫= ye_end in
      applied ← apply_lines resolved exit_date cb lines;
      now ← gets clock;
      modify (λ s, s <| rollover_lines ::= update_where
        (λ k l, bool_decide (k ∈ applied) && bool_decide (li_applied_at l = None))
        (λ l, l <| li_applied_at := Some now |>) |>) ;;
      flip_years from_year to_year ;;
      update_rollover_state rid "committed" (Some (summary_of lines)) ;;
      after ← get_year_rollover_by_id rid;
      from_option_or after none_error).

Definition commit_rollover (rollover_id : Z) (changed_by : pyid) (user_role : role_arg) :
    DB rollover_row :=
  gate user_role admins "Only a school admin can commit a rollover" ;;
  commit_year_rollover rollover_id changed_by.

(** ** Planning touches nothing but the plan *)
Record plan_frame (s s' : TenantDB) : Prop := {
  pf_students : students s' = students s;
  pf_classes : classes s' = classes s;
  pf_levels : levels s' = levels s;
  pf_years : academic_years s' = academic_years s;
  pf_history : class_history s' = class_history s;
  pf_rollovers : rollovers s' = rollovers s;
  pf_enrollments : enrollments s' = enrollments s;
  pf_payments : payments s' = payments s;
}.

Lemma plan_frame_refl s : plan_frame s s.
Proof. by split. Qed.

Lemma upsert_line_frame s0 rid p : preserves (plan_frame s0) (upsert_line rid p).
Proof.
  unfold upsert_line, insert_serial. preserve; apply preserves_modify; by intros ? [].
Qed.

Lemma upsert_lines_frame s0 rid ps : preserves (plan_frame s0) (upsert_rollover_lines rid ps).
Proof.
  unfold upsert_rollover_lines. apply preserves_transaction; [by intros ? ? []|].
  apply preserves_bind; [|intros _].
  - apply preserves_modify. by intros ? [].
  - apply preserves_for_each. intros p _. apply upsert_line_frame.
Qed.

Lemma recompute_frame s0 rid fy : preserves (plan_frame s0) (_recompute_rollover_lines rid fy).
Proof.
  unfold _recompute_rollover_lines, get_rollover_plan_facts, get_rollover_lines.
  preserve. apply upsert_lines_frame.
Qed.

Lemma get_rollover_preserves I rid role : preserves I (get_rollover rid role).
Proof.
  unfold get_rollover, gate, get_year_rollover_by_id, get_rollover_lines. preserve.
Qed.

Lemma wp_update_rollover_state rid st sm r s (Q : unit → TenantDB → Prop) E :
  rollovers s !! rid = Some r →
  Q tt (s <| rollovers := <[rid := r <| ro_state := st |>
     <| ro_summary := opt_or_opt sm (ro_summary r) |>]> (rollovers s) |>) →
  wp (update_rollover_state rid st sm) Q E s.
Proof.
  intros Hr HQ. unfold update_rollover_state. wp_simpl.
  assert (alter (λ r0, (r0 <| ro_state := st |>)
      <| ro_summary := opt_or_opt sm (ro_summary r0) |>) rid (rollovers s) =
    <[rid := (r <| ro_state := st |>) <| ro_summary := opt_or_opt sm (ro_summary r) |>]>
      (rollovers s)) as Ha.
  { apply map_eq. intros k. destruct (decide (rid = k)) as [<-|Hne].
    - by rewrite lookup_alter_eq, lookup_insert_eq, Hr.
    - by rewrite lookup_alter_ne, lookup_insert_ne. }
  unfold set_field at 1. simpl. unfold set_field in HQ at 1. simpl in HQ.
  by rewrite Ha.
Qed.

(** ** The lines a recompute leaves *)
Definition lines_unique (s : TenantDB) : Prop :=
  ∀ i j l l', rollover_lines s !! i = Some l → rollover_lines s !! j = Some l' →
    li_rollover l = li_rollover l' → li_student l = li_student l' → i = j.

Record wf_plan (s : TenantDB) : Prop := {
  wp_unique : lines_unique s;
  wp_fresh : ids_below (nextid s) (rollover_lines s);
}.

Lemma line_of_true rid sid k l :
  line_of rid sid (k, l) = true ↔ li_rollover l = rid ∧ li_student l = sid.
Proof. unfold line_of. simpl. by rewrite andb_true_iff, !Z.eqb_eq. Qed.

(** One upsert: a new line under a fresh id, or the student's line updated. *)
Definition updated_line (p : plan_line) (l : line_row) : line_row :=
  let fixed := match li_override l with Some _ => true | None => false end in
  l <| li_from_class := truthy_int (pn_from_class p) |>
    <| li_proposed := pn_proposed p |>
    <| li_exception := pn_exception p |>
    <| li_to_level := if fixed then li_to_level l else truthy_int (pn_to_level p) |>
    <| li_to_section := if fixed then li_to_section l else pn_to_section p |>.

Definition new_line (rid : Z) (p : plan_line) : line_row :=
  {| li_rollover := rid; li_student := pn_student p;
     li_from_class := truthy_int (pn_from_class p);
     li_to_level := truthy_int (pn_to_level p); li_to_section := pn_to_section p;
     li_to_class := None; li_proposed := pn_proposed p; li_override := None;
     li_exception := pn_exception p; li_applied_at := None |}.

Lemma wp_upsert_line rid p s (Q : TenantDB → Prop) (E : exn → TenantDB → Prop) :
  ((∀ i l, rollover_lines s !! i = Some l → ¬ (li_rollover l = rid ∧ li_student l = pn_student p)) →
   Q (s <| rollover_lines ::= <[nextid s := new_line rid p]> |> <| nextid := nextid s + 1 |>)) →
  (∀ lid l, rollover_lines s !! lid = Some l → li_rollover l = rid → li_student l = pn_student p →
   Q (s <| rollover_lines ::= <[lid := updated_line p l]> |>)) →
  (∀ e, E e s) →
  wp (upsert_line rid p) (λ _, Q) E s.
Proof.
  intros Hnew Hupd HE. unfold upsert_line. wp_simpl.
  do 4 (apply wp_readonly; [intros ?; auto with pres| |done]; intros _; wp_simpl).
  destruct (head _) as [[lid l]|] eqn:Hh.
  - apply head_elem, elem_of_select in Hh as [Hl Hm%line_of_true]. wp_simpl.
    destruct Hm. by apply Hupd.
  - unfold insert_serial. wp_simpl. apply Hnew. intros i l Hi Hm.
    assert ((i, l) ∈ select (λ k l, line_of rid (pn_student p) (k, l)) (rollover_lines s)) as Hin.
    { apply elem_of_select. by rewrite line_of_true. }
    destruct (select _ _); [set_solver|done].
Qed.

(** What of a line survives a recompute: the override and its target. *)
Record frozen (l l' : line_row) : Prop := {
  fz_rollover : li_rollover l' = li_rollover l;
  fz_student : li_student l' = li_student l;
  fz_override : li_override l' = li_override l;
  fz_applied : li_applied_at l' = li_applied_at l;
  fz_target : li_override l ≠ None → line_key l' = line_key l;
}.

Lemma frozen_refl l : frozen l l.
Proof. by split. Qed.
Lemma frozen_trans l1 l2 l3 : frozen l1 l2 → frozen l2 l3 → frozen l1 l3.
Proof.
  intros [] []. split; try congruence. intros Ho.
  rewrite fz_target1 by congruence. auto.
Qed.
Lemma frozen_updated p l : frozen l (updated_line p l).
Proof. split; try done. unfold updated_line, line_key. simpl. by destruct (li_override l). Qed.

(** A line that states the proposal [p]. *)
Record proposes (p : plan_line) (l : line_row) : Prop := {
  pr_student : li_student l = pn_student p;
  pr_proposed : li_proposed l = pn_proposed p;
  pr_from_class : li_from_class l = truthy_int (pn_from_class p);
  pr_exception : li_exception l = pn_exception p;
  pr_target : li_override l = None →
    line_key l = (truthy_int (pn_to_level p), pn_to_section p);
}.

Lemma proposes_new rid p : proposes p (new_line rid p).
Proof. by split. Qed.
Lemma proposes_updated p l : li_student l = pn_student p → proposes p (updated_line p l).
Proof. split; try done. unfold updated_line, line_key. simpl. by destruct (li_override l). Qed.

(** The lines of rollover [rid] once [seen] have been upserted. *)
Record planned (rid : Z) (ids : list Z) (s : TenantDB) (seen : list plan_line)
    (s' : TenantDB) : Prop := {
  pl_wf : wf_plan s';
  pl_others : ∀ i l, li_rollover l ≠ rid →
    rollover_lines s' !! i = Some l ↔ rollover_lines s !! i = Some l;
  pl_students : ∀ i l, rollover_lines s' !! i = Some l → li_rollover l = rid →
    li_student l ∈ ids;
  pl_proposes : ∀ i l, rollover_lines s' !! i = Some l → li_rollover l = rid →
    li_student l ∈ map pn_student seen → ∃ p, p ∈ seen ∧ proposes p l;
  pl_covers : ∀ p, p ∈ seen → ∃ i l, rollover_lines s' !! i = Some l ∧
    li_rollover l = rid ∧ li_student l = pn_student p;
  pl_frozen : ∀ i l, rollover_lines s !! i = Some l → li_rollover l = rid →
    li_student l ∈ ids → ∃ l', rollover_lines s' !! i = Some l' ∧ frozen l l';
}.

Lemma planned_start rid ids s :
  wf_plan s →
  planned rid ids s [] (s <| rollover_lines ::= delete_where (λ _ l,
    (li_rollover l =? rid) && negb (bool_decide (li_student l ∈ ids))) |>).
Proof.
  intros [Hu Hf].
  assert (∀ i l, delete_where (λ _ l, (li_rollover l =? rid) &&
      negb (bool_decide (li_student l ∈ ids))) (rollover_lines s) !! i = Some l ↔
    rollover_lines s !! i = Some l ∧ (li_rollover l = rid → li_student l ∈ ids)) as Hd.
  { intros i l. rewrite lookup_delete_where, andb_false_iff, negb_false_iff.
    rewrite bool_decide_eq_true, Z.eqb_neq. destruct (decide (li_rollover l = rid)); naive_solver. }
  split; simpl.
  - split.
    + intros i j l l' [Hi _]%Hd [Hj _]%Hd. eauto.
    + apply (ids_below_subset _ _ _ Hf). intros k [l [Hk _]%Hd]. eauto.
  - intros i l Hr. rewrite Hd. naive_solver.
  - intros i l [_ Hi]%Hd. done.
  - set_solver.
  - set_solver.
  - intros i l Hi Hr Hs. exists l. split; [|apply frozen_refl]. by apply Hd.
Qed.

Lemma planned_new rid ids s seen s1 p :
  pn_student p ∈ ids → planned rid ids s seen s1 →
  (∀ i l, rollover_lines s1 !! i = Some l → ¬ (li_rollover l = rid ∧ li_student l = pn_student p)) →
  planned rid ids s (seen ++ [p])
    (s1 <| rollover_lines ::= <[nextid s1 := new_line rid p]> |> <| nextid := nextid s1 + 1 |>).
Proof.
  intros Hp [[Hu Hf] Ho Hs Hpr Hc Hz] Hno.
  pose proof (ids_below_fresh _ _ Hf) as Hfresh.
  split; simpl.
  - split.
    + intros i j l l'. simpl.
      rewrite !lookup_insert_Some. intros [[<- <-]|[_ Hi]] [[<- <-]|[_ Hj]] Hr Hst.
      * done.
      * exfalso. simpl in *. by apply (Hno j l').
      * exfalso. simpl in *. by apply (Hno i l).
      * eauto.
    + simpl. apply ids_below_insert; [eapply ids_below_mono; [done|]|]; lia.
  - intros i l Hr. rewrite <-Ho by done. rewrite lookup_insert_Some. split.
    + by intros [[<- <-]|[_ ?]].
    + intros Hi. right. split; [|done]. intros <-. congruence.
  - intros i l. rewrite lookup_insert_Some. intros [[<- <-]|[_ ?]]; eauto.
  - intros i l Hi Hr Hst. apply lookup_insert_Some in Hi as [[<- <-]|[_ Hi]].
    + exists p. split; [set_solver|apply proposes_new].
    + rewrite map_app in Hst. apply elem_of_app in Hst as [Hst|Hst].
      * destruct (Hpr i l Hi Hr Hst) as (q & ? & ?). exists q. split; [set_solver|done].
      * exfalso. apply list_elem_of_singleton in Hst. by apply (Hno i l Hi).
  - intros q [Hq| ->%list_elem_of_singleton]%elem_of_app.
    + destruct (Hc q Hq) as (i & l & Hi & ?). exists i, l.
      split; [|done]. rewrite lookup_insert_ne; [done|]. intros <-. congruence.
    + exists (nextid s1), (new_line rid p). by rewrite lookup_insert_eq.
  - intros i l Hi Hr Hst. destruct (Hz i l Hi Hr Hst) as (l' & Hl' & ?). exists l'.
    split; [|done]. rewrite lookup_insert_ne; [done|]. intros <-. congruence.
Qed.

Lemma planned_updated rid ids s seen s1 p lid l0 :
  planned rid ids s seen s1 →
  rollover_lines s1 !! lid = Some l0 → li_rollover l0 = rid → li_student l0 = pn_student p →
  planned rid ids s (seen ++ [p]) (s1 <| rollover_lines ::= <[lid := updated_line p l0]> |>).
Proof.
  intros [[Hu Hf] Ho Hs Hpr Hc Hz] Hlid Hr0 Hs0.
  assert (∀ i l, <[lid := updated_line p l0]> (rollover_lines s1) !! i = Some l →
    ∃ l1, rollover_lines s1 !! i = Some l1 ∧ frozen l1 l) as Hback.
  { intros i l [[<- <-]|[_ ?]]%lookup_insert_Some.
    - exists l0. split; [done|apply frozen_updated].
    - exists l. split; [done|apply frozen_refl]. }
  split; simpl.
  - split.
    + intros i j l l' Hi Hj Hr Hst.
      destruct (Hback i l Hi) as (l1 & H1 & []), (Hback j l' Hj) as (l1' & H1' & []).
      apply (Hu i j l1 l1'); congruence.
    + apply ids_below_insert; [done|]. apply Hf. eauto.
  - intros i l Hr. rewrite <-Ho by done. rewrite lookup_insert_Some. split.
    + intros [[<- <-]|[_ ?]]; [|done]. done.
    + intros Hi. right. split; [|done]. intros <-. congruence.
  - intros i l Hi Hr. destruct (Hback i l Hi) as (l1 & H1 & []).
    rewrite fz_student0. eapply Hs; [done|congruence].
  - intros i l Hi Hr Hst. apply lookup_insert_Some in Hi as [[<- <-]|[Hne Hi]].
    + exists p. split; [set_solver|by apply proposes_updated].
    + rewrite map_app in Hst. apply elem_of_app in Hst as [Hst|Hst].
      * destruct (Hpr i l Hi Hr Hst) as (q & ? & ?). exists q. split; [set_solver|done].
      * exfalso. apply Hne. apply list_elem_of_singleton in Hst.
        apply (Hu lid i l0 l); congruence.
  - intros q [Hq| ->%list_elem_of_singleton]%elem_of_app.
    + destruct (Hc q Hq) as (i & l & Hi & Hrl & Hsl). destruct (decide (lid = i)) as [<-|Hne].
      * exists lid, (updated_line p l0). rewrite lookup_insert_eq. split_and!; [done|done|].
        simpl. congruence.
      * exists i, l. by rewrite lookup_insert_ne.
    + exists lid, (updated_line p l0). by rewrite lookup_insert_eq.
  - intros i l Hi Hr Hst. destruct (Hz i l Hi Hr Hst) as (l' & Hl' & Hfz).
    destruct (decide (lid = i)) as [<-|Hne].
    + exists (updated_line p l0). rewrite lookup_insert_eq. split; [done|].
      eapply frozen_trans; [done|]. replace l' with l0 by congruence. apply frozen_updated.
    + exists l'. by rewrite lookup_insert_ne.
Qed.

Lemma wp_upsert_lines rid ps s :
  wf_plan s →
  wp (upsert_rollover_lines rid ps)
    (λ _ s', planned rid (map pn_student ps) s ps s')
    (λ _ s', s' = s <| nextid := nextid s' |>) s.
Proof.
  intros Hwf. unfold upsert_rollover_lines. wp_simpl.
  eapply wp_mono.
  - apply (wp_for_each_prefix ps _ (planned rid (map pn_student ps) s) (λ _ _, True)).
    + by apply planned_start.
    + intros seen p todo s1 -> HI. apply wp_upsert_line; [| |done].
      * intros Hno. apply planned_new; [|done|done]. rewrite map_app. set_solver.
      * intros lid l Hl Hr Hs. by apply planned_updated.
  - done.
  - done.
Qed.

(** Who the plan covers: the enrolled students placed in a class of the
    source year. *)
Definition in_plan (fy : Z) (s : TenantDB) (sid : Z) : Prop :=
  ∃ r cid c l, students s !! sid = Some r ∧ st_status r = "enrolled" ∧
    st_class r = Some cid ∧ classes s !! cid = Some c ∧ cl_year c = fy ∧
    levels s !! cl_level c = Some l.

Lemma next_levels_inhabited s l : ∃ nl, nl ∈ next_levels s l.
Proof.
  unfold next_levels. destruct (lv_ordinal l) as [o|]; [|exists None; set_solver].
  destruct (select _ _) as [|kv t]; [exists None; set_solver|].
  exists (Some kv.1). simpl. set_solver.
Qed.

Lemma elem_of_plan_facts fy s f :
  f ∈ plan_facts fy s ↔ ∃ sid r, students s !! sid = Some r ∧ f ∈ facts_of_student s fy (sid, r).
Proof.
  unfold plan_facts. rewrite list_elem_of_In, in_concat. setoid_rewrite <-list_elem_of_In. split.
  - intros (fs & ([sid r] & -> & Hin%elem_of_map_to_list)%list_elem_of_fmap & Hf). eauto.
  - intros (sid & r & Hr & Hf). eexists. split; [|exact Hf].
    apply list_elem_of_fmap. exists (sid, r). split; [done|]. by apply elem_of_map_to_list.
Qed.

Lemma plan_facts_students fy s sid :
  sid ∈ map fa_student (plan_facts fy s) ↔ in_plan fy s sid.
Proof.
  rewrite list_elem_of_fmap. unfold in_plan. split.
  - intros (f & -> & (i & r & Hr & Hf)%elem_of_plan_facts). unfold facts_of_student in Hf.
    simpl in Hf. destruct (st_class r) as [cid|] eqn:Hcid; [|set_solver].
    destruct (classes s !! cid) as [c|] eqn:Hc; [|set_solver].
    destruct (levels s !! cl_level c) as [l|] eqn:Hl; [|set_solver].
    destruct (_ && _) eqn:Hcond; [|set_solver].
    apply andb_prop in Hcond as [Hy He%bool_decide_eq_true]. apply Z.eqb_eq in Hy.
    apply list_elem_of_fmap in Hf as (nl & -> & _). simpl. naive_solver.
  - intros (r & cid & c & l & Hr & He & Hcid & Hc & Hy & Hl).
    destruct (next_levels_inhabited s l) as [nl Hnl].
    eexists. split; [|apply elem_of_plan_facts; exists sid, r; split; [done|]].
    2: { unfold facts_of_student. simpl. rewrite Hcid, Hc, Hl, Hy, Z.eqb_refl.
         rewrite bool_decide_true by done. simpl. apply list_elem_of_fmap.
         exists nl. split; [reflexivity|done]. }
    done.
Qed.

Lemma flag_students ex facts : map pn_student (flag_over_capacity ex facts) = map fa_student facts.
Proof.
  unfold flag_over_capacity. rewrite map_map. apply map_ext. intros f.
  destruct (effective_target _ _); [|done]. by destruct (_ <? _).
Qed.

(** A flagged line is its fact's natural line but for the exception. *)
Lemma elem_of_flagged ex facts p :
  p ∈ flag_over_capacity ex facts →
  ∃ f, f ∈ facts ∧ pn_student p = fa_student f ∧ pn_from_class p = Some (fa_from_class f) ∧ pn_proposed p = (classify f).1 ∧
    pn_to_level p = pn_to_level (natural_line f) ∧
    pn_to_section p = pn_to_section (natural_line f) ∧
    (pn_exception p = (classify f).2 ∨ pn_exception p = Some "over_capacity").
Proof.
  unfold flag_over_capacity. intros (f & -> & Hf)%list_elem_of_fmap. exists f.
  split; [done|]. destruct (effective_target _ _) as [key|]; [destruct (_ <? _)|];
    split_and!; auto.
Qed.

Lemma wp_recompute rid fy s :
  wf_plan s →
  wp (_recompute_rollover_lines rid fy)
    (λ _ s', plan_frame s s' ∧
       planned rid (map fa_student (plan_facts fy s)) s
         (flag_over_capacity (rollover_lines_of rid s) (plan_facts fy s)) s')
    (λ _ s', s' = s <| nextid := nextid s' |>) s.
Proof.
  intros Hwf. eapply wp_mono.
  - apply wp_conj; [by apply (recompute_frame s)|].
    unfold _recompute_rollover_lines, get_rollover_plan_facts, get_rollover_lines. wp_simpl.
    apply wp_upsert_lines, Hwf.
  - simpl. intros _ s' [? Hp]. by rewrite flag_students in Hp.
  - by intros e s' [_ ?].
Qed.

(** The clone rule of ADR 0003, on the tables: a level has a next one if a
    level has the following ordinal; a class clones forward if it is active
    and has a section label. *)
Definition next_level (s : TenantDB) (l : level_row) (id : Z) : Prop :=
  ∃ o nl, lv_ordinal l = Some o ∧ levels s !! id = Some nl ∧ lv_ordinal nl = Some (o + 1).
Inductive clone_rule (s : TenantDB) (c : class_row) (l : level_row) :
    string → option string → option Z → option string → Prop :=
  | no_next_level : (∀ id, ¬ next_level s l id) → clone_rule s c l "graduate" (Some "no_next_level") None None
  | class_inactive id : next_level s l id → cl_active c = false → clone_rule s c l "hold" (Some "no_placement") None None
  | class_unlabelled id : next_level s l id → cl_section c = None ∨ cl_section c = Some "" →
      clone_rule s c l "hold" (Some "no_placement") None None
  | class_clones id x : next_level s l id → cl_active c = true → cl_section c = Some x → x ≠ "" →
      clone_rule s c l "promote" None (Some id) (Some x).

Lemma elem_of_next_levels s l o :
  o ∈ next_levels s l → match o with Some id => next_level s l id | None => ∀ id, ¬ next_level s l id end.
Proof.
  unfold next_levels, next_level. destruct (lv_ordinal l) as [n|].
  2: { intros ->%list_elem_of_singleton. by intros id (? & ? & ? & _). }
  destruct (select _ _) as [|kv t] eqn:Hsel.
  - intros ->%list_elem_of_singleton. intros id (? & nl & [= <-] & Hl & Ho).
    assert ((id, nl) ∈ select (λ _ nl, bool_decide (lv_ordinal nl = Some (n + 1))) (levels s)) as Hin.
    { apply elem_of_select. by rewrite bool_decide_eq_true. }
    rewrite Hsel in Hin. by apply not_elem_of_nil in Hin.
  - rewrite <-Hsel. intros ([id nl] & -> & [Hl Ho%bool_decide_eq_true]%elem_of_select)%list_elem_of_fmap. by exists n, nl.
Qed.

(** A fact follows the rule of its student's class. *)
Lemma fact_follows_rule fy s f : f ∈ plan_facts fy s →
  ∃ r c l, students s !! fa_student f = Some r ∧ st_status r = "enrolled" ∧ st_class r = Some (fa_from_class f) ∧
    classes s !! fa_from_class f = Some c ∧ cl_year c = fy ∧ levels s !! cl_level c = Some l ∧
    clone_rule s c l (classify f).1 (classify f).2 (pn_to_level (natural_line f)) (pn_to_section (natural_line f)).
Proof.
  intros (sid & r & Hr & Hf)%elem_of_plan_facts. unfold facts_of_student in Hf. cbn [fst snd] in Hf.
  destruct (st_class r) as [cid|] eqn:Hcid; [|by apply not_elem_of_nil in Hf].
  destruct (classes s !! cid) as [c|] eqn:Hc; [|by apply not_elem_of_nil in Hf].
  destruct (levels s !! cl_level c) as [l|] eqn:Hl; [|by apply not_elem_of_nil in Hf].
  destruct (_ && _) eqn:Hcond; [|by apply not_elem_of_nil in Hf].
  apply andb_prop in Hcond as [Hy%Z.eqb_eq He%bool_decide_eq_true].
  apply list_elem_of_fmap in Hf as (nl & -> & Hnl%elem_of_next_levels).
  exists r, c, l. cbn. split_and!; try done. unfold classify, natural_line, classify. cbn.
  destruct nl as [id|]; cbn; [|by apply no_next_level].
  destruct (cl_active c) eqn:Ha; cbn; [|by eapply class_inactive].
  destruct (cl_section c) as [x|] eqn:Hx; cbn; [|by eapply class_unlabelled; eauto].
  case_bool_decide as Hx0; cbn; [subst x; by eapply class_unlabelled; eauto|]. by eapply class_clones.
Qed.

(** The lines of [rid] are the plan of [fy] in the state before; lines of
    other rollovers stay, and an override keeps its target. *)
Record plan_exact (rid fy : Z) (s s' : TenantDB) : Prop := {
  px_students : ∀ sid, (∃ i l, rollover_lines s' !! i = Some l ∧ li_rollover l = rid ∧ li_student l = sid) ↔ in_plan fy s sid;
  px_rule : ∀ i l, rollover_lines s' !! i = Some l → li_rollover l = rid →
    ∃ r cid c lv action exception to_level to_section,
      students s !! li_student l = Some r ∧ st_status r = "enrolled" ∧ st_class r = Some cid ∧
      classes s !! cid = Some c ∧ cl_year c = fy ∧ levels s !! cl_level c = Some lv ∧
      clone_rule s c lv action exception to_level to_section ∧
      li_from_class l = truthy_int (Some cid) ∧ li_proposed l = action ∧
      (li_exception l = exception ∨ li_exception l = Some "over_capacity") ∧
      (li_override l = None → li_to_level l = truthy_int to_level ∧ li_to_section l = to_section);
  px_kept : ∀ i l, rollover_lines s !! i = Some l → li_rollover l = rid → in_plan fy s (li_student l) →
    ∃ l', rollover_lines s' !! i = Some l' ∧ frozen l l';
  px_others : ∀ i l, li_rollover l ≠ rid → rollover_lines s' !! i = Some l ↔ rollover_lines s !! i = Some l;
}.

Lemma planned_exact rid fy s ex s' :
  planned rid (map fa_student (plan_facts fy s)) s (flag_over_capacity ex (plan_facts fy s)) s' →
  plan_exact rid fy s s'.
Proof.
  intros [_ Ho Hs Hpr Hc Hz]. rewrite flag_students in Hpr. split; [| | |done].
  - intros sid. rewrite <-plan_facts_students. split.
    + intros (i & l & Hi & Hr & <-). eauto.
    + rewrite <-(flag_students ex). intros (p & -> & Hp)%list_elem_of_fmap. eauto.
  - intros i l Hi Hr. destruct (Hpr i l Hi Hr) as (p & Hp & [Hps Hpp Hpf Hpe Hpt]); [eauto|].
    destruct (elem_of_flagged _ _ _ Hp) as (f & Hf & Hfs & Hfc & Hfp & Hfl & Hfsec & Hfe).
    destruct (fact_follows_rule fy s f Hf) as (r & c & lv & Hst & He & Hcid & Hcl & Hy & Hlv & Hrule).
    exists r, (fa_from_class f), c, lv, (classify f).1, (classify f).2, (pn_to_level (natural_line f)), (pn_to_section (natural_line f)).
    split_and!; try done; try congruence.
    intros Hov. specialize (Hpt Hov). unfold line_key in Hpt. injection Hpt as -> ->. by rewrite Hfl, Hfsec.
  - intros i l Hi Hr Hin%plan_facts_students. by apply Hz.
Qed.

(** ** Properties of the plan *)

(** C36: a recomputed plan is exact. After [_recompute_rollover_lines] the
    rollover has a line for every enrolled student placed in the source year
    and for nobody else. Each line carries the action that the clone rule of
    ADR 0003 gives on the tables: graduate when no level has the next
    ordinal, hold when the class is inactive or has no section label,
    promote to the next level and the same section otherwise. Its exception
    is the one of the rule or [over_capacity]; without an override it has
    the target of the rule, with one it keeps its own. Lines of other
    rollovers and all other tables stay. If it raises, no table has changed. *)
Theorem rollover_plan_is_exact rid fy s :
  wf_plan s →
  match _recompute_rollover_lines rid fy s with
  | (Ok _, s') => wf_plan s' ∧ plan_frame s s' ∧ plan_exact rid fy s s'
  | (Raise _, s') => s' = s <| nextid := nextid s' |>
  end.
Proof.
  intros Hwf. pose proof (wp_recompute rid fy s Hwf) as H. unfold wp in H.
  destruct (_recompute_rollover_lines rid fy s) as [[[]|e] s']; [|done].
  destruct H as [Hf Hp]. split_and!; [apply Hp|done|by eapply planned_exact].
Qed.

Lemma demo_wf_plan : wf_plan demo_rollover.
Proof.
  split.
  - intros i j l l' Hi Hj Hr Hs. demo_rows Hi; demo_rows Hj; done.
  - intros k [l Hl]. demo_rows Hl; vm_compute; done.
Qed.

Lemma rollover_plan_is_exact_witness :
  match _recompute_rollover_lines 91 1 demo_rollover with
  | (Ok _, s') => wf_plan s' ∧ plan_frame demo_rollover s' ∧ plan_exact 91 1 demo_rollover s'
  | (Raise _, s') => s' = demo_rollover <| nextid := nextid s' |>
  end.
Proof. exact (rollover_plan_is_exact 91 1 demo_rollover demo_wf_plan). Defined.

(** An override survives every recompute. Whatever becomes of a
    preview (success, unresolved lines, a database error), a line whose
    override an administrator has set, for a student still enrolled in the
    source year, keeps its override, its target level and its target
    section. *)
Theorem rollover_overrides_survive rid role s i l r :
  wf_plan s →
  rollovers s !! rid = Some r →
  rollover_lines s !! i = Some l → li_rollover l = rid → li_override l ≠ None →
  in_plan (ro_from r) s (li_student l) →
  ∃ l', rollover_lines (preview_rollover rid role s).2 !! i = Some l' ∧
    li_override l' = li_override l ∧ line_key l' = line_key l.
Proof.
  intros Hwf Hr Hi Hl Ho Hin.
  set (P := λ s' : TenantDB, ∃ l', rollover_lines s' !! i = Some l' ∧
    li_override l' = li_override l ∧ line_key l' = line_key l).
  assert (P s) as HP by (exists l; done).
  assert (wp (preview_rollover rid role) (λ _, P) (λ _, P) s) as H.
  { unfold preview_rollover, gate, get_year_rollover_by_id. wp_simpl.
    destruct (require _ _); [|done]. wp_simpl. rewrite Hr. wp_simpl.
    destruct (negb _); [|done]. wp_simpl.
    eapply wp_mono; [by apply wp_recompute| |by intros e s' ->].
    intros _ s' [_ Hp]. destruct (pl_frozen _ _ _ _ _ Hp i l Hi Hl) as (l' & Hl' & Hz).
    { by apply plan_facts_students. }
    assert (P s') as HP'.
    { exists l'. split_and!; [done|apply Hz|by apply Hz]. }
    unfold get_rollover_lines. wp_simpl. destruct (bool_decide _); [|done].
    unfold update_rollover_state. wp_simpl.
    by apply (get_rollover_preserves P). }
  unfold wp in H. by destruct (preview_rollover rid role s) as [[v|e] s'].
Qed.

Lemma rollover_overrides_survive_witness :
  ∃ l', rollover_lines (preview_rollover 91 admin_role demo_rollover).2 !! 93 = Some l' ∧
    li_override l' = Some "withdraw" ∧ line_key l' = (None, None).
Proof.
  eapply (rollover_overrides_survive 91 admin_role demo_rollover 93
    demo_withdrawn).
  - exact demo_wf_plan.
  - reflexivity.
  - reflexivity.
  - reflexivity.
  - discriminate.
  - apply plan_facts_students. vm_compute. set_solver.
Defined.

(** The preview gate. A preview that answers leaves the rollover in
    state ["previewed"] and no line of it is held, whatever was overridden;
    a preview that raises leaves every rollover in the state it was in.
    Either way students, classes, levels, years, enrollments, payments and
    the placement log are untouched. *)
Theorem preview_rollover_gate rid role s :
  match preview_rollover rid role s with
  | (Ok v, s') => ∃ r, rollovers s !! rid = Some r ∧ ro_state r ≠ "committed" ∧
      rollovers s' = <[rid := r <| ro_state := "previewed" |>]> (rollovers s) ∧
      rv_blocking v = [] ∧
      (∀ i l, rollover_lines s' !! i = Some l → li_rollover l = rid →
         is_Some (students s' !! li_student l) → effective l ≠ "hold") ∧
      plan_frame (s <| rollovers := rollovers s' |>) s'
  | (Raise _, s') => plan_frame s s'
  end.
Proof.
  change (wp (preview_rollover rid role)
    (λ v s', ∃ r, rollovers s !! rid = Some r ∧ ro_state r ≠ "committed" ∧
      rollovers s' = <[rid := r <| ro_state := "previewed" |>]> (rollovers s) ∧
      rv_blocking v = [] ∧
      (∀ i l, rollover_lines s' !! i = Some l → li_rollover l = rid →
         is_Some (students s' !! li_student l) → effective l ≠ "hold") ∧
      plan_frame (s <| rollovers := rollovers s' |>) s') (λ _, plan_frame s) s).
  pose proof (plan_frame_refl s) as Hrefl.
  unfold preview_rollover, gate, get_year_rollover_by_id. wp_simpl.
  destruct (require role admins) eqn:Hrole; [|done]. wp_simpl.
  destruct (rollovers s !! rid) as [r|] eqn:Hr; [|done]. wp_simpl.
  destruct (negb _) eqn:Hc; [|done]. wp_simpl.
  apply negb_true_iff, bool_decide_eq_false in Hc.
  eapply wp_mono; [by apply (recompute_frame s)| |done].
  intros [] s1 Hf. simpl in Hf. unfold get_rollover_lines. wp_simpl.
  case_bool_decide as Hb; [|done]. rewrite wp_bind.
  apply (wp_update_rollover_state rid "previewed" None r);
    [by rewrite (pf_rollovers _ _ Hf)|].
  rewrite (pf_rollovers _ _ Hf).
  unfold get_rollover, gate, get_year_rollover_by_id, get_rollover_lines. wp_simpl.
  rewrite Hrole. wp_simpl. simpl. rewrite lookup_insert_eq. wp_simpl.
  exists r. split_and!; try done.
  - change (fst <$> List.filter is_hold (rollover_lines_of rid s1) = []). by rewrite Hb.
  - intros i l Hi Hl Hs He.
    assert ((i, l) ∈ List.filter is_hold (rollover_lines_of rid s1)) as Hin.
    { rewrite list_elem_of_In, filter_In, <-list_elem_of_In. split.
      - unfold rollover_lines_of. rewrite elem_of_by_id, elem_of_select. simpl.
        split; [done|]. rewrite Hl, Z.eqb_refl. by apply has_row_true.
      - unfold is_hold. by apply bool_decide_eq_true. }
    rewrite Hb in Hin. set_solver.
  - split; try apply Hf; done.
Qed.

(** ** The commit *)
(** What a line asks for: the override, if there is one, else the proposal. *)
Inductive line_action (l : line_row) : string → Prop :=
  | overridden a : li_override l = Some a → line_action l a
  | as_proposed : li_override l = None → line_action l (li_proposed l).
Lemma effective_action l a : effective l = a ↔ line_action l a.
Proof.
  unfold effective. split.
  - intros <-. destruct (li_override l) as [o|] eqn:Ho; [by left|by right].
  - by intros [? -> | ->].
Qed.
Definition section_text (o : option string) : string := match o with Some x => x | None => "None" end.

Definition named_target (to_year : Z) (s : TenantDB) (key : target_key) (id : Z) : Prop :=
  ∃ c lid lv, classes s !! id = Some c ∧ cl_year c = to_year ∧
    key.1 = Some lid ∧ levels s !! lid = Some lv ∧
    cl_name c = lv_name lv +:+ " - " +:+ section_text key.2.

(** A class that step 1 adds: the target of a promoting line, with the head
    teacher and the capacity of the class the student comes from. *)
Definition cloned (to_year : Z) (lines : list (Z * line_row)) (s : TenantDB) (c : class_row) : Prop :=
  ∃ lid l from_class source to_level lv, (lid, l) ∈ lines ∧ line_action l "promote" ∧
    li_from_class l = Some from_class ∧ classes s !! from_class = Some source ∧
    li_to_level l = Some to_level ∧ levels s !! to_level = Some lv ∧
    c = {| cl_name := lv_name lv +:+ " - " +:+ section_text (li_to_section l); cl_level := to_level;
           cl_head := cl_head source; cl_capacity := cl_capacity source; cl_active := true;
           cl_year := to_year; cl_section := li_to_section l |}.

(** Step 1 only adds classes. *)
Record classes_grown (s s' : TenantDB) : Prop := {
  cg_state : s' = s <| classes := classes s' |> <| nextid := nextid s' |>;
  cg_kept : ∀ k c, classes s !! k = Some c → classes s' !! k = Some c;
  cg_fresh : ids_below (nextid s') (classes s');
  cg_next : nextid s ≤ nextid s';
}.

Lemma classes_grown_refl s : ids_below (nextid s) (classes s) → classes_grown s s.
Proof. intros H. split; [by destruct s|done|done|lia]. Qed.

Lemma classes_grown_trans s1 s2 s3 :
  classes_grown s1 s2 → classes_grown s2 s3 → classes_grown s1 s3.
Proof.
  intros [H1 K1 _ N1] [H2 K2 F2 N2]. split; [|by eauto|done|lia].
  rewrite H2, H1. done.
Qed.

Lemma named_target_grown to_year s s' key id :
  classes_grown s s' → named_target to_year s key id → named_target to_year s' key id.
Proof.
  intros [Hs K _ _] (c & lid & lv & Hc & Hy & Hk & Hl & Hn). exists c, lid, lv.
  split_and!; auto. by rewrite Hs.
Qed.

Lemma key_lookup_snoc key resolved key' id :
  key_lookup key (resolved ++ [(key', id)]) =
  match key_lookup key resolved with
  | Some i => Some i
  | None => if bool_decide (key' = key) then Some id else None
  end.
Proof.
  unfold key_lookup. rewrite List.filter_app.
  destruct (List.filter _ resolved) as [|kv t]; simpl; [|done].
  by case_bool_decide.
Qed.

Definition res_ok (to_year : Z) (s : TenantDB) (resolved : list (target_key * Z)) : Prop :=
  ∀ key id, key_lookup key resolved = Some id → named_target to_year s key id.

Lemma cloned_grown to_year lines lines' s s' c :
  classes_grown s s' → (∀ kv, kv ∈ lines → kv ∈ lines') → cloned to_year lines s c → cloned to_year lines' s' c.
Proof.
  intros Hg Hsub (lid & l & fc & src & tl & lv & Hin & Hp & Hfc & Hsrc & Htl & Hlv & Hc).
  exists lid, l, fc, src, tl, lv. split_and!; auto; [by apply (cg_kept _ _ Hg)|by rewrite (cg_state _ _ Hg)].
Qed.

Lemma wp_clone_class to_year lid l fc lines s :
  ids_below (nextid s) (classes s) → (lid, l) ∈ lines → effective l = "promote" → li_from_class l = Some fc →
  wp (clone_class to_year l fc)
    (λ id s', classes_grown s s' ∧ named_target to_year s' (line_key l) id ∧
       ∀ k c, classes s' !! k = Some c → classes s !! k = None → cloned to_year lines s' c)
    (λ _ _, True) s.
Proof.
  intros Hwf Hin Hp Hfc. unfold clone_class. wp_simpl.
  destruct (classes s !! fc) as [src|] eqn:Hsrc; [|done]. wp_simpl.
  destruct (li_to_level l) as [tl|] eqn:Htl; simpl; [|done].
  destruct (levels s !! tl) as [lv|] eqn:Hlv; simpl; [|done]. wp_simpl.
  destruct (head _) as [[id c]|] eqn:Hh.
  - apply head_elem, elem_of_select in Hh as [Hc Hm]. simpl in Hm.
    apply andb_prop in Hm as [Hn%bool_decide_eq_true Hy%Z.eqb_eq]. wp_simpl.
    split_and!; [by apply classes_grown_refl| |congruence]. exists c, tl, lv. unfold line_key. simpl. auto.
  - wp_simpl. apply wp_readonly; [intros ?; unfold check_class; preserve| |done].
    intros _. unfold insert_serial. wp_simpl. set (row := {| cl_name := _ |}).
    pose proof (ids_below_fresh _ _ Hwf) as Hfresh.
    assert (∀ k c, classes s !! k = Some c → <[nextid s := row]> (classes s) !! k = Some c) as Hkept.
    { intros k c Hk. rewrite lookup_insert_ne; [done|]. intros <-. congruence. }
    split_and!.
    + split; simpl; [by destruct s|done| |lia].
      apply ids_below_insert; [eapply ids_below_mono; [done|]|]; lia.
    + exists row, tl, lv. simpl. rewrite lookup_insert_eq. unfold line_key. auto.
    + intros k c. simpl. intros [[_ <-]|[_ Hk]]%lookup_insert_Some Hno; [|congruence].
      exists lid, l, fc, src, tl, lv. simpl. split_and!; auto. by apply effective_action.
Qed.

Lemma wp_resolve_classes to_year all lines resolved s :
  ids_below (nextid s) (classes s) → res_ok to_year s resolved → (∀ kv, kv ∈ lines → kv ∈ all) →
  wp (resolve_classes to_year lines resolved)
    (λ resolved' s', classes_grown s s' ∧ res_ok to_year s' resolved' ∧
       ∀ k c, classes s' !! k = Some c → classes s !! k = None → cloned to_year all s' c)
    (λ _ _, True) s.
Proof.
  revert resolved s. induction lines as [|[lid l] lines IH]; intros resolved s Hwf Hok Hall; cbn [resolve_classes].
  - wp_simpl. split_and!; [by apply classes_grown_refl|done|congruence].
  - assert (∀ kv, kv ∈ lines → kv ∈ all) as Hall' by (intros; apply Hall; by right).
    case_bool_decide as Hp; [|by apply IH]. cbn [negb].
    destruct (key_lookup (line_key l) resolved) eqn:Hk; [by apply IH|].
    destruct (truthy_int (li_from_class l)) as [fc|] eqn:Hfc; [|by apply IH].
    assert (li_from_class l = Some fc) as Hfc'.
    { unfold truthy_int in Hfc. destruct (li_from_class l) as [n|]; [|done]. by destruct (n =? 0). }
    wp_simpl. eapply wp_mono; [apply (wp_clone_class to_year lid l fc all); [done|apply Hall; left|done|done]| |done].
    intros id s1 (Hg & Hn & Hc1). eapply wp_mono; [apply IH; [apply Hg| |done]| |done].
    + intros key i. rewrite key_lookup_snoc. destruct (key_lookup key resolved) eqn:Hkey.
      * intros [= <-]. apply (named_target_grown _ s); auto.
      * case_bool_decide; [|done]. intros [= <-]. by subst key.
    + intros r s2 (Hg2 & Hr & Hc2). split_and!; [by eapply classes_grown_trans|done|].
      intros k c Hk2 Hk0. destruct (classes s1 !! k) as [c1|] eqn:Hk1; [|by eapply Hc2].
      assert (c1 = c) as -> by (apply (cg_kept _ _ Hg2) in Hk1; congruence).
      by apply (cloned_grown to_year all all s1), (Hc1 k).
Qed.

(** Step 2 on the student of a line. *)
Definition line_effect (resolved : list (target_key * Z)) (exit_date : option Z) (l : line_row)
    (r : student_row) : student_row :=
  if bool_decide (effective l = "promote") then r <| st_class := key_lookup (line_key l) resolved |>
  else if bool_decide (effective l = "graduate")
  then r <| st_class := None |> <| st_status := "graduated" |> <| st_exited := exit_date |>
  else if bool_decide (effective l = "withdraw")
  then r <| st_class := None |> <| st_status := "withdrawn" |> <| st_exited := exit_date |>
  else r.

Definition is_applied (l : line_row) : bool := mem (effective l) ["promote"; "graduate"; "withdraw"].

(** Step 2 on the line itself: the class a promoted student goes to. *)
Definition line_class (resolved : list (target_key * Z)) (l : line_row) : option Z :=
  if bool_decide (effective l = "promote") then key_lookup (line_key l) resolved else None.
Definition line_done (resolved : list (target_key * Z)) (l : line_row) : line_row :=
  if bool_decide (effective l = "promote") then l <| li_to_class := line_class resolved l |> else l.
(** Who the history names: the caller, if any. *)
Definition author_of (cb : pyid) : option Z := match parse_id (truthy_id cb) with PInt n => Some n | _ => None end.
Definition history_entry (resolved : list (target_key * Z)) (cb : pyid) (l : line_row) : history_row :=
  {| hi_student := li_student l; hi_old := li_from_class l; hi_new := line_class resolved l; hi_by := author_of cb |}.

(** What step 2 leaves alone. *)
Definition only_applied (s s' : TenantDB) : Prop :=
  s' = s <| students := students s' |> <| rollover_lines := rollover_lines s' |> <| class_history := class_history s' |>.
Lemma only_applied_trans s1 s2 s3 : only_applied s1 s2 → only_applied s2 s3 → only_applied s1 s3.
Proof. unfold only_applied. intros -> ->. done. Qed.

Lemma wp_author v (Q : option Z → TenantDB → Prop) (E : exn → TenantDB → Prop) s :
  Q (match parse_id v with PInt n => Some n | _ => None end) s → (∀ e, E e s) → wp (bind_bigint v) Q E s.
Proof.
  intros HQ HE. unfold bind_bigint, check. destruct (parse_id v); wp_simpl; try done; try apply HE.
  case_match; [wp_simpl; apply HQ|apply HE].
Qed.

Lemma wp_record_existing sid o n cb s (Q : unit → TenantDB → Prop) (E : exn → TenantDB → Prop) :
  (is_Some (students s !! sid) →
     Q tt (s <| class_history ::= λ l, l ++
       [{| hi_student := sid; hi_old := o; hi_new := n; hi_by := author_of cb |}] |>)) →
  (∀ e, E e s) →
  wp (_record_class_change sid o n cb) Q E s.
Proof.
  intros HQ HE. unfold _record_class_change. wp_simpl. apply wp_author; [|done]. wp_simpl.
  apply wp_check_fk; [|done]. intros Hs. wp_simpl.
  do 3 (apply wp_readonly; [intros ?; auto with pres| |done]; intros _; wp_simpl).
  by apply HQ.
Qed.

Lemma placement_logged_alter s f sid old new b :
  (∀ r, st_class (f r) = new) → is_Some (students s !! sid) → placement_logged s →
  placement_logged (s <| students ::= alter f sid |> <| class_history ::= λ l, l ++
    [{| hi_student := sid; hi_old := old; hi_new := new; hi_by := b |}] |>).
Proof.
  intros Hf [r Hr] H k. simpl. rewrite latest_placement_snoc. simpl.
  destruct (Z.eqb_spec sid k) as [->|Hne].
  - rewrite lookup_alter_eq, Hr. simpl. by rewrite Hf.
  - rewrite lookup_alter_ne by done. apply H.
Qed.

Lemma alter_is_Some {R} (f : R → R) k (t : gmap Z R) j :
  is_Some (alter f k t !! j) ↔ is_Some (t !! j).
Proof.
  destruct (decide (k = j)) as [<-|Hne]; [|by rewrite lookup_alter_ne].
  rewrite lookup_alter_eq. by rewrite fmap_is_Some.
Qed.
Lemma alter_id_at {R} (f : R → R) k (t : gmap Z R) : (∀ r, t !! k = Some r → f r = r) → alter f k t = t.
Proof.
  intros Hf. apply map_eq. intros j. destruct (decide (k = j)) as [<-|Hne]; [|by rewrite lookup_alter_ne].
  rewrite lookup_alter_eq. destruct (t !! k) as [r|] eqn:Hr; [|done]. simpl. by rewrite Hf.
Qed.

Lemma wp_apply_line resolved exit_date cb kv s :
  wp (apply_line resolved exit_date cb kv)
    (λ b s', b = is_applied kv.2 ∧ only_applied s s' ∧
       students s' = alter (line_effect resolved exit_date kv.2) (li_student kv.2) (students s) ∧
       (rollover_lines s !! kv.1 = Some kv.2 →
          rollover_lines s' = <[kv.1 := line_done resolved kv.2]> (rollover_lines s)) ∧
       class_history s' = class_history s ++ (if is_applied kv.2 then [history_entry resolved cb kv.2] else []) ∧
       (effective kv.2 = "promote" → is_Some (key_lookup (line_key kv.2) resolved)) ∧
       (is_applied kv.2 = true → is_Some (students s !! li_student kv.2)) ∧
       (placement_logged s → placement_logged s'))
    (λ _ _, True) s.
Proof.
  destruct kv as [lid l]. unfold apply_line, is_applied, line_effect, line_done, history_entry, line_class. cbn [fst snd].
  case_bool_decide as Hp.
  - rewrite Hp. wp_simpl. destruct (key_lookup _ _) as [id|] eqn:Hk; simpl; [|done].
    destruct (id =? 0) eqn:Hid; [done|]. unfold set_student_class. wp_simpl.
    apply wp_readonly; [intros ?; auto with pres| |done]. intros _. wp_simpl.
    apply wp_record_existing; [|done]. intros Hs. wp_simpl. simpl in Hs.
    apply alter_is_Some in Hs. split_and!; try done.
    + simpl. intros Hl. apply map_eq. intros k. destruct (decide (lid = k)) as [<-|Hne].
      * by rewrite lookup_alter_eq, Hl, lookup_insert_eq.
      * by rewrite lookup_alter_ne, lookup_insert_ne.
    + intros HL. by apply (placement_logged_alter s (λ r, r <| st_class := Some id |>)).
  - destruct (mem _ _) eqn:Hm.
    + wp_simpl. apply wp_record_existing; [|done]. intros Hs. wp_simpl. simpl in Hs.
      apply alter_is_Some in Hs. apply mem_true in Hm.
      assert (effective l = "graduate" ∨ effective l = "withdraw") as Hcase by set_solver.
      assert (mem (effective l) ["promote"; "graduate"; "withdraw"] = true) as -> by (apply mem_true; set_solver).
      split_and!; try done.
      * simpl. f_equal. by destruct Hcase as [-> | ->].
      * simpl. intros Hl. by rewrite insert_id.
      * intros HL. by apply (placement_logged_alter s (λ r, r <| st_class := None |>
          <| st_status := if bool_decide (effective l = "graduate") then "graduated" else "withdrawn" |>
          <| st_exited := exit_date |>)).
    + apply mem_false in Hm.
      assert (mem (effective l) ["promote"; "graduate"; "withdraw"] = false) as Hm'.
      { apply mem_false. set_solver. }
      rewrite Hm'. rewrite !bool_decide_false by set_solver. wp_simpl. split_and!; try done.
      * by destruct s.
      * by rewrite alter_id_at.
      * intros Hl. by rewrite insert_id.
      * by rewrite app_nil_r.
Qed.

(** All lines, each about a student of its own. *)
Lemma wp_apply_lines resolved exit_date cb lines s :
  NoDup ((li_student ∘ snd) <$> lines) → NoDup (lines.*1) →
  (∀ lid l, (lid, l) ∈ lines → rollover_lines s !! lid = Some l) →
  wp (apply_lines resolved exit_date cb lines)
    (λ applied s', applied = fst <$> List.filter (λ kv, is_applied kv.2) lines ∧
       only_applied s s' ∧
       (∀ lid l, (lid, l) ∈ lines →
          students s' !! li_student l =
            line_effect resolved exit_date l <$> students s !! li_student l ∧
          rollover_lines s' !! lid = Some (line_done resolved l) ∧
          (effective l = "promote" → is_Some (key_lookup (line_key l) resolved)) ∧
          (is_applied l = true → is_Some (students s !! li_student l))) ∧
       (∀ sid, sid ∉ (li_student ∘ snd) <$> lines → students s' !! sid = students s !! sid) ∧
       (∀ lid, lid ∉ lines.*1 → rollover_lines s' !! lid = rollover_lines s !! lid) ∧
       class_history s' = class_history s ++
         (history_entry resolved cb ∘ snd <$> List.filter (λ kv, is_applied kv.2) lines) ∧
       (placement_logged s → placement_logged s'))
    (λ _ _, True) s.
Proof.
  revert s. induction lines as [|kv lines IH]; intros s Hnd Hnd1 Hrows; cbn [apply_lines].
  - wp_simpl. split_and!; try done; [by destruct s|set_solver|by rewrite app_nil_r].
  - rewrite fmap_cons in Hnd, Hnd1. apply NoDup_cons in Hnd as [Hnot Hnd]. apply NoDup_cons in Hnd1 as [Hnot1 Hnd1]. wp_simpl.
    eapply wp_mono; [apply wp_apply_line| |done].
    intros b s1 (-> & Hf1 & Hs1 & Hr1 & Hh1 & Hp1 & Hi1 & Hl1). wp_simpl.
    assert (rollover_lines s1 = <[kv.1 := line_done resolved kv.2]> (rollover_lines s)) as Hrl.
    { apply Hr1, Hrows. destruct kv. left. }
    eapply wp_mono; [apply IH; [done|done|]| |done].
    { intros lid l Hin. rewrite Hrl, lookup_insert_ne; [apply Hrows; by right|].
      intros Heq. apply Hnot1. rewrite Heq. apply list_elem_of_fmap. by exists (lid, l). }
    intros rest s2 (-> & Hf2 & Hs2 & Hk2 & Hn2 & Hh2 & Hl2). wp_simpl. simpl.
    split_and!; [by destruct (is_applied kv.2)|by eapply only_applied_trans| | | | |auto].
    + intros lid l [<-|Hin]%elem_of_cons; simpl in *.
      * rewrite Hk2, Hs1, lookup_alter_eq by done. rewrite Hn2, Hrl, lookup_insert_eq by done. done.
      * assert (li_student kv.2 ≠ li_student l) as Hne.
        { intros He. apply Hnot. simpl. rewrite He.
          apply list_elem_of_fmap. by exists (lid, l). }
        destruct (Hs2 lid l Hin) as (Ha & Hb & Hc & Hd). split_and!; [|done|done|].
        -- by rewrite Ha, Hs1, lookup_alter_ne.
        -- intros Hap. specialize (Hd Hap). rewrite Hs1 in Hd. by apply alter_is_Some in Hd.
    + intros sid Hsid. rewrite Hk2 by set_solver. rewrite Hs1, lookup_alter_ne; [done|].
      set_solver.
    + intros lid Hlid. rewrite Hn2 by set_solver. rewrite Hrl, lookup_insert_ne; [done|]. set_solver.
    + rewrite Hh2, Hh1, <-app_assoc. by destruct (is_applied kv.2).
Qed.

Lemma elem_of_unapplied rid s lid l :
  (lid, l) ∈ unapplied_lines rid s ↔
  rollover_lines s !! lid = Some l ∧ li_rollover l = rid ∧ li_applied_at l = None.
Proof.
  unfold unapplied_lines. rewrite elem_of_by_id, elem_of_select, andb_true_iff.
  by rewrite Z.eqb_eq, bool_decide_eq_true.
Qed.

Lemma unapplied_students_NoDup rid s :
  lines_unique s → NoDup ((li_student ∘ snd) <$> unapplied_lines rid s).
Proof.
  intros Hu. apply NoDup_fmap_2_strong.
  - intros [i l] [j l'] [Hi [Hr _]]%elem_of_unapplied [Hj [Hr' _]]%elem_of_unapplied Hs.
    assert (i = j) as <- by (apply (Hu i j l l'); simpl in *; congruence). congruence.
  - unfold unapplied_lines, by_id. rewrite merge_sort_Permutation.
    eapply NoDup_fmap_1, select_NoDup.
Qed.

(** Who commits: [changed_by], parsed. *)
Definition committer (changed_by : pyid) : pyid := if pyid_truthy changed_by then parse_id changed_by else PNone.

(** [n] of the lines ask for [a]. *)
Definition asked (lines : list (Z * line_row)) (a : string) (n : Z) : Prop :=
  ∃ those, NoDup those ∧ (∀ kv, kv ∈ those ↔ kv ∈ lines ∧ line_action kv.2 a) ∧ n = Z.of_nat (List.length those).

(** The effect of a commit that had work to do, table by table. *)
Record commit_effect (rid : Z) (cb : pyid) (lines : list (Z * line_row)) (r r' : rollover_row) (s s' : TenantDB) : Prop := {
  (** the lines it works on: those not applied before *)
  ce_pending : ∀ lid l, (lid, l) ∈ lines ↔ rollover_lines s !! lid = Some l ∧ li_rollover l = rid ∧ li_applied_at l = None;
  ce_distinct : NoDup (lines.*1);
  (** the rollover and its summary *)
  ce_result : ∃ promoted graduated withdrawn held,
    asked lines "promote" promoted ∧ asked lines "graduate" graduated ∧
    asked lines "withdraw" withdrawn ∧ asked lines "hold" held ∧
    r' = r <| ro_state := "committed" |>
           <| ro_summary := Some {| sm_promoted := promoted; sm_graduated := graduated;
                                    sm_withdrawn := withdrawn; sm_held := held |} |>;
  ce_rollovers : rollovers s' = <[rid := r']> (rollovers s);
  (** the years: the source closes, the target becomes the only active one *)
  ce_from_closed : ro_from r ≠ ro_to r → academic_years s' !! ro_from r =
    (λ y, y <| ye_status := "closed" |>) <$> academic_years s !! ro_from r;
  ce_to_active : academic_years s' !! ro_to r =
    (λ y, y <| ye_status := "active" |> <| ye_rolled_from := Some (ro_from r) |>) <$> academic_years s !! ro_to r;
  ce_other_years : ∀ y, y ≠ ro_from r → y ≠ ro_to r → academic_years s' !! y = academic_years s !! y;
  ce_one_active : ∀ y row, academic_years s' !! y = Some row → ye_status row = "active" → y = ro_to r;
  (** classes are only added, for the targets of promoting lines *)
  ce_classes : ∀ k c, classes s !! k = Some c → classes s' !! k = Some c;
  ce_new_classes : ∀ k c, classes s' !! k = Some c → classes s !! k = None → cloned (ro_to r) lines s' c;
  (** students and lines: promoted into a class of the target year named
      after their target, exited, held, or not concerned; nothing else of
      them changes *)
  ce_promoted : ∀ lid l, (lid, l) ∈ lines → line_action l "promote" →
    ∃ row cid, students s !! li_student l = Some row ∧ students s' !! li_student l = Some (row <| st_class := Some cid |>) ∧
      named_target (ro_to r) s' (line_key l) cid ∧
      rollover_lines s' !! lid = Some (l <| li_to_class := Some cid |> <| li_applied_at := Some (clock s) |>);
  ce_exited : ∀ lid l a status, (lid, l) ∈ lines → line_action l a →
    (a, status) ∈ [("graduate", "graduated"); ("withdraw", "withdrawn")] →
    ∃ row, students s !! li_student l = Some row ∧ students s' !! li_student l = Some (row <| st_class := None |>
        <| st_status := status |>
        <| st_exited := academic_years s !! ro_from r ≫= ye_end |>) ∧
      rollover_lines s' !! lid = Some (l <| li_applied_at := Some (clock s) |>);
  ce_held : ∀ lid l a, (lid, l) ∈ lines → line_action l a → a ∉ ["promote"; "graduate"; "withdraw"] →
    students s' !! li_student l = students s !! li_student l ∧ rollover_lines s' !! lid = Some l;
  ce_others : ∀ sid, (∀ lid l, (lid, l) ∈ lines → li_student l ≠ sid) →
    students s' !! sid = students s !! sid;
  ce_other_lines : ∀ lid, lid ∉ lines.*1 → rollover_lines s' !! lid = rollover_lines s !! lid;
  (** one history row per applied line, with the class the student now has *)
  ce_history : ∃ applied, NoDup applied ∧
    (∀ kv, kv ∈ applied ↔ kv ∈ lines ∧ ∃ a, line_action kv.2 a ∧ a ∈ ["promote"; "graduate"; "withdraw"]) ∧
    class_history s' = class_history s ++
      ((λ kv : Z * line_row, {| hi_student := li_student kv.2; hi_old := li_from_class kv.2;
          hi_new := students s' !! li_student kv.2 ≫= st_class; hi_by := author_of (committer cb) |}) <$> applied);
  (** no other table *)
  ce_rest : s' = s <| students := students s' |> <| classes := classes s' |> <| rollover_lines := rollover_lines s' |>
    <| class_history := class_history s' |> <| academic_years := academic_years s' |> <| rollovers := rollovers s' |>
    <| nextid := nextid s' |>;
}.

(** The two years after step 3. *)
Definition flipped (fy ty : Z) (years : gmap Z year_row) : gmap Z year_row :=
  alter (λ y, y <| ye_status := "active" |> <| ye_rolled_from := Some fy |>) ty
    (alter (λ y, y <| ye_status := "closed" |>) fy years).

Lemma wp_flip_years fy ty s (Q : unit → TenantDB → Prop) (E : exn → TenantDB → Prop) :
  ((∀ y row, flipped fy ty (academic_years s) !! y = Some row → ye_status row = "active" → y = ty) →
     Q tt (s <| academic_years := flipped fy ty (academic_years s) |>)) →
  (∀ e s', E e s') →
  wp (flip_years fy ty) Q E s.
Proof.
  intros HQ HE. unfold flip_years, check. wp_simpl. simpl.
  destruct (forallb _ _) eqn:Hall; [|auto]. wp_simpl.
  rewrite forallb_forall in Hall. unfold flipped in HQ. set (t := alter _ fy (academic_years s)) in *.
  apply HQ. intros y row Hy Ha. destruct (decide (y = ty)) as [|Hne]; [done|].
  rewrite lookup_alter_ne in Hy by done.
  specialize (Hall (y, row) (proj1 (list_elem_of_In _ _) (proj2 (elem_of_map_to_list _ _ _) Hy))).
  simpl in Hall. rewrite Ha, bool_decide_true in Hall by done.
  apply orb_prop in Hall as [Hall|Hall]; [|done]. by apply Z.eqb_eq in Hall.
Qed.

Lemma flipped_spec fy ty years :
  (fy ≠ ty → flipped fy ty years !! fy = (λ y, y <| ye_status := "closed" |>) <$> years !! fy) ∧
  flipped fy ty years !! ty = (λ y, y <| ye_status := "active" |> <| ye_rolled_from := Some fy |>) <$> years !! ty ∧
  ∀ y, y ≠ fy → y ≠ ty → flipped fy ty years !! y = years !! y.
Proof.
  unfold flipped. split_and!.
  - intros Hne. rewrite lookup_alter_ne by done. by rewrite lookup_alter_eq.
  - rewrite lookup_alter_eq. destruct (decide (fy = ty)) as [->|Hne]; [|by rewrite lookup_alter_ne by done].
    rewrite lookup_alter_eq. by destruct (years !! ty).
  - intros y H1 H2. by rewrite !lookup_alter_ne by done.
Qed.

(** [is_applied] lists the stamped ids. *)
Lemma applied_ids rid s lid l :
  (lid, l) ∈ unapplied_lines rid s →
  bool_decide (lid ∈ fst <$> List.filter (λ kv : Z * line_row, is_applied kv.2) (unapplied_lines rid s))
  = is_applied l.
Proof.
  intros Hin. apply eq_bool_prop_intro. rewrite !Is_true_true, bool_decide_eq_true.
  rewrite list_elem_of_fmap. setoid_rewrite list_elem_of_In. setoid_rewrite filter_In.
  setoid_rewrite <-list_elem_of_In. split.
  - intros ([i l'] & -> & Hi & Ha). simpl in *.
    apply elem_of_unapplied in Hi as [Hi _], Hin as [Hin _]. congruence.
  - intros Ha. by exists (lid, l).
Qed.

Definition commit_ok (rid : Z) (cb : pyid) (s : TenantDB) (r' : rollover_row) (s' : TenantDB) : Prop :=
  ∃ r, rollovers s !! rid = Some r ∧
    ((ro_state r = "committed" ∧ r' = r ∧ s' = s) ∨
     (ro_state r = "previewed" ∧ ∃ lines, commit_effect rid cb lines r r' s s')).

(** Filters, as [asked] and the history count them. *)
Lemma filtered (lines : list (Z * line_row)) (p : line_row → bool) : NoDup lines.*1 →
  NoDup (List.filter (λ kv, p kv.2) lines) ∧ ∀ kv, kv ∈ List.filter (λ kv, p kv.2) lines ↔ kv ∈ lines ∧ p kv.2 = true.
Proof.
  intros Hnd%NoDup_fmap_1. split.
  - apply NoDup_ListNoDup, List.NoDup_filter, NoDup_ListNoDup, Hnd.
  - intros kv. by rewrite !list_elem_of_In, filter_In.
Qed.
Lemma asked_count a lines : NoDup lines.*1 → asked lines a (count_lines a lines).
Proof.
  intros Hnd. destruct (filtered lines (λ l, bool_decide (effective l = a)) Hnd) as [H1 H2].
  exists (List.filter (λ kv, bool_decide (effective kv.2 = a)) lines). split_and!; [done| |done].
  intros kv. by rewrite H2, bool_decide_eq_true, effective_action.
Qed.
Lemma is_applied_action l : is_applied l = true ↔ ∃ a, line_action l a ∧ a ∈ ["promote"; "graduate"; "withdraw"].
Proof.
  unfold is_applied. rewrite mem_true. split; [by exists (effective l); rewrite <-effective_action|].
  intros (a & <-%effective_action & Ha). done.
Qed.

Lemma unapplied_ids_NoDup rid s : NoDup (unapplied_lines rid s).*1.
Proof. unfold unapplied_lines, by_id. rewrite merge_sort_Permutation. apply select_NoDup. Qed.

(** Step 2 and the stamping, line by line. *)
Lemma stamped_lines rid resolved lines s s' now :
  lines = unapplied_lines rid s →
  (∀ lid l, (lid, l) ∈ lines → rollover_lines s' !! lid = Some (line_done resolved l)) →
  (∀ lid, lid ∉ lines.*1 → rollover_lines s' !! lid = rollover_lines s !! lid) →
  let stamped := update_where
    (λ k l, bool_decide (k ∈ fst <$> List.filter (λ kv : Z * line_row, is_applied kv.2) lines) && bool_decide (li_applied_at l = None))
    (λ l, l <| li_applied_at := Some now |>) (rollover_lines s') in
  (∀ lid l, (lid, l) ∈ lines → stamped !! lid =
     Some (if is_applied l then (line_done resolved l) <| li_applied_at := Some now |> else line_done resolved l)) ∧
  (∀ lid, lid ∉ lines.*1 → stamped !! lid = rollover_lines s !! lid).
Proof.
  intros -> Hin Hout stamped. split.
  - intros lid l Hl. unfold stamped. rewrite lookup_update_where, (Hin lid l Hl). simpl. f_equal.
    rewrite (applied_ids rid s lid l Hl). apply elem_of_unapplied in Hl as (_ & _ & Hno).
    assert (li_applied_at (line_done resolved l) = None) as -> by (unfold line_done; by case_bool_decide).
    rewrite (bool_decide_true (None = None)) by done. by rewrite andb_true_r.
  - intros lid Hlid. unfold stamped. rewrite lookup_update_where, Hout by done.
    rewrite bool_decide_false; [by destruct (rollover_lines s !! lid)|]. intros (kv & -> & Hkv)%list_elem_of_fmap.
    apply Hlid. apply list_elem_of_fmap. exists kv. split; [done|].
    by apply list_elem_of_In, filter_In in Hkv as [?%list_elem_of_In _].
Qed.

Lemma wp_commit rid cb s :
  wf_plan s → ids_below (nextid s) (classes s) →
  wp (commit_year_rollover rid cb) (commit_ok rid cb s)
    (λ _ s', s' = s <| nextid := nextid s' |>) s.
Proof.
  intros Hwf Hcl. unfold commit_year_rollover, get_year_rollover_by_id. wp_simpl.
  destruct (rollovers s !! rid) as [r|] eqn:Hr; [|done]. wp_simpl.
  case_bool_decide as Hst.
  { wp_simpl. exists r. auto. }
  wp_simpl. case_bool_decide as Hpre; [|done]. rewrite wp_bind.
  apply (wp_update_rollover_state rid _ _ r); [done|]. wp_simpl.
  set (s1 := s <| rollovers := _ |>).
  change (unapplied_lines rid s1) with (unapplied_lines rid s).
  set (lines := unapplied_lines rid s).
  eapply wp_mono; [apply (wp_resolve_classes _ lines); [exact Hcl|done|done]| |done].
  intros resolved s2 (Hg & Hres & Hnew). wp_simpl.
  assert (s2 = s1 <| classes := classes s2 |> <| nextid := nextid s2 |>) as Hs2 by apply Hg.
  assert (∀ lid l, (lid, l) ∈ lines → rollover_lines s2 !! lid = Some l) as Hrows.
  { intros lid l (Hl & _)%elem_of_unapplied. by rewrite Hs2. }
  assert (academic_years s2 = academic_years s) as Hy2 by (by rewrite Hs2). rewrite Hy2.
  set (exit_date := academic_years s !! ro_from r ≫= ye_end). fold (committer cb).
  eapply wp_mono; [apply wp_apply_lines; [by apply unapplied_students_NoDup, Hwf|apply unapplied_ids_NoDup|done]| |done].
  intros applied s3 (-> & Hf & Hlines & Hrest & Hrl & Hh & _). wp_simpl.
  apply wp_flip_years; [|done]. intros Hact. wp_simpl.
  assert (rollovers s3 !! rid = Some (r <| ro_state := "committing" |>
    <| ro_summary := opt_or_opt None (ro_summary r) |>)) as Hr3.
  { rewrite Hf, Hs2. simpl. by rewrite lookup_insert_eq. }
  eapply wp_update_rollover_state; [exact Hr3|]. wp_simpl. simpl.
  rewrite lookup_insert_eq. wp_simpl.
  exists r. split; [done|]. right. split; [done|]. simpl in Hact |- *.
  assert (academic_years s3 = academic_years s) as Hy3 by (rewrite Hf, Hs2; done). rewrite Hy3 in Hact |- *.
  assert (clock s3 = clock s) as Hc3 by (rewrite Hf, Hs2; done). rewrite Hc3.
  assert (students s2 = students s) as Hst2 by (by rewrite Hs2).
  destruct (stamped_lines rid resolved lines s s3 (clock s)) as [Hin Hout]; [done|intros; by apply Hlines| |].
  { intros lid Hlid. rewrite Hrl by done. by rewrite Hs2. }
  destruct (flipped_spec (ro_from r) (ro_to r) (academic_years s)) as (Hfrom & Hto & Hother).
  assert (∀ key id, key_lookup key resolved = Some id → ∀ s', classes s' = classes s2 → levels s' = levels s2 →
    named_target (ro_to r) s' key id) as Hnamed.
  { intros key id Hk s' Hc' Hl'. destruct (Hres key id Hk) as (c & tl & lv & ?). exists c, tl, lv. by rewrite Hc', Hl'. }
  assert (classes s3 = classes s2 ∧ levels s3 = levels s2) as [Hc32 Hl32] by (by rewrite Hf).
  assert (NoDup lines.*1) as Hnd by apply unapplied_ids_NoDup.
  exists lines. split; cbn.
  - intros lid l. apply elem_of_unapplied.
  - done.
  - exists (count_lines "promote" lines), (count_lines "graduate" lines), (count_lines "withdraw" lines), (count_lines "hold" lines).
    split_and!; try by apply asked_count. done.
  - rewrite Hf, Hs2. cbn. by rewrite !insert_insert_eq.
  - exact Hfrom.
  - exact Hto.
  - exact Hother.
  - exact Hact.
  - intros k c Hk. rewrite Hc32. by apply (cg_kept _ _ Hg).
  - intros k c Hk Hno. rewrite Hc32 in Hk. destruct (Hnew k c Hk Hno) as (lid & l & fc & src & tl & lv & H).
    exists lid, l, fc, src, tl, lv. cbn. by rewrite Hc32, Hl32.
  - intros lid l Hl Hp%effective_action. destruct (Hlines lid l Hl) as (Hst' & _ & Hkey & Hsome).
    assert (is_applied l = true) as Hap by (unfold is_applied; by rewrite Hp).
    destruct (Hkey Hp) as [id Hid]. destruct (Hsome Hap) as [row Hrow].
    exists row, id. rewrite <-Hst2. split; [done|]. rewrite Hst', Hrow, (Hin lid l Hl), Hap.
    unfold line_effect, line_done, line_class. rewrite !bool_decide_true by done. rewrite Hid.
    split_and!; [done|by apply Hnamed|done].
  - intros lid l a status Hl Hp%effective_action Ha. destruct (Hlines lid l Hl) as (Hst' & _ & _ & Hsome).
    assert ((effective l = "graduate" ∧ status = "graduated") ∨ (effective l = "withdraw" ∧ status = "withdrawn")) as Hcase by set_solver.
    clear a Hp Ha. assert (is_applied l = true) as Hap by (unfold is_applied; by destruct Hcase as [[-> _]|[-> _]]).
    destruct (Hsome Hap) as [row Hrow]. exists row. rewrite <-Hst2. split; [done|].
    rewrite Hst', Hrow, (Hin lid l Hl), Hap. unfold line_effect, line_done, line_class, exit_date. by destruct Hcase as [[-> ->]|[-> ->]].
  - intros lid l a Hl <-%effective_action Ha. assert (is_applied l = false) as Hap by (by apply mem_false). destruct (Hlines lid l Hl) as (Hst' & _). rewrite Hst', Hst2, (Hin lid l Hl), Hap.
    unfold is_applied in Hap. apply mem_false in Hap. unfold line_effect, line_done. rewrite !bool_decide_false by set_solver.
    split; [by destruct (students s !! li_student l)|done].
  - intros sid Hsid. rewrite Hrest, Hst2; [done|]. intros ([lid l] & -> & Hl)%list_elem_of_fmap. by apply (Hsid lid l).
  - exact Hout.
  - destruct (filtered lines is_applied Hnd) as [Hnd' Hmem]. exists (List.filter (λ kv, is_applied kv.2) lines). split; [done|].
    split; [intros kv; by rewrite Hmem, is_applied_action|]. rewrite Hh, Hs2. cbn. f_equal. apply list_fmap_ext. intros i [lid l] Hi. unfold history_entry. cbn. f_equal.
    apply list_elem_of_lookup_2, list_elem_of_In, filter_In in Hi as [Hi%list_elem_of_In Hap]. cbn in Hap.
    destruct (Hlines lid l Hi) as (-> & _ & _ & Hsome). destruct (Hsome Hap) as [row ->]. cbn. unfold line_class, line_effect.
    repeat case_bool_decide; try done. unfold is_applied in Hap. apply mem_true in Hap. set_solver.
  - rewrite Hf, Hs2. done.
Qed.

(** C2: committing a rollover is atomic and does what the plan says. A
    commit that raises changes no table. A commit that answers was called by
    a school administrator and either found the rollover committed and
    changed nothing, or found it previewed. Then, for the lines not applied
    before: every promoted student changes class, to a class of the target
    year named after the line's level and section; every graduate and
    withdrawn student is unplaced with that status and the source year's end
    date; held students and everyone without a line are untouched; applied
    lines are stamped, and nothing else of any student or line changes. The
    source year is closed and the target year is the only active one. A new
    class is the target of some promoting line, with the head teacher and
    capacity of the class it is cloned from. The history gains one row per
    applied line, the summary counts the lines, and no other table changes. *)
Theorem rollover_commit_outcome rid cb role s :
  wf_plan s → ids_below (nextid s) (classes s) →
  match commit_rollover rid cb role s with
  | (Ok r', s') => require role admins = true ∧ ∃ r, rollovers s !! rid = Some r ∧
      ((ro_state r = "committed" ∧ r' = r ∧ s' = s) ∨
       (ro_state r = "previewed" ∧ ∃ lines, commit_effect rid cb lines r r' s s'))
  | (Raise _, s') => s' = s <| nextid := nextid s' |>
  end.
Proof.
  intros Hwf Hcl. pose proof (wp_commit rid cb s Hwf Hcl) as H.
  unfold commit_rollover, gate, guard_or, mbind, M_bind, mret, M_ret, raise, wp in *.
  destruct (require role admins); [|by destruct s].
  destruct (commit_year_rollover rid cb s) as [[r'|e] s']; [|done].
  by destruct H as (r & Hr & H); eauto.
Qed.

Lemma demo_classes_fresh : ids_below (nextid demo_rollover) (classes demo_rollover).
Proof. intros k [c Hc]. demo_rows Hc; vm_compute; done. Qed.

Lemma rollover_commit_outcome_witness :
  match commit_rollover 91 (PStr "5") admin_role demo_rollover with
  | (Ok r', s') => require admin_role admins = true ∧ ∃ r, rollovers demo_rollover !! 91 = Some r ∧
      ((ro_state r = "committed" ∧ r' = r ∧ s' = demo_rollover) ∨
       (ro_state r = "previewed" ∧ ∃ lines, commit_effect 91 (PStr "5") lines r r' demo_rollover s'))
  | (Raise _, s') => s' = demo_rollover <| nextid := nextid s' |>
  end.
Proof.
  exact (rollover_commit_outcome 91 (PStr "5") admin_role demo_rollover
           demo_wf_plan demo_classes_fresh).
Defined.

(** The witness's commit is one that has work to do. *)
Example demo_commit_runs :
  match commit_rollover 91 (PStr "5") admin_role demo_rollover with
  | (Ok r', s') => ro_summary r' = Some {| sm_promoted := 1; sm_graduated := 0;
                                           sm_withdrawn := 1; sm_held := 0 |} ∧
                   (students s' !! 31 ≫= st_class) = Some 100 ∧
                   (st_status <$> students s' !! 32) = Some "withdrawn"
  | _ => False
  end.
Proof. vm_compute. done. Qed.

(** A commit can be retried. Once a commit has answered, committing
    the same rollover again, by any administrator, gives the same answer and
    changes nothing. *)
Theorem rollover_commit_idempotent rid cb role cb' role' s r' s' :
  wf_plan s → ids_below (nextid s) (classes s) →
  commit_rollover rid cb role s = (Ok r', s') →
  require role' admins = true →
  commit_rollover rid cb' role' s' = (Ok r', s').
Proof.
  intros Hwf Hcl Hc Hrole. pose proof (wp_commit rid cb s Hwf Hcl) as H.
  unfold commit_rollover, gate, guard_or, mbind, M_bind, mret, M_ret, raise, wp in *.
  destruct (require role admins); [|done]. rewrite Hc in H. rewrite Hrole.
  assert (rollovers s' !! rid = Some r' ∧ ro_state r' = "committed") as [Hr Hst].
  { destruct H as (r & Hr & [(Hst & -> & ->)|(_ & lines & Heff)]); [done|].
    rewrite (ce_rollovers _ _ _ _ _ _ _ Heff), lookup_insert_eq.
    by destruct (ce_result _ _ _ _ _ _ _ Heff) as (? & ? & ? & ? & _ & _ & _ & _ & ->). }
  unfold commit_year_rollover, transaction, get_year_rollover_by_id, gets, from_option_or,
    mbind, M_bind, mret, M_ret. rewrite Hr. by rewrite bool_decide_true.
Qed.

Lemma rollover_commit_idempotent_witness :
  ∃ r' s', commit_rollover 91 (PStr "5") admin_role demo_rollover = (Ok r', s') ∧
           commit_rollover 91 (PStr "7") (RStr "super_admin") s' = (Ok r', s').
Proof.
  destruct (commit_rollover 91 (PStr "5") admin_role demo_rollover) as [[r'|e] s'] eqn:E.
  - exists r', s'. split; [reflexivity|].
    apply (rollover_commit_idempotent 91 (PStr "5") admin_role (PStr "7") (RStr "super_admin")
             demo_rollover r' s' demo_wf_plan demo_classes_fresh E). reflexivity.
  - exfalso. apply (f_equal (λ p, match p.1 with Ok _ => true | Raise _ => false end)) in E.
    vm_compute in E. discriminate.
Defined.
