(* ===== verification/Placement.v ===== *)
(** * The placement log over whole runs

    Every request that moves a student (registration, reassignment, bulk
    reassignment, the deletion of classes and levels, the save of the whole
    structure, the commit of a year rollover) as one type of operations, and the theorem that
    [student_class_history] stays truthful over any sequence of them. *)
From S2P Require Import Prelude PyText Authz Store AuditLog AcademicRepo AcademicDelete Demo AcademicSvc Structure Rollover.

(** The operations that move students, as one type. *)
Inductive placement_op :=
  | CreateStudent (user_id : pyid) (name : string) (class_id : option Z)
      (gender birth_data : option string)
  | Reassign (student_id : Z) (new_class_id : option Z)
  | BulkReassign (student_ids : list Z) (new_class_id : option Z)
  | DeleteClass (class_id : Z)
  | DeleteLevel (level_id : Z)
  | SaveStructure (payload : structure_in)
  | CommitRollover (rollover_id : Z).

Definition run_placement (h : string → string) (role : role_arg) (by_ : pyid)
    (op : placement_op) : DB unit :=
  match op with
  | CreateStudent u n c g b => create_student u n c g b by_ ;; mret tt
  | Reassign i c => reassign_student_class i c role by_ ;; mret tt
  | BulkReassign l c => bulk_reassign_students l c role by_ ;; mret tt
  | DeleteClass i => delete_class h i role by_ ;; mret tt
  | DeleteLevel i => delete_level h i role by_ ;; mret tt
  | SaveStructure p => save_academic_structure_svc p role by_
  | CommitRollover i => commit_rollover i by_ role ;; mret tt
  end.

(** A run of requests, each by its caller; a request that raises leaves what
    its transaction left. *)
Fixpoint run_requests (h : string → string) (l : list (role_arg * pyid * placement_op))
    (s : TenantDB) : TenantDB :=
  match l with
  | [] => s
  | (role, by_, op) :: l' => run_requests h l' (run_placement h role by_ op s).2
  end.

(** The steps of the commit. *)
Lemma resolve_classes_logged to_year lines resolved :
  preserves placement_logged (resolve_classes to_year lines resolved).
Proof.
  revert resolved. induction lines as [|[lid l] lines IH]; intros resolved; cbn [resolve_classes].
  - apply preserves_ret.
  - destruct (negb _); [apply IH|].
    destruct (key_lookup _ _); [apply IH|]. destruct (truthy_int _); [|apply IH].
    apply preserves_bind; [|intros ?; apply IH].
    unfold clone_class, check_class, insert_serial. preserve; by apply preserves_modify.
Qed.

Lemma wp_apply_lines_logged resolved d cb lines s :
  placement_logged s →
  wp (apply_lines resolved d cb lines) (λ _, placement_logged) (λ _ _, True) s.
Proof.
  revert s. induction lines as [|kv lines IH]; intros s Hs; cbn [apply_lines]; [done|].
  wp_simpl. eapply wp_mono; [apply wp_apply_line| |done].
  intros b s1 (_ & _ & _ & _ & _ & _ & _ & Hl). wp_simpl.
  eapply wp_mono; [apply IH; auto| |done]. done.
Qed.

Lemma flip_years_logged fy ty : preserves placement_logged (flip_years fy ty).
Proof. unfold flip_years. preserve; by apply preserves_modify. Qed.

Lemma update_state_logged rid st sm : preserves placement_logged (update_rollover_state rid st sm).
Proof. by apply preserves_modify. Qed.

(** Errors inside the transaction are rolled back. *)
Lemma wp_preserves {A} (I : TenantDB → Prop) (m : DB A) s :
  preserves I m → I s → wp m (λ _, I) (λ _ _, True) s.
Proof. intros Hm Hs. eapply wp_mono; [by apply Hm|done|done]. Qed.

Lemma commit_logged rid cb : preserves placement_logged (commit_year_rollover rid cb).
Proof.
  intros s Hs. unfold commit_year_rollover, get_year_rollover_by_id. rewrite wp_transaction.
  apply (wp_mono _ (λ _, placement_logged) _ (λ _ _, True)); [|done|done]. wp_simpl.
  destruct (rollovers s !! rid) as [r|]; [|done]. wp_simpl. case_bool_decide; [done|].
  wp_simpl. case_bool_decide; [|done]. wp_simpl.
  eapply wp_mono; [by apply wp_preserves; [apply update_state_logged|]| |done].
  intros ? s1 H1. wp_simpl.
  eapply wp_mono; [by apply wp_preserves; [apply resolve_classes_logged|]| |done].
  intros resolved s2 H2. wp_simpl.
  eapply wp_mono; [by apply wp_apply_lines_logged| |done].
  intros applied s3 H3. wp_simpl.
  eapply wp_mono; [by apply wp_preserves; [apply flip_years_logged|]| |done].
  intros ? s4 H4. wp_simpl.
  eapply wp_mono; [by apply wp_preserves; [apply update_state_logged|]| |done].
  intros ? s5 H5. wp_simpl. by destruct (rollovers s5 !! rid).
Qed.

Lemma run_placement_logged h role by_ op :
  preserves placement_logged (run_placement h role by_ op).
Proof.
  destruct op as [| | | | |p|]; cycle 5.
  { intros s Hs. eapply wp_mono; [apply wp_save_structure_svc| |].
    - intros u s' (_ & _ & [_ _ _ _ _ _ Hl] & _). by apply Hl.
    - intros e s' Hk. by apply (tables_kept_logged s). }
  all: apply preserves_bind; try (intros _; apply preserves_ret).
  - apply preserves_bind; [unfold gate; auto with pres|intros _; apply commit_logged].
  - apply create_student_logged.
  - apply preserves_bind; [unfold gate; auto with pres|intros _; apply reassign_logged].
  - apply preserves_bind; [unfold gate; auto with pres|intros _; apply bulk_logged].
  - intros s Hs. eapply wp_mono; [apply wp_delete_class| |].
    + intros b s' (_ & _ & _ & Hd). eapply deleted_classes_logged; eauto.
    + intros e s' Hk. by apply (tables_kept_logged s).
  - intros s Hs. eapply wp_mono; [apply wp_delete_level| |].
    + intros b s' (_ & _ & _ & Hd). eapply deleted_classes_logged; [apply Hd|done].
    + intros e s' Hk. by apply (tables_kept_logged s).
Qed.

(** C12: the placement log is truthful. Through any sequence of requests
    that register, move, bulk-move or unplace students, delete their classes
    and levels, save the whole structure or commit a year rollover, whoever
    makes them and whether or not they fail, the newest row of [student_class_history] for a student is
    the class the student is in. *)
Theorem placement_log_truthful h reqs s :
  placement_logged s →
  ∀ sid, latest_placement sid (class_history (run_requests h reqs s)) =
         students (run_requests h reqs s) !! sid ≫= st_class.
Proof.
  revert s. induction reqs as [|[[role by_] op] reqs IH]; intros s H; simpl; [done|].
  apply IH. by apply preserves_run; [apply run_placement_logged|].
Qed.

Lemma placement_log_truthful_witness :
  let s' := run_requests (λ s, s)
    [(admin_role, PStr "5", Reassign 31 (Some 22)); (admin_role, PStr "5", CommitRollover 91);
     (admin_role, PStr "5", DeleteLevel 11)]
    demo_rollover in
  latest_placement 31 (class_history s') = students s' !! 31 ≫= st_class.
Proof.
  apply (placement_log_truthful (λ s, s)
    [(admin_role, PStr "5", Reassign 31 (Some 22)); (admin_role, PStr "5", CommitRollover 91);
     (admin_role, PStr "5", DeleteLevel 11)]
    demo_rollover).
  exact demo_placement_logged.
Defined.
