(* ===== verification/EventRules.v ===== *)
(** * Who may do what with an event

    [TenantService.check_event_permission] (src/app/domains/tenant/service.py)
    and the rules of [EventService] (src/app/domains/events/service.py): who
    may edit, what is masked, who may set the subsidy, which transition a
    submit or publish request stands for. *)
From S2P Require Import Prelude PyText Authz Store AcademicRepo EventRepo Demo.

(** [getattr(user, "roles", None) or [getattr(user, "role", "student")]] *)
Definition user_roles_of (u : CurrentUser) : list string :=
  match cu_roles u with [] => [cu_role u] | l => l end.

Definition has (roles : list string) (r : string) : bool := mem r roles.
Definition has_one_of (roles wanted : list string) : bool := existsb (λ r, mem r roles) wanted.

(** [int(parse_id(x or default))] *)
Definition int_or (v : pyid) (default : Z) : result Z :=
  int_of_id (parse_id (if pyid_truthy v then v else PInt default)).

Definition result_bind {A B} (m : result A) (k : A → result B) : result B :=
  match m with Ok a => k a | Raise e => Raise e end.

Definition is_owner (u : CurrentUser) (ev : event_view) : result bool :=
  result_bind (int_or (cu_id u) (-1)) (λ uid, Ok (ev_created_by (vw_row ev) =? uid)).

Definition admin_names : list string := ["super_admin"; "school_admin"; "admin"; "*"].

(** [action == "read"], for a caller who is not an administrator *)
Definition may_read (roles : list string) (owner : bool) (uid : pyid) (ev : event_view) : bool :=
  let status := ev_status (vw_row ev) in
  if bool_decide (status = "draft") then
    owner || bool_decide (parse_id uid ∈ (PInt <$> omap mp_head (vw_mappings ev)))
  else
    existsb (λ role,
      (mem role ["parent"; "student"] && bool_decide (status = "published"))
      || (mem role ["teacher"; "event_teacher"] &&
          mem status ["published"; "approved"; "proposed"; "pricing_review"; "final_review";
                      "ready_to_publish"])
      || bool_decide (role = "manager")
      || mem role ["school_admin"; "super_admin"; "admin"]) roles
    || has roles "event:read".

Definition may_edit_draft (roles : list string) (owner : bool) (status : string) : bool :=
  bool_decide (status = "draft") &&
  (existsb (λ role, mem role ["teacher"; "event_teacher"; "school_admin"; "super_admin"; "admin"]
       && (owner || mem role ["school_admin"; "super_admin"; "admin"])) roles
   || (has roles "event:edit" && owner)).

Definition may_decide (roles : list string) (status : string) : bool :=
  (has roles "event:review" || has_one_of roles ["manager"; "school_admin"; "super_admin"; "admin"])
  && bool_decide (status = "proposed").

Definition may_publish (roles : list string) (owner : bool) (status : string) : bool :=
  (has roles "event:publish"
   || (has_one_of roles ["teacher"; "event_teacher"] && owner)
   || has_one_of roles ["school_admin"; "super_admin"; "admin"])
  && mem status ["approved"; "ready_to_publish"].

Definition check_event_permission (u : CurrentUser) (ev : event_view) (action : string) :
    result bool :=
  let roles := user_roles_of u in
  result_bind (is_owner u ev) (λ owner,
    let status := ev_status (vw_row ev) in
    if has_one_of roles admin_names then Ok true
    else if bool_decide (action = "read") then Ok (may_read roles owner (cu_id u) ev)
    else if bool_decide (action = "edit_draft") then Ok (may_edit_draft roles owner status)
    else if mem action ["manager_decision"; "approve"; "review"] then Ok (may_decide roles status)
    else if mem action ["publish"; "teacher_publish"] then Ok (may_publish roles owner status)
    else Ok false).

(** ** [EventService] *)
Definition _SUBSIDY_VISIBLE_ROLES : list string := ["school_admin"; "manager"].
Definition _EDIT_OVERRIDE_ROLES : list string := ["school_admin"; "manager"].

Definition is_editable (u : CurrentUser) (ev : event_view) : result bool :=
  result_bind (check_event_permission u ev "edit_draft") (λ a,
    if a then Ok true
    else result_bind (check_event_permission u ev "edit_resources") (λ b,
      if b then Ok true else Ok (has_one_of (cu_roles u) _EDIT_OVERRIDE_ROLES))).

Definition not_editable : exn :=
  PermissionError ("Access denied. Event can only be modified in draft status by its owner, "
    +:+ "or in resource planning by event teacher.").

Definition require_editable (u : CurrentUser) (ev : event_view) : result unit :=
  result_bind (is_editable u ev) (λ b, if b then Ok tt else Raise not_editable).

(** The financial fields of the answer; [None] is "hidden". *)
Record masked_event := {
  ms_event : event_view; ms_total_cost : option Z; ms_subsidy : option Z }.

Definition mask_financials (ev : event_view) (u : CurrentUser) : masked_event :=
  if has_one_of (cu_roles u) _SUBSIDY_VISIBLE_ROLES
  then {| ms_event := ev; ms_total_cost := ev_total_cost (vw_row ev);
          ms_subsidy := Some (ev_subsidy (vw_row ev)) |}
  else {| ms_event := ev; ms_total_cost := None; ms_subsidy := None |}.

Definition resolve_subsidy (payload : option Z) (u : CurrentUser) (existing : Z) : Z :=
  match payload with
  | Some p => if has_one_of (cu_roles u) _SUBSIDY_VISIBLE_ROLES then p else existing
  | None => existing
  end.

Definition resolve_submit_action (status : string) (u : CurrentUser) : result string :=
  if bool_decide (status = "draft") &&
     (has_any_role u ["teacher"; "school_admin"] || has_role u "event:submit")
  then Ok "submit_for_approval"
  else if mem status ["approved"; "ready_to_publish"] &&
          has_any_role u ["teacher"; "school_admin"; "manager"]
  then Ok "teacher_publish"
  else Raise (PermissionError ("Cannot submit event in '" +:+ status +:+ "' status. "
         +:+ "Only draft events can be submitted for manager approval.")).

Definition resolve_publish_action (u : CurrentUser) : string :=
  if has_role u "manager" then "manager_publish" else "teacher_publish".
