(* ===== verification/EventLifecycle.v ===== *)
(** * The event lifecycle

    [TenantService.transition_event] (src/app/domains/tenant/service.py): the
    table of transitions, the roles and permissions that authorize each
    action, the preconditions, the notifications and the stamps; an abstract
    specification of the lifecycle as a step relation on statuses, and the
    theorems that the code refines it. *)
From S2P Require Import Prelude PyText Authz Store AcademicRepo EventRepo EventRules Demo.

Definition lift {A} (r : result A) : DB A :=
  match r with Ok a => mret a | Raise e => raise e end.

(** [TRANSITIONS]: the next status and the role it takes. *)
Definition TRANSITIONS : list ((string * string) * (string * string)) :=
  [ (("draft", "submit_for_approval"), ("proposed", "teacher"));
    (("draft", "propose"), ("proposed", "teacher"));
    (("draft", "submit_to_manager"), ("proposed", "teacher"));
    (("draft", "submit_to_event_teacher"), ("proposed", "teacher"));
    (("proposed", "manager_approve"), ("approved", "manager"));
    (("proposed", "approve"), ("approved", "manager"));
    (("proposed", "manager_reject"), ("draft", "manager"));
    (("proposed", "reject"), ("draft", "manager"));
    (("approved", "teacher_publish"), ("published", "teacher"));
    (("approved", "publish"), ("published", "teacher"));
    (("approved", "submit"), ("published", "teacher"));
    (("approved", "manager_publish"), ("published", "manager")) ].

Definition next_of (status action : string) : option (string * string) :=
  snd <$> head (List.filter (λ t, bool_decide (t.1 = (status, action))) TRANSITIONS).

Definition submit_actions : list string :=
  ["submit_for_approval"; "propose"; "submit_to_manager"; "submit_to_event_teacher"].
Definition review_actions : list string :=
  ["manager_approve"; "approve"; "manager_reject"; "reject"].
Definition publish_actions : list string :=
  ["teacher_publish"; "publish"; "submit"; "manager_publish"].

Definition ACTION_PERMISSIONS (action : string) : list string :=
  if mem action submit_actions then ["event:submit"; "event:propose"]
  else if mem action review_actions then ["event:review"]
  else if mem action publish_actions then ["event:publish"]
  else [].

Definition allowed_roles (required_role action : string) : list string :=
  ["school_admin"; "super_admin"; required_role]
  ++ (if bool_decide (required_role = "teacher") then ["event_teacher"] else [])
  ++ ACTION_PERMISSIONS action.

(** [int(round(0.8 * n))] *)
Definition predict (n : Z) : Z := (8 * n + 5) / 10.

Definition get_predicted_attendance (class_ids : list Z) : DB Z :=
  n ← get_student_count_for_classes class_ids; mret (predict n).

(** [update_fields]; [None] is a key that is absent. *)
Record update_fields := {
  uf_status : string; uf_predicted : option Z; uf_reviewer : option pyid;
  uf_submitted_at : option Z; uf_approved_at : option Z; uf_published_at : option Z;
  uf_reason : option string }.

Definition no_fields (status : string) : update_fields :=
  {| uf_status := status; uf_predicted := None; uf_reviewer := None; uf_submitted_at := None;
     uf_approved_at := None; uf_published_at := None; uf_reason := None |}.

Definition notify (event_id : Z) (title : string) (recipient : Z) : DB unit :=
  create_notification event_id (PInt recipient) (Some title) ;; mret tt.

Definition mapped_classes (ev : event_view) : list Z := mp_class <$> vw_mappings ev.

(** One student of a mapped class and the linked parents. *)
Definition notify_family (event_id : Z) (to_student to_parent : string) (sid : Z) : DB unit :=
  notify event_id to_student sid ;;
  ps ← gets (parents_of sid);
  for_each ps (notify event_id to_parent).

Definition notify_audience (ev : event_view) (to_student to_parent : string) : DB unit :=
  match mapped_classes ev with
  | [] => mret tt
  | ids =>
      ss ← gets (λ s, fst <$> by_id (class_students ids s));
      for_each ss (notify_family (vw_id ev) to_student to_parent)
  end.

Definition submit_effects (ev : event_view) (next_status : string) (now : Z) : DB update_fields :=
  predicted ← (match mapped_classes ev with
               | [] => mret None
               | ids => n ← get_predicted_attendance ids; mret (Some n)
               end);
  managers ← get_all_managers;
  for_each managers (notify (vw_id ev)
    ("New event proposal: '" +:+ ev_title (vw_row ev) +:+ "' submitted for approval")) ;;
  mret {| uf_status := next_status; uf_predicted := predicted; uf_reviewer := None;
          uf_submitted_at := Some now; uf_approved_at := None; uf_published_at := None;
          uf_reason := None |}.

Definition approve_effects (ev : event_view) (next_status : string) (actor : CurrentUser)
    (now : Z) : DB update_fields :=
  notify (vw_id ev) ("Event proposal '" +:+ ev_title (vw_row ev)
    +:+ "' has been approved by Manager! You can now publish it.") (ev_created_by (vw_row ev)) ;;
  mret {| uf_status := next_status; uf_predicted := None; uf_reviewer := Some (cu_id actor);
          uf_submitted_at := None; uf_approved_at := Some now; uf_published_at := None;
          uf_reason := None |}.

(** [f"{reason}"] *)
Definition fmt_reason (reason : option string) : string := opt_or reason "None".

Definition reject_effects (ev : event_view) (next_status : string) (reason : option string) : DB update_fields :=
  notify (vw_id ev) ("Event '" +:+ ev_title (vw_row ev) +:+ "' rejected by manager. Reason: "
    +:+ fmt_reason reason) (ev_created_by (vw_row ev)) ;;
  mret {| uf_status := next_status; uf_predicted := None; uf_reviewer := None;
          uf_submitted_at := None; uf_approved_at := None; uf_published_at := None;
          uf_reason := Some (match reason with
                             | Some r => if bool_decide (r = "") then "No reason provided"
                                         else str_strip r
                             | None => "No reason provided"
                             end) |}.

Definition publish_effects (ev : event_view) (next_status : string) (now : Z)
    (to_student to_parent : string) : DB update_fields :=
  notify_audience ev to_student to_parent ;;
  mret {| uf_status := next_status; uf_predicted := None; uf_reviewer := None;
          uf_submitted_at := None; uf_approved_at := None; uf_published_at := Some now;
          uf_reason := None |}.

(** The [if action in ...] chain of side effects. *)
Definition effects (ev : event_view) (action next_status : string) (actor : CurrentUser)
    (reason : option string) (now : Z) : DB update_fields :=
  let title := ev_title (vw_row ev) in
  if mem action submit_actions then submit_effects ev next_status now
  else if mem action ["manager_approve"; "approve"] then approve_effects ev next_status actor now
  else if mem action ["manager_reject"; "reject"] then reject_effects ev next_status reason
  else if mem action ["teacher_publish"; "publish"]
          && bool_decide (ev_status (vw_row ev) = "approved")
  then publish_effects ev next_status now ("New school trip published: '" +:+ title +:+ "' – enroll now!")
         ("Your child's school trip '" +:+ title +:+ "' is now open for enrollment!")
  else if bool_decide (action = "manager_publish")
  then publish_effects ev next_status now ("New Event Published: '" +:+ title +:+ "'")
         ("New Child Event: '" +:+ title +:+ "' has been published!")
  else mret (no_fields next_status).

Definition blank (reason : option string) : bool :=
  match reason with Some r => bool_decide (str_strip r = "") | None => true end.

Definition check_preconditions (ev : event_view) (action : string) (actor : CurrentUser)
    (reason : option string) : DB unit :=
  let actor_roles := user_roles_of actor in
  if mem action ["submit_for_approval"; "propose"; "submit_to_event_teacher"] then
    uid ← lift (int_of_id (parse_id (cu_id actor)));
    guard_or ((ev_created_by (vw_row ev) =? uid)
              || has_one_of actor_roles ["school_admin"; "super_admin"])
      (PermissionError "Only the event creator can submit it for approval") ;;
    guard_or (negb (bool_decide (mapped_classes ev = [])))
      (ValueError "At least one class must be selected before submitting")
  else if mem action ["manager_reject"; "reject"] then
    guard_or (negb (blank reason))
      (ValueError ("A non-empty reason is required for action '" +:+ action +:+ "'"))
  else mret tt.

(** UPDATE event SET status = $1, x = COALESCE($n, x), ..., rejection_reason = $10 *)
Definition apply_fields (f : update_fields) (reviewer : option Z) (r : event_row) : event_row :=
  r <| ev_status := uf_status f |>
    <| ev_predicted := opt_or_opt (uf_predicted f) (ev_predicted r) |>
    <| ev_manager_reviewer := opt_or_opt reviewer (ev_manager_reviewer r) |>
    <| ev_submitted_at := opt_or_opt (uf_submitted_at f) (ev_submitted_at r) |>
    <| ev_manager_approved_at := opt_or_opt (uf_approved_at f) (ev_manager_approved_at r) |>
    <| ev_published_at := opt_or_opt (uf_published_at f) (ev_published_at r) |>
    <| ev_rejection_reason := uf_reason f |>.

Definition persist (event_id : Z) (f : update_fields) : DB unit :=
  reviewer ← (match uf_reviewer f with
              | Some v => bind_bigint v
              | None => mret None
              end);
  check_fk_opt users reviewer ;;
  modify (λ s, s <| events ::= alter (apply_fields f reviewer) event_id |>).

Definition transition_event (event_id : Z) (action : string) (actor : CurrentUser)
    (reason : option string) : DB (option event_view) :=
  o ← get_event_by_id event_id;
  ev ← from_option_or o (ValueError "Event not found");
  let current_status := ev_status (vw_row ev) in
  nx ← from_option_or (next_of current_status action)
         (ValueError ("Action '" +:+ action +:+ "' is not allowed in status '"
            +:+ current_status +:+ "'"));
  guard_or (has_one_of (user_roles_of actor) (allowed_roles nx.2 action))
    (PermissionError ("Role '" +:+ cu_role actor +:+ "' is not authorized to perform action '"
       +:+ action +:+ "'")) ;;
  check_preconditions ev action actor reason ;;
  now ← gets clock;
  f ← effects ev action nx.1 actor reason now;
  persist event_id f ;;
  get_event_by_id event_id.

(** ** What the notifications of a transition change *)
Definition sent (eid : Z) (rs : list Z) (s s' : TenantDB) : Prop :=
  ∃ new, nt_recipient <$> new = rs ∧ Forall (λ n, nt_event n = eid) new ∧
    s' = s <| notifications := notifications s ++ new |> <| nextid := nextid s' |>.
Definition sent_some (eid : Z) (s s' : TenantDB) : Prop := ∃ rs, sent eid rs s s'.

Lemma sent_nil eid s : sent eid [] s s.
Proof.
  exists []. split_and!; [done|done|]. destruct s. unfold set_field; simpl. by rewrite app_nil_r.
Qed.

Lemma sent_app eid rs rs' s1 s2 s3 :
  sent eid rs s1 s2 → sent eid rs' s2 s3 → sent eid (rs ++ rs') s1 s3.
Proof.
  intros (n1 & <- & H1 & ->) (n2 & <- & H2 & ->). exists (n1 ++ n2).
  split_and!; [by rewrite fmap_app|by apply Forall_app|].
  unfold set_field; simpl. by rewrite <-app_assoc.
Qed.

Lemma sent_some_refl eid s : sent_some eid s s.
Proof. exists []. apply sent_nil. Qed.
Lemma sent_is_some eid rs s s' : sent eid rs s s' → sent_some eid s s'.
Proof. by exists rs. Qed.
Lemma sent_some_trans eid s1 s2 s3 : sent_some eid s1 s2 → sent_some eid s2 s3 → sent_some eid s1 s3.
Proof. intros [r1 H1] [r2 H2]. exists (r1 ++ r2). eapply sent_app; eassumption. Qed.
#[local] Hint Resolve sent_nil sent_some_refl sent_is_some sent_some_trans : core.

(** The tables a notification leaves alone. *)
Lemma sent_tables eid rs s s' :
  sent eid rs s s' →
  events s' = events s ∧ students s' = students s ∧ users s' = users s ∧
  student_parent_map s' = student_parent_map s ∧ event_class_map s' = event_class_map s ∧
  enrollments s' = enrollments s ∧ payments s' = payments s ∧ clock s' = clock s.
Proof. by intros (new & _ & _ & ->). Qed.

Lemma wp_notify eid title rid s :
  wp (notify eid title rid) (λ _ s', sent eid [rid] s s') (λ _ s', s' = s) s.
Proof.
  unfold notify, create_notification, bind_bigint_not_null, bind_bigint. wp_simpl. simpl.
  wp_simpl. unfold check. wp_simpl. destruct (_ && _); [|done]. wp_simpl.
  destruct (_ <=? _); [|done]. wp_simpl.
  apply wp_check_fk; [|done]. intros _. wp_simpl. apply wp_check_fk; [|done]. intros _.
  wp_simpl. exists [{| nt_id := nextid s; nt_event := eid; nt_recipient := rid;
    nt_title := Some title; nt_read_at := None |}].
  split_and!; [done|by repeat constructor|done].
Qed.

Lemma wp_notify_all eid title rs s :
  wp (for_each rs (notify eid title)) (λ _, sent eid rs s) (λ _, sent_some eid s) s.
Proof.
  apply (wp_for_each_prefix rs _ (λ seen, sent eid seen s)); [auto|].
  intros seen x todo s1 _ Hs. eapply wp_mono; [apply wp_notify| |].
  - intros [] s2 H2. eapply sent_app; eassumption.
  - intros e s2 ->. eauto.
Qed.

Definition family (s : TenantDB) (sid : Z) : list Z := sid :: parents_of sid s.

Lemma wp_notify_family eid ts tp sid s :
  wp (notify_family eid ts tp sid) (λ _, sent eid (family s sid) s) (λ _, sent_some eid s) s.
Proof.
  unfold notify_family. wp_simpl. eapply wp_mono; [apply wp_notify| |by intros e s' ->].
  intros [] s1 H1. wp_simpl.
  assert (parents_of sid s1 = parents_of sid s) as ->.
  { unfold parents_of. by destruct (sent_tables _ _ _ _ H1) as (_ & _ & _ & -> & _). }
  eapply wp_mono; [apply wp_notify_all| |].
  - intros [] s2 H2. by apply (sent_app eid [sid] _ s s1).
  - intros e s2 H2. eauto.
Qed.

(** Everyone the publication of an event concerns, in order. *)
Definition audience (ev : event_view) (s : TenantDB) : list Z :=
  match mapped_classes ev with
  | [] => []
  | ids => concat (family s <$> (fst <$> by_id (class_students ids s)))
  end.

Lemma wp_notify_audience ev ts tp s :
  wp (notify_audience ev ts tp) (λ _, sent (vw_id ev) (audience ev s) s)
    (λ _, sent_some (vw_id ev) s) s.
Proof.
  unfold notify_audience, audience. destruct (mapped_classes ev) as [|i ids]; [apply sent_nil|].
  wp_simpl. generalize (by_id (class_students (i :: ids) s)).*1 as ss. intros ss.
  apply (wp_for_each_prefix ss _ (λ seen, sent (vw_id ev) (concat (family s <$> seen)) s)); [apply sent_nil|].
  intros seen x todo s1 _ H1. eapply wp_mono; [apply wp_notify_family| |].
  - intros [] s2 H2. rewrite fmap_app, concat_app.
    change (concat (family s <$> [x])) with (family s x ++ []). rewrite app_nil_r.
    assert (family s1 x = family s x) as Hfam.
    { unfold family, parents_of. by destruct (sent_tables _ _ _ _ H1) as (_ & _ & _ & -> & _). }
    rewrite Hfam in H2. eapply sent_app; eassumption.
  - intros e s2 H2. eauto.
Qed.

(** ** The code against the lifecycle *)

(** The fields an action stores, and who hears of it. *)
Definition expected_fields (ev : event_view) (action next_status : string) (actor : CurrentUser)
    (reason : option string) (s : TenantDB) : update_fields :=
  let f := no_fields next_status in
  let predicted := match mapped_classes ev with
                   | [] => None
                   | ids => Some (predict (Z.of_nat (List.length (class_students ids s))))
                   end in
  if mem action submit_actions
  then {| uf_status := next_status; uf_predicted := predicted; uf_reviewer := None; uf_submitted_at := Some (clock s);
          uf_approved_at := None; uf_published_at := None; uf_reason := None |}
  else if mem action ["manager_approve"; "approve"]
  then {| uf_status := next_status; uf_predicted := None; uf_reviewer := Some (cu_id actor); uf_submitted_at := None;
          uf_approved_at := Some (clock s); uf_published_at := None; uf_reason := None |}
  else if mem action ["manager_reject"; "reject"]
  then {| uf_status := next_status; uf_predicted := None; uf_reviewer := None; uf_submitted_at := None;
          uf_approved_at := None; uf_published_at := None; uf_reason := str_strip <$> reason |}
  else if mem action ["teacher_publish"; "publish"; "manager_publish"]
  then {| uf_status := next_status; uf_predicted := None; uf_reviewer := None; uf_submitted_at := None;
          uf_approved_at := None; uf_published_at := Some (clock s); uf_reason := None |}
  else f.

Definition recipients (ev : event_view) (action : string) (s : TenantDB) : list Z :=
  if mem action submit_actions
  then fst <$> by_id (select (λ _ u, bool_decide (us_role u = "manager")) (users s))
  else if mem action review_actions then [ev_created_by (vw_row ev)]
  else if mem action ["teacher_publish"; "publish"; "manager_publish"] then audience ev s
  else [].

Lemma mem_in a l : mem a l = true → a ∈ l.
Proof. apply mem_true. Qed.

(** Evaluates the membership tests on closed names. *)
Ltac eval_mem :=
  repeat match goal with
  | |- context [mem ?a ?l] =>
      let b := eval vm_compute in (mem a l) in
      lazymatch b with true => idtac | false => idtac end;
      change (mem a l) with b
  | |- context [bool_decide (@eq string ?a ?b)] =>
      let c := eval vm_compute in (bool_decide (@eq string a b)) in
      lazymatch c with true => idtac | false => idtac end;
      change (bool_decide (@eq string a b)) with c
  end.

Lemma next_of_in st action nx : next_of st action = Some nx → ((st, action), nx) ∈ TRANSITIONS.
Proof.
  unfold next_of. destruct (head _) as [[k v]|] eqn:Hh; [|done]. simpl. intros [= <-].
  apply list_elem_of_In. destruct (List.filter _ _) as [|t l] eqn:Hf; [done|].
  injection Hh as ->. assert (In (k, v) (List.filter (λ t, bool_decide (t.1 = (st, action))) TRANSITIONS))
    as Hin by (rewrite Hf; by left).
  apply filter_In in Hin as [Hin Hk]. apply bool_decide_eq_true in Hk. simpl in Hk. by subst k.
Qed.

(** The twelve transitions, as cases. *)
Ltac transition_cases H :=
  apply next_of_in in H; unfold TRANSITIONS in H;
  repeat (apply elem_of_cons in H as [H|H]; [injection H as ? ? ? ?; subst|]);
  [..|by apply elem_of_nil in H].

Lemma wp_submit_effects ev nx s :
  wp (submit_effects ev nx (clock s))
    (λ f s', f = {| uf_status := nx;
         uf_predicted := match mapped_classes ev with
                         | [] => None
                         | ids => Some (predict (Z.of_nat (List.length (class_students ids s))))
                         end;
         uf_reviewer := None; uf_submitted_at := Some (clock s); uf_approved_at := None; uf_published_at := None;
         uf_reason := None |} ∧
       sent (vw_id ev) (fst <$> by_id (select (λ _ u, bool_decide (us_role u = "manager")) (users s))) s s')
    (λ _, sent_some (vw_id ev) s) s.
Proof.
  unfold submit_effects, get_predicted_attendance, get_student_count_for_classes, get_all_managers.
  wp_simpl.
  apply (wp_mono _ (λ o s', s' = s ∧ o = match mapped_classes ev with
      | [] => None
      | ids => Some (predict (Z.of_nat (List.length (class_students ids s))))
      end) _ (λ _ s', s' = s)); [by destruct (mapped_classes ev)| |by intros e s' ->].
  intros p s' [-> ->]. wp_simpl. eapply wp_mono; [apply wp_notify_all| |done].
  intros [] s1 H1. wp_simpl. by split_and!.
Qed.

Lemma wp_effects ev action nx role actor reason s :
  next_of (ev_status (vw_row ev)) action = Some (nx, role) →
  (action ∈ ["manager_reject"; "reject"] → blank reason = false) →
  wp (effects ev action nx actor reason (clock s))
    (λ f s', f = expected_fields ev action nx actor reason s ∧
             sent (vw_id ev) (recipients ev action s) s s')
    (λ _, sent_some (vw_id ev) s) s.
Proof.
  intros Hnx Hreason. unfold effects, expected_fields, recipients.
  assert (∀ t rid (f f' : update_fields), f = f' →
    wp (notify (vw_id ev) t rid ;; mret f)
      (λ f s', f = f' ∧ sent (vw_id ev) [rid] s s') (λ _, sent_some (vw_id ev) s) s) as Hone.
  { intros t rid f f' <-. wp_simpl. eapply wp_mono; [apply wp_notify| |by intros e s' ->].
    intros [] s' H. wp_simpl. done. }
  assert (∀ ts tp,
    wp (publish_effects ev nx (clock s) ts tp)
      (λ f s', f = {| uf_status := nx; uf_predicted := None; uf_reviewer := None; uf_submitted_at := None;
          uf_approved_at := None; uf_published_at := Some (clock s); uf_reason := None |} ∧
        sent (vw_id ev) (audience ev s) s s') (λ _, sent_some (vw_id ev) s) s) as Hpub.
  { intros ts tp. unfold publish_effects. wp_simpl.
    eapply wp_mono; [apply wp_notify_audience| |done]. intros [] s' H. wp_simpl. done. }
  transition_cases Hnx;
    match goal with H : ev_status (vw_row ev) = _ |- _ => rewrite ?H end;
    eval_mem; cbn [andb];
    try (eapply wp_mono; [apply wp_submit_effects|done|done]);
    try (by apply Hone);
    try (apply Hpub);
    try (by (wp_simpl; split; [|apply sent_nil])).
  all: assert (blank reason = false) as Hb by (apply Hreason, mem_in; reflexivity);
    destruct reason as [r|]; [|done]; simpl in Hb; apply bool_decide_eq_false in Hb;
    apply Hone; cbn; rewrite bool_decide_false; [done|by intros ->].
Qed.

(** ** The specification: a step relation on statuses *)
Inductive verb := Submit | Approve | Reject | Publish.
#[export] Instance verb_eq_dec : EqDecision verb.
Proof. solve_decision. Defined.

Inductive life_step : string → verb → string → Prop :=
  | step_submit : life_step "draft" Submit "proposed"
  | step_approve : life_step "proposed" Approve "approved"
  | step_reject : life_step "proposed" Reject "draft"
  | step_publish : life_step "approved" Publish "published".

Definition verb_of (action : string) : option verb :=
  if mem action ["submit_for_approval"; "propose"; "submit_to_manager"; "submit_to_event_teacher"]
  then Some Submit
  else if mem action ["manager_approve"; "approve"] then Some Approve
  else if mem action ["manager_reject"; "reject"] then Some Reject
  else if mem action ["teacher_publish"; "publish"; "submit"; "manager_publish"] then Some Publish
  else None.

(** Who may take a step: administrators, the staff role it names, or the
    holder of its granular permission. *)
Definition authority (v : verb) : list string :=
  ["school_admin"; "super_admin"] ++
  match v with
  | Submit => ["teacher"; "event_teacher"; "event:submit"; "event:propose"]
  | Approve | Reject => ["manager"; "event:review"]
  | Publish => ["teacher"; "event_teacher"; "manager"; "event:publish"]
  end.

(** The actions of the code take these one by one; publishing is left to the
    teachers or to the managers. *)
Definition authority_of (action : string) : list string :=
  ["school_admin"; "super_admin"] ++
  (if mem action ["submit_for_approval"; "propose"; "submit_to_manager"; "submit_to_event_teacher"]
   then ["teacher"; "event_teacher"; "event:submit"; "event:propose"]
   else if mem action ["manager_approve"; "approve"; "manager_reject"; "reject"] then ["manager"; "event:review"]
   else if mem action ["teacher_publish"; "publish"; "submit"] then ["teacher"; "event_teacher"; "event:publish"]
   else ["manager"; "event:publish"]).

(** Four fifths of the students of the mapped classes, rounded. *)
Definition attendance (ev : event_view) (s : TenantDB) (p : Z) : Prop :=
  ∃ students_in : list (Z * student_row), NoDup students_in ∧
    (∀ sid r, (sid, r) ∈ students_in ↔ students s !! sid = Some r ∧
       ∃ cid, st_class r = Some cid ∧ cid ∈ (mp_class <$> vw_mappings ev)) ∧
    -5 < 10 * p - 8 * Z.of_nat (List.length students_in) < 5.

(** The row after a step: these fields, and no other, have changed. *)
Definition stamped (v : verb) (action : string) (actor : CurrentUser) (reason : option string)
    (ev : event_view) (s : TenantDB) (r r' : event_row) : Prop :=
  match v with
  | Submit => ∃ predicted,
      (match vw_mappings ev with [] => predicted = ev_predicted r | _ => ∃ p, attendance ev s p ∧ predicted = Some p end) ∧
      r' = r <| ev_status := "proposed" |> <| ev_predicted := predicted |> <| ev_submitted_at := Some (clock s) |>
             <| ev_rejection_reason := None |>
  | Approve => ∃ reviewer,
      (match parse_id (cu_id actor) with PInt n => reviewer = Some n | _ => reviewer = ev_manager_reviewer r end) ∧
      r' = r <| ev_status := "approved" |> <| ev_manager_reviewer := reviewer |> <| ev_manager_approved_at := Some (clock s) |>
             <| ev_rejection_reason := None |>
  | Reject => ∃ x, reason = Some x ∧ str_strip x ≠ "" ∧
      r' = r <| ev_status := "draft" |> <| ev_rejection_reason := Some (str_strip x) |>
  | Publish =>
      r' = r <| ev_status := "published" |>
             <| ev_published_at := if bool_decide (action = "submit") then ev_published_at r else Some (clock s) |>
             <| ev_rejection_reason := None |>
  end.

(** A step of the code: the row of the event moves along [life_step] with its
    stamps, the notifications go out, nothing else changes. *)
Record code_step (eid : Z) (action : string) (actor : CurrentUser) (reason : option string)
    (v : verb) (s s' : TenantDB) : Prop := {
  cs_verb : verb_of action = Some v;
  cs_authority : has_one_of (user_roles_of actor) (authority_of action) = true;
  (** a submission, but for the alias [submit_to_manager], has an audience and
      comes from the creator or an administrator *)
  cs_owner : action ∈ ["submit_for_approval"; "propose"; "submit_to_event_teacher"] →
    ∃ ev uid, event_view_of eid s = Some ev ∧ mapped_classes ev ≠ [] ∧
      int_of_id (parse_id (cu_id actor)) = Ok uid ∧
      (ev_created_by (vw_row ev) = uid ∨ has_one_of (user_roles_of actor) ["school_admin"; "super_admin"] = true);
  cs_row : ∃ r r' ev new, events s !! eid = Some r ∧ event_view_of eid s = Some ev ∧
    life_step (ev_status r) v (ev_status r') ∧ stamped v action actor reason ev s r r' ∧
    nt_recipient <$> new = recipients ev action s ∧ Forall (λ n, nt_event n = eid) new ∧
    s' = s <| notifications := notifications s ++ new |>
           <| events := <[eid := r']> (events s) |> <| nextid := nextid s' |>;
}.

Lemma authority_of_verb action v roles : verb_of action = Some v →
  has_one_of roles (authority_of action) = true → has_one_of roles (authority v) = true.
Proof.
  unfold verb_of, authority_of, has_one_of. rewrite !existsb_exists. intros Hv (x & Hx & Hin).
  exists x. split; [|done]. revert Hv Hx.
  destruct (mem action ["submit_for_approval"; _; _; _]); [intros [= <-]; apply id|].
  destruct (mem action ["manager_approve"; "approve"]) eqn:H1.
  { assert (mem action ["manager_approve"; "approve"; "manager_reject"; "reject"] = true) as ->.
    { apply mem_true in H1. apply mem_true. set_solver. } intros [= <-]. apply id. }
  destruct (mem action ["manager_reject"; "reject"]) eqn:H2.
  { assert (mem action ["manager_approve"; "approve"; "manager_reject"; "reject"] = true) as ->.
    { apply mem_true in H2. apply mem_true. set_solver. } intros [= <-]. apply id. }
  assert (mem action ["manager_approve"; "approve"; "manager_reject"; "reject"] = false) as ->.
  { apply mem_false in H1, H2. apply mem_false. set_solver. }
  destruct (mem action ["teacher_publish"; "publish"; "submit"; _]); [|done]. intros [= <-].
  destruct (mem action ["teacher_publish"; "publish"; "submit"]); vm_compute; tauto.
Qed.

Lemma transition_verb st action nx role :
  next_of st action = Some (nx, role) →
  ∃ v, verb_of action = Some v ∧ life_step st v nx ∧
    ∀ roles, has_one_of roles (allowed_roles role action) = true →
             has_one_of roles (authority_of action) = true.
Proof.
  intros H. assert (∀ l l' roles, l ⊆ l' → has_one_of roles l = true → has_one_of roles l' = true)
    as Hmono.
  { intros l l' roles Hl. unfold has_one_of. rewrite !existsb_exists.
    intros (r & Hr & ?). exists r. split; [|done]. apply list_elem_of_In, Hl, list_elem_of_In, Hr. }
  transition_cases H;
    (eexists; split; [reflexivity|]; split; [constructor|]; intros roles; apply Hmono;
     clear; intros ?; rewrite !list_elem_of_In; vm_compute; tauto).
Qed.

Lemma predict_spec n : -5 < 10 * predict n - 8 * n < 5.
Proof.
  unfold predict. pose proof (Z.div_mod (8 * n + 5) 10 ltac:(done)). pose proof (Z.mod_pos_bound (8 * n + 5) 10 ltac:(done)). lia.
Qed.
Lemma predict_rounds ev s : vw_mappings ev ≠ [] →
  attendance ev s (predict (Z.of_nat (List.length (class_students (mapped_classes ev) s)))).
Proof.
  intros Hne. exists (class_students (mapped_classes ev) s). split_and!.
  - eapply NoDup_fmap_1, select_NoDup.
  - intros sid r. unfold class_students. rewrite elem_of_select. unfold any_of. split.
    + intros [Hr Hc]. split; [done|]. destruct (st_class r) as [cid|]; [|done]. exists cid. by apply bool_decide_eq_true in Hc.
    + intros [Hr (cid & -> & Hc)]. split; [done|]. by apply bool_decide_eq_true.
  - apply predict_spec.
  - apply predict_spec.
Qed.

Lemma expected_stamped ev action nx role actor reason s v r reviewer :
  next_of (ev_status r) action = Some (nx, role) → verb_of action = Some v →
  (action ∈ ["manager_reject"; "reject"] → blank reason = false) →
  (uf_reviewer (expected_fields ev action nx actor reason s) = None → reviewer = None) →
  (∀ w, uf_reviewer (expected_fields ev action nx actor reason s) = Some w →
     match parse_id w with PInt n => reviewer = Some n | _ => reviewer = None end) →
  stamped v action actor reason ev s r (apply_fields (expected_fields ev action nx actor reason s) reviewer r).
Proof.
  intros Hnx Hv Hreason. unfold expected_fields. transition_cases Hnx;
    vm_compute in Hv; injection Hv as <-; eval_mem; cbn [stamped uf_reviewer no_fields]; intros Hnone Hsome;
    try (specialize (Hnone eq_refl); subst reviewer).
  1-4: exists (opt_or_opt (match mapped_classes ev with
      | [] => None
      | ids => Some (predict (Z.of_nat (List.length (class_students ids s))))
      end) (ev_predicted r));
    split; [|by destruct r]; unfold mapped_classes; destruct (vw_mappings ev) eqn:Hm; cbn; [done|];
    eexists; split; [|done]; pose proof (predict_rounds ev s) as Hp; unfold mapped_classes in Hp; rewrite Hm in Hp; by apply Hp.
  1-2: exists (opt_or_opt reviewer (ev_manager_reviewer r)); specialize (Hsome _ eq_refl); split; [|by destruct r];
    destruct (parse_id (cu_id actor)); by subst reviewer.
  1-2: assert (blank reason = false) as Hb by (apply Hreason, mem_in; reflexivity);
    destruct reason as [x|]; [|done]; cbn in Hb; apply bool_decide_eq_false in Hb; exists x; split_and!; [done|done|by destruct r].
  all: by destruct r.
Qed.

Lemma wp_lift {A} (r : result A) (Q : A → TenantDB → Prop) (E : exn → TenantDB → Prop) s :
  match r with Ok a => Q a s | Raise e => E e s end → wp (lift r) Q E s.
Proof. by destruct r. Qed.

Lemma wp_preconditions ev action actor reason s (Q : unit → TenantDB → Prop)
    (E : exn → TenantDB → Prop) :
  ((action ∈ ["manager_reject"; "reject"] → blank reason = false) →
   (action ∈ ["submit_for_approval"; "propose"; "submit_to_event_teacher"] →
      mapped_classes ev ≠ [] ∧ ∃ uid, int_of_id (parse_id (cu_id actor)) = Ok uid ∧
      (ev_created_by (vw_row ev) = uid ∨
       has_one_of (user_roles_of actor) ["school_admin"; "super_admin"] = true)) →
   Q tt s) →
  (∀ e, E e s) →
  wp (check_preconditions ev action actor reason) Q E s.
Proof.
  intros HQ HE. unfold check_preconditions.
  destruct (mem action ["submit_for_approval"; _; _]) eqn:Hm.
  - wp_simpl. apply wp_lift.
    destruct (int_of_id _) as [uid|] eqn:Hid; [|auto]. wp_simpl.
    destruct (_ || _) eqn:Ho; [|auto]. wp_simpl.
    case_bool_decide as Hc; cbn [negb]; [auto|]. apply HQ.
    + intros Hin. exfalso. revert Hm.
      apply elem_of_cons in Hin as [->|Hin]; [by vm_compute|].
      apply elem_of_cons in Hin as [->|Hin]; [by vm_compute|]. by apply elem_of_nil in Hin.
    + intros _. split; [done|]. exists uid. split; [done|].
      apply orb_prop in Ho as [Ho|Ho]; [left; by apply Z.eqb_eq|by right].
  - apply mem_false in Hm.
    destruct (mem action ["manager_reject"; "reject"]) eqn:Hr.
    + wp_simpl. destruct (blank reason) eqn:Hb; simpl; [auto|]. apply HQ; [done|].
      intros Hin. done.
    + apply mem_false in Hr. wp_simpl. apply HQ; [done|]. done.
Qed.

Lemma wp_persist eid f s (Q : unit → TenantDB → Prop) (E : exn → TenantDB → Prop) :
  (∀ reviewer, (uf_reviewer f = None → reviewer = None) →
     (∀ v, uf_reviewer f = Some v → match parse_id v with PInt n => reviewer = Some n | _ => reviewer = None end) →
     Q tt (s <| events ::= alter (apply_fields f reviewer) eid |>)) →
  (∀ e, E e s) →
  wp (persist eid f) Q E s.
Proof.
  intros HQ HE. unfold persist. wp_simpl. destruct (uf_reviewer f) as [v|] eqn:Hv.
  - unfold bind_bigint, check. destruct (parse_id v) as [n| | |] eqn:Hp; wp_simpl; auto.
    + destruct (_ && _); [|auto]. wp_simpl.
      apply wp_readonly; [intros ?; auto with pres| |auto]. intros _. wp_simpl.
      apply HQ; [done|]. intros v' [= <-]. by rewrite Hp.
    + simpl. wp_simpl. apply HQ; [done|]. intros v' [= <-]. by rewrite Hp.
  - wp_simpl. simpl. wp_simpl. by apply HQ.
Qed.

Lemma alter_some {R} (f : R → R) (t : gmap Z R) k r :
  t !! k = Some r → alter f k t = <[k := f r]> t.
Proof.
  intros Hr. apply map_eq. intros j. destruct (decide (k = j)) as [<-|Hne].
  - by rewrite lookup_alter_eq, lookup_insert_eq, Hr.
  - by rewrite lookup_alter_ne, lookup_insert_ne.
Qed.

Lemma wp_transition eid action actor reason s :
  wp (transition_event eid action actor reason)
    (λ o s', o = event_view_of eid s' ∧ ∃ v, code_step eid action actor reason v s s')
    (λ _, sent_some eid s) s.
Proof.
  unfold transition_event, get_event_by_id. wp_simpl.
  unfold event_view_of at 1. destruct (events s !! eid) as [r|] eqn:Hr; cbn [fmap option_fmap option_map];
    wp_simpl; [|auto].
  set (ev := {| vw_id := eid; vw_row := r; vw_mappings := _ |}).
  assert (event_view_of eid s = Some ev) as Hev by (unfold event_view_of; by rewrite Hr).
  destruct (next_of (ev_status (vw_row ev)) action) as [[nx role]|] eqn:Hnx; [|wp_simpl; auto].
  destruct (has_one_of (user_roles_of actor) (allowed_roles (nx, role).2 action)) eqn:Ha;
    [|wp_simpl; auto].
  destruct (transition_verb _ _ _ _ Hnx) as (v & Hv & Hstep & Hauth).
  wp_simpl. apply wp_preconditions; [|auto]. intros Hreason Howner. wp_simpl.
  eapply wp_mono; [by eapply wp_effects| |done].
  intros f s1 [-> Hs]. wp_simpl. apply wp_persist; [|intros _; eauto].
  intros reviewer Hnone Hrev. wp_simpl. split; [done|]. exists v. split; [done|by apply Hauth| |].
  - intros Hin. destruct (Howner Hin) as (Hc & uid & Huid & Ho). by exists ev, uid.
  - exists r, (apply_fields (expected_fields ev action nx actor reason s) reviewer r), ev.
    destruct Hs as (new & Hnew & Hall & ->). exists new. split_and!; try done.
    + assert (uf_status (expected_fields ev action nx actor reason s) = nx) as Hst
        by (unfold expected_fields; repeat case_match; done).
      cbn. by rewrite Hst.
    + eapply (expected_stamped ev); done.
    + unfold set_field; simpl. by rewrite (alter_some _ _ _ r Hr).
Qed.

(** ** Properties of the lifecycle *)






(** An event is submitted by its creator, with an audience. When
    [submit_for_approval], [propose] or [submit_to_event_teacher] succeeds,
    at least one class was mapped and the actor created the event or is an
    administrator. *)
Theorem submit_requires_creator_and_class eid action actor reason s o s' :
  action ∈ ["submit_for_approval"; "propose"; "submit_to_event_teacher"] →
  transition_event eid action actor reason s = (Ok o, s') →
  ∃ ev uid, event_view_of eid s = Some ev ∧ mapped_classes ev ≠ [] ∧
    int_of_id (parse_id (cu_id actor)) = Ok uid ∧
    (ev_created_by (vw_row ev) = uid ∨
     has_one_of (user_roles_of actor) ["school_admin"; "super_admin"] = true).
Proof.
  intros Hin Hrun. pose proof (wp_transition eid action actor reason s) as H.
  unfold wp in H. rewrite Hrun in H. destruct H as [_ (v & Hc)]. by apply Hc.
Qed.

Lemma submit_requires_creator_and_class_witness :
  ∃ o s' ev uid, transition_event 42 "propose" (demo_actor "7" "teacher") None demo_db = (Ok o, s') ∧
    event_view_of 42 demo_db = Some ev ∧ mapped_classes ev ≠ [] ∧
    int_of_id (parse_id (cu_id (demo_actor "7" "teacher"))) = Ok uid ∧
    (ev_created_by (vw_row ev) = uid ∨
     has_one_of (user_roles_of (demo_actor "7" "teacher")) ["school_admin"; "super_admin"] = true).
Proof.
  destruct (run_ok (transition_event 42 "propose" (demo_actor "7" "teacher") None)
              demo_db eq_refl) as (o & s' & E).
  destruct (submit_requires_creator_and_class 42 "propose" (demo_actor "7" "teacher") None
              demo_db o s'
              (mem_in "propose" ["submit_for_approval"; "propose"; "submit_to_event_teacher"] eq_refl)
              E) as (ev & uid & H).
  exists o, s', ev, uid. split; [exact E|exact H].
Defined.

(** The alias [submit_to_manager] has no such precondition: a teacher who did
    not create the trip submits it, with no class mapped. *)
Example submit_to_manager_skips_the_checks :
  let s := demo_db <| event_class_map := ∅ |> <| users ::= <[9 := demo_user "t2@s.edu" "teacher"]> |> in
  ev_status <$> events (transition_event 42 "submit_to_manager" (demo_actor "9" "teacher") None s).2 !! 42
  = Some "proposed".
Proof. vm_compute. reflexivity. Qed.

(** A run of transition requests on one event, by any actors; a request that
    raises leaves what it left. *)
Record request := { rq_action : string; rq_actor : CurrentUser; rq_reason : option string }.

Fixpoint run_transitions (eid : Z) (reqs : list request) (s : TenantDB) : TenantDB :=
  match reqs with
  | [] => s
  | q :: reqs' =>
      run_transitions eid reqs' (transition_event eid (rq_action q) (rq_actor q) (rq_reason q) s).2
  end.

Definition status_of (eid : Z) (s : TenantDB) : option string := ev_status <$> events s !! eid.

Lemma verb_of_approve a : verb_of a = Some Approve → a ∈ ["manager_approve"; "approve"].
Proof.
  unfold verb_of. destruct (mem a ["submit_for_approval"; _; _; _]); [done|].
  destruct (mem a ["manager_approve"; _]) eqn:Hm; [intros _; by apply mem_in|].
  destruct (mem a ["manager_reject"; _]); [done|].
  by destruct (mem a ["teacher_publish"; _; _; _]).
Qed.

(** One request either keeps the status or takes a step of the lifecycle. *)
Lemma request_step eid q s :
  let s' := (transition_event eid (rq_action q) (rq_actor q) (rq_reason q) s).2 in
  status_of eid s' = status_of eid s ∨
  ∃ st v nx, status_of eid s = Some st ∧ life_step st v nx ∧ status_of eid s' = Some nx ∧
    verb_of (rq_action q) = Some v ∧
    has_one_of (user_roles_of (rq_actor q)) (authority v) = true.
Proof.
  pose proof (wp_transition eid (rq_action q) (rq_actor q) (rq_reason q) s) as H.
  unfold wp in H. cbv zeta.
  destruct (transition_event eid (rq_action q) (rq_actor q) (rq_reason q) s) as [[o|e] s'].
  - right. destruct H as [_ (v & [Hv Ha%(authority_of_verb _ _ _ Hv) _ Hrow])].
    destruct Hrow as (r & r' & ev & new & Hr & _ & Hstep & _ & _ & _ & ->).
    exists (ev_status r), v, (ev_status r'). unfold status_of. simpl.
    rewrite Hr, lookup_insert_eq. auto.
  - left. destruct H as (rs & Hs). simpl. unfold status_of.
    by destruct (sent_tables _ _ _ _ Hs) as [-> _].
Qed.

(** C7: approval is never skipped and publication is final. In any run of
    transition requests from a draft or proposed event to a published one,
    there is a request whose action is [manager_approve] or [approve] that
    found the event proposed and left it approved, by a manager, an
    administrator or somebody with the permission [event:review]; and a
    published event stays published whatever is requested next. *)
Theorem publication_requires_approval eid reqs s :
  (status_of eid s = Some "draft" ∨ status_of eid s = Some "proposed") →
  status_of eid (run_transitions eid reqs s) = Some "published" →
  (∃ pre q post, reqs = pre ++ q :: post ∧
     rq_action q ∈ ["manager_approve"; "approve"] ∧
     has_one_of (user_roles_of (rq_actor q)) (authority Approve) = true ∧
     status_of eid (run_transitions eid pre s) = Some "proposed" ∧
     status_of eid (run_transitions eid (pre ++ [q]) s) = Some "approved") ∧
  ∀ more, status_of eid (run_transitions eid (reqs ++ more) s) = Some "published".
Proof.
  assert (∀ l1 l2 s, run_transitions eid (l1 ++ l2) s =
    run_transitions eid l2 (run_transitions eid l1 s)) as Happ.
  { induction l1 as [|q l1 IH]; intros l2 s0; simpl; [done|]. apply IH. }
  intros Hstart Hend. split.
  - revert s Hstart Hend. induction reqs as [|q reqs IH]; intros s Hstart Hend; simpl in Hend.
    { destruct Hstart; congruence. }
    pose proof (request_step eid q s) as Hq. cbv zeta in Hq.
    set (s1 := (transition_event eid (rq_action q) (rq_actor q) (rq_reason q) s).2) in *.
    assert ((status_of eid s1 = Some "draft" ∨ status_of eid s1 = Some "proposed") ∨
      (verb_of (rq_action q) = Some Approve ∧
       has_one_of (user_roles_of (rq_actor q)) (authority Approve) = true ∧
       status_of eid s = Some "proposed" ∧ status_of eid s1 = Some "approved")) as [Hs1|Hs1].
    { destruct Hq as [Hq|(st & v & nx & Hst & Hstep & Hnx & Hv & Ha)]; [left; by rewrite Hq|].
      destruct Hstep; auto 6. destruct Hstart; congruence. }
    + destruct (IH s1 Hs1 Hend) as (pre & q' & post & -> & ? & ? & ? & ?).
      by exists (q :: pre), q', post.
    + destruct Hs1 as (Hv & Ha & Hp & Hap). exists [], q, reqs. split_and!; auto.
      by apply verb_of_approve.
  - intros more. rewrite Happ. revert Hend. generalize (run_transitions eid reqs s) as s1.
    induction more as [|q more IH]; intros s1 H1; simpl; [done|]. apply IH.
    pose proof (request_step eid q s1) as Hq. cbv zeta in Hq.
    destruct Hq as [Hq|(st & v & nx & Hst & Hstep & _)]; [congruence|].
    destruct Hstep; congruence.
Qed.

Definition demo_run : list request :=
  [{| rq_action := "propose"; rq_actor := demo_actor "7" "teacher"; rq_reason := None |};
   {| rq_action := "teacher_publish"; rq_actor := demo_actor "7" "teacher"; rq_reason := None |};
   {| rq_action := "manager_approve"; rq_actor := demo_actor "6" "manager"; rq_reason := None |};
   {| rq_action := "teacher_publish"; rq_actor := demo_actor "7" "teacher"; rq_reason := None |}].

Lemma publication_requires_approval_witness :
  ∃ pre q post, demo_run = pre ++ q :: post ∧ rq_action q ∈ ["manager_approve"; "approve"] ∧
    status_of 42 (run_transitions 42 (pre ++ [q]) demo_db) = Some "approved".
Proof.
  destruct (publication_requires_approval 42 demo_run demo_db) as [(pre & q & post & H1 & H2 & _ & _ & H3) _].
  - left. vm_compute. reflexivity.
  - vm_compute. reflexivity.
  - exists pre, q, post. split; [exact H1|]. split; [exact H2|exact H3].
Defined.

(** The publish alias [submit] is silent. On an approved event the
    action [submit] publishes without a publication stamp and without a
    single notification, unlike the three other publish actions. *)
Theorem submit_publishes_silently eid actor reason s o s' r :
  events s !! eid = Some r → ev_status r = "approved" →
  transition_event eid "submit" actor reason s = (Ok o, s') →
  notifications s' = notifications s ∧
  ∃ r', events s' !! eid = Some r' ∧ ev_status r' = "published" ∧
        ev_published_at r' = ev_published_at r.
Proof.
  intros Hr Hst Hrun.
  assert (wp (transition_event eid "submit" actor reason)
    (λ _ s', notifications s' = notifications s ∧
       ∃ r', events s' !! eid = Some r' ∧ ev_status r' = "published" ∧
             ev_published_at r' = ev_published_at r) (λ _ _, True) s) as H.
  { unfold transition_event, get_event_by_id. wp_simpl. unfold event_view_of at 1. rewrite Hr.
    cbn [fmap option_fmap option_map]. wp_simpl. cbn [vw_row]. rewrite Hst.
    change (next_of "approved" "submit") with (Some ("published", "teacher")). cbn [fst snd].
    wp_simpl. destruct (has_one_of _ _); [|done]. unfold check_preconditions. eval_mem.
    wp_simpl. unfold effects. eval_mem. cbn [vw_row andb]. wp_simpl.
    apply wp_persist; [|done]. intros reviewer _ _. wp_simpl. split; [done|].
    exists (apply_fields (no_fields "published") reviewer r). simpl.
    by rewrite lookup_alter_eq, Hr. }
  unfold wp in H. by rewrite Hrun in H.
Qed.

Lemma submit_publishes_silently_witness :
  ∃ o s', transition_event 41 "submit" (demo_actor "7" "teacher") None demo_approved = (Ok o, s') ∧
    notifications s' = notifications demo_approved ∧
    ∃ r', events s' !! 41 = Some r' ∧ ev_status r' = "published" ∧ ev_published_at r' = None.
Proof.
  destruct (run_ok (transition_event 41 "submit" (demo_actor "7" "teacher") None)
              demo_approved eq_refl) as (o & s' & E).
  exists o, s'. split; [exact E|].
  exact (submit_publishes_silently 41 (demo_actor "7" "teacher") None demo_approved o s'
           (demo_event "Museum" "approved") eq_refl eq_refl E).
Defined.
