(* ===== verification/Resources.v ===== *)
(** * Resources of a trip and their costs

    The resource part of [TenantRepository] and [TenantService]
    (src/app/domains/tenant/), the resource lines of [EventService]
    (src/app/domains/events/service.py), and the invariant that a priced
    line's total is its unit price times its quantity. Amounts are integers
    in units of 10^-4 (an amount with at most four decimals). *)
From S2P Require Import Prelude PyText Authz Store AcademicRepo AcademicDelete EventRepo EventRules EventLifecycle Demo.

(** ** The repository *)
Definition create_resource_type (name category : string) (is_custom : bool)
    (created_by_user_id : pyid) : DB Z :=
  cb ← bind_bigint (truthy_id created_by_user_id);
  check ((utf8_len name <=? 120) && (utf8_len category <=? 30)) "value too long" ;;
  check_fk_opt users cb ;;
  insert_serial resource_types
    {| rt_name := name; rt_category := category; rt_custom := is_custom; rt_created_by := cb;
       rt_active := true |}.

Definition get_all_resource_types (category : option string) : DB (list (Z * resource_type_row)) :=
  t ← gets resource_types;
  mret (by_id (select (λ _ r, rt_active r && match category with
     | Some c => bool_decide (c = "") || bool_decide (rt_category r = c)
     | None => true
     end) t)).

Definition create_resource (event_id resource_type_id : Z) (description : option string)
    (quantity : Z) (added_by_user_id : pyid) : DB Z :=
  by_ ← bind_bigint_not_null added_by_user_id;
  check_int4 [Some resource_type_id; Some quantity] ;;
  check (0 <? quantity) "resources_quantity_check" ;;
  check_fk events event_id ;;
  check_fk resource_types resource_type_id ;;
  check_fk users by_ ;;
  insert_serial resources
    {| rs_event := event_id; rs_type := resource_type_id; rs_description := description;
       rs_quantity := quantity; rs_added_by := by_; rs_updated_by := None |}.

Definition get_resource_by_id (id : Z) : DB (option resource_row) :=
  t ← gets resources; mret (t !! id).

(** The inner join finds the type of every resource. *)
Definition event_resources (event_id : Z) (s : TenantDB) : list (Z * resource_row) :=
  by_id (select (λ _ r, (rs_event r =? event_id) && has_row (resource_types s) (rs_type r))
           (resources s)).
Definition get_resources_for_event (event_id : Z) : DB (list (Z * resource_row)) :=
  gets (event_resources event_id).

(** DELETE FROM resources: CASCADE to the cost of each. *)
Definition delete_resources_where (P : Z → resource_row → bool) : DB unit :=
  modify (λ s, s
    <| resource_costs ::= delete_where (λ _ c, bool_decide (co_resource c ∈ keys_where P (resources s))) |>
    <| resources ::= delete_where P |>).
Definition delete_resources_for_event (event_id : Z) : DB unit :=
  delete_resources_where (λ _ r, rs_event r =? event_id).
Definition delete_resource (id : Z) : DB unit := delete_resources_where (λ k _, k =? id).

Definition update_resource (id : Z) (resource_type_id : option Z) (description : option string)
    (quantity : option Z) (updated_by_user_id : pyid) : DB unit :=
  by_ ← bind_bigint updated_by_user_id;
  check_int4 [truthy_int resource_type_id; quantity] ;;
  t ← gets resources;
  match t !! id with
  | None => mret tt
  | Some r =>
      let row := r <| rs_type := opt_or (truthy_int resource_type_id) (rs_type r) |>
                   <| rs_description := opt_or_opt description (rs_description r) |>
                   <| rs_quantity := opt_or quantity (rs_quantity r) |>
                   <| rs_updated_by := by_ |> in
      check (0 <? rs_quantity row) "resources_quantity_check" ;;
      check_fk resource_types (rs_type row) ;;
      check_fk_opt users by_ ;;
      modify (λ s, s <| resources ::= <[id := row]> |>)
  end.

Definition cost_of (resource_id : Z) (s : TenantDB) : option (Z * cost_row) :=
  head (select (λ _ c, co_resource c =? resource_id) (resource_costs s)).
Definition get_resource_cost_by_resource_id (resource_id : Z) : DB (option (Z * cost_row)) :=
  gets (cost_of resource_id).

(** INSERT ... ON CONFLICT (resource_id) DO UPDATE *)
Definition set_cost_row (resource_id unit_price total_cost : Z) (currency : string)
    (set_by_user_id : pyid) : DB Z :=
  t ← gets resources;
  res ← from_option_or (t !! resource_id)
          (ValueError ("Resource with ID " +:+ pretty resource_id +:+ " not found"));
  by_ ← bind_bigint_not_null set_by_user_id;
  check_money unit_price ;;
  check_money total_cost ;;
  check (utf8_len currency <=? 3) "value too long for type character varying(3)" ;;
  check (0 <=? unit_price) "resource_cost_unit_price_check" ;;
  check_fk users by_ ;;
  existing ← get_resource_cost_by_resource_id resource_id;
  let row ev := {| co_event := ev; co_resource := resource_id; co_unit_price := unit_price;
                   co_total := total_cost; co_currency := currency; co_set_by := by_ |} in
  match existing with
  | Some (id, c) => modify (λ s, s <| resource_costs ::= <[id := row (co_event c)]> |>) ;; mret id
  | None => insert_serial resource_costs (row (rs_event res))
  end.

(** ** The service *)
Record resource_in := {
  ri_type : Z; ri_description : option string; ri_quantity : Z }.

Definition resources_locked : exn :=
  ValueError "Resources can only be modified on draft or resource planning events".

(** The surrounding [conn.transaction()] holds no statement: every statement
    below runs on the pool and commits by itself. *)
Definition add_resources_to_event (event_id : Z) (resources_list : list resource_in)
    (added_by_user_id : pyid) : DB unit :=
  o ← get_event_by_id event_id;
  ev ← from_option_or o resources_locked;
  guard_or (mem (ev_status (vw_row ev)) ["draft"; "resource_planning"]) resources_locked ;;
  delete_resources_for_event event_id ;;
  for_each resources_list (λ r,
    create_resource event_id (ri_type r) (ri_description r) (ri_quantity r) added_by_user_id ;;
    mret tt).

Definition pricing_locked : exn :=
  ValueError "Pricing cannot be updated for published or cancelled events".

Definition set_resource_cost (resource_id unit_price : Z) (currency : string)
    (set_by_user_id : pyid) : DB Z :=
  o ← get_resource_by_id resource_id;
  resource ← from_option_or o (ValueError "Resource not found");
  e ← get_event_by_id (rs_event resource);
  ev ← from_option_or e pricing_locked;
  guard_or (negb (mem (ev_status (vw_row ev)) ["published"; "cancelled"])) pricing_locked ;;
  set_cost_row resource_id unit_price (unit_price * rs_quantity resource) currency set_by_user_id.

Record summary_line := {
  sl_id : Z; sl_type : Z; sl_quantity : Z; sl_unit_price : Z; sl_total : Z }.
Record resource_summary := {
  su_lines : list summary_line; su_total : Z; su_currency : option string }.

(** [school_currency]: the currency of the school's profile row. *)
Definition summary_line_of (s : TenantDB) (kv : Z * resource_row) : summary_line :=
  let cost := cost_of kv.1 s in
  {| sl_id := kv.1; sl_type := rs_type kv.2; sl_quantity := rs_quantity kv.2;
     sl_unit_price := match cost with Some c => co_unit_price c.2 | None => 0 end;
     sl_total := match cost with Some c => co_total c.2 | None => 0 end |}.

Definition get_resource_summary (event_id : Z) (school_currency : option string) :
    DB resource_summary :=
  gets (λ s,
    let lines := summary_line_of s <$> event_resources event_id s in
    {| su_lines := lines; su_total := fold_right Z.add 0 (sl_total <$> lines);
       su_currency := school_currency |}).

(** ** Resource lines ([EventService]) *)
Definition editable_event (event_id : Z) (actor : CurrentUser) : DB event_view :=
  o ← get_event_by_id event_id;
  ev ← from_option_or o (ValueError "Event not found");
  lift (require_editable actor ev) ;;
  mret ev.

Definition update_resource_line (resource_id : Z) (actor : CurrentUser)
    (resource_type_id : option Z) (description : option string) (quantity : option Z) : DB unit :=
  o ← get_resource_by_id resource_id;
  resource ← from_option_or o (ValueError "Resource not found");
  editable_event (rs_event resource) actor ;;
  update_resource resource_id (Some (opt_or (truthy_int resource_type_id) (rs_type resource)))
    (opt_or_opt description (rs_description resource))
    (Some (opt_or quantity (rs_quantity resource))) (cu_id actor) ;;
  match quantity with
  | None => mret tt
  | Some q =>
      c ← get_resource_cost_by_resource_id resource_id;
      match c with
      | None => mret tt
      | Some (_, cost) =>
          set_cost_row resource_id (co_unit_price cost) (co_unit_price cost * q)
            (co_currency cost) (cu_id actor) ;;
          mret tt
      end
  end.

Definition add_resource_line (event_id : Z) (actor : CurrentUser) (resource_type_id : Z)
    (description : option string) (quantity : Z) : DB Z :=
  editable_event event_id actor ;;
  create_resource event_id resource_type_id description quantity (cu_id actor).

Definition delete_resource_line (resource_id : Z) (actor : CurrentUser) : DB unit :=
  o ← get_resource_by_id resource_id;
  resource ← from_option_or o (ValueError "Resource not found");
  editable_event (rs_event resource) actor ;;
  delete_resource resource_id.

(** ** The invariant of the costs

    [costs_ok bad s]: every cost belongs to a resource of the same event, at
    most one per resource, and quotes unit price times quantity, except for
    the resource [bad] whose quantity has just changed. *)
Record costs_ok (bad : option Z) (s : TenantDB) : Prop := {
  ck_total : ∀ i c, resource_costs s !! i = Some c →
    ∃ r, resources s !! co_resource c = Some r ∧ co_event c = rs_event r ∧
      (bad ≠ Some (co_resource c) → co_total c = co_unit_price c * rs_quantity r);
  ck_unique : ∀ i j c d, resource_costs s !! i = Some c → resource_costs s !! j = Some d →
    co_resource c = co_resource d → i = j;
  ck_costs : ids_below (nextid s) (resource_costs s);
  ck_resources : ids_below (nextid s) (resources s);
}.

Lemma costs_ok_sent bad eid rs s s' :
  sent eid rs s s' → nextid s ≤ nextid s' → costs_ok bad s → costs_ok bad s'.
Proof.
  intros (new & _ & _ & ->) Hn [H1 H2 H3 H4]. split; simpl in *; try done.
  - by eapply ids_below_mono.
  - by eapply ids_below_mono.
Qed.

Lemma costs_ok_delete P s :
  costs_ok None s →
  costs_ok None (s <| resource_costs ::= delete_where (λ _ c,
        bool_decide (co_resource c ∈ keys_where P (resources s))) |>
      <| resources ::= delete_where P |>).
Proof.
  intros [H1 H2 H3 H4]. split; simpl.
  - intros i c [Hc Hk]%lookup_delete_where. apply bool_decide_eq_false in Hk.
    destruct (H1 i c Hc) as (r & Hr & He & Ht). exists r. split; [|auto].
    apply lookup_delete_where. split; [done|].
    destruct (P (co_resource c) r) eqn:HP; [|done]. exfalso. apply Hk.
    apply list_elem_of_fmap. exists (co_resource c, r). split; [done|].
    by apply elem_of_select.
  - intros i j c d [Hc _]%lookup_delete_where [Hd _]%lookup_delete_where. eauto.
  - eapply ids_below_subset; [exact H3|]. intros k [c [Hc _]%lookup_delete_where]. eauto.
  - eapply ids_below_subset; [exact H4|]. intros k [c [Hc _]%lookup_delete_where]. eauto.
Qed.

Lemma costs_ok_new_resource s r :
  costs_ok None s → costs_ok None (s <| resources ::= <[nextid s := r]> |> <| nextid := nextid s + 1 |>).
Proof.
  intros [H1 H2 H3 H4]. pose proof (ids_below_fresh _ _ H4) as Hfresh. split; simpl.
  - intros i c Hc. destruct (H1 i c Hc) as (r' & Hr & ?). exists r'.
    rewrite lookup_insert_ne; [done|]. intros He. rewrite <-He in Hr. congruence.
  - done.
  - eapply ids_below_mono; [done|]. lia.
  - apply ids_below_insert; [eapply ids_below_mono; [done|]|]; lia.
Qed.

(** The cost found is the cost of the resource. *)
Lemma cost_of_some bad s rid i c :
  costs_ok bad s → cost_of rid s = Some (i, c) ↔ resource_costs s !! i = Some c ∧ co_resource c = rid.
Proof.
  intros Hok. unfold cost_of. split.
  - intros Hh%head_elem%elem_of_select. destruct Hh as [? Hr%Z.eqb_eq]. done.
  - intros [Hc Hr].
    assert ((i, c) ∈ select (λ _ c, co_resource c =? rid) (resource_costs s)) as Hin.
    { apply elem_of_select. split; [done|]. by apply Z.eqb_eq. }
    destruct (select _ _) as [|[j d] l] eqn:Hs; [set_solver|]. simpl.
    assert ((j, d) ∈ select (λ _ c, co_resource c =? rid) (resource_costs s)) as Hj.
    { rewrite Hs. left. }
    apply elem_of_select in Hj as [Hj Hrd%Z.eqb_eq]. simpl in *.
    assert (j = i) as -> by (eapply (ck_unique _ _ Hok); eauto; congruence). congruence.
Qed.

Lemma cost_of_none bad s rid :
  cost_of rid s = None → costs_ok bad s → ∀ i c, resource_costs s !! i = Some c → co_resource c ≠ rid.
Proof.
  intros Hn Hok i c Hc Hr. pose proof (proj2 (cost_of_some bad s rid i c Hok) (conj Hc Hr)).
  congruence.
Qed.

Lemma costs_ok_set bad s rid r i c :
  costs_ok bad s → bad = None ∨ bad = Some rid →
  resources s !! rid = Some r → co_resource c = rid → co_event c = rs_event r →
  co_total c = co_unit_price c * rs_quantity r →
  (∀ j d, resource_costs s !! j = Some d → co_resource d = rid → j = i) →
  i < nextid s →
  costs_ok None (s <| resource_costs ::= <[i := c]> |>).
Proof.
  intros [H1 H2 H3 H4] Hbad Hr Hc He Ht Honly Hi. split; simpl; [| | |done].
  - intros j d [[<- <-]|[Hne Hd]]%lookup_insert_Some.
    + exists r. rewrite Hc. auto.
    + destruct (H1 j d Hd) as (r' & Hr' & He' & Ht'). exists r'. split_and!; [done|done|].
      intros _. apply Ht'. destruct Hbad as [->| ->]; [done|]. intros [= Hd'].
      apply Hne. symmetry. eapply Honly; eauto.
  - intros j k d d' [[<- <-]|[Hne Hd]]%lookup_insert_Some [[<- <-]|[Hne' Hd']]%lookup_insert_Some Heq.
    + done.
    + symmetry. eapply Honly; eauto. congruence.
    + eapply Honly; eauto. congruence.
    + eauto.
  - by apply ids_below_insert.
Qed.

Lemma costs_ok_nextid bad s n :
  nextid s ≤ n → costs_ok bad s → costs_ok bad (s <| nextid := n |>).
Proof.
  intros Hn [H1 H2 H3 H4]. split; simpl; try done; by eapply ids_below_mono.
Qed.

Lemma costs_ok_set_fresh bad s rid r c :
  costs_ok bad s → bad = None ∨ bad = Some rid →
  resources s !! rid = Some r → co_resource c = rid → co_event c = rs_event r →
  co_total c = co_unit_price c * rs_quantity r →
  (∀ j d, resource_costs s !! j = Some d → co_resource d ≠ rid) →
  costs_ok None (s <| resource_costs ::= <[nextid s := c]> |> <| nextid := nextid s + 1 |>).
Proof.
  intros Hok Hbad Hr Hc He Ht Hno.
  assert (costs_ok None ((s <| nextid := nextid s + 1 |>)
    <| resource_costs ::= <[nextid s := c]> |>)) as H.
  { apply (costs_ok_set bad _ rid r); try done; [apply costs_ok_nextid; [lia|done]| |simpl; lia].
    intros j d Hj Hd. exfalso. by eapply Hno. }
  split; apply H.
Qed.

Lemma wp_set_cost_row bad rid u t cur who s r :
  costs_ok bad s → bad = None ∨ bad = Some rid → resources s !! rid = Some r →
  t = u * rs_quantity r →
  wp (set_cost_row rid u t cur who) (λ _, costs_ok None) (λ _ _, True) s.
Proof.
  intros Hok Hbad Hr Ht. unfold set_cost_row, get_resource_cost_by_resource_id, check_money, check.
  wp_simpl. rewrite Hr. wp_simpl.
  apply wp_readonly; [intros ?; auto with pres| |done]. intros by_. wp_simpl.
  destruct (_ <? _); [|done]. wp_simpl. destruct (_ <? _); [|done]. wp_simpl.
  destruct (_ <=? _); [|done]. wp_simpl. destruct (_ <=? _); [|done]. wp_simpl.
  apply wp_readonly; [intros ?; auto with pres| |done]. intros _. wp_simpl.
  destruct (cost_of rid s) as [[i c]|] eqn:Hc.
  - apply (cost_of_some bad) in Hc as [Hi Hcr]; [|done]. wp_simpl.
    destruct (ck_total _ _ Hok i c Hi) as (r' & Hr' & He & _).
    apply (costs_ok_set bad s rid r); simpl; [done|done|done|done|congruence|done| |].
    + intros j d Hj Hd. eapply (ck_unique _ _ Hok); eauto. congruence.
    + apply (ck_costs _ _ Hok). eauto.
  - unfold insert_serial. wp_simpl.
    eapply costs_ok_set_fresh; [done|done|exact Hr|done|done|by simpl; rewrite Ht|].
    intros j d Hj Hd. by eapply (cost_of_none bad).
Qed.

(** Changing a resource's quantity leaves only its own cost open. *)
Lemma costs_ok_update s rid r row :
  costs_ok None s → resources s !! rid = Some r → rs_event row = rs_event r →
  costs_ok (Some rid) (s <| resources ::= <[rid := row]> |>).
Proof.
  intros [H1 H2 H3 H4] Hr He. split; simpl; [|done|done|].
  - intros i c Hc. destruct (H1 i c Hc) as (r' & Hr' & He' & Ht').
    destruct (decide (rid = co_resource c)) as [->|Hne].
    + exists row. rewrite lookup_insert_eq. split_and!; [done|congruence|done].
    + exists r'. rewrite lookup_insert_ne by done. auto.
  - apply ids_below_insert; [done|]. apply H4. eauto.
Qed.

Lemma costs_ok_close s rid :
  costs_ok (Some rid) s →
  (∀ i c r, resource_costs s !! i = Some c → co_resource c = rid → resources s !! rid = Some r →
     co_total c = co_unit_price c * rs_quantity r) →
  costs_ok None s.
Proof.
  intros [H1 H2 H3 H4] H. split; try done. intros i c Hc.
  destruct (H1 i c Hc) as (r & Hr & He & Ht). exists r. split_and!; [done|done|]. intros _.
  destruct (decide (co_resource c = rid)) as [Heq|Hne].
  - eapply H; eauto. by rewrite <-Heq.
  - apply Ht. congruence.
Qed.

Lemma wp_editable_event eid actor s (Q : event_view → TenantDB → Prop) :
  (∀ ev, event_view_of eid s = Some ev → require_editable actor ev = Ok tt → Q ev s) →
  wp (editable_event eid actor) Q (λ _ s', s' = s) s.
Proof.
  intros HQ. unfold editable_event, get_event_by_id. wp_simpl.
  destruct (event_view_of eid s) as [ev|] eqn:Hev; [|done]. wp_simpl. apply wp_lift.
  destruct (require_editable actor ev) as [[]|e] eqn:He; [|done]. wp_simpl. by apply HQ.
Qed.

Lemma wp_update_resource rid ty d q who s r (Q : unit → TenantDB → Prop) :
  resources s !! rid = Some r →
  (∀ row, rs_event row = rs_event r → rs_quantity row = opt_or q (rs_quantity r) →
     Q tt (s <| resources ::= <[rid := row]> |>)) →
  wp (update_resource rid ty d q who) Q (λ _ s', s' = s) s.
Proof.
  intros Hr HQ. unfold update_resource, check. wp_simpl.
  apply wp_readonly; [intros ?; auto with pres| |done]. intros by_. wp_simpl.
  apply wp_readonly; [intros ?; unfold check_int4, check; auto with pres| |done]. intros _. wp_simpl.
  rewrite Hr. wp_simpl. destruct (_ <? _); [|done]. wp_simpl.
  apply wp_readonly; [intros ?; auto with pres| |done]. intros _. wp_simpl.
  apply wp_readonly; [intros ?; auto with pres| |done]. intros _. wp_simpl.
  by apply HQ.
Qed.

Inductive resource_op :=
  | SetResources (event_id : Z) (l : list resource_in)
  | AddLine (event_id resource_type_id : Z) (description : option string) (quantity : Z)
  | UpdateLine (resource_id : Z) (resource_type_id : option Z) (description : option string)
      (quantity : option Z)
  | DeleteLine (resource_id : Z)
  | PriceLine (resource_id unit_price : Z) (currency : string).

Definition run_resource (actor : CurrentUser) (op : resource_op) : DB unit :=
  match op with
  | SetResources e l => add_resources_to_event e l (cu_id actor)
  | AddLine e t d q => add_resource_line e actor t d q ;; mret tt
  | UpdateLine r t d q => update_resource_line r actor t d q
  | DeleteLine r => delete_resource_line r actor
  | PriceLine r u c => set_resource_cost r u c (cu_id actor) ;; mret tt
  end.

Lemma wp_create_resource e t d q who s :
  costs_ok None s →
  wp (create_resource e t d q who) (λ _, costs_ok None) (λ _, costs_ok None) s.
Proof.
  intros Hok. unfold create_resource, check_int4, check, insert_serial. wp_simpl.
  apply wp_readonly; [intros ?; auto with pres| |done]. intros by_. wp_simpl.
  destruct (forallb _ _); [|done]. wp_simpl. destruct (_ <? _); [|done]. wp_simpl.
  do 3 (apply wp_readonly; [intros ?; auto with pres| |done]; intros _; wp_simpl).
  by apply costs_ok_new_resource.
Qed.

Lemma wp_weaken {A} (m : DB A) (Q : A → TenantDB → Prop) (E : exn → TenantDB → Prop) s :
  wp m Q E s → wp m Q (λ _ _, True) s.
Proof. intros H. eapply wp_mono; [exact H|done|done]. Qed.

Lemma wp_run_resource actor op s :
  costs_ok None s → wp (run_resource actor op) (λ _, costs_ok None) (λ _ _, True) s.
Proof.
  intros Hok. destruct op as [e l|e t d q|rid t d q|rid|rid u c]; simpl.
  - unfold add_resources_to_event, get_event_by_id, delete_resources_for_event,
      delete_resources_where. wp_simpl.
    destruct (event_view_of e s); [|done]. wp_simpl. destruct (mem _ _); [|done]. wp_simpl.
    apply wp_for_each; [by apply costs_ok_delete|]. intros x s1 _ H1. wp_simpl.
    eapply wp_mono; [eapply wp_weaken, wp_create_resource; done| |done]. done.
  - unfold add_resource_line. wp_simpl.
    eapply wp_mono; [apply (wp_editable_event _ _ _ (λ _ s', s' = s)); done| |done].
    intros ev s' ->. eapply wp_mono; [eapply wp_weaken, wp_create_resource; done| |done]. done.
  - unfold update_resource_line, get_resource_by_id. wp_simpl.
    destruct (resources s !! rid) as [r|] eqn:Hr; [|done]. wp_simpl.
    eapply wp_mono; [apply (wp_editable_event _ _ _ (λ _ s', s' = s)); done| |done].
    intros ev s' ->. wp_simpl.
    eapply wp_mono; [apply (wp_update_resource _ _ _ _ _ s r (λ _ s', ∃ row,
      rs_event row = rs_event r ∧ rs_quantity row = opt_or (Some (opt_or q (rs_quantity r))) (rs_quantity r) ∧
      s' = s <| resources ::= <[rid := row]> |>)); [done|eauto]| |done].
    intros [] s1 (row & He & Hq & ->). simpl in Hq.
    pose proof (costs_ok_update s rid r row Hok Hr He) as H1.
    destruct q as [q|]; simpl in Hq.
    + unfold get_resource_cost_by_resource_id. wp_simpl.
      set (s1 := s <| resources ::= <[rid := row]> |>) in *.
      assert (resources s1 !! rid = Some row) as Hrow by (simpl; by rewrite lookup_insert_eq).
      destruct (cost_of rid s1) as [[i c]|] eqn:Hc.
      * wp_simpl. eapply wp_mono; [eapply (wp_set_cost_row (Some rid)); eauto; by rewrite Hq| |done].
        done.
      * wp_simpl. apply (costs_ok_close _ rid); [done|]. intros i c r' Hi Hcr _. exfalso.
        by eapply (cost_of_none (Some rid) s1 rid Hc H1 i c).
    + wp_simpl. apply (costs_ok_close _ rid); [done|]. intros i c r' Hi Hcr.
      simpl. rewrite lookup_insert_eq. intros [= <-]. rewrite Hq. simpl in Hi.
      destruct (ck_total _ _ Hok i c Hi) as (r2 & Hr2 & _ & Ht).
      rewrite Hcr, Hr in Hr2. injection Hr2 as <-. by apply Ht.
  - unfold delete_resource_line, get_resource_by_id. wp_simpl.
    destruct (resources s !! rid) as [r|] eqn:Hr; [|done]. wp_simpl.
    eapply wp_mono; [apply (wp_editable_event _ _ _ (λ _ s', s' = s)); done| |done].
    intros ev s' ->. unfold delete_resource, delete_resources_where. wp_simpl.
    by apply costs_ok_delete.
  - unfold set_resource_cost, get_resource_by_id, get_event_by_id. wp_simpl.
    destruct (resources s !! rid) as [r|] eqn:Hr; [|done]. wp_simpl.
    destruct (event_view_of _ s); [|done]. wp_simpl. destruct (negb _); [|done].
    eapply wp_mono; [by eapply (wp_set_cost_row None); eauto| |done]. done.
Qed.

(** ** Properties *)

(** Quoted costs stay consistent. Every successful operation on the
    resources of a trip (replacing the list, adding, changing, removing or
    pricing a line) keeps the invariant: at most one cost per resource, in
    the resource's event, whose total is its unit price times the current
    quantity. *)
Theorem resource_costs_consistent actor op s s' :
  costs_ok None s → run_resource actor op s = (Ok tt, s') → costs_ok None s'.
Proof.
  intros Hok Hrun. pose proof (wp_run_resource actor op s Hok) as H.
  unfold wp in H. by rewrite Hrun in H.
Qed.

(** A trip with one priced resource. *)
Definition demo_priced : TenantDB := demo_db
  <| resource_types := {[71 := {| rt_name := "Bus"; rt_category := "transport"; rt_custom := false;
                                  rt_created_by := None; rt_active := true |}]} |>
  <| resources := {[72 := {| rs_event := 42; rs_type := 71; rs_description := None;
                             rs_quantity := 2; rs_added_by := 7; rs_updated_by := None |}]} |>
  <| resource_costs := {[73 := {| co_event := 42; co_resource := 72; co_unit_price := 500000;
                                  co_total := 1000000; co_currency := "JOD"; co_set_by := 6 |}]} |>.

Lemma demo_costs_ok : costs_ok None demo_priced.
Proof.
  split.
  - intros i c Hc. demo_rows Hc. eexists. split; [vm_compute; reflexivity|done].
  - intros i j c d Hc Hd _. demo_rows Hc. by demo_rows Hd.
  - intros k [c Hc]. demo_rows Hc. vm_compute. done.
  - intros k [c Hc]. demo_rows Hc. vm_compute. done.
Qed.

Lemma resource_costs_consistent_witness :
  ∃ s', run_resource (demo_actor "7" "teacher") (UpdateLine 72 None None (Some 3)) demo_priced
        = (Ok tt, s') ∧ costs_ok None s'.
Proof.
  destruct (run_ok (run_resource (demo_actor "7" "teacher") (UpdateLine 72 None None (Some 3)))
              demo_priced eq_refl) as ([] & s' & E).
  exists s'. split; [exact E|].
  exact (resource_costs_consistent (demo_actor "7" "teacher") (UpdateLine 72 None None (Some 3))
           demo_priced s' demo_costs_ok E).
Defined.

(** What a line of the event costs. *)
Definition line_cost (s : TenantDB) (kv : Z * resource_row) : Z :=
  match cost_of kv.1 s with Some c => co_unit_price c.2 * rs_quantity kv.2 | None => 0 end.

(** The summary adds up. On a consistent database the summary of an
    event answers without touching it, lists each of its resources once, and
    its total is the sum over them of unit price times quantity, an unpriced
    line counting nothing; its currency is the school's. *)
Theorem resource_summary_adds_up eid cur s :
  costs_ok None s →
  ∃ su, get_resource_summary eid cur s = (Ok su, s) ∧
    sl_id <$> su_lines su = fst <$> event_resources eid s ∧
    NoDup (sl_id <$> su_lines su) ∧ su_currency su = cur ∧
    su_total su = fold_right Z.add 0 (line_cost s <$> event_resources eid s).
Proof.
  intros Hok. eexists. split; [reflexivity|]. simpl.
  assert (sl_id <$> (summary_line_of s <$> event_resources eid s) = fst <$> event_resources eid s) as Hids.
  { rewrite <-list_fmap_compose. done. }
  split_and!; [done| |done|].
  - rewrite Hids. unfold event_resources, by_id.
    rewrite (merge_sort_Permutation _ _). apply select_NoDup.
  - f_equal. rewrite <-list_fmap_compose.
    assert (∀ l, (∀ kv, kv ∈ l → resources s !! kv.1 = Some kv.2) →
      fmap (M:=list) (sl_total ∘ summary_line_of s) l = fmap (M:=list) (line_cost s) l) as Hl.
    { intros l Hin. apply list_fmap_ext. intros i [k r] Hi. unfold line_cost. simpl.
      destruct (cost_of k s) as [[j c]|] eqn:Hc; [|done]. simpl.
      apply (cost_of_some None) in Hc as [Hj Hcr]; [|done].
      destruct (ck_total _ _ Hok j c Hj) as (r' & Hr' & _ & Ht).
      pose proof (Hin (k, r) (list_elem_of_lookup_2 _ _ _ Hi)) as Hk. simpl in Hk.
      rewrite Hcr, Hk in Hr'. injection Hr' as <-. by apply Ht. }
    apply Hl. intros [k r] Hin. unfold event_resources in Hin.
    apply elem_of_by_id, elem_of_select in Hin. by destruct Hin.
Qed.

Lemma resource_summary_adds_up_witness :
  ∃ su, get_resource_summary 42 (Some "JOD") demo_priced = (Ok su, demo_priced) ∧
    su_total su = 1000000.
Proof.
  destruct (resource_summary_adds_up 42 (Some "JOD") demo_priced demo_costs_ok)
    as (su & Hsu & _ & _ & _ & Ht).
  exists su. split; [exact Hsu|]. rewrite Ht. vm_compute. reflexivity.
Defined.

(** The full replacement is not atomic: a line the database rejects leaves
    the event without the resources it had. *)
Example add_resources_loses_the_old_list :
  let r := add_resources_to_event 42
    [{| ri_type := 71; ri_description := None; ri_quantity := 0 |}] (PStr "7") demo_priced in
  r.1 = Raise (DatabaseError "resources_quantity_check") ∧ resources r.2 = ∅ ∧ resource_costs r.2 = ∅.
Proof. vm_compute. done. Qed.
