(* ===== verification/EventSvc.v ===== *)
(** * Events: services and endpoints

    The event operations of [TenantService] (src/app/domains/tenant/service.py)
    and [EventService] (src/app/domains/events/service.py) around the
    lifecycle: creation, cloning, the full update with its per-class scoping,
    deletion, prices, the events a user sees; and the endpoints of
    src/app/domains/events/router.py that change events, with the status
    codes they turn exceptions into. *)
From S2P Require Import Prelude PyText Authz Store AcademicRepo AcademicDelete EventRepo Demo AcademicSvc EventRules EventLifecycle Resources.

(** ** The service *)
Definition students_in (cid : Z) (s : TenantDB) : list Z :=
  fst <$> by_id (select (λ _ r, bool_decide (st_class r = Some cid)) (students s)).

Definition create_event (title description : string) (address : option string)
    (school_subsidy date_val : Z) (created_by : pyid) (class_mappings : list mapping_in)
    (user_role : role_arg) : DB (option event_view) :=
  gate user_role ["school_admin"; "teacher"] "Only staff can create events" ;;
  o ← EventRepo.create_event title description address school_subsidy date_val created_by
        class_mappings;
  ev ← from_option_or o none_error;
  user_ids_to_notify ← gets (λ s, remove_dups
    (concat ((λ m, students_in (mi_class m) s) <$> class_mappings)));
  for_each user_ids_to_notify (λ u_id,
    create_notification (vw_id ev) (PInt u_id) None ;; mret tt) ;;
  mret (Some ev).

(** [datetime.utcnow() + timedelta(days=30)], in seconds. *)
Definition THIRTY_DAYS : Z := 30 * 86400.

Definition clone_event (event_id : Z) (created_by_user_id : pyid) (user_role : role_arg)
    (new_title : option string) (new_date : option Z) : DB (option event_view) :=
  gate user_role ["school_admin"; "teacher"] "Only staff can clone events" ;;
  o ← get_event_by_id event_id;
  original ← from_option_or o (ValueError "Event not found");
  now ← gets clock;
  let title := match new_title with
               | Some t => if bool_decide (t = "")
                           then "Template - " +:+ ev_title (vw_row original) else t
               | None => "Template - " +:+ ev_title (vw_row original)
               end in
  let date_val := opt_or new_date (now + THIRTY_DAYS) in
  let class_mappings :=
    (λ m, {| mi_class := mp_class m; mi_price := mp_price m |}) <$> vw_mappings original in
  n ← create_event title (ev_description (vw_row original)) (ev_address (vw_row original))
        (ev_subsidy (vw_row original)) date_val created_by_user_id class_mappings user_role;
  new_event ← from_option_or n none_error;
  original_resources ← get_resources_for_event event_id;
  match original_resources with
  | [] => mret tt
  | l => add_resources_to_event (vw_id new_event)
           ((λ kv : Z * resource_row, {| ri_type := rs_type kv.2; ri_description := rs_description kv.2;
                      ri_quantity := rs_quantity kv.2 |}) <$> l) created_by_user_id
  end ;;
  get_event_by_id (vw_id new_event).

Definition update_event (event_id : Z) (title description : string) (address : option string)
    (school_subsidy date_val : Z) (user_role : role_arg) : DB event_row :=
  gate user_role ["school_admin"; "teacher"; "event_teacher"; "manager"]
    "Only staff can update events" ;;
  o ← EventRepo.update_event event_id title description address school_subsidy date_val;
  from_option_or o (ValueError "Event not found").

(** The mappings a teacher may write: those of the classes they head, once
    one of these is among the event's. *)
Definition scope_mappings (event_id : Z) (class_mappings : list mapping_in) (user_id : pyid) :
    DB (list mapping_in) :=
  teacher_classes ← get_classes_by_head_teacher user_id;
  guard_or (negb (bool_decide (teacher_classes = [])))
    (PermissionError "Teacher is not a head teacher of any class") ;;
  o ← get_event_by_id event_id;
  existing_event ← from_option_or o (ValueError "Event not found");
  guard_or (existsb (λ c, bool_decide (c ∈ teacher_classes.*1)) (mapped_classes existing_event))
    (PermissionError "Access denied. Event is not mapped to your class.") ;;
  mret (List.filter (λ m, bool_decide (mi_class m ∈ teacher_classes.*1)) class_mappings).

Definition update_event_full (event_id : Z) (title description : string)
    (address : option string) (school_subsidy date_val : Z) (class_mappings : list mapping_in)
    (user_role : role_arg) (user_id : pyid) : DB event_view :=
  let roles := role_set user_role in
  mappings ← (if has_one_of roles ["school_admin"; "event_teacher"; "manager"]
              then mret class_mappings
              else if mem "teacher" roles then scope_mappings event_id class_mappings user_id
              else raise (PermissionError "Only staff can update events"));
  o ← EventRepo.update_event_full event_id title description address school_subsidy date_val mappings;
  from_option_or o (ValueError "Event not found").

(** [EventService.delete_event], [update_ticket_prices], [update_subsidy] *)
Definition delete_event (event_id : Z) : DB bool :=
  o ← get_event_by_id event_id;
  match o with
  | None => mret false
  | Some _ => EventRepo.delete_event event_id ;; mret true
  end.

Definition may_see (event_id : Z) (actor : CurrentUser) (why : string) (bypass : bool) : DB unit :=
  o ← get_event_by_id event_id;
  ev ← from_option_or o (ValueError "Event not found");
  ok ← (if bypass then mret true else lift (check_event_permission actor ev "read"));
  guard_or ok (PermissionError why).

Definition update_ticket_prices (event_id : Z) (actor : CurrentUser) (items : list (Z * Z)) :
    DB unit :=
  may_see event_id actor ("Access denied. A manager cannot price a trip they cannot yet see "
    +:+ "-- wait for the teacher to submit it.") false ;;
  EventRepo.update_ticket_prices event_id items.

Definition update_subsidy (event_id : Z) (actor : CurrentUser) (subsidy : Z) : DB Z :=
  may_see event_id actor ("Access denied. A manager cannot set subsidy on a trip they cannot yet see "
    +:+ "-- wait for the teacher to submit it.") (has (cu_roles actor) "super_admin") ;;
  EventRepo.update_subsidy event_id subsidy ;;
  mret subsidy.

(** ** The events a user sees *)
Definition user_actor (user_id : pyid) (user_role : role_arg) : CurrentUser :=
  let nonempty (r : string) := if bool_decide (r = "") then "student" else r in
  {| cu_id := user_id; cu_tenant_id := None; cu_email := "";
     cu_role := match user_role with
                | RList (r :: _) => r
                | RStr r => nonempty r
                | RList [] | RNone => "student"
                end;
     cu_roles := match user_role with
                 | RList [] => ["student"]
                 | RList l => l
                 | RStr r => [nonempty r]
                 | RNone => ["student"]
                 end |}.

Fixpoint filter_result {A} (p : A → result bool) (l : list A) : result (list A) :=
  match l with
  | [] => Ok []
  | x :: l' => result_bind (p x) (λ b, result_bind (filter_result p l') (λ r,
                 Ok (if b : bool then x :: r else r)))
  end.

Definition readable (actor : CurrentUser) (ev : event_view) : result bool :=
  check_event_permission actor ev "read".

(** Events not yet in [acc], appended in order. *)
Definition add_events (acc new : list event_view) : list event_view :=
  fold_left (λ acc ev, if bool_decide (vw_id ev ∈ vw_id <$> acc) then acc else acc ++ [ev]) new acc.

Definition linked_students (parent_id : pyid) (s : TenantDB) : list Z :=
  match parse_id parent_id with
  | PInt p => merge_sort Z.le (fst <$> List.filter (λ kv : Z * Z, kv.2 =? p)
                (fst <$> map_to_list (student_parent_map s)))
  | _ => []
  end.

Definition get_events_for_user (user_id : pyid) (user_role : role_arg) : DB (list event_view) :=
  let actor := user_actor user_id user_role in
  let roles := role_set user_role in
  if has_one_of roles ["super_admin"; "school_admin"; "manager"; "event_teacher"] then
    all ← get_all_events [];
    lift (filter_result (readable actor) all)
  else
    taught ← (if mem "teacher" roles then
                mine ← get_classes_by_head_teacher user_id;
                all ← get_all_events [];
                lift (filter_result (λ ev, result_bind (readable actor ev) (λ b,
                  Ok (b || existsb (λ c, bool_decide (c ∈ mine.*1)) (mapped_classes ev)))) all)
              else mret []);
    own ← (if mem "student" roles then
             sid ← bind_bigint user_id;
             l ← get_events_for_student (opt_or sid (-1));
             lift (filter_result (readable actor) l)
           else mret []);
    children ← (if mem "parent" roles then
                  bind_bigint user_id ;;
                  kids ← gets (linked_students user_id);
                  ls ← map_each kids (λ k, l ← get_events_for_student k;
                                           lift (filter_result (readable actor) l));
                  mret (concat ls)
                else mret []);
    mret (merge_sort date_le (add_events (add_events (add_events [] taught) own) children)).

(** ** Endpoints *)
Definition fail {A} (status : Z) (detail : string) : DB A := raise (HTTPException status detail).

(** [except HTTPException: raise / except ValueError / except PermissionError
    / except Exception]: the status of a [ValueError] depends on the route;
    [passes] says whether the route lets an [HTTPException] through. *)
Definition http_error (value_status permission_status : Z) (passes : bool) (e : exn) : exn :=
  match e with
  | HTTPException st d => if passes then e else HTTPException 500 (exn_text e)
  | ValueError m => HTTPException value_status m
  | PermissionError m => HTTPException permission_status m
  | DatabaseError m | TypeError m => HTTPException 500 m
  end.
Definition answer {A} (value_status permission_status : Z) (passes : bool) (m : DB A) : DB A :=
  try_except m (λ e, raise (http_error value_status permission_status passes e)).

Definition tenant_required (u : CurrentUser) : DB unit :=
  guard_or (match cu_tenant_id u with Some t => negb (bool_decide (t = "")) | None => false end)
    (HTTPException 400 "Tenant context required").

Record event_payload := {
  ep_title : string; ep_description : option string; ep_address : option string;
  ep_subsidy : option Z; ep_date : Z; ep_mappings : list mapping_in }.

Definition post_event (p : event_payload) (u : CurrentUser) : DB (option event_view) :=
  guard_or (has_any_role u ["school_admin"; "teacher"] || has_role u "event:create")
    (HTTPException 403 "Only staff or users with event:create permission can create events") ;;
  answer 500 403 false (
    create_event (ep_title p) (opt_or (ep_description p) "") (Some (opt_or (ep_address p) ""))
      (resolve_subsidy (ep_subsidy p) u 0) (ep_date p) (cu_id u) (ep_mappings p) (RList (cu_roles u))).

Definition put_event (event_id : Z) (p : event_payload) (u : CurrentUser) : DB event_view :=
  guard_or (has_any_role u ["school_admin"; "teacher"; "event_teacher"; "manager"])
    (HTTPException 403 "Only staff can update events") ;;
  answer 404 403 false (
    o ← get_event_by_id event_id;
    existing_event ← from_option_or o (ValueError "Event not found");
    lift (require_editable u existing_event) ;;
    update_event_full event_id (ep_title p) (opt_or (ep_description p) "")
      (Some (opt_or (ep_address p) ""))
      (resolve_subsidy (ep_subsidy p) u (ev_subsidy (vw_row existing_event)))
      (ep_date p) (ep_mappings p) (RList (cu_roles u)) (cu_id u)).

Definition delete_event_route (event_id : Z) (u : CurrentUser) : DB unit :=
  guard_or (has_any_role u ["school_admin"; "super_admin"; "event_teacher"; "manager"; "teacher"]
            || has_role u "event:delete")
    (HTTPException 403 "Only staff or administrators can delete events") ;;
  answer 500 500 true (
    deleted ← delete_event event_id;
    guard_or deleted (HTTPException 404 "Event not found")).

Definition get_event_route (event_id : Z) (u : CurrentUser) : DB masked_event :=
  guard_or (match cu_tenant_id u with Some t => negb (bool_decide (t = "")) | None => false end
            || bool_decide (cu_role u = "super_admin"))
    (HTTPException 400 "Tenant context required") ;;
  answer 500 500 true (
    o ← get_event_by_id event_id;
    ev ← from_option_or o (HTTPException 404 "Event not found");
    ok ← lift (check_event_permission u ev "read");
    guard_or ok (HTTPException 403 "Access denied") ;;
    mret (mask_financials ev u)).

Definition submit_event (event_id : Z) (u : CurrentUser) : DB (option event_view) :=
  tenant_required u ;;
  answer 400 403 true (
    o ← get_event_by_id event_id;
    ev ← from_option_or o (HTTPException 404 "Event not found");
    action ← lift (resolve_submit_action (ev_status (vw_row ev)) u);
    transition_event event_id action u None).

Definition manager_decision (event_id : Z) (decision : string) (reason : option string)
    (u : CurrentUser) : DB (option event_view) :=
  tenant_required u ;;
  answer 400 403 false (
    transition_event event_id
      (if bool_decide (decision = "approve") then "manager_approve" else "manager_reject") u reason).

Definition teacher_publish_event (event_id : Z) (u : CurrentUser) : DB (option event_view) :=
  tenant_required u ;;
  guard_or (has_any_role u ["teacher"; "event_teacher"; "manager"; "school_admin"; "super_admin"])
    (HTTPException 403 "Only teachers, managers, or admins can publish approved events") ;;
  answer 400 403 false (transition_event event_id (resolve_publish_action u) u None).

Definition event_teacher_decision (event_id : Z) (decision : string) (reason : option string)
    (u : CurrentUser) : DB (option event_view) :=
  tenant_required u ;;
  answer 400 403 false (
    guard_or (bool_decide (decision = "reject"))
      (ValueError "Event teacher can only reject/return to draft here. Use /submit to approve.") ;;
    transition_event event_id "event_teacher_reject" u reason).

Definition put_ticket_prices (event_id : Z) (items : list (Z * Z)) (u : CurrentUser) : DB unit :=
  tenant_required u ;;
  guard_or (has_any_role u ["school_admin"; "manager"])
    (HTTPException 403 "Access denied. Only manager or admin can modify ticket prices.") ;;
  answer 404 403 false (update_ticket_prices event_id u items).

Definition put_subsidy (event_id subsidy : Z) (u : CurrentUser) : DB Z :=
  tenant_required u ;;
  guard_or (has_any_role u ["school_admin"; "manager"; "super_admin"])
    (HTTPException 403 "Access denied. Only manager or admin can modify school subsidy.") ;;
  answer 404 403 false (update_subsidy event_id u subsidy).

Definition not_editable_detail : string :=
  "Access denied. Event can only be modified in draft status by its owner, or in resource planning by event teacher.".

(** The checks that open the draft endpoints. *)
Definition open_editable (event_id : Z) (u : CurrentUser) : DB event_view :=
  o ← get_event_by_id event_id;
  ev ← from_option_or o (HTTPException 404 "Event not found");
  ok ← lift (is_editable u ev);
  guard_or ok (HTTPException 403 not_editable_detail) ;;
  mret ev.

Definition patch_event (event_id : Z) (title description address : option string)
    (date : option Z) (u : CurrentUser) : DB (option event_row) :=
  tenant_required u ;;
  answer 500 500 true (
    ev ← open_editable event_id u;
    let r := vw_row ev in
    EventRepo.update_event event_id (opt_or title (ev_title r)) (opt_or description (ev_description r))
      (opt_or_opt address (ev_address r)) (ev_subsidy r) (opt_or date (ev_date r))).

Definition select_audience (event_id : Z) (class_ids : list Z) (class_mappings : list mapping_in)
    (u : CurrentUser) : DB Z :=
  tenant_required u ;;
  answer 500 500 true (
    ev ← open_editable event_id u;
    let r := vw_row ev in
    let mappings := match class_mappings with
                    | [] => (λ c, {| mi_class := c; mi_price := 0 |}) <$> class_ids
                    | l => l
                    end in
    EventRepo.update_event_full event_id (ev_title r) (ev_description r) (ev_address r)
      (ev_subsidy r) (ev_date r) mappings ;;
    get_predicted_attendance (mi_class <$> mappings)).

Definition set_event_resources (event_id : Z) (l : list resource_in) (u : CurrentUser) : DB unit :=
  tenant_required u ;;
  answer 500 500 true (
    open_editable event_id u ;;
    add_resources_to_event event_id l (cu_id u)).

Definition set_resource_pricing (resource_id unit_price : Z) (currency : string)
    (u : CurrentUser) : DB Z :=
  tenant_required u ;;
  guard_or (has_any_role u ["manager"; "school_admin"])
    (HTTPException 403 "Only manager or admin can update cost details") ;;
  answer 400 500 false (set_resource_cost resource_id unit_price currency (cu_id u)).

(** POST and GET /events/{event_id}/feedbacks: any caller, and every
    exception is a 500. *)
Definition create_feedback (event_id rating : Z) (comments : option string) (u : CurrentUser) : DB Z :=
  answer 500 500 false (create_event_feedback event_id (cu_id u) rating comments).
Definition list_feedbacks (event_id : Z) (u : CurrentUser) : DB (list (Z * feedback_row * string)) :=
  answer 500 500 false (get_feedback_for_event event_id).

(** ** Properties *)

Lemma draft_permission u eid s ev uid :
  event_view_of eid s = Some ev → ev_status (vw_row ev) = "draft" →
  int_or (cu_id u) (-1) = Ok uid →
  check_event_permission u ev "read" =
  Ok (has_one_of (user_roles_of u) admin_names || (ev_created_by (vw_row ev) =? uid)).
Proof.
  intros Hev Hst Huid. unfold check_event_permission, is_owner. rewrite Huid.
  cbn [result_bind].
  destruct (has_one_of (user_roles_of u) admin_names); [done|].
  change (bool_decide ("read" = "read")) with true. cbv iota. unfold may_read. rewrite Hst.
  change (bool_decide ("draft" = "draft")) with true. cbv iota.
  assert (omap mp_head (vw_mappings ev) = []) as ->.
  { unfold event_view_of in Hev. destruct (events s !! eid); [|done]. injection Hev as <-.
    simpl. unfold event_mappings. by induction (by_id _). }
  by rewrite orb_false_r.
Qed.

(** A draft is private. A request to read a draft event, made in a
    school, is answered exactly when an administrator or the creator makes
    it: no teacher of a mapped class, manager, parent or student sees it;
    and the request changes nothing. *)
Theorem draft_is_private u eid s r uid t
  (Hr : events s !! eid = Some r) (Hst : ev_status r = "draft")
  (Hid : int_or (cu_id u) (-1) = Ok uid) (Ht : cu_tenant_id u = Some t) (Hne : t ≠ "") :
  ((∃ v, get_event_route eid u s = (Ok v, s)) ↔
   has_one_of (user_roles_of u) admin_names = true ∨ ev_created_by r = uid) ∧
  (get_event_route eid u s).2 = s.
Proof.
  assert (event_view_of eid s = Some {| vw_id := eid; vw_row := r;
    vw_mappings := event_mappings eid s |}) as Hev by (unfold event_view_of; by rewrite Hr).
  pose proof (draft_permission u eid s _ uid Hev Hst Hid) as Hp. revert Hp.
  generalize (has_one_of (user_roles_of u) admin_names) as b; intros b Hp.
  unfold get_event_route. rewrite Ht, bool_decide_eq_false_2 by done.
  unfold mbind, M_bind, mret, M_ret, guard_or, answer, try_except, get_event_by_id, gets, lift,
    from_option_or. cbn.
  rewrite Hev. cbn. rewrite Hp. cbn.
  destruct b; cbn; [split; [|done]; split; eauto|].
  destruct (Z.eqb_spec (ev_created_by r) uid) as [He|He]; cbn.
  - split; [|done]. split; eauto.
  - split; [|done]. split; [by intros [v ?]|]. by intros [?|?].
Qed.

Lemma draft_is_private_witness :
  ((∃ v, get_event_route 42 (demo_actor "6" "manager") demo_db = (Ok v, demo_db)) ↔
   has_one_of (user_roles_of (demo_actor "6" "manager")) admin_names = true ∨ 7 = 6) ∧
  (get_event_route 42 (demo_actor "6" "manager") demo_db).2 = demo_db.
Proof.
  apply (draft_is_private (demo_actor "6" "manager") 42 demo_db (demo_event "Zoo" "draft") 6 "tenant_a");
    [reflexivity|reflexivity|reflexivity|reflexivity|discriminate].
Defined.

(** The event teacher's decision endpoint can only fail. Whatever the
    caller, the decision and the state of the event, the request raises and
    the database is untouched. *)
Theorem event_teacher_decision_always_fails eid decision reason u s :
  ∃ e, event_teacher_decision eid decision reason u s = (Raise e, s).
Proof.
  assert (wp (event_teacher_decision eid decision reason u) (λ _ _, False) (λ _ s', s' = s) s) as H.
  { unfold event_teacher_decision, tenant_required, answer. wp_simpl.
    destruct (match cu_tenant_id u with Some t => _ | None => _ end); [|done]. wp_simpl.
    destruct (bool_decide (decision = "reject")); [|by wp_simpl].
    unfold transition_event, get_event_by_id. wp_simpl.
    destruct (event_view_of eid s) as [ev|]; [|by wp_simpl]. wp_simpl.
    destruct (next_of (ev_status (vw_row ev)) "event_teacher_reject") as [[nx role]|] eqn:Hn.
    - exfalso. apply next_of_in in Hn. unfold TRANSITIONS in Hn.
      repeat (apply elem_of_cons in Hn as [Hn|Hn]; [discriminate|]). by apply elem_of_nil in Hn.
    - by wp_simpl. }
  unfold wp in H. destruct (event_teacher_decision eid decision reason u s) as [[a|e] s']; [done|].
  exists e. by rewrite H.
Qed.

(** What students and parents see. *)
Lemma filter_result_elem {A} (p : A → result bool) l l' x :
  filter_result p l = Ok l' → x ∈ l' → x ∈ l ∧ p x = Ok true.
Proof.
  revert l'. induction l as [|y l IH]; simpl; intros l' H Hx.
  - injection H as <-. by apply elem_of_nil in Hx.
  - destruct (p y) as [b|] eqn:Hp; simpl in H; [|done].
    destruct (filter_result p l) as [r|] eqn:Hr; simpl in H; [|done]. injection H as <-.
    destruct b.
    + apply elem_of_cons in Hx as [->|Hx]; [split; [left|done]|].
      destruct (IH r eq_refl Hx). split; [by right|done].
    + destruct (IH r eq_refl Hx). split; [by right|done].
Qed.

Lemma add_events_elem acc new ev : ev ∈ add_events acc new → ev ∈ acc ∨ ev ∈ new.
Proof.
  unfold add_events. revert acc. induction new as [|y new IH]; intros acc; simpl; [by left|].
  intros [H|H]%IH; [|right; by right]. case_bool_decide; [by left|].
  apply elem_of_app in H as [H|H]; [by left|]. apply list_elem_of_singleton in H as ->.
  right. left.
Qed.

(** A published event with a mapping for the class of student [sid]. *)
Definition announced_to (s : TenantDB) (sid : Z) (ev : event_view) : Prop :=
  ∃ r cid m, students s !! sid = Some r ∧ st_class r = Some cid ∧
    event_view_of (vw_id ev) s = Some ev ∧ ev_status (vw_row ev) = "published" ∧
    m ∈ vw_mappings ev ∧ mp_class m = cid.

Lemma student_events_announced sid s ev :
  ev ∈ (match get_events_for_student sid s with (Ok l, _) => l | _ => [] end) →
  announced_to s sid ev.
Proof.
  unfold get_events_for_student, gets. intros Hin.
  destruct (students s !! sid) as [r|] eqn:Hr; simpl in Hin; [|by apply elem_of_nil in Hin].
  destruct (st_class r) as [cid|] eqn:Hc; [|by apply elem_of_nil in Hin].
  rewrite merge_sort_Permutation in Hin. apply list_elem_of_omap in Hin as (i & Hi & Hev).
  apply list_elem_of_fmap in Hi as ([k er] & -> & Hin). apply elem_of_by_id, elem_of_select in Hin.
  destruct Hin as [Her [Hp Hm]%andb_prop]. simpl in *. apply bool_decide_eq_true in Hp.
  apply existsb_exists in Hm as (m & Hm & Hmc%Z.eqb_eq).
  pose proof Hev as Hev'. unfold event_view_of in Hev. rewrite Her in Hev. injection Hev as <-.
  exists r, cid, m. split_and!; try done. by apply list_elem_of_In.
Qed.

Lemma wp_student_events sid actor s (Q : list event_view → TenantDB → Prop) :
  (∀ l, (∀ ev, ev ∈ l → announced_to s sid ev) → Q l s) →
  wp (l ← get_events_for_student sid; lift (filter_result (readable actor) l)) Q (λ _ _, True) s.
Proof.
  intros HQ. wp_simpl. unfold get_events_for_student at 1. wp_simpl.
  set (l := match students s !! sid ≫= st_class with Some c => _ | None => _ end).
  apply wp_lift. destruct (filter_result (readable actor) l) as [l'|] eqn:Hf; [|done].
  apply HQ. intros ev Hev. destruct (filter_result_elem _ _ _ _ Hf Hev) as [Hin _].
  by apply student_events_announced.
Qed.

Lemma wp_kids_events actor kids s (Q : list (list event_view) → TenantDB → Prop) :
  (∀ ls, (∀ ev, ev ∈ concat ls → ∃ k, k ∈ kids ∧ announced_to s k ev) → Q ls s) →
  wp (map_each kids (λ k, l ← get_events_for_student k; lift (filter_result (readable actor) l)))
    Q (λ _ _, True) s.
Proof.
  revert Q. induction kids as [|k kids IH]; intros Q HQ; cbn [map_each].
  - wp_simpl. apply HQ. intros ev Hev. by apply elem_of_nil in Hev.
  - rewrite wp_bind. apply wp_student_events. intros l Hl. rewrite wp_bind. apply IH.
    intros ls Hls. wp_simpl. apply HQ. simpl. intros ev [Hev|Hev]%elem_of_app.
    + exists k. split; [left|auto].
    + destruct (Hls ev Hev) as (k' & ? & ?). exists k'. split; [by right|done].
Qed.

(** The user's own student id, or a linked child's. *)
Definition in_household (user_id : pyid) (s : TenantDB) (sid : Z) : Prop :=
  parse_id user_id = PInt sid ∨ sid ∈ linked_students user_id s.

(** C37: students and parents see announced trips only. Whatever a user
    whose roles are among [student] and [parent] lists, every event of the
    answer is published and mapped to the class of that student or of a
    child linked to that parent, and the listing changes nothing. *)
Theorem households_see_announced_events user_id roles s l s' :
  (∀ r, r ∈ roles → r = "student" ∨ r = "parent") →
  (∀ sid, is_Some (students s !! sid) → 0 ≤ sid) →
  get_events_for_user user_id (RList roles) s = (Ok l, s') →
  s' = s ∧ ∀ ev, ev ∈ l → ∃ sid, in_household user_id s sid ∧ announced_to s sid ev.
Proof.
  intros Hroles Hids Hrun.
  assert (∀ x, x ≠ "student" → x ≠ "parent" → mem x roles = false) as Hno.
  { intros x H1 H2. apply mem_false. intros Hr. by destruct (Hroles x Hr). }
  assert (wp (get_events_for_user user_id (RList roles))
    (λ l s', s' = s ∧ ∀ ev, ev ∈ l → ∃ sid, in_household user_id s sid ∧ announced_to s sid ev)
    (λ _ _, True) s) as H.
  { unfold get_events_for_user. set (actor := user_actor user_id (RList roles)).
    change (role_set (RList roles)) with roles.
    assert (has_one_of roles ["super_admin"; "school_admin"; "manager"; "event_teacher"] = false) as ->.
    { unfold has_one_of. cbn [existsb]. by rewrite !Hno. }
    rewrite (Hno "teacher") by done. wp_simpl.
    set (P := λ ev, ∃ sid, in_household user_id s sid ∧ announced_to s sid ev).
    apply (wp_mono _ (λ own s', s' = s ∧ ∀ ev, ev ∈ own → P ev) _ (λ _ _, True)); [| |done].
    { destruct (mem "student" roles); [|wp_simpl; split; [done|]; intros ev Hev; by apply elem_of_nil in Hev].
      unfold bind_bigint. destruct (parse_id user_id) as [n| | |] eqn:Hp; wp_simpl; try done.
      - unfold check. wp_simpl. destruct (_ && _); [|done]. wp_simpl. rewrite <-wp_bind.
        apply wp_student_events. intros own Hown. split; [done|]. intros ev Hev. exists n.
        split; [by left|auto].
      - rewrite <-wp_bind. apply wp_student_events. intros own Hown. split; [done|]. intros ev Hev.
        destruct (Hown ev Hev) as (r & _ & _ & Hr & _). exfalso.
        assert (0 ≤ -1) by (apply Hids; by exists r). lia. }
    intros own s1 [-> Hown]. wp_simpl.
    apply (wp_mono _ (λ ch s', s' = s ∧ ∀ ev, ev ∈ ch → P ev) _ (λ _ _, True)); [| |done].
    { destruct (mem "parent" roles); [|wp_simpl; split; [done|]; intros ev Hev; by apply elem_of_nil in Hev].
      wp_simpl. apply wp_readonly; [intros ?; auto with pres| |done]. intros _. wp_simpl.
      apply wp_kids_events. intros ls Hls. wp_simpl. split; [done|]. intros ev Hev.
      destruct (Hls ev Hev) as (k & Hk & Ha). exists k. split; [by right|done]. }
    intros ch s1 [-> Hch]. wp_simpl. split; [done|]. intros ev Hev.
    rewrite merge_sort_Permutation in Hev.
    apply add_events_elem in Hev as [Hev|Hev]; [|by apply Hch].
    apply add_events_elem in Hev as [Hev|Hev]; [|by apply Hown].
    simpl in Hev. by apply elem_of_nil in Hev. }
  unfold wp in H. by rewrite Hrun in H.
Qed.

Lemma households_see_announced_events_witness :
  ∃ l s', get_events_for_user (PStr "8") (RList ["parent"]) demo_db = (Ok l, s') ∧
    vw_id <$> l = [41] ∧
    ∀ ev, ev ∈ l → ∃ sid, in_household (PStr "8") demo_db sid ∧ announced_to demo_db sid ev.
Proof.
  destruct (run_ok (get_events_for_user (PStr "8") (RList ["parent"])) demo_db eq_refl)
    as (l & s' & E).
  exists l, s'. split; [exact E|]. split.
  - assert (fst (get_events_for_user (PStr "8") (RList ["parent"]) demo_db) = Ok l) as El
      by (rewrite E; reflexivity).
    vm_compute in El. injection El as <-. reflexivity.
  - refine (proj2 (households_see_announced_events (PStr "8") ["parent"] demo_db l s' _ _ E)).
    + intros r Hr. apply list_elem_of_singleton in Hr. right. exact Hr.
    + intros sid [r Hr]. demo_rows Hr; lia.
Defined.

(** What a teacher's full update may touch. *)
Definition headed (uid : Z) (s : TenantDB) (cid : Z) : Prop :=
  ∃ c, classes s !! cid = Some c ∧ cl_head c = Some uid.

(** The mappings of classes outside [mine] are the same rows. *)
Definition others_same (mine : list Z) (s s' : TenantDB) : Prop :=
  ∀ k r, ecm_class r ∉ mine →
    event_class_map s' !! k = Some r ↔ event_class_map s !! k = Some r.

Lemma existing_mapping_some eid cid s k :
  existing_mapping eid cid s = Some k →
  ∃ r, event_class_map s !! k = Some r ∧ ecm_event r = eid ∧ ecm_class r = cid.
Proof.
  unfold existing_mapping. destruct (last _) as [m|] eqn:Hl; [|done]. intros [= <-].
  apply last_Some_elem_of in Hl. rewrite list_elem_of_In, filter_In, <-list_elem_of_In in Hl.
  destruct Hl as [Hin Hc%Z.eqb_eq]. unfold event_mappings in Hin.
  apply list_elem_of_fmap in Hin as ([j r] & -> & Hin). apply elem_of_by_id, elem_of_select in Hin.
  destruct Hin as [Hr He%Z.eqb_eq]. simpl in *. eauto.
Qed.

(** The loop of [update_event_full] over mappings of the classes [mine]. *)
Lemma wp_upsert_mappings eid existing mine ms s0 s :
  (∀ c k, existing c = Some k → ∃ r, event_class_map s0 !! k = Some r ∧ ecm_class r = c) →
  (∀ m, m ∈ ms → mi_class m ∈ mine) →
  ids_below (nextid s) (event_class_map s) → others_same mine s0 s →
  (∀ k r, event_class_map s0 !! k = Some r → ∃ r', event_class_map s !! k = Some r' ∧
     ecm_class r' = ecm_class r) →
  wp (for_each ms (upsert_mapping eid existing)) (λ _, others_same mine s0) (λ _ _, True) s.
Proof.
  intros Hex Hms Hfresh Hsame Hkeep.
  eapply wp_mono; [apply (wp_for_each ms _ (λ s, ids_below (nextid s) (event_class_map s) ∧
    others_same mine s0 s ∧ ∀ k r, event_class_map s0 !! k = Some r →
      ∃ r', event_class_map s !! k = Some r' ∧ ecm_class r' = ecm_class r) (λ _ _, True))| |done];
    [done| |by intros _ s' (_ & ? & _)].
  clear s Hfresh Hsame Hkeep. intros m s Hm (Hfresh & Hsame & Hkeep). apply Hms in Hm.
  unfold upsert_mapping. destruct (existing (mi_class m)) as [k|] eqn:Hk.
  - unfold check_money, check. wp_simpl. destruct (_ <? _); [|done]. wp_simpl.
    destruct (Hex _ _ Hk) as (r0 & Hr0 & Hc0). destruct (Hkeep k r0 Hr0) as (r & Hr & Hc).
    split_and!; simpl.
    + rewrite (alter_some _ _ _ r Hr). apply ids_below_insert; [done|]. apply Hfresh. eauto.
    + intros j r' Hj. simpl. rewrite (alter_some _ _ _ r Hr). destruct (decide (k = j)) as [<-|Hne].
      * rewrite lookup_insert_eq. split.
        -- intros [= <-]. simpl in Hj. congruence.
        -- intros Hr'. exfalso. apply Hj. replace r' with r0 by congruence. by rewrite Hc0.
      * rewrite lookup_insert_ne by done. by apply Hsame.
    + intros j r' Hj. rewrite (alter_some _ _ _ r Hr). destruct (decide (k = j)) as [<-|Hne].
      * rewrite lookup_insert_eq. eexists. split; [done|]. simpl. congruence.
      * rewrite lookup_insert_ne by done. auto.
  - unfold insert_mapping, check_money, check, insert_serial. wp_simpl.
    destruct (_ <? _); [|done]. wp_simpl.
    do 2 (apply wp_readonly; [intros ?; auto with pres| |done]; intros _; wp_simpl).
    pose proof (ids_below_fresh _ _ Hfresh) as Hnone. split_and!; simpl.
    + apply ids_below_insert; [eapply ids_below_mono; [done|]|]; lia.
    + intros j r' Hj. simpl. destruct (decide (nextid s = j)) as [<-|Hne].
      * rewrite lookup_insert_eq. split; [intros [= <-]; done|]. intros Hr'.
        destruct (Hkeep _ _ Hr') as (r2 & Hr2 & _). congruence.
      * rewrite lookup_insert_ne by done. by apply Hsame.
    + intros j r' Hj. destruct (Hkeep j r' Hj) as (r2 & Hr2 & ?). exists r2.
      rewrite lookup_insert_ne; [done|]. intros <-. congruence.
Qed.

Lemma wp_classes_by_head uid n s (Q : list (Z * class_row) → TenantDB → Prop)
    (E : exn → TenantDB → Prop) :
  parse_id uid = PInt n →
  (∀ l, (∀ c, c ∈ l.*1 ↔ headed n s c) → Q l s) →
  (∀ e, E e s) →
  wp (get_classes_by_head_teacher uid) Q E s.
Proof.
  intros Hn HQ HE. unfold get_classes_by_head_teacher, bind_bigint, check. rewrite Hn. wp_simpl.
  destruct (_ && _); [|done]. wp_simpl. apply HQ. intros c. rewrite list_elem_of_fmap.
  setoid_rewrite elem_of_by_id. unfold headed. split.
  - intros ([k r] & -> & [Hr Hh%bool_decide_eq_true]%elem_of_select). eauto.
  - intros (r & Hr & Hh). exists (c, r). split; [done|]. apply elem_of_select.
    split; [done|]. by apply bool_decide_eq_true.
Qed.

(** A teacher edits the audience of their own classes only. When a
    caller whose roles are those of a plain teacher updates an event, they
    head one of the classes the event was already mapped to, and every
    mapping (of any event) to a class they do not head, with its price, is
    afterwards exactly what it was. *)
Theorem teacher_updates_own_classes_only eid title desc addr sub date ms roles uid n s ev s' :
  has_one_of roles ["school_admin"; "event_teacher"; "manager"] = false →
  parse_id uid = PInt n →
  ids_below (nextid s) (event_class_map s) →
  update_event_full eid title desc addr sub date ms (RList roles) uid s = (Ok ev, s') →
  (∃ before cid, event_view_of eid s = Some before ∧ cid ∈ mapped_classes before ∧ headed n s cid) ∧
  ∀ k r, ¬ headed n s (ecm_class r) →
    event_class_map s' !! k = Some r ↔ event_class_map s !! k = Some r.
Proof.
  intros Hroles Hn Hfresh Hrun.
  assert (wp (update_event_full eid title desc addr sub date ms (RList roles) uid)
    (λ _ s', (∃ before cid, event_view_of eid s = Some before ∧ cid ∈ mapped_classes before ∧
                headed n s cid) ∧
       ∀ k r, ¬ headed n s (ecm_class r) →
         event_class_map s' !! k = Some r ↔ event_class_map s !! k = Some r) (λ _ _, True) s) as H.
  { unfold update_event_full. change (role_set (RList roles)) with roles. rewrite Hroles.
    destruct (mem "teacher" roles); [|done]. unfold scope_mappings. wp_simpl.
    eapply wp_classes_by_head; [done| |done]. intros mine Hmine. wp_simpl.
    destruct (negb _); [|done]. unfold get_event_by_id. wp_simpl.
    destruct (event_view_of eid s) as [before|] eqn:Hev; [|done]. wp_simpl.
    destruct (existsb _ _) eqn:Hex; [|done]. wp_simpl.
    unfold EventRepo.update_event_full, check_money, check. wp_simpl.
    destruct (_ <? _); [|done]. wp_simpl.
    eapply wp_mono; [apply (wp_upsert_mappings eid _ mine.*1 _ s)| |done].
    - intros c k Hk. apply existing_mapping_some in Hk as (r & Hr & _ & Hc). eauto.
    - intros m Hm. rewrite list_elem_of_In, filter_In in Hm. destruct Hm as [_ Hm].
      by apply bool_decide_eq_true in Hm.
    - done.
    - done.
    - eauto.
    - intros [] s1 Hs1. unfold get_event_by_id. wp_simpl.
      destruct (event_view_of eid s1); [|done]. wp_simpl. split.
      + apply existsb_exists in Hex as (c & Hc & Hm%bool_decide_eq_true).
        exists before, c. split_and!; [done|by apply list_elem_of_In|by apply Hmine].
      + intros k r Hr. apply Hs1. by rewrite Hmine. }
  unfold wp in H. by rewrite Hrun in H.
Qed.

Lemma teacher_updates_own_classes_only_witness :
  ∃ ev s', update_event_full 42 "Zoo" "" None 0 5000 [{| mi_class := 21; mi_price := 5 |}]
             (RList ["teacher"]) (PStr "7") demo_db = (Ok ev, s') ∧
    ∀ k r, ¬ headed 7 demo_db (ecm_class r) →
      event_class_map s' !! k = Some r ↔ event_class_map demo_db !! k = Some r.
Proof.
  destruct (run_ok (update_event_full 42 "Zoo" "" None 0 5000 [{| mi_class := 21; mi_price := 5 |}]
             (RList ["teacher"]) (PStr "7")) demo_db eq_refl) as (ev & s' & E).
  exists ev, s'. split; [exact E|].
  refine (proj2 (teacher_updates_own_classes_only 42 "Zoo" "" None 0 5000
    [{| mi_class := 21; mi_price := 5 |}] ["teacher"] (PStr "7") 7 demo_db ev s' _ _ _ E)).
  - reflexivity.
  - reflexivity.
  - intros k [r Hr]. demo_rows Hr; vm_compute; done.
Defined.
