(* ===== verification/Enrollment.v ===== *)
(** * Enrollments and payments

    The enrollment and payment operations of [TenantRepository] and
    [TenantService] (src/app/domains/tenant/), and the endpoints
    [enroll_student], [update_enrollment_approval], [cancel_enrollment]
    (src/app/domains/students/router.py) and [pay_enrollment]
    (src/app/domains/events/router.py). *)
From S2P Require Import Prelude PyText Authz Store AcademicRepo AcademicDelete EventRepo Demo AcademicSvc EventRules EventLifecycle Resources EventSvc.

(** ** The repository *)
Definition enrollment_states : list string :=
  ["requested_by_student"; "approved_by_parent"; "approved_by_teacher"; "rejected_by_parent";
   "rejected_by_teacher"].

Definition check_state (state : string) : DB unit :=
  check (mem state enrollment_states) "enrollment_state_check".

Definition event_enrollments (student_id event_id : Z) (s : TenantDB) :
    list (Z * enrollment_row) :=
  by_id (select (λ _ e, (en_student e =? student_id) &&
    match event_class_map s !! en_ecm e with
    | Some m => ecm_event m =? event_id
    | None => false
    end) (enrollments s)).
Definition get_enrollments_for_student_and_event (student_id event_id : Z) :
    DB (list (Z * enrollment_row)) :=
  gets (event_enrollments student_id event_id).

(** INSERT ... ON CONFLICT (student_id, event_class_map_id) DO UPDATE SET state *)
Definition create_enrollment (student_id event_class_map_id : Z) (state : string)
    (teacher_id parent_id : pyid) : DB Z :=
  tid ← bind_bigint (truthy_id teacher_id);
  pid ← bind_bigint (truthy_id parent_id);
  check_state state ;;
  t ← gets enrollments;
  match head (select (λ _ e, (en_student e =? student_id) && (en_ecm e =? event_class_map_id)) t) with
  | Some (id, e) =>
      modify (λ s, s <| enrollments ::= <[id := e <| en_state := state |>]> |>) ;; mret id
  | None =>
      check_fk students student_id ;;
      check_fk event_class_map event_class_map_id ;;
      check_fk_opt teachers tid ;;
      check_fk_opt parenets pid ;;
      insert_serial enrollments
        {| en_student := student_id; en_ecm := event_class_map_id; en_state := state;
           en_teacher := tid; en_parent := pid |}
  end.

Definition update_enrollment_state (enrollment_id : Z) (state : string)
    (teacher_id parent_id : pyid) : DB bool :=
  tid ← bind_bigint (truthy_id teacher_id);
  pid ← bind_bigint (truthy_id parent_id);
  t ← gets enrollments;
  match t !! enrollment_id with
  | None => mret false
  | Some e =>
      check_state state ;;
      check_fk_opt teachers tid ;;
      check_fk_opt parenets pid ;;
      modify (λ s, s <| enrollments ::= <[enrollment_id := e <| en_state := state |>
        <| en_teacher := opt_or_opt tid (en_teacher e) |>
        <| en_parent := opt_or_opt pid (en_parent e) |>]> |>) ;;
      mret true
  end.

(** A row of the join enrollment, students, event_class_map, class, event. *)
Record enrollment_view := {
  ew_row : enrollment_row; ew_student : student_row; ew_map : ecm_row; ew_class : class_row;
  ew_event : event_row }.

Definition enrollment_view_of (id : Z) (s : TenantDB) : option enrollment_view :=
  e ← enrollments s !! id;
  st ← students s !! en_student e;
  m ← event_class_map s !! en_ecm e;
  c ← classes s !! ecm_class m;
  ev ← events s !! ecm_event m;
  Some {| ew_row := e; ew_student := st; ew_map := m; ew_class := c; ew_event := ev |}.
Definition get_enrollment_by_id (id : Z) : DB (option enrollment_view) := gets (enrollment_view_of id).

Definition link_of (student_id : Z) (parent : option Z) (s : TenantDB) : option parent_link :=
  parent ≫= λ p, student_parent_map s !! (student_id, p).
Definition is_student_linked_to_parent (student_id : Z) (parent_id : pyid) : DB bool :=
  pid ← bind_bigint parent_id;
  gets (λ s, bool_decide (is_Some (link_of student_id pid s))).
Definition can_parent_approve_for_student (student_id : Z) (parent_id : pyid) : DB bool :=
  pid ← bind_bigint parent_id;
  gets (λ s, match link_of student_id pid s with Some l => pl_can_approve l | None => false end).

(** DELETE FROM enrollment: CASCADE to payments. *)
Definition delete_enrollment (id : Z) : DB bool :=
  t ← gets enrollments;
  modify (λ s, s <| enrollments ::= delete id |>
                 <| payments ::= delete_where (λ _ p, pm_enrollment p =? id) |>) ;;
  mret (has_row t id).

(** INSERT INTO payments (enrollment_id, amount, status): the NOT NULL
    currency takes the column's default, if the schema gives it one. *)
Definition create_payment (enrollment_id amount : Z) (status : string) : DB Z :=
  currency ← gets payments_currency_default;
  c ← from_option_or currency (DatabaseError "null value in column currency");
  check_money amount ;;
  check (mem status ["pending"; "paid"; "refunded"]) "payments_status_check" ;;
  check_fk enrollments enrollment_id ;;
  insert_serial payments
    {| pm_enrollment := enrollment_id; pm_amount := amount; pm_status := status; pm_currency := c |}.

Definition payment_of (enrollment_id : Z) (s : TenantDB) : option (Z * payment_row) :=
  head (select (λ _ p, pm_enrollment p =? enrollment_id) (payments s)).
Definition get_payment_by_enrollment (enrollment_id : Z) : DB (option (Z * payment_row)) :=
  gets (payment_of enrollment_id).

(** ** The service *)
Definition enroll_student (student_id event_class_map_id : Z) (state : string)
    (teacher_id parent_id : pyid) : DB Z :=
  o ← get_class_map_by_id event_class_map_id;
  class_map ← from_option_or o (ValueError "Event class mapping not found");
  e ← get_event_by_id (ecm_event class_map);
  guard_or (match e with Some ev => bool_decide (ev_status (vw_row ev) = "published") | None => false end)
    (ValueError "Enrollment is only allowed for published events") ;;
  st ← get_student_by_id student_id;
  student ← from_option_or st (ValueError "Student not found");
  existing ← get_enrollments_for_student_and_event student_id (ecm_event class_map);
  match existing with
  | _ :: _ =>
      match List.filter (λ kv : Z * enrollment_row, en_ecm kv.2 =? event_class_map_id) existing with
      | (id, _) :: _ => mret id
      | [] => raise (ValueError "Student is already enrolled in this event")
      end
  | [] =>
      guard_or (bool_decide (st_class student = Some (ecm_class class_map)))
        (ValueError "Student is not in the class mapped to this event") ;;
      enrollment_id ← create_enrollment student_id event_class_map_id state teacher_id parent_id;
      details ← get_enrollment_by_id enrollment_id;
      match details with
      | Some d =>
          if 0 <? ecm_price (ew_map d)
          then create_payment enrollment_id (ecm_price (ew_map d)) "pending" ;; mret tt
          else mret tt
      | None => mret tt
      end ;;
      mret enrollment_id
  end.

Definition cancel_title (d : enrollment_view) : string :=
  let name := if bool_decide (st_name (ew_student d) = "")
              then "Student #" +:+ pretty (en_student (ew_row d)) else st_name (ew_student d) in
  let title := if bool_decide (ev_title (ew_event d) = "") then "the event" else ev_title (ew_event d) in
  "❌ Cancelled: " +:+ name +:+ " un-enrolled from '" +:+ title +:+ "'".

(** The roles that may cancel: staff, an approving parent, the student. *)
Definition may_cancel (student_id : Z) (user_id : pyid) (roles : list string) : DB unit :=
  if has_one_of roles ["school_admin"; "teacher"] then mret tt
  else if mem "parent" roles then
    ok ← can_parent_approve_for_student student_id user_id;
    guard_or ok (PermissionError
      "Only a parent authorized to approve for this student can cancel their enrollments")
  else if mem "student" roles then
    uid ← lift (int_of_id user_id);
    guard_or (student_id =? uid) (PermissionError "Students can only cancel their own enrollments")
  else raise (PermissionError "Unauthorized role to cancel enrollment").

Definition head_of (c : class_row) : pyid :=
  match cl_head c with Some h => PInt h | None => PNone end.

Definition payment_unpaid (payment : option (Z * payment_row)) : bool :=
  match payment with Some p => negb (bool_decide (pm_status p.2 = "paid")) | None => true end.

Definition cancel_enrollment (enrollment_id : Z) (user_id : pyid) (user_role : role_arg) : DB unit :=
  o ← get_enrollment_by_id enrollment_id;
  d ← from_option_or o (ValueError "Enrollment not found");
  may_cancel (en_student (ew_row d)) user_id (role_set user_role) ;;
  payment ← get_payment_by_enrollment enrollment_id;
  guard_or (payment_unpaid payment)
    (ValueError "Cannot cancel enrollment after payment has been completed") ;;
  m ← get_class_map_by_id (en_ecm (ew_row d));
  match m with
  | None => mret tt
  | Some class_map =>
      c ← get_class_by_id (ecm_class class_map);
      match c with
      | None => mret tt
      | Some class_info =>
          create_notification (ecm_event class_map) (head_of class_info) (Some (cancel_title d)) ;;
          mret tt
      end
  end ;;
  delete_enrollment enrollment_id ;;
  mret tt.

Definition pay_enrollment (enrollment_id : Z) : DB bool :=
  payment ← get_payment_by_enrollment enrollment_id;
  match payment with
  | None => mret false
  | Some _ =>
      modify (λ s, s <| payments ::= update_where (λ _ p, pm_enrollment p =? enrollment_id)
                                       (λ p, p <| pm_status := "paid" |>) |>) ;;
      mret true
  end.

(** ** Endpoints *)

(** [except ValueError -> 400], and [except PermissionError -> 403] as well. *)
Definition refused_value {A} (m : DB A) : DB A :=
  try_except m (λ e, raise (match e with ValueError d => HTTPException 400 d | _ => e end)).
Definition refused {A} (m : DB A) : DB A :=
  try_except m (λ e, raise (match e with
                            | ValueError d => HTTPException 400 d
                            | PermissionError d => HTTPException 403 d
                            | _ => e
                            end)).

(** The state, teacher and parent an enrollment request starts with. *)
Definition initial_decision (student_id : Z) (u : CurrentUser) : DB (string * pyid * pyid) :=
  let me := parse_id (cu_id u) in
  if has_role u "parent" then
    linked ← is_student_linked_to_parent student_id me;
    if (linked : bool) then
      can_approve ← can_parent_approve_for_student student_id me;
      mret (if (can_approve : bool) then ("approved_by_parent", PNone, me)
            else ("requested_by_student", PNone, PNone))
    else if has_role u "teacher" then mret ("approved_by_teacher", me, PNone)
    else fail 403 "Parent is not linked to this student"
  else if has_role u "teacher" then mret ("approved_by_teacher", me, PNone)
  else mret ("requested_by_student", PNone, PNone).

Definition enroll_student_route (student_id event_class_map_id : Z) (u : CurrentUser) :
    DB enrollment_view :=
  d ← initial_decision student_id u;
  refused_value (
    enroll_id ← enroll_student student_id event_class_map_id d.1.1 d.1.2 d.2;
    o ← get_enrollment_by_id enroll_id;
    from_option_or o none_error).

(** What a parent or a teacher may decide, in which state. *)
Definition parent_decision (current new : string) : DB unit :=
  guard_or (bool_decide (current = "requested_by_student"))
    (HTTPException 400 ("Parent cannot approve/reject an enrollment in '" +:+ current +:+ "' state")) ;;
  guard_or (mem new ["approved_by_parent"; "rejected_by_parent"])
    (HTTPException 400 "Parent can only transition enrollment to approved_by_parent or rejected_by_parent").

Definition teacher_decision (me : pyid) (d : enrollment_view) (new : string) : DB unit :=
  let current := en_state (ew_row d) in
  guard_or (bool_decide (me = PInt (ev_created_by (ew_event d))))
    (HTTPException 403 "Only the trip's creator may approve or reject its enrollments") ;;
  guard_or (negb (bool_decide (current = "requested_by_student")))
    (HTTPException 400 "Enrollment must be approved by a parent before teacher approval") ;;
  guard_or (bool_decide (current = "approved_by_parent"))
    (HTTPException 400 ("Teacher cannot approve/reject an enrollment in '" +:+ current +:+ "' state")) ;;
  guard_or (mem new ["approved_by_teacher"; "rejected_by_teacher"])
    (HTTPException 400 "Teacher can only transition enrollment to approved_by_teacher or rejected_by_teacher").

Definition update_enrollment_approval (enrollment_id : Z) (new : string) (u : CurrentUser) :
    DB enrollment_view :=
  let me := parse_id (cu_id u) in
  o ← get_enrollment_by_id enrollment_id;
  d ← from_option_or o (HTTPException 404 "Enrollment not found");
  let sid := en_student (ew_row d) in
  is_parent_decision ← (if has_role u "parent" then can_parent_approve_for_student sid me
                        else mret false);
  linked_only ← (if has_role u "parent" && negb is_parent_decision
                 then is_student_linked_to_parent sid me else mret false);
  let parent_id := if has_role u "parent" then me else PNone in
  teacher_id ← (if (is_parent_decision : bool) then
                  parent_decision (en_state (ew_row d)) new ;; mret PNone
                else if has_role u "teacher" then teacher_decision me d new ;; mret me
                else if (linked_only : bool) then
                  fail 403 "This parent is linked to the student but is not authorized to approve or reject their enrollments"
                else fail 403 "Unauthorized role for approval");
  update_enrollment_state enrollment_id new teacher_id parent_id ;;
  after ← get_enrollment_by_id enrollment_id;
  from_option_or after none_error.

Definition cancel_enrollment_route (enrollment_id : Z) (u : CurrentUser) : DB unit :=
  guard_or (match cu_tenant_id u with Some t => negb (bool_decide (t = "")) | None => false end
            || has_role u "super_admin") (HTTPException 400 "Tenant context required") ;;
  refused (cancel_enrollment enrollment_id (cu_id u) (RList (cu_roles u))).

Definition pay_enrollment_route (enrollment_id : Z) (u : CurrentUser) : DB unit :=
  guard_or (bool_decide (cu_role u = "parent")) (HTTPException 403 "Only parents can make payments") ;;
  answer 500 500 true (
    success ← pay_enrollment enrollment_id;
    guard_or success (HTTPException 400 "Failed to process payment")).

(** ** What an enrollment request does *)
Definition enrolled (e : enrollment_row) (s : TenantDB) : TenantDB :=
  s <| enrollments ::= <[nextid s := e]> |> <| nextid := nextid s + 1 |>.
Definition billed (price : Z) (id : Z) (s s' : TenantDB) : Prop :=
  if 0 <? price
  then ∃ c, payments_currency_default s = Some c ∧
       s' = s <| payments ::= <[nextid s := {| pm_enrollment := id; pm_amount := price;
                                               pm_status := "pending"; pm_currency := c |}]> |>
              <| nextid := nextid s + 1 |>
  else s' = s.

Definition may_enroll (sid ecm : Z) (s : TenantDB) : Prop :=
  ∃ m ev st, event_class_map s !! ecm = Some m ∧ events s !! ecm_event m = Some ev ∧
    ev_status ev = "published" ∧ students s !! sid = Some st ∧
    st_class st = Some (ecm_class m) ∧ event_enrollments sid (ecm_event m) s = [].

Definition priced (ecm : Z) (s : TenantDB) : Prop :=
  ∃ m, event_class_map s !! ecm = Some m ∧ 0 < ecm_price m.

Lemma wp_bind_bigint v (Q : option Z → TenantDB → Prop) (E : exn → TenantDB → Prop) s :
  (∀ o, Q o s) → (∀ e, E e s) → wp (bind_bigint v) Q E s.
Proof.
  intros HQ HE. unfold bind_bigint, check. destruct (parse_id v); wp_simpl; try done.
  case_match; [wp_simpl; apply HQ|apply HE].
Qed.

Lemma readonly_fk_opt {R} (tbl : TenantDB → gmap Z R) o : readonly (check_fk_opt tbl o).
Proof. intros s0 s ->. by apply preserves_check_fk_opt. Qed.
Lemma readonly_check b msg : readonly (check b msg).
Proof. intros s0 s ->. by apply preserves_check. Qed.

Lemma no_conflict sid ecm m s :
  event_class_map s !! ecm = Some m → event_enrollments sid (ecm_event m) s = [] →
  select (λ _ e, (en_student e =? sid) && (en_ecm e =? ecm)) (enrollments s) = [].
Proof.
  intros Hm He. destruct (select _ _) as [|[k e] l] eqn:E; [done|]. exfalso.
  assert ((k, e) ∈ event_enrollments sid (ecm_event m) s) as Hin; [|rewrite He in Hin; set_solver].
  assert ((k, e) ∈ select (λ _ e, (en_student e =? sid) && (en_ecm e =? ecm)) (enrollments s))
    as Hs by (rewrite E; left).
  apply elem_of_select in Hs as [Hk Hb]. apply andb_true_iff in Hb as [H1 H2].
  apply Z.eqb_eq in H2. unfold event_enrollments. apply elem_of_by_id, elem_of_select.
  split; [done|]. rewrite H1, H2, Hm. simpl. lia.
Qed.

Lemma wp_create_enrollment sid ecm m state tid pid s :
  event_class_map s !! ecm = Some m → event_enrollments sid (ecm_event m) s = [] →
  wp (create_enrollment sid ecm state tid pid)
    (λ id s', id = nextid s ∧ ∃ t p, s' = enrolled
       {| en_student := sid; en_ecm := ecm; en_state := state; en_teacher := t; en_parent := p |} s)
    (λ _ s', s' = s) s.
Proof.
  intros Hm He. unfold create_enrollment. wp_simpl.
  apply wp_bind_bigint; [intros t|done]. wp_simpl.
  apply wp_bind_bigint; [intros p|done]. wp_simpl.
  apply wp_readonly; [apply readonly_check|intros _|done]. wp_simpl.
  rewrite (no_conflict _ _ _ _ Hm He). simpl. wp_simpl.
  apply wp_readonly; [apply readonly_check_fk|intros _|done]. wp_simpl.
  apply wp_readonly; [apply readonly_check_fk|intros _|done]. wp_simpl.
  apply wp_readonly; [apply readonly_fk_opt|intros _|done]. wp_simpl.
  apply wp_readonly; [apply readonly_fk_opt|intros _|done].
  unfold insert_serial. wp_simpl. eauto.
Qed.

Lemma wp_create_payment id price s :
  0 < price →
  wp (create_payment id price "pending") (λ _ s', billed price id s s') (λ _ s', s' = s) s.
Proof.
  intros Hp. unfold create_payment. wp_simpl.
  destruct (payments_currency_default s) as [c|] eqn:Hc; [|done]. wp_simpl.
  apply wp_readonly; [apply readonly_check|intros _|done]. wp_simpl.
  apply wp_readonly; [apply readonly_check|intros _|done]. wp_simpl.
  apply wp_readonly; [apply readonly_check_fk|intros _|done].
  unfold insert_serial. wp_simpl. unfold billed.
  replace (0 <? price) with true by lia. by exists c.
Qed.

Lemma wp_bill id o s :
  o = enrollment_view_of id s →
  wp (match o with
      | Some d => if 0 <? ecm_price (ew_map d)
                  then create_payment id (ecm_price (ew_map d)) "pending" ;; mret tt else mret tt
      | None => mret tt
      end)
    (λ _ s', match enrollment_view_of id s with
             | Some d => billed (ecm_price (ew_map d)) id s s'
             | None => s' = s
             end)
    (λ _ s', s' = s ∧ ∃ d, enrollment_view_of id s = Some d ∧ 0 < ecm_price (ew_map d)) s.
Proof.
  intros ->. destruct (enrollment_view_of id s) as [d|]; [|done].
  destruct (0 <? ecm_price (ew_map d)) eqn:Hp.
  - wp_simpl. eapply wp_mono; [apply wp_create_payment; lia|done|].
    intros e s' ->. split; [done|]. exists d. split; [done|lia].
  - wp_simpl. unfold billed. by rewrite Hp.
Qed.

Lemma enrolled_view e s m :
  event_class_map s !! en_ecm e = Some m →
  is_Some (students s !! en_student e) → is_Some (classes s !! ecm_class m) →
  is_Some (events s !! ecm_event m) →
  ∃ d, enrollment_view_of (nextid s) (enrolled e s) = Some d ∧ ew_row d = e ∧ ew_map d = m.
Proof.
  intros Hm [st Hst] [c Hc] [ev Hev]. unfold enrollment_view_of. cbn.
  rewrite lookup_insert_eq. cbn. rewrite Hst. cbn. rewrite Hm. cbn. rewrite Hc. cbn.
  rewrite Hev. cbn. eauto.
Qed.

Lemma enrolled_view_map e s d :
  enrollment_view_of (nextid s) (enrolled e s) = Some d →
  event_class_map s !! en_ecm e = Some (ew_map d).
Proof.
  unfold enrollment_view_of. cbn. rewrite lookup_insert_eq. cbn.
  destruct (students s !! _); cbn; [|done]. destruct (event_class_map s !! _); cbn; [|done].
  destruct (classes s !! _); cbn; [|done]. destruct (events s !! _); cbn; [|done].
  by intros [= <-].
Qed.

(** The three outcomes of an enrollment request. *)
Definition enroll_post (sid ecm : Z) (state : string) (s : TenantDB) (id : Z) (s' : TenantDB) : Prop :=
  (s' = s ∧ ∃ e, enrollments s !! id = Some e ∧ en_student e = sid ∧ en_ecm e = ecm) ∨
  (may_enroll sid ecm s ∧ id = nextid s ∧ ∃ m t p, event_class_map s !! ecm = Some m ∧
     let row := {| en_student := sid; en_ecm := ecm; en_state := state;
                   en_teacher := t; en_parent := p |} in
     if has_row (classes s) (ecm_class m) then billed (ecm_price m) id (enrolled row s) s'
     else s' = enrolled row s).

Lemma view_class e s d :
  enrollment_view_of (nextid s) (enrolled e s) = Some d →
  has_row (classes s) (ecm_class (ew_map d)) = true.
Proof.
  unfold enrollment_view_of. cbn. rewrite lookup_insert_eq. cbn.
  destruct (students s !! _); cbn; [|done]. destruct (event_class_map s !! _) as [m|]; cbn; [|done].
  destruct (classes s !! _) eqn:Hc; cbn; [|done]. destruct (events s !! _); cbn; [|done].
  intros [= <-]. apply has_row_true. cbn. by rewrite Hc.
Qed.

Lemma wp_enroll_student sid ecm state tid pid s :
  wp (enroll_student sid ecm state tid pid)
    (enroll_post sid ecm state s)
    (λ e s', s' = s ∨ (may_enroll sid ecm s ∧ priced ecm s ∧ ∃ t p, s' = enrolled
       {| en_student := sid; en_ecm := ecm; en_state := state; en_teacher := t; en_parent := p |} s))
    s.
Proof.
  unfold enroll_student, get_class_map_by_id, get_event_by_id, get_student_by_id,
    get_enrollments_for_student_and_event. wp_simpl.
  destruct (event_class_map s !! ecm) as [m|] eqn:Hm; [|by left]. wp_simpl.
  unfold event_view_of. destruct (events s !! ecm_event m) as [ev|] eqn:Hev; cbn;
    [|wp_simpl; by left].
  case_bool_decide as Hpub; wp_simpl; [|by left].
  destruct (students s !! sid) as [st|] eqn:Hst; wp_simpl; [|by left].
  destruct (event_enrollments sid (ecm_event m) s) as [|x l] eqn:He.
  - wp_simpl. case_bool_decide as Hc; [|by left]. wp_simpl.
    eapply wp_mono; [by apply (wp_create_enrollment _ _ m)| |by left].
    intros id s1 [-> (t & p & ->)]. unfold get_enrollment_by_id. wp_simpl.
    assert (may_enroll sid ecm s) as Hmay by (exists m, ev, st; eauto 10).
    eapply wp_mono; [by apply wp_bill| |].
    + intros [] s2. wp_simpl. intros Hb. right. split; [done|]. split; [done|].
      exists m, t, p. split; [done|]. cbn.
      destruct (enrollment_view_of _ _) as [d|] eqn:Hd.
      * pose proof (enrolled_view_map _ _ _ Hd) as Hm'. cbn in Hm'.
        rewrite Hm in Hm'. injection Hm' as Hm'. rewrite Hm'. by rewrite (view_class _ _ _ Hd).
      * destruct (has_row (classes s) (ecm_class m)) eqn:Hr; [|done]. exfalso.
        apply has_row_true in Hr.
        destruct (enrolled_view {| en_student := sid; en_ecm := ecm; en_state := state;
          en_teacher := t; en_parent := p |} s m) as (d & Hd' & _); cbn; [done|by rewrite Hst|done| |].
        -- by rewrite Hev.
        -- congruence.
    + intros e s2 (-> & d & Hd & Hp). right. split; [done|].
      pose proof (enrolled_view_map _ _ _ Hd) as Hm'. split; [by exists (ew_map d)|by exists t, p].
  - set (found := List.filter _ _). destruct found as [|[id e] l'] eqn:Hf; wp_simpl; [by left|].
    left. split; [done|]. exists e.
    assert (In (id, e) found) as Hin by (rewrite Hf; by left).
    unfold found in Hin. apply filter_In in Hin as [Hin Hecm].
    apply list_elem_of_In in Hin. rewrite <-He in Hin. unfold event_enrollments in Hin.
    apply elem_of_by_id, elem_of_select in Hin as [Hk Hb].
    apply andb_true_iff in Hb as [Hb _]. apply Z.eqb_eq in Hb, Hecm. done.
Qed.

(** C35: an enrollment request. It answers with an enrollment of the
    student in that class mapping: either one that existed, and then nothing
    changes, or a new one in the requested state, made only for a published
    event, a student of the mapped class who had no enrollment in any class
    mapping of the event, with a pending payment of the ticket price when
    the price is positive and none otherwise. A refused request changes
    nothing, except that in a priced trip a failing payment leaves the
    enrollment behind. *)
Theorem enroll_student_outcome sid ecm state tid pid s :
  match enroll_student sid ecm state tid pid s with
  | (Ok id, s') =>
      (s' = s ∧ ∃ e, enrollments s !! id = Some e ∧ en_student e = sid ∧ en_ecm e = ecm) ∨
      (may_enroll sid ecm s ∧ id = nextid s ∧ ∃ m t p, event_class_map s !! ecm = Some m ∧
         let row := {| en_student := sid; en_ecm := ecm; en_state := state;
                       en_teacher := t; en_parent := p |} in
         if has_row (classes s) (ecm_class m) then billed (ecm_price m) id (enrolled row s) s'
         else s' = enrolled row s)
  | (Raise e, s') =>
      s' = s ∨ (may_enroll sid ecm s ∧ priced ecm s ∧ ∃ t p, s' = enrolled
        {| en_student := sid; en_ecm := ecm; en_state := state; en_teacher := t; en_parent := p |} s)
  end.
Proof.
  generalize (wp_enroll_student sid ecm state tid pid s). unfold wp.
  by destruct (enroll_student _ _ _ _ _ s) as [[id|e] s'].
Qed.

Lemma enrolled_listed e m s i e' :
  event_class_map s !! en_ecm e = Some m → event_enrollments (en_student e) (ecm_event m) s = [] →
  (i, e') ∈ event_enrollments (en_student e) (ecm_event m) (enrolled e s) ↔
  (i, e') = (nextid s, e).
Proof.
  intros Hm He. unfold event_enrollments. rewrite elem_of_by_id, elem_of_select. cbn.
  rewrite lookup_insert_Some. split.
  - intros [[[<- <-]|[Hi Hk]] Hb]; [done|]. exfalso.
    assert ((i, e') ∈ event_enrollments (en_student e) (ecm_event m) s) as Hin.
    { apply elem_of_by_id, elem_of_select. eauto. }
    rewrite He in Hin. set_solver.
  - intros [= -> ->]. split; [by left|]. rewrite Hm. lia.
Qed.

Lemma enroll_again sid ecm m state tid pid s e :
  may_enroll sid ecm s → event_class_map s !! ecm = Some m →
  en_student e = sid → en_ecm e = ecm →
  enroll_student sid ecm state tid pid (enrolled e s) = (Ok (nextid s), enrolled e s).
Proof.
  intros (m' & ev & st & Hm' & Hev & Hpub & Hst & Hc & Hno) Hm <- <-.
  assert (m' = m) as -> by congruence.
  unfold enroll_student, get_class_map_by_id, get_event_by_id, get_student_by_id,
    get_enrollments_for_student_and_event, gets, mbind, M_bind, mret, M_ret. cbn.
  rewrite Hm. cbn. unfold event_view_of. cbn. rewrite Hev. cbn.
  rewrite bool_decide_eq_true_2 by done. cbn. rewrite Hst. cbn.
  pose proof (λ i e', enrolled_listed e m s i e' Hm Hno) as Hl.
  destruct (event_enrollments _ _ (enrolled e s)) as [|[i e'] l] eqn:E.
  - exfalso. assert ((nextid s, e) ∈ ([] : list (Z * enrollment_row))) as H by by apply Hl.
    set_solver.
  - assert ((i, e') = (nextid s, e)) as [= -> ->] by (apply Hl; left). cbn.
    by rewrite Z.eqb_refl.
Qed.


Lemma create_enrollment_run sid ecm m state s :
  is_Some (students s !! sid) → event_class_map s !! ecm = Some m →
  event_enrollments sid (ecm_event m) s = [] → mem state enrollment_states = true →
  create_enrollment sid ecm state PNone PNone s =
  (Ok (nextid s), enrolled {| en_student := sid; en_ecm := ecm; en_state := state;
                              en_teacher := None; en_parent := None |} s).
Proof.
  intros Hst Hm Hno Hmem. unfold create_enrollment, check_state, check.
  change (bind_bigint (truthy_id PNone)) with (mret None : DB (option Z)).
  rewrite Hmem. unfold mbind, M_bind, mret, M_ret. cbn -[select check_fk insert_serial].
  rewrite (no_conflict _ _ _ _ Hm Hno). cbn. unfold check_fk, gets, mbind, M_bind. cbn.
  rewrite (proj2 (has_row_true _ _) Hst). cbn.
  assert (has_row (event_class_map s) ecm = true) as -> by (apply has_row_true; by rewrite Hm).
  done.
Qed.

Lemma enroll_unpaid sid ecm m state s :
  payments_currency_default s = None →
  event_class_map s !! ecm = Some m → is_Some (classes s !! ecm_class m) → 0 < ecm_price m →
  may_enroll sid ecm s → mem state enrollment_states = true →
  enroll_student sid ecm state PNone PNone s =
  (Raise (DatabaseError "null value in column currency"),
   enrolled {| en_student := sid; en_ecm := ecm; en_state := state; en_teacher := None;
               en_parent := None |} s).
Proof.
  intros Hcur Hm Hcl Hp (m' & ev & st & Hm' & Hev & Hpub & Hst & Hc & Hno) Hstate.
  assert (m' = m) as -> by congruence.
  set (row := {| en_student := sid; en_ecm := ecm; en_state := state; en_teacher := None;
                 en_parent := None |}).
  destruct (enrolled_view row s m) as (d & Hd & _ & Hdm); cbn; [done|by rewrite Hst|done|by rewrite Hev|].
  unfold enroll_student, get_class_map_by_id, get_event_by_id, get_student_by_id,
    get_enrollments_for_student_and_event, gets, mbind, M_bind, mret, M_ret. cbn -[create_enrollment].
  rewrite Hm. cbn -[create_enrollment]. unfold event_view_of. rewrite Hev. cbn -[create_enrollment].
  rewrite bool_decide_eq_true_2 by done. cbn -[create_enrollment]. rewrite Hst.
  cbn -[create_enrollment]. rewrite Hno. cbn -[create_enrollment].
  rewrite bool_decide_eq_true_2 by done. cbn -[create_enrollment].
  rewrite (create_enrollment_run sid ecm m state s) by (done || by rewrite Hst). fold row.
  unfold get_enrollment_by_id, gets. rewrite Hd, Hdm.
  replace (0 <? ecm_price m) with true by lia.
  unfold create_payment, gets, mbind, M_bind, from_option_or, raise.
  change (payments_currency_default (enrolled row s)) with (payments_currency_default s).
  by rewrite Hcur.
Qed.

(** In a school whose [payments.currency] column has no default, as
    the schema of src/app/core/database.py creates it, an accepted request
    for a priced trip fails on the payment with the enrollment already
    stored; the same request again then succeeds and answers with that
    enrollment, and no payment is ever created for it. *)
Theorem priced_enrollment_loses_its_payment sid ecm m state s
  (Hcur : payments_currency_default s = None)
  (Hm : event_class_map s !! ecm = Some m) (Hcl : is_Some (classes s !! ecm_class m))
  (Hp : 0 < ecm_price m) (Hmay : may_enroll sid ecm s)
  (Hstate : mem state enrollment_states = true) :
  let e := {| en_student := sid; en_ecm := ecm; en_state := state; en_teacher := None;
              en_parent := None |} in
  let s' := (enroll_student sid ecm state PNone PNone s).2 in
  (enroll_student sid ecm state PNone PNone s).1
    = Raise (DatabaseError "null value in column currency") ∧
  enrollments s' !! nextid s = Some e ∧
  enroll_student sid ecm state PNone PNone s' = (Ok (nextid s), s') ∧
  payments s' = payments s.
Proof.
  intros e s'. subst s'. rewrite (enroll_unpaid sid ecm m state s) by done. cbn.
  split; [done|]. split; [by rewrite lookup_insert_eq|]. split; [|done].
  by apply (enroll_again sid ecm m).
Qed.

(** Student 31 signs up for a published trip that costs 15. *)
Definition demo_priced_trip : TenantDB := demo_db
  <| event_class_map := {[51 := {| ecm_event := 41; ecm_class := 21; ecm_price := 150000 |}]} |>.

Lemma demo_may_enroll : may_enroll 31 51 demo_priced_trip.
Proof.
  exists {| ecm_event := 41; ecm_class := 21; ecm_price := 150000 |},
    (demo_event "Museum" "published"), (demo_student "Sam" (Some 21)).
  by vm_compute.
Qed.

Lemma priced_enrollment_loses_its_payment_witness :
  enroll_student 31 51 "requested_by_student" PNone PNone
    (enroll_student 31 51 "requested_by_student" PNone PNone demo_priced_trip).2
  = (Ok 100, (enroll_student 31 51 "requested_by_student" PNone PNone demo_priced_trip).2).
Proof.
  apply (priced_enrollment_loses_its_payment 31 51
    {| ecm_event := 41; ecm_class := 21; ecm_price := 150000 |} "requested_by_student" demo_priced_trip).
  - reflexivity.
  - reflexivity.
  - exists (demo_class "Grade 1 - A" 11 (Some "A")). reflexivity.
  - reflexivity.
  - exact demo_may_enroll.
  - reflexivity.
Defined.

(** ** Approvals *)
Definition approves_for (u : CurrentUser) (sid : Z) (s : TenantDB) : Prop :=
  has_role u "parent" = true ∧
  ∃ p l, parse_id (cu_id u) = PInt p ∧ student_parent_map s !! (sid, p) = Some l ∧
    pl_can_approve l = true.

Definition decision_allowed (u : CurrentUser) (d : enrollment_view) (new : string)
    (s : TenantDB) : Prop :=
  (approves_for u (en_student (ew_row d)) s ∧ en_state (ew_row d) = "requested_by_student" ∧
   new ∈ ["approved_by_parent"; "rejected_by_parent"]) ∨
  (¬ approves_for u (en_student (ew_row d)) s ∧ has_role u "teacher" = true ∧
   parse_id (cu_id u) = PInt (ev_created_by (ew_event d)) ∧
   en_state (ew_row d) = "approved_by_parent" ∧
   new ∈ ["approved_by_teacher"; "rejected_by_teacher"]).

Lemma wp_can_approve sid v (Q : bool → TenantDB → Prop) (E : exn → TenantDB → Prop) s :
  (∀ b, (b = true ↔ ∃ p l, parse_id v = PInt p ∧ student_parent_map s !! (sid, p) = Some l ∧
                         pl_can_approve l = true) → Q b s) →
  (∀ e, E e s) →
  wp (can_parent_approve_for_student sid v) Q E s.
Proof.
  intros HQ HE. unfold can_parent_approve_for_student, bind_bigint, check.
  destruct (parse_id v) as [n| | |] eqn:Hv; wp_simpl; try apply HE.
  - case_match; [|apply HE]. wp_simpl. apply HQ. unfold link_of. simpl.
    destruct (student_parent_map s !! (sid, n)) as [l|] eqn:Hl.
    + split; [by exists n, l|]. intros (p & l' & [= <-] & Hl' & Hc). congruence.
    + split; [done|]. intros (p & l' & [= <-] & Hl' & Hc). congruence.
  - apply HQ. simpl. split; [done|]. by intros (p & l & [=] & _).
Qed.

Lemma readonly_linked sid v : readonly (is_student_linked_to_parent sid v).
Proof. intros s. unfold is_student_linked_to_parent. preserve. Qed.

Lemma wp_update_state id new t p d s :
  enrollment_view_of id s = Some d →
  wp (update_enrollment_state id new t p)
    (λ _ s', ∃ t' p', s' = s <| enrollments ::= <[id := (ew_row d) <| en_state := new |>
                               <| en_teacher := t' |> <| en_parent := p' |>]> |>)
    (λ _ s', s' = s) s.
Proof.
  intros Hd. assert (enrollments s !! id = Some (ew_row d)) as He.
  { unfold enrollment_view_of in Hd. destruct (enrollments s !! id) as [e|]; cbn in Hd; [|done].
    destruct (students s !! _); cbn in Hd; [|done].
    destruct (event_class_map s !! _); cbn in Hd; [|done].
    destruct (classes s !! _); cbn in Hd; [|done].
    destruct (events s !! _); cbn in Hd; [|done]. by injection Hd as <-. }
  unfold update_enrollment_state. wp_simpl. apply wp_bind_bigint; [intros tid|done]. wp_simpl.
  apply wp_bind_bigint; [intros pid|done]. wp_simpl. rewrite He. wp_simpl.
  apply wp_readonly; [apply readonly_check|intros _|done]. wp_simpl.
  apply wp_readonly; [apply readonly_fk_opt|intros _|done]. wp_simpl.
  apply wp_readonly; [apply readonly_fk_opt|intros _|done]. wp_simpl. eauto.
Qed.

Lemma view_after_update id new t p d s :
  enrollment_view_of id s = Some d →
  is_Some (enrollment_view_of id (s <| enrollments ::= <[id := (ew_row d) <| en_state := new |>
     <| en_teacher := t |> <| en_parent := p |>]> |>)).
Proof.
  unfold enrollment_view_of. intros Hd. cbn. rewrite lookup_insert_eq. cbn.
  destruct (enrollments s !! id) as [e|]; cbn in Hd; [|done].
  destruct (students s !! en_student e) eqn:E1; cbn in Hd; [|done].
  destruct (event_class_map s !! en_ecm e) as [m|] eqn:E2; cbn in Hd; [|done].
  destruct (classes s !! ecm_class m) eqn:E3; cbn in Hd; [|done].
  destruct (events s !! ecm_event m) eqn:E4; cbn in Hd; [|done]. injection Hd as <-. cbn.
  rewrite E1. cbn. rewrite E2. cbn. rewrite E3. cbn. rewrite E4. eauto.
Qed.

Definition approval_post (id : Z) (new : string) (u : CurrentUser) (s s' : TenantDB) : Prop :=
  ∃ d t p, enrollment_view_of id s = Some d ∧ decision_allowed u d new s ∧
    s' = s <| enrollments ::= <[id := (ew_row d) <| en_state := new |>
                                 <| en_teacher := t |> <| en_parent := p |>]> |>.

Lemma wp_finish_approval id new t p u d s :
  enrollment_view_of id s = Some d → decision_allowed u d new s →
  wp (update_enrollment_state id new t p ;; after ← get_enrollment_by_id id;
      from_option_or after none_error)
    (λ _ s', approval_post id new u s s') (λ _ s', s' = s) s.
Proof.
  intros Hd Ha. wp_simpl. eapply wp_mono; [by apply wp_update_state| |done].
  intros _ s1 (t' & p' & ->). unfold get_enrollment_by_id. wp_simpl.
  destruct (view_after_update id new t' p' d s Hd) as [v ->]. exists d, t', p'. done.
Qed.

Lemma wp_approval id new u s :
  wp (update_enrollment_approval id new u)
    (λ _ s', approval_post id new u s s') (λ _ s', s' = s) s.
Proof.
  unfold update_enrollment_approval, get_enrollment_by_id. wp_simpl.
  destruct (enrollment_view_of id s) as [d|] eqn:Hd; [|done]. wp_simpl.
  set (sid := en_student (ew_row d)).
  assert (wp (if has_role u "parent" then can_parent_approve_for_student sid (parse_id (cu_id u))
              else mret false) (λ b s', s' = s ∧ (b = true ↔ approves_for u sid s))
            (λ _ s', s' = s) s) as Hcan.
  { unfold approves_for. destruct (has_role u "parent").
    - apply wp_can_approve; [|done]. intros b Hb. rewrite parse_id_idempotent in Hb.
      split; [done|]. rewrite Hb. naive_solver.
    - rewrite wp_ret. split; [done|]. split; [done|]. by intros [? _]. }
  eapply wp_mono; [exact Hcan| |done]. intros b s1 [-> Hb]. rewrite wp_bind.
  apply wp_readonly; [| |done].
  { intros s0. destruct (_ && _); [apply readonly_linked|apply preserves_ret]. }
  intros linked. rewrite wp_bind. destruct b.
  - unfold parent_decision. wp_simpl. case_bool_decide as Hcur; [|done]. wp_simpl.
    destruct (mem new _) eqn:Hmem; [|done]. wp_simpl. rewrite <-wp_bind.
    apply (wp_finish_approval _ _ _ _ _ d); [done|]. left. split; [by apply Hb|]. by split; [|apply mem_true].
  - destruct (has_role u "teacher") eqn:Ht.
    + unfold teacher_decision. wp_simpl. case_bool_decide as Hme; [|done]. wp_simpl.
      destruct (negb _); [|done]. wp_simpl. case_bool_decide as Hcur; [|done]. wp_simpl.
      destruct (mem new _) eqn:Hmem; [|done]. wp_simpl. rewrite <-wp_bind.
      apply (wp_finish_approval _ _ _ _ _ d); [done|]. right. split; [by intros ?%Hb|].
      split_and!; try done. by apply mem_true.
    + by destruct linked.
Qed.

(** C34: the order of approvals. A decision on an enrollment is recorded
    only as one of two moves: a linked parent who may approve for the student
    turns "requested_by_student" into "approved_by_parent" or
    "rejected_by_parent"; a teacher who created the event (and is not such a
    parent) turns "approved_by_parent" into "approved_by_teacher" or
    "rejected_by_teacher". Nothing but that enrollment's state and deciders
    changes, and a refused decision changes nothing. *)
Theorem approvals_in_order id new u s :
  match update_enrollment_approval id new u s with
  | (Ok _, s') =>
      ∃ d t p, enrollment_view_of id s = Some d ∧
        ((approves_for u (en_student (ew_row d)) s ∧
          en_state (ew_row d) = "requested_by_student" ∧
          new ∈ ["approved_by_parent"; "rejected_by_parent"]) ∨
         (¬ approves_for u (en_student (ew_row d)) s ∧ has_role u "teacher" = true ∧
          parse_id (cu_id u) = PInt (ev_created_by (ew_event d)) ∧
          en_state (ew_row d) = "approved_by_parent" ∧
          new ∈ ["approved_by_teacher"; "rejected_by_teacher"])) ∧
        s' = s <| enrollments ::= <[id := (ew_row d) <| en_state := new |>
                                     <| en_teacher := t |> <| en_parent := p |>]> |>
  | (Raise _, s') => s' = s
  end.
Proof.
  generalize (wp_approval id new u s). unfold wp.
  by destruct (update_enrollment_approval id new u s) as [[v|e] s'].
Qed.

(** ** Cancellations *)
Lemma view_inv id s d :
  enrollment_view_of id s = Some d →
  enrollments s !! id = Some (ew_row d) ∧ event_class_map s !! en_ecm (ew_row d) = Some (ew_map d) ∧
  is_Some (classes s !! ecm_class (ew_map d)).
Proof.
  unfold enrollment_view_of. intros Hd.
  destruct (enrollments s !! id) as [e|]; cbn in Hd; [|done].
  destruct (students s !! en_student e); cbn in Hd; [|done].
  destruct (event_class_map s !! en_ecm e) as [m|] eqn:E2; cbn in Hd; [|done].
  destruct (classes s !! ecm_class m) eqn:E3; cbn in Hd; [|done].
  destruct (events s !! ecm_event m) eqn:E4; cbn in Hd; [|done]. by injection Hd as <-; eauto.
Qed.

Lemma readonly_may_cancel sid uid roles : readonly (may_cancel sid uid roles).
Proof.
  intros s0. unfold may_cancel, can_parent_approve_for_student.
  repeat case_match; preserve. unfold lift. by case_match; intros s ->.
Qed.

(** What a cancellation removes. *)
Definition cancelled (id : Z) (s : TenantDB) : TenantDB :=
  s <| enrollments ::= delete id |>
    <| payments ::= delete_where (λ _ p, pm_enrollment p =? id) |>.

Definition unpaid (id : Z) (s : TenantDB) : Prop :=
  ∀ i p, payment_of id s = Some (i, p) → pm_status p ≠ "paid".

Definition cancel_post (id : Z) (uid : pyid) (role : role_arg) (s s' : TenantDB) : Prop :=
  ∃ d c h s1, enrollment_view_of id s = Some d ∧
    may_cancel (en_student (ew_row d)) uid (role_set role) s = (Ok tt, s) ∧ unpaid id s ∧
    classes s !! ecm_class (ew_map d) = Some c ∧ cl_head c = Some h ∧
    sent (ecm_event (ew_map d)) [h] s s1 ∧ nextid s ≤ nextid s1 ∧ s' = cancelled id s1.

Lemma notify_nextid eid title rid s :
  wp (notify eid title rid) (λ _ s', nextid s ≤ nextid s') (λ _ _, True) s.
Proof.
  unfold notify, create_notification. wp_simpl.
  eapply wp_mono; [by apply (preserves_bind_bigint_not_null (λ s', s' = s))| |done].
  intros r s1 ->. wp_simpl. apply wp_readonly; [apply readonly_check|intros _|done]. wp_simpl.
  apply wp_readonly; [apply readonly_check_fk|intros _|done]. wp_simpl.
  apply wp_readonly; [apply readonly_check_fk|intros _|done]. wp_simpl. cbn. lia.
Qed.

Lemma wp_run_eq {A} (m : DB A) s :
  readonly m → wp m (λ a s', s' = s ∧ m s = (Ok a, s)) (λ _ s', s' = s) s.
Proof.
  intros Hm. pose proof (readonly_run m s Hm) as H. unfold wp.
  by destruct (m s) as [[a|e] s']; cbn in H; subst.
Qed.

Lemma wp_cancel id uid role s :
  wp (cancel_enrollment id uid role) (λ _ s', cancel_post id uid role s s') (λ _ s', s' = s) s.
Proof.
  unfold cancel_enrollment, get_enrollment_by_id, get_payment_by_enrollment,
    get_class_map_by_id, get_class_by_id. wp_simpl.
  destruct (enrollment_view_of id s) as [d|] eqn:Hd; [|done]. wp_simpl.
  destruct (view_inv _ _ _ Hd) as (He & Hm & [c Hc]).
  eapply wp_mono; [by apply wp_run_eq, readonly_may_cancel| |done].
  intros [] s1 [-> Hmay]. wp_simpl. destruct (payment_unpaid (payment_of id s)) eqn:Hp; [|done].
  wp_simpl. rewrite Hm. wp_simpl. rewrite Hc. wp_simpl.
  unfold head_of. destruct (cl_head c) as [h|] eqn:Hh; [|done].
  rewrite <-wp_bind.
  eapply wp_mono; [apply wp_conj; [apply (wp_notify (ecm_event (ew_map d)) (cancel_title d) h)|]| |].
  - apply (notify_nextid (ecm_event (ew_map d)) (cancel_title d) h).
  - intros _ s2 [Hs2 Hn]. unfold delete_enrollment. wp_simpl. exists d, c, h, s2.
    split_and!; try done. intros i p Hip. rewrite Hip in Hp. cbn in Hp.
    by case_bool_decide.
  - by intros e s2 [-> _].
Qed.

(** Cancelling an enrollment. It succeeds only for staff, a parent who
    may approve for the student or the student, while no payment of the
    enrollment is paid, and in a class that has a head teacher (the head is
    notified first): then exactly the enrollment and its payments go. In
    every other case, a class without a head teacher included, nothing
    changes. *)
Theorem cancel_enrollment_outcome id uid role s :
  match cancel_enrollment id uid role s with
  | (Ok _, s') =>
      ∃ d c h s1, enrollment_view_of id s = Some d ∧
        may_cancel (en_student (ew_row d)) uid (role_set role) s = (Ok tt, s) ∧ unpaid id s ∧
        classes s !! ecm_class (ew_map d) = Some c ∧ cl_head c = Some h ∧
        sent (ecm_event (ew_map d)) [h] s s1 ∧
        s' = s1 <| enrollments ::= delete id |>
                <| payments ::= delete_where (λ _ p, pm_enrollment p =? id) |>
  | (Raise _, s') => s' = s
  end.
Proof.
  generalize (wp_cancel id uid role s). unfold wp.
  destruct (cancel_enrollment id uid role s) as [[[]|e] s']; [|done].
  intros (d & c & h & s1 & H1 & H2 & H3 & H4 & H5 & H6 & _ & H7). by exists d, c, h, s1.
Qed.

(** ** One enrollment per student and event, one payment per enrollment *)
Record enrollment_inv (s : TenantDB) : Prop := {
  one_enrollment : ∀ i j a b m n,
    enrollments s !! i = Some a → enrollments s !! j = Some b →
    event_class_map s !! en_ecm a = Some m → event_class_map s !! en_ecm b = Some n →
    en_student a = en_student b → ecm_event m = ecm_event n → i = j;
  one_payment : ∀ i j p q,
    payments s !! i = Some p → payments s !! j = Some q →
    pm_enrollment p = pm_enrollment q → i = j;
  payment_has_enrollment : ∀ i p,
    payments s !! i = Some p → is_Some (enrollments s !! pm_enrollment p);
  enrollment_ids : ids_below (nextid s) (enrollments s) }.

Lemma inv_enrolled e m s :
  event_class_map s !! en_ecm e = Some m → event_enrollments (en_student e) (ecm_event m) s = [] →
  enrollment_inv s → enrollment_inv (enrolled e s).
Proof.
  intros Hm Hno [H1 H2 H3 H4].
  assert (∀ k b n, enrollments s !! k = Some b → event_class_map s !! en_ecm b = Some n →
    en_student b = en_student e → ecm_event n = ecm_event m → False) as Hnone.
  { intros k b n Hk Hn Hs He. assert ((k, b) ∈ ([] : list (Z * enrollment_row))) as Hin; [|set_solver].
    rewrite <-Hno. unfold event_enrollments. apply elem_of_by_id, elem_of_select.
    split; [done|]. rewrite Hn. simpl. lia. }
  constructor; cbn.
  - intros i j a b m1 m2 Ha Hb Hm1 Hm2 Hs He.
    apply lookup_insert_Some in Ha as [[<- <-]|[Hi Ha]];
      apply lookup_insert_Some in Hb as [[<- <-]|[Hj Hb]]; [done| | |by eapply H1].
    + exfalso. apply (Hnone _ _ _ Hb Hm2); congruence.
    + exfalso. apply (Hnone _ _ _ Ha Hm1); congruence.
  - done.
  - intros i p Hp. apply lookup_insert_is_Some. destruct (decide (nextid s = pm_enrollment p)); [by left|].
    right. eauto.
  - apply ids_below_insert; [|lia]. eapply ids_below_mono; [exact H4|lia].
Qed.

Lemma inv_billed price e s s' :
  enrollment_inv s → enrollment_inv (enrolled e s) →
  billed price (nextid s) (enrolled e s) s' → enrollment_inv s'.
Proof.
  intros [_ _ F1 F2] [H1 H2 H3 H4]. unfold billed.
  destruct (0 <? price); [|by intros ->]. intros (c & _ & ->).
  assert (∀ k q, payments s !! k = Some q → pm_enrollment q = nextid s → False) as Hnone.
  { intros k q Hk Hq. specialize (F2 _ (F1 k q Hk)). lia. }
  constructor; cbn in *.
  - done.
  - intros i j p q Hp Hq Hpq.
    apply lookup_insert_Some in Hp as [[<- <-]|[Hi Hp]];
      apply lookup_insert_Some in Hq as [[<- <-]|[Hj Hq]]; [done| | |by eapply H2].
    + exfalso. eapply Hnone; [exact Hq|]. by rewrite <-Hpq.
    + exfalso. eapply Hnone; [exact Hp|]. by rewrite Hpq.
  - intros i p [[<- <-]|[Hi Hp]]%lookup_insert_Some; [|by eapply H3]. cbn.
    rewrite lookup_insert_eq. eauto.
  - eapply ids_below_mono; [exact H4|lia].
Qed.

Lemma enroll_inv sid ecm state tid pid : preserves enrollment_inv (enroll_student sid ecm state tid pid).
Proof.
  intros s Hs.
  assert (∀ t p, may_enroll sid ecm s → enrollment_inv (enrolled {| en_student := sid;
    en_ecm := ecm; en_state := state; en_teacher := t; en_parent := p |} s)) as Hnew.
  { intros t p (m & ev & st & Hm & _ & _ & _ & _ & Hno). by apply (inv_enrolled _ m). }
  eapply wp_mono; [apply wp_enroll_student| |].
  - intros id s' [[-> _]|(Hmay & -> & m & t & p & _ & Hb)]; [done|]. specialize (Hnew t p Hmay).
    cbn in Hb. destruct (has_row _ _); [|by subst]. eapply inv_billed; [exact Hs|exact Hnew|exact Hb].
  - intros e s' [->|(Hmay & _ & t & p & ->)]; [done|]. by apply Hnew.
Qed.

Lemma inv_update id new t p d s :
  enrollment_view_of id s = Some d → enrollment_inv s →
  enrollment_inv (s <| enrollments ::= <[id := (ew_row d) <| en_state := new |>
                       <| en_teacher := t |> <| en_parent := p |>]> |>).
Proof.
  intros (He & _ & _)%view_inv [H1 H2 H3 H4].
  assert (∀ k a, <[id := (ew_row d) <| en_state := new |> <| en_teacher := t |>
    <| en_parent := p |>]> (enrollments s) !! k = Some a → ∃ a', enrollments s !! k = Some a' ∧
    en_student a' = en_student a ∧ en_ecm a' = en_ecm a) as Hold.
  { intros k a [[<- <-]|[Hk Ha]]%lookup_insert_Some; [by exists (ew_row d)|by exists a]. }
  constructor; cbn; [| done | |].
  - intros i j a b m n (a' & Ha & Hsa & Hma)%Hold (b' & Hb & Hsb & Hmb)%Hold Hm Hn Hs He'.
    eapply (H1 i j a' b' m n); congruence.
  - intros i q Hq. apply lookup_insert_is_Some.
    destruct (decide (id = pm_enrollment q)); [by left|right; eauto].
  - apply ids_below_insert; [done|]. apply H4. by rewrite He.
Qed.

Lemma inv_cancelled id eid rs s s1 :
  sent eid rs s s1 → nextid s ≤ nextid s1 → enrollment_inv s → enrollment_inv (cancelled id s1).
Proof.
  intros (new & _ & _ & ->) Hn [H1 H2 H3 H4]. cbn in Hn. constructor; cbn.
  - intros i j a b m n [_ Ha]%lookup_delete_Some [_ Hb]%lookup_delete_Some. by eapply H1.
  - intros i j p q [Hp _]%lookup_delete_where [Hq _]%lookup_delete_where. by eapply H2.
  - intros i p [Hp Hne]%lookup_delete_where. rewrite lookup_delete_ne; [eauto|].
    apply Z.eqb_neq in Hne. lia.
  - eapply ids_below_subset; [eapply ids_below_mono; [exact H4|done]|].
    intros k [a [_ Ha]%lookup_delete_Some]. by exists a.
Qed.

(** The requests on enrollments, by any user. *)
Inductive enrollment_op :=
  | Enroll (student_id event_class_map_id : Z)
  | Decide (enrollment_id : Z) (state : string)
  | Cancel (enrollment_id : Z)
  | Pay (enrollment_id : Z).

Definition run_enrollment (op : enrollment_op) (u : CurrentUser) : DB unit :=
  match op with
  | Enroll sid ecm => enroll_student_route sid ecm u ;; mret tt
  | Decide id state => update_enrollment_approval id state u ;; mret tt
  | Cancel id => cancel_enrollment_route id u
  | Pay id => pay_enrollment_route id u
  end.

Fixpoint run_enrollment_requests (reqs : list (enrollment_op * CurrentUser)) (s : TenantDB) :
    TenantDB :=
  match reqs with
  | [] => s
  | (op, u) :: reqs' => run_enrollment_requests reqs' (run_enrollment op u s).2
  end.

Lemma refused_value_preserves {A} I (m : DB A) : preserves I m → preserves I (refused_value m).
Proof. intros H. apply preserves_try_except; [done|]. intros e. apply preserves_raise. Qed.
Lemma refused_preserves {A} I (m : DB A) : preserves I m → preserves I (refused m).
Proof. intros H. apply preserves_try_except; [done|]. intros e. apply preserves_raise. Qed.

Lemma initial_decision_preserves I sid u : preserves I (initial_decision sid u).
Proof.
  unfold initial_decision, is_student_linked_to_parent, can_parent_approve_for_student, fail.
  repeat case_match; preserve.
Qed.

Lemma pay_inv id : preserves enrollment_inv (pay_enrollment id).
Proof.
  unfold pay_enrollment, get_payment_by_enrollment. preserve. apply preserves_modify.
  intros s [H1 H2 H3 H4]. constructor; cbn; [done| | |done].
  - intros i j p q. rewrite !lookup_update_where.
    intros (p' & Hp & ->)%fmap_Some (q' & Hq & ->)%fmap_Some Heq. apply (H2 i j p' q'); [done|done|].
    revert Heq. by destruct (pm_enrollment p' =? id), (pm_enrollment q' =? id).
  - intros i p. rewrite lookup_update_where. intros (p' & Hp & ->)%fmap_Some.
    apply H3 in Hp. by destruct (pm_enrollment p' =? id).
Qed.

Lemma run_enrollment_inv op u : preserves enrollment_inv (run_enrollment op u).
Proof.
  destruct op as [sid ecm|id st|id|id]; simpl.
  - apply preserves_bind; [|intros _; apply preserves_ret]. unfold enroll_student_route.
    apply preserves_bind; [apply initial_decision_preserves|]. intros d. apply refused_value_preserves.
    apply preserves_bind; [apply enroll_inv|]. intros id. unfold get_enrollment_by_id. preserve.
  - apply preserves_bind; [|intros _; apply preserves_ret]. intros s Hs.
    eapply wp_mono; [apply wp_approval| |by intros e s' ->].
    intros _ s' (d & t & p & Hd & _ & ->). by apply inv_update.
  - apply preserves_bind; [apply preserves_guard_or|intros _]. apply refused_preserves. intros s Hs.
    eapply wp_mono; [apply wp_cancel| |by intros e s' ->].
    intros _ s' (d & c & h & s1 & _ & _ & _ & _ & _ & Hsent & Hn & ->). by eapply inv_cancelled.
  - apply preserves_bind; [apply preserves_guard_or|intros _]. apply preserves_try_except.
    + apply preserves_bind; [apply pay_inv|intros b; apply preserves_guard_or].
    + intros e. unfold answer. preserve.
Qed.

(** C13: enrollments stay consistent. Through any sequence of enrollment,
    approval, cancellation and payment requests by any users, failed ones
    included, a student has at most one enrollment per event (whatever the
    class mappings), an enrollment has at most one payment, and no payment is
    left without its enrollment. *)
Theorem enrollments_stay_consistent reqs s :
  enrollment_inv s → enrollment_inv (run_enrollment_requests reqs s).
Proof.
  revert s. induction reqs as [|[op u] reqs IH]; intros s Hs; simpl; [done|].
  apply IH. apply preserves_run; [apply run_enrollment_inv|done].
Qed.

Lemma enrollments_stay_consistent_witness :
  enrollment_inv (run_enrollment_requests
    [(Enroll 31 51, demo_actor "31" "student"); (Decide 100 "approved_by_parent", demo_actor "8" "parent");
     (Decide 100 "approved_by_teacher", demo_actor "7" "teacher"); (Cancel 100, demo_actor "8" "parent")]
    demo_db).
Proof.
  apply (enrollments_stay_consistent
    [(Enroll 31 51, demo_actor "31" "student"); (Decide 100 "approved_by_parent", demo_actor "8" "parent");
     (Decide 100 "approved_by_teacher", demo_actor "7" "teacher"); (Cancel 100, demo_actor "8" "parent")]
    demo_db).
  constructor.
  - intros i j a b m n Ha. change ((∅ : gmap Z enrollment_row) !! i = Some a) in Ha. by rewrite lookup_empty in Ha.
  - intros i j p q Hp. change ((∅ : gmap Z payment_row) !! i = Some p) in Hp. by rewrite lookup_empty in Hp.
  - intros i p Hp. change ((∅ : gmap Z payment_row) !! i = Some p) in Hp. by rewrite lookup_empty in Hp.
  - intros k [a Ha]. change ((∅ : gmap Z enrollment_row) !! k = Some a) in Ha. by rewrite lookup_empty in Ha.
Defined.

(** The four requests of the witness succeed, in this order. *)
Example enrollment_round :
  let s1 := (run_enrollment (Enroll 31 51) (demo_actor "31" "student") demo_db).2 in
  let s2 := (run_enrollment (Decide 100 "approved_by_parent") (demo_actor "8" "parent") s1).2 in
  let s3 := (run_enrollment (Decide 100 "approved_by_teacher") (demo_actor "7" "teacher") s2).2 in
  (en_state <$> enrollments s1 !! 100, en_state <$> enrollments s2 !! 100,
   en_state <$> enrollments s3 !! 100,
   enrollments (run_enrollment (Cancel 100) (demo_actor "8" "parent") s3).2 !! 100)
  = (Some "requested_by_student", Some "approved_by_parent", Some "approved_by_teacher", None).
Proof. by vm_compute. Qed.
