(* ===== verification/Listings.v ===== *)
(** * Listings

    The read-only queries of [TenantRepository]
    (src/app/domains/tenant/tenant_repository.py) on teachers, parents,
    students, years, enrollments and payments, and the services that combine
    them, [get_enrollments_for_user] above all: who sees which enrollments.

    Rows without ORDER BY come in the order of their ids; rows with one are
    sorted stably from there. The foreign keys make every inner join find its
    row, but the joins are written out. *)
From Stdlib Require Import Ascii String.
From stdpp Require Import gmap.
From S2P Require Import Prelude PyText Authz Store AcademicRepo EventRepo Demo AcademicSvc EventRules EventLifecycle Resources EventSvc Enrollment.

(** ** People *)
Record teacher_view := { tv_id : Z; tv_name : string; tv_email : string }.
Definition teacher_view_of (id : Z) (s : TenantDB) : option teacher_view :=
  name ← teachers s !! id;
  u ← users s !! id;
  Some {| tv_id := id; tv_name := name; tv_email := us_email u |}.

Record parent_view := { pv_id : Z; pv_name : string; pv_phone : option string; pv_email : string }.
Definition parent_view_of (id : Z) (s : TenantDB) : option parent_view :=
  name ← parenets s !! id;
  u ← users s !! id;
  Some {| pv_id := id; pv_name := name; pv_phone := us_phone u; pv_email := us_email u |}.

Record student_view := {
  sv_id : Z; sv_row : student_row; sv_email : string; sv_class_name : option string }.
Definition student_view_of (id : Z) (s : TenantDB) : option student_view :=
  st ← students s !! id;
  u ← users s !! id;
  Some {| sv_id := id; sv_row := st; sv_email := us_email u;
          sv_class_name := cl_name <$> (st_class st ≫= λ c, classes s !! c) |}.

Definition keys_of {R} (t : gmap Z R) : list Z := fst <$> by_id (map_to_list t).

(** [fetchrow ... WHERE id = $1] *)
Definition fetch_by_id {V} (view : Z → TenantDB → option V) (id : pyid) : DB (option V) :=
  o ← bind_bigint id;
  gets (λ s, o ≫= λ n, view n s).
Definition get_teacher_by_id : pyid → DB (option teacher_view) := fetch_by_id teacher_view_of.
Definition get_parent_by_id : pyid → DB (option parent_view) := fetch_by_id parent_view_of.
Definition get_student_by_id : pyid → DB (option student_view) := fetch_by_id student_view_of.
Definition get_student_by_user_id (user_id : pyid) : DB (option student_view) := get_student_by_id user_id.

Definition named_le {V} (name : V → string) (a b : V) : Prop := String.leb (name a) (name b) = true.
#[export] Instance named_le_dec {V} (name : V → string) a b : Decision (named_le name a b).
Proof. unfold named_le. apply _. Defined.

(** [WHERE u.email = $1]: emails are unique. *)
Definition get_parent_by_email (email : string) : DB (option parent_view) :=
  gets (λ s, head (List.filter (λ p, bool_decide (pv_email p = email))
    (omap (λ i, parent_view_of i s) (keys_of (parenets s))))).
Definition get_all_parents : DB (list parent_view) :=
  gets (λ s, merge_sort (named_le pv_name) (omap (λ i, parent_view_of i s) (keys_of (parenets s)))).
Definition get_all_teachers : DB (list teacher_view) :=
  gets (λ s, merge_sort (named_le tv_name) (omap (λ i, teacher_view_of i s) (keys_of (teachers s)))).

(** The links of a student or of a parent, in id order. *)
Definition parents_linked (student_id : Z) (s : TenantDB) : list (Z * parent_link) :=
  by_id (omap (λ kv : Z * Z * parent_link, if kv.1.1 =? student_id then Some (kv.1.2, kv.2) else None)
    (map_to_list (student_parent_map s))).
Definition contacts_of (student_id : Z) (s : TenantDB) : list (parent_view * parent_link) :=
  omap (λ pl : Z * parent_link, (λ v, (v, pl.2)) <$> parent_view_of pl.1 s) (parents_linked student_id s).

(** The parents are the JSON aggregate of the links. *)
Definition get_all_students : DB (list (student_view * list (parent_view * parent_link))) :=
  gets (λ s, (λ v, (v, contacts_of (sv_id v) s)) <$>
    merge_sort (named_le (λ v, st_name (sv_row v))) (omap (λ i, student_view_of i s) (keys_of (students s)))).

Fixpoint join (sep : string) (l : list string) : string :=
  match l with [] => "" | [x] => x | x :: l => x +:+ sep +:+ join sep l end.
(** [string_agg(p.name, ', ')] *)
Definition parent_names (student_id : Z) (s : TenantDB) : string :=
  join ", " (omap (λ pl : Z * parent_link, parenets s !! pl.1) (parents_linked student_id s)).
Definition get_students_for_class (class_id : Z) : DB (list (student_view * string)) :=
  gets (λ s, (λ v, (v, parent_names (sv_id v) s)) <$>
    merge_sort (named_le (λ v, st_name (sv_row v)))
      (List.filter (λ v, bool_decide (st_class (sv_row v) = Some class_id))
         (omap (λ i, student_view_of i s) (keys_of (students s))))).

Definition get_linked_students_for_parent (parent_id : pyid) : DB (list student_view) :=
  bind_bigint parent_id ;;
  gets (λ s, omap (λ i, student_view_of i s) (linked_students parent_id s)).

(** ORDER BY m.is_primary_contact DESC, p.id ASC LIMIT 1 *)
Definition primary_first (l : list (parent_view * parent_link)) : option parent_view :=
  match List.find (λ c : parent_view * parent_link, pl_primary c.2) l with
  | Some c => Some c.1
  | None => fst <$> head l
  end.
Definition get_parent_for_student (student_id : pyid) : DB (option parent_view) :=
  o ← bind_bigint student_id;
  gets (λ s, o ≫= λ n, primary_first (contacts_of n s)).
Definition get_parent_email_for_student (student_id : pyid) : DB (option string) :=
  p ← get_parent_for_student student_id;
  mret (pv_email <$> p).

(** ORDER BY changed_at, id: the order in which the log was written. *)
Record history_view := { hv_row : history_row; hv_old_name : option string; hv_new_name : option string }.
Definition history_view_of (s : TenantDB) (h : history_row) : history_view :=
  let name o := cl_name <$> (o ≫= λ c, classes s !! c) in
  {| hv_row := h; hv_old_name := name (hi_old h); hv_new_name := name (hi_new h) |}.
Definition get_class_history (student_id : Z) : DB (list history_view) :=
  gets (λ s, history_view_of s <$> List.filter (λ h, hi_student h =? student_id) (class_history s)).

(** ORDER BY id DESC *)
Definition get_all_academic_years : DB (list (Z * year_row)) :=
  gets (λ s, rev (by_id (map_to_list (academic_years s)))).

(** ** Enrollments and payments *)
Definition listed : Type := Z * enrollment_view.
(** The rows of the join that satisfy [P]. *)
Definition enrollments_where (P : Z → enrollment_view → bool) (s : TenantDB) : list listed :=
  omap (λ i, v ← enrollment_view_of i s; if P i v then Some (i, v) else None) (keys_of (enrollments s)).

Definition has_user_row (s : TenantDB) (v : enrollment_view) : bool := has_row (users s) (en_student (ew_row v)).

Definition get_enrollments_for_teacher (teacher_id : pyid) : DB (list listed) :=
  o ← bind_bigint teacher_id;
  gets (λ s, enrollments_where (λ _ v, has_user_row s v && bool_decide (Some (ev_created_by (ew_event v)) = o)
    && negb (bool_decide (en_state (ew_row v) = "rejected_by_parent"))) s).
Definition get_all_enrollments : DB (list listed) :=
  gets (λ s, enrollments_where (λ _ v, has_user_row s v
    && negb (mem (en_state (ew_row v)) ["requested_by_student"; "rejected_by_parent"])) s).
Definition get_enrollments_for_parent (parent_id : pyid) : DB (list listed) :=
  o ← bind_bigint parent_id;
  gets (λ s, enrollments_where (λ _ v, bool_decide (is_Some (link_of (en_student (ew_row v)) o s))) s).
Definition get_enrollments_for_student (student_id : pyid) : DB (list listed) :=
  o ← bind_bigint student_id;
  gets (λ s, enrollments_where (λ _ v, bool_decide (Some (en_student (ew_row v)) = o)) s).

(** ORDER BY created_at DESC, the first per enrollment kept: payments are
    created in the order of their ids. *)
Definition newest_payment (enrollment_id : Z) (s : TenantDB) : option payment_row :=
  snd <$> last (by_id (select (λ _ p, pm_enrollment p =? enrollment_id) (payments s))).
Definition get_payments_by_enrollment_ids (enrollment_ids : list Z) : DB (gmap Z payment_row) :=
  gets (λ s, list_to_map (omap (λ i, (λ p, (i, p)) <$> newest_payment i s) enrollment_ids)).

(** Rows whose id is not among the results yet, appended in order. *)
Definition add_rows (results enrolls : list listed) : list listed :=
  fold_left (λ acc e, if bool_decide (e.1 ∈ acc.*1) then acc else acc ++ [e]) enrolls results.

Definition get_enrollments_for_user (user_id : pyid) (user_role : role_arg) : DB (list listed) :=
  let roles := role_set user_role in
  staff ← (if has_one_of roles ["school_admin"; "super_admin"] then get_all_enrollments
           else if mem "teacher" roles then get_enrollments_for_teacher user_id
           else mret []);
  children ← (if mem "parent" roles then get_enrollments_for_parent user_id else mret []);
  own ← (if mem "student" roles then get_enrollments_for_student user_id else mret []);
  mret (add_rows (add_rows (add_rows [] staff) children) own).

(** ** Who sees which enrollments *)
(** What a listing is meant to contain, without the order of the branches:
    a school's administrators what goes beyond a student's request and no
    parent rejected, teachers what their own trips got and no parent rejected,
    both only while the student has an account; parents what concerns a linked
    child, students their own. *)
Inductive sees (uid : pyid) (roles : list string) (s : TenantDB) (v : enrollment_view) : Prop :=
  | SeesAll : has_one_of roles ["school_admin"; "super_admin"] = true → has_user_row s v = true →
      en_state (ew_row v) ∉ ["requested_by_student"; "rejected_by_parent"] → sees uid roles s v
  | SeesOwnTrip n : has_one_of roles ["school_admin"; "super_admin"] = false → "teacher" ∈ roles →
      has_user_row s v = true → parse_id uid = PInt n → ev_created_by (ew_event v) = n →
      en_state (ew_row v) ≠ "rejected_by_parent" → sees uid roles s v
  | SeesChild n : "parent" ∈ roles → parse_id uid = PInt n →
      is_Some (student_parent_map s !! (en_student (ew_row v), n)) → sees uid roles s v
  | SeesSelf n : "student" ∈ roles → parse_id uid = PInt n → en_student (ew_row v) = n → sees uid roles s v.

Lemma keys_of_spec {R} (t : gmap Z R) i : i ∈ keys_of t ↔ is_Some (t !! i).
Proof.
  unfold keys_of. rewrite list_elem_of_fmap. split.
  - intros ([k r] & -> & H%elem_of_by_id%elem_of_map_to_list). by exists r.
  - intros [r Hr]. exists (i, r). split; [done|]. by apply elem_of_by_id, elem_of_map_to_list.
Qed.

Lemma view_row i s v : enrollment_view_of i s = Some v → is_Some (enrollments s !! i).
Proof. unfold enrollment_view_of. destruct (enrollments s !! i); [by eexists|done]. Qed.

Lemma enrollments_where_spec P s i v :
  (i, v) ∈ enrollments_where P s ↔ enrollment_view_of i s = Some v ∧ P i v = true.
Proof.
  unfold enrollments_where. rewrite list_elem_of_omap. split.
  - intros (j & _ & H). apply bind_Some in H as (w & Hw & H). destruct (P j w) eqn:HP; [|done].
    by injection H as -> ->.
  - intros [Hv HP]. exists i. split; [by apply keys_of_spec, view_row with v|]. rewrite Hv. cbn. by rewrite HP.
Qed.

Lemma where_elem P s e : e ∈ enrollments_where P s → enrollment_view_of e.1 s = Some e.2.
Proof. destruct e as [i v]. by intros [H _]%enrollments_where_spec. Qed.

(** The union keeps one row per enrollment and loses none. *)
Definition consistent (s : TenantDB) (l : list listed) : Prop := ∀ e, e ∈ l → enrollment_view_of e.1 s = Some e.2.

Lemma add_rows_spec s acc new :
  consistent s acc → consistent s new → NoDup acc.*1 →
  NoDup (add_rows acc new).*1 ∧ consistent s (add_rows acc new) ∧ ∀ e, e ∈ add_rows acc new ↔ e ∈ acc ∨ e ∈ new.
Proof.
  unfold add_rows. revert acc. induction new as [|[i v] new IH]; intros acc Ha Hn Hnd; cbn [fold_left].
  { split_and!; [done..|]. intros e. split; [by left|]. intros [?|H]; [done|by apply elem_of_nil in H]. }
  assert (consistent s new) as Hn' by (intros e He; apply Hn; by right). cbn [fst].
  case_bool_decide as Hin.
  - destruct (IH acc Ha Hn' Hnd) as (H1 & H2 & H3). split_and!; [done..|]. intros e. rewrite H3, elem_of_cons.
    split; [tauto|]. intros [?|[-> |?]]; [by left| |by right]. left.
    apply list_elem_of_fmap in Hin as ([i' v'] & Heq & Hin). cbn in Heq. subst i'.
    pose proof (Ha _ Hin) as H. pose proof (Hn (i, v) (list_elem_of_here _ _)) as H'. cbn in *. by rewrite H in H'; injection H' as ->.
  - destruct (IH (acc ++ [(i, v)])) as (H1 & H2 & H3).
    + intros e [He|He%list_elem_of_singleton]%elem_of_app; [by apply Ha|]. apply Hn. rewrite He. left.
    + done.
    + rewrite fmap_app. cbn. apply NoDup_app. split_and!; [done| |apply NoDup_singleton].
      intros x Hx Hxi%list_elem_of_singleton. by subst.
    + split_and!; [done..|]. intros e. rewrite H3, elem_of_app, elem_of_cons, list_elem_of_singleton. tauto.
Qed.

(** An id that a BIGINT parameter takes; NULL is one. *)
Definition usable_id (uid : pyid) : bool :=
  match parse_id uid with PInt n => in_int8 n | PNone => true | _ => false end.
Definition unusable (uid : pyid) (s s' : TenantDB) : Prop := s' = s ∧ usable_id uid = false.

Lemma wp_query (uid : pyid) (P : option Z → TenantDB → Z → enrollment_view → bool) s (Q : list listed → TenantDB → Prop) :
  (∀ o, (o = match parse_id uid with PInt n => Some n | _ => None end) → Q (enrollments_where (P o s) s) s) →
  wp (o ← bind_bigint uid; gets (λ s, enrollments_where (P o s) s)) Q (λ _, unusable uid s) s.
Proof.
  intros HQ. unfold unusable, usable_id. wp_simpl. unfold bind_bigint. destruct (parse_id uid) as [n| | |]; wp_simpl; [|done|done|by apply HQ].
  unfold check. fold (in_int8 n). destruct (in_int8 n); wp_simpl; [by apply HQ|done].
Qed.

(** The rows of a query are the ones a condition on the view describes. *)
Definition rows_are (s : TenantDB) (S : enrollment_view → Prop) (l : list listed) (s' : TenantDB) : Prop :=
  s' = s ∧ ∀ e, e ∈ l ↔ enrollment_view_of e.1 s = Some e.2 ∧ S e.2.

Lemma rows_where s P (S : enrollment_view → Prop) :
  (∀ i v, P i v = true ↔ S v) → rows_are s S (enrollments_where P s) s.
Proof. intros H. split; [done|]. intros [i v]. rewrite enrollments_where_spec. cbn. by rewrite H. Qed.

Lemma rows_none s (S : enrollment_view → Prop) : (∀ v, ¬ S v) → rows_are s S [] s.
Proof. intros H. split; [done|]. intros e. rewrite elem_of_nil. split; [done|]. intros [_ He]. by apply H in He. Qed.

Section listing.
Context (uid : pyid) (role : role_arg) (s : TenantDB).
Abbreviation roles := (role_set role).
Abbreviation admin := (has_one_of roles ["school_admin"; "super_admin"]).

Lemma staff_rows :
  wp (if admin then get_all_enrollments else if mem "teacher" roles then get_enrollments_for_teacher uid else mret [])
    (rows_are s (λ v,
       (admin = true ∧ has_user_row s v = true ∧ en_state (ew_row v) ∉ ["requested_by_student"; "rejected_by_parent"]) ∨
       (admin = false ∧ "teacher" ∈ roles ∧ has_user_row s v = true ∧ parse_id uid = PInt (ev_created_by (ew_event v)) ∧
        en_state (ew_row v) ≠ "rejected_by_parent")))
    (λ _, unusable uid s) s.
Proof.
  destruct admin eqn:Ha.
  - unfold get_all_enrollments. wp_simpl. apply rows_where. intros i v. rewrite andb_true_iff, negb_true_iff, mem_false. naive_solver.
  - destruct (mem "teacher" roles) eqn:Ht; [apply mem_true in Ht|apply mem_false in Ht].
    + apply wp_query. intros o Ho. apply rows_where. intros i v.
      rewrite !andb_true_iff, negb_true_iff, bool_decide_eq_true, bool_decide_eq_false, Ho.
      destruct (parse_id uid); naive_solver.
    + wp_simpl. apply rows_none. naive_solver.
Qed.

Lemma child_rows :
  wp (if mem "parent" roles then get_enrollments_for_parent uid else mret [])
    (rows_are s (λ v, "parent" ∈ roles ∧ ∃ n, parse_id uid = PInt n ∧ is_Some (student_parent_map s !! (en_student (ew_row v), n))))
    (λ _, unusable uid s) s.
Proof.
  destruct (mem "parent" roles) eqn:Ht; [apply mem_true in Ht|apply mem_false in Ht].
  - unfold get_enrollments_for_parent. apply (wp_query uid (λ o s _ v, bool_decide (is_Some (link_of (en_student (ew_row v)) o s)))).
    intros o Ho. apply rows_where. intros i v. rewrite bool_decide_eq_true, Ho. unfold link_of.
    destruct (parse_id uid) as [n| | |]; cbn; try (split; [by intros [? ?]|naive_solver]). naive_solver.
  - wp_simpl. apply rows_none. naive_solver.
Qed.

Lemma own_rows :
  wp (if mem "student" roles then get_enrollments_for_student uid else mret [])
    (rows_are s (λ v, "student" ∈ roles ∧ parse_id uid = PInt (en_student (ew_row v)))) (λ _, unusable uid s) s.
Proof.
  destruct (mem "student" roles) eqn:Ht; [apply mem_true in Ht|apply mem_false in Ht].
  - apply wp_query. intros o Ho. apply rows_where. intros i v. rewrite bool_decide_eq_true, Ho.
    destruct (parse_id uid); naive_solver.
  - wp_simpl. apply rows_none. naive_solver.
Qed.

Lemma wp_enrollments_for_user :
  wp (get_enrollments_for_user uid role)
    (λ l s', s' = s ∧ NoDup l.*1 ∧ ∀ i v, (i, v) ∈ l ↔ enrollment_view_of i s = Some v ∧ sees uid roles s v)
    (λ _, unusable uid s) s.
Proof.
  unfold get_enrollments_for_user. rewrite wp_bind. eapply wp_mono; [apply staff_rows| |done]. intros l1 ? [-> H1].
  rewrite wp_bind. eapply wp_mono; [apply child_rows| |done]. intros l2 ? [-> H2].
  rewrite wp_bind. eapply wp_mono; [apply own_rows| |done]. intros l3 ? [-> H3]. wp_simpl.
  assert (consistent s l1 ∧ consistent s l2 ∧ consistent s l3) as (C1 & C2 & C3) by (split_and!; intros e He; naive_solver).
  destruct (add_rows_spec s [] l1) as (D1 & E1 & F1); [by intros e He%elem_of_nil|done|constructor|].
  destruct (add_rows_spec s (add_rows [] l1) l2) as (D2 & E2 & F2); [done..|].
  destruct (add_rows_spec s (add_rows (add_rows [] l1) l2) l3) as (D3 & E3 & F3); [done..|].
  split; [done|]. split; [done|]. intros i v. rewrite F3, F2, F1, H1, H2, H3, elem_of_nil. cbn. split.
  - intros [[[[]|(Hv & [(?&?&?)|(?&?&?&?&?)])]|(Hv & ? & n & ? & ?)]|(Hv & ? & ?)]; (split; [exact Hv|]).
    + by apply SeesAll.
    + by eapply SeesOwnTrip.
    + by eapply SeesChild.
    + by eapply SeesSelf.
  - intros [Hv [? ? ?|n ? ? ? ? <- ?|n ? ? ?|n ? ? <-]].
    + left. left. right. split; [exact Hv|]. by left.
    + left. left. right. split; [exact Hv|]. by right.
    + left. right. split; [exact Hv|]. split; [done|]. by exists n.
    + right. by split.
Qed.
(** C23: the enrollments a user lists. Whoever asks with whatever roles:
    the answer has each enrollment once, and exactly these: for administrators
    those neither requested by the student alone nor rejected by a parent; for
    teachers who are not administrators those of the trips they created but
    the ones rejected by a parent; for parents those of linked children, for
    students their own. The listing changes nothing, and fails only for a
    user id that is no 64-bit integer. *)
Theorem enrollments_listed :
  wp (get_enrollments_for_user uid role)
    (λ l s', s' = s ∧ NoDup l.*1 ∧ ∀ i v, (i, v) ∈ l ↔ enrollment_view_of i s = Some v ∧ sees uid roles s v)
    (λ _, unusable uid s) s.
Proof. apply wp_enrollments_for_user. Qed.
End listing.

(** ** A concrete school *)
Definition demo_two_trips : TenantDB := demo_db
  <| enrollments := {[61 := {| en_student := 31; en_ecm := 51; en_state := "requested_by_student";
                               en_teacher := None; en_parent := None |};
                      62 := {| en_student := 32; en_ecm := 51; en_state := "approved_by_parent";
                               en_teacher := None; en_parent := Some 8 |}]} |>.
(** The parent of student 31 sees the request; an administrator only sees the
    one decided on. *)
Example who_sees_what :
  (let ids uid role := match (get_enrollments_for_user uid role demo_two_trips).1 with Ok l => Some l.*1 | _ => None end in
   (ids (PStr "8") (RStr "parent"), ids (PStr "5") (RStr "school_admin"), ids (PStr "7") (RList ["teacher"]),
    ids (PStr "32") (RStr "student"), ids (PStr "8") (RList ["parent"; "school_admin"])))
  = (Some [61], Some [62], Some [61; 62], Some [62], Some [62; 61]).
Proof. vm_compute. reflexivity. Qed.
