(* ===== verification/Family.v ===== *)
(** * The family overview

    [FamilyService] (src/app/domains/family/service.py) and its endpoint: the
    children and enrollments of a parent in every school of the parent's
    memberships. The schools are asked concurrently, but every statement on
    one only reads it, so the model asks them in turn; the time limit per
    school is not modelled. [can("family:overview_read")] (OPA) has run. *)
From Stdlib Require Import Ascii String.
From stdpp Require Import gmap.
From S2P Require Import Prelude PyText Authz Store AcademicRepo EventRepo Demo AcademicSvc Structure School World UserRepo Provision EventRules EventLifecycle Resources EventSvc Enrollment Listings.

Definition _MAX_MEMBERSHIPS : nat := 10.

(** [_CHILD_FIELDS] and [_ENROLLMENT_FIELDS]: what leaves a school. *)
Record child_out := { co_id : Z; co_name : string; co_class : option Z; co_class_name : option string }.
Definition child_of (v : student_view) : child_out :=
  {| co_id := sv_id v; co_name := st_name (sv_row v); co_class := st_class (sv_row v); co_class_name := sv_class_name v |}.

Record enrollment_out := {
  eo_id : Z; eo_student : Z; eo_student_name : string; eo_class_name : string; eo_map : Z; eo_title : string;
  eo_state : string; eo_price : Z; eo_date : option Z; eo_status : option string; eo_payment : option string }.

(** [map_to_event]: the last event that has the mapping wins. *)
Definition event_of_map (events : list event_view) (map_id : Z) : option event_view :=
  last (List.filter (λ ev, bool_decide (map_id ∈ mp_id <$> vw_mappings ev)) events).
Definition enrollment_of (events : list event_view) (payments : gmap Z payment_row) (e : listed) : enrollment_out :=
  let v := e.2 in
  let ev_info := event_of_map events (en_ecm (ew_row v)) in
  {| eo_id := e.1; eo_student := en_student (ew_row v); eo_student_name := st_name (ew_student v);
     eo_class_name := cl_name (ew_class v); eo_map := en_ecm (ew_row v); eo_title := ev_title (ew_event v);
     eo_state := en_state (ew_row v); eo_price := ecm_price (ew_map v);
     eo_date := (λ ev, ev_date (vw_row ev)) <$> ev_info; eo_status := (λ ev, ev_status (vw_row ev)) <$> ev_info;
     eo_payment := pm_status <$> payments !! e.1 |}.

(** One entry of [schools]; [sn_error] is [None] when its status is "ok". *)
Record section := {
  sn_tenant : string; sn_role : option string; sn_error : option string; sn_locale : option locale_summary;
  sn_children : list child_out; sn_enrollments : list enrollment_out }.

Definition _fetch_one_school (tenant_id : string) (role : option string) (email : string) : CP section :=
  summary ← with_school tenant_id get_locale_summary;
  get_db_pool tenant_id ;;
  user_row ← (if bool_decide (email = "") then mret None else in_school tenant_id (get_user_by_email email));
  match user_row with
  | None => mret {| sn_tenant := tenant_id; sn_role := role; sn_error := None; sn_locale := Some summary;
                    sn_children := []; sn_enrollments := [] |}
  | Some (local_user_id, _) =>
      children_raw ← with_school tenant_id (get_linked_students_for_parent (PInt local_user_id));
      enrollments_raw ← with_school tenant_id (get_enrollments_for_user (PInt local_user_id) (RStr "parent"));
      events_raw ← with_school tenant_id (get_events_for_user (PInt local_user_id) (RStr "parent"));
      payments ← with_school tenant_id (get_payments_by_enrollment_ids enrollments_raw.*1);
      mret {| sn_tenant := tenant_id; sn_role := role; sn_error := None; sn_locale := Some summary;
              sn_children := child_of <$> children_raw;
              sn_enrollments := enrollment_of events_raw payments <$> enrollments_raw |}
  end.

(** A failure becomes the entry of its school. *)
Definition fetch_school (email : string) (membership : string * option string) : CP section :=
  try_except (_fetch_one_school membership.1 membership.2 email)
    (λ exc, mret {| sn_tenant := membership.1; sn_role := membership.2; sn_error := Some (exn_text exc);
                    sn_locale := None; sn_children := []; sn_enrollments := [] |}).

Record overview := { ov_schools : list section; ov_degraded : list string }.

Definition is_degraded (sn : section) : bool := bool_decide (is_Some (sn_error sn)).
Definition get_overview (email : string) (memberships : list (string * option string)) : CP overview :=
  guard_or (List.length memberships <=? _MAX_MEMBERSHIPS)%nat
    (ValueError ("Too many school memberships (" +:+ pretty (List.length memberships) +:+ ") for the family overview.")) ;;
  schools ← map_each memberships (fetch_school email);
  mret {| ov_schools := schools; ov_degraded := sn_tenant <$> List.filter is_degraded schools |}.

(** GET /family/overview *)
Definition get_family_overview (current_user : CurrentUser) (memberships : list (string * option string)) : CP overview :=
  try_except (get_overview (cu_email current_user) memberships)
    (λ e, match e with ValueError m => raise (HTTPException 400 m) | _ => raise e end).

(** ** What the overview contains *)
Definition school (w : World) (t : string) : TenantDB := default empty_db (schools w !! t).

(** The sequences are ahead of the keys, a student has an account and a link
    a student (the foreign keys). *)
Record school_ok (s : TenantDB) : Prop := {
  so_fresh : fresh_keys s;
  so_account : ∀ sid, is_Some (students s !! sid) → is_Some (users s !! sid);
  so_linked : ∀ sid pid, is_Some (student_parent_map s !! (sid, pid)) → is_Some (students s !! sid) }.
Definition schools_ok (w : World) : Prop := ∀ t, school_ok (school w t).

(** No school loses or changes anything but for what opening it adds. *)
Definition only_read (w w' : World) : Prop := schools_ok w' ∧ ∀ t, only_adds (school w t) (school w' t).

Lemma only_read_refl w : schools_ok w → only_read w w.
Proof. intros H. split; [done|]. intros t. apply only_adds_refl. Qed.
Lemma only_read_trans w1 w2 w3 : only_read w1 w2 → only_read w2 w3 → only_read w1 w3.
Proof. intros [_ H1] [H2 H3]. split; [done|]. intros t. by eapply only_adds_trans. Qed.

(** The tables [only_adds] leaves alone. *)
Lemma only_adds_students s s' : only_adds s s' → students s' = students s ∧ student_parent_map s' = student_parent_map s.
Proof. intros H. rewrite (oa_rest _ _ H). done. Qed.

Lemma school_ok_adds s s' : only_adds s s' → fresh_keys s' → school_ok s → school_ok s'.
Proof.
  intros Ha Hf [_ H1 H2]. destruct (only_adds_students _ _ Ha) as [Hs Hp]. constructor; rewrite ?Hs, ?Hp; [done| |done].
  intros sid Hsid. destruct (H1 sid Hsid) as [u Hu]. exists u. eapply lookup_weaken; [exact Hu|apply Ha].
Qed.

Lemma school_insert w t s t' : school (w <| schools ::= <[t := s]> |>) t' = if decide (t = t') then s else school w t'.
Proof.
  unfold school. cbn. destruct (decide (t = t')) as [<-|Hne]; [by rewrite lookup_insert_eq|by rewrite lookup_insert_ne].
Qed.

Lemma only_read_insert w t s :
  schools_ok w → only_adds (school w t) s → fresh_keys s → only_read w (w <| schools ::= <[t := s]> |>).
Proof.
  intros Hw Ha Hf. split; intros t'; rewrite school_insert; destruct (decide (t = t')) as [<-|].
  - by eapply school_ok_adds.
  - apply Hw.
  - done.
  - apply only_adds_refl.
Qed.

Lemma only_read_same w w' : schools_ok w → schools w' = schools w → only_read w w'.
Proof. intros Hw Hs. unfold only_read, schools_ok, school. rewrite Hs. split; [exact Hw|]. intros t. apply only_adds_refl. Qed.

Lemma wp_open t w : schools_ok w → wp (get_db_pool t) (λ _ w', only_read w w') (λ _ w', only_read w w') w.
Proof.
  intros Hw. unfold get_db_pool, cp_check. wp_simpl. case_bool_decide; [by apply only_read_refl|]. wp_simpl.
  assert (∀ w1 sas, only_read w w1 → wp (in_school t (_initialize_tenant_tables sas))
    (λ _ w2, wp (modify (λ w, w <| open_pools ::= λ o, {[t]} ∪ o |>)) (λ _ w', only_read w w') (λ _ w', only_read w w') w2)
    (λ _ w', only_read w w') w1) as Hrest.
  { intros w1 sas H1. rewrite wp_in_school. eapply wp_mono; [apply wp_initialize, H1| |done].
    intros [] s [[Hf Ha] _]. wp_simpl. eapply only_read_trans; [exact H1|].
    eapply only_read_trans; [apply (only_read_insert w1 t s); [apply H1|exact Ha|exact Hf]|]. apply only_read_same; [|done].
    apply (only_read_insert w1 t s); [apply H1|exact Ha|exact Hf]. }
  destruct (_ || _); wp_simpl; [by apply Hrest, only_read_refl|].
  destruct (tenant_id_fits t); wp_simpl; [|by apply only_read_refl]. apply Hrest. by apply only_read_same.
Qed.

Lemma wp_reading {A} t (m : DB A) (P : A → TenantDB → Prop) w :
  schools_ok w → (∀ s, wp m (λ a s', s' = s ∧ P a s) (λ _ s', s' = s) s) →
  wp (with_school t m) (λ a w', only_read w w' ∧ P a (school w' t)) (λ _ w', only_read w w') w.
Proof.
  intros Hw Hm. unfold with_school. rewrite wp_bind. eapply wp_mono; [by apply wp_open| |done]. intros [] w1 H1.
  assert (only_read w (w1 <| schools ::= <[t := school w1 t]> |>)) as H2.
  { eapply only_read_trans; [exact H1|]. apply only_read_insert; [apply H1|apply only_adds_refl|apply H1]. }
  rewrite wp_in_school. eapply wp_mono; [apply Hm| |].
  - intros a s [-> HP]. split; [exact H2|]. rewrite school_insert, decide_True by done. exact HP.
  - intros e s ->. exact H2.
Qed.

(** Naming the school may create its profile row. *)
Lemma wp_locale t w : schools_ok w →
  wp (with_school t get_locale_summary) (λ _ w', only_read w w') (λ _ w', only_read w w') w.
Proof.
  intros Hw. unfold with_school. rewrite wp_bind. eapply wp_mono; [by apply wp_open| |done]. intros [] w1 H1.
  rewrite wp_in_school. unfold get_locale_summary, ensure_profile_row, get_profile_row, insert_serial. wp_simpl.
  fold (school w1 t).
  destruct (snd <$> profile_of (school w1 t)) as [r|] eqn:Hp; wp_simpl; (eapply only_read_trans; [exact H1|]);
    apply only_read_insert; try apply H1.
  - apply only_adds_refl.
  - assert (school_profile (school w1 t) = ∅) as He.
    { unfold profile_of in Hp. apply map_to_list_empty_iff, Permutation_nil_r.
      rewrite <-(merge_sort_Permutation profile_le). by destruct (merge_sort profile_le _). }
    constructor; cbn; try done; auto. rewrite He. apply map_empty_subseteq.
  - destruct H1 as [H1 _]. destruct (so_fresh _ (H1 t)) as [Hu Ht]. constructor; cbn; (eapply ids_below_mono; [eassumption|lia]).
Qed.

(** ** The family of an account *)
Lemma linked_students_spec pid s sid :
  sid ∈ linked_students (PInt pid) s ↔ is_Some (student_parent_map s !! (sid, pid)).
Proof.
  unfold linked_students. cbn [parse_id]. rewrite merge_sort_Permutation, list_elem_of_fmap. split.
  - intros ([a b] & -> & Hin). apply list_elem_of_In, filter_In in Hin as [Hin Hb]. cbn in *. apply Z.eqb_eq in Hb as ->.
    apply list_elem_of_In, list_elem_of_fmap in Hin as ([k l] & -> & Hl%elem_of_map_to_list). by exists l.
  - intros [l Hl]. exists (sid, pid). split; [done|]. apply list_elem_of_In, filter_In. split; [|by apply Z.eqb_eq].
    apply list_elem_of_In, list_elem_of_fmap. exists ((sid, pid), l). split; [done|]. by apply elem_of_map_to_list.
Qed.

Lemma student_view_id sid s v : student_view_of sid s = Some v → sv_id v = sid.
Proof. unfold student_view_of. destruct (students s !! sid); [|done]. cbn. destruct (users s !! sid); [|done]. by intros [= <-]. Qed.

(** The children of an account are the students linked to it. *)
Definition children_are (uid : Z) (l : list Z) (s : TenantDB) : Prop :=
  ∀ sid, sid ∈ l ↔ is_Some (student_parent_map s !! (sid, uid)).

Lemma wp_children uid s :
  wp (get_linked_students_for_parent (PInt uid))
    (λ l s', s' = s ∧ (school_ok s → children_are uid (sv_id <$> l) s)) (λ _ s', s' = s) s.
Proof.
  unfold get_linked_students_for_parent, bind_bigint, check. cbn [parse_id]. wp_simpl. destruct (_ && _); wp_simpl; [|done].
  split; [done|]. intros Hs sid. rewrite <-linked_students_spec, list_elem_of_fmap. split.
  - intros (v & -> & Hin). apply list_elem_of_omap in Hin as (i & Hi & Hv). by rewrite (student_view_id _ _ _ Hv).
  - intros Hin. pose proof Hin as Hl. apply linked_students_spec, (so_linked _ Hs) in Hl.
    destruct (so_account _ Hs sid Hl) as [u Hu]. destruct Hl as [st Hst].
    exists {| sv_id := sid; sv_row := st; sv_email := us_email u;
              sv_class_name := cl_name <$> (st_class st ≫= λ c, classes s !! c) |}. split; [done|].
    apply list_elem_of_omap. exists sid. split; [done|]. unfold student_view_of. rewrite Hst. cbn. by rewrite Hu.
Qed.

(** The enrollments of a parent are those of the children. *)
Definition of_children (uid : Z) (l : list listed) (s : TenantDB) : Prop :=
  ∀ e, e ∈ l ↔ enrollment_view_of e.1 s = Some e.2 ∧ is_Some (student_parent_map s !! (en_student (ew_row e.2), uid)).

Lemma wp_child_enrollments uid s :
  wp (get_enrollments_for_user (PInt uid) (RStr "parent")) (λ l s', s' = s ∧ of_children uid l s) (λ _ s', s' = s) s.
Proof.
  eapply wp_mono; [apply wp_enrollments_for_user| |by intros ? ? []]. intros l s' (-> & _ & Hl). split; [done|]. intros [i v].
  rewrite Hl. cbn [fst snd role_set]. split; intros [Hv H]; (split; [exact Hv|]).
  - destruct H as [H _ _|n _ H|n _ Hn H|n H]; [discriminate| |by injection Hn as <-|];
      apply list_elem_of_singleton in H; discriminate.
  - eapply SeesChild; [by apply list_elem_of_singleton|done|done].
Qed.

Lemma readonly_events uid role : readonly (get_events_for_user uid role).
Proof.
  intros s. unfold get_events_for_user, get_classes_by_head_teacher, get_all_events, get_events_for_student.
  assert (∀ A (r : result A), preserves (λ s', s' = s) (lift r)) as Hl by (intros A []; intros ? ?; done).
  preserve; apply Hl.
Qed.

Lemma wp_nothing {A} (m : DB A) s : readonly m → wp m (λ _ s', s' = s ∧ True) (λ _ s', s' = s) s.
Proof. intros H. eapply wp_mono; [by apply (H s s)| |done]. by intros a s' ->. Qed.

(** The steps of one school. *)
Lemma read_children t uid w : schools_ok w →
  wp (with_school t (get_linked_students_for_parent (PInt uid)))
    (λ l w', only_read w w' ∧ children_are uid (sv_id <$> l) (school w' t)) (λ _ w', only_read w w') w.
Proof.
  intros Hw. eapply wp_mono; [apply (wp_reading _ _ (λ l s, school_ok s → children_are uid (sv_id <$> l) s) w Hw), wp_children| |done]. intros l w' [H Hl]. split; [exact H|].
  by apply Hl, H.
Qed.
Lemma read_enrollments t uid w : schools_ok w →
  wp (with_school t (get_enrollments_for_user (PInt uid) (RStr "parent")))
    (λ l w', only_read w w' ∧ of_children uid l (school w' t)) (λ _ w', only_read w w') w.
Proof. intros Hw. apply (wp_reading _ _ (of_children uid) w Hw), wp_child_enrollments. Qed.
Lemma read_quiet {A} t (m : DB A) w : readonly m → schools_ok w →
  wp (with_school t m) (λ _ w', only_read w w') (λ _ w', only_read w w') w.
Proof.
  intros Hm Hw. eapply wp_mono; [apply (wp_reading t m (λ _ _, True) w Hw); intros s; by apply wp_nothing| |done]. by intros ? w' [H _].
Qed.

(** ** The overview *)
Section overview.
Context (email : string).

(** The section of an account, or of a school without one. *)
Definition family_section (w : World) (sn : section) : Prop :=
  ∃ uid u, users (school w (sn_tenant sn)) !! uid = Some u ∧ upper_eq (us_email u) (str_strip email) = true ∧
    children_are uid (co_id <$> sn_children sn) (school w (sn_tenant sn)) ∧
    ∀ e, e ∈ sn_enrollments sn → eo_student e ∈ co_id <$> sn_children sn.

Definition known_in (w : World) (t : string) : Prop :=
  email ≠ "" ∧ is_Some (find_user (str_strip email) (school w t)).

Definition section_ok (w0 w : World) (sn : section) : Prop :=
  (sn_children sn = [] ∧ sn_enrollments sn = [] ∧ (is_Some (sn_error sn) ∨ ¬ known_in w0 (sn_tenant sn))) ∨
  (sn_error sn = None ∧ family_section w sn).

Lemma family_section_later w w' sn : only_read w w' → family_section w sn → family_section w' sn.
Proof.
  intros [_ H] (uid & u & Hu & He & Hc & Hn). exists uid, u. destruct (only_adds_students _ _ (H (sn_tenant sn))) as [_ Hp].
  split; [eapply lookup_weaken; [exact Hu|apply H]|]. split; [done|]. split; [|done]. intros sid. by rewrite Hp.
Qed.

Lemma section_later w0 w w' sn : only_read w w' → section_ok w0 w sn → section_ok w0 w' sn.
Proof. intros H [?|[? ?]]; [by left|]. right. split; [done|]. by eapply family_section_later. Qed.

Lemma known_later w w' t : only_read w w' → known_in w t → ∃ k r, find_user (str_strip email) (school w' t) = Some (k, r).
Proof.
  intros [_ H] [_ [[k r] Hk]]. apply find_row_Some in Hk as [Hk Hr]. destruct (find_user _ _) as [[k' r']|] eqn:E; [by eauto|].
  pose proof (find_row_None _ _ E k r (lookup_weaken _ _ _ _ Hk (oa_users _ _ (H t)))) as Hn. cbv beta in Hn. congruence.
Qed.

Lemma wp_user t w : schools_ok w →
  wp (get_db_pool t ;; if bool_decide (email = "") then mret None else in_school t (get_user_by_email email))
    (λ o w', only_read w w' ∧ o = if bool_decide (email = "") then None else find_user (str_strip email) (school w' t))
    (λ _ w', only_read w w') w.
Proof.
  intros Hw. case_bool_decide as He.
  - rewrite wp_bind. eapply wp_mono; [by apply wp_open| |done]. intros [] w' H. by wp_simpl.
  - apply (wp_reading t (get_user_by_email email) (λ o s, o = find_user (str_strip email) s) w Hw).
    intros s. unfold get_user_by_email. rewrite bool_decide_eq_false_2 by done. by wp_simpl.
Qed.

Lemma wp_fetch t role w : schools_ok w →
  wp (_fetch_one_school t role email)
    (λ sn w', only_read w w' ∧ sn_tenant sn = t ∧ sn_role sn = role ∧ section_ok w w' sn) (λ _ w', only_read w w') w.
Proof.
  intros Hw. unfold _fetch_one_school. rewrite wp_bind. eapply wp_mono; [by apply wp_locale| |done]. intros summary w1 H1.
  assert (∀ {A B} (a : CP unit) (m : CP A) (k : A → CP B) Q E v, wp (a ;; m) (λ o v', wp (k o) Q E v') E v →
    wp (a ;; o ← m; k o) Q E v) as Hassoc.
  { intros A B a m k Q E v H. rewrite wp_bind in H. rewrite wp_bind. eapply wp_mono; [exact H| |done]. intros [] v' H'. by rewrite wp_bind. }
  apply Hassoc. eapply wp_mono; [apply wp_user, H1| |intros e w2 H2; exact (only_read_trans _ _ _ H1 H2)].
  intros o w2 [H2 Ho]. assert (only_read w w2) as H12 by exact (only_read_trans _ _ _ H1 H2).
  destruct o as [[uid u]|]; wp_simpl.
  2: { split; [done|]. split; [done|]. split; [done|]. left. split; [done|]. split; [done|]. right. intros Hk.
       destruct (known_later w w2 t H12 Hk) as (k & r & Hf). destruct Hk as [He _]. by rewrite bool_decide_eq_false_2, Hf in Ho. }
  assert (users (school w2 t) !! uid = Some u ∧ upper_eq (us_email u) (str_strip email) = true) as [Hu Hue].
  { destruct (bool_decide (email = "")); [done|]. symmetry in Ho. by apply find_row_Some in Ho. }
  eapply wp_mono; [apply read_children, H2| |intros e w3 H3; exact (only_read_trans _ _ _ H12 H3)].
  intros children w3 [H3 Hc]. pose proof (only_read_trans _ _ _ H12 H3) as H13. rewrite wp_bind.
  eapply wp_mono; [apply read_enrollments, H3| |intros e w4 H4; exact (only_read_trans _ _ _ H13 H4)].
  intros enrolled w4 [H4 Hen]. pose proof (only_read_trans _ _ _ H13 H4) as H14. rewrite wp_bind.
  eapply wp_mono; [apply read_quiet; [apply readonly_events|apply H4]| |intros e w5 H5; exact (only_read_trans _ _ _ H14 H5)].
  intros evs w5 H5. pose proof (only_read_trans _ _ _ H14 H5) as H15. rewrite wp_bind.
  eapply wp_mono; [apply read_quiet; [intros ?; apply preserves_gets|apply H5]| |intros e w6 H6; exact (only_read_trans _ _ _ H15 H6)].
  intros payments w6 H6. rewrite wp_ret. pose proof (only_read_trans _ _ _ H15 H6) as H16.
  pose proof (only_read_trans _ _ _ H5 H6) as R46. pose proof (only_read_trans _ _ _ H4 R46) as R36.
  split; [exact H16|]. split; [done|]. split; [done|]. right. split; [done|]. unfold family_section. cbn [sn_tenant sn_children sn_enrollments].
  assert ((co_id <$> (child_of <$> children)) = sv_id <$> children) as Hids by (rewrite <-list_fmap_compose; done).
  exists uid, u. rewrite Hids.
  assert (only_adds (school w2 t) (school w6 t)) as Ha by (apply (only_read_trans _ _ _ H3 R36)).
  split; [eapply lookup_weaken; [exact Hu|apply Ha]|]. split; [done|].
  destruct (only_adds_students _ _ (proj2 R36 t)) as [_ Hp36]. destruct (only_adds_students _ _ (proj2 H4 t)) as [_ Hp34].
  split; [intros sid; by rewrite Hp36|].
  intros e (x & -> & Hx)%list_elem_of_fmap. apply Hen in Hx as [_ Hx]. cbn. apply Hc. by rewrite <-Hp34.
Qed.

Lemma wp_fetch_school m w : schools_ok w →
  wp (fetch_school email m)
    (λ sn w', only_read w w' ∧ (sn_tenant sn, sn_role sn) = m ∧ section_ok w w' sn) (λ _ _, False) w.
Proof.
  intros Hw. unfold fetch_school. rewrite wp_try_except. eapply wp_mono; [by apply wp_fetch| |].
  - intros sn w' (H & Ht & Hr & Hs). rewrite Ht, Hr. by destruct m.
  - intros e w' H. rewrite wp_ret. cbn. destruct m. split; [done|]. split; [done|]. left. cbn. split; [done|]. split; [done|].
    left. by eexists.
Qed.

Lemma section_from w0 w1 w sn : only_read w0 w1 → section_ok w1 w sn → section_ok w0 w sn.
Proof.
  intros H [(?&?&[?|Hk])|?]; [left|left|by right]; (split; [done|]); (split; [done|]); [by left|]. right. intros [He Hf].
  apply Hk. split; [done|]. destruct (known_later w0 w1 (sn_tenant sn) H) as (k & r & Hkr); [by split|by rewrite Hkr].
Qed.

Lemma wp_sections ms w : schools_ok w →
  wp (map_each ms (fetch_school email))
    (λ l w', only_read w w' ∧ (λ sn, (sn_tenant sn, sn_role sn)) <$> l = ms ∧ Forall (section_ok w w') l) (λ _ _, False) w.
Proof.
  revert w. induction ms as [|m ms IH]; intros w Hw; cbn [map_each].
  - rewrite wp_ret. split; [by apply only_read_refl|]. split; [done|constructor].
  - rewrite wp_bind. eapply wp_mono; [by apply wp_fetch_school| |done]. intros sn w1 (H1 & Hm & Hs).
    rewrite wp_bind. eapply wp_mono; [apply IH, H1| |done]. intros l w2 (H2 & Hl & Hall). rewrite wp_ret.
    split; [exact (only_read_trans _ _ _ H1 H2)|]. split; [cbn; by rewrite Hm, Hl|].
    constructor; [by eapply section_later|]. eapply Forall_impl; [exact Hall|]. intros sn'. by apply section_from.
Qed.
End overview.

(** C21: the family overview covers every school. A parent with at most ten
    memberships gets one section per membership, in their order, the degraded
    schools being those whose section is an error; a section without an error
    of a school that knows the parent's email shows exactly the students
    linked to the account, and enrollments of these students only; no other
    section shows anybody; and the request changes no school. With more
    memberships the answer is a 400 and nothing is read. *)
Theorem overview_covers_every_school u memberships w :
  schools_ok w →
  wp (get_family_overview u memberships)
    (λ o w', (List.length memberships ≤ 10)%nat ∧ only_read w w' ∧
       (λ sn, (sn_tenant sn, sn_role sn)) <$> ov_schools o = memberships ∧
       ov_degraded o = sn_tenant <$> List.filter is_degraded (ov_schools o) ∧
       ∀ sn, sn ∈ ov_schools o → section_ok (cu_email u) w w' sn)
    (λ e w', w' = w ∧ (10 < List.length memberships)%nat ∧ ∃ m, e = HTTPException 400 m) w.
Proof.
  intros Hw. unfold get_family_overview, get_overview. rewrite wp_try_except, wp_bind, wp_guard_or. unfold _MAX_MEMBERSHIPS.
  destruct (Nat.leb_spec (List.length memberships) 10) as [Hn|Hn].
  - rewrite wp_bind. eapply wp_mono; [by apply wp_sections| |done]. intros l w' (Hr & Hl & Hall). rewrite wp_ret. cbn.
    split; [done|]. split; [done|]. split; [done|]. split; [done|]. by apply Forall_forall.
  - rewrite wp_raise. split; [done|]. split; [lia|]. by eexists.
Qed.

(** ** A parent of two schools *)
Definition demo_families : World :=
  empty_world <| schools := {["tenant_a" := demo_db; "tenant_b" := empty_db]} |>
    <| open_pools := {["tenant_a"; "tenant_b"]} |>.

Lemma demo_db_ok : school_ok demo_db.
Proof.
  constructor.
  - constructor; intros k [r Hr]; demo_rows Hr; reflexivity.
  - intros sid [r Hr]. demo_rows Hr; vm_compute; by eexists.
  - intros sid pid [r Hr]. demo_rows Hr; vm_compute; by eexists.
Qed.
Lemma empty_db_ok : school_ok empty_db.
Proof. constructor; [constructor; intros k [r Hr]|intros k [r Hr]|intros k k' [r Hr]]; cbn in Hr; by rewrite lookup_empty in Hr. Qed.

Lemma demo_families_ok : schools_ok demo_families.
Proof.
  intros t. unfold school, demo_families. cbn. destruct (decide (t = "tenant_a")) as [-> |Ha]; [apply demo_db_ok|].
  destruct (decide (t = "tenant_b")) as [-> |Hb]; [apply empty_db_ok|]. rewrite lookup_insert_ne, lookup_singleton_ne by done. apply empty_db_ok.
Qed.

Definition demo_pat : CurrentUser :=
  {| cu_id := PStr "8"; cu_tenant_id := Some "tenant_a"; cu_role := "parent"; cu_email := "p@s.edu"; cu_roles := ["parent"] |}.
Definition demo_memberships : list (string * option string) := [("tenant_a", Some "parent"); ("tenant_b", Some "parent")].
Definition demo_overview : result overview * World := get_family_overview demo_pat demo_memberships demo_families.

Lemma overview_covers_every_school_witness :
  ∃ o, demo_overview.1 = Ok o ∧ map (map co_id) (map sn_children (ov_schools o)) = [[31]; []] ∧
    (λ sn, (sn_tenant sn, sn_role sn)) <$> ov_schools o = demo_memberships ∧
    ∀ sn, sn ∈ ov_schools o → section_ok "p@s.edu" demo_families demo_overview.2 sn.
Proof.
  pose proof (overview_covers_every_school demo_pat demo_memberships demo_families demo_families_ok) as H.
  assert (match demo_overview.1 with Ok o => Some (map (map co_id) (map sn_children (ov_schools o))) | _ => None end
    = Some [[31]; []]) as E by (vm_compute; reflexivity).
  destruct (demo_overview.1) as [o|e] eqn:Eo; [|discriminate]. injection E as E.
  pose proof (wp_ok _ _ _ _ _ H Eo) as (_ & _ & Hs & _ & Hall). exists o. split; [reflexivity|]. split; [exact E|]. split; [exact Hs|exact Hall].
Defined.
