(* ===== verification/EventsApi.v ===== *)
(** * The events router

    The endpoints of src/app/domains/events/router.py that EventSvc.v and
    Enrollment.v leave (listings, cloning, resource types and lines, the
    prediction) and those of src/app/domains/notifications/router.py, and all
    of the router as one request type: what parents and students can change
    through it. *)
From Stdlib Require Import Ascii String.
From stdpp Require Import gmap.
From S2P Require Import Prelude PyText Authz Store AcademicRepo EventRepo Demo AcademicSvc Structure School EventRules EventLifecycle Resources EventSvc Enrollment.

(** ** Listings *)
Definition has_tenant (u : CurrentUser) : bool :=
  match cu_tenant_id u with Some t => negb (bool_decide (t = "")) | None => false end.

(** GET /events *)
Definition list_events (u : CurrentUser) : DB (list masked_event) :=
  guard_or (has_tenant u || has_role u "super_admin") (HTTPException 400 "Tenant context required") ;;
  answer 500 500 false (
    events ← get_events_for_user (cu_id u) (RList (cu_roles u));
    mret ((λ ev, mask_financials ev u) <$> events)).

(** GET /events/published *)
Definition get_published_events (u : CurrentUser) : DB (list event_view) :=
  tenant_required u ;;
  answer 500 500 false (
    events ← get_events_for_user (cu_id u) (RList (cu_roles u));
    mret (List.filter (λ ev, bool_decide (ev_status (vw_row ev) = "published")) events)).

(** GET /events/manager-queue *)
Definition get_manager_queue (u : CurrentUser) : DB (list event_view) :=
  tenant_required u ;;
  guard_or (has_any_role u ["manager"; "school_admin"])
    (HTTPException 403 "Only managers can view the manager queue") ;;
  answer 500 500 false (get_all_events ["proposed"; "final_review"]).

(** GET /events/enrollments/{enrollment_id}/payment *)
Definition get_payment (enrollment_id : Z) (u : CurrentUser) : DB (Z * payment_row) :=
  answer 500 500 true (
    payment ← get_payment_by_enrollment enrollment_id;
    from_option_or payment (HTTPException 404 "Payment record not found")).

(** ** Trips and resources *)
(** POST /events/{event_id}/clone *)
Definition clone_event_endpoint (event_id : Z) (u : CurrentUser) : DB (option event_view) :=
  guard_or (has_any_role u ["school_admin"; "teacher"]) (HTTPException 403 "Only staff can clone events") ;;
  answer 404 403 false (clone_event event_id (cu_id u) (RList (cu_roles u)) None None).

(** GET and POST /events/resource-types *)
Definition list_resource_types (category : option string) (u : CurrentUser) : DB (list (Z * resource_type_row)) :=
  tenant_required u ;;
  answer 500 500 false (get_all_resource_types category).

Definition create_custom_resource_type (name category : string) (u : CurrentUser) : DB resource_type_row :=
  tenant_required u ;;
  guard_or (has_any_role u ["teacher"; "school_admin"; "manager"] || has_role u "resource_type:create")
    (HTTPException 403 ("Only teachers, admins, managers, and users with resource_type:create permission "
       +:+ "can create custom resource types")) ;;
  answer 500 500 false (
    rt_id ← create_resource_type name category true (cu_id u);
    rt ← gets (λ s, resource_types s !! rt_id);
    from_option_or rt (TypeError "argument after ** must be a mapping, not NoneType")).

(** PATCH and DELETE /events/resources/{resource_id},
    POST /events/{event_id}/resources/lines *)
Definition not_editable_line : string :=
  "Access denied. Resource lines can only be edited by the event owner " +:+
  "while in draft, or by manager/admin while under review.".

Definition patch_resource_line (resource_id : Z) (resource_type_id : option Z) (description : option string)
    (quantity : option Z) (u : CurrentUser) : DB unit :=
  tenant_required u ;;
  answer 500 500 true (
    o ← get_resource_by_id resource_id;
    resource ← from_option_or o (HTTPException 404 "Resource not found");
    e ← get_event_by_id (rs_event resource);
    event ← from_option_or e (HTTPException 404 "Event not found");
    ok ← lift (is_editable u event);
    guard_or ok (HTTPException 403 not_editable_line) ;;
    update_resource_line resource_id u resource_type_id description quantity).

Definition post_resource_line (event_id resource_type_id : Z) (description : option string) (quantity : Z)
    (u : CurrentUser) : DB Z :=
  tenant_required u ;;
  answer 404 403 false (add_resource_line event_id u resource_type_id description quantity).

Definition delete_resource_line_route (resource_id : Z) (u : CurrentUser) : DB unit :=
  tenant_required u ;;
  answer 404 403 false (delete_resource_line resource_id u).

(** GET /events/{event_id}/audience/prediction: [x.strip().isdigit()] holds
    for what [int] then reads; an id beyond bigint cannot be bound. *)
Fixpoint split_comma (l acc : list ascii) : list (list ascii) :=
  match l with
  | [] => [rev acc]
  | c :: l => if code c =? 44 then rev acc :: split_comma l [] else split_comma l (c :: acc)
  end.
Definition parse_ids (class_ids : string) : list Z :=
  omap (λ x, let x := str_strip (text x) in if str_isdigit x then py_int 10 x else None) (split_comma (chars class_ids) []).

Definition get_audience_prediction (event_id : Z) (class_ids : string) (u : CurrentUser) : DB Z :=
  tenant_required u ;;
  answer 500 500 false (
    let ids_list := parse_ids class_ids in
    check (forallb (λ n, n <? 2 ^ 63) ids_list) "value out of int64 range" ;;
    get_predicted_attendance ids_list).

(** GET /events/{event_id}/resources *)
Definition get_event_resources (event_id : Z) (u : CurrentUser) : DB resource_summary :=
  tenant_required u ;;
  answer 500 500 true (
    o ← get_event_by_id event_id;
    event ← from_option_or o (HTTPException 404 "Event not found");
    ok ← lift (check_event_permission u event "read");
    guard_or ok (HTTPException 403 "Access denied") ;;
    school_profile ← get_profile_row;
    get_resource_summary event_id (text_of (school_profile ≫= λ r, sp_fields r !! "currency"))).

(** ** Notifications *)
(** GET /notifications, POST /notifications/{notif_id}/read *)
Definition list_notifications (u : CurrentUser) : DB (list notification_row) :=
  answer 500 500 false (get_notifications_for_user (cu_id u)).
Definition mark_notification_read_route (notif_id : Z) (u : CurrentUser) : DB unit :=
  answer 500 500 true (
    success ← mark_notification_read notif_id (cu_id u);
    guard_or success (HTTPException 404 "Notification not found or already read")).

(** ** The router

    One constructor per endpoint that can change the database, in the order
    of the two files; the others only read. *)
Inductive trip_request :=
  | PostEvent (p : event_payload)
  | CloneEvent (event_id : Z)
  | DeleteEvent (event_id : Z)
  | PayEnrollment (enrollment_id : Z)
  | PostFeedback (event_id rating : Z) (comments : option string)
  | PostResourceType (name category : string)
  | PatchResourceLine (resource_id : Z) (resource_type_id : option Z) (description : option string) (quantity : option Z)
  | PostResourceLine (event_id resource_type_id : Z) (description : option string) (quantity : Z)
  | DeleteResourceLine (resource_id : Z)
  | PutResourceCost (resource_id unit_price : Z) (currency : string)
  | PutEvent (event_id : Z) (p : event_payload)
  | PatchEvent (event_id : Z) (title description address : option string) (date : option Z)
  | SelectAudience (event_id : Z) (class_ids : list Z) (class_mappings : list mapping_in)
  | SetResources (event_id : Z) (l : list resource_in)
  | SubmitEvent (event_id : Z)
  | ManagerDecision (event_id : Z) (decision : string) (reason : option string)
  | PublishEvent (event_id : Z)
  | EventTeacherDecision (event_id : Z) (decision : string) (reason : option string)
  | PutTicketPrices (event_id : Z) (items : list (Z * Z))
  | PutSubsidy (event_id subsidy : Z)
  | MarkRead (notif_id : Z).

Definition void {A} (m : DB A) : DB unit := m ;; mret tt.

Definition run_trip (u : CurrentUser) (r : trip_request) : DB unit :=
  match r with
  | PostEvent p => void (post_event p u)
  | CloneEvent e => void (clone_event_endpoint e u)
  | DeleteEvent e => delete_event_route e u
  | PayEnrollment e => pay_enrollment_route e u
  | PostFeedback e n c => void (create_feedback e n c u)
  | PostResourceType n c => void (create_custom_resource_type n c u)
  | PatchResourceLine r t d q => patch_resource_line r t d q u
  | PostResourceLine e t d q => void (post_resource_line e t d q u)
  | DeleteResourceLine r => delete_resource_line_route r u
  | PutResourceCost r p c => void (set_resource_pricing r p c u)
  | PutEvent e p => void (put_event e p u)
  | PatchEvent e t d a date => void (patch_event e t d a date u)
  | SelectAudience e c m => void (select_audience e c m u)
  | SetResources e l => set_event_resources e l u
  | SubmitEvent e => void (submit_event e u)
  | ManagerDecision e d reason => void (manager_decision e d reason u)
  | PublishEvent e => void (teacher_publish_event e u)
  | EventTeacherDecision e d reason => void (event_teacher_decision e d reason u)
  | PutTicketPrices e items => put_ticket_prices e items u
  | PutSubsidy e n => void (put_subsidy e n u)
  | MarkRead n => mark_notification_read_route n u
  end.

Fixpoint run_trips (reqs : list (CurrentUser * trip_request)) (s : TenantDB) : TenantDB :=
  match reqs with
  | [] => s
  | (u, r) :: reqs => run_trips reqs (run_trip u r s).2
  end.

(** ** What a household can change *)
(** The names that [get_current_user] gives a parent, a student or a pending
    account: roles and their permissions. *)
Definition household_names : list string :=
  ["parent"; "student"; "pending"] ++ composite "parent" ++ composite "student".
Definition household (u : CurrentUser) : Prop := ∀ r, r ∈ roles_of u → r ∈ household_names.
#[export] Instance household_dec u : Decision (household u).
Proof.
  refine (cast_if (decide (Forall (λ r, r ∈ household_names) (roles_of u)))); unfold household; by rewrite <-Forall_forall.
Defined.

(** No name of a household carries more than the names themselves. *)
Lemma household_composites c r : c ∈ household_names → r ∈ composite c → r ∈ household_names.
Proof.
  intros Hc Hr. apply mem_true.
  assert (forallb (λ c, forallb (λ r, mem r household_names) (composite c)) household_names = true) as H by (vm_compute; reflexivity).
  rewrite forallb_forall in H. specialize (H c (proj1 (list_elem_of_In _ _) Hc)).
  rewrite forallb_forall in H. by apply H, list_elem_of_In.
Qed.

Lemma household_not r : mem r household_names = false → r ∉ household_names.
Proof. apply mem_false. Qed.

Lemma household_denied u r : household u → mem r household_names = false → has_role u r = false.
Proof.
  intros Hu Hr%mem_false. apply not_true_is_false. rewrite has_role_spec.
  assert (∀ x, mem x household_names = false → x ∉ roles_of u) as Hno by (intros x Hx%mem_false Hin; by apply Hx, Hu).
  intros [[H|H]|[[H|[[H _]|(c & H & Hc)]]|[_ H]]]; [revert H; by apply Hno..|by apply Hr, Hu|revert H; by apply Hno| |revert H; by apply Hno].
  by apply Hr, (household_composites c), Hc; apply Hu.
Qed.

Lemma household_denied_any u rs :
  household u → forallb (λ r, negb (mem r household_names)) rs = true → has_any_role u rs = false.
Proof.
  intros Hu Hrs. unfold has_any_role. induction rs as [|r rs IH]; [done|].
  cbn in *. apply andb_true_iff in Hrs as [Hr%negb_true_iff Hrs]. rewrite household_denied by done. by apply IH.
Qed.

Lemma household_one_of u l rs :
  household u → l ⊆ roles_of u → forallb (λ r, negb (mem r household_names)) rs = true → has_one_of l rs = false.
Proof.
  intros Hu Hl Hrs. unfold has_one_of. apply not_true_is_false. rewrite existsb_mem. intros (r & Hin & Hr).
  rewrite forallb_forall in Hrs. specialize (Hrs r (proj1 (list_elem_of_In _ _) Hin)).
  apply negb_true_iff, mem_false in Hrs. by apply Hrs, Hu, Hl.
Qed.

(** The roles the event rules look at; a caller without any role has the
    empty one. *)
Lemma cu_roles_of u : cu_roles u ⊆ roles_of u.
Proof. unfold roles_of. case_bool_decide; set_solver. Qed.
Lemma user_roles_household u r : household u → r ∈ user_roles_of u → r ∈ "" :: household_names.
Proof.
  intros Hu. unfold user_roles_of. destruct (cu_roles u) as [|x l] eqn:Hl.
  - intros ->%list_elem_of_singleton. destruct (decide (cu_role u = "")) as [-> | Hne]; [left|]. right. apply Hu.
    unfold roles_of. rewrite bool_decide_eq_false_2 by done. rewrite Hl. left.
  - intros Hr. right. apply Hu, cu_roles_of. by rewrite Hl.
Qed.

Lemma household_user_roles u rs :
  household u → forallb (λ r, negb (mem r ("" :: household_names))) rs = true → has_one_of (user_roles_of u) rs = false.
Proof.
  intros Hu Hrs. unfold has_one_of. apply not_true_is_false. rewrite existsb_mem. intros (r & Hin & Hr).
  rewrite forallb_forall in Hrs. specialize (Hrs r (proj1 (list_elem_of_In _ _) Hin)).
  apply negb_true_iff, mem_false in Hrs. by apply Hrs, user_roles_household with u.
Qed.

Lemma household_edits_nothing u ev : household u → is_editable u ev ≠ Ok true.
Proof.
  intros Hu. unfold is_editable, check_event_permission. destruct (is_owner u ev) as [owner|]; [|done]. cbn [result_bind].
  rewrite (household_user_roles u admin_names Hu eq_refl).
  rewrite (household_one_of u (cu_roles u) _EDIT_OVERRIDE_ROLES Hu (cu_roles_of u) eq_refl).
  change (bool_decide ("edit_draft" = "read")) with false. change (bool_decide ("edit_draft" = "edit_draft")) with true.
  cbv iota. unfold may_edit_draft. destruct (bool_decide _); cbn [andb result_bind]; [|by vm_compute].
  assert (existsb (λ role, mem role ["teacher"; "event_teacher"; "school_admin"; "super_admin"; "admin"]
    && (owner || mem role ["school_admin"; "super_admin"; "admin"])) (user_roles_of u) = false) as ->.
  { apply not_true_is_false. rewrite existsb_exists. intros (r & Hr%list_elem_of_In & [Hin%mem_true _]%andb_true_iff).
    apply (user_roles_household u r Hu), mem_true in Hr. revert Hr.
    repeat (apply elem_of_cons in Hin as [-> |Hin]; [by vm_compute|]). by apply elem_of_nil in Hin. }
  assert (has (user_roles_of u) "event:edit" = false) as ->.
  { apply mem_false. intros Hr. apply (user_roles_household u _ Hu), mem_true in Hr. revert Hr. by vm_compute. }
  cbn. by vm_compute.
Qed.

(** No transition is open to a household. *)
Lemma household_transition eid action u reason s :
  household u → wp (transition_event eid action u reason) (λ _ _, False) (λ _ s', s' = s) s.
Proof.
  intros Hu. unfold transition_event, get_event_by_id. wp_simpl. destruct (event_view_of eid s) as [ev|]; [|by wp_simpl].
  wp_simpl. destruct (next_of (ev_status (vw_row ev)) action) as [[nx role]|] eqn:Hn; [|by wp_simpl]. wp_simpl.
  rewrite household_user_roles; [done|done|]. apply next_of_in in Hn. cbn [snd].
  assert (forallb (λ t : (string * string) * (string * string), forallb (λ r, negb (mem r ("" :: household_names)))
    (allowed_roles t.2.2 t.1.2)) TRANSITIONS = true) as Hall by (vm_compute; reflexivity).
  rewrite forallb_forall in Hall. exact (Hall _ (proj1 (list_elem_of_In _ _) Hn)).
Qed.

(** What stays: every table but the feedback, and the notifications and
    payments up to the marks read and paid. *)
Definition unmarked (n : notification_row) : notification_row :=
  {| nt_id := nt_id n; nt_event := nt_event n; nt_recipient := nt_recipient n; nt_title := nt_title n;
     nt_read_at := None |}.
Definition unsettled (p : payment_row) : payment_row := p <| pm_status := "" |>.

Record household_frame (s0 s : TenantDB) : Prop := {
  hf_rest : s = s0 <| event_feedback := event_feedback s |> <| payments := payments s |>
                   <| notifications := notifications s |> <| nextid := nextid s |>;
  hf_notes : map unmarked (notifications s) = map unmarked (notifications s0);
  hf_payments : unsettled <$> payments s = unsettled <$> payments s0 }.

#[export] Instance household_frame_preorder : PreOrder household_frame.
Proof.
  split.
  - intros s. constructor; by destruct s.
  - intros s1 s2 s3 [H1 Hn1 Hp1] [H2 Hn2 Hp2]. constructor; [|by rewrite Hn2|by rewrite Hp2].
    rewrite H2, H1. cbn. done.
Qed.

Lemma answer_preserves {A} I v p b (m : DB A) : preserves I m → preserves I (answer v p b m).
Proof. intros H. apply preserves_try_except; [done|]. intros e. apply preserves_raise. Qed.
Lemma void_preserves {A} I (m : DB A) : preserves I m → preserves I (void m).
Proof. intros H. apply preserves_bind; [done|]. intros ?. apply preserves_ret. Qed.
Lemma tenant_preserves I u : preserves I (tenant_required u).
Proof. apply preserves_guard_or. Qed.
Lemma refused_guard_preserves {A} I e (k : DB A) : preserves I (guard_or false e ;; k).
Proof. by intros s Hs. Qed.

Lemma preserves_assoc {A B C} I (m : DB A) (k : A → DB B) (h : B → DB C) :
  preserves I (m ≫= λ a, k a ≫= h) → preserves I ((m ≫= k) ≫= h).
Proof.
  intros H s Hs. specialize (H s Hs). rewrite wp_bind in H. rewrite !wp_bind. eapply wp_mono; [exact H| |done].
  intros a s'. by rewrite wp_bind.
Qed.

Section household.
Context (u : CurrentUser) (Hu : household u) (s0 : TenantDB).
Abbreviation kept := (preserves (household_frame s0)).

Lemma kept_lift {A} (r : result A) : kept (lift r).
Proof. by destruct r; intros s. Qed.

Lemma kept_transition eid action reason : kept (transition_event eid action u reason).
Proof using Hu.
  intros s Hs. eapply wp_mono; [by apply household_transition| |]; [done|]. by intros e s' ->.
Qed.

(** A body behind the check that the trip can be edited is not reached. *)
Lemma kept_editable {A} ev (k : bool → DB A) e :
  (∀ b, b = false → k b = raise e) → kept (ok ← lift (is_editable u ev); k ok).
Proof using Hu.
  intros Hk s Hs. unfold lift. pose proof (household_edits_nothing u ev Hu) as He.
  destruct (is_editable u ev) as [[]|]; [done| |by wp_simpl].
  wp_simpl. by rewrite Hk.
Qed.

Lemma kept_require {A} ev (k : DB A) : kept (lift (require_editable u ev) ;; k).
Proof using Hu.
  intros s Hs. unfold lift, require_editable. pose proof (household_edits_nothing u ev Hu) as He.
  by destruct (is_editable u ev) as [[]|]; cbn [result_bind]; wp_simpl.
Qed.

Lemma kept_feedback e n c : kept (create_event_feedback e (cu_id u) n c).
Proof.
  clear Hu. unfold create_event_feedback, bind_bigint_not_null, bind_bigint, check, check_fk, insert_serial. preserve.
  apply preserves_modify. intros s Hs. etransitivity; [exact Hs|]. by constructor.
Qed.

Lemma kept_pay e : kept (pay_enrollment_route e u).
Proof.
  clear Hu. unfold pay_enrollment_route. apply preserves_bind; [apply preserves_guard_or|]. intros _. apply answer_preserves.
  unfold pay_enrollment, get_payment_by_enrollment. preserve. apply preserves_modify. intros s Hs.
  etransitivity; [exact Hs|]. constructor; [done..|]. cbn. apply map_eq. intros i.
  rewrite !lookup_fmap, lookup_update_where. destruct (payments s !! i) as [p|]; [|done]. cbn. by destruct (_ =? _).
Qed.

Lemma kept_read n : kept (mark_notification_read_route n u).
Proof.
  clear Hu. unfold mark_notification_read_route, mark_notification_read, bind_bigint, check. apply answer_preserves. preserve.
  apply preserves_modify. intros s Hs. etransitivity; [exact Hs|]. constructor; [done| |done]. cbn.
  rewrite map_map. apply map_ext. intros m. by destruct (_ && _).
Qed.

Ltac kept_step :=
  lazymatch goal with
  | |- preserves _ (transition_event _ _ _ _) => apply kept_transition
  | |- preserves _ (create_event_feedback _ _ _ _) => apply kept_feedback
  | |- preserves _ (answer _ _ _ _) => apply answer_preserves
  | |- preserves _ (tenant_required _) => apply tenant_preserves
  | |- preserves _ (lift _) => apply kept_lift
  | |- preserves _ (gets _) => apply preserves_gets
  | |- preserves _ (mret _) => apply preserves_ret
  | |- preserves _ (guard_or _ _) => apply preserves_guard_or
  | |- preserves _ (from_option_or _ _) => apply preserves_from_option_or
  | |- preserves _ (mbind _ (guard_or false _)) => apply refused_guard_preserves
  | |- preserves _ (mbind _ (lift (require_editable _ _))) => apply kept_require
  | |- preserves _ (mbind _ (lift (is_editable _ _))) => eapply kept_editable; intros ? ->; reflexivity
  | |- preserves _ (mbind _ (mbind _ _)) => apply preserves_assoc
  | |- preserves _ (mbind _ _) => apply preserves_bind; [|intros ?]
  end.

Lemma kept_trip r : kept (run_trip u r).
Proof using Hu.
  destruct r; cbn [run_trip]; try (apply kept_pay || apply kept_read); try apply void_preserves.
  all: unfold post_event, clone_event_endpoint, delete_event_route, create_feedback, create_custom_resource_type,
    patch_resource_line, post_resource_line, delete_resource_line_route, set_resource_pricing, put_event, patch_event,
    select_audience, set_event_resources, submit_event, manager_decision, teacher_publish_event,
    event_teacher_decision, put_ticket_prices, put_subsidy, open_editable, add_resource_line, delete_resource_line,
    editable_event, get_resource_by_id, get_event_by_id.
  all: rewrite ?(household_denied_any u _ Hu) by (vm_compute; reflexivity).
  all: rewrite ?(household_denied u _ Hu) by (vm_compute; reflexivity).
  all: cbn [orb].
  all: repeat kept_step.
Qed.
End household.

(** C20: households change no trip. Whatever requests parents, students and
    accounts without a role yet send to the events and notifications routers,
    in any order: every table of the school stays as it is except for their
    feedback, and no notification and no payment changes but for its mark as
    read or paid. *)
Theorem households_change_no_trip reqs s :
  Forall (λ q, household q.1) reqs → household_frame s (run_trips reqs s).
Proof.
  revert s. induction reqs as [|[u r] reqs IH]; intros s H; [reflexivity|]. apply Forall_cons in H as [Hu H]. cbn [run_trips].
  etransitivity; [|by apply IH]. apply preserves_run; [by apply kept_trip|reflexivity].
Qed.

(** ** A concrete run *)
Definition demo_parent : CurrentUser :=
  {| cu_id := PStr "8"; cu_tenant_id := Some "tenant_a"; cu_role := "parent"; cu_email := "pat@home.org";
     cu_roles := ["parent"; "billing:pay"; "feedback:create"] |}.
Definition demo_trips : list (CurrentUser * trip_request) :=
  [(demo_parent, PostFeedback 42 5 (Some "Lions!")); (demo_parent, PublishEvent 42); (demo_parent, DeleteEvent 42);
   (demo_parent, PatchEvent 42 (Some "My zoo") None None None); (demo_parent, PayEnrollment 3)].

Lemma households_change_no_trip_witness :
  Forall (λ q, household q.1) demo_trips ∧ household_frame demo_db (run_trips demo_trips demo_db).
Proof.
  assert (Forall (λ q : CurrentUser * trip_request, household q.1) demo_trips) as H
    by (apply (bool_decide_eq_true_1 _); vm_compute; reflexivity).
  split; [exact H|]. exact (households_change_no_trip demo_trips demo_db H).
Defined.

(** A manager's token opens the same requests. *)
Example managers_may :
  (run_trip (demo_actor "6" "manager") (DeleteEvent 42) demo_db).1 = Ok tt.
Proof. vm_compute. reflexivity. Qed.

(** Any caller of a school, whatever its role, adds feedback to any trip, a
    draft it may not read included, and rates it again and again. *)
Example feedback_on_a_draft :
  (create_feedback 42 5 None (demo_actor "8" "pending") demo_db).1 = Ok 100.
Proof. vm_compute. reflexivity. Qed.
