(* ===== verification/StudentsApi.v ===== *)
(** * The students router

    The endpoints of src/app/domains/students/router.py that other files do
    not hold (enrollment requests are in Enrollment.v, health records in
    Health.v): levels, the academic structure and its import, classes,
    placements, years and rollovers, accounts, and the listings; and what
    parents and students can change through the router. Dependencies on
    [require_permission] (OPA) have run. *)
From Stdlib Require Import Ascii String.
From stdpp Require Import gmap.
From S2P Require Import Prelude PyText Authz Store AuditLog AcademicRepo AcademicDelete EventRepo Demo AcademicSvc Structure School World UserRepo ControlPlane Membership Session Login Identify Caller Registration UserAdmin ImportFile Import Rollover EventRules EventLifecycle Resources EventSvc Enrollment Listings EventsApi Health.

(** [except PermissionError: 403, except ValueError: value_status] *)
Definition refusal (value_status : Z) (e : exn) : exn :=
  match e with
  | PermissionError m => HTTPException 403 m
  | ValueError m => HTTPException value_status m
  | _ => e
  end.
Definition refusing {S A} (value_status : Z) (m : M S A) : M S A := try_except m (λ e, raise (refusal value_status e)).
(** [except PermissionError: 403] alone *)
Definition forbidding {S A} (m : M S A) : M S A :=
  try_except m (λ e, raise (match e with PermissionError m => HTTPException 403 m | _ => e end)).

Section router.
Context (email_hmac : string → string) (workbook : list ascii → result (list (list cell))).

(** ** Levels and the structure *)
Definition post_level (name : string) (isced age_min age_max ordinal : option Z) (is_active : bool)
    (u : CurrentUser) : DB level_row :=
  forbidding (
    level_id ← create_level name (RList (cu_roles u)) isced age_min age_max ordinal is_active;
    lvl_info ← get_level_by_id level_id;
    from_option_or lvl_info none_error).
Definition list_levels : DB (list (Z * level_row)) := get_all_levels.
Definition put_level (level_id : Z) (name : option string) (isced age_min age_max ordinal : option Z)
    (is_active : option bool) (u : CurrentUser) : DB level_row :=
  refusing 400 (
    res ← AcademicSvc.update_level level_id name isced age_min age_max ordinal is_active (RList (cu_roles u));
    from_option_or res none_error).
Definition delete_level_route (level_id : Z) (u : CurrentUser) : DB unit :=
  refusing 400 (AcademicSvc.delete_level email_hmac level_id (RList (cu_roles u)) (cu_id u) ;; mret tt).

Definition get_structure (u : CurrentUser) : DB structure_out :=
  forbidding (get_academic_structure_svc (RList (cu_roles u))).
Definition setup_academic_structure (p : structure_in) (u : CurrentUser) : DB unit :=
  refusing 400 (save_academic_structure_svc p (RList (cu_roles u)) (cu_id u)).
Definition preview_import_route (filename : string) (content_type : option string) (raw_bytes : list ascii)
    (u : CurrentUser) : DB (string * import_preview) :=
  refusing 400 (preview_structure_import workbook filename content_type raw_bytes (RList (cu_roles u))).
Definition commit_import_route (filename : string) (content_type : option string) (raw_bytes : list ascii)
    (u : CurrentUser) : DB (string * import_report) :=
  refusing 400 (commit_structure_import workbook filename content_type raw_bytes (RList (cu_roles u))).

(** ** Classes and placements *)
Definition post_class (name : string) (level_id : Z) (head_teacher_id : option Z) (capacity : Z) (is_active : bool)
    (u : CurrentUser) : DB class_row :=
  refusing 400 (
    class_id ← create_class name level_id head_teacher_id capacity is_active (RList (cu_roles u));
    c_info ← get_class_by_id class_id;
    from_option_or c_info none_error).
Definition list_classes (u : CurrentUser) : DB (list (Z * class_row)) :=
  guard_or (has_any_role u ["school_admin"; "super_admin"; "manager"; "teacher"] || has_role u "class:read"
            || has_role u "event:create")
    (HTTPException 403 "Forbidden: Students and unauthorized users cannot list classes") ;;
  get_all_classes.
Definition get_class (class_id : Z) : DB class_row :=
  c_info ← get_class_by_id class_id;
  from_option_or c_info (HTTPException 404 ("Class " +:+ pretty class_id +:+ " not found")).
(** [head_teacher_id] is [UNSET] unless the request names it. *)
Definition put_class (class_id : Z) (name : option string) (level_id : option Z) (head_teacher_id : update (option Z))
    (capacity : option Z) (is_active : option bool) (u : CurrentUser) : DB class_row :=
  guard_or (has_any_role u ["school_admin"; "super_admin"] || has_role u "class:update")
    (HTTPException 403 "Only school admins can update classes") ;;
  refusing 404 (
    updated ← AcademicSvc.update_class class_id name level_id head_teacher_id capacity is_active (RList (cu_roles u));
    from_option_or updated none_error).
Definition delete_class_route (class_id : Z) (u : CurrentUser) : DB unit :=
  refusing 400 (AcademicSvc.delete_class email_hmac class_id (RList (cu_roles u)) (cu_id u) ;; mret tt).
Definition get_class_students (class_id : Z) (u : CurrentUser) : DB (list (student_view * string)) :=
  guard_or (has_any_role u ["school_admin"; "super_admin"; "manager"; "teacher"])
    (HTTPException 403 "Forbidden: Students and unauthorized users cannot view class rosters") ;;
  get_students_for_class class_id.

(** [TenantService.get_class_history] and its endpoint *)
Definition get_student_class_history (student_id : Z) (u : CurrentUser) : DB (list history_view) :=
  forbidding (
    gate (RList (cu_roles u)) ["school_admin"; "super_admin"; "admin"; "teacher"; "manager"]
      "Only staff can view a student's placement history" ;;
    get_class_history student_id).
Definition put_student_class (student_id : Z) (class_id : option Z) (u : CurrentUser) : DB unit :=
  refusing 400 (AcademicSvc.reassign_student_class student_id class_id (RList (cu_roles u)) (cu_id u) ;; mret tt).
Definition bulk_enroll (student_ids : list Z) (class_id : option Z) (u : CurrentUser) : DB bulk_result :=
  forbidding (AcademicSvc.bulk_reassign_students student_ids class_id (RList (cu_roles u)) (cu_id u)).
Definition link_parent_student (student_id parent_id : Z) (link : parent_link) (u : CurrentUser) : DB unit :=
  forbidding (link_student_parent student_id parent_id (RList (cu_roles u)) (cu_id u) link).

(** ** Years and rollovers *)
Definition post_academic_year (name : string) (start_date end_date : option Z) (u : CurrentUser) : DB (option year_row) :=
  refusing 400 (AcademicSvc.create_academic_year name start_date end_date (RList (cu_roles u))).
Definition list_academic_years : DB (list (Z * year_row)) := get_all_academic_years.
Definition create_rollover (from_year_id to_year_id : Z) (u : CurrentUser) : DB rollover_view :=
  refusing 400 (generate_rollover_plan from_year_id to_year_id (cu_id u) (RList (cu_roles u))).
Definition get_rollover_route (rollover_id : Z) (u : CurrentUser) : DB rollover_view :=
  refusing 404 (get_rollover rollover_id (RList (cu_roles u))).
Definition override_line_route (line_id : Z) (override_action : option string) (to_level_id : option Z)
    (to_section_label : option string) (u : CurrentUser) : DB (option line_row) :=
  refusing 400 (override_rollover_line line_id override_action to_level_id to_section_label (RList (cu_roles u))).
Definition preview_rollover_route (rollover_id : Z) (u : CurrentUser) : DB rollover_view :=
  refusing 400 (preview_rollover rollover_id (RList (cu_roles u))).
Definition commit_rollover_route (rollover_id : Z) (u : CurrentUser) : DB rollover_row :=
  refusing 400 (commit_rollover rollover_id (cu_id u) (RList (cu_roles u))).

(** ** Listings *)
Definition list_teachers : DB (list teacher_view) := Listings.get_all_teachers.
Definition list_parents : DB (list parent_view) := get_all_parents.
Definition list_students (u : CurrentUser) : DB (list (student_view * list (parent_view * parent_link))) :=
  guard_or (has_any_role u ["school_admin"; "super_admin"; "manager"; "teacher"] || has_role u "student:read"
            || has_role u "event:create")
    (HTTPException 403 "Forbidden: Students and unauthorized users cannot list all students") ;;
  get_all_students.
Definition get_enrollments (u : CurrentUser) : DB (list listed) :=
  get_enrollments_for_user (cu_id u) (RList (cu_roles u)).
(** The account is found by email first: the ids of one school may come from
    another's token. *)
Definition list_linked_students (u : CurrentUser) : DB (list student_view) :=
  guard_or (has_role u "parent") (HTTPException 403 "Only parents can view their linked children") ;;
  local_user ← (if bool_decide (cu_email u = "") then mret None else get_user_by_email (cu_email u));
  get_linked_students_for_parent (match local_user with Some (id, _) => PInt id | None => parse_id (cu_id u) end).
End router.

(** ** Accounts *)
Section accounts.
Context (pwd_hash : Z → string → string).

Definition post_teacher (u : CurrentUser) (email password name : string) : CP Z :=
  refusing 400 (tenant_id ← tenant_of u; create_teacher pwd_hash tenant_id email password name (RList (cu_roles u))).
Definition create_manager (u : CurrentUser) (email password : string) : CP Z :=
  guard_or (has_role u "school_admin" || has_role u "super_admin" || has_role u "user:create")
    (HTTPException 403 "Only school_admin or super_admin can create managers") ;;
  refusing 400 (tenant_id ← tenant_of u; create_staff_user pwd_hash tenant_id email password "manager" (RList (cu_roles u))).
Definition create_school_admin (u : CurrentUser) (email password : string) : CP Z :=
  guard_or (has_role u "school_admin" || has_role u "super_admin")
    (HTTPException 403 "Only school_admin or super_admin can create school admins") ;;
  refusing 400 (tenant_id ← tenant_of u; create_staff_user pwd_hash tenant_id email password "school_admin" (RList (cu_roles u))).
Definition post_student (u : CurrentUser) (email password name : string) (class_id : Z) (gender birth_data : option string)
    : CP student_view :=
  refusing 400 (
    tenant_id ← tenant_of u;
    student_id ← UserAdmin.create_student pwd_hash tenant_id email password name class_id gender birth_data
      (RList (cu_roles u)) (cu_id u);
    s_info ← with_school tenant_id (Listings.get_student_by_id student_id);
    from_option_or s_info none_error).
End accounts.


(** ** What a household can change through the router *)
Section requests.
Context (email_hmac : string → string) (workbook : list ascii → result (list (list cell))).

(** The requests on the academic tables; [PreviewImport] is a POST that only
    reads. *)
Inductive academic_request :=
  | PostLevel (name : string) (isced age_min age_max ordinal : option Z) (is_active : bool)
  | PutLevel (level_id : Z) (name : option string) (isced age_min age_max ordinal : option Z) (is_active : option bool)
  | DeleteLevel (level_id : Z)
  | SetupStructure (p : structure_in)
  | PreviewImport (filename : string) (content_type : option string) (raw_bytes : list ascii)
  | CommitImport (filename : string) (content_type : option string) (raw_bytes : list ascii)
  | PostClass (name : string) (level_id : Z) (head_teacher_id : option Z) (capacity : Z) (is_active : bool)
  | PutClass (class_id : Z) (name : option string) (level_id : option Z) (head_teacher_id : update (option Z))
      (capacity : option Z) (is_active : option bool)
  | DeleteClass (class_id : Z)
  | PutStudentClass (student_id : Z) (class_id : option Z)
  | BulkEnroll (student_ids : list Z) (class_id : option Z)
  | LinkParent (student_id parent_id : Z) (link : parent_link)
  | PostYear (name : string) (start_date end_date : option Z)
  | PostRollover (from_year_id to_year_id : Z)
  | OverrideLine (line_id : Z) (override_action : option string) (to_level_id : option Z)
      (to_section_label : option string)
  | PreviewRollover (rollover_id : Z)
  | CommitRollover (rollover_id : Z)
  | PostEnrollment (student_id event_class_map_id : Z)
  | DecideEnrollment (enrollment_id : Z) (state : string)
  | CancelEnrollment (enrollment_id : Z).

Definition run_academic (u : CurrentUser) (r : academic_request) : DB unit :=
  match r with
  | PostLevel n i a b o act => void (post_level n i a b o act u)
  | PutLevel l n i a b o act => void (put_level l n i a b o act u)
  | DeleteLevel l => delete_level_route email_hmac l u
  | SetupStructure p => setup_academic_structure p u
  | PreviewImport f c raw => void (preview_import_route workbook f c raw u)
  | CommitImport f c raw => void (commit_import_route workbook f c raw u)
  | PostClass n l h c act => void (post_class n l h c act u)
  | PutClass i n l h c act => void (put_class i n l h c act u)
  | DeleteClass c => delete_class_route email_hmac c u
  | PutStudentClass st c => put_student_class st c u
  | BulkEnroll sts c => void (bulk_enroll sts c u)
  | LinkParent st p link => link_parent_student st p link u
  | PostYear n b e => void (post_academic_year n b e u)
  | PostRollover y1 y2 => void (create_rollover y1 y2 u)
  | OverrideLine l a lv sec => void (override_line_route l a lv sec u)
  | PreviewRollover i => void (preview_rollover_route i u)
  | CommitRollover i => void (commit_rollover_route i u)
  | PostEnrollment st m => void (enroll_student_route st m u)
  | DecideEnrollment e state => void (update_enrollment_approval e state u)
  | CancelEnrollment e => cancel_enrollment_route e u
  end.

(** Every endpoint of the router with a body or a deletion, and the reading
    of a health record, which leaves an entry in the audit trail. *)
Context (fernet_encrypt : Z → string → string) (fernet_decrypt : string → option string).
Context (uuid_text : Z → string) (pwd_hash : Z → string → string).
Inductive student_request :=
  | Academic (r : academic_request)
  | PostTeacher (email password name : string)
  | PostManager (email password : string)
  | PostSchoolAdmin (email password : string)
  | PostStudent (email password name : string) (class_id : Z) (gender birth_data : option string)
  | PostHealth (student_id : Z) (national_id medical_conditions emergency_contact : string)
  | GetHealth (student_id : Z) (elevated_clearance : bool).

Definition run_student (u : CurrentUser) (r : student_request) : CP unit :=
  match r with
  | Academic r => tenant_id ← tenant_of u; with_school tenant_id (run_academic u r)
  | PostTeacher e p n => post_teacher pwd_hash u e p n ;; mret tt
  | PostManager e p => create_manager pwd_hash u e p ;; mret tt
  | PostSchoolAdmin e p => create_school_admin pwd_hash u e p ;; mret tt
  | PostStudent e p n c g b => post_student pwd_hash u e p n c g b ;; mret tt
  | PostHealth i n m c => create_or_update_health fernet_encrypt uuid_text email_hmac u i n m c ;; mret tt
  | GetHealth i elevated => get_health fernet_decrypt uuid_text email_hmac u i elevated ;; mret tt
  end.
Fixpoint run_students (reqs : list (CurrentUser * student_request)) (w : World) : World :=
  match reqs with [] => w | (u, r) :: rest => run_students rest (run_student u r w).2 end.

(** A staff gate stays shut to a household. *)
Lemma household_require u reqs :
  household u → forallb (λ r, negb (mem r household_names)) reqs = true → require (RList (cu_roles u)) reqs = false.
Proof.
  intros Hu Hreqs.
  assert (∀ r, mem r household_names = false → r ∉ cu_roles u) as Hno
    by (intros r Hr%mem_false Hin; by apply Hr, Hu, cu_roles_of).
  apply not_true_is_false. rewrite require_list. intros [[H|H]|(r & Hin & Hr)]; [by apply Hno in H..|].
  rewrite forallb_forall in Hreqs. specialize (Hreqs r (proj1 (list_elem_of_In _ _) Hin)). apply negb_true_iff in Hreqs.
  destruct Hr as [Hr|[[Hr _]|(c & Hc & Hr)]]; [by apply Hno in Hr..|].
  apply mem_false in Hreqs. apply Hreqs, (household_composites c); [by apply Hu, cu_roles_of|done].
Qed.

Lemma household_gate u reqs msg :
  household u → forallb (λ r, negb (mem r household_names)) reqs = true →
  gate (RList (cu_roles u)) reqs msg = raise (PermissionError msg).
Proof. intros Hu Hreqs. unfold gate. by rewrite household_require. Qed.
Lemma household_permission u reqs msg :
  household u → forallb (λ r, negb (mem r household_names)) reqs = true →
  permission (RList (cu_roles u)) reqs msg = raise (PermissionError msg).
Proof. intros Hu Hreqs. unfold permission. by rewrite household_require. Qed.

Lemma refused_gate {S A} I (e : exn) (k : M S A) : preserves I ((raise e : M S unit) ;; k).
Proof. by intros s Hs. Qed.
Lemma refusing_preserves {S A} I v (m : M S A) : preserves I m → preserves I (refusing v m).
Proof. intros H. apply preserves_try_except; [done|]. intros e. apply preserves_raise. Qed.
Lemma forbidding_preserves {S A} I (m : M S A) : preserves I m → preserves I (forbidding m).
Proof. intros H. apply preserves_try_except; [done|]. intros e. apply preserves_raise. Qed.

(** What stays: every table but enrollments and payments; notifications are
    only added. *)
Record enrollment_frame (s0 s : TenantDB) : Prop := {
  xf_rest : s = s0 <| enrollments := enrollments s |> <| payments := payments s |>
                   <| notifications := notifications s |> <| nextid := nextid s |>;
  xf_notes : notifications s0 `prefix_of` notifications s }.
#[export] Instance enrollment_frame_preorder : PreOrder enrollment_frame.
Proof.
  split.
  - intros s. constructor; [by destruct s|done].
  - intros s1 s2 s3 [H1 Hn1] [H2 Hn2]. constructor; [|by etransitivity]. rewrite H2, H1. done.
Qed.

Section household.
Context (u : CurrentUser) (Hu : household u) (s0 : TenantDB).
Abbreviation framed := (preserves (enrollment_frame s0)).

Lemma framed_step (f : TenantDB → TenantDB) : (∀ s, enrollment_frame s (f s)) → framed (modify f).
Proof. clear Hu. intros H. apply preserves_modify. intros s Hs. etransitivity; [exact Hs|apply H]. Qed.

Lemma framed_enroll st m state t p : framed (enroll_student st m state t p).
Proof.
  clear Hu. unfold enroll_student, get_class_map_by_id, get_event_by_id, get_student_by_id,
    get_enrollments_for_student_and_event, get_enrollment_by_id, create_enrollment, create_payment, check_money,
    bind_bigint, check_state, check, check_fk, check_fk_opt, insert_serial. preserve.
  all: by apply framed_step.
Qed.

Lemma framed_decide e state : framed (update_enrollment_approval e state u).
Proof.
  clear Hu. unfold update_enrollment_approval, get_enrollment_by_id, can_parent_approve_for_student,
    is_student_linked_to_parent, parent_decision, teacher_decision, update_enrollment_state, fail, bind_bigint,
    check_state, check, check_fk_opt. preserve.
  all: by apply framed_step.
Qed.

Lemma framed_cancel e : framed (cancel_enrollment_route e u).
Proof.
  clear Hu. unfold cancel_enrollment_route. apply preserves_bind; [apply preserves_guard_or|]. intros _. apply refused_preserves.
  unfold cancel_enrollment, get_enrollment_by_id, may_cancel, can_parent_approve_for_student, get_payment_by_enrollment,
    get_class_map_by_id, get_class_by_id, create_notification, delete_enrollment, bind_bigint_not_null, bind_bigint,
    check, check_fk. preserve.
  all: lazymatch goal with |- preserves _ (lift ?r) => by destruct r; intros s | _ => apply framed_step end.
  all: intros s; constructor; [done|cbn]. all: first [done|by apply prefix_app_r].
Qed.

(** A body behind a gate is not reached; the wrappers only rename errors. *)
Ltac framed_gate :=
  lazymatch goal with
  | |- preserves _ (mbind _ (gate _ _ _)) => rewrite (household_gate u _ _ Hu) by (vm_compute; reflexivity); apply refused_gate
  | |- preserves _ (refusing _ _) => apply refusing_preserves
  | |- preserves _ (forbidding _) => apply forbidding_preserves
  | |- preserves _ (mbind _ (guard_or false _)) => apply refused_guard_preserves
  | |- preserves _ (mbind _ (mbind _ _)) => apply preserves_assoc
  | |- preserves _ (mbind _ _) => apply preserves_bind; [|intros ?]
  | |- preserves _ (mret _) => apply preserves_ret
  end.

Lemma framed_academic r : framed (run_academic u r).
Proof using Hu.
  destruct r; cbn [run_academic]; try apply void_preserves; try (apply framed_decide || apply framed_cancel).
  all: lazymatch goal with
       | |- preserves _ (enroll_student_route _ _ _) => idtac
       | _ =>
           unfold post_level, put_level, delete_level_route, setup_academic_structure, commit_import_route, post_class,
             put_class, delete_class_route, preview_import_route, put_student_class, bulk_enroll, link_parent_student, post_academic_year,
             create_rollover, override_line_route, preview_rollover_route, commit_rollover_route;
           unfold create_level, AcademicSvc.update_level, AcademicSvc.delete_level, save_academic_structure_svc,
             commit_structure_import, preview_structure_import, uploaded_rows, create_class, AcademicSvc.update_class, AcademicSvc.delete_class,
             AcademicSvc.reassign_student_class, AcademicSvc.bulk_reassign_students, link_student_parent,
             AcademicSvc.create_academic_year, generate_rollover_plan, override_rollover_line, preview_rollover,
             commit_rollover;
           rewrite ?(household_denied_any u _ Hu), ?(household_denied u _ Hu) by (vm_compute; reflexivity);
           cbn [orb]; solve [repeat framed_gate]
       end.
  unfold enroll_student_route. apply preserves_bind; [apply initial_decision_preserves|]. intros d.
  apply refused_value_preserves. apply preserves_bind; [apply framed_enroll|]. intros i.
  unfold get_enrollment_by_id. preserve.
Qed.
End household.

(** *** The whole router *)
(** What stays of a school: every table but enrollments and payments; only
    new notifications and new entries of the audit trail. *)
Record household_frame (s0 s : TenantDB) : Prop := {
  hf_rest : s = s0 <| enrollments := enrollments s |> <| payments := payments s |>
                   <| notifications := notifications s |> <| audit_log := audit_log s |> <| nextid := nextid s |>;
  hf_notes : notifications s0 `prefix_of` notifications s;
  hf_trail : audit_log s0 `prefix_of` audit_log s }.
#[export] Instance household_frame_preorder : PreOrder household_frame.
Proof.
  split.
  - intros s. constructor; [by destruct s|done|done].
  - intros s1 s2 s3 [H1 Hn1 Ha1] [H2 Hn2 Ha2]. constructor; [|by etransitivity..]. rewrite H2, H1. done.
Qed.

Lemma enrollment_household s s' : enrollment_frame s s' → household_frame s s'.
Proof. intros [H1 H2]. constructor; [|done|by rewrite H1]. rewrite H1. done. Qed.

Definition school_at (w : World) (t : string) : TenantDB := default empty_db (schools w !! t).
(** Of the control plane, everything stays. *)
Record platform_frame (w0 w : World) : Prop := {
  pf_rest : w = w0 <| schools := schools w |>;
  pf_schools : ∀ t, household_frame (school_at w0 t) (school_at w t) }.
#[export] Instance platform_frame_preorder : PreOrder platform_frame.
Proof.
  split.
  - intros w. constructor; [by destruct w|done].
  - intros w1 w2 w3 [H1 Hs1] [H2 Hs2]. constructor; [by rewrite H2, H1|]. intros t.
    etransitivity; [apply Hs1|apply Hs2].
Qed.

Section platform.
Context (u : CurrentUser) (Hu : household u) (w0 : World).
Hypothesis Hopen : from_option (λ t, t ∈ open_pools w0) True (cu_tenant_id u).
Abbreviation kept := (preserves (platform_frame w0)).

Lemma kept_school {A} t (m : DB A) : (∀ s, preserves (household_frame s) m) → kept (in_school t m).
Proof.
  intros Hm w Hw. rewrite wp_in_school.
  assert (∀ s', household_frame (school_at w t) s' → platform_frame w0 (w <| schools ::= <[t := s']> |>)) as H.
  { intros s' Hs'. etransitivity; [exact Hw|]. constructor; [by destruct w|]. intros t'. unfold school_at at 2. cbn.
    destruct (decide (t = t')) as [<-|Ht]; [by rewrite lookup_insert_eq|by rewrite lookup_insert_ne by done]. }
  eapply wp_mono; [by apply (Hm (school_at w t))| |]; intros ? s' Hs'; by apply H.
Qed.

(** The gate in front of the router has opened the pool of the school. *)
Lemma kept_pool {A} t (m : DB A) :
  t ∈ open_pools w0 → (∀ s, preserves (household_frame s) m) → kept (with_school t m).
Proof.
  intros Ht Hm w Hw. unfold with_school, get_db_pool. wp_simpl.
  rewrite bool_decide_eq_true_2 by (by rewrite (pf_rest _ _ Hw)). wp_simpl. by apply kept_school.
Qed.

Lemma kept_record a act et eid oc cf md s :
  preserves (household_frame s) (record email_hmac a act et eid oc cf md).
Proof.
  unfold record, check_fk_opt, check_fk, check. preserve.
  all: apply preserves_modify; intros s1 Hs1; (etransitivity; [exact Hs1|]); constructor; [done|done|cbn].
  all: first [done|by apply prefix_app_r].
Qed.

(** The school of the token, which is open; without one the request fails. *)
Lemma kept_tenant {A} (k : string → CP A) :
  (∀ t, t ∈ open_pools w0 → kept (k t)) → kept (tenant_id ← tenant_of u; k tenant_id).
Proof using Hopen.
  intros Hk w Hw. unfold tenant_of. rewrite wp_bind, wp_from_option_or. revert Hopen.
  destruct (cu_tenant_id u) as [t|]; [|done]. cbn. intros Ht. by apply Hk.
Qed.

Lemma kept_try {A} (m : CP A) (h : exn → exn) : kept m → kept (try_except m (λ e, raise (h e))).
Proof. intros Hm. apply preserves_try_except; [done|]. intros e. apply preserves_raise. Qed.

Lemma kept_decrypt token : kept (_decrypt fernet_decrypt token).
Proof. apply preserves_from_option_or. Qed.

(** Reading a health record is no privilege of the staff here: the gate in
    front of the endpoint is [require_permission] (OPA). *)
Lemma kept_health i elevated : kept (get_health fernet_decrypt uuid_text email_hmac u i elevated).
Proof using Hopen.
  apply kept_tenant. intros t Ht. apply preserves_try_except; [|intros []; apply preserves_raise].
  apply preserves_bind; [|intros ?; apply preserves_from_option_or]. unfold get_health_record. apply preserves_bind.
  - apply kept_pool; [done|]. intros s. unfold get_student_health_by_student_id, bind_bigint, check. preserve.
  - intros [[id r]|]; [|apply preserves_ret]. repeat (apply preserves_bind; [apply kept_decrypt|intros ?]).
    apply preserves_bind; [|intros ?; apply preserves_ret]. unfold swallow.
    apply preserves_try_except; [|intros ?; apply preserves_ret].
    apply preserves_bind; [|intros ?; apply preserves_ret]. apply kept_pool; [done|]. intros s. apply kept_record.
Qed.

Lemma kept_academic r s : preserves (household_frame s) (run_academic u r).
Proof using Hu.
  intros s1 H1. eapply wp_mono; [apply (framed_academic u Hu s1 r); reflexivity|..]; cbn beta; intros ? s2 H2;
    (etransitivity; [exact H1|by apply enrollment_household]).
Qed.

(** The services refuse a household before they do anything. *)
Ltac household_refused :=
  rewrite (household_permission u _ _ Hu) by (vm_compute; reflexivity); apply refused_gate.

Lemma kept_student r : kept (run_student u r).
Proof using Hu Hopen.
  destruct r as [r|e p n|e p|e p|e p n c g b|i n m c|i el]; cbn [run_student].
  all: try (apply preserves_bind; [|intros ?; apply preserves_ret]).
  - apply kept_tenant. intros t Ht. apply kept_pool; [done|]. apply kept_academic.
  - apply refusing_preserves, kept_tenant. intros t _. unfold create_teacher. household_refused.
  - unfold create_manager. rewrite !(household_denied u _ Hu) by (vm_compute; reflexivity). by intros w Hw.
  - unfold create_school_admin. rewrite !(household_denied u _ Hu) by (vm_compute; reflexivity). by intros w Hw.
  - apply refusing_preserves, kept_tenant. intros t _. unfold UserAdmin.create_student.
    rewrite (household_permission u _ _ Hu) by (vm_compute; reflexivity). by intros w Hw.
  - apply kept_tenant. intros t _. apply preserves_try_except; [|intros []; apply preserves_raise].
    unfold create_or_update_health_record. household_refused.
  - apply kept_health.
Qed.
End platform.

(** C22: families cannot touch the school's structure. Whatever requests
    parents, students and accounts without a role yet send to the students
    router, in any order: every POST, PUT, PATCH and DELETE (levels, classes,
    the academic structure and its import, placements, parent links, years,
    rollovers, enrollments, accounts of teachers, managers, administrators
    and students, health records) and the reading of a health record. The
    platform's tables stay as they are, and of every school all tables but
    these: enrollments and their payments change, notifications and entries
    of the audit trail are added. (The gate in front of the router has opened
    the pool of each caller's school.) *)
Theorem households_only_enroll reqs w :
  Forall (λ q, household q.1 ∧ from_option (λ t, t ∈ open_pools w) True (cu_tenant_id q.1)) reqs →
  platform_frame w (run_students reqs w).
Proof.
  intros H. assert (∀ w', platform_frame w w' → platform_frame w (run_students reqs w')) as Hrun; [|by apply Hrun].
  induction H as [|[u r] reqs [Hu Ho] _ IH]; intros w' Hw'; [done|]. cbn [run_students]. apply IH.
  by apply preserves_run; [apply kept_student|].
Qed.
End requests.

(** ** A concrete run *)
Definition demo_household : list (CurrentUser * student_request) :=
  let at_a u := {| cu_id := cu_id u; cu_tenant_id := Some "tenant_a"; cu_role := cu_role u; cu_email := cu_email u;
                   cu_roles := cu_roles u |} in
  let parent := at_a demo_parent in
  [(parent, Academic (PostEnrollment 31 51)); (parent, Academic (DeleteClass 21));
   (parent, Academic (LinkParent 32 8 {| pl_relationship := Some "father"; pl_primary := true; pl_can_approve := true |}));
   (parent, PostSchoolAdmin "me@s.edu" "pw"); (parent, PostHealth 31 "1" "2" "3"); (parent, GetHealth 31 true)].
Definition demo_open : World := demo_platform <| schools ::= <["tenant_a" := demo_db]> |>.

Lemma households_only_enroll_witness :
  let id := λ e : string, e in
  let run := run_students id (λ _, Ok []) (λ _ v, v) Some pretty (λ _ v, v) demo_household in
  platform_frame demo_open (run demo_open) ∧
  size (enrollments (school_at (run demo_open) "tenant_a")) = 1%nat.
Proof.
  cbv zeta. split; [|vm_compute; reflexivity].
  apply (households_only_enroll (λ e, e) (λ _, Ok []) (λ _ v, v) Some pretty (λ _ v, v) demo_household demo_open).
  assert ("tenant_a" ∈ open_pools demo_open) as Ho by (apply (bool_decide_eq_true_1 _); vm_compute; reflexivity).
  unfold demo_household. cbv zeta. repeat (apply Forall_cons; split; [split; [|exact Ho]|]); [..|constructor].
  all: apply (bool_decide_eq_true_1 _); vm_compute; reflexivity.
Defined.

(** An admin's token opens the same requests. *)
Example admins_may :
  let hmac := λ e : string, e in let workbook := λ _ : list ascii, Ok [] in
  students (run_academic hmac workbook (demo_actor "6" "school_admin") (PutStudentClass 31 None) demo_db).2
    ≠ students demo_db.
Proof. cbv zeta. intros H. apply (f_equal (λ t, st_class <$> t !! 31)) in H. revert H. by vm_compute. Qed.
