(* ===== verification/Account.v ===== *)
(** * The account router

    The endpoints of src/app/domains/auth/router.py that a caller uses for
    the own account: login, selection of a school, refresh, /me, the profile,
    the preferences, the password, and the catalog of roles; and what these
    requests can change. Registration, invitations and the administration of
    users are in Registration.v and UserAdmin.v. *)
From S2P Require Import Prelude PyText Authz Store AcademicRepo EventRepo Demo AcademicSvc Structure School World UserRepo Provision ControlPlane Membership Session Login Registration UserAdmin Listings Family.

(** [except ValueError: 401, except Exception: 500] *)
Definition session_error (e : exn) : exn :=
  match e with
  | ValueError m => HTTPException 401 m
  | _ => HTTPException 500 (exn_text e)
  end.
(** [except HTTPException: raise, except Exception: 500] *)
Definition unexpected (e : exn) : exn :=
  match e with
  | HTTPException _ _ => e
  | _ => HTTPException 500 (exn_text e)
  end.
Definition unexpected_is_500 {A} (m : CP A) : CP A := try_except m (λ e, raise (unexpected e)).

(** ** The request schemas *)
Definition is_alpha (c : Ascii.ascii) : bool := is_upper c || is_lower c.
(** [ChangePasswordRequest] *)
Definition _validate_new_password_strength (v : string) : result string :=
  if str_len v <? 8 then Raise (ValueError "New password must be at least 8 characters long")
  else if negb (existsb is_alpha (chars v)) || negb (existsb is_digit (chars v))
  then Raise (ValueError "New password must contain at least one letter and one digit")
  else Ok v.
(** [UserPreferencesUpdateRequest]; [zone] is the lookup in the time zone
    database. *)
Definition _validate_timezone (zone : string → bool) (v : option string) : result (option string) :=
  if from_option zone true v then Ok v else Raise (ValueError "Unknown IANA timezone").
(** What a validator raises is a 422. *)
Definition validated {A} (r : result A) : CP A :=
  match r with Ok a => mret a | Raise e => raise (HTTPException 422 (exn_text e)) end.

Definition selected (u : CurrentUser) : option string :=
  match cu_tenant_id u with Some t => if bool_decide (t = "") then None else Some t | None => None end.

Section account.
Context (sha256 : string → string) (token_urlsafe : Z → string)
        (pwd_verify : string → string → option bool) (pwd_hash : Z → string → string)
        (uuid_text : Z → string) (set_order : list string → list string) (zone : string → bool).

(** ** Sessions *)
Definition login (email password : string) (tenant_id : option string) : CP login_answer :=
  try_except (login_user sha256 token_urlsafe pwd_verify uuid_text set_order email password tenant_id)
    (λ e, raise (session_error e)).
Definition redeem (selection_token tenant_id : string) : CP login_answer :=
  try_except (login_redeem sha256 token_urlsafe uuid_text selection_token tenant_id) (λ e, raise (session_error e)).
Definition refresh (refresh_token : string) : CP (claims * string) :=
  try_except (rotate_refresh_token sha256 token_urlsafe uuid_text refresh_token) (λ e, raise (session_error e)).

(** ** GET /me *)
Record me_entry := {
  me_tenant : string; me_role : string; me_school_name : option field_value; me_currency : option field_value;
  me_timezone : option field_value; me_setup : string }.
Definition me_school (m : string * string) : CP me_entry :=
  try_except
    (summary ← with_school m.1 get_locale_summary;
     setup_state ← with_school m.1 get_setup_state;
     mret {| me_tenant := m.1; me_role := m.2; me_school_name := ls_school_name summary;
             me_currency := ls_currency summary; me_timezone := ls_timezone summary;
             me_setup := ss_status setup_state |})
    (λ _, mret {| me_tenant := m.1; me_role := m.2; me_school_name := None; me_currency := None;
                  me_timezone := None; me_setup := "error" |}).
Record me_answer := {
  ma_user_id : string; ma_active_tenant_id : option string; ma_role : string; ma_roles : list string;
  ma_email : string; ma_memberships : list me_entry }.
(** [memberships] are those the caller was identified with. *)
Definition me (u : CurrentUser) (memberships : list (string * string)) : CP me_answer :=
  entries ← map_each memberships me_school;
  mret {| ma_user_id := id_text uuid_text (cu_id u); ma_active_tenant_id := cu_tenant_id u; ma_role := cu_role u;
          ma_roles := cu_roles u; ma_email := cu_email u; ma_memberships := entries |}.

(** ** Preferences *)
Definition get_user_preferences (user_id : pyid) : DB (option (option string * option string)) :=
  match user_parse_id user_id with
  | PInt n =>
      check ((- 2 ^ 63 <=? n) && (n <? 2 ^ 63)) "value out of int64 range" ;;
      gets (λ s, (λ r, (us_language r, us_timezone r)) <$> users s !! n)
  | PUuid _ => raise (DatabaseError "invalid input for query argument")
  | _ => mret None
  end.
Definition get_my_preferences (u : CurrentUser) : CP (option string * option string) :=
  tenant_id ← tenant_of u;
  prefs ← with_school tenant_id (get_user_preferences (cu_id u));
  mret (default (None, None) prefs).
Definition update_my_preferences (language timezone : option string) (u : CurrentUser) : CP (option string * option string) :=
  timezone ← validated (_validate_timezone zone timezone);
  tenant_id ← tenant_of u;
  prefs ← with_school tenant_id (update_user_preferences (cu_id u) language timezone);
  from_option_or prefs (HTTPException 404 "User not found").

(** ** The profile *)
Record profile_out := {
  po_email : string; po_phone : option string; po_address : option string; po_class : option Z;
  po_class_name : option string; po_parent_name : option string; po_parent_email : option string;
  po_students : option (list (string * string)) }.
(** What the row of the account gives; without one, the address of the token. *)
Definition basic_profile (u : CurrentUser) (row : option (string * option string * option string)) : profile_out :=
  {| po_email := match row with
                 | Some (e, _, _) => e
                 | None => if bool_decide (cu_email u = "") then "user@school.com" else cu_email u
                 end;
     po_phone := row ≫= λ r, r.1.2; po_address := row ≫= snd; po_class := None; po_class_name := None;
     po_parent_name := None; po_parent_email := None; po_students := None |}.

Definition parent_profile (u : CurrentUser) : CP profile_out :=
  profile ← (if bool_decide (cu_email u = "") then mret None else ControlPlane.get_parent_by_email (cu_email u));
  students ← match profile, selected u with
    | Some _, Some t =>
        get_db_pool t ;;
        local_user ← in_school t (get_user_by_email (cu_email u));
        match local_user with
        | Some (id, _) =>
            linked_students ← in_school t (get_linked_students_for_parent (PInt id));
            mret (Some ((λ v, (st_name (sv_row v), sv_email v)) <$> linked_students))
        | None => mret (Some [])
        end
    | _, _ => mret None
    end;
  let p := basic_profile u ((λ kv : Z * parent_row, (pa_email kv.2, pa_phone kv.2, pa_address kv.2)) <$> profile) in
  mret {| po_email := po_email p; po_phone := po_phone p; po_address := po_address p; po_class := None;
          po_class_name := None; po_parent_name := None; po_parent_email := None; po_students := students |}.

(** The JOIN with [levels] of [get_classes_by_head_teacher]. *)
Definition headed_class (s : TenantDB) (kv : Z * class_row) : option (Z * string) :=
  (λ l, (kv.1, cl_name kv.2 +:+ " (" +:+ lv_name l +:+ ")")) <$> levels s !! cl_level kv.2.

(** A uuid, or an integer that does not fit, reads as no user. *)
Definition get_user_profile (user_id : pyid) : DB (option (Z * user_row)) :=
  match user_parse_id user_id with
  | PInt n => gets (λ s, pair n <$> users s !! n)
  | _ => mret None
  end.

Definition account_profile (u : CurrentUser) : DB profile_out :=
  by_email ← get_user_by_email (cu_email u);
  row ← match by_email with
        | Some _ => mret by_email
        | None => if let t := chars (id_text uuid_text (cu_id u)) in negb (bool_decide (t = [])) && forallb is_digit t
                  then get_user_profile (cu_id u) else mret None
        end;
  let p := basic_profile u ((λ kv : Z * user_row, (us_email kv.2, us_phone kv.2, us_address kv.2)) <$> row) in
  match row with
  | None => mret p
  | Some (id, _) =>
      if bool_decide (cu_role u = "student") then
        student_info ← get_student_by_id (PInt id);
        parent_info ← get_parent_for_student (PInt id);
        mret {| po_email := po_email p; po_phone := po_phone p; po_address := po_address p;
                po_class := student_info ≫= λ v, st_class (sv_row v); po_class_name := student_info ≫= sv_class_name;
                po_parent_name := pv_name <$> parent_info; po_parent_email := pv_email <$> parent_info;
                po_students := None |}
      else if bool_decide (cu_role u = "teacher") then
        teacher_classes ← get_classes_by_head_teacher (PInt id);
        s ← gets (λ s, s);
        let class_info := head (omap (headed_class s) teacher_classes) in
        mret {| po_email := po_email p; po_phone := po_phone p; po_address := po_address p;
                po_class := fst <$> class_info; po_class_name := snd <$> class_info;
                po_parent_name := None; po_parent_email := None; po_students := None |}
      else mret p
  end.

Definition get_profile (u : CurrentUser) : CP profile_out :=
  unexpected_is_500 (
    if bool_decide (cu_role u = "parent") then parent_profile u
    else match selected u with
         | Some t => with_school t (account_profile u)
         | None => mret (basic_profile u None)
         end).

(** The school is written first; a parent unknown to the control plane is
    the 404 that the last clause turns into a 500. *)
Definition update_profile (phone address : option string) (u : CurrentUser) : CP unit :=
  try_except
    (tenant_id ← tenant_of u;
     with_school tenant_id (update_user_profile (cu_id u) phone address) ;;
     if bool_decide (cu_role u = "parent") then
       parent ← ControlPlane.get_parent_by_email (cu_email u);
       parent ← from_option_or parent (HTTPException 404 "Parent not found");
       update_parent_profile parent.1 phone address
     else mret tt)
    (λ e, raise (HTTPException 500 (exn_text e))).

Definition change_my_password (current_password new_password : string) (u : CurrentUser) : CP unit :=
  new_password ← validated (_validate_new_password_strength new_password);
  try_except
    (change_password pwd_verify pwd_hash (cu_email u) (cu_role u) (cu_tenant_id u) current_password new_password)
    (λ e, raise (admin_error (λ _, 400) e)).

Definition get_parent_profile (parent_id : Z) : CP (option (string * option string * option string)) :=
  gets (λ w, (λ r, (pa_email r, pa_phone r, pa_address r)) <$> parents w !! parent_id).
Definition get_parent_profile_by_email (email : option string) (u : CurrentUser) :
    CP (string * option string * option string) :=
  guard_or (mem (cu_role u) ["teacher"; "school_admin"]) (HTTPException 403 "Only staff can view parent details") ;;
  guard_or (from_option (λ e, negb (bool_decide (e = ""))) false email)
    (HTTPException 400 "email query parameter is required") ;;
  unexpected_is_500 (
    parent ← ControlPlane.get_parent_by_email (default "" email);
    parent ← from_option_or parent (HTTPException 404 "Parent not found");
    profile ← get_parent_profile parent.1;
    from_option_or profile (HTTPException 404 "Parent profile not found")).
End account.

(** ** Schools and invitations *)
Definition error_500 {A} (m : CP A) : CP A := try_except m (λ e, raise (HTTPException 500 (exn_text e))).
Definition list_tenants : CP (list string) := error_500 get_all_tenants.
Definition create_tenant_endpoint (provision_organization : string → string → option exn) (tenant_id name : string) : CP unit :=
  error_500 (create_school provision_organization tenant_id name).
(** The check of a code before registration. *)
Definition get_invitation_endpoint (uuid_text : Z → string) (code : string) : CP invite :=
  try_except (get_invitation uuid_text code)
    (λ e, raise (match e with ValueError m => HTTPException 400 m | _ => HTTPException 500 (exn_text e) end)).

(** ** The catalog of roles *)
Record role_entry := { re_id : string; re_label : string; re_description : string }.
Definition COMPOSITE_ROLES : list role_entry :=
  [{| re_id := "super_admin"; re_label := "Super Administrator";
      re_description := "Full platform administration across all tenants and schemas." |};
   {| re_id := "school_admin"; re_label := "School Administrator";
      re_description := "Full school-level management, staffing, and settings." |};
   {| re_id := "manager"; re_label := "Operations Manager";
      re_description := "Event proposal review, pricing, publishing, and budget approvals." |};
   {| re_id := "teacher"; re_label := "Teacher / Class Lead";
      re_description := "Draft event creation, resource requests, and student approvals." |};
   {| re_id := "parent"; re_label := "Parent / Guardian";
      re_description := "Child trip view, enrollment approval, and payment." |};
   {| re_id := "student"; re_label := "Student";
      re_description := "Browse class events and submit enrollment requests." |};
   {| re_id := "event_teacher"; re_label := "Event Lead Teacher";
      re_description := "Designated lead for event execution." |};
   {| re_id := "pending"; re_label := "Pending / Unassigned";
      re_description := "Awaiting role verification and access approval." |}].
Definition CATEGORIES : list (string * list string) :=
  [("Events Planning & Approvals",
    ["event:create"; "event:edit"; "event:patch"; "event:delete"; "event:clone"; "event:propose";
     "event:submit"; "event:review"; "event:publish"; "event:view_draft"; "event:audience_edit";
     "event:audience_predict"]);
   ("Resources & Pricing",
    ["resource:create"; "resource:view"; "resource:read"; "resource:edit"; "resource:update";
     "resource:delete"; "resource:price"; "resource:set_cost"; "resource_type:create"; "resource_type:read"]);
   ("Enrollments & Roster",
    ["enrollment:request"; "enrollment:parent_approve"; "enrollment:teacher_approve"; "enrollment:cancel";
     "enrollment:view_roster"; "enrollment:read"]);
   ("Billing & Invoices",
    ["billing:invoice"; "billing:pay"; "billing:refund"; "billing:audit"; "billing:view_payment";
     "subsidy:manage"]);
   ("Health & Safety",
    ["health:view"; "health:manage"; "health:manage_child"; "safety:manage"]);
   ("Academic & Directory",
    ["school:write"; "school:read"; "level:create"; "level:manage"; "level:read"; "class:create";
     "class:edit"; "class:update"; "class:read"; "class:assign_teacher"; "user:create"; "user:invite";
     "user:delete"; "user:link"; "user:view"; "user:read"; "teacher:create"; "teacher:read"; "teacher:write";
     "parent:read"; "student:create"; "student:read"; "student:view_linked"]);
   ("Announcements & Feedback",
    ["announcement:manage"; "notification:send"; "notification:read"; "notification:mark_read";
     "feedback:view"; "feedback:create"])].
(** The lists of permissions are sets turned into lists; their order is not
    defined. *)
Definition get_roles_catalog :
    list role_entry * (string → option (list string)) * list (string * list string) :=
  (COMPOSITE_ROLES, COMPOSITE_ROLE_PERMISSIONS, CATEGORIES).

(** ** What a request on the own account changes *)
Inductive own_request :=
  | UpdateProfile (phone address : option string)
  | UpdatePreferences (language timezone : option string)
  | ChangePassword (current_password new_password : string).

Section requests.
Context (pwd_verify : string → string → option bool) (pwd_hash : Z → string → string) (zone : string → bool).

Definition run_own (u : CurrentUser) (r : own_request) : CP unit :=
  match r with
  | UpdateProfile p a => update_profile p a u
  | UpdatePreferences l z => update_my_preferences zone l z u ;; mret tt
  | ChangePassword c n => change_my_password pwd_verify pwd_hash c n u
  end.
Fixpoint run_owns (reqs : list (CurrentUser * own_request)) (w : World) : World :=
  match reqs with [] => w | (u, r) :: rest => run_owns rest (run_own u r w).2 end.
End requests.

(** The row of a school that belongs to the caller: the one of the id or of
    the email of the token, in the school of the token. *)
Definition owns_row (us : list CurrentUser) (t : string) (k : Z) (r : user_row) : Prop :=
  ∃ u, u ∈ us ∧ cu_tenant_id u = Some t ∧
    (user_parse_id (cu_id u) = PInt k ∨ upper_eq (us_email r) (str_strip (cu_email u)) = true).
(** Contact, preferences and password. *)
Definition same_rights (r r' : user_row) : Prop :=
  us_email r' = us_email r ∧ us_role r' = us_role r ∧ us_roles r' = us_roles r ∧ us_permissions r' = us_permissions r.

Record own_frame (us : list CurrentUser) (w w' : World) : Prop := {
  of_ok : schools_ok w';
  of_users : ∀ t k r, users (school w t) !! k = Some r →
    ∃ r', users (school w' t) !! k = Some r' ∧ same_rights r r' ∧ (r' = r ∨ owns_row us t k r);
  of_school : ∀ t, only_adds (school w t) ((school w' t) <| users := users (school w t) |>);
  of_parents : ∀ k, match parents w !! k, parents w' !! k with
    | None, None => True
    | Some r, Some r' => pa_email r' = pa_email r ∧
        (r' = r ∨ ∃ u, u ∈ us ∧ cu_role u = "parent" ∧ ci_eq (pa_email r) (cu_email u) = true)
    | _, _ => False
    end;
  of_supers : ∀ k, match super_admins w !! k, super_admins w' !! k with
    | None, None => True
    | Some r, Some r' => sa_email r' = sa_email r ∧
        (r' = r ∨ ∃ u, u ∈ us ∧ cu_role u = "super_admin" ∧ ci_eq (sa_email r) (cu_email u) = true)
    | _, _ => False
    end;
  of_rest : w' = w <| schools := schools w' |> <| open_pools := open_pools w' |> <| tenants := tenants w' |>
                   <| parents := parents w' |> <| super_admins := super_admins w' |> <| cp_next := cp_next w' |> }.

Lemma owns_mono us us' t k r : us ⊆ us' → owns_row us t k r → owns_row us' t k r.
Proof. intros Hs (u & Hu & H). exists u. auto. Qed.

Lemma own_frame_mono us us' w w' : us ⊆ us' → own_frame us w w' → own_frame us' w w'.
Proof.
  intros Hs [H0 H1 H2 H3 H4 H5]. constructor; [done| |done| | |done].
  - intros t k r Hr. destruct (H1 t k r Hr) as (r' & Hr' & Hsame & Ho). exists r'. split; [done|]. split; [done|].
    destruct Ho; [by left|right]. by eapply owns_mono.
  - intros k. specialize (H3 k). destruct (parents w !! k), (parents w' !! k); try done.
    destruct H3 as [? [?|(u & ? & ?)]]; (split; [done|]); [by left|right; exists u; auto].
  - intros k. specialize (H4 k). destruct (super_admins w !! k), (super_admins w' !! k); try done.
    destruct H4 as [? [?|(u & ? & ?)]]; (split; [done|]); [by left|right; exists u; auto].
Qed.

Lemma own_frame_refl us w : schools_ok w → own_frame us w w.
Proof.
  intros Hw. constructor; [done| | | | |by destruct w].
  - intros t k r Hr. exists r. split; [done|]. split; [done|]. by left.
  - intros t. replace ((school w t) <| users := users (school w t) |>) with (school w t) by by destruct (school w t).
    apply only_adds_refl.
  - intros k. destruct (parents w !! k); auto.
  - intros k. destruct (super_admins w !! k); auto.
Qed.

Lemma only_adds_users k s s' : only_adds s s' → only_adds (s <| users := k |>) (s' <| users := k |>).
Proof. intros [_ H2 H3 H4 H5 H6]. constructor; cbn; try done. by rewrite H6. Qed.

Lemma own_frame_trans us w1 w2 w3 : own_frame us w1 w2 → own_frame us w2 w3 → own_frame us w1 w3.
Proof.
  intros [A0 A1 A2 A3 A4 A5] [B0 B1 B2 B3 B4 B5]. constructor; [done| | | | |].
  - intros t k r Hr. destruct (A1 t k r Hr) as (r2 & Hr2 & (E1 & E2 & E3 & E4) & Ho).
    destruct (B1 t k r2 Hr2) as (r3 & Hr3 & (F1 & F2 & F3 & F4) & Ho'). exists r3. split; [done|].
    split; [unfold same_rights; by rewrite F1, F2, F3, F4|].
    destruct Ho' as [-> |(u & Hu & Ht & Hk)]; [done|]. right. exists u. rewrite E1 in Hk. auto.
  - intros t. eapply only_adds_trans; [apply A2|]. exact (only_adds_users (users (school w1 t)) _ _ (B2 t)).
  - intros k. specialize (A3 k). specialize (B3 k).
    destruct (parents w1 !! k) as [r1|], (parents w2 !! k) as [r2|], (parents w3 !! k) as [r3|]; try done.
    destruct A3 as [E1 Ho], B3 as [E2 [-> |(u & Hu & Hrole & Hk)]]; [done|]. split; [by rewrite E2|].
    right. exists u. rewrite E1 in Hk. auto.
  - intros k. specialize (A4 k). specialize (B4 k).
    destruct (super_admins w1 !! k) as [r1|], (super_admins w2 !! k) as [r2|], (super_admins w3 !! k) as [r3|]; try done.
    destruct A4 as [E1 Ho], B4 as [E2 [-> |(u & Hu & Hrole & Hk)]]; [done|]. split; [by rewrite E2|].
    right. exists u. rewrite E1 in Hk. auto.
  - rewrite B5 at 1. rewrite A5 at 1. by destruct w1.
Qed.

(** ** The steps *)
Section steps.
Context (u : CurrentUser).
Abbreviation framed w := (own_frame [u] w).

(** A computation with its frame; [Q] is what it leaves besides. *)
Definition stays {A} (w : World) (m : CP A) (Q : A → World → Prop) : Prop :=
  wp m (λ a w', framed w w' ∧ Q a w') (λ _ w', framed w w') w.

Lemma stays_bind {A B} w (m : CP A) (k : A → CP B) Q Q' :
  stays w m Q → (∀ a w', framed w w' → Q a w' → stays w' (k a) Q') → stays w (m ≫= k) Q'.
Proof.
  intros Hm Hk. unfold stays. rewrite wp_bind. eapply wp_mono; [exact Hm| |done]. intros a w' [Hf HQ].
  eapply wp_mono; [by apply Hk| |]; cbn.
  - intros b w2 [Hf' HQ']. split; [by eapply own_frame_trans|done].
  - intros e w2 Hf'. by eapply own_frame_trans.
Qed.

Lemma stays_ret {A} w (a : A) (Q : A → World → Prop) : schools_ok w → Q a w → stays w (mret a) Q.
Proof. intros Hw HQ. unfold stays. rewrite wp_ret. split; [by apply own_frame_refl|done]. Qed.
Lemma stays_raise {A} w e (Q : A → World → Prop) : schools_ok w → stays w (raise e) Q.
Proof. intros Hw. unfold stays. rewrite wp_raise. by apply own_frame_refl. Qed.
Lemma stays_gets {A} w (f : World → A) : schools_ok w → stays w (gets f) (λ a w', w' = w ∧ a = f w).
Proof. intros Hw. unfold stays. rewrite wp_gets. split; [by apply own_frame_refl|done]. Qed.
Lemma stays_some {A} w (o : option A) e : schools_ok w → stays w (from_option_or o e) (λ a w', w' = w ∧ o = Some a).
Proof. intros Hw. destruct o; [apply stays_ret; done|by apply stays_raise]. Qed.
Lemma stays_guard w b e : schools_ok w → stays w (guard_or b e) (λ _ w', w' = w ∧ b = true).
Proof. intros Hw. destruct b; [by apply stays_ret|by apply stays_raise]. Qed.
Lemma stays_handler {A} w (m : CP A) (h : exn → exn) Q : stays w m Q → stays w (try_except m (λ e, raise (h e))) Q.
Proof. intros H. unfold stays. rewrite wp_try_except. eapply wp_mono; [exact H|done|]. intros e w' Hw'. by rewrite wp_raise. Qed.
Lemma stays_weaken {A} w (m : CP A) (Q Q' : A → World → Prop) :
  stays w m Q → (∀ a w', Q a w' → Q' a w') → stays w m Q'.
Proof. intros H HQ. eapply wp_mono; [exact H| |done]. cbn. intros a w' [? ?]. auto. Qed.

Lemma users_same (s : TenantDB) : s <| users := users s |> = s.
Proof. by destruct s. Qed.

(** Reading and opening schools. *)
Lemma opening_framed us w w' : schools_ok w → opened w w' → only_read w w' → own_frame us w w'.
Proof.
  intros Hw [Hr _] [Hok Ha]. constructor; [done| | | | |].
  - intros t k r Hk. exists r. split; [|split; [done|by left]]. eapply lookup_weaken; [exact Hk|apply Ha].
  - intros t. pose proof (only_adds_users (users (school w t)) _ _ (Ha t)) as H. by rewrite users_same in H.
  - intros k. rewrite Hr. cbn. destruct (parents w !! k); auto.
  - intros k. rewrite Hr. cbn. destruct (super_admins w !! k); auto.
  - rewrite Hr. by destruct w.
Qed.

Lemma stays_open t w : schools_ok w → stays w (get_db_pool t) (λ _ _, True).
Proof.
  intros Hw. unfold stays.
  eapply wp_mono; [apply wp_conj; [by apply wp_open|apply (wp_get_db_pool t (λ _, opened w) (λ _, opened w)); auto]| |].
  - intros a w' [H1 H2]. split; [by apply opening_framed|done].
  - intros e w' [H1 H2]. by apply opening_framed.
Qed.

(** A write to one school at most rewrites the caller's rows. *)
Lemma stays_school {A} t (m : DB A) w (Q : A → TenantDB → Prop) :
  schools_ok w → let s := school w t in
  wp m (λ a s', (s' = s ∨ ∃ k r r', users s !! k = Some r ∧ same_rights r r' ∧ owns_row [u] t k r ∧
                   s' = s <| users ::= <[k := r']> |>) ∧ Q a s') (λ _ s', s' = s) s →
  stays w (in_school t m) (λ a w', Q a (school w' t)).
Proof.
  intros Hw s Hm. unfold stays. rewrite wp_in_school. fold (school w t). fold s.
  assert (∀ s', s' = s ∨ (∃ k r r', users s !! k = Some r ∧ same_rights r r' ∧ owns_row [u] t k r ∧
     s' = s <| users ::= <[k := r']> |>) → framed w (w <| schools ::= <[t := s']> |>)) as Hf.
  { intros s' Hs'.
    assert (∀ t' k r, users (school w t') !! k = Some r → ∃ r', users (school (w <| schools ::= <[t := s']> |>) t') !! k = Some r' ∧
      same_rights r r' ∧ (r' = r ∨ owns_row [u] t' k r)) as Hu.
    { intros t' k r Hk. rewrite school_insert. destruct (decide (t = t')) as [<-|]; [|exists r; split; [done|split; [done|by left]]].
      fold s in Hk. destruct Hs' as [-> |(k0 & r0 & r1 & H0 & Hsame & Ho & ->)]; [exists r; split; [done|split; [done|by left]]|].
      cbn. destruct (decide (k0 = k)) as [<-|Hne].
      - rewrite lookup_insert_eq. exists r1. assert (r0 = r) as <- by congruence. auto.
      - rewrite lookup_insert_ne by done. exists r. split; [done|split; [done|by left]]. }
    assert (s' <| users := users s |> = s) as Hrest
      by (destruct Hs' as [-> |(k0 & r0 & r1 & H0 & Hsame & Ho & ->)]; by destruct s).
    constructor; [|exact Hu| | | |by destruct w].
    - intros t'. rewrite school_insert. destruct (decide (t = t')) as [<-|]; [|apply Hw]. pose proof (Hw t) as [[F1 F2] G1 G2]. fold s in F1, F2, G1, G2.
      destruct Hs' as [-> |(k0 & r0 & r1 & H0 & Hsame & Ho & ->)]; [by constructor|]. constructor; cbn.
      + constructor; cbn; [|done]. intros k [r Hk]. revert Hk. rewrite lookup_insert_Some. intros [[<- _]|[_ Hk]]; apply F1; by eexists.
      + intros sid Hsid. destruct (decide (k0 = sid)) as [<-|]; [rewrite lookup_insert_eq; by eexists|].
        rewrite lookup_insert_ne by done. by apply G1.
      + exact G2.
    - intros t'. rewrite school_insert. destruct (decide (t = t')) as [<-|]; [|rewrite users_same; apply only_adds_refl].
      fold s. rewrite Hrest. apply only_adds_refl.
    - intros k. cbn. destruct (parents w !! k); auto.
    - intros k. cbn. destruct (super_admins w !! k); auto. }
  eapply wp_mono; [exact Hm| |].
  - intros a s' [Hs' HQ]. split; [by apply Hf|]. rewrite school_insert, decide_True by done. exact HQ.
  - intros e s' ->. apply Hf. by left.
Qed.

Lemma wp_update_user i fits f s :
  (∀ r, same_rights r (f r)) →
  wp (update_user i fits f) (λ _ s', s' = s ∨ ∃ k r r', users s !! k = Some r ∧ same_rights r r' ∧ user_parse_id i = PInt k ∧
        s' = s <| users ::= <[k := r']> |>) (λ _ s', s' = s) s.
Proof.
  intros Hf. unfold update_user, check. destruct (user_parse_id i) as [n|n|t|]; wp_simpl; auto.
  destruct (_ && _); wp_simpl; [|done]. destruct (users s !! n) as [r|] eqn:Hr; wp_simpl; [|auto].
  destruct fits; wp_simpl; [|done]. right. exists n, r, (f r). auto.
Qed.

(** An update by an id that is the caller's: the one of the token, or of the
    row with the caller's email. *)
Lemma stays_update {A} t i fits f (g : option user_row → A) w :
  schools_ok w → (∀ r, same_rights r (f r)) →
  (∀ n r, user_parse_id i = PInt n → users (school w t) !! n = Some r → owns_row [u] t n r) →
  stays w (in_school t (row ← update_user i fits f; mret (g row))) (λ _ _, True).
Proof.
  intros Hw Hf Ho. apply (stays_school t _ w (λ _ _, True)); [done|]. cbv zeta. rewrite wp_bind.
  eapply wp_mono; [by apply wp_update_user| |done]. intros o s' H. rewrite wp_ret. split; [|done].
  destruct H as [-> |(k & r & r' & Hk & Hs & Hi & ->)]; [by left|]. right. exists k, r, r'. auto.
Qed.

Lemma stays_with_update {A} t fits f (g : option user_row → A) w :
  schools_ok w → cu_tenant_id u = Some t → (∀ r, same_rights r (f r)) →
  stays w (with_school t (row ← update_user (cu_id u) fits f; mret (g row))) (λ _ _, True).
Proof.
  intros Hw Ht Hf. unfold with_school. eapply stays_bind; [by apply stays_open|]. intros [] w' Hw' _.
  apply stays_update; [apply Hw'|done|]. intros n r Hn _. exists u. split; [left|]. auto.
Qed.

(** The local row of the caller's email. *)
Lemma stays_local_user t e w :
  schools_ok w →
  stays w (with_school t (get_user_by_email e)) (λ o w', match o with
    | Some (k, r) => users (school w' t) !! k = Some r ∧ upper_eq (us_email r) (str_strip e) = true
    | None => True
    end).
Proof.
  intros Hw. unfold with_school. eapply stays_bind; [by apply stays_open|]. intros [] w' Hw' _.
  apply (stays_school t _ w' (λ o s, match o with
    | Some (k, r) => users s !! k = Some r ∧ upper_eq (us_email r) (str_strip e) = true
    | None => True end)); [apply Hw'|].
  cbv zeta. unfold get_user_by_email. case_bool_decide; wp_simpl; [auto|]. split; [auto|].
  unfold find_user. destruct (find_row _ _) as [[k r]|] eqn:Hf; [|done]. by apply find_row_Some in Hf.
Qed.

(** Changes of the control plane. *)
Lemma framed_cp w w' :
  schools_ok w →
  w' = w <| parents := parents w' |> <| super_admins := super_admins w' |> <| cp_next := cp_next w' |> →
  (∀ k, match parents w !! k, parents w' !! k with
        | None, None => True
        | Some r, Some r' => pa_email r' = pa_email r ∧ (r' = r ∨ (cu_role u = "parent" ∧ ci_eq (pa_email r) (cu_email u) = true))
        | _, _ => False
        end) →
  (∀ k, match super_admins w !! k, super_admins w' !! k with
        | None, None => True
        | Some r, Some r' => sa_email r' = sa_email r ∧ (r' = r ∨ (cu_role u = "super_admin" ∧ ci_eq (sa_email r) (cu_email u) = true))
        | _, _ => False
        end) →
  framed w w'.
Proof.
  intros Hw Hr Hp Hs. assert (∀ t, school w' t = school w t) as Hsch by (intros t; unfold school; by rewrite Hr).
  constructor.
  - intros t. rewrite Hsch. apply Hw.
  - intros t k r Hk. rewrite Hsch. exists r. split; [done|split; [done|by left]].
  - intros t. rewrite Hsch, users_same. apply only_adds_refl.
  - intros k. specialize (Hp k). destruct (parents w !! k), (parents w' !! k); try done.
    destruct Hp as [? [?|?]]; (split; [done|]); [by left|right; exists u; split; [left|done]].
  - intros k. specialize (Hs k). destruct (super_admins w !! k), (super_admins w' !! k); try done.
    destruct Hs as [? [?|?]]; (split; [done|]); [by left|right; exists u; split; [left|done]].
  - rewrite Hr. by destruct w.
Qed.

Lemma stays_parent (f : parent_row → parent_row) k r w :
  schools_ok w → (∀ r, pa_email (f r) = pa_email r) → cu_role u = "parent" → find_parent (cu_email u) w = Some (k, r) →
  framed w (w <| parents ::= alter f k |>).
Proof.
  intros Hw Hf Hrole [Hk He]%find_row_Some. apply framed_cp; [done|by destruct w| |].
  - intros k'. cbn. destruct (decide (k = k')) as [<-|Hne]; [rewrite lookup_alter_eq|rewrite lookup_alter_ne by done].
    + rewrite Hk. cbn. auto.
    + destruct (parents w !! k'); auto.
  - intros k'. cbn. destruct (super_admins w !! k'); auto.
Qed.

Lemma stays_super (f : super_admin_row → super_admin_row) k r w :
  schools_ok w → (∀ r, sa_email (f r) = sa_email r) → cu_role u = "super_admin" →
  find_super_admin (cu_email u) w = Some (k, r) → framed w (w <| super_admins ::= alter f k |>).
Proof.
  intros Hw Hf Hrole [Hk He]%find_row_Some. apply framed_cp; [done|by destruct w| |].
  - intros k'. cbn. destruct (parents w !! k'); auto.
  - intros k'. cbn. destruct (decide (k = k')) as [<-|Hne]; [rewrite lookup_alter_eq|rewrite lookup_alter_ne by done].
    + rewrite Hk. cbn. auto.
    + destruct (super_admins w !! k'); auto.
Qed.

Section own.
Context (pwd_verify : string → string → option bool) (pwd_hash : Z → string → string) (zone : string → bool).

Lemma stays_tenant w : schools_ok w → stays w (tenant_of u) (λ t w', w' = w ∧ cu_tenant_id u = Some t).
Proof. intros Hw. apply stays_some, Hw. Qed.

Lemma stays_profile p a w : schools_ok w → stays w (update_profile p a u) (λ _ _, True).
Proof.
  intros Hw. apply stays_handler. eapply stays_bind; [by apply stays_tenant|]. intros t w1 _ [-> Ht].
  eapply stays_bind; [apply stays_with_update; [done|done|]|]; [by intros r|]. intros [] w1 Hw1 _.
  case_bool_decide as Hrole; [|apply stays_ret; [apply Hw1|done]].
  eapply stays_bind; [apply stays_gets, Hw1|]. intros o w2 _ [-> ->].
  eapply stays_bind; [apply stays_some, Hw1|]. intros [k r] w2 _ [-> Hf]. unfold update_parent_profile, cp_check.
  eapply stays_bind; [apply stays_guard, Hw1|]. intros [] w2 _ [-> _]. unfold stays. rewrite wp_modify. split; [|done].
  by eapply stays_parent; [apply Hw1|..].
Qed.

Lemma stays_preferences l z w : schools_ok w → stays w (update_my_preferences zone l z u) (λ _ _, True).
Proof.
  intros Hw. unfold update_my_preferences. eapply (stays_bind _ _ _ (λ _ w', w' = w)).
  - unfold validated. destruct (_validate_timezone _ _); [by apply stays_ret|by apply stays_raise].
  - intros z' w1 _ ->. eapply stays_bind; [by apply stays_tenant|]. intros t w1 _ [-> Ht].
    eapply stays_bind; [apply stays_with_update; [done|done|]|]; [by intros r|]. intros o w1 Hw1 _.
    eapply stays_weaken; [apply stays_some, Hw1|done].
Qed.

Lemma stays_hash p w : schools_ok w → stays w (hash_password pwd_hash p) (λ _ w', w' = w <| cp_next := cp_next w + 1 |>).
Proof.
  intros Hw. unfold stays, hash_password, draw. wp_simpl. split; [|done].
  apply framed_cp; [done|by destruct w| |]; intros k; cbn; [destruct (parents w !! k)|destruct (super_admins w !! k)]; auto.
Qed.

Lemma stays_check h c w : schools_ok w → stays w (check_current pwd_verify h c) (λ _ w', w' = w).
Proof.
  intros Hw. unfold check_current. eapply stays_bind; [by apply stays_guard|]. intros [] w1 _ [-> _].
  eapply stays_weaken; [by apply stays_guard|]. by intros [] w2 [-> _].
Qed.

(** The new hash goes to the row of the caller's email. *)
Lemma stays_local_hash t k r h w :
  schools_ok w → cu_tenant_id u = Some t →
  users (school w t) !! k = Some r → upper_eq (us_email r) (str_strip (cu_email u)) = true →
  stays w (in_school t (update_user_password_hash (PInt k) h)) (λ _ _, True).
Proof.
  intros Hw Ht Hk He. apply stays_update; [done|by intros ?|]. intros n r' [= <-] Hr'. exists u. split; [left|].
  split; [done|]. right. by replace r' with r by congruence.
Qed.

Lemma stays_change c n w : schools_ok w → stays w (change_password pwd_verify pwd_hash (cu_email u) (cu_role u) (cu_tenant_id u) c n) (λ _ _, True).
Proof.
  intros Hw. unfold change_password. eapply stays_bind; [by apply stays_guard|]. intros [] w1 _ [-> _]. cbv zeta.
  set (tid := match cu_tenant_id u with Some t => _ | None => None end).
  assert (∀ t, tid = Some t → cu_tenant_id u = Some t) as Htid.
  { intros t. unfold tid. destruct (cu_tenant_id u) as [t'|]; [|done]. by case_bool_decide. }
  case_bool_decide as Hsuper; [|case_bool_decide as Hparent].
  - eapply stays_bind; [by apply stays_gets|]. intros o w1 _ [-> ->].
    eapply stays_bind; [by apply stays_some|]. intros [k r] w1 _ [-> Hf].
    eapply stays_bind; [by apply stays_check|]. intros [] w1 _ ->.
    eapply stays_bind; [by apply stays_hash|]. intros h w1 Hw1 ->. unfold stays, update_super_admin_password.
    rewrite wp_modify. split; [|done]. by eapply stays_super; [apply Hw1|..].
  - eapply stays_bind; [by apply stays_gets|]. intros o w1 _ [-> ->].
    eapply stays_bind; [by apply stays_some|]. intros [k r] w1 _ [-> Hf].
    eapply stays_bind; [by apply stays_check|]. intros [] w1 _ ->.
    eapply stays_bind; [by apply stays_hash|]. intros h w1 Hw1 ->.
    eapply (stays_bind _ _ _ (λ _ _, True)).
    { unfold stays, update_parent_password. rewrite wp_modify. split; [|done]. by eapply stays_parent; [apply Hw1|..]. }
    intros [] w2 Hw2 _. destruct tid as [t|] eqn:Et; [|apply stays_ret; [apply Hw2|done]].
    eapply stays_bind; [apply stays_local_user, Hw2|]. intros [[i r']|] w3 Hw3; [intros [Hi He]|intros _; apply stays_ret; [apply Hw3|done]].
    eapply stays_bind; [by eapply stays_local_hash; [apply Hw3|apply Htid|..]|]. intros b w4 Hw4 _. apply stays_ret; [apply Hw4|done].
  - eapply stays_bind; [by apply stays_some|]. intros t w1 _ [-> Et].
    eapply stays_bind; [by apply stays_local_user|]. intros o w1 Hw1 Ho.
    eapply stays_bind; [apply stays_some, Hw1|]. intros [i r] w2 _ [-> ->]. destruct Ho as [Hi He].
    eapply stays_bind; [apply stays_check, Hw1|]. intros [] w2 _ ->.
    eapply stays_bind; [apply stays_hash, Hw1|]. intros h w2 Hw2 ->.
    eapply stays_bind; [by eapply stays_local_hash; [apply Hw2|apply Htid|..]|]. intros b w4 Hw4 _. apply stays_ret; [apply Hw4|done].
Qed.

Lemma stays_own r w : schools_ok w → stays w (run_own pwd_verify pwd_hash zone u r) (λ _ _, True).
Proof.
  intros Hw. destruct r as [p a|l z|c n]; cbn [run_own].
  - by apply stays_profile.
  - eapply stays_bind; [by apply stays_preferences|]. intros o w1 Hw1 _. apply stays_ret; [apply Hw1|done].
  - unfold change_my_password. eapply (stays_bind _ _ _ (λ _ w', w' = w)).
    + unfold validated. destruct (_validate_new_password_strength n); [by apply stays_ret|by apply stays_raise].
    + intros n' w1 _ ->. apply stays_handler. by apply stays_change.
Qed.
End own.
End steps.

(** C19: requests on the own account stay there. Let callers change their
    profiles, preferences and passwords in any order, failing requests
    included: a row of an account changes only if it has the id or the email
    of one of the callers, in the school of that caller; contact data,
    preferences and password may change, email, role, roles and permissions
    do not; a row of the platform's parents or operators changes only for a
    caller of its email and role; everything else stays as it is but for what
    opening a school adds. *)
Theorem own_requests_stay_own pwd_verify pwd_hash zone reqs w :
  schools_ok w → own_frame reqs.*1 w (run_owns pwd_verify pwd_hash zone reqs w).
Proof.
  revert w. induction reqs as [|[u r] reqs IH]; intros w Hw; [by apply own_frame_refl|]. cbn [run_owns fmap list_fmap fst].
  assert (own_frame (u :: reqs.*1) w (run_own pwd_verify pwd_hash zone u r w).2) as H1.
  { apply (own_frame_mono [u]); [set_solver|]. pose proof (stays_own u pwd_verify pwd_hash zone r w Hw) as H.
    unfold stays, wp in H. destruct (run_own pwd_verify pwd_hash zone u r w) as [[a|e] w']; [apply H|exact H]. }
  eapply own_frame_trans; [exact H1|]. eapply own_frame_mono; [|apply IH, H1]. set_solver.
Qed.

(** ** A concrete run *)
Definition demo_teacher : CurrentUser :=
  {| cu_id := PStr "7"; cu_tenant_id := Some "tenant_a"; cu_role := "teacher"; cu_email := "t@s.edu"; cu_roles := ["teacher"] |}.
Definition demo_owns : list (CurrentUser * own_request) :=
  [(demo_pat, UpdateProfile (Some "555-0100") None); (demo_teacher, UpdatePreferences (Some "fr") None);
   (demo_teacher, ChangePassword "secret" "sunshine7")].
Definition demo_changed : World := run_owns (λ _ _, Some true) (λ _ p, p) (λ _, true) demo_owns demo_families.

Lemma own_requests_stay_own_witness :
  schools_ok demo_families ∧ (users (school demo_changed "tenant_a") !! 8) ≫= us_phone = Some "555-0100" ∧
  (users (school demo_changed "tenant_a") !! 7) ≫= us_language = Some "fr" ∧
  own_frame demo_owns.*1 demo_families demo_changed.
Proof.
  split; [exact demo_families_ok|]. split; [vm_compute; reflexivity|]. split; [vm_compute; reflexivity|].
  exact (own_requests_stay_own _ _ _ demo_owns demo_families demo_families_ok).
Defined.

(** The answer of that request is a 500 all the same: the parent is not in
    the control plane, and the last clause rewrites the 404. *)
Example half_updated :
  (update_profile (Some "555-0100") None demo_pat demo_families).1 = Raise (HTTPException 500 "404: Parent not found").
Proof. vm_compute. reflexivity. Qed.

(** Permissions of roles that no category of the catalog offers. *)
Example uncataloged :
  filter (λ p, p ∉ concat CATEGORIES.*2) (unique (concat (composite <$> (re_id <$> COMPOSITE_ROLES))))
  = ["*"; "audit:view"; "event:archive"; "event:read"; "event:view"; "report:view"; "user:profile_edit";
     "user:profile_read"; "family:overview_read"].
Proof. vm_compute. reflexivity. Qed.
