(* ===== verification/Keycloak.v ===== *)
(** * The administration client of Keycloak

    src/app/core/keycloak_admin.py: users, passwords and organizations over
    Keycloak's Admin REST API. The invitation service has a client of its own
    (InviteAccount). A call is a conversation: a finite tree of
    requests, each continued by whatever the server replies. The server is
    not part of the program: the theorems hold for every server, which sees
    the conversation so far. Redirects and the pauses between attempts are
    not modelled; JSON numbers are integers. *)
From S2P Require Import Prelude PyText ImportFile.

(** ** JSON as [json.loads] returns it *)
Inductive json :=
  | JNull
  | JBool (b : bool)
  | JNum (n : Z)
  | JStr (s : string)
  | JList (l : list json)
  | JObj (fields : list (string * json)).

(** [bool(j)] *)
Definition truthy (j : json) : bool :=
  match j with
  | JNull => false
  | JBool b => b
  | JNum n => negb (n =? 0)
  | JStr s => negb (bool_decide (s = ""))
  | JList l => match l with [] => false | _ => true end
  | JObj f => match f with [] => false | _ => true end
  end.

Fixpoint lookup_field (f : list (string * json)) (k : string) : option json :=
  match f with
  | [] => None
  | (k', v) :: f' => if bool_decide (k' = k) then Some v else lookup_field f' k
  end.

(** ** Conversations *)
Inductive kc_error :=
  | HTTPError (code : Z) (reason body : string)
  | KeycloakOrganizationError (message : string)
  | OtherError (message : string)
  | Raised (e : exn).

Definition error_text (e : kc_error) : string :=
  match e with
  | HTTPError code reason _ => "HTTP Error " +:+ pretty code +:+ ": " +:+ reason
  | KeycloakOrganizationError m | OtherError m => m
  | Raised e => exn_text e
  end.

Inductive request :=
  | AdminToken
  | SearchUsers (email : string) (exact : bool)
  | CreateUser (email first last : string) (tenant_id : option string) (role password : string)
  | UpdateUser (id : json) (email : string) (first last : json) (tenant_id : option string) (role : string)
  | ResetPassword (id : json) (password : string)
  | DeleteUser (id : json)
  | SearchClient (client_id : string)
  | UpdateClient (id : json) (redirect_uris : list string)
  | ListOrganizations
  | CreateOrganization (alias name : string) (domains : list string)
  | AddMember (organization_id user_id : json)
  (** Those of the invitation service, whose search puts the address into the
      query as it is. *)
  | FindUser (email : string)
  | CreateShell (email tenant_id role : string)
  | ListGroups
  | JoinGroup (user_id group_id : json).

(** A status with its reason, a body, which may not be JSON, and the
    [Location] header; or no connection. *)
Inductive reply :=
  | Answered (status : Z) (reason : string) (body : option json) (text : string) (location : option string)
  | Unreachable (error : string).

Inductive talk (A : Type) :=
  | Done (r : A + kc_error)
  | Ask (q : request) (k : reply → talk A).
Arguments Done {A} r.
Arguments Ask {A} q k.

#[export] Instance talk_ret : MRet talk := λ A a, Done (inl a).
Fixpoint talk_bind_ {A B} (f : A → talk B) (t : talk A) : talk B :=
  match t with
  | Done (inl a) => f a
  | Done (inr e) => Done (inr e)
  | Ask q k => Ask q (λ r, talk_bind_ f (k r))
  end.
#[export] Instance talk_bind : MBind talk := λ A B f t, talk_bind_ f t.
Definition fails {A} (e : kc_error) : talk A := Done (inr e).
(** try ... except as ... *)
Fixpoint handled {A} (t : talk A) (h : kc_error → talk A) : talk A :=
  match t with
  | Done (inl a) => Done (inl a)
  | Done (inr e) => h e
  | Ask q k => Ask q (λ r, handled (k r) h)
  end.
Definition some_or {A} (o : option A) (e : kc_error) : talk A :=
  match o with Some a => mret a | None => fails e end.

(** [urllib.request.urlopen]: anything but a 2xx raises. *)
Definition urlopen (q : request) : talk (option json * option string) :=
  Ask q (λ r, match r with
    | Unreachable e => fails (OtherError e)
    | Answered status reason body text location =>
        if (200 <=? status) && (status <? 300) then mret (body, location) else fails (HTTPError status reason text)
    end).
(** [json.loads(resp.read().decode())]: a [ValueError] for anything else. *)
Definition not_json : kc_error := Raised (ValueError "Expecting value: line 1 column 1 (char 0)").
Definition fetch (q : request) : talk json := r ← urlopen q; some_or r.1 not_json.

(** [j[k]] and [j.get(k)]; the texts of Python's own errors are not those of
    every type. *)
Definition item (j : json) (k : string) : talk json :=
  match j with
  | JObj f => some_or (lookup_field f k) (OtherError ("'" +:+ k +:+ "'"))
  | _ => fails (OtherError "string indices must be integers")
  end.
Definition get (j : json) (k : string) : talk (option json) :=
  match j with
  | JObj f => mret (lookup_field f k)
  | _ => fails (OtherError "object has no attribute 'get'")
  end.

Definition _admin_token : talk json := r ← fetch AdminToken; item r "access_token".

(** [users and isinstance(users, list) and len(users) > 0]: [users[0]]. *)
Definition first_user (users : json) : option json := match users with JList (u :: _) => Some u | _ => None end.
(** [loc.split("/")[-1]] *)
Definition last_segment (loc : string) : string :=
  text (fold_left (λ acc c, if code c =? 47 then [] else app acc [c]) (chars loc) []).
(** The [id] of the user a search found first; a falsy one counts as none. *)
Definition found_id (users : json) : talk (option json) :=
  match first_user users with
  | Some u => id ← item u "id"; mret (if truthy id then Some id else None)
  | None => mret None
  end.
Definition non_empty (o : option string) : option string :=
  match o with Some s => if bool_decide (s = "") then None else Some s | None => None end.

(** ** Organizations *)
(** [str(j)] *)
Fixpoint json_repr (j : json) : string :=
  match j with
  | JNull => "None"
  | JBool b => if b then "True" else "False"
  | JNum n => pretty n
  | JStr s => repr s
  | JList l => "[" +:+ String.concat ", " (map json_repr l) +:+ "]"
  | JObj f => "{" +:+ String.concat ", " (map (λ kv : string * json, repr kv.1 +:+ ": " +:+ json_repr kv.2) f) +:+ "}"
  end.
Definition json_str (j : json) : string := match j with JStr s => s | _ => json_repr j end.

(** [str(org.get("alias") or "").strip().lower()] *)
Definition alias_name (alias : option json) : string :=
  str_lower (str_strip (match alias with Some a => if truthy a then json_str a else "" | None => "" end)).
Definition alias_of (org : json) : talk string := alias ← get org "alias"; mret (alias_name alias).

Definition _list_organizations : talk (list json) :=
  body ← fetch ListOrganizations; mret (match body with JList l => l | _ => [] end).

Fixpoint search_alias (target : string) (orgs : list json) : talk (option json) :=
  match orgs with
  | [] => mret None
  | org :: rest => a ← alias_of org; if bool_decide (a = target) then mret (Some org) else search_alias target rest
  end.
(** The callers bring their token. *)
Definition find_organization_by_alias (alias : string) : talk (option json) :=
  if bool_decide (alias = "") then mret None
  else orgs ← _list_organizations; search_alias (str_lower (str_strip alias)) orgs.
(** [if org:] *)
Definition present (o : option json) : option json :=
  match o with Some org => if truthy org then Some org else None | None => None end.

(** Up to [n] attempts to read the organization back. *)
Fixpoint read_back (n : nat) (tid : string) : talk (option json) :=
  match n with
  | O => mret None
  | S n => created ← find_organization_by_alias tid;
           match present created with Some org => mret (Some org) | None => read_back n tid end
  end.

Definition could_not_create (tid : string) (e : kc_error) : kc_error :=
  KeycloakOrganizationError ("Could not create Keycloak organization '" +:+ tid +:+ "': " +:+ error_text e).
(** [exc.read().decode()[:300]] *)
Definition short (detail : string) : string := text (take 300 (chars detail)).
(** The POST; [Some org] when a conflict turns out to be this very alias. *)
Definition post_organization (tid name : string) (domains : list string) : talk (option json) :=
  Ask (CreateOrganization tid name domains) (λ r, match r with
    | Unreachable e => fails (could_not_create tid (OtherError e))
    | Answered status _ _ detail _ =>
        if (200 <=? status) && (status <? 300) then mret None
        else if negb (status =? 409) then
          fails (KeycloakOrganizationError ("Keycloak refused to create organization '" +:+ tid +:+ "': HTTP "
            +:+ pretty status +:+ " " +:+ short detail))
        else
          by_alias ← find_organization_by_alias tid;
          match present by_alias with
          | Some org => mret (Some org)
          | None => fails (KeycloakOrganizationError ("Cannot create organization '" +:+ tid +:+ "': the name '" +:+ name
              +:+ "' is already used by a different tenant in Keycloak. Detail: " +:+ short detail))
          end
    end).

Definition create_keycloak_organization (tenant_id : string) (name : option string) (domains : list string) : talk json :=
  let tid := str_strip tenant_id in
  if bool_decide (tid = "") then fails (KeycloakOrganizationError "tenant_id is required to create an organization")
  else
    handled (_admin_token ;; mret tt) (λ exc, fails (KeycloakOrganizationError
      ("Could not obtain a Keycloak admin token to provision organization '" +:+ tid +:+ "': " +:+ error_text exc))) ;;
    existing ← find_organization_by_alias tid;
    match present existing with
    | Some org => mret org
    | None =>
        conflicting ← post_organization tid (default tid (non_empty name)) domains;
        match conflicting with
        | Some org => mret org
        | None =>
            created ← read_back 3 tid;
            some_or created (KeycloakOrganizationError ("Organization '" +:+ tid +:+ "' was not readable back after creation"))
        end
    end.

(** Best effort: every failure is a [False]. *)
Definition best_effort (t : talk bool) : talk bool := handled t (λ _, mret false).

Definition add_user_to_organization (email tenant_id : string) : talk bool :=
  if bool_decide (email = "") || bool_decide (tenant_id = "") then mret false
  else best_effort (
    _admin_token ;;
    org ← find_organization_by_alias tenant_id;
    match present org with
    | None => mret false
    | Some org =>
        found ← fetch (SearchUsers email true);
        if negb (truthy found) then mret false
        else
          first ← some_or (first_user found) (OtherError "0");
          kc_user_id ← item first "id";
          organization_id ← item org "id";
          handled (urlopen (AddMember organization_id kc_user_id) ;; mret true)
            (λ e, match e with HTTPError 409 _ _ => mret true | _ => fails e end)
    end).

(** What the reconciliation reports; [failed] is a dict. *)
Record summary := { su_existing : list string; su_created : list string; su_failed : list (string * string) }.
Definition reported (t : string) (o : option string) (known : bool) (s : summary) : summary :=
  match o with
  | Some e => {| su_existing := su_existing s; su_created := su_created s; su_failed := dict_set t e (su_failed s) |}
  | None => if known then {| su_existing := app (su_existing s) [t]; su_created := su_created s; su_failed := su_failed s |}
            else {| su_existing := su_existing s; su_created := app (su_created s) [t]; su_failed := su_failed s |}
  end.

Fixpoint map_aliases (orgs : list json) : talk (list string) :=
  match orgs with [] => mret [] | org :: rest => a ← alias_of org; l ← map_aliases rest; mret (a :: l) end.

(** Only a [KeycloakOrganizationError] is recorded; another error ends the
    loop. *)
Definition try_create (tid : string) : talk (option string) :=
  handled (create_keycloak_organization tid None [] ;; mret None)
    (λ e, match e with KeycloakOrganizationError m => mret (Some m) | _ => fails e end).
Fixpoint reconcile (aliases : list string) (ids : list string) (s : summary) : talk summary :=
  match ids with
  | [] => mret s
  | tid :: rest =>
      if bool_decide (str_lower tid ∈ aliases) then reconcile aliases rest (reported tid None true s)
      else o ← try_create tid; reconcile aliases rest (reported tid o false s)
  end.

Definition wanted (tenant_ids : list string) : list string :=
  List.filter (λ t, negb (bool_decide (t = ""))) (map str_strip tenant_ids).
Definition ensure_keycloak_organizations (tenant_ids : list string) : talk summary :=
  let none := {| su_existing := []; su_created := []; su_failed := [] |} in
  let ids := wanted tenant_ids in
  match ids with
  | [] => mret none
  | _ =>
      aliases ← handled (_admin_token ;; orgs ← _list_organizations; l ← map_aliases orgs; mret (inl l))
                  (λ exc, mret (inr (error_text exc)));
      match aliases with
      | inr e => mret {| su_existing := []; su_created := []; su_failed := dict_of (map (λ t, (t, e)) ids) |}
      | inl l => reconcile l ids none
      end
  end.

(** ** Users *)
(** A search that fails counts as nobody. *)
Definition create_user_step (email password role : string) (tenant_id first_name last_name : option string) : talk (option json) :=
  r ← urlopen (CreateUser email (default "" first_name) (default "" last_name) tenant_id role password);
  mret (match non_empty r.2 with Some loc => Some (JStr (last_segment loc)) | None => None end).

Definition sync_user_to_keycloak (email password role : string) (tenant_id first_name last_name : option string) : talk bool :=
  best_effort (
    _admin_token ;;
    known ← handled (users ← fetch (SearchUsers email false); found_id users) (λ _, mret None);
    kc_user_id ← match known with
      | Some id => mret (Some id)
      | None => create_user_step email password role tenant_id first_name last_name
      end;
    match present kc_user_id with
    | Some id =>
        handled (urlopen (UpdateUser id email (JStr (default "" first_name)) (JStr (default "" last_name)) tenant_id role) ;; mret tt)
          (λ _, mret tt)
    | None => mret tt
    end ;;
    match non_empty tenant_id with Some t => add_user_to_organization email t ;; mret tt | None => mret tt end ;;
    mret true).

Definition update_user_role_in_keycloak (email new_role tenant_id : string) : talk bool :=
  best_effort (
    _admin_token ;;
    users ← fetch (SearchUsers email false);
    kc_user_id ← found_id users;
    match kc_user_id, first_user users with
    | Some id, Some user_obj =>
        first ← get user_obj "firstName";
        last ← get user_obj "lastName";
        urlopen (UpdateUser id email (default (JStr "") first) (default (JStr "") last) (Some tenant_id) new_role) ;;
        mret true
    | _, _ => mret false
    end).

Definition update_user_password_in_keycloak (email new_password : string) : talk bool :=
  best_effort (
    _admin_token ;;
    users ← fetch (SearchUsers email false);
    kc_user_id ← found_id users;
    match kc_user_id with
    | Some id => urlopen (ResetPassword id new_password) ;; mret true
    | None => mret false
    end).

(** [[u["id"] for u in users if isinstance(u, dict) and u.get("id")]] *)
Definition user_ids (users : json) : list json :=
  match users with
  | JList l => List.filter truthy (omap (λ u, match u with JObj f => lookup_field f "id" | _ => None end) l)
  | _ => []
  end.
Fixpoint delete_all (ids : list json) (all_deleted : bool) : talk bool :=
  match ids with
  | [] => mret all_deleted
  | id :: rest =>
      deleted ← handled (urlopen (DeleteUser id) ;; mret true) (λ _, mret false);
      delete_all rest (all_deleted && deleted)
  end.
Definition delete_user_from_keycloak (email : string) : talk bool :=
  best_effort (
    _admin_token ;;
    users ← fetch (SearchUsers email true);
    match user_ids users with [] => mret false | ids => delete_all ids true end).

(** ** The redirect addresses of the frontend *)
Definition needed_uris : list string :=
  ["http://localhost:5173"; "http://localhost:5173/"; "http://localhost:5173/*"; "http://127.0.0.1:5173";
   "http://127.0.0.1:5173/"; "http://127.0.0.1:5173/*"; "http://localhost:5174"; "http://localhost:5174/";
   "http://localhost:5174/*"; "http://127.0.0.1:5174"; "http://127.0.0.1:5174/"; "http://127.0.0.1:5174/*";
   "http://localhost:3000"; "http://localhost:3000/"; "http://localhost:3000/*"; "http://127.0.0.1:3000";
   "http://127.0.0.1:3000/"; "http://127.0.0.1:3000/*"; "http://localhost:9080"; "http://localhost:9080/";
   "http://localhost:9080/*"; "http://127.0.0.1:9080"; "http://127.0.0.1:9080/"; "http://127.0.0.1:9080/*";
   "http://localhost:8000"; "http://localhost:8000/"; "http://localhost:8000/*"; "http://127.0.0.1:8000";
   "http://127.0.0.1:8000/"; "http://127.0.0.1:8000/*"; "http://localhost:*"; "http://localhost:*/*";
   "http://localhost:*?*"; "http://localhost:*/*?*"; "http://127.0.0.1:*"; "http://127.0.0.1:*/*";
   "http://127.0.0.1:*?*"; "http://127.0.0.1:*/*?*"; "*"].

(** Redirect addresses are strings; anything else counts as an error here.
    [set_order] is the order of [list(set(...))]. *)
Fixpoint strings_of (l : list json) : talk (list string) :=
  match l with
  | [] => mret []
  | JStr s :: l => rest ← strings_of l; mret (s :: rest)
  | _ => fails (OtherError "unhashable type")
  end.
Definition ensure_keycloak_frontend_redirect_uris (set_order : list string → list string) : talk unit :=
  handled (
    _admin_token ;;
    clients ← fetch (SearchClient "frontend");
    match first_user clients with
    | None => mret tt
    | Some client =>
        c_id ← item client "id";
        uris ← get client "redirectUris";
        current_uris ← match uris with
          | None => mret []
          | Some (JList l) => strings_of l
          | Some _ => fails (OtherError "can only concatenate list")
          end;
        let updated_uris := set_order (app current_uris needed_uris) in
        if forallb (λ x, bool_decide (x ∈ current_uris)) updated_uris && forallb (λ x, bool_decide (x ∈ updated_uris)) current_uris
        then mret tt else urlopen (UpdateClient c_id updated_uris) ;; mret tt
    end) (λ _, mret tt).

(** ** Servers and conversations *)
Definition log : Type := list (request * reply).
(** Any server: the reply may depend on everything said so far. *)
Definition server : Type := log → request → reply.

Fixpoint converse {A} (sv : server) (l : log) (t : talk A) : log * (A + kc_error) :=
  match t with
  | Done r => (l, r)
  | Ask q k => converse sv (app l [(q, sv l q)]) (k (sv l q))
  end.

(** What a conversation guarantees of its log and its outcome. *)
Definition tw {A} (sv : server) (t : talk A) (Q : A → log → Prop) (E : kc_error → log → Prop) (l : log) : Prop :=
  let r := converse sv l t in match r.2 with inl a => Q a r.1 | inr e => E e r.1 end.

Section tw.
Context (sv : server).

Lemma tw_ret {A} (a : A) Q E l : tw sv (mret a) Q E l ↔ Q a l.
Proof. done. Qed.
Lemma tw_fails {A} e (Q : A → log → Prop) E l : tw sv (fails e) Q E l ↔ E e l.
Proof. done. Qed.
Lemma tw_ask {A} q (k : reply → talk A) Q E l : tw sv (Ask q k) Q E l ↔ tw sv (k (sv l q)) Q E (app l [(q, sv l q)]).
Proof. done. Qed.
Lemma tw_bind {A B} (t : talk A) (f : A → talk B) Q E l : tw sv (t ≫= f) Q E l ↔ tw sv t (λ a, tw sv (f a) Q E) E l.
Proof.
  revert l. induction t as [[a|e]|q k IH]; intros l; [done|done|].
  change (Ask q k ≫= f) with (Ask q (λ r, k r ≫= f)). rewrite !tw_ask. apply IH.
Qed.
Lemma tw_handled {A} (t : talk A) h Q E l : tw sv (handled t h) Q E l ↔ tw sv t Q (λ e, tw sv (h e) Q E) l.
Proof.
  revert l. induction t as [[a|e]|q k IH]; intros l; [done|done|].
  change (handled (Ask q k) h) with (Ask q (λ r, handled (k r) h)). rewrite !tw_ask. apply IH.
Qed.
Lemma tw_mono {A} (t : talk A) (Q Q' : A → log → Prop) (E E' : kc_error → log → Prop) l :
  tw sv t Q E l → (∀ a l', Q a l' → Q' a l') → (∀ e l', E e l' → E' e l') → tw sv t Q' E' l.
Proof. unfold tw. destruct (converse sv l t).2; eauto. Qed.
Lemma tw_some {A} (o : option A) e Q E l : tw sv (some_or o e) Q E l ↔ match o with Some a => Q a l | None => E e l end.
Proof. by destruct o. Qed.

(** The reply to [q] is asked for once, and added to the log. *)
Definition answer (r : reply) : option (option json * option string) :=
  match r with
  | Answered status _ body _ location => if (200 <=? status) && (status <? 300) then Some (body, location) else None
  | Unreachable _ => None
  end.
Definition body_of (r : reply) : option json := answer r ≫= fst.

Lemma tw_urlopen q Q E l :
  (∀ a, answer (sv l q) = Some a → Q a (app l [(q, sv l q)])) →
  (answer (sv l q) = None → ∀ e, E e (app l [(q, sv l q)])) → tw sv (urlopen q) Q E l.
Proof.
  intros HQ HE. unfold urlopen. rewrite tw_ask. unfold answer in HQ, HE. destruct (sv l q) as [st re b tx lo|e]; [|by apply HE].
  destruct (_ && _); [by apply HQ|by apply HE].
Qed.
Lemma tw_fetch q Q E l :
  (∀ j, body_of (sv l q) = Some j → Q j (app l [(q, sv l q)])) →
  (body_of (sv l q) = None → ∀ e, E e (app l [(q, sv l q)])) → tw sv (fetch q) Q E l.
Proof.
  intros HQ HE. unfold fetch. rewrite tw_bind. unfold body_of in HQ, HE. apply tw_urlopen.
  - intros [b lo] Ha. rewrite tw_some. rewrite Ha in HQ, HE. destruct b as [j|]; [by apply HQ|by apply HE].
  - intros Ha. apply HE. by rewrite Ha.
Qed.
End tw.

(** ** Disciplines *)
(** [P pre q]: after [pre], [q] may be sent. *)
Definition follows (P : log → request → Prop) (l : log) : Prop := ∀ pre q r post, l = app pre ((q, r) :: post) → P pre q.

Lemma follows_nil P : follows P [].
Proof. by intros [] ? ? ? [=]. Qed.
Lemma follows_snoc P l q r : follows P l → P l q → follows P (app l [(q, r)]).
Proof.
  intros Hl Hq pre q' r' post Heq. destruct post as [|x post _] using rev_ind.
  - apply app_inj_tail in Heq as [<- [= <- <-]]. exact Hq.
  - change (app pre ((q', r') :: app post [x])) with (app pre (app ((q', r') :: post) [x])) in Heq.
    rewrite app_assoc in Heq. apply app_inj_tail in Heq as [-> _]. by eapply Hl.
Qed.

Section follows.
Context (sv : server) (P : log → request → Prop).
Abbreviation ok := (follows P).
Abbreviation kept t := (∀ l, ok l → tw sv t (λ _, ok) (λ _, ok) l).

Lemma ok_bind {A B} (t : talk A) (f : A → talk B) l :
  tw sv t (λ _, ok) (λ _, ok) l → (∀ a l', ok l' → tw sv (f a) (λ _, ok) (λ _, ok) l') → tw sv (t ≫= f) (λ _, ok) (λ _, ok) l.
Proof. intros Ht Hf. rewrite tw_bind. eapply tw_mono; [exact Ht|exact Hf|done]. Qed.
Lemma ok_best_effort (t : talk bool) : kept t → kept (best_effort t).
Proof. intros Ht l Hl. unfold best_effort. rewrite tw_handled. eapply tw_mono; [by apply Ht|done|done]. Qed.
Lemma ok_send q l : P l q → ok l → tw sv (urlopen q) (λ _, ok) (λ _, ok) l.
Proof. intros Hq Hl. apply tw_urlopen; intros; by apply follows_snoc. Qed.
End follows.

(** What a listing shows, and the organization of an alias in it. *)
Definition organizations (r : reply) : list json := match body_of r with Some (JList l) => l | _ => [] end.
Definition aliased (org : json) (target : string) : Prop := ∃ f, org = JObj f ∧ alias_name (lookup_field f "alias") = target.

Section aliases.
Context (sv : server).

Lemma tw_alias_of org (Q : string → log → Prop) E l :
  (∀ f, org = JObj f → Q (alias_name (lookup_field f "alias")) l) → (∀ e, E e l) → tw sv (alias_of org) Q E l.
Proof. intros HQ HE. unfold alias_of. rewrite tw_bind. destruct org as [| | | | |f]; try (by apply HE). by apply HQ. Qed.

Lemma tw_search_alias target orgs (Q : option json → log → Prop) E l :
  (∀ org, org ∈ orgs → aliased org target → Q (Some org) l) →
  ((∀ org, org ∈ orgs → ¬ aliased org target) → Q None l) → (∀ e, E e l) →
  tw sv (search_alias target orgs) Q E l.
Proof.
  intros HQ HN HE. induction orgs as [|org orgs IH]; [apply HN; intros ? []%not_elem_of_nil|].
  cbn [search_alias]. rewrite tw_bind. apply tw_alias_of; [|done]. intros f ->. case_bool_decide as Ha.
  - rewrite tw_ret. apply HQ; [left|]. by exists f.
  - apply IH; [intros org Ho; apply HQ; by right|]. intros Hno. apply HN. intros org [->|Ho]%elem_of_cons; [|by apply Hno].
    intros (f' & [= <-] & Ha'). done.
Qed.

End aliases.

(** ** Whom the user calls touch *)
Inductive user_call :=
  | Sync (email password role : string) (tenant_id first_name last_name : option string)
  | UpdateRole (email new_role tenant_id : string)
  | UpdatePassword (email new_password : string)
  | Delete (email : string).
Definition run_call (c : user_call) : talk bool :=
  match c with
  | Sync e p r t f l => sync_user_to_keycloak e p r t f l
  | UpdateRole e r t => update_user_role_in_keycloak e r t
  | UpdatePassword e p => update_user_password_in_keycloak e p
  | Delete e => delete_user_from_keycloak e
  end.

(** The id of the user a reply to a search shows first. *)
Definition shown_in (users : json) : option json :=
  match first_user users with
  | Some (JObj f) => match lookup_field f "id" with Some id => if truthy id then Some id else None | None => None end
  | _ => None
  end.
Definition shown (r : reply) : option json := body_of r ≫= shown_in.
Definition found (l : log) (email : string) (id : json) : Prop := ∃ r, (SearchUsers email false, r) ∈ l ∧ shown r = Some id.
Definition nobody (l : log) (email : string) : Prop := ∃ r, (SearchUsers email false, r) ∈ l ∧ shown r = None.
Definition listed_exactly (l : log) (email : string) (id : json) : Prop :=
  ∃ r users, (SearchUsers email true, r) ∈ l ∧ body_of r = Some users ∧ id ∈ user_ids users.
(** The id in the [Location] of the creation. *)
Definition just_created (l : log) (email : string) (id : json) : Prop :=
  ∃ f la t ro p r b loc, (CreateUser email f la t ro p, r) ∈ l ∧ answer r = Some (b, Some loc) ∧ id = JStr (last_segment loc).

(** The user a search shows first, as the reply describes it. *)
Definition found_user (l : log) (email : string) (id : json) (user : list (string * json)) : Prop :=
  ∃ r users, (SearchUsers email false, r) ∈ l ∧ body_of r = Some users ∧ first_user users = Some (JObj user) ∧
    lookup_field user "id" = Some id.
(** The last two requests listed the organizations, one of which has the
    school's id as its alias, and searched exactly the address. *)
Definition member_named (l : log) (email tenant : string) (organization_id user_id : json) : Prop :=
  ∃ l0 r1 r2 org users user, l = app l0 [(ListOrganizations, r1); (SearchUsers email true, r2)] ∧
    JObj org ∈ organizations r1 ∧ aliased (JObj org) (str_lower (str_strip tenant)) ∧
    lookup_field org "id" = Some organization_id ∧
    body_of r2 = Some users ∧ first_user users = Some (JObj user) ∧ lookup_field user "id" = Some user_id.

(** What a call may send after [l]. *)
Definition permitted (c : user_call) (l : log) (q : request) : Prop :=
  match c, q with
  | _, AdminToken => True
  | Sync e p r t f la, CreateUser e' f' la' t' r' p' =>
      e' = e ∧ p' = p ∧ r' = r ∧ t' = t ∧ f' = default "" f ∧ la' = default "" la ∧ nobody l e
  | Sync e _ r t f la, UpdateUser id e' f' la' t' r' =>
      e' = e ∧ r' = r ∧ t' = t ∧ f' = JStr (default "" f) ∧ la' = JStr (default "" la) ∧ (found l e id ∨ just_created l e id)
  | Sync e _ _ _ _ _, SearchUsers e' _ => e' = e
  | Sync _ _ _ t _ _, ListOrganizations => is_Some (non_empty t)
  | Sync e _ _ t _ _, AddMember o id => ∃ t', non_empty t = Some t' ∧ member_named l e t' o id
  | UpdateRole e _ _, SearchUsers e' exact => e' = e ∧ exact = false
  | UpdateRole e r t, UpdateUser id e' f la t' r' =>
      e' = e ∧ r' = r ∧ t' = Some t ∧ ∃ user, found_user l e id user ∧
        f = default (JStr "") (lookup_field user "firstName") ∧ la = default (JStr "") (lookup_field user "lastName")
  | UpdatePassword e _, SearchUsers e' exact => e' = e ∧ exact = false
  | UpdatePassword e p, ResetPassword id p' => p' = p ∧ found l e id
  | Delete e, SearchUsers e' exact => e' = e ∧ exact = true
  | Delete e, DeleteUser id => listed_exactly l e id
  | _, _ => False
  end.
Definition disciplined (c : user_call) (l : log) : Prop := follows (permitted c) l.

Section discipline.
Context (sv : server) (c : user_call).
Abbreviation ok := (disciplined c).
Abbreviation kept t := (∀ l, ok l → tw sv t (λ _, ok) (λ _, ok) l).

(** The token is asked for by every call. *)
Lemma ok_token_then {A} (k : talk A) l : ok l → kept k → tw sv (_admin_token ;; k) (λ _, ok) (λ _, ok) l.
Proof.
  intros Hl Hk. assert (ok (app l [(AdminToken, sv l AdminToken)])) as Hl' by (by apply follows_snoc; [|destruct c]).
  unfold _admin_token. rewrite !tw_bind. apply tw_fetch; [|done]. intros j _. destruct j; try done. cbn [item].
  rewrite tw_some. destruct (lookup_field _ _); [by apply Hk|done].
Qed.
(** A search: what it shows is found. *)
Lemma tw_found users (Q : option json → log → Prop) E l :
  Q (shown_in users) l → (∀ e, shown_in users = None → E e l) → tw sv (found_id users) Q E l.
Proof.
  intros HQ HE. unfold found_id, shown_in in *. destruct (first_user users) as [u|]; [|done]. rewrite tw_bind.
  destruct u as [|b|n|s|us|f]; try (by apply HE). cbn [item]. rewrite tw_some.
  destruct (lookup_field f "id"); [exact HQ|by apply HE].
Qed.
Lemma found_here l email r id : shown r = Some id → found (app l [(SearchUsers email false, r)]) email id.
Proof. intros H. exists r. split; [|done]. apply elem_of_app. right. left. Qed.
Lemma nobody_here l email r : shown r = None → nobody (app l [(SearchUsers email false, r)]) email.
Proof. intros H. exists r. split; [|done]. apply elem_of_app. right. left. Qed.

Lemma tw_searching email l : ok l → permitted c l (SearchUsers email false) →
  tw sv (fetch (SearchUsers email false))
    (λ users l', ok l' ∧ (∀ id, shown_in users = Some id → found l' email id) ∧ (shown_in users = None → nobody l' email))
    (λ _ l', ok l' ∧ nobody l' email) l.
Proof.
  intros Hl Hp. apply tw_fetch.
  - intros users Hb. split; [by apply follows_snoc|]. split; [intros id Hs; apply found_here|intros Hs; apply nobody_here];
      unfold shown; by rewrite Hb.
  - intros Hb e. split; [by apply follows_snoc|]. apply nobody_here. unfold shown. by rewrite Hb.
Qed.

End discipline.

Section calls.
Context (sv : server).

(** The three steps of the synchronization. *)
Section sync.
Context (email password role : string) (tenant first last : option string).
Abbreviation c := (Sync email password role tenant first last).
Abbreviation ok := (disciplined c).

Lemma sync_search l : ok l →
  tw sv (handled (users ← fetch (SearchUsers email false); found_id users) (λ _, mret None))
    (λ known l', ok l' ∧ match known with Some id => found l' email id | None => nobody l' email end) (λ _, ok) l.
Proof.
  intros Hl. rewrite tw_handled, tw_bind. eapply tw_mono; [by apply (tw_searching sv c)| |done].
  intros users l' (Hl' & Hf & Hn). cbn beta. apply tw_found; [|by intros e He; split; eauto].
  split; [done|]. destruct (shown_in users); eauto.
Qed.

Lemma sync_create l : ok l → nobody l email →
  tw sv (create_user_step email password role tenant first last)
    (λ o l', ok l' ∧ ∀ id, o = Some id → just_created l' email id) (λ _, ok) l.
Proof.
  intros Hl Hn. unfold create_user_step. rewrite tw_bind.
  assert (∀ r, ok (app l [(CreateUser email (default "" first) (default "" last) tenant role password, r)])) as Hok.
  { intros r. apply follows_snoc; [done|]. by split_and!. }
  apply tw_urlopen; [|done]. intros [b lo] Ha. rewrite tw_ret. split; [done|]. intros id Hid.
  destruct lo as [loc|]; [|done]. cbn in Hid. case_bool_decide; [done|]. injection Hid as <-.
  do 8 eexists. split; [apply elem_of_app; right; left|]. by split.
Qed.

Lemma sync_update o l : ok l → (∀ id, o = Some id → found l email id ∨ just_created l email id) →
  tw sv (match present o with
         | Some id => handled (urlopen (UpdateUser id email (JStr (default "" first)) (JStr (default "" last)) tenant role) ;; mret tt)
                        (λ _, mret tt)
         | None => mret tt
         end) (λ _, ok) (λ _, ok) l.
Proof.
  intros Hl Ho. destruct o as [id|]; [|done]. cbn [present]. destruct (truthy id); [|done]. rewrite tw_handled.
  apply ok_bind; [apply ok_send; [|done]|by intros]. cbn. split_and!; eauto.
Qed.

(** The member is the account the exact search shows, and joins the
    organization of the school. *)
Lemma sync_join t l : non_empty tenant = Some t → ok l → tw sv (add_user_to_organization email t) (λ _, ok) (λ _, ok) l.
Proof.
  intros Ht. revert l. unfold add_user_to_organization. destruct (_ || _); [done|]. apply ok_best_effort. intros l Hl.
  apply ok_token_then; [done|]. clear l Hl. intros l Hl. unfold find_organization_by_alias, _list_organizations. rewrite tw_bind.
  case_bool_decide; [done|]. set (r1 := sv l ListOrganizations).
  assert (ok (app l [(ListOrganizations, r1)])) as Hl1 by (apply follows_snoc; [done|by exists t]).
  rewrite !tw_bind. apply tw_fetch; fold r1; [|done]. intros body Hb. rewrite tw_ret.
  assert (organizations r1 = match body with JList l => l | _ => [] end) as <- by (unfold organizations; by rewrite Hb).
  apply tw_search_alias; [|done|done]. intros o Ho (org & -> & Ha). destruct (present _) as [o|] eqn:Hp; [|done].
  assert (o = JObj org) as -> by (cbn in Hp; destruct (match org with [] => false | _ => true end); congruence).
  rewrite tw_bind. set (l1 := app l [(ListOrganizations, r1)]). set (r2 := sv l1 (SearchUsers email true)).
  assert (ok (app l1 [(SearchUsers email true, r2)])) as Hl2 by by apply follows_snoc.
  apply tw_fetch; fold r2; [|done]. intros users Hu. destruct (negb _); [done|]. rewrite tw_bind, tw_some.
  destruct (first_user users) as [u|] eqn:Hf; [|done]. rewrite tw_bind. destruct u as [| | | | |user]; try done. cbn [item].
  rewrite tw_some. destruct (lookup_field user "id") as [uid|] eqn:Hid; [|done]. rewrite tw_bind, tw_some.
  destruct (lookup_field org "id") as [oid|] eqn:Hoid; [|done]. rewrite tw_handled, tw_bind.
  assert (ok (app (app l1 [(SearchUsers email true, r2)]) [(AddMember oid uid, sv (app l1 [(SearchUsers email true, r2)]) (AddMember oid uid))])) as Hl3.
  { apply follows_snoc; [done|]. exists t. split; [done|]. exists l, r1, r2, org, users, user.
    split_and!; [by unfold l1; rewrite <-app_assoc|done|by exists org|done..]. }
  apply tw_urlopen; [done|]. intros _ e. by repeat case_match.
Qed.

Lemma ok_sync l : ok l → tw sv (run_call c) (λ _, ok) (λ _, ok) l.
Proof.
  revert l. apply ok_best_effort. intros l Hl. apply ok_token_then; [done|]. clear l Hl.
  intros l Hl. rewrite tw_bind. eapply tw_mono; [by apply sync_search| |done]. clear l Hl. intros known l [Hl Hk]. cbn beta.
  rewrite tw_bind. apply (tw_mono _ _ (λ o l', ok l' ∧ ∀ id, o = Some id → found l' email id ∨ just_created l' email id) _ (λ _, ok) _ _).
  - destruct known as [id|]; [rewrite tw_ret; split; [done|]; intros ? [= <-]; by left|].
    eapply tw_mono; [by apply sync_create| |done]. intros o l' [Hl' Ho]. split; [done|]. intros id Hid. right. by apply Ho.
  - clear l Hl Hk. intros o l [Hl Ho]. apply ok_bind; [by apply sync_update|]. intros _ l' Hl'.
    apply ok_bind; [|done]. destruct (non_empty tenant) as [t|] eqn:Ht; [|done].
    apply ok_bind; [by apply sync_join|done].
  - done.
Qed.
End sync.

Lemma ok_role email role tenant l : let c := UpdateRole email role tenant in
  disciplined c l → tw sv (run_call c) (λ _, disciplined c) (λ _, disciplined c) l.
Proof.
  intros c. revert l. apply ok_best_effort. intros l Hl. apply ok_token_then; [done|]. clear l Hl. intros l Hl.
  rewrite tw_bind. set (r := sv l (SearchUsers email false)).
  assert (disciplined c (app l [(SearchUsers email false, r)])) as Hl' by by apply follows_snoc.
  apply tw_fetch; fold r; [|done]. intros users Hu. rewrite tw_bind. unfold found_id.
  destruct (first_user users) as [u|] eqn:Hf; [|done]. rewrite tw_bind. destruct u as [| | | | |user]; try done. cbn [item].
  rewrite tw_some. destruct (lookup_field user "id") as [id|] eqn:Hid; [|done]. rewrite tw_ret. destruct (truthy id); [|done].
  cbn [get]. rewrite !tw_bind, !tw_ret, tw_bind, tw_ret. apply ok_bind; [apply ok_send; [|done]|by intros].
  cbn. split_and!; [done..|]. exists user. split; [|done]. exists r, users. split; [apply elem_of_app; right; left|done].
Qed.

Lemma ok_password email new l : let c := UpdatePassword email new in
  disciplined c l → tw sv (run_call c) (λ _, disciplined c) (λ _, disciplined c) l.
Proof.
  intros c. revert l. apply ok_best_effort. intros l Hl. apply ok_token_then; [done|]. clear l Hl. intros l Hl.
  rewrite tw_bind. eapply tw_mono; [by apply (tw_searching sv c)| |by intros ? ? []].
  intros users l' (Hok & Hf & _). cbn beta. rewrite tw_bind. apply tw_found; [|done].
  destruct (shown_in users) as [id|]; [|done]. apply ok_bind; [apply ok_send; [|done]|by intros]. split; eauto.
Qed.

Lemma listed_exactly_app email l l' id : listed_exactly l email id → listed_exactly (app l l') email id.
Proof. intros (r & users & Hin & Hu). exists r, users. split; [|exact Hu]. apply elem_of_app. by left. Qed.

Lemma ok_delete_all email ids all_deleted l : let c := Delete email in
  disciplined c l → (∀ id, id ∈ ids → listed_exactly l email id) →
  tw sv (delete_all ids all_deleted) (λ _, disciplined c) (λ _, disciplined c) l.
Proof.
  intros c. revert all_deleted l. induction ids as [|id ids IH]; intros all_deleted l Hl Hids; [done|]. cbn [delete_all].
  assert (permitted c l (DeleteUser id)) as Hp by (apply (Hids id); left). rewrite tw_bind, tw_handled, tw_bind.
  assert (∀ l', disciplined c (app l l') → ∀ b, tw sv (delete_all ids b) (λ _, disciplined c) (λ _, disciplined c) (app l l')) as Hrest.
  { intros l' Hl' b. apply IH; [done|]. intros id' Hid'. apply listed_exactly_app, Hids. by right. }
  apply tw_urlopen; intros; rewrite !tw_ret; apply Hrest; by apply follows_snoc.
Qed.

Lemma ok_delete email l : let c := Delete email in
  disciplined c l → tw sv (run_call c) (λ _, disciplined c) (λ _, disciplined c) l.
Proof.
  intros c. revert l. apply ok_best_effort. intros l Hl. apply ok_token_then; [done|]. clear l Hl.
  intros l Hl. rewrite tw_bind. apply tw_fetch; [|intros; by apply follows_snoc]. intros users Hb.
  set (r := sv l _) in *. assert (disciplined c (app l [(SearchUsers email true, r)])) as Hl' by (by apply follows_snoc).
  destruct (user_ids users) as [|id ids] eqn:Hids; [done|]. apply ok_delete_all; [done|]. intros id' Hid'.
  exists r, users. rewrite Hids. split; [|done]. apply elem_of_app. right. left.
Qed.
End calls.

(** C26: whatever the identity server answers, the four user calls stay
    within what they were asked to do. Every search is for the address of the
    call. A synchronization creates an account for that address, with the
    password, the role, the school and the names it was given, only after a
    search that showed nobody; it updates an account that such a search showed
    first or that it has just created; and it makes a member only of the
    account that an exact search has just shown first, and only in an
    organization that the listing before shows under the alias of the school.
    A change of role or of password goes to an account a search showed first,
    and sends no other values. Only accounts listed for exactly the address
    are deleted, and only by a deletion. Nothing else is sent. *)
Theorem calls_stay_on_their_user (sv : server) (c : user_call) : disciplined c (converse sv [] (run_call c)).1.
Proof.
  pose proof (follows_nil (permitted c)) as H0. assert (tw sv (run_call c) (λ _, disciplined c) (λ _, disciplined c) []) as H.
  { destruct c; [by apply ok_sync|by apply ok_role|by apply ok_password|by apply ok_delete]. }
  unfold tw in H. by destruct (converse sv [] (run_call c)).2.
Qed.

(** ** Organizations *)
(** Some listing shows the alias. *)
Definition org_listed (l : log) (target : string) : Prop :=
  ∃ r org, (ListOrganizations, r) ∈ l ∧ org ∈ organizations r ∧ aliased org target.
(** The last reply is a listing without the alias. *)
Definition org_missing (l : log) (target : string) : Prop :=
  ∃ l0 r, l = app l0 [(ListOrganizations, r)] ∧ body_of r ≠ None ∧ ∀ org, org ∈ organizations r → ¬ aliased org target.
Definition may_create (allowed : string → string → list string → Prop) (l : log) (q : request) : Prop :=
  match q with
  | AdminToken | ListOrganizations => True
  | CreateOrganization alias name domains => allowed alias name domains ∧ org_missing l (str_lower alias)
  | _ => False
  end.

Lemma converse_extends {A} sv l (t : talk A) : ∃ x, (converse sv l t).1 = app l x.
Proof.
  revert l. induction t as [r|q k IH]; intros l; cbn [converse]; [exists []; by rewrite app_nil_r|].
  destruct (IH (sv l q) (app l [(q, sv l q)])) as [x ->]. exists ((q, sv l q) :: x). by rewrite <-app_assoc.
Qed.
Lemma org_listed_app l x a : org_listed l a → org_listed (app l x) a.
Proof. intros (r & org & Hin & H). exists r, org. split; [|exact H]. apply elem_of_app. by left. Qed.
(** What was listed stays listed. *)
Lemma tw_listed {A} sv (t : talk A) Q E l :
  tw sv t Q E l →
  tw sv t (λ a l', Q a l' ∧ ∀ x, org_listed l x → org_listed l' x) (λ e l', E e l' ∧ ∀ x, org_listed l x → org_listed l' x) l.
Proof.
  unfold tw. destruct (converse_extends sv l t) as [x Hx]. rewrite Hx. destruct (converse sv l t).2; intros H; (split; [exact H|]);
    intros y; apply org_listed_app.
Qed.

(** The errors that a reconciliation does not record. *)
Definition escapes (e : kc_error) : Prop := ∀ m, e ≠ KeycloakOrganizationError m.

Section organizations.
Context (sv : server) (allowed : string → string → list string → Prop).
Abbreviation ok := (follows (may_create allowed)).

(** A lookup: the organization is listed, or the listing just made lacks it. *)
Lemma find_spec alias l : alias ≠ "" → str_strip alias = alias → ok l →
  tw sv (find_organization_by_alias alias)
    (λ o l', ok l' ∧ match present o with
                     | Some org => aliased org (str_lower alias) ∧ org_listed l' (str_lower alias)
                     | None => org_missing l' (str_lower alias)
                     end) (λ _, ok) l.
Proof.
  intros Hne Hst Hl. unfold find_organization_by_alias, _list_organizations. rewrite bool_decide_eq_false_2 by done. rewrite Hst.
  rewrite !tw_bind. apply tw_fetch; [|intros; by apply follows_snoc]. intros body Hb. rewrite tw_ret.
  set (r := sv l ListOrganizations) in *. assert (ok (app l [(ListOrganizations, r)])) as Hl' by by apply follows_snoc.
  assert (organizations r = match body with JList l => l | _ => [] end) as Ho by (unfold organizations; by rewrite Hb).
  rewrite <-Ho. apply tw_search_alias; [|intros Hno|done].
  - intros org Hin Ha. split; [done|]. assert (truthy org = true) as Ht.
    { destruct Ha as (f & -> & Ha). destruct f; [|done]. exfalso. apply Hne, str_lower_empty. by rewrite <-Ha. }
    cbn [present]. rewrite Ht. split; [done|]. exists r, org. split; [apply elem_of_app; right; left|done].
  - split; [done|]. exists l, r. split; [done|]. split; [by rewrite Hb|done].
Qed.

Lemma ok_token {A} (f : json → talk A) Q E l : ok l →
  (∀ j l', ok l' → tw sv (f j) Q E l') → (∀ e l', ok l' → E e l') → tw sv (_admin_token ≫= f) Q E l.
Proof.
  intros Hl Hf HE. unfold _admin_token. rewrite !tw_bind. apply tw_fetch; [|intros; by apply HE, follows_snoc].
  intros j Hj. assert (ok (app l [(AdminToken, sv l AdminToken)])) as Hl' by by apply follows_snoc.
  destruct j; try (by apply HE). cbn [item]. rewrite tw_some. destruct (lookup_field fields "access_token"); [by apply Hf|by apply HE].
Qed.

(** What the creation returns is an organization a listing showed. *)
Abbreviation returned alias := (λ org l', ok l' ∧ aliased org (str_lower alias) ∧ org_listed l' (str_lower alias)).

Lemma read_back_spec n tid l : tid ≠ "" → str_strip tid = tid → ok l →
  tw sv (read_back n tid) (λ o l', ok l' ∧ ∀ org, o = Some org → returned tid org l') (λ _, ok) l.
Proof.
  intros Hne Hst. revert l. induction n as [|n IH]; intros l Hl; [done|]. cbn [read_back]. rewrite tw_bind.
  eapply tw_mono; [by apply find_spec| |done]. intros o l' [Hl' Ho]. cbn beta. destruct (present o) as [org|]; [|by apply IH].
  split; [done|]. by intros ? [= <-].
Qed.

Lemma post_spec tid name domains l : tid ≠ "" → str_strip tid = tid → ok l →
  may_create allowed l (CreateOrganization tid name domains) →
  tw sv (post_organization tid name domains) (λ o l', ok l' ∧ ∀ org, o = Some org → returned tid org l') (λ _, ok) l.
Proof.
  intros Hne Hst Hl Hm. unfold post_organization. rewrite tw_ask. set (r := sv l _).
  assert (ok (app l [(CreateOrganization tid name domains, r)])) as Hl' by by apply follows_snoc.
  clearbody r. destruct r as [st re b detail lo|e]; [|done]. destruct (_ && _); [done|]. destruct (negb _); [done|].
  rewrite tw_bind. eapply tw_mono; [by apply find_spec| |done]. intros o l' [Hl'' Ho]. cbn beta.
  destruct (present o) as [org|]; [|done]. split; [done|]. by intros ? [= <-].
Qed.

Lemma create_spec tenant_id name domains l : let tid := str_strip tenant_id in
  allowed tid (default tid (non_empty name)) domains → ok l →
  tw sv (create_keycloak_organization tenant_id name domains) (returned tid) (λ _, ok) l.
Proof.
  intros tid Hal Hl. unfold create_keycloak_organization. fold tid. case_bool_decide as Hne; [done|].
  assert (str_strip tid = tid) as Hst by apply str_strip_idem. rewrite tw_bind, tw_handled. apply ok_token; [done| |done].
  clear l Hl. intros _ l Hl. rewrite tw_ret, tw_bind. eapply tw_mono; [by apply find_spec| |done]. clear l Hl.
  intros o l [Hl Ho]. cbn beta. destruct (present o) as [org|]; [done|]. rewrite tw_bind.
  eapply tw_mono; [by apply post_spec| |done]. clear l Hl Ho o. intros o l [Hl Ho]. cbn beta. destruct o as [org|]; [by apply Ho|].
  rewrite tw_bind. eapply tw_mono; [by apply read_back_spec| |done]. clear l Hl Ho. intros o l [Hl Ho]. cbn beta. rewrite tw_some.
  destruct o as [org|]; [by apply Ho|done].
Qed.

Lemma try_create_spec tid l : str_strip tid = tid → allowed tid tid [] → ok l →
  tw sv (try_create tid) (λ o l', ok l' ∧ (o = None → org_listed l' (str_lower tid))) (λ e l', ok l' ∧ escapes e) l.
Proof.
  intros Hst Hal Hl. unfold try_create. rewrite tw_handled, tw_bind.
  eapply tw_mono; [apply (create_spec tid None []); [by rewrite Hst|done]|..]; rewrite ?Hst.
  - intros org l' (Hl' & _ & H). by rewrite tw_ret.
  - intros e l' Hl'. by destruct e.
Qed.
End organizations.

(** Every id asked for is reported once, and those reported as existing or
    created were listed. *)
Definition reports (s : summary) : list string := app (su_existing s) (app (su_created s) (map fst (su_failed s))).
Definition reconciled (ids : list string) (l : log) (s : summary) : Prop :=
  ((∀ t, t ∈ reports s ↔ t ∈ ids) ∧ (NoDup ids → reports s ≡ₚ ids)) ∧ ∀ t, t ∈ app (su_existing s) (su_created s) → org_listed l (str_lower t).

Abbreviation nothing := {| su_existing := []; su_created := []; su_failed := [] |}.
Lemma reconciled_nothing l : reconciled [] l nothing.
Proof. split; [done|]. by intros ? []%not_elem_of_nil. Qed.

Lemma dict_set_keys {A} k (v : A) d : map fst (dict_set k v d) = if bool_decide (k ∈ map fst d) then map fst d else app (map fst d) [k].
Proof.
  induction d as [|[k' v'] d IH]; [done|]. cbn. destruct (decide (k = k')) as [<-|Hk].
  - rewrite (bool_decide_eq_true_2 (k = k)) by done. by rewrite bool_decide_eq_true_2 by left.
  - rewrite (bool_decide_eq_false_2 (k = k')) by done. cbn. rewrite IH.
    rewrite (bool_decide_ext (k ∈ k' :: map fst d) (k ∈ map fst d)) by (rewrite elem_of_cons; tauto).
    by destruct (bool_decide _).
Qed.

Lemma reports_reported t o known s :
  (∀ x, x ∈ reports (reported t o known s) ↔ x ∈ app (reports s) [t]) ∧
  (t ∉ reports s → reports (reported t o known s) ≡ₚ app (reports s) [t]).
Proof.
  unfold reports, reported. destruct o as [e|]; [|destruct known; cbn; (split; [set_solver|intros _; solve_Permutation])..].
  cbn. rewrite dict_set_keys. case_bool_decide as Hin; split; try set_solver. intros _. solve_Permutation.
Qed.
Lemma reconciled_step ids l t o known s : reconciled ids l s →
  let s' := reported t o known s in
  (∀ x, x ∈ reports s' ↔ x ∈ app ids [t]) ∧ (NoDup (app ids [t]) → reports s' ≡ₚ app ids [t]).
Proof.
  intros [[Hin Hp] _]. destruct (reports_reported t o known s) as [H1 H2]. split.
  - intros x. rewrite H1, !elem_of_app, Hin. done.
  - intros (Hn & Ht & _)%NoDup_app. rewrite H2, Hp; [done|done|]. rewrite Hin. intros H. by apply (Ht t H), list_elem_of_singleton.
Qed.
(** All of them failed for the same reason. *)
Lemma reconciled_none ids l e :
  reconciled ids l {| su_existing := []; su_created := []; su_failed := dict_of (map (λ t, (t, e)) ids) |}.
Proof.
  split; [|by intros ? []%not_elem_of_nil]. unfold reports, dict_of. cbn [su_existing su_created su_failed app].
  assert (∀ d, (∀ x, x ∈ map fst (fold_left (λ d kv, dict_set kv.1 kv.2 d) (map (λ t, (t, e)) ids) d) ↔ x ∈ app (map fst d) ids) ∧
    (NoDup (app (map fst d) ids) → map fst (fold_left (λ d kv, dict_set kv.1 kv.2 d) (map (λ t, (t, e)) ids) d) = app (map fst d) ids)) as H.
  { induction ids as [|t ids IH]; intros d; [cbn; by rewrite app_nil_r|]. cbn [map fold_left fst snd].
    destruct (IH (dict_set t e d)) as [H1 H2]. rewrite dict_set_keys in H1, H2. split.
    - intros x. rewrite H1. case_bool_decide; set_solver.
    - rewrite (cons_middle t (map fst d) ids). intros Hn. rewrite bool_decide_eq_false_2 in H2.
      + rewrite <-app_assoc in H2. by apply H2.
      + intros Ht. apply NoDup_app in Hn as (_ & Hn & _). apply (Hn t Ht). left. }
  destruct (H []) as [H1 H2]. split; [exact H1|]. intros Hn. by rewrite H2.
Qed.
Lemma reported_listed l t o known s :
  (∀ x, x ∈ app (su_existing s) (su_created s) → org_listed l (str_lower x)) → (o = None → org_listed l (str_lower t)) →
  ∀ x, x ∈ app (su_existing (reported t o known s)) (su_created (reported t o known s)) → org_listed l (str_lower x).
Proof. unfold reported. destruct o, known; cbn; set_solver. Qed.

Lemma reconcile_spec sv (aliases all ids : list string) s l done_ : let allowed a n d := a ∈ all ∧ n = a ∧ d = [] in
  (∀ t, t ∈ ids → t ∈ all ∧ str_strip t = t) → follows (may_create allowed) l →
  (∀ a, a ∈ aliases → org_listed l a) → reconciled done_ l s →
  tw sv (reconcile aliases ids s) (λ s' l', follows (may_create allowed) l' ∧ reconciled (app done_ ids) l' s')
    (λ e l', follows (may_create allowed) l' ∧ escapes e) l.
Proof.
  intros allowed. revert s l done_. induction ids as [|t ids IH]; intros s l done_ Hids Hl Hal Hrec; pose proof Hrec as [_ Hs].
  - cbn [reconcile]. rewrite tw_ret, app_nil_r. done.
  - assert (∀ t', t' ∈ ids → t' ∈ all ∧ str_strip t' = t') as Hids' by (intros; apply Hids; by right).
    destruct (Hids t) as [Hin Hst]; [left|]. cbn [reconcile]. rewrite (cons_middle t done_ ids).
    case_bool_decide as Hk.
    + rewrite app_assoc. apply IH; [done|done|done|]. split; [by eapply reconciled_step|]. apply reported_listed; auto.
    + rewrite tw_bind. eapply tw_mono; [apply tw_listed, (try_create_spec sv allowed); [done|by split_and!|done]| |by intros ? ? [? ?]].
      intros o l' [[Hl' Ho] Hmore]. cbn beta. rewrite app_assoc. apply IH; [done|done|auto|].
      split; [by eapply reconciled_step|]. apply reported_listed; auto.
Qed.

Lemma map_aliases_spec sv orgs (Q : list string → log → Prop) E l :
  (∀ al, (∀ a, a ∈ al → ∃ org, org ∈ orgs ∧ aliased org a) → Q al l) → (∀ e, E e l) → tw sv (map_aliases orgs) Q E l.
Proof.
  revert Q. induction orgs as [|org orgs IH]; intros Q HQ HE; [apply HQ; by intros ? []%not_elem_of_nil|].
  cbn [map_aliases]. rewrite tw_bind. apply tw_alias_of; [|done]. intros f ->. rewrite tw_bind. apply IH; [|done].
  intros al Hal. rewrite tw_ret. apply HQ. intros a [->|Ha]%elem_of_cons; [eexists; split; [left|by exists f]|].
  destruct (Hal a Ha) as (org & Ho & H). exists org. split; [by right|done].
Qed.

Lemma aliases_spec sv allowed l : let ok := follows (may_create allowed) in ok l →
  tw sv (handled (_admin_token ;; orgs ← _list_organizations; al ← map_aliases orgs; mret (inl al)) (λ exc, mret (inr (error_text exc))))
    (λ o l', ok l' ∧ match o with inl al => ∀ a, a ∈ al → org_listed l' a | inr _ => True end) (λ _ _, False) l.
Proof.
  intros ok Hl. rewrite tw_handled. apply (ok_token sv allowed); [done| |done]. clear l Hl. intros _ l Hl. unfold _list_organizations.
  rewrite !tw_bind. apply tw_fetch; [|intros; cbn beta; split; [by apply follows_snoc|done]]. intros body Hb. rewrite tw_ret, tw_bind.
  set (r := sv l ListOrganizations) in *. assert (ok (app l [(ListOrganizations, r)])) as Hl' by by apply follows_snoc.
  apply map_aliases_spec; [|done]. intros al Hal. rewrite tw_ret. split; [done|]. intros a Ha. destruct (Hal a Ha) as (org & Ho & H).
  exists r, org. split; [apply elem_of_app; right; left|]. split; [|done]. unfold organizations. by rewrite Hb.
Qed.

(** C28: the reconciliation of the organizations, against any identity
    server. It creates an organization only for a school it was asked about,
    under the school's own id and with no email domain, and only right after
    a listing that shows no organization of that alias. If it ends normally,
    it reports the ids it was asked for and no other, each once if they are
    distinct, and each one it reports as existing or created was shown to it
    by a listing. It can also end by an error, without a report, but never by
    the one that the creation of an organization is meant to raise. *)
Theorem reconciliation_reports_what_it_saw (sv : server) (tenant_ids : list string) :
  let ids := wanted tenant_ids in
  let (l, outcome) := converse sv [] (ensure_keycloak_organizations tenant_ids) in
  follows (may_create (λ alias name domains, alias ∈ ids ∧ name = alias ∧ domains = [])) l ∧
  match outcome with inl s => reconciled ids l s | inr e => escapes e end.
Proof.
  intros ids. set (allowed := λ alias name domains, _).
  assert (tw sv (ensure_keycloak_organizations tenant_ids)
    (λ s l, follows (may_create allowed) l ∧ reconciled ids l s) (λ e l, follows (may_create allowed) l ∧ escapes e) []) as H.
  { unfold ensure_keycloak_organizations. fold ids. pose proof (follows_nil (may_create allowed)) as H0.
    assert (∀ t, t ∈ ids → t ∈ ids ∧ str_strip t = t) as Hids.
    { intros t Ht. split; [done|]. unfold ids, wanted in Ht. rewrite list_elem_of_In, filter_In, in_map_iff in Ht.
      destruct Ht as [(x & <- & _) _]. apply str_strip_idem. }
    destruct ids as [|t ts]; [split; [done|apply reconciled_nothing]|]. rewrite tw_bind.
    eapply tw_mono; [by apply (aliases_spec sv allowed)| |done]. intros o l [Hl Ho]. cbn beta. destruct o as [al|e].
    - apply (reconcile_spec sv al (t :: ts) (t :: ts) _ l []); [done|done|done|apply reconciled_nothing].
    - rewrite tw_ret. split; [done|apply reconciled_none]. }
  unfold tw in H. by destruct (converse _ _ _) as [l [?|?]].
Qed.

(** ** Concrete servers *)
Definition accepted (body : json) : reply := Answered 200 "OK" (Some body) "" None.
Definition token_reply : reply := accepted (JObj [("access_token", JStr "t")]).
Definition account (id email : string) : json := JObj [("id", JStr id); ("email", JStr email)].
(** Two accounts; a search that is not exact shows every address that
    contains the one asked for. *)
Definition two_accounts : server := λ l q,
  match q with
  | AdminToken => token_reply
  | SearchUsers email exact =>
      let matches e := if exact then bool_decide (e = email) else bool_decide (is_Some (String.index 0 email e)) in
      accepted (JList (map (λ a, account a.1 a.2) (List.filter (λ a, matches a.2) [("1", "joann@a.org"); ("2", "ann@a.org")])))
  | ListOrganizations => accepted (JList [JObj [("id", JStr "o1"); ("alias", JStr "School_A")]])
  | CreateUser _ _ _ _ _ _ => Answered 201 "Created" None "" (Some "http://kc/users/3")
  | _ => Answered 204 "No Content" None "" None
  end.
(** What was sent. *)
Definition sent {A} (sv : server) (t : talk A) : list request := map fst (converse sv [] t).1.

(** The three searches that are not exact take the first account shown,
    whatever its address: here the password of another user is reset. *)
Example password_of_another_account :
  sent two_accounts (update_user_password_in_keycloak "ann@a.org" "new") =
    [AdminToken; SearchUsers "ann@a.org" false; ResetPassword (JStr "1") "new"].
Proof. reflexivity. Qed.
Example deletion_is_exact :
  sent two_accounts (delete_user_from_keycloak "ann@a.org") = [AdminToken; SearchUsers "ann@a.org" true; DeleteUser (JStr "2")].
Proof. reflexivity. Qed.
(** A new user of a school becomes a member of its organization only if an
    exact search shows the account. *)
Example new_user :
  sent two_accounts (sync_user_to_keycloak "bob@a.org" "pw" "teacher" None None None) =
    [AdminToken; SearchUsers "bob@a.org" false; CreateUser "bob@a.org" "" "" None "teacher" "pw";
     UpdateUser (JStr "3") "bob@a.org" (JStr "") (JStr "") None "teacher"].
Proof. reflexivity. Qed.
Example membership :
  sent two_accounts (add_user_to_organization "ann@a.org" "school_a") =
    [AdminToken; ListOrganizations; SearchUsers "ann@a.org" true; AddMember (JStr "o1") (JStr "2")].
Proof. reflexivity. Qed.

(** No token: nothing is sent and every id is reported as failed. *)
Example reconcile_without_token :
  (converse (λ _ _, Unreachable "refused") [] (ensure_keycloak_organizations [" a "; ""; "b"])).2 =
    inl {| su_existing := []; su_created := []; su_failed := [("a", "refused"); ("b", "refused")] |}.
Proof. reflexivity. Qed.

(** The listing works, then stops working after two requests. *)
Definition listing_breaks : server := λ l q,
  match q with
  | AdminToken => token_reply
  | ListOrganizations => if (Z.of_nat (List.length l) <? 2) then accepted (JList []) else Answered 503 "Service Unavailable" None "" None
  | _ => Answered 204 "No Content" None "" None
  end.
(** Not best effort: one school's lookup fails and the whole reconciliation
    raises, without a report and without trying the other schools. *)
Example one_failure_ends_the_reconciliation :
  (converse listing_breaks [] (ensure_keycloak_organizations ["a"; "b"])).2 = inr (HTTPError 503 "Service Unavailable" "").
Proof. reflexivity. Qed.

(** Any redirect address is made acceptable. *)
Example wildcard_redirect : "*" ∈ needed_uris.
Proof. by apply (bool_decide_eq_true_1 ("*" ∈ needed_uris)). Qed.
