(* ===== verification/InviteAccount.v ===== *)
(** * The account behind an invitation

    The Keycloak client of src/app/domains/invitations/service.py: finding or
    creating the account of the invited address, its group and its
    organization, as a conversation (Keycloak) that decides whether the
    invitation is recorded (Registration). The client follows no redirects;
    its time limit is not modelled. *)
From Stdlib Require Import Ascii String.
From stdpp Require Import gmap.
From S2P Require Import Prelude PyText World Registration Keycloak.

(** ** The client *)
(** [client.get], [client.post], [client.put]: any status is an answer. *)
Definition send (q : request) : talk (Z * option json * string * option string) :=
  Ask q (λ r, match r with
    | Unreachable e => fails (OtherError e)
    | Answered status _ body detail location => mret (status, body, detail, location)
    end).
(** [resp.json()] *)
Definition json_body (body : option json) : talk json := some_or body not_json.

Definition _get_admin_token : talk json :=
  '(status, body, detail, _) ← send AdminToken;
  if 300 <=? status then fails (OtherError ("Failed to authenticate with Keycloak Admin API: " +:+ detail))
  else j ← json_body body; item j "access_token".

(** ** Groups *)
(** [g.get(k, "").strip().lower()] *)
Definition text_of (o : option json) : option string :=
  match o with None => Some "" | Some (JStr s) => Some (str_lower (str_strip s)) | Some _ => None end.
Definition group_text (f : list (string * json)) (k : string) : talk string :=
  some_or (text_of (lookup_field f k)) (OtherError "object has no attribute 'strip'").
(** [s.lstrip("/")], [s.endswith(e)] *)
Definition lstrip_slash (s : string) : string := text (drop_while (λ c, code c =? 47) (chars s)).
Definition ends_with (s e : string) : bool :=
  bool_decide (drop (length (chars s) - length (chars e)) (chars s) = chars e).
Definition group_matches (clean_path g_path g_name : string) : bool :=
  bool_decide (g_path = clean_path) || bool_decide (g_name = lstrip_slash clean_path) || ends_with g_path clean_path.

(** The loop over a list of groups, given what one group does: [Some v] ends
    the loop and returns [v]. *)
Definition groups_loop (one : json → talk (option (option json))) : list json → talk (option json) :=
  fix go l := match l with
    | [] => mret None
    | g :: l => r ← one g; match r with Some v => mret v | None => go l end
    end.
Definition continue_unless (res : option json) : option (option json) :=
  match res with Some v => if truthy v then Some (Some v) else None | None => None end.
Fixpoint search_group (clean_path : string) (g : json) : talk (option (option json)) :=
  match g with
  | JObj f =>
      g_path ← group_text f "path";
      g_name ← group_text f "name";
      if group_matches clean_path g_path g_name then mret (Some (lookup_field f "id"))
      else
        (fix sub_groups (f : list (string * json)) : talk (option (option json)) :=
           match f with
           | [] => mret None
           | (k, v) :: f =>
               if bool_decide (k = "subGroups") then
                 match v with
                 | JList sub_grps => res ← groups_loop (search_group clean_path) sub_grps; mret (continue_unless res)
                 | _ => if truthy v then fails (OtherError "object has no attribute 'get'") else mret None
                 end
               else sub_groups f
           end) f
  | _ => fails (OtherError "object has no attribute 'get'")
  end.
Definition search_groups (clean_path : string) : list json → talk (option json) := groups_loop (search_group clean_path).

Definition _get_group_id_by_path (target_path : string) : talk (option json) :=
  '(status, body, _, _) ← send ListGroups;
  if 300 <=? status then mret None
  else groups ← json_body body;
       match groups with
       | JList groups => search_groups (str_lower (str_strip target_path)) groups
       | _ => mret None
       end.

(** ** Accounts *)
(** [users[0]["id"]], if the search shows anybody. *)
Definition shell_search (email : string) : talk (option json) :=
  '(status, body, _, _) ← send (FindUser email);
  if status <? 300 then
    users ← json_body body;
    match first_user users with Some u => id ← item u "id"; mret (Some id) | None => mret None end
  else mret None.

Definition shell_location (status : Z) (location : option string) : option json :=
  if bool_decide (status ∈ [200; 201; 204]) then (λ loc, JStr (last_segment loc)) <$> non_empty location else None.
Definition _find_or_create_user_shell (email tenant_id role : string) : talk (option json) :=
  known ← shell_search email;
  match known with
  | Some id => mret (Some id)
  | None =>
      '(status, _, _, location) ← send (CreateShell email tenant_id role);
      match shell_location status location with Some id => mret (Some id) | None => shell_search email end
  end.

Definition group_paths (tenant_id role : string) : list string := ["/" +:+ tenant_id +:+ "/" +:+ role; "/" +:+ role].
Fixpoint first_group (paths : list string) : talk (option json) :=
  match paths with
  | [] => mret None
  | path :: paths =>
      group_id ← _get_group_id_by_path path;
      match present group_id with Some id => mret (Some id) | None => first_group paths end
  end.
Definition _assign_user_group (kc_user_id : json) (tenant_id role : string) : talk unit :=
  group_id ← first_group (group_paths tenant_id role);
  match group_id with Some id => send (JoinGroup kc_user_id id) ;; mret tt | None => mret tt end.

Definition _assign_user_organization (kc_user_id : json) (tenant_id : string) : talk unit :=
  if bool_decide (tenant_id = "") then fails (OtherError "tenant_id is required to assign organization membership")
  else
    '(status, body, _, _) ← send ListOrganizations;
    if 300 <=? status then fails (OtherError ("Could not list Keycloak organizations: HTTP " +:+ pretty status))
    else
      orgs_all ← json_body body;
      org ← search_alias (str_lower (str_strip tenant_id)) (match orgs_all with JList l => l | _ => [] end);
      org_id ← match org with Some org => get org "id" | None => mret None end;
      match present org_id with
      | None => fails (OtherError ("No Keycloak organization is aliased '" +:+ tenant_id +:+ "'. A tenant without "
          +:+ "an organization cannot be resolved from a token; provision it via "
          +:+ "create_keycloak_organization before inviting users into it."))
      | Some org_id =>
          '(status, _, _, _) ← send (AddMember org_id kc_user_id);
          if (300 <=? status) && negb (status =? 409) then
            fails (OtherError ("Could not add user to organization '" +:+ tenant_id +:+ "': HTTP " +:+ pretty status))
          else mret tt
      end.

(** Steps 2 to 4 of [send_user_invitation]. *)
Definition provision_account (email tenant_id role : string) : talk unit :=
  handled (_get_admin_token ;; mret tt) (λ exc, fails (Raised (HTTPException 502
    ("Keycloak administration service unavailable: " +:+ error_text exc)))) ;;
  kc_user_id ← _find_or_create_user_shell email tenant_id role;
  match present kc_user_id with
  | Some id => _assign_user_group id tenant_id role ;; _assign_user_organization id tenant_id
  | None => mret tt
  end.

(** What the steps raise; [RuntimeError] and [KeyError] are answered like any
    other exception. *)
Definition exn_of (e : kc_error) : exn := match e with Raised x => x | _ => TypeError (error_text e) end.
Definition provision_user (sv : server) (email tenant_id role : string) : option exn :=
  match (converse sv [] (provision_account email tenant_id role)).2 with inl _ => None | inr e => Some (exn_of e) end.

(** ** What the replies show *)
Definition reply_body (r : reply) : option json :=
  match r with Answered status _ body _ _ => if 300 <=? status then None else body | Unreachable _ => None end.
Definition first_id (users : json) : option json :=
  match first_user users with Some (JObj f) => lookup_field f "id" | _ => None end.
Definition json_list (o : option json) : list json := match o with Some (JList l) => l | _ => [] end.

(** A group, or a group below it, that the search accepts. *)
Inductive group_found (clean_path : string) : json → json → Prop :=
  | group_here f p n id : text_of (lookup_field f "path") = Some p → text_of (lookup_field f "name") = Some n →
      group_matches clean_path p n = true → lookup_field f "id" = Some id → group_found clean_path (JObj f) id
  | group_below f subs g id : lookup_field f "subGroups" = Some (JList subs) → g ∈ subs →
      group_found clean_path g id → group_found clean_path (JObj f) id.

Section invitation.
Context (email tenant_id role : string).

(** An id the server gave for the address: shown first by a search, or the
    location of the account just created. *)
Definition gives (q : request) (r : reply) (id : json) : Prop :=
  match q, r with
  | FindUser e, _ => e = email ∧ reply_body r ≫= first_id = Some id
  | CreateShell e t ro, Answered status _ _ _ location => e = email ∧ t = tenant_id ∧ ro = role ∧ shell_location status location = Some id
  | _, _ => False
  end.
Definition account_of (l : log) (id : json) : Prop := ∃ q r, (q, r) ∈ l ∧ gives q r id.

Definition invite_may (l : log) (q : request) : Prop :=
  match q with
  | AdminToken | ListGroups | ListOrganizations => True
  | FindUser e => e = email
  | CreateShell e t ro => e = email ∧ t = tenant_id ∧ ro = role ∧
      ∃ l0 r, l = app l0 [(FindUser email, r)] ∧ reply_body r ≫= first_user = None
  | JoinGroup id group => account_of l id ∧ truthy id = true ∧
      ∃ r path g, (ListGroups, r) ∈ l ∧ path ∈ group_paths tenant_id role ∧ g ∈ json_list (reply_body r) ∧
        group_found (str_lower (str_strip path)) g group
  | AddMember org_id id => account_of l id ∧ truthy id = true ∧
      ∃ l0 r f, l = app l0 [(ListOrganizations, r)] ∧ JObj f ∈ json_list (reply_body r) ∧
        aliased (JObj f) (str_lower (str_strip tenant_id)) ∧ lookup_field f "id" = Some org_id
  | _ => False
  end.

(** The server accepted the account as a member, or knew it for one. *)
Definition joined (l : log) : Prop :=
  ∃ org_id id status reason body detail location,
    (AddMember org_id id, Answered status reason body detail location) ∈ l ∧ (status < 300 ∨ status = 409).
Definition no_account (l : log) : Prop := ∀ id, account_of l id → truthy id = false.
End invitation.

(** ** Conversations without requests *)
Definition yields {A} (t : talk A) (Q : A → Prop) : Prop :=
  match t with Done (inl a) => Q a | Done (inr _) => True | Ask _ _ => False end.
Lemma yields_bind {A B} (t : talk A) (f : A → talk B) Q : yields t (λ a, yields (f a) Q) → yields (t ≫= f) Q.
Proof. by destruct t as [[]|]. Qed.
Lemma yields_mono {A} (t : talk A) (Q Q' : A → Prop) : yields t Q → (∀ a, Q a → Q' a) → yields t Q'.
Proof. destruct t as [[]|]; cbn; auto. Qed.
Lemma yields_some {A} (o : option A) e (Q : A → Prop) : (∀ a, o = Some a → Q a) → yields (some_or o e) Q.
Proof. destruct o; cbn; auto. Qed.
Lemma tw_yields {A} sv (t : talk A) P (Q : A → log → Prop) E l :
  yields t P → (∀ a, P a → Q a l) → (∀ e, E e l) → tw sv t Q E l.
Proof. destruct t as [[a|e]|]; cbn; [intros Ha HQ _; by apply HQ|intros _ _ HE; apply HE|done]. Qed.

Lemma groups_loop_spec one (P : json → json → Prop) l :
  (∀ g, g ∈ l → yields (one g) (λ r, ∀ id, r = Some (Some id) → P g id)) →
  yields (groups_loop one l) (λ r, ∀ id, r = Some id → ∃ g, g ∈ l ∧ P g id).
Proof.
  induction l as [|g l IH]; intros H; [done|]. cbn. apply yields_bind. eapply yields_mono; [apply H; left|].
  intros [v|] Hv; cbn beta.
  - intros id ->. exists g. split; [left|by apply Hv].
  - eapply yields_mono; [apply IH; intros g' Hg'; apply H; by right|]. intros r Hr id Hid.
    destruct (Hr id Hid) as (g' & Hg' & HP). exists g'. split; [by right|done].
Qed.

(** Induction over the groups below a group. *)
Lemma group_ind (P : json → Prop) :
  (∀ g, (∀ f subs g', g = JObj f → lookup_field f "subGroups" = Some (JList subs) → g' ∈ subs → P g') → P g) → ∀ g, P g.
Proof.
  intros H. fix IH 1. intros g. apply H. destruct g as [| | | | |f]; try (intros; discriminate). intros f0 subs g0 [= <-] Hs Hg.
  revert Hs. induction f as [|[k v] f IHf]; cbn [lookup_field]; [discriminate|]. case_bool_decide; [|exact IHf].
  destruct v as [| | | |l|]; try discriminate. intros [= <-]. clear -IH Hg. rename l into subs. induction subs as [|g1 subs IHs]; [exfalso; by eapply not_elem_of_nil|].
  apply elem_of_cons in Hg as [->|Hg]; [apply IH|exact (IHs Hg)].
Qed.

Lemma search_group_spec clean_path g :
  yields (search_group clean_path g) (λ r, ∀ id, r = Some (Some id) → group_found clean_path g id).
Proof.
  induction g as [g IH] using group_ind. destruct g as [| | | | |f]; try done. cbn [search_group].
  apply yields_bind, yields_some. intros p Hp. apply yields_bind, yields_some. intros n Hn.
  destruct (group_matches clean_path p n) eqn:Hm; [intros id [= Hid]; by eapply group_here|].
  match goal with |- yields (?F f) _ => set (sub_groups := F) end.
  assert (sub_groups f = match lookup_field f "subGroups" with
    | None => mret None
    | Some (JList l) => res ← groups_loop (search_group clean_path) l; mret (continue_unless res)
    | Some v => if truthy v then fails (OtherError "object has no attribute 'get'") else mret None
    end) as ->.
  { clear. induction f as [|[k v] f IH]; [done|]. cbn. case_bool_decide; [by destruct v|exact IH]. }
  destruct (lookup_field f "subGroups") as [v|] eqn:Hs; [|done]. destruct v as [| | | |subs|]; try (by destruct (truthy _)).
  apply yields_bind. eapply yields_mono; [apply (groups_loop_spec _ (group_found clean_path)); intros g Hg; by eapply IH|].
  intros r Hr id Hid. destruct r as [v|]; [|done]. cbn in Hid. destruct (truthy v); [|done]. injection Hid as <-.
  destruct (Hr v eq_refl) as (g & Hg & Hf). by eapply group_below.
Qed.

(** ** The conversation *)
Section provisioning.
Context (sv : server) (email tenant_id role : string).
Abbreviation ok := (follows (invite_may email tenant_id role)).
Abbreviation account := (account_of email tenant_id role).

Lemma account_snoc l q r id : account (app l [(q, r)]) id ↔ account l id ∨ gives email tenant_id role q r id.
Proof.
  split.
  - intros (q' & r' & [Hin|Hin%list_elem_of_singleton]%elem_of_app & Hg); [left; by exists q', r'|].
    injection Hin as -> ->. by right.
  - intros [(q' & r' & Hin & Hg)|Hg]; [exists q', r'|exists q, r]; (split; [apply elem_of_app|exact Hg]); [by left|right; left].
Qed.
(** A request about no account leaves the accounts as they are. *)
Lemma account_other l q r id : (∀ e, q ≠ FindUser e) → (∀ e t ro, q ≠ CreateShell e t ro) →
  account (app l [(q, r)]) id ↔ account l id.
Proof. intros Hf Hc. rewrite account_snoc. destruct q; cbn; try tauto; [by destruct (Hf email0)|]. by destruct (Hc email0 tenant_id0 role0). Qed.

Lemma tw_send q Q E l :
  (∀ status reason body detail location, sv l q = Answered status reason body detail location →
    Q (status, body, detail, location) (app l [(q, sv l q)])) →
  (∀ e, E e (app l [(q, sv l q)])) → tw sv (send q) Q E l.
Proof. intros HQ HE. unfold send. rewrite tw_ask. destruct (sv l q) eqn:H; [by eapply HQ|apply HE]. Qed.

Lemma shell_search_spec l : ok l →
  tw sv (shell_search email)
    (λ o l', ok l' ∧ match o with
                     | Some id => account l' id ∧ ∀ id', account l' id' → account l id' ∨ id' = id
                     | None => (∀ id', account l' id' → account l id') ∧
                         ∃ l0 r, l' = app l0 [(FindUser email, r)] ∧ reply_body r ≫= first_user = None
                     end) (λ _, ok) l.
Proof.
  intros Hl. unfold shell_search. rewrite tw_bind. set (r := sv l (FindUser email)).
  assert (ok (app l [(FindUser email, r)])) as Hl' by by apply follows_snoc.
  apply tw_send; [|done]. fold r. intros st re body d lo Hr. cbn beta iota.
  assert (∀ id, account (app l [(FindUser email, r)]) id ↔ account l id ∨ reply_body r ≫= first_id = Some id) as Hacc.
  { intros id. rewrite account_snoc. cbn. tauto. }
  assert (∀ u, reply_body r ≫= first_user = u → u = None →
    ok (app l [(FindUser email, r)]) ∧ (∀ id', account (app l [(FindUser email, r)]) id' → account l id') ∧
    ∃ l0 r', app l [(FindUser email, r)] = app l0 [(FindUser email, r')] ∧ reply_body r' ≫= first_user = None) as Hnone.
  { intros u <- Hu. split; [done|]. split; [|by exists l, r]. intros id [H|H]%Hacc; [done|].
    unfold first_id in H. destruct (reply_body r) as [b|]; [|done]. cbn in H, Hu. by rewrite Hu in H. }
  assert (reply_body r = if 300 <=? st then None else body) as Hb by by rewrite Hr.
  destruct (Z.ltb_spec st 300) as [Hst|Hst].
  - rewrite (proj2 (Z.leb_gt 300 st)) in Hb by done. rewrite tw_bind. unfold json_body. rewrite tw_some. destruct body as [users|]; [|done].
    destruct (first_user users) as [u|] eqn:Hu; [|eapply Hnone; [by rewrite Hb|done]].
    rewrite tw_bind. destruct u as [| | | | |f]; try done. cbn [item]. rewrite tw_some. destruct (lookup_field f "id") as [id|] eqn:Hid; [|done].
    assert (reply_body r ≫= first_id = Some id) as Hsh by (rewrite Hb; cbn; unfold first_id; by rewrite Hu).
    rewrite tw_ret. split; [done|]. split; [apply Hacc; by right|]. intros id' [H|H]%Hacc; [by left|right]. congruence.
  - rewrite (proj2 (Z.leb_le 300 st)) in Hb by done. rewrite tw_ret. by eapply Hnone; [rewrite Hb|].
Qed.

Lemma find_or_create_spec l : ok l → (∀ id, ¬ account l id) →
  tw sv (_find_or_create_user_shell email tenant_id role)
    (λ o l', ok l' ∧ match present o with
                     | Some id => account l' id ∧ truthy id = true
                     | None => no_account email tenant_id role l'
                     end) (λ _, ok) l.
Proof.
  intros Hl Hno. unfold _find_or_create_user_shell. rewrite tw_bind.
  assert (∀ l' id, ok l' → account l' id → (∀ id', account l' id' → id' = id) →
    ok l' ∧ match present (Some id) with Some i => account l' i ∧ truthy i = true | None => no_account email tenant_id role l' end) as Hend.
  { intros l' id Hok Ha Hone. split; [done|]. cbn. destruct (truthy id) eqn:Ht; [done|]. by intros id' ->%Hone. }
  eapply tw_mono; [by apply shell_search_spec| |done]. intros [id|] l1 [Hl1 H]; cbn beta iota.
  { destruct H as [Ha Hone]. apply Hend; [done..|]. intros id' Hid'. by destruct (Hone _ Hid') as [?%Hno|]. }
  destruct H as [Hsame Hlast]. assert (∀ id, ¬ account l1 id) as Hno1 by (intros id H; by apply (Hno id), Hsame).
  rewrite tw_bind. set (q := CreateShell email tenant_id role). set (r := sv l1 q).
  assert (ok (app l1 [(q, r)])) as Hl2 by by apply follows_snoc. apply tw_send; [|done]. fold r. intros st re body d lo Hr. cbn beta iota.
  assert (∀ id, account (app l1 [(q, r)]) id ↔ shell_location st lo = Some id) as Hacc.
  { intros id. rewrite account_snoc, Hr. cbn. specialize (Hno1 id). tauto. }
  destruct (shell_location st lo) as [id|].
  { rewrite tw_ret. apply Hend; [done|by apply Hacc|]. intros id' H%Hacc. congruence. }
  eapply tw_mono; [by apply shell_search_spec| |done]. intros [id|] l3 [Hl3 H]; cbn beta iota.
  - destruct H as [Ha Hone]. apply Hend; [done..|]. intros id' Hid'. by destruct (Hone _ Hid') as [?%Hacc|].
  - destruct H as [Hs _]. split; [done|]. intros id Hid. by apply Hs, Hacc in Hid.
Qed.

(** What the account needs stays there while nobody asks about accounts. *)
Abbreviation ready id := (λ l, ok l ∧ account l id).
Lemma ready_snoc l q r id : ready id l → invite_may email tenant_id role l q → ready id (app l [(q, r)]).
Proof. intros [Hl Ha] Hq. split; [by apply follows_snoc|]. apply account_snoc. by left. Qed.

Lemma group_spec path l id : path ∈ group_paths tenant_id role → ready id l →
  tw sv (_get_group_id_by_path path)
    (λ o l', ready id l' ∧ ∀ gid, o = Some gid → ∃ r g, (ListGroups, r) ∈ l' ∧ g ∈ json_list (reply_body r) ∧
       group_found (str_lower (str_strip path)) g gid) (λ _, ok) l.
Proof.
  intros Hp Hl. unfold _get_group_id_by_path. rewrite tw_bind. set (r := sv l ListGroups).
  assert (ready id (app l [(ListGroups, r)])) as Hl' by by apply ready_snoc.
  apply tw_send; [|intros; apply Hl']. fold r. intros st re body d lo Hr. cbn beta iota.
  assert (reply_body r = if 300 <=? st then None else body) as Hb by by rewrite Hr.
  destruct (300 <=? st); [done|]. rewrite tw_bind. unfold json_body. rewrite tw_some. destruct body as [groups|]; [|apply Hl'].
  destruct groups as [| | | |groups|]; try done.
  eapply tw_yields; [apply (groups_loop_spec _ (group_found (str_lower (str_strip path)))); intros; apply search_group_spec| |].
  - intros o Ho. split; [done|]. intros gid Hgid. destruct (Ho gid Hgid) as (g & Hg & Hf). exists r, g.
    split; [apply elem_of_app; right; left|]. by rewrite Hb.
  - intros e. apply Hl'.
Qed.

Lemma first_group_spec paths l id : (∀ p, p ∈ paths → p ∈ group_paths tenant_id role) → ready id l →
  tw sv (first_group paths)
    (λ o l', ready id l' ∧ ∀ gid, o = Some gid → ∃ r path g, (ListGroups, r) ∈ l' ∧ path ∈ group_paths tenant_id role ∧
       g ∈ json_list (reply_body r) ∧ group_found (str_lower (str_strip path)) g gid) (λ _, ok) l.
Proof.
  revert l. induction paths as [|p paths IH]; intros l Hps Hl; [done|]. cbn [first_group]. rewrite tw_bind.
  eapply tw_mono; [apply (group_spec p l id); [apply Hps; left|done]| |done]. intros o l' [Hl' Ho]. cbn beta.
  destruct o as [gid|]; cbn [present]; [destruct (truthy gid)|].
  - rewrite tw_ret. split; [done|]. intros ? [= <-]. destruct (Ho gid eq_refl) as (r & g & Hr & Hg).
    exists r, p, g. split; [done|]. split; [apply Hps; left|done].
  - apply IH; [intros; apply Hps; by right|done].
  - apply IH; [intros; apply Hps; by right|done].
Qed.

Lemma assign_group_spec id l : truthy id = true → ready id l →
  tw sv (_assign_user_group id tenant_id role) (λ _, ready id) (λ _, ok) l.
Proof.
  intros Ht Hl. unfold _assign_user_group. rewrite tw_bind. eapply tw_mono; [apply (first_group_spec _ _ id); [auto|done]| |done].
  intros o l' [Hl' Ho]. cbn beta. destruct o as [gid|]; [|done]. rewrite tw_bind.
  assert (∀ r, ready id (app l' [(JoinGroup id gid, r)])) as Hnext.
  { intros r. apply ready_snoc; [done|]. cbn. split; [apply Hl'|]. split; [done|]. by apply Ho. }
  apply tw_send; intros; [by rewrite tw_ret|]. apply Hnext.
Qed.

Lemma assign_organization_spec id l : truthy id = true → ready id l →
  tw sv (_assign_user_organization id tenant_id) (λ _ l', ok l' ∧ joined l') (λ _, ok) l.
Proof.
  intros Ht Hl. unfold _assign_user_organization. case_bool_decide; [apply Hl|]. rewrite tw_bind. set (r := sv l ListOrganizations).
  assert (ready id (app l [(ListOrganizations, r)])) as Hl' by by apply ready_snoc.
  apply tw_send; [|intros; apply Hl']. fold r. intros st re body d lo Hr. cbn beta iota.
  assert (reply_body r = if 300 <=? st then None else body) as Hb by by rewrite Hr.
  destruct (300 <=? st); [apply Hl'|]. rewrite tw_bind. unfold json_body. rewrite tw_some. destruct body as [orgs|]; [|apply Hl'].
  rewrite tw_bind. change (match orgs with JList l => l | _ => [] end) with (json_list (Some orgs)).
  apply tw_search_alias; [|intros _; apply Hl'|intros; apply Hl']. intros org Hin Ha. rewrite tw_bind. destruct Ha as (f & -> & Ha).
  cbn [get]. rewrite tw_ret. destruct (lookup_field f "id") as [oid|] eqn:Hid; [|apply Hl']. cbn [present].
  destruct (truthy oid); [|apply Hl']. rewrite tw_bind. set (l1 := app l _) in *. set (r2 := sv l1 (AddMember oid id)).
  assert (ok (app l1 [(AddMember oid id, r2)])) as Hl2.
  { apply follows_snoc; [apply Hl'|]. split; [apply Hl'|]. split; [done|]. exists l, r, f. split; [done|].
    rewrite Hb. split; [done|]. split; [by exists f|done]. }
  apply tw_send; [|done]. fold r2. intros st2 re2 b2 d2 lo2 Hr2. cbn beta iota. destruct (_ && _) eqn:Hok; [done|].
  rewrite tw_ret. split; [done|]. exists oid, id, st2, re2, b2, d2, lo2. rewrite <-Hr2. split; [apply elem_of_app; right; left|].
  apply andb_false_iff in Hok as [Hok%Z.leb_gt|Hok%negb_false_iff%Z.eqb_eq]; [by left|by right].
Qed.

Lemma provision_account_spec :
  tw sv (provision_account email tenant_id role)
    (λ _ l, ok l ∧ (joined l ∨ no_account email tenant_id role l)) (λ _, ok) [].
Proof.
  unfold provision_account. rewrite tw_bind, tw_handled, tw_bind. unfold _get_admin_token. rewrite tw_bind. set (r := sv [] AdminToken).
  assert (ok [(AdminToken, r)]) as Hl by (apply (follows_snoc _ []); [apply follows_nil|done]).
  assert (∀ id, ¬ account [(AdminToken, r)] id) as Hno.
  { intros id (q & r' & Hin%list_elem_of_singleton & Hg). injection Hin as -> ->. exact Hg. }
  apply tw_send; [|done]. fold r. intros st re body d lo _. cbn [app]. cbn beta iota. destruct (300 <=? st); [done|]. rewrite tw_bind. unfold json_body.
  rewrite tw_some. destruct body as [j|]; [|done]. destruct j as [| | | | |f]; try done. cbn [item]. rewrite tw_some.
  destruct (lookup_field f "access_token"); [|done]. rewrite tw_ret, tw_bind.
  eapply tw_mono; [by apply find_or_create_spec| |done]. clear Hl Hno. intros o l [Hl Ho]. cbn beta.
  destruct (present o) as [id|]; [|rewrite tw_ret; by auto]. destruct Ho as [Ha Ht]. rewrite tw_bind.
  eapply tw_mono; [by apply (assign_group_spec id)| |done]. intros ? l' Hl'. cbn beta in *.
  eapply tw_mono; [by apply assign_organization_spec| |done]. intros ? l'' [H1 H2]. auto.
Qed.
End provisioning.

(** C27: the invitation of an address, whatever the identity server
    answers. The client only asks about that address, creates an account for
    it only after a search that shows nobody, and puts into a group or an
    organization only an account that a search for the address showed or
    that it has just created: the group has the name of the role or a path
    that ends in it, the organization has exactly the school's alias. When
    these steps end normally, the server has accepted the account as a
    member, or knew it for one, or has shown no account at all; when they
    fail, the request fails and nothing is written. *)
Theorem invited_account_joins_its_school (sv : server) (email tenant_id role inviter : string) (w : World) :
  let (l, outcome) := converse sv [] (provision_account email tenant_id role) in
  follows (invite_may email tenant_id role) l ∧
  match outcome with
  | inl _ => joined l ∨ no_account email tenant_id role l
  | inr _ => ∃ x, send_user_invitation (provision_user sv) email tenant_id role inviter w = (Raise x, w)
  end.
Proof.
  pose proof (provision_account_spec sv email tenant_id role) as H. unfold tw in H.
  destruct (converse sv [] (provision_account email tenant_id role)) as [l outcome] eqn:Hc. cbn in H.
  destruct outcome as [[]|e]; [done|]. split; [done|].
  assert (provision_user sv email tenant_id role = Some (exn_of e)) as Hp by (unfold provision_user; by rewrite Hc).
  assert (wp (send_user_invitation (provision_user sv) email tenant_id role inviter) (λ _ _, False) (λ _ w', w' = w) w) as Hw.
  { unfold send_user_invitation, get_invitation_by_email. rewrite Hp. wp_simpl. by case_match. }
  unfold wp in Hw. destruct (send_user_invitation _ _ _ _ _ w) as [[x|x] w']; [done|subst; by exists x].
Qed.

(** ** The organization of a new school *)
(** [create_keycloak_organization] as [AuthService.create_tenant] calls it. *)
Definition provision_organization (sv : server) (tenant_id name : string) : option exn :=
  match (converse sv [] (create_keycloak_organization tenant_id (Some name) [])).2 with inl _ => None | inr e => Some (exn_of e) end.

(** A school is opened only once the server has listed an organization of its
    alias; otherwise the request fails and nothing is written. *)
Theorem school_after_its_organization (sv : server) (tenant_id name : string) (w : World) :
  org_listed (converse sv [] (create_keycloak_organization tenant_id (Some name) [])).1 (str_lower (str_strip tenant_id)) ∨
  ∃ x, create_school (provision_organization sv) tenant_id name w = (Raise x, w).
Proof.
  set (tid := str_strip tenant_id). set (allowed := λ a n d, (a, n, d) = (tid, default tid (non_empty (Some name)), [] : list string)).
  pose proof (create_spec sv allowed tenant_id (Some name) [] [] eq_refl (follows_nil _)) as H. unfold tw in H.
  assert (∀ e, (converse sv [] (create_keycloak_organization tenant_id (Some name) [])).2 = inr e →
    create_school (provision_organization sv) tenant_id name w = (Raise (exn_of e), w)) as Hfail.
  { intros e He. unfold create_school, provision_organization. by rewrite He. }
  destruct (converse sv [] _) as [l [org|e]]; cbn in *; [left; apply H|right]. exists (exn_of e). by apply Hfail.
Qed.

(** ** Concrete servers *)
Definition group (id name path : string) (subs : list json) : json :=
  JObj [("id", JStr id); ("name", JStr name); ("path", JStr path); ("subGroups", JList subs)].
(** One school has groups; the other has an organization only. *)
Definition one_school_with_groups : server := λ l q,
  match q with
  | FindUser _ => accepted (JList [account "u" "ann@a.org"])
  | ListGroups => accepted (JList [group "g" "tenant_b" "/tenant_b" [group "gt" "teacher" "/tenant_b/teacher" []]])
  | ListOrganizations => accepted (JList [JObj [("id", JStr "o"); ("alias", JStr "tenant_a")]])
  | _ => two_accounts l q
  end.
(** The second path is the role alone: a path that ends in it, or a group of
    that name, may belong to another school. *)
Example group_of_another_school :
  sent one_school_with_groups (provision_account "ann@a.org" "tenant_a" "teacher") =
    [AdminToken; FindUser "ann@a.org"; ListGroups; ListGroups; JoinGroup (JStr "u") (JStr "gt"); ListOrganizations;
     AddMember (JStr "o") (JStr "u")].
Proof. reflexivity. Qed.

(** The search is not exact: the account of another address joins. *)
Definition similar_address : server := λ l q,
  match q with FindUser email => two_accounts l (SearchUsers email false) | ListGroups => accepted (JList []) | _ => two_accounts l q end.
Example account_of_another_address :
  sent similar_address (provision_account "ann@a.org" "school_a" "teacher") =
    [AdminToken; FindUser "ann@a.org"; ListGroups; ListGroups; ListOrganizations; AddMember (JStr "o1") (JStr "1")].
Proof. reflexivity. Qed.

(** No account can be created: the invitation succeeds all the same. *)
Definition creates_nothing : server := λ l q,
  match q with
  | FindUser _ => accepted (JList [])
  | CreateShell _ _ _ => Answered 500 "Internal Server Error" None "" None
  | _ => two_accounts l q
  end.
Example invited_without_account :
  provision_user creates_nothing "bob@a.org" "school_a" "teacher" = None ∧
  sent creates_nothing (provision_account "bob@a.org" "school_a" "teacher") =
    [AdminToken; FindUser "bob@a.org"; CreateShell "bob@a.org" "school_a" "teacher"; FindUser "bob@a.org"].
Proof. split; reflexivity. Qed.

(** The server is down; the school has no organization. *)
Example identity_server_down :
  provision_user (λ _ _, Unreachable "connection refused") "bob@a.org" "school_a" "teacher" =
    Some (HTTPException 502 "Keycloak administration service unavailable: connection refused").
Proof. reflexivity. Qed.
Example school_without_organization :
  (converse similar_address [] (_assign_user_organization (JStr "1") "tenant_a")).2 =
    inr (OtherError ("No Keycloak organization is aliased 'tenant_a'. A tenant without an organization cannot be resolved "
      +:+ "from a token; provision it via create_keycloak_organization before inviting users into it.")).
Proof. reflexivity. Qed.
